(* ===== verification/_CoqProject ===== *)
-Q . S2P
Prelude.v
StringUtil.v
CephTypes.v
ConfigFile.v
HostConfigs.v
TaskMachine.v
FlexUp.v
FileServer.v
CurlHttp.v
Mesos.v
Agent.v
HostInvariant.v
Cluster.v
Blocked.v
Liveness.v
Requests.v
Fairness.v
UnitTests.v
Framework.v
Executor.v
Shell.v
DiskExec.v
CephExec.v
DockerArgv.v
Distribution.v
Network.v
Protocol.v
Delivery.v
HealthyHost.v
Deployment.v
