(* ===== verification/Prelude.v ===== *)
(** * Ceph-on-Mesos: a verification development of the scheduler and executors

    The program runs a Ceph cluster on Mesos.  A _scheduler_ process receives
    resource offers and status reports from Mesos and flex-up requests over
    REST; it launches _disk executors_, which partition the raw devices of a
    host, and _Ceph executors_, each of which runs one MON, OSD or RADOSGW
    container.  The first MON hands out the OSD ids.  The parts talk through
    short texts: task data, labels, framework messages, report messages, JSON.

    ** Files, and the sources they model (paths under [src/src])

    - [Prelude] (this file): outcomes, the state-and-outcome monad [ST], loops,
      the inversion of runs that return, total correctness ([leads]), counting
      the values of a finite map.
    - [StringUtil]: [common/StringUtil.hpp] ([explode], its [char*] overload,
      [matchIPToCIDR]); the class [LexicalCast] of [boost::lexical_cast].
    - [CephTypes]: the enums ([common/TaskType.hpp], [state/Phase.hpp],
      [state/Status.hpp], [common/FrameworkMessage.hpp]), [struct Config],
      [state/TaskState.hpp]; the class [Indeterminate] of the values that
      uninitialized variables hold.
    - [ConfigFile]: [common/Config.cpp]; [gflags] as a record, the file system
      as a function, yaml-cpp as the class [Yaml].
    - [HostConfigs]: [state/HostConfig.hpp].
    - [TaskMachine]: [state/StateMachine.cpp], one function per method; the
      nine counters are three [Counters] records; pointers to host
      configurations are [HostRef]s; [HashOrder] is the iteration order of
      [boost::unordered_map].
    - [FlexUp]: [common/JsonUtil.hpp], [httpserver/RestServer.cpp],
      [scheduler/EventLoop.cpp] (the whole thread: opening the queue, the loop,
      its start and stop); jsoncpp and the Boost message queue are the classes
      [JsonCpp] and [MessageQueue].
    - [FileServer]: [httpserver/FileServer.cpp]; the file system and
      libmicrohttpd are the classes [FileSystem] and [Mhd].
    - [CurlHttp]: [common/CurlHttp.cpp], on the class [Libcurl].
    - [Mesos]: the protobuf messages, callbacks and driver calls used, resource
      arithmetic as the class [MesosResources], and [common/NetUtil.hpp].
    - [Agent]: [scheduler/CephSchedulerAgent.hpp], one [ST] method per callback
      and per private method; the driver calls are recorded in [ag_calls].
    - [HostInvariant]: what the handlers of [Agent] do to the host
      configurations, for any property the operations on a host keep.
    - [Cluster]: the scheduler as a transition system, whose steps are the
      callbacks of [Agent] that return and the requests taken by the event
      loop, in any order and with any contents; orderly and regular runs.
    - [Blocked]: OSDs that fail while they wait are never uncounted.
    - [Liveness]: regular runs can always go on until every request is served.
    - [Requests]: the way of a request for OSDs, from the chunks of its body to
      the OSDs that run; the life of the event loop.
    - [Fairness]: infinite runs of [Cluster], and what every fair one reaches.
    - [UnitTests]: the repository's tests ([tests]), run on the model.
    - [Framework]: [scheduler/CephScheduler.cpp] and [scheduler/main.cpp]; the
      runs of [framework] are runs of [Cluster].
    - [Executor]: [runShellCommand], and what both executors do to their host,
      as a trace of effects; the host's answers are the class [Host].
    - [Shell]: the shell behind [runShellCommand], as a class with the laws of
      the commands written; [MiniShell] has them.
    - [DiskExec]: [executor/DiskExecutor.cpp].
    - [CephExec]: [executor/CephExecutor.cpp], seen from the parent of [fork];
      [DockerArgv]: the argument vectors of the containers it starts;
      [Distribution]: the way of the configuration files from the host of the
      initial MON to the other hosts, through [Agent], [FileServer] and [CephExec].
    - [Network]: the whole system, a scheduler of [Cluster] and the executors of
      [DiskExec] and [CephExec], with the packets in transit, which are
      delivered in any order or lost; scripts that run it, among them a whole
      bootstrap on one host.
    - [Protocol]: in every reachable world of [Network] the packets are understood.
    - [Delivery]: the packets of a task come one at a time and fit its status, so
      that the scheduler's run is regular.
    - [HealthyHost]: hosts whose answers make the executors succeed;
      [Deployment]: the runs of [Liveness] in the worlds of [Network], on such a host.

    Code outside the repository is always a class with the operations the
    source calls and the documented laws it relies on; each class has a
    concrete instance ([DecimalCast], [FlatYaml], [SomeValues], [SomeOrder],
    [ToyJson], [ListQueue], [ScalarResources], [MiniShell], [SampleHost], [SampleCeph]) on
    which the witnesses of the theorems are evaluated.

    ** What the theorems show

    - Safety of the scheduler ([Cluster]): in every reachable state the slots,
      the pending requests, the phase, the task ids and the ranges of the
      counters are right ([reachable_...]); when every report is one
      [updateCounters] accounts for, the cluster never exceeds one MON, one
      RADOSGW and three OSDs plus those requested ([orderly_cluster_size]).
    - The whole system: the executors keep to the order the counters rely on, as
      long as no OSD fails after it asked for its id ([worlds_are_regular]); no
      message is misread, when names have no punctuation and [ceph osd create]
      prints a number ([packets_understood]); the scheduler process runs the
      transition system ([framework_refines_cluster]) and outlives it
      ([main_outlives_framework]).
    - Configuration: every file of the initial MON's host reaches the same place
      on every host whose directory is new or complete
      ([configuration_distributed]); a host whose directory is there but
      incomplete is lost ([config_dir_stuck]).
    - Liveness: from any state of a regular run, adequate offers bring the whole
      cluster up and every OSD asked for with it ([bootstrap_never_stuck]), and
      every run that is fair and in which nothing fails does ([fair_runs_serve]); so
      requests posted over REST are served ([posted_osds_run]); and with the
      executors of a healthy host the whole system, from its start, gets there
      by their own reports ([deployment_serves]).
    - Functional behaviour of the scheduler: [nextMove] refines a decision on
      numbers of tasks; every iteration of the offer loop is one of five exact
      steps; an adequate offer that [nextMove] accepts is launched on, with the
      labels and the message its type calls for; every offer is answered; the
      loop returns; OSD ids and requests are handed out exactly.
    - Round trips between the parts: task data, container names, disk labels,
      the launch of an OSD.
    - The event loop takes the requests in order, records those for OSDs and ends
      when it is told to ([event_loop_delivers]).
    - The executors: the commands run, the reports sent, the containers started,
      the loops that end and the one that does not.
    - The file server: no request leaks a file; nothing confines it to its root.
    - Where the code does not do what it means to, a theorem states what it
      does: [initial_mon_lost], [failed_osds_block_bootstrap],
      [disk_failures_not_delivered], [statusUpdate_dotted_hostname],
      [block_until_started_no_timeout], [recv_reads_stale_bytes] and others.

    ** Conventions, bounds and fuel

    A C++ [int] is a [Z]; [reachable_counters_in_range] bounds the counters, and
    [lexical_cast<int>] checks the 32-bit range.  Three loops take fuel:
    [explode_loop] and [read_loop], for which the length of the input is proved
    enough, and [poll_loop], whose fuel is a number of polls; [recv_loop] takes
    the turns of its thread.  [Blocked] means that the loop is still running
    after that many.  Reading out of range,
    dereferencing null, using an uninitialized pointer and dividing by zero are
    the outcome [Undef]; exceptions are [Throw].  Logging has no effect.

    ** Not modelled

    The child side of [fork] beyond the command it executes;
    destructors and memory management, except for the event loop's, the file
    server's files, its dangling path and the freed handle of [CurlHttp]; logging ([printCounters]);
    the data race on [pendingOSD], whose accesses are taken as atomic.  The
    threads are modelled by interleaving whole callbacks.  Mesos itself (the
    master, retries of reports, the restart of a slave) is only what [Network]
    says: packets may be lost or overtaken, not duplicated.

    ** Plan

    Next: [Deployment] on several hosts, and from worlds with packets in transit;
    the hosts of [HealthyHost] from the shell of [Shell], whose laws would have
    to grow by the commands of the disk executor. *)

From Stdlib Require Export Ascii.
From stdpp Require Export base tactics list strings gmap numbers list_numbers.
From Stdlib Require Export ZArith.
From Stdlib Require Import Lia.

#[export] Set Default Goal Selector "!".

Open Scope Z_scope.

(** ** Outcomes

    A C++ computation returns, throws an exception, reaches undefined behaviour
    (an out-of-range [operator[]], a null dereference, a division by zero), or
    is still waiting (for another thread, or in a loop that has not ended). *)

Inductive exn :=
  | BadLexicalCast
  | InvalidArgument (what : string)
  | YamlException
  | JsonException
  | InterprocessException
  | AbortCheck.

Inductive outcome (A : Type) :=
  | Ret (a : A)
  | Throw (e : exn)
  | Undef
  | Blocked.
Arguments Ret {A} a.
Arguments Throw {A} e.
Arguments Undef {A}.
Arguments Blocked {A}.

#[export] Instance exn_eq_dec : EqDecision exn.
Proof. solve_decision. Defined.
#[export] Instance outcome_eq_dec `{EqDecision A} : EqDecision (outcome A).
Proof. solve_decision. Defined.

#[export] Instance outcome_ret : MRet outcome := λ A a, Ret a.
#[export] Instance outcome_bind : MBind outcome := λ A B f m,
  match m with Ret a => f a | Throw e => Throw e | Undef => Undef | Blocked => Blocked end.

Lemma outcome_bind_Ret {A B} (m : outcome A) (f : A → outcome B) b :
  m ≫= f = Ret b ↔ ∃ a, m = Ret a ∧ f a = Ret b.
Proof. split; [destruct m; [by eexists|done..]|by intros (a & -> & E)]. Qed.

(** [v[i]] on a [std::vector]: undefined behaviour out of range. *)
Definition vec_at {A} (v : list A) (i : nat) : outcome A :=
  match v !! i with Some a => Ret a | None => Undef end.

Lemma vec_at_Ret {A} (v : list A) i a : vec_at v i = Ret a ↔ v !! i = Some a.
Proof. unfold vec_at. case_match; naive_solver. Qed.

(** ** State and outcome

    [ST S A] is a method of an object with state [S]: it returns the new state
    together with an outcome.  The state reached before an exception is kept,
    so that the effects performed before the failure stay visible. *)

Definition ST (S A : Type) : Type := S → S * outcome A.

#[export] Instance ST_ret S : MRet (ST S) := λ A a s, (s, Ret a).
#[export] Instance ST_bind S : MBind (ST S) := λ A B f m s,
  match m s with
  | (s', Ret a) => f a s'
  | (s', Throw e) => (s', Throw e)
  | (s', Undef) => (s', Undef)
  | (s', Blocked) => (s', Blocked)
  end.

Definition gets {S A} (f : S → A) : ST S A := λ s, (s, Ret (f s)).
Definition modify {S} (f : S → S) : ST S unit := λ s, (f s, Ret tt).
Definition lift {S A} (o : outcome A) : ST S A := λ s, (s, o).

(** [for (x : l) body(x)], threading the loop's local variables. *)
Fixpoint foreach {S A L} (l : list A) (body : L → A → ST S L) (acc : L) : ST S L :=
  match l with
  | [] => mret acc
  | x :: l' => acc' ← body acc x; foreach l' body acc'
  end.

(** ** Runs that return

    A run of a composed method that returns is a run of each of its parts that
    returns: [inv_run] applies the lemmas below to every such run in context. *)

Section Runs.
Context {S : Type}.

Lemma bind_Ret {A B} (m : ST S A) (f : A → ST S B) s s' b :
  (m ≫= f) s = (s', Ret b) → ∃ s1 a, m s = (s1, Ret a) ∧ f a s1 = (s', Ret b).
Proof.
  unfold mbind, ST_bind. destruct (m s) as [s1 [a|e| |]]; [|done..]. eauto.
Qed.

Lemma bind_eq {A B} (m : ST S A) (f : A → ST S B) s s1 a :
  m s = (s1, Ret a) → (m ≫= f) s = f a s1.
Proof. unfold mbind, ST_bind. by intros ->. Qed.

Lemma mret_Ret {A} (a b : A) (s s' : S) : (mret a : ST S A) s = (s', Ret b) → s' = s ∧ b = a.
Proof. unfold mret, ST_ret. naive_solver. Qed.
Lemma gets_Ret {A} (f : S → A) s s' b : gets f s = (s', Ret b) → s' = s ∧ b = f s.
Proof. unfold gets. naive_solver. Qed.
Lemma modify_Ret (f : S → S) s s' u : modify f s = (s', Ret u) → s' = f s.
Proof. unfold modify. naive_solver. Qed.
Lemma lift_Ret {A} (o : outcome A) (s s' : S) b : lift o s = (s', Ret b) → s' = s ∧ o = Ret b.
Proof. unfold lift. naive_solver. Qed.

(** A loop that returns, from a state satisfying [J], with each returning
    iteration keeping [J]. *)
Lemma foreach_Ret {A L} (J : L → S → Prop) (l : list A) (body : L → A → ST S L) acc s acc' s' :
  (∀ x acc s acc' s', x ∈ l → J acc s → body acc x s = (s', Ret acc') → J acc' s') →
  J acc s → foreach l body acc s = (s', Ret acc') → J acc' s'.
Proof.
  revert acc s. induction l as [|x l IH]; intros acc s Hb HJ; cbn [foreach].
  - by intros [-> ->]%mret_Ret.
  - intros (s1 & acc1 & H1 & H2)%bind_Ret. apply (IH acc1 s1); [| |done].
    + intros y a0 s0 a0' s0' Hy. apply Hb. by right.
    + apply (Hb x acc s); [by left|done|done].
Qed.
(** A loop over two lists is two loops. *)
Lemma foreach_app {A L} (l1 l2 : list A) (body : L → A → ST S L) acc s :
  foreach (l1 ++ l2) body acc s = (acc' ← foreach l1 body acc; foreach l2 body acc') s.
Proof.
  revert acc s. induction l1 as [|x l1 IH]; intros acc s; [done|]. cbn [foreach app].
  unfold mbind, ST_bind in *. destruct (body acc x s) as [s1 [acc1| | |]]; [|done..]. apply IH.
Qed.
End Runs.

Ltac inv_run_step :=
  match goal with
  | H : mbind _ _ _ = (_, Ret _) |- _ => apply bind_Ret in H as (? & ? & ? & H)
  | H : mret _ _ = (_, Ret _) |- _ => apply mret_Ret in H as [? ?]; subst
  | H : gets _ _ = (_, Ret _) |- _ => apply gets_Ret in H as [? ?]; subst
  | H : modify _ _ = (_, Ret _) |- _ => apply modify_Ret in H; subst
  | H : lift _ _ = (_, Ret _) |- _ => apply lift_Ret in H as [? ?]; subst
  end.
Ltac inv_run := repeat inv_run_step.

(** ** Total correctness

    [leads P m Q]: from a state that satisfies [P], [m] returns, with a result
    and a state that satisfy [Q]. *)

Definition leads {S A} (P : S → Prop) (m : ST S A) (Q : A → S → Prop) : Prop :=
  ∀ s, P s → ∃ s' a, m s = (s', Ret a) ∧ Q a s'.

Section Leads.
Context {S : Type}.
Implicit Types (P : S → Prop).

Lemma leads_bind {A B} P Q R (m : ST S A) (f : A → ST S B) :
  leads P m Q → (∀ a, leads (Q a) (f a) R) → leads P (m ≫= f) R.
Proof.
  intros Hm Hf s Hs. destruct (Hm s Hs) as (s1 & a & E & Ha). destruct (Hf a s1 Ha) as (s2 & b & E2 & Hb).
  exists s2, b. by rewrite (bind_eq _ _ _ _ _ E).
Qed.

Lemma leads_weaken {A} P P' Q Q' (m : ST S A) :
  (∀ s, P' s → P s) → (∀ a s, Q a s → Q' a s) → leads P m Q → leads P' m Q'.
Proof. intros HP HQ Hm s Hs%HP. destruct (Hm s Hs) as (s' & a & E & Ha). exists s', a. auto. Qed.

(** A known result. *)
Lemma leads_bind_eq {A B} P Q R (m : ST S A) (f : A → ST S B) v :
  leads P m (λ a s, Q s ∧ a = v) → leads Q (f v) R → leads P (m ≫= f) R.
Proof. intros Hm Hf. eapply leads_bind; [exact Hm|]. intros a s [Hs ->]. by apply Hf. Qed.

(** A fact that every state gives. *)
Lemma leads_use {A} (F : Prop) P Q (m : ST S A) : (∀ s, P s → F) → (F → leads P m Q) → leads P m Q.
Proof. intros HF Hm s Hs. by apply Hm; [eapply HF|]. Qed.

Lemma leads_mret {A} P Q (a : A) : (∀ s, P s → Q a s) → leads P (mret a) Q.
Proof. intros HQ s Hs. exists s, a. auto. Qed.
Lemma leads_gets {A} P (f : S → A) (F : A → Prop) : (∀ s, P s → F (f s)) → leads P (gets f) (λ a s, P s ∧ F a).
Proof. intros HF s Hs. exists s, (f s). auto. Qed.
Lemma leads_modify P Q (f : S → S) : (∀ s, P s → Q tt (f s)) → leads P (modify f) Q.
Proof. intros HQ s Hs. exists (f s), tt. auto. Qed.
Lemma leads_lift {A} P (o : outcome A) a : o = Ret a → leads P (lift o) (λ b s, P s ∧ b = a).
Proof. intros -> s Hs. by exists s, a. Qed.
Lemma leads_foreach {A} P (l : list A) (body : unit → A → ST S unit) :
  Forall (λ x, leads P (body tt x) (λ _, P)) l → leads P (foreach l body tt) (λ _, P).
Proof.
  induction 1 as [|x l Hx _ IH]; cbn [foreach]; [by apply leads_mret|].
  apply (leads_bind _ (λ _, P)); [done|]. by intros [].
Qed.
End Leads.

(** ** Invariants of methods

    [keeps J m]: [m] leaves a state that satisfies [J] whatever its outcome. *)

Definition keeps {S A} (J : S → Prop) (m : ST S A) : Prop := ∀ s, J s → J (m s).1.

Section Keeps.
Context {S : Type} (J : S → Prop).

Lemma keeps_bind {A B} (m : ST S A) (f : A → ST S B) :
  keeps J m → (∀ a, keeps J (f a)) → keeps J (m ≫= f).
Proof.
  intros Hm Hf s Hs. apply Hm in Hs. unfold mbind, ST_bind. destruct (m s) as [s1 [a| | |]]; try done.
  by apply Hf.
Qed.

(** A value read from the state, with what the invariant says of it. *)
Lemma keeps_gets_bind {A B} (f : S → A) (k : A → ST S B) (P : A → Prop) :
  (∀ s, J s → P (f s)) → (∀ a, P a → keeps J (k a)) → keeps J (gets f ≫= k).
Proof. intros HP Hk s Hs. apply (Hk (f s)); auto. Qed.

Lemma keeps_mret {A} (a : A) : keeps J (mret a).
Proof. by intros s Hs. Qed.
Lemma keeps_gets {A} (f : S → A) : keeps J (gets f).
Proof. by intros s Hs. Qed.
Lemma keeps_lift {A} (o : outcome A) : keeps J (lift o).
Proof. by intros s Hs. Qed.
Lemma keeps_modify (f : S → S) : (∀ s, J s → J (f s)) → keeps J (modify f).
Proof. intros Hf s Hs. by apply Hf. Qed.
Lemma keeps_foreach {A L} (l : list A) (body : L → A → ST S L) acc :
  Forall (λ x, ∀ acc, keeps J (body acc x)) l → keeps J (foreach l body acc).
Proof.
  intros Hl. revert acc. induction Hl as [|x l Hx _ IH]; intros acc; cbn [foreach];
    [apply keeps_mret|by apply keeps_bind].
Qed.
Lemma keeps_Ret {A} (m : ST S A) s s' o : keeps J m → J s → m s = (s', o) → J s'.
Proof. intros Hm Hs E. specialize (Hm s Hs). by rewrite E in Hm. Qed.
Lemma leads_keeps {A} P Q (m : ST S A) :
  keeps J m → leads P m Q → leads (λ s, J s ∧ P s) m (λ a s, J s ∧ Q a s).
Proof.
  intros Hk Hm s [HJ HP]. destruct (Hm s HP) as (s' & a & E & Ha). exists s', a. eauto using keeps_Ret.
Qed.
End Keeps.

Create HintDb keeps discriminated.
#[export] Hint Resolve keeps_mret keeps_gets keeps_lift : keeps.

(** Walk down a method, splitting its conditionals. *)
Ltac keeps_step :=
  match goal with
  | |- keeps _ (_ ≫= _) => apply keeps_bind; [|intros ?]
  | |- keeps _ (if ?b then _ else _) => destruct b
  | |- keeps _ (match ?x with _ => _ end) => destruct x
  | |- keeps _ _ => solve [auto with keeps]
  end; cbn zeta.
Ltac keeps_auto := cbn zeta; repeat keeps_step.

(** [no_failure m]: [m] returns or blocks, but neither throws nor is undefined. *)
Definition no_failure {S A} (m : ST S A) : Prop :=
  ∀ s, match (m s).2 with Ret _ | Blocked => True | Throw _ | Undef => False end.

Section NoFailure.
Context {S : Type}.

Lemma no_failure_bind {A B} (m : ST S A) (f : A → ST S B) :
  no_failure m → (∀ a, no_failure (f a)) → no_failure (m ≫= f).
Proof.
  intros Hm Hf s. specialize (Hm s). unfold mbind, ST_bind.
  destruct (m s) as [s1 [a| | |]]; try done. apply Hf.
Qed.
Lemma no_failure_mret {A} (a : A) : no_failure (mret a : ST S A).
Proof. done. Qed.
Lemma no_failure_gets {A} (f : S → A) : no_failure (gets f).
Proof. done. Qed.
Lemma no_failure_modify (f : S → S) : no_failure (modify f).
Proof. done. Qed.
Lemma no_failure_lift {A} (a : A) (o : outcome A) : o = Ret a → no_failure (lift o : ST S A).
Proof. by intros -> s. Qed.
Lemma no_failure_blocked {A} : no_failure (lift Blocked : ST S A).
Proof. done. Qed.
End NoFailure.

Create HintDb no_failure discriminated.
#[export] Hint Resolve no_failure_mret no_failure_gets no_failure_modify no_failure_blocked : no_failure.

Ltac no_failure_step :=
  match goal with
  | |- no_failure (_ ≫= _) => apply no_failure_bind; [|intros ?]
  | |- no_failure (if ?b then _ else _) => destruct b
  | |- no_failure (match ?x with _ => _ end) => destruct x
  | |- no_failure _ => solve [auto with no_failure]
  end; cbn zeta.
Ltac no_failure_auto := cbn zeta; repeat no_failure_step.

(** ** Counting the values of a finite map *)

Section CountMap.
Context `{Countable K} {A : Type}.
Implicit Types (m : gmap K A) (P : A → bool).

Definition count_map P m : Z := Z.of_nat (size (filter (λ kx, P kx.2 = true) m)).

Lemma count_map_empty P : count_map P ∅ = 0.
Proof. unfold count_map. by rewrite map_filter_empty, map_size_empty. Qed.

Lemma count_map_nonneg P m : 0 ≤ count_map P m.
Proof. unfold count_map. lia. Qed.

Lemma count_map_insert_new P m k x :
  m !! k = None → count_map P (<[k := x]> m) = count_map P m + Z.b2z (P x).
Proof.
  intros Hk. unfold count_map. destruct (P x) eqn:E.
  - rewrite map_filter_insert_True by done.
    rewrite map_size_insert_None by (apply map_lookup_filter_None; by left). cbn. lia.
  - rewrite map_filter_insert_False by (cbn; congruence). rewrite delete_id by done. cbn. lia.
Qed.

Lemma count_map_insert_update P m k x y :
  m !! k = Some x →
  count_map P (<[k := y]> m) = count_map P m - Z.b2z (P x) + Z.b2z (P y).
Proof.
  intros Hk. rewrite <- (insert_delete_id m k x Hk) at 2. rewrite <- insert_delete_eq.
  rewrite !count_map_insert_new by apply lookup_delete_eq. lia.
Qed.

Lemma count_map_ext P m m' : (∀ k, P <$> m' !! k = P <$> m !! k) → count_map P m' = count_map P m.
Proof.
  intros Hm. unfold count_map. f_equal. rewrite <- !(size_dom (D := gset _)). f_equal. apply set_eq. intros k.
  rewrite !elem_of_dom, !map_lookup_filter. specialize (Hm k).
  destruct (m !! k) as [x|], (m' !! k) as [y|]; cbn in *; try done. injection Hm as Hxy.
  cbn. case_guard; case_guard; cbn in *; try done; congruence.
Qed.

Lemma count_map_zero P m : (∀ k x, m !! k = Some x → P x = false) → count_map P m = 0.
Proof.
  intros Hm. unfold count_map. rewrite map_empty_filter_2, map_size_empty; [done|].
  intros k x Hk Hx. cbn in Hx. rewrite (Hm k x Hk) in Hx. done.
Qed.

Lemma count_map_exists P m k x : m !! k = Some x → P x = true → 0 < count_map P m.
Proof.
  intros Hk Hx. rewrite <- (insert_delete_id m k x Hk).
  rewrite count_map_insert_new by apply lookup_delete_eq. rewrite Hx.
  pose proof (count_map_nonneg P (delete k m)). cbn. lia.
Qed.
End CountMap.
