(* ===== verification/StringUtil.v ===== *)
(** * Strings: [common/StringUtil.hpp] and [boost::lexical_cast]

    [explode] is translated loop for loop ([std::getline] on an
    [istringstream]); [split_ref] is the structural reference it is proved
    equal to.  [lexical_cast] is Boost's: it is a class of two operations with
    the laws its documentation gives, and one concrete decimal instance. *)

From S2P Require Import Prelude.
From Stdlib Require DecimalString DecimalZ DecimalPos.

Open Scope Z_scope.

(** ** Characters of a string *)

Lemma str_app_cons c (s1 s2 : string) : String c s1 +:+ s2 = String c (s1 +:+ s2).
Proof. done. Qed.

Lemma str_app_nil_l (s : string) : "" +:+ s = s.
Proof. done. Qed.

Create Rewrite HintDb str.
#[export] Hint Rewrite str_app_cons str_app_nil_l : str.
(** stdpp keeps [+:+] from reducing: [scbn] does so at the constructors. *)
Ltac scbn := repeat (progress (cbn; autorewrite with str)).

Fixpoint string_all (p : ascii → bool) (s : string) : bool :=
  match s with
  | "" => true
  | String c s' => p c && string_all p s'
  end.

(** [lacks d s]: the character [d] does not occur in [s]. *)
Definition lacks (d : ascii) (s : string) : bool := string_all (λ c, negb (Ascii.eqb c d)) s.

(** A name that survives the punctuation of the messages. *)
Definition clean_name (s : string) : bool := lacks "." s && lacks ":" s.

Lemma string_all_app p s1 s2 : string_all p (s1 +:+ s2) = string_all p s1 && string_all p s2.
Proof. induction s1 as [|c s1 IH]; [done|]. scbn. by rewrite IH, andb_assoc. Qed.

Lemma string_all_impl (p q : ascii → bool) s :
  (∀ c, p c = true → q c = true) → string_all p s = true → string_all q s = true.
Proof.
  intros Hpq. induction s as [|c s IH]; [done|]. cbn.
  rewrite !andb_true_iff. intros [Hc Hs]. auto.
Qed.

Lemma lacks_app d s1 s2 : lacks d (s1 +:+ s2) = lacks d s1 && lacks d s2.
Proof. apply string_all_app. Qed.

Lemma lacks_cons d c s : lacks d (String c s) = negb (Ascii.eqb c d) && lacks d s.
Proof. done. Qed.

Lemma str_app_assoc (s1 s2 s3 : string) : s1 +:+ (s2 +:+ s3) = (s1 +:+ s2) +:+ s3.
Proof. induction s1 as [|c s1 IH]; [done|]. scbn. by f_equal. Qed.

Lemma str_app_nil_r (s : string) : s +:+ "" = s.
Proof. induction s as [|c s IH]; [done|]. scbn. by f_equal. Qed.

Lemma str_length_app (s1 s2 : string) :
  String.length (s1 +:+ s2) = (String.length s1 + String.length s2)%nat.
Proof. induction s1 as [|c s1 IH]; [done|]. scbn. by rewrite IH. Qed.

(** Append to the right of constructors and of other appends. *)
Ltac str_norm := repeat (rewrite str_app_cons || rewrite str_app_nil_l || rewrite <- str_app_assoc).

(** Cancelling a common prefix, and splitting at the first delimiter. *)
Lemma split_unique d (a a' s s' : string) :
  lacks d a = true → lacks d a' = true →
  a +:+ String d s = a' +:+ String d s' → a = a' ∧ s = s'.
Proof.
  revert a'. induction a as [|c a IH]; intros [|c' a'] Ha Ha'; scbn.
  - by intros [= ->].
  - intros [= <- _]. cbn in Ha'. by rewrite Ascii.eqb_refl in Ha'.
  - intros [= -> _]. cbn in Ha. by rewrite Ascii.eqb_refl in Ha.
  - cbn in Ha, Ha'. apply andb_true_iff in Ha as [_ Ha], Ha' as [_ Ha'].
    intros [= <- H]. destruct (IH a' Ha Ha' H) as [-> ->]. done.
Qed.

(** ** [std::getline] and [explode] *)

(** The characters before the first [delim], and what follows it ([None] when
    the end of the stream was met first). *)
Fixpoint getline (s : string) (delim : ascii) : string * option string :=
  match s with
  | "" => ("", None)
  | String c s' =>
      if Ascii.eqb c delim then ("", Some s')
      else let '(tok, rest) := getline s' delim in (String c tok, rest)
  end.

(** The [for] loop of [explode].  [iss] is what is left of the stream, [None]
    once its end was reached; extraction fails when nothing is left. *)
Fixpoint explode_loop (fuel : nat) (iss : option string) (delim : ascii)
    (r : list string) : option (list string) :=
  match iss with
  | None | Some "" => Some r
  | Some s =>
      match fuel with
      | O => None
      | S fuel' =>
          let '(token, rest) := getline s delim in
          explode_loop fuel' rest delim (r ++ [token])
      end
  end.

Definition explode (s : string) (delim : ascii) : list string :=
  default [] (explode_loop (String.length s) (Some s) delim []).

(** The reference: cut at every delimiter, a last empty token dropped. *)
Fixpoint split_ref (s : string) (delim : ascii) : list string :=
  match s with
  | "" => []
  | String c s' =>
      if Ascii.eqb c delim then "" :: split_ref s' delim
      else match split_ref s' delim with
           | [] => [String c ""]
           | t :: ts => String c t :: ts
           end
  end.

Definition opt_split (iss : option string) (delim : ascii) : list string :=
  match iss with None => [] | Some s => split_ref s delim end.

Lemma getline_rest s delim tok rest :
  getline s delim = (tok, Some rest) → (String.length rest < String.length s)%nat.
Proof.
  revert tok rest. induction s as [|c s IH]; intros tok rest; cbn; [done|].
  destruct (Ascii.eqb c delim); [naive_solver lia|].
  destruct (getline s delim) as [t r] eqn:E. intros [= <- ->].
  specialize (IH _ _ eq_refl). lia.
Qed.

Lemma getline_split c s delim :
  split_ref (String c s) delim =
  (getline (String c s) delim).1 :: opt_split (getline (String c s) delim).2 delim.
Proof.
  revert c. induction s as [|c' s IH]; intros c.
  - cbn. by destruct (Ascii.eqb c delim).
  - change (split_ref (String c (String c' s)) delim) with
      (if Ascii.eqb c delim then "" :: split_ref (String c' s) delim
       else match split_ref (String c' s) delim with
            | [] => [String c ""] | t :: ts => String c t :: ts end).
    change (getline (String c (String c' s)) delim) with
      (if Ascii.eqb c delim then ("", Some (String c' s))
       else let '(tok, rest) := getline (String c' s) delim in (String c tok, rest)).
    destruct (Ascii.eqb c delim); [done|].
    rewrite IH. by destruct (getline (String c' s) delim).
Qed.

(** Enough fuel: the loop runs at most once per character. *)
Lemma explode_loop_split fuel iss delim r :
  (match iss with None => True | Some s => (String.length s ≤ fuel)%nat end) →
  explode_loop fuel iss delim r = Some (r ++ opt_split iss delim).
Proof.
  revert iss r. induction fuel as [|fuel IH]; intros [[|c s]|] r Hf; cbn [explode_loop].
  - cbn. by rewrite app_nil_r.
  - cbn in Hf. lia.
  - cbn. by rewrite app_nil_r.
  - cbn. by rewrite app_nil_r.
  - cbn [opt_split]. rewrite getline_split.
    destruct (getline (String c s) delim) as [tok rest] eqn:E. cbn.
    rewrite IH.
    + by rewrite <- app_assoc.
    + destruct rest as [s'|]; [|done]. apply getline_rest in E. lia.
  - cbn. by rewrite app_nil_r.
Qed.

Lemma explode_split s delim : explode s delim = split_ref s delim.
Proof. unfold explode. by rewrite explode_loop_split. Qed.

(** ** Tokens of concatenations *)

Lemma explode_nil d : explode "" d = [].
Proof. done. Qed.

Lemma explode_delim d a s :
  lacks d a = true → explode (a +:+ String d s) d = a :: explode s d.
Proof.
  rewrite !explode_split. induction a as [|c a IH]; scbn.
  - by rewrite Ascii.eqb_refl.
  - intros [Hc Ha]%andb_true_iff. apply negb_true_iff in Hc. rewrite Hc.
    by rewrite (IH Ha).
Qed.

Lemma explode_last d a : lacks d a = true → a ≠ "" → explode a d = [a].
Proof.
  rewrite explode_split. induction a as [|c a IH]; [done|]. cbn.
  intros [Hc Ha]%andb_true_iff _. apply negb_true_iff in Hc. rewrite Hc.
  destruct a as [|c' a]; [done|]. by rewrite IH.
Qed.

(** [join d l]: [l] printed with [d] after every element. *)
Fixpoint terminate_all (d : ascii) (l : list string) : string :=
  match l with
  | [] => ""
  | t :: l' => t +:+ String d (terminate_all d l')
  end.

Lemma explode_terminate_all d l :
  Forall (λ t, lacks d t = true) l → explode (terminate_all d l) d = l.
Proof.
  induction 1 as [|t l Ht Hl IH]; [done|]. cbn [terminate_all].
  by rewrite explode_delim, IH.
Qed.

Create Rewrite HintDb lacks.
#[export] Hint Rewrite lacks_app lacks_cons andb_true_iff : lacks.

(** ** [boost::lexical_cast] between integers and strings *)

Definition int_range (z : Z) : Prop := - 2 ^ 31 ≤ z < 2 ^ 31.
#[export] Instance int_range_dec z : Decision (int_range z).
Proof. unfold int_range. apply _. Defined.

Definition decimal_char (c : ascii) : bool :=
  match Ascii.is_nat c with Some _ => true | None => Ascii.eqb c "-" end.

(** The decimal notation of a number below 100. *)
Definition digit (d : Z) : ascii := Ascii.ascii_of_nat (48 + Z.to_nat d).
Definition small_decimal (n : Z) : string :=
  if n <? 10 then String (digit n) "" else String (digit (n / 10)) (String (digit (n mod 10)) "").

(** [lexical_cast<string>(n)] prints [n] in decimal; [lexical_cast<int>(s)]
    throws [bad_lexical_cast] unless the whole of [s] is an [int]. *)
Class LexicalCast := {
  lexical_to_string : Z → string;
  lexical_to_int : string → outcome Z;
  lexical_roundtrip z : int_range z → lexical_to_int (lexical_to_string z) = Ret z;
  lexical_chars z : string_all decimal_char (lexical_to_string z) = true;
  lexical_nonempty z : lexical_to_string z ≠ "";
  lexical_inj : Inj (=) (=) lexical_to_string;
  lexical_small n : 0 ≤ n < 100 → lexical_to_string n = small_decimal n;
}.
#[export] Existing Instance lexical_inj.

Section LexicalFacts.
Context `{LexicalCast}.

Lemma lexical_lacks d z : decimal_char d = false → lacks d (lexical_to_string z) = true.
Proof.
  intros Hd. apply (string_all_impl decimal_char); [|apply lexical_chars].
  intros c Hc. apply negb_true_iff, Ascii.eqb_neq. congruence.
Qed.
End LexicalFacts.

(** A concrete decimal instance. *)
Module DecimalCast.
Definition to_string (z : Z) : string := DecimalString.NilZero.string_of_int (Z.to_int z).
Definition to_int (s : string) : outcome Z :=
  match DecimalString.NilZero.int_of_string s with
  | Some i => if decide (int_range (Z.of_int i)) then Ret (Z.of_int i) else Throw BadLexicalCast
  | None => Throw BadLexicalCast
  end.

Lemma to_string_inv z : DecimalString.NilZero.int_of_string (to_string z) = Some (Z.to_int z).
Proof.
  unfold to_string. destruct z as [|p|p]; [done| |]; cbn.
  - apply (DecimalString.NilZero.isi (Decimal.Pos (Pos.to_uint p))); [|done].
    intros [= E]. by apply (DecimalPos.Unsigned.to_uint_nonnil p).
  - apply (DecimalString.NilZero.isi (Decimal.Neg (Pos.to_uint p))); [done|].
    intros [= E]. by apply (DecimalPos.Unsigned.to_uint_nonnil p).
Qed.

Lemma to_string_inj z z' : to_string z = to_string z' → z = z'.
Proof.
  intros E. pose proof (to_string_inv z) as H1. rewrite E, to_string_inv in H1.
  injection H1 as H1. by apply DecimalZ.to_int_inj.
Qed.

Lemma uint_chars (u : Decimal.uint) :
  string_all decimal_char (DecimalString.NilEmpty.string_of_uint u) = true.
Proof. by induction u. Qed.

Lemma uint_chars_zero (u : Decimal.uint) :
  string_all decimal_char (DecimalString.NilZero.string_of_uint u) = true.
Proof. destruct u; [done|apply (uint_chars (_ u))..]. Qed.

#[refine] Instance cast : LexicalCast := {|
  lexical_to_string := to_string;
  lexical_to_int := to_int;
|}.
Proof.
  - intros z Hz. unfold to_int. rewrite to_string_inv, DecimalZ.of_to.
    by rewrite decide_True.
  - intros z. unfold to_string. destruct (Z.to_int z) as [u|u]; cbn; apply uint_chars_zero.
  - intros z E. pose proof (to_string_inv z) as H. by rewrite E in H.
  - intros z z'. apply to_string_inj.
  - assert (Hall : forallb (λ n, String.eqb (to_string n) (small_decimal n)) (seqZ 0 100) = true)
      by (vm_compute; done).
    intros n Hn. rewrite List.forallb_forall in Hall. apply String.eqb_eq, Hall.
    apply list_elem_of_In, elem_of_seqZ. lia.
Defined.
End DecimalCast.

(** Evaluate the closed powers of a goal, for [lia]. *)
Ltac compute_pow :=
  repeat match goal with
  | |- context [Z.pow ?b ?e] => let v := eval vm_compute in (Z.pow b e) in change (Z.pow b e) with v
  end.

(** ** The [char*] overload of [explode], and [matchIPToCIDR] *)

(** [std::strcpy] of [token.c_str()]: the characters before the first NUL. *)
Fixpoint c_str (s : string) : string :=
  match s with
  | "" => ""
  | String c s' => if Ascii.eqb c Ascii.zero then "" else String c (c_str s')
  end.

Definition explode_argv (s : string) (delim : ascii) : list string := c_str <$> explode s delim.

Section MatchIPToCIDR.
Context `{LexicalCast}.

(** The [for] loop, [n] iterations left, from octet [i]. *)
Fixpoint cidr_loop (n i : nat) (ipTokens subnetTokens : list string) : outcome bool :=
  match n with
  | O => Ret true
  | S n' =>
      a ← vec_at ipTokens i;
      b ← vec_at subnetTokens i;
      if decide (a = b) then cidr_loop n' (S i) ipTokens subnetTokens else Ret false
  end.

Definition matchIPToCIDR (ip CIDR : string) : outcome bool :=
  let ipTokens := explode ip "." in
  let tmpTokens := explode CIDR "/" in
  subnet ← vec_at tmpTokens 0;
  let subnetTokens := explode subnet "." in
  maskStr ← vec_at tmpTokens 1;
  netmaskLength ← lexical_to_int maskStr;
  cidr_loop (Z.to_nat (Z.quot netmaskLength 8)) 0 ipTokens subnetTokens.

(** Dotted quads, their 32-bit value, and membership in a CIDR block. *)
Record quad := Quad { q0 : Z; q1 : Z; q2 : Z; q3 : Z }.
Definition octet (z : Z) : Prop := 0 ≤ z < 256.
Definition quad_ok (q : quad) : Prop := octet (q0 q) ∧ octet (q1 q) ∧ octet (q2 q) ∧ octet (q3 q).
Definition dotted (q : quad) : string :=
  lexical_to_string (q0 q) +:+ String "." (lexical_to_string (q1 q) +:+ String "."
    (lexical_to_string (q2 q) +:+ String "." (lexical_to_string (q3 q)))).
Definition cidr (q : quad) (mask : Z) : string := dotted q +:+ String "/" (lexical_to_string mask).
Definition ipv4 (q : quad) : Z := q0 q * 2 ^ 24 + q1 q * 2 ^ 16 + q2 q * 2 ^ 8 + q3 q.
Definition in_block (q net : quad) (mask : Z) : bool :=
  Z.shiftr (ipv4 q) (32 - mask) =? Z.shiftr (ipv4 net) (32 - mask).

Lemma explode_pair a b :
  explode (lexical_to_string a +:+ "." +:+ lexical_to_string b) "." = [lexical_to_string a; lexical_to_string b].
Proof.
  rewrite !str_app_cons, !str_app_nil_l, explode_delim by by apply lexical_lacks.
  by rewrite explode_last by (apply lexical_nonempty || by apply lexical_lacks).
Qed.

Lemma explode_dotted q :
  explode (dotted q) "." = lexical_to_string <$> [q0 q; q1 q; q2 q; q3 q].
Proof.
  unfold dotted. rewrite !explode_delim by (by apply lexical_lacks).
  rewrite explode_last by (apply lexical_nonempty || by apply lexical_lacks). done.
Qed.

Lemma explode_cidr q mask : explode (cidr q mask) "/" = [dotted q; lexical_to_string mask].
Proof.
  unfold cidr. rewrite explode_delim.
  - rewrite explode_last by (apply lexical_nonempty || by apply lexical_lacks). done.
  - unfold dotted. autorewrite with lacks. by rewrite !lexical_lacks.
Qed.

Lemma lexical_eq_decide {A} (z z' : Z) (x y : A) :
  (if decide (lexical_to_string z = lexical_to_string z') then x else y) =
  if z =? z' then x else y.
Proof.
  case_decide as E; [apply (inj lexical_to_string) in E; subst; by rewrite Z.eqb_refl|].
  by destruct (Z.eqb_spec z z') as [->|].
Qed.

Lemma ipv4_shift q net k :
  quad_ok q → quad_ok net → (k ≤ 4)%nat →
  in_block q net (8 * Z.of_nat k) =
  forallb (λ p, p.1 =? p.2) (take k [(q0 q, q0 net); (q1 q, q1 net); (q2 q, q2 net); (q3 q, q3 net)]).
Proof.
  unfold quad_ok, octet, in_block, ipv4. intros Hq Hn Hk.
  rewrite !Z.shiftr_div_pow2 by lia.
  apply eq_true_iff_eq. rewrite Z.eqb_eq.
  destruct k as [|[|[|[|[|]]]]]; [..|lia]; cbn [take forallb fst snd];
    rewrite ?andb_true_r, ?andb_true_iff, ?Z.eqb_eq; compute_pow.
  1: { split; [done|]. intros _. rewrite !Z.div_small; lia. }
  all: split; intros; Z.to_euclidean_division_equations; lia.
Qed.

(** What the loop computes: membership for the mask rounded down to whole octets. *)
Lemma match_cidr_octets q net mask :
  quad_ok q → quad_ok net → 0 ≤ mask ≤ 32 →
  matchIPToCIDR (dotted q) (cidr net mask) = Ret (in_block q net (8 * (mask / 8))).
Proof.
  intros Hq Hn Hm. unfold matchIPToCIDR. rewrite explode_cidr. cbn -[explode cidr_loop].
  rewrite lexical_roundtrip by (unfold int_range; lia). cbn -[explode cidr_loop].
  rewrite !explode_dotted, Z.quot_div_nonneg by lia.
  rewrite <- (Z2Nat.id (mask / 8)) at 2 by (apply Z.div_pos; lia).
  assert (Hk : (Z.to_nat (mask / 8) ≤ 4)%nat) by (apply Nat2Z.inj_le; rewrite Z2Nat.id; [apply Z.div_le_upper_bound|apply Z.div_pos]; lia).
  rewrite ipv4_shift by done.
  destruct (Z.to_nat (mask / 8)) as [|[|[|[|[|]]]]]; [..|lia];
    cbn; rewrite ?lexical_eq_decide;
    repeat (match goal with |- context [?a =? ?b] => destruct (a =? b) end; cbn); done.
Qed.
End MatchIPToCIDR.

(** ** C strings *)

Lemma c_str_lacks s : lacks Ascii.zero (c_str s) = true.
Proof.
  induction s as [|c s IH]; [done|]. cbn. destruct (Ascii.eqb c Ascii.zero) eqn:E; [done|].
  cbn. rewrite E. exact IH.
Qed.

Lemma c_str_nul s t : lacks Ascii.zero s = true → c_str (s +:+ String Ascii.zero t) = s.
Proof.
  induction s as [|c s IH]; scbn; [done|]. intros [Hc Hs]%andb_true_iff.
  apply negb_true_iff in Hc. by rewrite Hc, IH.
Qed.

Lemma c_str_id s : lacks Ascii.zero s = true → c_str s = s.
Proof.
  induction s as [|c s IH]; scbn; [done|]. intros [Hc Hs]%andb_true_iff.
  apply negb_true_iff in Hc. by rewrite Hc, IH.
Qed.

Lemma c_str_idemp s : c_str (c_str s) = c_str s.
Proof. apply c_str_id, c_str_lacks. Qed.

Lemma c_str_app s t : lacks Ascii.zero s = true → c_str (s +:+ t) = s +:+ c_str t.
Proof.
  induction s as [|c s IH]; scbn; [done|]. intros [Hc Hs]%andb_true_iff.
  apply negb_true_iff in Hc. by rewrite Hc, IH.
Qed.

(** ** Properties *)

(** C40. The [getline] loop of [explode] always finishes, after at most one
    iteration per character, and computes the structural split: the string is
    cut at every delimiter and a last empty token is dropped. *)
Theorem explode_loop_total : ∀ (s : string) (delim : ascii) (fuel : nat),
  (String.length s ≤ fuel)%nat → explode_loop fuel (Some s) delim [] = Some (split_ref s delim).
Proof. intros s delim fuel Hf. by rewrite explode_loop_split. Qed.

Lemma explode_loop_total_witness :
  explode_loop 3 (Some "a.b") "." [] = Some ["a"; "b"].
Proof. exact (explode_loop_total "a.b" "." 3 (le_n 3)). Defined.

(** For a dotted quad and a CIDR block of any mask length from 0 to 32,
    [matchIPToCIDR] returns without failing, and what it tests is membership in
    the block whose mask is rounded down to whole octets; it agrees with CIDR
    membership exactly when the mask is a multiple of 8, and it never rejects a
    member of the block. *)
Lemma matchIPToCIDR_octets `{LexicalCast} (q net : quad) (mask : Z) :
  quad_ok q → quad_ok net → 0 ≤ mask ≤ 32 →
  matchIPToCIDR (dotted q) (cidr net mask) = Ret (in_block q net (8 * (mask / 8))) ∧
  (mask mod 8 = 0 → matchIPToCIDR (dotted q) (cidr net mask) = Ret (in_block q net mask)) ∧
  (in_block q net mask = true → matchIPToCIDR (dotted q) (cidr net mask) = Ret true).
Proof.
  intros Hq Hn Hm. rewrite match_cidr_octets by done.
  assert (Hd : mask = 8 * (mask / 8) + mask mod 8) by (apply Z.div_mod; lia).
  split; [done|]. split.
  - intros E. do 2 f_equal. lia.
  - intros Hb. f_equal. unfold in_block in *. rewrite Z.eqb_eq in *.
    replace (32 - 8 * (mask / 8)) with ((32 - mask) + mask mod 8) by lia.
    pose proof (Z.mod_pos_bound mask 8 ltac:(lia)).
    rewrite <- !Z.shiftr_shiftr by lia. congruence.
Qed.

Lemma matchIPToCIDR_octets_witness :
  matchIPToCIDR (H := DecimalCast.cast)
    (dotted (H := DecimalCast.cast) (Quad 192 168 7 1))
    (cidr (H := DecimalCast.cast) (Quad 192 168 0 0) 16) = Ret true.
Proof.
  refine (proj2 (proj2 (matchIPToCIDR_octets (H := DecimalCast.cast)
    (Quad 192 168 7 1) (Quad 192 168 0 0) 16 _ _ _)) _);
    [unfold quad_ok, octet; cbn; lia|unfold quad_ok, octet; cbn; lia|lia|reflexivity].
Defined.

(** Rounding to octets is observable: 172.99.0.1 is outside 172.16.0.0/12
    and [matchIPToCIDR] accepts it. *)
Lemma matchIPToCIDR_accepts_outsider `{LexicalCast} :
  let q := Quad 172 99 0 1 in let net := Quad 172 16 0 0 in
  in_block q net 12 = false ∧ matchIPToCIDR (dotted q) (cidr net 12) = Ret true.
Proof.
  cbn zeta. split; [reflexivity|].
  rewrite match_cidr_octets by (unfold quad_ok, octet; cbn; lia). reflexivity.
Qed.
