(* ===== verification/CephTypes.v ===== *)
(** * Data shared by the components

    The enumerations of [common/TaskType.hpp], [state/Phase.hpp],
    [state/Status.hpp] and [common/FrameworkMessage.hpp], the [Config] struct of
    [common/Config.hpp] and the [TaskState] class of [state/TaskState.hpp]. *)

From S2P Require Import Prelude StringUtil.
Open Scope Z_scope.

(** ** Enumerations *)

Inductive TaskType := MON | OSD | RADOSGW.

Inductive Phase :=
  | RECONCILING_TASKS
  | BOOTSTRAP_MON
  | BOOTSTRAP_OSD
  | BOOTSTRAP_RADOSGW
  | WAINTING_REQUEST.

Inductive Status :=
  | STAGING
  | WAITING_OSDID
  | STARTING
  | RUNNING
  | FAILED
  | FINISHED
  | UNKNOWN.

#[export] Instance TaskType_eq_dec : EqDecision TaskType.
Proof. solve_decision. Defined.
#[export] Instance Phase_eq_dec : EqDecision Phase.
Proof. solve_decision. Defined.
#[export] Instance Status_eq_dec : EqDecision Status.
Proof. solve_decision. Defined.

(** [static_cast<int>] of the enumerators. *)
Definition TaskType_to_int (t : TaskType) : Z :=
  match t with MON => 0 | OSD => 1 | RADOSGW => 2 end.

Inductive MessageToScheduler := WAITING_FOR_OSD_NUM | CONSUMED_OSD_ID | DISK_READY.

Definition MessageToScheduler_to_int (m : MessageToScheduler) : Z :=
  match m with WAITING_FOR_OSD_NUM => 0 | CONSUMED_OSD_ID => 1 | DISK_READY => 2 end.

Inductive MessageToExecutor := REGISTER_OSD | LAUNCH_OSD.

Definition MessageToExecutor_to_int (m : MessageToExecutor) : Z :=
  match m with REGISTER_OSD => 20 | LAUNCH_OSD => 21 end.

(** Label keys ([class CustomData]). *)
Module CustomData.
Definition mgmtdevKey : string := "mgmtdev".
Definition datadevKey : string := "datadev".
Definition osddevsKey : string := "osddevs".
Definition jnldevsKey : string := "jnldevs".
Definition jnlPartitionCountKey : string := "jnlpartitioncount".
End CustomData.

(** ** [struct Config] *)

Record Config := mkConfig {
  cfg_id : string;
  cfg_role : string;
  cfg_master : string;
  cfg_zookeeper : string;
  cfg_restport : Z;
  cfg_fileport : Z;
  cfg_fileroot : string;
  cfg_mgmtdev : string;
  cfg_datadev : string;
  cfg_osddevs : list string;
  cfg_jnldevs : list string;
  cfg_jnlparts : Z;
}.

(** ** Indeterminate values

    Members without an initializer ([TaskState::taskType],
    [TaskState::currentStatus], [HostConfig::jnlPartsCount]) and the
    uninitialized locals of [resourceOffers] hold some value that nothing
    fixes.  Every theorem is proved for all of them. *)
Class Indeterminate := {
  indet_TaskType : TaskType;
  indet_Status : Status;
  indet_int : Z;
}.

Module SomeValues.
Instance indet : Indeterminate := {|
  indet_TaskType := MON; indet_Status := UNKNOWN; indet_int := 7 |}.
End SomeValues.

(** ** [class TaskState] *)

Record TaskState := mkTaskState {
  ts_taskId : string;
  ts_executorId : string;
  ts_taskType : TaskType;
  ts_hostName : string;
  ts_slaveId : string;
  ts_currentStatus : Status;
}.

Definition set_currentStatus (st : Status) (t : TaskState) : TaskState :=
  mkTaskState (ts_taskId t) (ts_executorId t) (ts_taskType t) (ts_hostName t) (ts_slaveId t) st.

(** [TaskState()]. *)
Definition default_TaskState `{Indeterminate} : TaskState :=
  mkTaskState "" "" indet_TaskType "" "" indet_Status.

Definition TaskType_name (t : TaskType) : string :=
  match t with MON => "MON" | OSD => "OSD" | RADOSGW => "RADOSGW" end.

Definition Status_name (s : Status) : string :=
  match s with
  | STAGING => "STAGING"
  | WAITING_OSDID => "WAITING_OSDID"
  | STARTING => "STARTING"
  | RUNNING => "RUNNING"
  | FAILED => "FAILED"
  | FINISHED => "FINISHED"
  | UNKNOWN => "UNKNOWN"
  end.

Definition TaskState_toString (t : TaskState) : string :=
  "taskId: " +:+ ts_taskId t
  +:+ ", executorId: " +:+ ts_executorId t
  +:+ ", taskType: " +:+ TaskType_name (ts_taskType t)
  +:+ ", hostName: " +:+ ts_hostName t
  +:+ ", slaveId: " +:+ ts_slaveId t
  +:+ ", currentStatus: " +:+ Status_name (ts_currentStatus t).
