(* ===== verification/ConfigFile.v ===== *)
(** * Configuration files: [common/Config.cpp]

    The YAML parser, the gflags values and the file system are parameters: the
    class [Yaml] states the accessors of a loaded document the code uses, a
    record holds the parsed flags, and the file system maps a path to the
    contents of a readable file. *)

From S2P Require Import Prelude StringUtil CephTypes.
Open Scope Z_scope.

(** ** Environment *)

(** yaml-cpp: [YAML::Load], [config[key]] (an undefined node is false) and the
    three conversions used; each may throw. *)
Class Yaml := {
  Node : Type;
  yaml_load : string → outcome Node;
  yaml_get : Node → string → option Node;
  as_string : Node → outcome string;
  as_int : Node → outcome Z;
  as_strings : Node → outcome (list string);
}.

(** The gflags globals [FLAGS_*]. *)
Record Flags := mkFlags {
  FLAGS_config : string;
  FLAGS_id : string;
  FLAGS_role : string;
  FLAGS_master : string;
  FLAGS_zookeeper : string;
  FLAGS_restport : Z;
  FLAGS_fileport : Z;
  FLAGS_jnlparts : Z;
  FLAGS_fileroot : string;
}.

(** The values of the [DEFINE_*] lines. *)
Definition default_Flags : Flags :=
  mkFlags "/etc/cephmesos/cephmesos.yml" "" "" "" "" 0 0 4 "".

Definition Files := string → option string.

(** ** Paths *)

Definition hostConfigFolder : string := "cephmesos.d".

(** [s.find(pat) != npos]. *)
Fixpoint contains_substr (pat s : string) : bool :=
  String.prefix pat s ||
  match s with
  | "" => false
  | String _ s' => contains_substr pat s'
  end.

Definition is_host_config (filename : string) : bool := contains_substr hostConfigFolder filename.

(** [s.find_last_of(c)], [None] for [npos]. *)
Fixpoint find_last_of (s : string) (c : ascii) : option nat :=
  match s with
  | "" => None
  | String c' s' =>
      match find_last_of s' c with
      | Some i => Some (S i)
      | None => if Ascii.eqb c' c then Some O else None
      end
  end.

Section Config.
Context `{Yaml} (flags : Flags).

(** [get_file_contents]: a missing host file reads as the empty document. *)
Definition get_file_contents (files : Files) (filename : string) : outcome string :=
  match files filename with
  | Some contents => Ret contents
  | None =>
      if negb (is_host_config filename)
      then Throw (InvalidArgument "Default YAML config file does not exist.")
      else Ret ""
  end.

Definition get_config_path_by_hostname (hostname : string) : string :=
  let path :=
    match find_last_of (FLAGS_config flags) "/" with
    | Some pathIndex => String.substring 0 pathIndex (FLAGS_config flags) +:+ "/"
    | None => ""
    end in
  path +:+ hostConfigFolder +:+ "/" +:+ hostname +:+ ".yml".

(** [config[key] ? config[key].as<T>() : dflt]. *)
Definition field {T} (as_T : Node → outcome T) (config : Node) (key : string) (dflt : T) : outcome T :=
  match yaml_get config key with
  | Some n => as_T n
  | None => Ret dflt
  end.

Definition parse_config_string (input : string) : outcome Config :=
  config ← yaml_load input;
  id ← field as_string config "id" (FLAGS_id flags);
  role ← field as_string config "role" (FLAGS_role flags);
  master ← field as_string config "master" (FLAGS_master flags);
  zookeeper ← field as_string config "zookeeper" (FLAGS_zookeeper flags);
  restport ← field as_int config "restport" (FLAGS_restport flags);
  fileport ← field as_int config "fileport" (FLAGS_fileport flags);
  fileroot ← field as_string config "fileroot" (FLAGS_fileroot flags);
  mgmtdev ← field as_string config "mgmtdev" "";
  datadev ← field as_string config "datadev" "";
  osddevs ← field as_strings config "osddevs" [];
  jnldevs ← field as_strings config "jnldevs" [];
  jnlparts ← field as_int config "jnlparts" (FLAGS_jnlparts flags);
  Ret (mkConfig id role master zookeeper restport fileport fileroot
         mgmtdev datadev osddevs jnldevs jnlparts).

(** [x.empty() ? y : x] on strings and vectors. *)
Definition or_else (x y : string) : string := if decide (x = "") then y else x.
Definition or_else_v (x y : list string) : list string := match x with [] => y | _ => x end.

Definition merge_config (defaultConfig hostConfig : Config) : Config :=
  mkConfig
    (FLAGS_id flags)
    (FLAGS_role flags)
    (FLAGS_master flags)
    (FLAGS_zookeeper flags)
    (FLAGS_restport flags)
    (FLAGS_fileport flags)
    (FLAGS_fileroot flags)
    (or_else (cfg_mgmtdev hostConfig) (cfg_mgmtdev defaultConfig))
    (or_else (cfg_datadev hostConfig) (cfg_datadev defaultConfig))
    (or_else_v (cfg_osddevs hostConfig) (cfg_osddevs defaultConfig))
    (or_else_v (cfg_jnldevs hostConfig) (cfg_jnldevs defaultConfig))
    (if cfg_jnlparts hostConfig =? 4 then cfg_jnlparts defaultConfig else cfg_jnlparts hostConfig).

(** The config a [HostConfig(hostname)] starts from: both files are read again. *)
Definition get_config_by_hostname (files : Files) (hostname : string) : outcome Config :=
  defaultContents ← get_file_contents files (FLAGS_config flags);
  defaultConfig ← parse_config_string defaultContents;
  hostContents ← get_file_contents files (get_config_path_by_hostname hostname);
  hostConfig ← parse_config_string hostContents;
  Ret (merge_config defaultConfig hostConfig).

Definition config_invalid (cfg : Config) : bool :=
  bool_decide (cfg_id cfg = "") ||
  bool_decide (cfg_role cfg = "") ||
  bool_decide (cfg_master cfg = "") ||
  bool_decide (cfg_zookeeper cfg = "") ||
  (cfg_restport cfg =? 0) ||
  (cfg_fileport cfg =? 0) ||
  bool_decide (cfg_fileroot cfg = "").

(** [get_config], after [ParseCommandLineFlags]. *)
Definition get_config (files : Files) : outcome Config :=
  input ← get_file_contents files (FLAGS_config flags);
  config ← parse_config_string input;
  let cfg := mkConfig
    (if decide (FLAGS_id flags = "") then cfg_id config else FLAGS_id flags)
    (if decide (FLAGS_role flags = "") then cfg_role config else FLAGS_role flags)
    (if decide (FLAGS_master flags = "") then cfg_master config else FLAGS_master flags)
    (if decide (FLAGS_zookeeper flags = "") then cfg_zookeeper config else FLAGS_zookeeper flags)
    (if FLAGS_restport flags =? 0 then cfg_restport config else FLAGS_restport flags)
    (if FLAGS_fileport flags =? 0 then cfg_fileport config else FLAGS_fileport flags)
    (if decide (FLAGS_fileroot flags = "") then cfg_fileroot config else FLAGS_fileroot flags)
    (cfg_mgmtdev config)
    (cfg_datadev config)
    (cfg_osddevs config)
    (cfg_jnldevs config)
    (if FLAGS_jnlparts flags =? 4 then cfg_jnlparts config else FLAGS_jnlparts flags) in
  if config_invalid cfg
  then Throw (InvalidArgument "Invalid value in default YAML config file.")
  else Ret cfg.
End Config.

(** ** Lemmas *)

Section ConfigFacts.
Context `{Yaml} (flags : Flags).

Lemma parse_config_string_fields input cfg :
  parse_config_string flags input = Ret cfg →
  ∃ doc, yaml_load input = Ret doc ∧
    field as_string doc "id" (FLAGS_id flags) = Ret (cfg_id cfg) ∧
    field as_string doc "role" (FLAGS_role flags) = Ret (cfg_role cfg) ∧
    field as_string doc "master" (FLAGS_master flags) = Ret (cfg_master cfg) ∧
    field as_string doc "zookeeper" (FLAGS_zookeeper flags) = Ret (cfg_zookeeper cfg) ∧
    field as_int doc "restport" (FLAGS_restport flags) = Ret (cfg_restport cfg) ∧
    field as_int doc "fileport" (FLAGS_fileport flags) = Ret (cfg_fileport cfg) ∧
    field as_string doc "fileroot" (FLAGS_fileroot flags) = Ret (cfg_fileroot cfg) ∧
    field as_string doc "mgmtdev" "" = Ret (cfg_mgmtdev cfg) ∧
    field as_string doc "datadev" "" = Ret (cfg_datadev cfg) ∧
    field as_strings doc "osddevs" [] = Ret (cfg_osddevs cfg) ∧
    field as_strings doc "jnldevs" [] = Ret (cfg_jnldevs cfg) ∧
    field as_int doc "jnlparts" (FLAGS_jnlparts flags) = Ret (cfg_jnlparts cfg).
Proof.
  unfold parse_config_string, mbind, outcome_bind. intros E.
  repeat case_match; simplify_eq/=. eauto 20.
Qed.

Lemma config_invalid_false cfg :
  config_invalid cfg = false ↔
  cfg_id cfg ≠ "" ∧ cfg_role cfg ≠ "" ∧ cfg_master cfg ≠ "" ∧ cfg_zookeeper cfg ≠ "" ∧
  cfg_restport cfg ≠ 0 ∧ cfg_fileport cfg ≠ 0 ∧ cfg_fileroot cfg ≠ "".
Proof.
  unfold config_invalid. rewrite !orb_false_iff, !bool_decide_eq_false, !Z.eqb_neq. tauto.
Qed.
End ConfigFacts.

(** A concrete reader of flat documents, one [key:value] per line and lists
    separated by commas. *)
Module FlatYaml.
Definition doc := list (string * string).
Definition newline : ascii := "010".
Definition load (s : string) : outcome doc :=
  Ret (omap (λ line, match explode line ":" with
                     | [k; v] => Some (k, v) | [k] => Some (k, "") | _ => None end)
         (explode s newline)).
Fixpoint assoc (d : doc) (key : string) : option string :=
  match d with
  | [] => None
  | (k, v) :: d' => if decide (k = key) then Some v else assoc d' key
  end.
(* a node is a document or a scalar *)
Definition get (n : doc + string) (key : string) : option (doc + string) :=
  match n with inl d => inr <$> assoc d key | inr _ => None end.
Definition scalar (n : doc + string) : outcome string :=
  match n with inl _ => Throw YamlException | inr s => Ret s end.
Definition yaml : Yaml := {|
  Node := doc + string;
  yaml_load s := d ← load s; Ret (inl d);
  yaml_get := get;
  as_string := scalar;
  as_int n := s ← scalar n; DecimalCast.to_int s;
  as_strings n := s ← scalar n; Ret (explode s ",");
|}.
Definition lines (l : list string) : string := terminate_all newline l.
End FlatYaml.

(** ** Properties *)

(** A field of the result: a flag that differs from its default wins over the file. *)
Definition picked {T} (flag dflt in_file result : T) : Prop :=
  (flag ≠ dflt → result = flag) ∧ (flag = dflt → result = in_file).

Lemma picked_eq {T} `{EqDecision T} (flag dflt in_file result : T) :
  picked flag dflt in_file result ↔ result = if decide (flag = dflt) then in_file else flag.
Proof. unfold picked. case_decide; tauto. Qed.

Lemma decide_eqb {A} (a b : Z) (x y : A) : (if decide (a = b) then x else y) = (if a =? b then x else y).
Proof. case_decide as E; [by rewrite (proj2 (Z.eqb_eq a b) E)|by rewrite (proj2 (Z.eqb_neq a b) E)]. Qed.

(** The fields [get_config] checks. *)
Definition checked_fields (cfg : Config) : Prop :=
  cfg_id cfg ≠ "" ∧ cfg_role cfg ≠ "" ∧ cfg_master cfg ≠ "" ∧ cfg_zookeeper cfg ≠ "" ∧
  cfg_restport cfg ≠ 0 ∧ cfg_fileport cfg ≠ 0 ∧ cfg_fileroot cfg ≠ "".

(** C31. Exactly which configurations [get_config] returns.  The default file is
    read and parsed; a flag wins over the file when it differs from its default,
    which is 4 for [jnlparts], so that a flag [-jnlparts 4] has no effect; the
    networks and the devices are the file's.  The result is returned exactly when
    its id, role, master, zookeeper and fileroot are not empty and its two ports
    not zero.  These are not the fields the README calls mandatory: zookeeper,
    which it leaves empty, is required, and mgmtdev and datadev, which it says
    must be set, are not looked at. *)
Theorem get_config_valid `{Yaml} (flags : Flags) (files : Files) (cfg : Config) :
  get_config flags files = Ret cfg ↔
  checked_fields cfg ∧
  ∃ input file, get_file_contents files (FLAGS_config flags) = Ret input ∧
    parse_config_string flags input = Ret file ∧
    picked (FLAGS_id flags) "" (cfg_id file) (cfg_id cfg) ∧
    picked (FLAGS_role flags) "" (cfg_role file) (cfg_role cfg) ∧
    picked (FLAGS_master flags) "" (cfg_master file) (cfg_master cfg) ∧
    picked (FLAGS_zookeeper flags) "" (cfg_zookeeper file) (cfg_zookeeper cfg) ∧
    picked (FLAGS_restport flags) 0 (cfg_restport file) (cfg_restport cfg) ∧
    picked (FLAGS_fileport flags) 0 (cfg_fileport file) (cfg_fileport cfg) ∧
    picked (FLAGS_fileroot flags) "" (cfg_fileroot file) (cfg_fileroot cfg) ∧
    picked (FLAGS_jnlparts flags) 4 (cfg_jnlparts file) (cfg_jnlparts cfg) ∧
    cfg_mgmtdev cfg = cfg_mgmtdev file ∧ cfg_datadev cfg = cfg_datadev file ∧
    cfg_osddevs cfg = cfg_osddevs file ∧ cfg_jnldevs cfg = cfg_jnldevs file.
Proof.
  unfold get_config. setoid_rewrite picked_eq.
  split.
  - intros (input & Ei & (file & Ef & E)%outcome_bind_Ret)%outcome_bind_Ret. destruct (config_invalid _) eqn:Hv; [done|]. apply config_invalid_false in Hv.
    injection E as <-. split; [exact Hv|]. exists input, file.
    split; [exact Ei|]. split; [exact Ef|]. rewrite !decide_eqb. by split_and!.
  - intros (Hc & input & file & Ei & Ef & E). apply outcome_bind_Ret. exists input. split; [done|].
    apply outcome_bind_Ret. exists file. split; [done|].
    rewrite !decide_eqb in E. destruct cfg. cbn in E.
    destruct E as (-> & -> & -> & -> & -> & -> & -> & -> & -> & -> & -> & ->).
    by rewrite (proj2 (config_invalid_false _) Hc).
Qed.

Definition sample_yml : string :=
  FlatYaml.lines ["id:ceph"; "role:*"; "master:m"; "zookeeper:z"; "restport:8889";
                  "fileport:8888"; "fileroot:r"; "osddevs:sdb,sdc"; "jnlparts:2"].

(** A file without the networks the README asks for is accepted. *)
Lemma get_config_valid_witness :
  get_config (H := FlatYaml.yaml) default_Flags (λ _, Some sample_yml) =
    Ret (mkConfig "ceph" "*" "m" "z" 8889 8888 "r" "" "" ["sdb"; "sdc"] [] 2).
Proof.
  apply (get_config_valid (H := FlatYaml.yaml)). split; [by vm_compute|].
  eexists sample_yml, _. split; [reflexivity|]. split; [vm_compute; reflexivity|].
  by repeat split.
Defined.

(** A configuration whose file leaves [zookeeper] empty is rejected unless
    the flag is given: the sample [cephmesos.yml] of the README
    ([zookeeper: ""]) is one, whatever its other fields. *)
Lemma get_config_rejects_empty_zookeeper `{Yaml}
    (flags : Flags) (files : Files) (input : string) (doc n : Node) (file : Config) :
  FLAGS_zookeeper flags = "" →
  files (FLAGS_config flags) = Some input →
  yaml_load input = Ret doc → yaml_get doc "zookeeper" = Some n → as_string n = Ret "" →
  parse_config_string flags input = Ret file →
  get_config flags files = Throw (InvalidArgument "Invalid value in default YAML config file.").
Proof.
  intros Hz Hf Hl Hg Hs Hp. unfold get_config, get_file_contents. rewrite Hf. cbn.
  rewrite Hp. cbn. unfold config_invalid at 1. cbn.
  destruct (parse_config_string_fields _ _ _ Hp) as (doc' & Hl' & _ & _ & _ & Hz' & _).
  assert (doc' = doc) as -> by congruence.
  unfold field in Hz'. rewrite Hg, Hs in Hz'. injection Hz' as Hz'. rewrite <- Hz', Hz.
  cbn. by rewrite !orb_true_r.
Qed.

Definition readme_yml : string :=
  FlatYaml.lines ["id:myceph"; "role:ceph"; "master:zk"; "zookeeper:"; "restport:8889";
                  "fileport:8888"; "fileroot:./"; "osddevs:sdb,sdc"; "jnldevs:sde"; "jnlparts:2"].

Lemma get_config_rejects_empty_zookeeper_witness :
  get_config (H := FlatYaml.yaml) default_Flags (λ _, Some readme_yml) =
  Throw (InvalidArgument "Invalid value in default YAML config file.").
Proof.
  refine (get_config_rejects_empty_zookeeper (H := FlatYaml.yaml) default_Flags
    (λ _, Some readme_yml) readme_yml _ _ _ _ _ _ _ _ _); vm_compute; reflexivity.
Defined.

(** How a host's configuration is merged with the default one, and that
    nothing else reaches it: a field of the host file wins when it is
    non-empty, except [jnlparts], where the host's value 4 counts as unset.  The
    other fields are the command-line flags. *)
Lemma get_config_by_hostname_merge `{Yaml} (flags : Flags) (files : Files)
    (hostname : string) (cfg : Config) :
  get_config_by_hostname flags files hostname = Ret cfg →
  ∃ dContents hContents d h,
    get_file_contents files (FLAGS_config flags) = Ret dContents ∧
    get_file_contents files (get_config_path_by_hostname flags hostname) = Ret hContents ∧
    parse_config_string flags dContents = Ret d ∧ parse_config_string flags hContents = Ret h ∧
    cfg_mgmtdev cfg = (if decide (cfg_mgmtdev h = "") then cfg_mgmtdev d else cfg_mgmtdev h) ∧
    cfg_datadev cfg = (if decide (cfg_datadev h = "") then cfg_datadev d else cfg_datadev h) ∧
    cfg_osddevs cfg = (if decide (cfg_osddevs h = []) then cfg_osddevs d else cfg_osddevs h) ∧
    cfg_jnldevs cfg = (if decide (cfg_jnldevs h = []) then cfg_jnldevs d else cfg_jnldevs h) ∧
    (cfg_jnlparts h ≠ 4 → cfg_jnlparts cfg = cfg_jnlparts h) ∧
    (cfg_jnlparts h = 4 → cfg_jnlparts cfg = cfg_jnlparts d) ∧
    cfg_role cfg = FLAGS_role flags ∧ cfg_fileport cfg = FLAGS_fileport flags.
Proof.
  unfold get_config_by_hostname, mbind, outcome_bind. intros E.
  destruct (get_file_contents files (FLAGS_config flags)) as [dC| | |] eqn:E1; [|done..].
  destruct (parse_config_string flags dC) as [d| | |] eqn:E2; [|done..].
  destruct (get_file_contents _ (get_config_path_by_hostname _ _)) as [hC| | |] eqn:E3; [|done..].
  destruct (parse_config_string flags hC) as [h| | |] eqn:E4; [|done..].
  injection E as <-. exists dC, hC, d, h. split_and!; try done; cbn.
  - destruct (cfg_osddevs h); by case_decide.
  - destruct (cfg_jnldevs h); by case_decide.
  - intros Hne. by apply Z.eqb_neq in Hne as ->.
  - intros ->. done.
Qed.

Lemma get_config_by_hostname_merge_witness :
  ∃ cfg, get_config_by_hostname (H := FlatYaml.yaml) default_Flags
           (λ p, if decide (p = "/etc/cephmesos/cephmesos.d/slave01.yml")
                 then Some (FlatYaml.lines ["osddevs:sdc,sdd"; "jnlparts:4"])
                 else Some sample_yml) "slave01" = Ret cfg ∧
    cfg_osddevs cfg = ["sdc"; "sdd"] ∧ cfg_jnlparts cfg = 2.
Proof.
  eexists. split; [vm_compute; reflexivity|].
  edestruct (get_config_by_hostname_merge (H := FlatYaml.yaml) default_Flags
    (λ p, if decide (p = "/etc/cephmesos/cephmesos.d/slave01.yml")
          then Some (FlatYaml.lines ["osddevs:sdc,sdd"; "jnlparts:4"])
          else Some sample_yml) "slave01") as (dC & hC & d & h & _); [vm_compute; reflexivity|].
  split; vm_compute; reflexivity.
Defined.
