(* ===== verification/HostConfigs.v ===== *)
(** * Disks of a host: [state/HostConfig.hpp]

    The record mirrors the private members of [class HostConfig]; each method
    that changes the object returns the new object.  [originalConfig] points to
    a [Config] nobody modifies and is modelled by its value. *)

From S2P Require Import Prelude StringUtil CephTypes ConfigFile.
Open Scope Z_scope.

Record HostConfig := mkHostConfig {
  hc_doneDiskPreparationFlag : bool;
  hc_isPreparingDiskFlag : bool;
  hc_pendingOSDDevs : list string;
  hc_pendingJNLDevs : list string;
  hc_jnlPartsCount : Z;
  hc_failedOSDDevs : list string;
  hc_failedJNLDevs : list string;
  hc_osdPartitions : list string;
  hc_jnlPartitions : list string;
  hc_originalConfig : Config;
  hc_hostname : string;
}.

(** ** Construction *)

(** [HostConfig(string hostname)], given what [get_config_by_hostname] returned. *)
Definition HostConfig_of_config (hostname : string) (originalConfig : Config) : HostConfig :=
  {| hc_doneDiskPreparationFlag := false;
     hc_isPreparingDiskFlag := false;
     hc_pendingOSDDevs := cfg_osddevs originalConfig;
     hc_pendingJNLDevs := cfg_jnldevs originalConfig;
     hc_jnlPartsCount := cfg_jnlparts originalConfig;
     hc_failedOSDDevs := [];
     hc_failedJNLDevs := [];
     hc_osdPartitions := [];
     hc_jnlPartitions := [];
     hc_originalConfig := originalConfig;
     hc_hostname := hostname |}.

Definition new_HostConfig `{Yaml} (flags : Flags) (files : Files) (hostname : string) : outcome HostConfig :=
  originalConfig ← get_config_by_hostname flags files hostname;
  Ret (HostConfig_of_config hostname originalConfig).

(** [HostConfig(Config *_config)]: [jnlPartsCount] is not initialized. *)
Definition default_HostConfig `{Indeterminate} (config : Config) : HostConfig :=
  {| hc_doneDiskPreparationFlag := false;
     hc_isPreparingDiskFlag := false;
     hc_pendingOSDDevs := [];
     hc_pendingJNLDevs := [];
     hc_jnlPartsCount := indet_int;
     hc_failedOSDDevs := [];
     hc_failedJNLDevs := [];
     hc_osdPartitions := [];
     hc_jnlPartitions := [];
     hc_originalConfig := config;
     hc_hostname := "" |}.

(** ** Member updates *)

Definition set_flags (preparing done : bool) (hc : HostConfig) : HostConfig :=
  mkHostConfig done preparing (hc_pendingOSDDevs hc) (hc_pendingJNLDevs hc) (hc_jnlPartsCount hc)
    (hc_failedOSDDevs hc) (hc_failedJNLDevs hc) (hc_osdPartitions hc) (hc_jnlPartitions hc)
    (hc_originalConfig hc) (hc_hostname hc).
Definition set_pending (osd jnl : list string) (hc : HostConfig) : HostConfig :=
  mkHostConfig (hc_doneDiskPreparationFlag hc) (hc_isPreparingDiskFlag hc) osd jnl
    (hc_jnlPartsCount hc) (hc_failedOSDDevs hc) (hc_failedJNLDevs hc) (hc_osdPartitions hc)
    (hc_jnlPartitions hc) (hc_originalConfig hc) (hc_hostname hc).
Definition set_failed (osd jnl : list string) (hc : HostConfig) : HostConfig :=
  mkHostConfig (hc_doneDiskPreparationFlag hc) (hc_isPreparingDiskFlag hc) (hc_pendingOSDDevs hc)
    (hc_pendingJNLDevs hc) (hc_jnlPartsCount hc) osd jnl (hc_osdPartitions hc)
    (hc_jnlPartitions hc) (hc_originalConfig hc) (hc_hostname hc).
Definition set_partitions (osd jnl : list string) (hc : HostConfig) : HostConfig :=
  mkHostConfig (hc_doneDiskPreparationFlag hc) (hc_isPreparingDiskFlag hc) (hc_pendingOSDDevs hc)
    (hc_pendingJNLDevs hc) (hc_jnlPartsCount hc) (hc_failedOSDDevs hc) (hc_failedJNLDevs hc)
    osd jnl (hc_originalConfig hc) (hc_hostname hc).

(** ** Methods *)

Definition reload (hc : HostConfig) : HostConfig := hc.

(** [v.back()] and [v.pop_back()] on a non-empty vector. *)
Definition popOSDPartition (hc : HostConfig) : HostConfig * string :=
  match last (hc_osdPartitions hc) with
  | Some p => (set_partitions (List.removelast (hc_osdPartitions hc)) (hc_jnlPartitions hc) hc, p)
  | None => (hc, "")
  end.

Definition popJournalPartition (hc : HostConfig) : HostConfig * string :=
  match last (hc_jnlPartitions hc) with
  | Some p => (set_partitions (hc_osdPartitions hc) (List.removelast (hc_jnlPartitions hc)) hc, p)
  | None => (hc, "")
  end.

Fixpoint contains (origin : list string) (searchStr : string) : bool :=
  match origin with
  | [] => false
  | s :: origin' => if decide (searchStr = s) then true else contains origin' searchStr
  end.

Definition addOSDPartition (par : string) (hc : HostConfig) : HostConfig :=
  set_partitions (hc_osdPartitions hc ++ [par]) (hc_jnlPartitions hc) hc.

Definition addJNLPartition (par : string) (hc : HostConfig) : HostConfig :=
  set_partitions (hc_osdPartitions hc) (hc_jnlPartitions hc ++ [par]) hc.

Section Update.
Context `{LexicalCast}.

(** Body of the first loop of [updateDiskPartition]. *)
Definition update_osd (failedDevs : list string) (hc : HostConfig) (dev : string) : HostConfig :=
  if contains failedDevs dev
  then set_failed (hc_failedOSDDevs hc ++ [dev]) (hc_failedJNLDevs hc) hc
  else addOSDPartition (dev +:+ "1") hc.

(** Body of the second loop; [j] runs from 1 to [jnlPartitionCount]. *)
Definition update_jnl (failedDevs : list string) (jnlPartitionCount : Z)
    (hc : HostConfig) (dev : string) : HostConfig :=
  if contains failedDevs dev
  then set_failed (hc_failedOSDDevs hc) (hc_failedJNLDevs hc ++ [dev]) hc
  else foldl (λ hc j, addJNLPartition (dev +:+ lexical_to_string j) hc) hc
         (seqZ 1 jnlPartitionCount).

Definition updateDiskPartition (failedDevs : list string) (jnlPartitionCount : Z)
    (hc : HostConfig) : HostConfig :=
  let hc := foldl (update_osd failedDevs) hc (hc_pendingOSDDevs hc) in
  let hc := foldl (update_jnl failedDevs jnlPartitionCount) hc (hc_pendingJNLDevs hc) in
  set_pending [] [] hc.
End Update.

Definition getMgmtDev (hc : HostConfig) : string := cfg_mgmtdev (hc_originalConfig hc).
Definition getDataDev (hc : HostConfig) : string := cfg_datadev (hc_originalConfig hc).
Definition havePendingOSDDevs (hc : HostConfig) : bool := negb (bool_decide (hc_pendingOSDDevs hc = [])).
Definition havePendingJNLDevs (hc : HostConfig) : bool := negb (bool_decide (hc_pendingJNLDevs hc = [])).
Definition isPreparingDisk (hc : HostConfig) : bool := hc_isPreparingDiskFlag hc.
Definition haveDoneDiskPreparation (hc : HostConfig) : bool := hc_doneDiskPreparationFlag hc.
Definition setDiskPreparationOnGoing (hc : HostConfig) : HostConfig := set_flags true false hc.
Definition setDiskPreparationDone (hc : HostConfig) : HostConfig := set_flags false true hc.
Definition getJnlPartitionCount (hc : HostConfig) : Z := hc_jnlPartsCount hc.

(** [toString]: the journal loops append to [osds_str], as the source does. *)
Definition append_devs (s : string) (devs : list string) : string :=
  foldl (λ s d, s +:+ d +:+ ",") s devs.

Definition HostConfig_toString (hc : HostConfig) : string :=
  let r := "hostname:" +:+ hc_hostname hc +:+ "; mgmtdev: " +:+ getMgmtDev hc
           +:+ "; datadev: " +:+ getDataDev hc in
  let osds_str := append_devs "" (hc_pendingOSDDevs hc) in
  let jnls_str := "" in
  let osds_str := append_devs osds_str (hc_pendingJNLDevs hc) in
  let r := r +:+ "; pendingosdsdev: " +:+ osds_str +:+ " pendingjnldev: " +:+ jnls_str in
  let osds_str := append_devs "" (hc_osdPartitions hc) in
  let jnls_str := "" in
  let osds_str := append_devs osds_str (hc_jnlPartitions hc) in
  r +:+ "; osdPartitions: " +:+ osds_str +:+ " jnlPartitions: " +:+ jnls_str.

(** ** Lemmas *)

Lemma contains_spec origin s : contains origin s = true ↔ s ∈ origin.
Proof.
  induction origin as [|o origin IH]; cbn; [set_solver|].
  rewrite elem_of_cons, <- IH. case_decide; intuition congruence.
Qed.

Lemma contains_false origin s : contains origin s = false ↔ s ∉ origin.
Proof. rewrite <- contains_spec. by destruct (contains origin s). Qed.

Lemma HostConfig_eta hc :
  mkHostConfig (hc_doneDiskPreparationFlag hc) (hc_isPreparingDiskFlag hc) (hc_pendingOSDDevs hc)
    (hc_pendingJNLDevs hc) (hc_jnlPartsCount hc) (hc_failedOSDDevs hc) (hc_failedJNLDevs hc)
    (hc_osdPartitions hc) (hc_jnlPartitions hc) (hc_originalConfig hc) (hc_hostname hc) = hc.
Proof. by destruct hc. Qed.

(** The partition made on an OSD device. *)
Definition osd_partition (dev : string) : string := dev +:+ "1".

Lemma str_app_inj_r (s1 s2 s : string) : s1 +:+ s = s2 +:+ s → s1 = s2.
Proof.
  revert s2. induction s1 as [|c s1 IH]; intros [|c' s2]; scbn.
  - done.
  - intros E. apply (f_equal String.length) in E. cbn in E. rewrite str_length_app in E. lia.
  - intros E. apply (f_equal String.length) in E. cbn in E. rewrite str_length_app in E. lia.
  - intros [= -> E]. by rewrite (IH s2).
Qed.

#[export] Instance osd_partition_inj : Inj (=) (=) osd_partition.
Proof. intros d d'. apply str_app_inj_r. Qed.

Section UpdateFacts.
Context `{LexicalCast}.

(** The partitions made on a journal device. *)
Definition jnl_partitions (count : Z) (dev : string) : list string :=
  (λ j, dev +:+ lexical_to_string j) <$> seqZ 1 count.

Lemma foldl_addJNL dev js hc :
  foldl (λ hc j, addJNLPartition (dev +:+ lexical_to_string j) hc) hc js =
  set_partitions (hc_osdPartitions hc)
    (hc_jnlPartitions hc ++ ((λ j, dev +:+ lexical_to_string j) <$> js)) hc.
Proof.
  revert hc. induction js as [|j js IH]; intros hc; cbn.
  - rewrite app_nil_r. unfold set_partitions. by rewrite HostConfig_eta.
  - rewrite IH. unfold addJNLPartition, set_partitions. cbn. by rewrite <- app_assoc.
Qed.

Lemma foldl_update_osd failed devs hc :
  foldl (update_osd failed) hc devs =
  set_failed (hc_failedOSDDevs hc ++ filter (.∈ failed) devs) (hc_failedJNLDevs hc)
    (set_partitions (hc_osdPartitions hc ++ (osd_partition <$> filter (.∉ failed) devs))
       (hc_jnlPartitions hc) hc).
Proof.
  revert hc. induction devs as [|d devs IH]; intros hc; cbn [foldl].
  - rewrite !filter_nil. unfold set_failed, set_partitions. cbn.
    by rewrite !app_nil_r, HostConfig_eta.
  - rewrite IH, !filter_cons. unfold update_osd.
    destruct (contains failed d) eqn:E.
    + apply contains_spec in E. rewrite decide_True, decide_False by (auto; tauto).
      unfold set_failed, set_partitions. cbn. by rewrite <- app_assoc.
    + apply contains_false in E. rewrite decide_False, decide_True by auto.
      unfold set_failed, set_partitions, addOSDPartition, set_partitions. cbn.
      by rewrite <- app_assoc.
Qed.

Lemma foldl_update_jnl failed n devs hc :
  foldl (update_jnl failed n) hc devs =
  set_failed (hc_failedOSDDevs hc) (hc_failedJNLDevs hc ++ filter (.∈ failed) devs)
    (set_partitions (hc_osdPartitions hc)
       (hc_jnlPartitions hc ++ (filter (.∉ failed) devs ≫= jnl_partitions n)) hc).
Proof.
  revert hc. induction devs as [|d devs IH]; intros hc; cbn [foldl].
  - rewrite !filter_nil. unfold set_failed, set_partitions. cbn.
    by rewrite !app_nil_r, HostConfig_eta.
  - rewrite IH, !filter_cons. unfold update_jnl.
    destruct (contains failed d) eqn:E.
    + apply contains_spec in E. rewrite decide_True, decide_False by (auto; tauto).
      unfold set_failed, set_partitions. cbn. by rewrite <- app_assoc.
    + apply contains_false in E. rewrite decide_False, decide_True by auto.
      rewrite foldl_addJNL. unfold set_failed, set_partitions. cbn.
      by rewrite <- app_assoc.
Qed.

(** The whole update, field by field. *)
Lemma updateDiskPartition_eq failed n hc :
  updateDiskPartition failed n hc =
  {| hc_doneDiskPreparationFlag := hc_doneDiskPreparationFlag hc;
     hc_isPreparingDiskFlag := hc_isPreparingDiskFlag hc;
     hc_pendingOSDDevs := [];
     hc_pendingJNLDevs := [];
     hc_jnlPartsCount := hc_jnlPartsCount hc;
     hc_failedOSDDevs := hc_failedOSDDevs hc ++ filter (.∈ failed) (hc_pendingOSDDevs hc);
     hc_failedJNLDevs := hc_failedJNLDevs hc ++ filter (.∈ failed) (hc_pendingJNLDevs hc);
     hc_osdPartitions :=
       hc_osdPartitions hc ++ (osd_partition <$> filter (.∉ failed) (hc_pendingOSDDevs hc));
     hc_jnlPartitions :=
       hc_jnlPartitions hc ++ (filter (.∉ failed) (hc_pendingJNLDevs hc) ≫= jnl_partitions n);
     hc_originalConfig := hc_originalConfig hc;
     hc_hostname := hc_hostname hc |}.
Proof.
  unfold updateDiskPartition. rewrite foldl_update_osd, foldl_update_jnl. done.
Qed.
End UpdateFacts.

(** ** Histories of a host

    Any sequence of calls of the mutating methods, with the OSD partitions that
    [popOSDPartition] handed out, in order. *)

Inductive host_op :=
  | DoPopOSD
  | DoPopJournal
  | DoUpdate (failedDevs : list string) (jnlPartitionCount : Z)
  | DoOnGoing
  | DoDone.

Section Histories.
Context `{LexicalCast}.

Definition host_exec (o : host_op) (hc : HostConfig) : HostConfig * list string :=
  match o with
  | DoPopOSD => let '(hc', p) := popOSDPartition hc in
                (hc', if decide (hc_osdPartitions hc = []) then [] else [p])
  | DoPopJournal => ((popJournalPartition hc).1, [])
  | DoUpdate failed n => (updateDiskPartition failed n hc, [])
  | DoOnGoing => (setDiskPreparationOnGoing hc, [])
  | DoDone => (setDiskPreparationDone hc, [])
  end.

Fixpoint host_run (ops : list host_op) (hc : HostConfig) : HostConfig * list string :=
  match ops with
  | [] => (hc, [])
  | o :: ops' =>
      let '(hc1, ps) := host_exec o hc in
      let '(hc2, ps') := host_run ops' hc1 in (hc2, ps ++ ps')
  end.

(** The OSD partitions a host can still hand out, now or after preparation. *)
Definition supply (hc : HostConfig) : list string :=
  hc_osdPartitions hc ++ (osd_partition <$> hc_pendingOSDDevs hc).

Lemma popOSD_supply hc :
  hc_osdPartitions hc ≠ [] →
  (popOSDPartition hc).2 :: supply (popOSDPartition hc).1 ≡ₚ supply hc.
Proof.
  unfold popOSDPartition. intros Hne.
  destruct (last (hc_osdPartitions hc)) as [p|] eqn:E; [|by apply last_None in E].
  apply last_Some in E as [l E]. unfold supply. cbn. rewrite E, List.removelast_last.
  rewrite <- app_assoc. cbn. by rewrite Permutation_middle.
Qed.

Lemma sublist_submseteq_osd (failed l : list string) :
  osd_partition <$> filter (.∉ failed) l ⊆+ osd_partition <$> l.
Proof. apply fmap_submseteq, sublist_submseteq, sublist_filter. Qed.

(** Every call takes what it hands out from the supply. *)
Lemma host_exec_supply o hc :
  (host_exec o hc).2 ++ supply (host_exec o hc).1 ⊆+ supply hc.
Proof.
  destruct o as [| |failed n| |]; cbn [host_exec fst snd app].
  - pose proof (popOSD_supply hc) as Hp.
    destruct (popOSDPartition hc) as [hc' p] eqn:E; cbn in *. case_decide as Hn; cbn.
    + unfold popOSDPartition in E. rewrite Hn in E. by simplify_eq/=.
    + by rewrite (Hp Hn).
  - unfold popJournalPartition. by case_match.
  - rewrite updateDiskPartition_eq. unfold supply.
    cbn [hc_osdPartitions hc_pendingOSDDevs fst snd app]. rewrite fmap_nil, app_nil_r.
    apply submseteq_skips_l, sublist_submseteq_osd.
  - done.
  - done.
Qed.

Lemma host_run_supply ops hc :
  (host_run ops hc).2 ++ supply (host_run ops hc).1 ⊆+ supply hc.
Proof.
  revert hc. induction ops as [|o ops IH]; intros hc; cbn; [done|].
  pose proof (host_exec_supply o hc) as Ho.
  destruct (host_exec o hc) as [hc1 ps]. specialize (IH hc1).
  destruct (host_run ops hc1) as [hc2 ps']. cbn in *.
  rewrite <- app_assoc. etrans; [|exact Ho]. by apply submseteq_skips_l.
Qed.
End Histories.

(** ** Properties *)

(** C28. What [updateDiskPartition] does with the pending devices: each OSD
    device that did not fail becomes its one partition, each journal device
    that did not fail becomes its partitions 1 to [jnlPartitionCount], the
    failed devices are recorded as failed, nothing stays pending, and no other
    member changes. *)
Theorem updateDiskPartition_spec `{LexicalCast} (failed : list string) (n : Z) (hc : HostConfig) :
  let hc' := updateDiskPartition failed n hc in
  hc_osdPartitions hc' =
    hc_osdPartitions hc ++ ((λ d, d +:+ "1") <$> filter (.∉ failed) (hc_pendingOSDDevs hc)) ∧
  hc_jnlPartitions hc' =
    hc_jnlPartitions hc ++
      (filter (.∉ failed) (hc_pendingJNLDevs hc) ≫= λ d, (λ j, d +:+ lexical_to_string j) <$> seqZ 1 n) ∧
  hc_failedOSDDevs hc' = hc_failedOSDDevs hc ++ filter (.∈ failed) (hc_pendingOSDDevs hc) ∧
  hc_failedJNLDevs hc' = hc_failedJNLDevs hc ++ filter (.∈ failed) (hc_pendingJNLDevs hc) ∧
  hc_pendingOSDDevs hc' = [] ∧ hc_pendingJNLDevs hc' = [] ∧
  isPreparingDisk hc' = isPreparingDisk hc ∧ haveDoneDiskPreparation hc' = haveDoneDiskPreparation hc ∧
  hc_originalConfig hc' = hc_originalConfig hc ∧ hc_hostname hc' = hc_hostname hc ∧
  hc_jnlPartsCount hc' = hc_jnlPartsCount hc.
Proof. cbn zeta. rewrite updateDiskPartition_eq. by split_and!. Qed.

(** C29. Each configured OSD device is handed out once for each time it is listed,
    at most: from the construction of a host, under any sequence of preparations,
    updates and pops, the partitions that [popOSDPartition] returns are, up to
    their order, among the partitions 1 of the configured devices, as often as
    these are listed at most.  So no partition is handed out twice when no device
    is listed twice, which the code does not check. *)
Theorem popOSDPartition_distinct `{LexicalCast} (hostname : string) (cfg : Config) (ops : list host_op) :
  let handed := (host_run ops (HostConfig_of_config hostname cfg)).2 in
  handed ⊆+ ((λ d, d +:+ "1") <$> cfg_osddevs cfg) ∧ (NoDup (cfg_osddevs cfg) → NoDup handed).
Proof.
  cbn zeta. pose proof (host_run_supply ops (HostConfig_of_config hostname cfg)) as Hs.
  set (handed := (host_run _ _).2) in *.
  assert (Hs' : handed ⊆+ osd_partition <$> cfg_osddevs cfg).
  { etrans; [|exact Hs]. apply submseteq_inserts_r. done. }
  split; [exact Hs'|]. intros Hnd. apply submseteq_Permutation in Hs' as [k Hk].
  assert (Hk' : NoDup (handed ++ k)) by (rewrite <- Hk; by apply (NoDup_fmap_2 osd_partition)).
  by apply NoDup_app in Hk' as [? _].
Qed.

Definition sample_Config : Config :=
  mkConfig "ceph" "*" "m" "z" 8889 8888 "./" "192.168.1.0/16" "10.1.2.0/16" ["sdb"; "sdc"] ["sde"] 2.

(** A device that is listed twice is handed to two OSDs. *)
Lemma popOSDPartition_listed_twice :
  (host_run (H := DecimalCast.cast) [DoUpdate [] 2; DoPopOSD; DoPopOSD]
    (HostConfig_of_config "h" (mkConfig "ceph" "*" "m" "z" 8889 8888 "./" "" "" ["sdb"; "sdb"] [] 2))).2 = ["sdb1"; "sdb1"].
Proof. vm_compute. reflexivity. Qed.

Lemma popOSDPartition_distinct_witness :
  (host_run (H := DecimalCast.cast) [DoOnGoing; DoUpdate ["sdx"] 2; DoDone; DoPopOSD; DoPopOSD; DoPopOSD]
    (HostConfig_of_config "h" sample_Config)).2 = ["sdc1"; "sdb1"] ∧ NoDup ["sdc1"; "sdb1"].
Proof.
  split; [vm_compute; reflexivity|].
  refine (proj2 (popOSDPartition_distinct (H := DecimalCast.cast) "h" sample_Config
    [DoOnGoing; DoUpdate ["sdx"] 2; DoDone; DoPopOSD; DoPopOSD; DoPopOSD]) _).
  apply NoDup_ListNoDup. repeat constructor; cbn; intuition discriminate.
Defined.
