(* ===== verification/TaskMachine.v ===== *)
(** * The scheduler's state machine: [state/StateMachine.hpp] and [.cpp]

    [StateMachine] keeps the tasks, the hosts, the pending OSD ids, the phase
    and three groups of counters ([monRunningNum], [monStagingNum], [monIndex],
    and likewise for OSD and RADOSGW), one [Counters] record per group.  Maps
    keyed by strings are [gmap]s; the order in which [boost::unordered_map] is
    iterated is left to the class [HashOrder]. *)

From S2P Require Import Prelude StringUtil CephTypes ConfigFile HostConfigs.
Open Scope Z_scope.

(** ** Iteration order of an unordered map *)

Class HashOrder := {
  hash_iter {A} : gmap string A → list (string * A);
  hash_iter_perm {A} (m : gmap string A) : hash_iter m ≡ₚ map_to_list m;
}.

Module SomeOrder.
#[refine] Instance order : HashOrder := {| hash_iter A m := map_to_list m |}.
Proof. done. Defined.
End SomeOrder.

(** ** State *)

Record Counters := mkCounters {
  runningNum : Z;
  stagingNum : Z;
  index : Z;
}.

Record StateMachine := mkStateMachine {
  sm_taskMap : gmap string TaskState;
  sm_hostConfigMap : gmap string HostConfig;
  sm_pendingOSDID : list Z;
  sm_currentPhase : Phase;
  sm_mon : Counters;
  sm_osd : Counters;
  sm_radosgw : Counters;
  sm_config : Config;
  sm_defaultHostConfig : HostConfig;
}.

Definition set_taskMap (f : gmap string TaskState → gmap string TaskState) (sm : StateMachine) : StateMachine :=
  mkStateMachine (f (sm_taskMap sm)) (sm_hostConfigMap sm) (sm_pendingOSDID sm) (sm_currentPhase sm)
    (sm_mon sm) (sm_osd sm) (sm_radosgw sm) (sm_config sm) (sm_defaultHostConfig sm).
Definition set_hostConfigMap (f : gmap string HostConfig → gmap string HostConfig) (sm : StateMachine) : StateMachine :=
  mkStateMachine (sm_taskMap sm) (f (sm_hostConfigMap sm)) (sm_pendingOSDID sm) (sm_currentPhase sm)
    (sm_mon sm) (sm_osd sm) (sm_radosgw sm) (sm_config sm) (sm_defaultHostConfig sm).
Definition set_pendingOSDID (l : list Z) (sm : StateMachine) : StateMachine :=
  mkStateMachine (sm_taskMap sm) (sm_hostConfigMap sm) l (sm_currentPhase sm)
    (sm_mon sm) (sm_osd sm) (sm_radosgw sm) (sm_config sm) (sm_defaultHostConfig sm).
Definition set_currentPhase (p : Phase) (sm : StateMachine) : StateMachine :=
  mkStateMachine (sm_taskMap sm) (sm_hostConfigMap sm) (sm_pendingOSDID sm) p
    (sm_mon sm) (sm_osd sm) (sm_radosgw sm) (sm_config sm) (sm_defaultHostConfig sm).
Definition set_defaultHostConfig (f : HostConfig → HostConfig) (sm : StateMachine) : StateMachine :=
  mkStateMachine (sm_taskMap sm) (sm_hostConfigMap sm) (sm_pendingOSDID sm) (sm_currentPhase sm)
    (sm_mon sm) (sm_osd sm) (sm_radosgw sm) (sm_config sm) (f (sm_defaultHostConfig sm)).

(** The counters of a task type, and [switch (taskType) ...] updating them. *)
Definition counters (t : TaskType) (sm : StateMachine) : Counters :=
  match t with MON => sm_mon sm | OSD => sm_osd sm | RADOSGW => sm_radosgw sm end.

Definition on_counters (t : TaskType) (f : Counters → Counters) (sm : StateMachine) : StateMachine :=
  let at_type u c := if decide (t = u) then f c else c in
  mkStateMachine (sm_taskMap sm) (sm_hostConfigMap sm) (sm_pendingOSDID sm) (sm_currentPhase sm)
    (at_type MON (sm_mon sm)) (at_type OSD (sm_osd sm)) (at_type RADOSGW (sm_radosgw sm))
    (sm_config sm) (sm_defaultHostConfig sm).

Definition add_running (d : Z) (c : Counters) : Counters :=
  mkCounters (runningNum c + d) (stagingNum c) (index c).
Definition add_staging (d : Z) (c : Counters) : Counters :=
  mkCounters (runningNum c) (stagingNum c + d) (index c).
Definition add_index (d : Z) (c : Counters) : Counters :=
  mkCounters (runningNum c) (stagingNum c) (index c + d).

(** [StateMachine(Config *_config)]. *)
Definition new_StateMachine `{Indeterminate} (config : Config) : StateMachine :=
  {| sm_taskMap := ∅;
     sm_hostConfigMap := ∅;
     sm_pendingOSDID := [];
     sm_currentPhase := BOOTSTRAP_MON;
     sm_mon := mkCounters 0 0 0;
     sm_osd := mkCounters 0 0 0;
     sm_radosgw := mkCounters 0 0 0;
     sm_config := config;
     sm_defaultHostConfig := default_HostConfig config |}.

(** ** Tasks *)

Definition addStagingTask (taskId executorId : string) (taskType : TaskType)
    (hostname slaveId : string) (sm : StateMachine) : StateMachine :=
  let currentStatus := STAGING in
  let sm := on_counters taskType (add_staging 1) sm in
  let taskState := mkTaskState taskId executorId taskType hostname slaveId currentStatus in
  set_taskMap <[taskId := taskState]> sm.

Definition updateCounters (taskType : TaskType) (oldStatus newStatus : Status) (sm : StateMachine) : StateMachine :=
  let sm :=
    if (bool_decide (oldStatus = STAGING) || bool_decide (oldStatus = STARTING))
       && bool_decide (newStatus = RUNNING)
    then on_counters taskType (λ c, add_staging (-1) (add_running 1 c)) sm else sm in
  let sm :=
    if bool_decide (oldStatus = STAGING) && bool_decide (newStatus = FAILED)
    then on_counters taskType (add_staging (-1)) sm else sm in
  if bool_decide (oldStatus = RUNNING) && bool_decide (newStatus = FAILED)
  then on_counters taskType (add_running (-1)) sm else sm.

Definition moveState (sm : StateMachine) : StateMachine :=
  if runningNum (sm_mon sm) <? 1 then set_currentPhase BOOTSTRAP_MON sm
  else if runningNum (sm_osd sm) <? 3 then set_currentPhase BOOTSTRAP_OSD sm
  else if runningNum (sm_radosgw sm) <? 1 then set_currentPhase BOOTSTRAP_RADOSGW sm
  else set_currentPhase WAINTING_REQUEST sm.

Definition decreaseOSDIndex (sm : StateMachine) : StateMachine := on_counters OSD (add_index (-1)) sm.

(** The common part of the four [updateTaskTo...]: counters, then the status. *)
Definition set_status (taskId : string) (taskState : TaskState) (newStatus : Status) (sm : StateMachine) : StateMachine :=
  let sm := updateCounters (ts_taskType taskState) (ts_currentStatus taskState) newStatus sm in
  set_taskMap <[taskId := set_currentStatus newStatus taskState]> sm.

Definition updateTaskToRunning (taskId : string) (sm : StateMachine) : StateMachine :=
  match sm_taskMap sm !! taskId with
  | Some taskState => moveState (set_status taskId taskState RUNNING sm)
  | None => sm
  end.

Definition updateTaskToWaitingOSDID (taskId : string) (sm : StateMachine) : StateMachine :=
  match sm_taskMap sm !! taskId with
  | Some taskState => set_status taskId taskState WAITING_OSDID sm
  | None => sm
  end.

Definition updateTaskToStarting (taskId : string) (sm : StateMachine) : StateMachine :=
  match sm_taskMap sm !! taskId with
  | Some taskState => set_status taskId taskState STARTING sm
  | None => sm
  end.

Definition updateTaskToFailed (taskId : string) (sm : StateMachine) : StateMachine :=
  match sm_taskMap sm !! taskId with
  | Some taskState => moveState (set_status taskId taskState FAILED sm)
  | None => sm
  end.

(** ** Hosts

    [getConfig] returns a pointer: to the entry of the map, which is never
    erased, or to [defaultHostConfig]. *)

Inductive HostRef := InMap (hostname : string) | DefaultHost.

Definition getConfig (hostname : string) (sm : StateMachine) : HostRef :=
  match sm_hostConfigMap sm !! hostname with
  | Some _ => InMap hostname
  | None => DefaultHost
  end.

Definition deref (r : HostRef) (sm : StateMachine) : HostConfig :=
  match r with
  | InMap h => default (sm_defaultHostConfig sm) (sm_hostConfigMap sm !! h)
  | DefaultHost => sm_defaultHostConfig sm
  end.

Definition update_host (r : HostRef) (f : HostConfig → HostConfig) (sm : StateMachine) : StateMachine :=
  match r with
  | InMap h => set_hostConfigMap (alter f h) sm
  | DefaultHost => set_defaultHostConfig f sm
  end.

(** [addConfig]: on a known host, a copy of its entry is reloaded and dropped. *)
Definition addConfig `{Yaml} (flags : Flags) (files : Files) (hostname : string)
    (sm : StateMachine) : outcome StateMachine :=
  match sm_hostConfigMap sm !! hostname with
  | Some entry => let hc := reload entry in Ret sm
  | None =>
      hc ← new_HostConfig flags files hostname;
      Ret (set_hostConfigMap <[hostname := hc]> sm)
  end.

(** ** [nextMove]

    The result is the new state, the returned bool and the two reference
    parameters. *)
Definition nextMove (taskType : TaskType) (token : Z) (hostName : string) (sm : StateMachine)
    : StateMachine * (bool * TaskType * Z) :=
  let currentPhase := sm_currentPhase sm in
  let hostconfig := getConfig hostName sm in
  if isPreparingDisk (deref hostconfig sm) then (sm, (false, taskType, token))
  else match currentPhase with
  | RECONCILING_TASKS | BOOTSTRAP_MON =>
      if (stagingNum (sm_mon sm) <? 1) && (stagingNum (sm_mon sm) + runningNum (sm_mon sm) <? 1)
      then (on_counters MON (add_index 1) sm, (true, MON, index (sm_mon sm)))
      else (sm, (false, MON, token))
  | BOOTSTRAP_OSD =>
      if (stagingNum (sm_osd sm) <? 3) && (stagingNum (sm_osd sm) + runningNum (sm_osd sm) <? 3)
      then (on_counters OSD (add_index 1) sm, (true, OSD, index (sm_osd sm)))
      else (sm, (false, OSD, token))
  | BOOTSTRAP_RADOSGW =>
      if stagingNum (sm_radosgw sm) <? 1
      then (on_counters RADOSGW (add_index 1) sm, (true, RADOSGW, index (sm_radosgw sm)))
      else (sm, (false, RADOSGW, token))
  | WAINTING_REQUEST => (on_counters OSD (add_index 1) sm, (true, OSD, index (sm_osd sm)))
  end.

(** ** Queries *)

(** The loop of [getInitialMon]: when no id starts with "mon0", the last task
    visited is what is returned. *)
Fixpoint initial_mon_loop (tasks : list (string * TaskState)) (taskState : TaskState) : TaskState :=
  match tasks with
  | [] => taskState
  | (_, t) :: tasks' =>
      if String.prefix "mon0" (ts_taskId t) then t else initial_mon_loop tasks' t
  end.

Definition getInitialMon `{Indeterminate, HashOrder} (sm : StateMachine) : TaskState :=
  initial_mon_loop (hash_iter (sm_taskMap sm)) default_TaskState.

Definition is_waiting_osd (t : TaskState) : bool :=
  bool_decide (ts_taskType t = OSD) && bool_decide (ts_currentStatus t = WAITING_OSDID).

Definition getWaitingOSDTask `{HashOrder} (sm : StateMachine) : list TaskState :=
  filter is_waiting_osd (snd <$> hash_iter (sm_taskMap sm)).

Definition addPendingOSDID (osdID : Z) (sm : StateMachine) : StateMachine :=
  set_pendingOSDID (sm_pendingOSDID sm ++ [osdID]) sm.

Definition getPendingOSDID (sm : StateMachine) : list Z := sm_pendingOSDID sm.

Definition getCurrentPhase (sm : StateMachine) : Phase := sm_currentPhase sm.

(** ** The counters under each operation *)

Ltac sm_unfold := unfold on_counters, set_taskMap, set_hostConfigMap, set_pendingOSDID,
  set_currentPhase, set_defaultHostConfig, add_running, add_staging, add_index in *.

Create Rewrite HintDb sm.

Lemma counters_on_counters t u f sm :
  counters t (on_counters u f sm) = if decide (u = t) then f (counters t sm) else counters t sm.
Proof. by destruct t, u. Qed.
Lemma counters_set_taskMap t f sm : counters t (set_taskMap f sm) = counters t sm.
Proof. by destruct t. Qed.
Lemma counters_set_hostConfigMap t f sm : counters t (set_hostConfigMap f sm) = counters t sm.
Proof. by destruct t. Qed.
Lemma counters_set_pendingOSDID t l sm : counters t (set_pendingOSDID l sm) = counters t sm.
Proof. by destruct t. Qed.
Lemma counters_set_currentPhase t p sm : counters t (set_currentPhase p sm) = counters t sm.
Proof. by destruct t. Qed.
Lemma counters_set_defaultHostConfig t f sm : counters t (set_defaultHostConfig f sm) = counters t sm.
Proof. by destruct t. Qed.
Lemma counters_moveState t sm : counters t (moveState sm) = counters t sm.
Proof. unfold moveState. repeat case_match; apply counters_set_currentPhase. Qed.
Lemma taskMap_moveState sm : sm_taskMap (moveState sm) = sm_taskMap sm.
Proof. unfold moveState. by repeat case_match. Qed.
Lemma taskMap_updateCounters t o n sm : sm_taskMap (updateCounters t o n sm) = sm_taskMap sm.
Proof. unfold updateCounters. by repeat case_match. Qed.
#[export] Hint Rewrite counters_on_counters counters_set_taskMap counters_set_hostConfigMap
  counters_set_pendingOSDID counters_set_currentPhase counters_set_defaultHostConfig
  counters_moveState taskMap_moveState taskMap_updateCounters : sm.

(** What [updateCounters] adds to the two counters of the task's type. *)
Definition running_delta (old new : Status) : Z :=
  match old, new with
  | (STAGING | STARTING), RUNNING => 1
  | RUNNING, FAILED => -1
  | _, _ => 0
  end.
Definition staging_delta (old new : Status) : Z :=
  match old, new with
  | (STAGING | STARTING), RUNNING => -1
  | STAGING, FAILED => -1
  | _, _ => 0
  end.

Definition bump (old new : Status) (c : Counters) : Counters :=
  mkCounters (runningNum c + running_delta old new) (stagingNum c + staging_delta old new) (index c).

Lemma counters_updateCounters t u old new sm :
  counters t (updateCounters u old new sm) =
  if decide (u = t) then bump old new (counters t sm) else counters t sm.
Proof.
  unfold updateCounters, bump.
  destruct old, new; repeat (case_bool_decide; try congruence); cbn;
    rewrite ?counters_on_counters; case_decide; try done;
    destruct (counters t sm); unfold add_running, add_staging; cbn; f_equal; lia.
Qed.
#[export] Hint Rewrite counters_updateCounters : sm.

Lemma counters_set_status t taskId ts new sm :
  counters t (set_status taskId ts new sm) =
  if decide (ts_taskType ts = t) then bump (ts_currentStatus ts) new (counters t sm) else counters t sm.
Proof. unfold set_status. by autorewrite with sm. Qed.
#[export] Hint Rewrite counters_set_status : sm.

Lemma taskMap_set_status taskId ts new sm :
  sm_taskMap (set_status taskId ts new sm) = <[taskId := set_currentStatus new ts]> (sm_taskMap sm).
Proof. unfold set_status. cbn. by autorewrite with sm. Qed.
#[export] Hint Rewrite taskMap_set_status : sm.

(** ** The four status updates as one

    [updateTaskTo new] is the function of the class for each of the four
    statuses the scheduler sets; it lets a lemma speak of all of them. *)
Inductive Update := ToRunning | ToWaitingOSDID | ToStarting | ToFailed.
#[export] Instance Update_eq_dec : EqDecision Update.
Proof. solve_decision. Defined.

Definition update_status (u : Update) : Status :=
  match u with
  | ToRunning => RUNNING | ToWaitingOSDID => WAITING_OSDID
  | ToStarting => STARTING | ToFailed => FAILED
  end.

Definition updateTaskTo (u : Update) : string → StateMachine → StateMachine :=
  match u with
  | ToRunning => updateTaskToRunning
  | ToWaitingOSDID => updateTaskToWaitingOSDID
  | ToStarting => updateTaskToStarting
  | ToFailed => updateTaskToFailed
  end.

Lemma updateTaskTo_unknown u taskId sm :
  sm_taskMap sm !! taskId = None → updateTaskTo u taskId sm = sm.
Proof.
  intros E. destruct u; cbn; unfold updateTaskToRunning, updateTaskToWaitingOSDID,
    updateTaskToStarting, updateTaskToFailed; by rewrite E.
Qed.

Lemma updateTaskTo_known u taskId ts sm :
  sm_taskMap sm !! taskId = Some ts →
  sm_taskMap (updateTaskTo u taskId sm) = <[taskId := set_currentStatus (update_status u) ts]> (sm_taskMap sm) ∧
  ∀ t, counters t (updateTaskTo u taskId sm) =
       counters t (set_status taskId ts (update_status u) sm).
Proof.
  intros E. destruct u; cbn; unfold updateTaskToRunning, updateTaskToWaitingOSDID,
    updateTaskToStarting, updateTaskToFailed; rewrite E; autorewrite with sm;
    (split; [done|intros t; by autorewrite with sm]).
Qed.

(** ** The phase is a function of the running counters *)

Definition phase_of (sm : StateMachine) : Phase :=
  if runningNum (counters MON sm) <? 1 then BOOTSTRAP_MON
  else if runningNum (counters OSD sm) <? 3 then BOOTSTRAP_OSD
  else if runningNum (counters RADOSGW sm) <? 1 then BOOTSTRAP_RADOSGW
  else WAINTING_REQUEST.

Definition coherent (sm : StateMachine) : Prop := sm_currentPhase sm = phase_of sm.

Lemma phase_of_ext sm sm' :
  (∀ t, runningNum (counters t sm) = runningNum (counters t sm')) → phase_of sm = phase_of sm'.
Proof. intros E. unfold phase_of. by rewrite (E MON), (E OSD), (E RADOSGW). Qed.

Lemma coherent_ext sm sm' :
  sm_currentPhase sm' = sm_currentPhase sm →
  (∀ t, runningNum (counters t sm') = runningNum (counters t sm)) → coherent sm → coherent sm'.
Proof. unfold coherent. intros -> E ->. symmetry. by apply phase_of_ext. Qed.

Lemma moveState_coherent sm : coherent (moveState sm).
Proof.
  unfold coherent. rewrite (phase_of_ext (moveState sm) sm).
  - unfold phase_of, moveState. cbn [counters]. by repeat case_match.
  - intros t. by rewrite counters_moveState.
Qed.

Lemma phase_updateCounters t o n sm : sm_currentPhase (updateCounters t o n sm) = sm_currentPhase sm.
Proof. unfold updateCounters. by repeat case_match. Qed.

Lemma updateTaskTo_coherent u taskId sm : coherent sm → coherent (updateTaskTo u taskId sm).
Proof.
  intros Hc. destruct (sm_taskMap sm !! taskId) as [ts|] eqn:E;
    [|by rewrite updateTaskTo_unknown].
  destruct u; cbn; unfold updateTaskToRunning, updateTaskToWaitingOSDID,
    updateTaskToStarting, updateTaskToFailed; rewrite E; try apply moveState_coherent.
  - revert Hc. apply coherent_ext; [apply phase_updateCounters|]. intros t.
    autorewrite with sm. case_decide; [|done]. destruct (ts_currentStatus ts); cbn; lia.
  - revert Hc. apply coherent_ext; [apply phase_updateCounters|]. intros t.
    autorewrite with sm. case_decide; [|done]. destruct (ts_currentStatus ts); cbn; lia.
Qed.

Lemma on_counters_coherent t f sm :
  (∀ c, runningNum (f c) = runningNum c) → coherent sm → coherent (on_counters t f sm).
Proof.
  intros Hf. apply coherent_ext; [done|]. intros u. autorewrite with sm. by case_decide.
Qed.

(** ** Accounting

    The counters are meant to count tasks: the running ones, and the ones in
    flight (launched, not yet running).  [accounted] says they do. *)

Definition in_flight (s : Status) : bool :=
  match s with STAGING | WAITING_OSDID | STARTING => true | _ => false end.
Definition is_running (s : Status) : bool :=
  match s with RUNNING => true | _ => false end.

Definition running_task (t : TaskType) (ts : TaskState) : bool :=
  bool_decide (ts_taskType ts = t) && is_running (ts_currentStatus ts).
Definition in_flight_task (t : TaskType) (ts : TaskState) : bool :=
  bool_decide (ts_taskType ts = t) && in_flight (ts_currentStatus ts).

Definition num_running (t : TaskType) (sm : StateMachine) : Z :=
  count_map (running_task t) (sm_taskMap sm).
Definition num_in_flight (t : TaskType) (sm : StateMachine) : Z :=
  count_map (in_flight_task t) (sm_taskMap sm).

Definition accounted (sm : StateMachine) : Prop :=
  ∀ t, runningNum (counters t sm) = num_running t sm ∧
       stagingNum (counters t sm) = num_in_flight t sm.

(** The status changes [updateCounters] accounts for. *)
Definition change_accounted (old new : Status) : bool :=
  match old, new with
  | (STAGING | STARTING | RUNNING), RUNNING => true
  | (STAGING | WAITING_OSDID | STARTING), (WAITING_OSDID | STARTING) => true
  | (STAGING | RUNNING | FAILED | FINISHED | UNKNOWN), FAILED => true
  | _, _ => false
  end.

Lemma set_status_num t taskId ts new sm :
  sm_taskMap sm !! taskId = Some ts →
  num_running t (set_status taskId ts new sm) = num_running t sm +
    (if decide (ts_taskType ts = t)
     then Z.b2z (is_running new) - Z.b2z (is_running (ts_currentStatus ts)) else 0) ∧
  num_in_flight t (set_status taskId ts new sm) = num_in_flight t sm +
    (if decide (ts_taskType ts = t)
     then Z.b2z (in_flight new) - Z.b2z (in_flight (ts_currentStatus ts)) else 0).
Proof.
  intros E. unfold num_running, num_in_flight. autorewrite with sm.
  rewrite !(count_map_insert_update _ _ _ _ _ E). unfold running_task, in_flight_task. cbn.
  case_decide; [rewrite bool_decide_true by done|rewrite bool_decide_false by done]; cbn; lia.
Qed.

Lemma num_ext t sm sm' : sm_taskMap sm' = sm_taskMap sm →
  num_running t sm' = num_running t sm ∧ num_in_flight t sm' = num_in_flight t sm.
Proof. unfold num_running, num_in_flight. by intros ->. Qed.

Lemma accounted_ext sm sm' :
  sm_taskMap sm' = sm_taskMap sm →
  (∀ t, runningNum (counters t sm') = runningNum (counters t sm) ∧
        stagingNum (counters t sm') = stagingNum (counters t sm)) →
  accounted sm → accounted sm'.
Proof.
  intros Em Ec Ha t. destruct (num_ext t sm sm' Em) as [-> ->].
  destruct (Ec t) as [-> ->]. apply Ha.
Qed.

(** The change of the counters and of the numbers agree exactly on the
    accounted changes. *)
Lemma set_status_accounted taskId ts u sm :
  sm_taskMap sm !! taskId = Some ts → accounted sm →
  accounted (set_status taskId ts (update_status u) sm) ↔
  change_accounted (ts_currentStatus ts) (update_status u) = true.
Proof.
  intros E Ha. unfold accounted.
  split.
  - intros H. destruct (H (ts_taskType ts)) as [Hr Hs], (Ha (ts_taskType ts)) as [Hr0 Hs0].
    destruct (set_status_num (ts_taskType ts) taskId ts (update_status u) sm E) as [Er Es].
    rewrite Er in Hr. rewrite Es in Hs. autorewrite with sm in Hr, Hs.
    rewrite !decide_True in Hr, Hs by done. cbn in Hr, Hs.
    rewrite Hr0 in Hr. rewrite Hs0 in Hs.
    destruct u, (ts_currentStatus ts); cbn in *; (done || lia).
  - intros Hc t. destruct (Ha t) as [Hr0 Hs0].
    destruct (set_status_num t taskId ts (update_status u) sm E) as [-> ->].
    autorewrite with sm. case_decide; cbn; [|lia].
    destruct u, (ts_currentStatus ts); cbn in *; (done || lia).
Qed.

Lemma updateTaskTo_accounted u taskId ts sm :
  sm_taskMap sm !! taskId = Some ts → accounted sm →
  accounted (updateTaskTo u taskId sm) ↔
  change_accounted (ts_currentStatus ts) (update_status u) = true.
Proof.
  intros E Ha. rewrite <- (set_status_accounted taskId ts u sm E Ha).
  destruct (updateTaskTo_known u taskId ts sm E) as [Em Ec].
  rewrite <- (taskMap_set_status taskId ts _ sm) in Em.
  split; apply accounted_ext; (done || (intros t; by rewrite Ec)).
Qed.

Lemma addStagingTask_accounted taskId e t h s sm :
  sm_taskMap sm !! taskId = None → accounted sm → accounted (addStagingTask taskId e t h s sm).
Proof.
  intros E Ha u. unfold num_running, num_in_flight, addStagingTask. cbn [sm_taskMap set_taskMap].
  autorewrite with sm. rewrite !count_map_insert_new by done.
  destruct (Ha u) as [Hr Hs]. unfold running_task, in_flight_task. cbn.
  unfold num_running, num_in_flight, running_task, in_flight_task in Hr, Hs.
  case_decide; [rewrite bool_decide_true by done|rewrite bool_decide_false by done]; cbn; lia.
Qed.

(** ** Slots

    The tasks a counter group holds, running or staging.  No status update
    ever increases them, whatever the order of the reports. *)
Definition slots (t : TaskType) (sm : StateMachine) : Z :=
  runningNum (counters t sm) + stagingNum (counters t sm).

Lemma updateTaskTo_slots u t taskId sm : slots t (updateTaskTo u taskId sm) ≤ slots t sm.
Proof.
  destruct (sm_taskMap sm !! taskId) as [ts|] eqn:E; [|by rewrite updateTaskTo_unknown].
  unfold slots. destruct (updateTaskTo_known u taskId ts sm E) as [_ ->].
  autorewrite with sm. case_decide; [|done]. cbn.
  destruct u, (ts_currentStatus ts); cbn; lia.
Qed.

Lemma updateTaskTo_index u t taskId sm :
  index (counters t (updateTaskTo u taskId sm)) = index (counters t sm).
Proof.
  destruct (sm_taskMap sm !! taskId) as [ts|] eqn:E; [|by rewrite updateTaskTo_unknown].
  destruct (updateTaskTo_known u taskId ts sm E) as [_ ->].
  autorewrite with sm. by case_decide.
Qed.

Lemma addStagingTask_counters taskId e t h s u sm :
  counters u (addStagingTask taskId e t h s sm) =
  if decide (t = u) then add_staging 1 (counters u sm) else counters u sm.
Proof. unfold addStagingTask. by autorewrite with sm. Qed.
#[export] Hint Rewrite addStagingTask_counters : sm.

(** ** [nextMove] case by case *)

Inductive nextMove_case (t0 : TaskType) (k0 : Z) (h : string) (sm : StateMachine) :
    StateMachine * (bool * TaskType * Z) → Prop :=
  | NM_preparing :
      isPreparingDisk (deref (getConfig h sm) sm) = true →
      nextMove_case t0 k0 h sm (sm, (false, t0, k0))
  | NM_declined t :
      isPreparingDisk (deref (getConfig h sm) sm) = false →
      nextMove_case t0 k0 h sm (sm, (false, t, k0))
  | NM_accepted t :
      isPreparingDisk (deref (getConfig h sm) sm) = false →
      (t = MON → slots MON sm < 1) →
      (t = OSD → sm_currentPhase sm = WAINTING_REQUEST ∨ slots OSD sm < 3) →
      (t = RADOSGW → sm_currentPhase sm = BOOTSTRAP_RADOSGW ∧ stagingNum (counters RADOSGW sm) < 1) →
      (sm_currentPhase sm = WAINTING_REQUEST → t = OSD) →
      nextMove_case t0 k0 h sm (on_counters t (add_index 1) sm, (true, t, index (counters t sm))).

Lemma nextMove_cases t0 k0 h sm : nextMove_case t0 k0 h sm (nextMove t0 k0 h sm).
Proof.
  unfold nextMove. destruct (isPreparingDisk _) eqn:Ep; [by apply NM_preparing|].
  destruct (sm_currentPhase sm) eqn:Eph.
  1,2: destruct (_ && _) eqn:E; [|by apply NM_declined];
    apply andb_true_iff in E as [E1 E2]; apply Z.ltb_lt in E1, E2;
    apply (NM_accepted _ _ _ _ MON); try done; try congruence; intros _; unfold slots; cbn; lia.
  - destruct (_ && _) eqn:E; [|by apply NM_declined];
    apply andb_true_iff in E as [E1 E2]; apply Z.ltb_lt in E1, E2.
    apply (NM_accepted _ _ _ _ OSD); try done. intros _. right. unfold slots; cbn; lia.
  - destruct (_ <? _) eqn:E; [|by apply NM_declined]. apply Z.ltb_lt in E.
    apply (NM_accepted _ _ _ _ RADOSGW); try done. congruence.
  - apply (NM_accepted _ _ _ _ OSD); auto; done.
Qed.

(** ** Queries over the task map *)

Section Queries.
Context `{Indeterminate, HashOrder}.

Lemma elem_of_hash_iter {A} (m : gmap string A) k x :
  (k, x) ∈ hash_iter m ↔ m !! k = Some x.
Proof. by rewrite (hash_iter_perm m), elem_of_map_to_list. Qed.

Lemma elem_of_waiting sm ts :
  ts ∈ getWaitingOSDTask sm ↔
  is_waiting_osd ts = true ∧ ∃ k, sm_taskMap sm !! k = Some ts.
Proof.
  unfold getWaitingOSDTask. rewrite list_elem_of_filter, list_elem_of_fmap, Is_true_true.
  split.
  - intros (Hw & [k ts'] & -> & Hin%elem_of_hash_iter). eauto.
  - intros (Hw & k & Hk). split; [done|]. exists (k, ts). by rewrite elem_of_hash_iter.
Qed.

Lemma initial_mon_loop_found l d ts :
  (∃ k, (k, ts) ∈ l) → String.prefix "mon0" (ts_taskId ts) = true →
  (∀ k t, (k, t) ∈ l → String.prefix "mon0" (ts_taskId t) = true → t = ts) →
  initial_mon_loop l d = ts.
Proof.
  revert d. induction l as [|[k' t'] l IH]; intros d [k Hin] Hp Hu; [by apply not_elem_of_nil in Hin|].
  cbn. destruct (String.prefix "mon0" (ts_taskId t')) eqn:E.
  - apply (Hu k'); [by left|done].
  - apply elem_of_cons in Hin as [Heq|Hin]; [simplify_eq; congruence|].
    apply IH; eauto. intros k2 t2 H2. apply (Hu k2). by right.
Qed.

Lemma initial_mon_loop_none l d :
  (∀ k t, (k, t) ∈ l → String.prefix "mon0" (ts_taskId t) = false) →
  initial_mon_loop l d = default d (snd <$> last l).
Proof.
  revert d. induction l as [|[k' t'] l IH]; intros d Hn; [done|].
  cbn. rewrite (Hn k' t') by (by left). rewrite IH by (intros; eapply Hn; by right).
  destruct l as [|p l]; [done|]. rewrite last_cons_cons. by destruct (last (p :: l)) eqn:E; [|apply last_None in E].
Qed.
End Queries.

(** ** Machines that differ only in their hosts

    Disk preparation and the partitions handed out change [hostConfigMap]; the
    tasks, counters, phase and OSD ids do not depend on it.  [core_eq] is that
    equivalence, and the operations on the core respect it. *)

Record core_eq (sm sm' : StateMachine) : Prop := {
  core_tasks : sm_taskMap sm' = sm_taskMap sm;
  core_ids : sm_pendingOSDID sm' = sm_pendingOSDID sm;
  core_phase : sm_currentPhase sm' = sm_currentPhase sm;
  core_counters t : counters t sm' = counters t sm;
}.

#[export] Instance core_eq_equiv : Equivalence core_eq.
Proof.
  split.
  - by intros sm.
  - intros sm sm' [E1 E2 E3 E4]. by split.
  - intros sm1 sm2 sm3 [E1 E2 E3 E4] [F1 F2 F3 F4]. split; intros; congruence.
Qed.

#[export] Instance coherent_proper : Proper (core_eq ==> iff) coherent.
Proof.
  intros sm sm' [_ _ Ep Ec]. split; apply coherent_ext; congruence.
Qed.

#[export] Instance accounted_proper : Proper (core_eq ==> iff) accounted.
Proof.
  intros sm sm' [Et _ _ Ec].
  split; apply accounted_ext; (done || (intros t; by rewrite Ec)).
Qed.

#[export] Instance slots_proper t : Proper (core_eq ==> eq) (slots t).
Proof. intros sm sm' [_ _ _ Ec]. unfold slots. by rewrite Ec. Qed.

#[export] Instance on_counters_proper t f : Proper (core_eq ==> core_eq) (on_counters t f).
Proof.
  intros sm sm' [Et Ei Ep Ec]. split; [done..|]. intros u. autorewrite with sm. by rewrite Ec.
Qed.

#[export] Instance addStagingTask_proper i e t h s : Proper (core_eq ==> core_eq) (addStagingTask i e t h s).
Proof.
  intros sm sm' [Et Ei Ep Ec]. split; cbn; [by f_equal|done|done|].
  intros u. autorewrite with sm. by rewrite Ec.
Qed.

Lemma core_eq_hosts f sm : core_eq sm (set_hostConfigMap f sm).
Proof. split; [done..|]. by intros []. Qed.

Lemma core_eq_update_host r f sm : core_eq sm (update_host r f sm).
Proof. destruct r; (split; [done..|by intros []]). Qed.

Lemma core_eq_addConfig `{Yaml} flags files h sm sm' :
  addConfig flags files h sm = Ret sm' → core_eq sm sm'.
Proof.
  unfold addConfig, mbind, outcome_bind. intros E. case_match; simplify_eq; [done|].
  destruct (new_HostConfig flags files h); simplify_eq. apply core_eq_hosts.
Qed.

Lemma on_counters_cancel t (f g : Counters → Counters) sm :
  (∀ c, g (f c) = c) → on_counters t g (on_counters t f sm) = sm.
Proof.
  intros Hfg. destruct sm. unfold on_counters. cbn. repeat case_decide; by rewrite ?Hfg.
Qed.

(** ** The decision of [nextMove] as a specification on numbers of tasks *)

Definition decide_move (running inflight : TaskType → Z) : bool * TaskType :=
  if running MON <? 1 then (inflight MON + running MON <? 1, MON)
  else if running OSD <? 3 then (inflight OSD + running OSD <? 3, OSD)
  else if running RADOSGW <? 1 then (inflight RADOSGW <? 1, RADOSGW)
  else (true, OSD).

Lemma ltb_absorb a b k : 0 ≤ b → (a <? k) && (a + b <? k) = (a + b <? k).
Proof.
  intros Hb. destruct (Z.ltb_spec (a + b) k); [|by rewrite andb_false_r].
  rewrite andb_true_r. apply Z.ltb_lt. lia.
Qed.

Lemma num_nonneg t sm : 0 ≤ num_running t sm ∧ 0 ≤ num_in_flight t sm.
Proof. split; apply count_map_nonneg. Qed.

(** ** Properties *)

(** C11. In a state whose counters count its tasks and whose phase agrees with
    them, [nextMove] implements a decision on the tasks themselves.  On a host
    whose disks are being prepared it declines and changes nothing, reference
    parameters included.  On any other host: a MON while none runs and none is in
    flight, then OSDs up to three, then a RADOSGW while none is in flight, then an
    OSD per offer; the token is the index of the type, which is then incremented,
    and an offer that is declined changes only the type. *)
Theorem nextMove_refines_task_counts (sm : StateMachine) (taskType : TaskType) (token : Z) (host : string) :
  accounted sm → coherent sm →
  nextMove taskType token host sm =
    if isPreparingDisk (deref (getConfig host sm) sm) then (sm, (false, taskType, token))
    else
      let '(accept, t) := decide_move (λ t, num_running t sm) (λ t, num_in_flight t sm) in
      if accept then (on_counters t (add_index 1) sm, (true, t, index (counters t sm)))
      else (sm, (false, t, token)).
Proof.
  intros Ha Hc. unfold nextMove. rewrite Hc. destruct (isPreparingDisk _); [done|]. unfold phase_of, decide_move.
  destruct (Ha MON) as [Em1 Em2], (Ha OSD) as [Eo1 Eo2], (Ha RADOSGW) as [Er1 Er2].
  rewrite <- Em1, <- Em2, <- Eo1, <- Eo2, <- Er1, <- Er2. cbn [counters] in *.
  pose proof (num_nonneg MON sm). pose proof (num_nonneg OSD sm).
  rewrite !ltb_absorb by lia.
  repeat match goal with |- context [if ?b then _ else _] => destruct b end; done.
Qed.

Definition mon0_task : TaskState := mkTaskState "mon0.h.s" "e" MON "h" "s" RUNNING.
Definition osd_task (n : string) (st : Status) : TaskState :=
  mkTaskState n "e" OSD "h" "s" st.

(** A state past the MON phase with three OSDs that were given their ids. *)
Definition three_starting : StateMachine :=
  {| sm_taskMap := <["mon0.h.s" := mon0_task]> (<["a" := osd_task "a" STARTING]>
       (<["b" := osd_task "b" STARTING]> (<["c" := osd_task "c" WAITING_OSDID]> ∅)));
     sm_hostConfigMap := ∅;
     sm_pendingOSDID := [];
     sm_currentPhase := BOOTSTRAP_OSD;
     sm_mon := mkCounters 1 0 1;
     sm_osd := mkCounters 0 3 3;
     sm_radosgw := mkCounters 0 0 0;
     sm_config := sample_Config;
     sm_defaultHostConfig := HostConfig_of_config "" sample_Config |}.

Lemma three_starting_accounted : accounted three_starting.
Proof. intros []; split; vm_compute; reflexivity. Qed.

Lemma nextMove_refines_task_counts_witness :
  (nextMove MON 0 "h" three_starting).2 = (false, OSD, 0).
Proof.
  rewrite (nextMove_refines_task_counts three_starting MON 0 "h");
    [vm_compute; reflexivity|exact three_starting_accounted|reflexivity].
Defined.

(** C17. The status changes that keep the counters right are exactly these: a
    task goes to RUNNING from STAGING, STARTING or RUNNING, to WAITING_OSDID or
    STARTING from a status in flight, to FAILED from STAGING, RUNNING or a
    status that is not counted.  On any other change of a known task the
    counters no longer count the tasks. *)
Theorem updateTaskTo_accounted_iff (u : Update) (taskId : string) (ts : TaskState) (sm : StateMachine) :
  sm_taskMap sm !! taskId = Some ts → accounted sm →
  accounted (updateTaskTo u taskId sm) ↔
  change_accounted (ts_currentStatus ts) (update_status u) = true.
Proof. intros E Ha. by apply updateTaskTo_accounted. Qed.

Lemma updateTaskTo_accounted_iff_witness :
  accounted (updateTaskTo ToRunning "a" three_starting) ∧
  ¬ accounted (updateTaskTo ToFailed "a" three_starting).
Proof.
  split.
  - apply (updateTaskTo_accounted_iff ToRunning "a" (osd_task "a" STARTING) three_starting);
      [reflexivity|exact three_starting_accounted|reflexivity].
  - intros Hacc.
    apply (updateTaskTo_accounted_iff ToFailed "a" (osd_task "a" STARTING) three_starting) in Hacc;
      [discriminate Hacc|reflexivity|exact three_starting_accounted].
Defined.

(** Whatever order the task map is iterated in, [getInitialMon] finds the
    task whose id starts with "mon0" when there is exactly one; when there is
    none, it returns the last task visited, or a default task on an empty map. *)
Lemma getInitialMon_spec `{Indeterminate, HashOrder} (sm : StateMachine) :
  (∀ k ts, sm_taskMap sm !! k = Some ts → String.prefix "mon0" (ts_taskId ts) = true →
     (∀ k' ts', sm_taskMap sm !! k' = Some ts' → String.prefix "mon0" (ts_taskId ts') = true → ts' = ts) →
     getInitialMon sm = ts) ∧
  ((∀ k ts, sm_taskMap sm !! k = Some ts → String.prefix "mon0" (ts_taskId ts) = false) →
     getInitialMon sm = default default_TaskState (snd <$> last (hash_iter (sm_taskMap sm)))).
Proof.
  split.
  - intros k ts Hk Hp Hu. apply initial_mon_loop_found; [|done|].
    + exists k. by apply elem_of_hash_iter.
    + intros k' t' Hin%elem_of_hash_iter. by apply (Hu k').
  - intros Hn. apply initial_mon_loop_none. intros k t Hin%elem_of_hash_iter. by apply (Hn k).
Qed.

Lemma getInitialMon_spec_witness :
  getInitialMon (H := SomeValues.indet) (H0 := SomeOrder.order) three_starting = mon0_task.
Proof.
  refine (proj1 (getInitialMon_spec (H := SomeValues.indet) (H0 := SomeOrder.order) three_starting)
    "mon0.h.s" mon0_task eq_refl eq_refl _).
  intros k' ts'. unfold three_starting. cbn [sm_taskMap].
  rewrite !lookup_insert, lookup_empty. repeat case_decide; intros [= <-]; done.
Defined.
