(* ===== verification/FlexUp.v ===== *)
(** * Flex-up requests: [common/JsonUtil.hpp], [httpserver/RestServer.cpp] and
      [scheduler/EventLoop.cpp]

    A REST call posts a JSON body; [jsonCheck] validates it and sends it on the
    message queue "flexUp"; the event loop receives it and records the number
    of OSD instances asked for.  jsoncpp and the Boost message queue are the
    classes [JsonCpp] and [MessageQueue]; the queue's laws are what both sides
    of the protocol rely on. *)

From S2P Require Import Prelude StringUtil.
Open Scope Z_scope.

(** ** jsoncpp

    [Json::Reader::parse] ([None]: false), [value.get(key, d).asInt()] and
    [value.get(key, d).asString()]; the accessors may throw. *)
Class JsonCpp := {
  JsonValue : Type;
  json_parse : string → option JsonValue;
  json_get_int : JsonValue → string → Z → outcome Z;
  json_get_string : JsonValue → string → string → outcome string;
}.

Section JsonUtil.
Context `{JsonCpp}.
Definition instances (value : JsonValue) : outcome Z := json_get_int value "instances" 0.
Definition profile (value : JsonValue) : outcome string := json_get_string value "profile" "error".
End JsonUtil.

(** ** [boost::interprocess::message_queue]

    The queue lives in shared memory under the name "flexUp": [None] when nothing
    has created it.  The event loop creates it, with [max_num_msg] messages of at
    most [max_msg_size] bytes, and finds what an earlier process left in it.
    [send] blocks on a full queue and throws on a message that is too long;
    messages of equal priority are received in the order they were sent.  Any
    call may throw; the laws say when it does not. *)
Definition max_num_msg : nat := 1014.
Definition max_msg_size : nat := 256.

Class MessageQueue := {
  Queue : Type;
  queue_contents : Queue → list string;
  mq_create : outcome Queue;
  mq_send : string → ST Queue unit;
  mq_try_receive : ST Queue (option string);
  mq_create_empty q : mq_create = Ret q → queue_contents q = [];
  mq_send_ok q m :
    (String.length m ≤ max_msg_size)%nat → (length (queue_contents q) < max_num_msg)%nat →
    ∃ q', mq_send m q = (q', Ret tt) ∧ queue_contents q' = queue_contents q ++ [m];
  mq_send_big q m :
    (max_msg_size < String.length m)%nat → mq_send m q = (q, Throw InterprocessException);
  mq_send_full q m :
    (String.length m ≤ max_msg_size)%nat → (max_num_msg ≤ length (queue_contents q))%nat →
    mq_send m q = (q, Blocked);
  mq_receive_nil q : queue_contents q = [] → mq_try_receive q = (q, Ret None);
  mq_receive_cons q m ms : queue_contents q = m :: ms →
    ∃ q', mq_try_receive q = (q', Ret (Some m)) ∧ queue_contents q' = ms;
}.

(** The constructor with [open_only], and a call on the queue it opens. *)
Definition open_only `{MessageQueue} {A} (m : ST Queue A) : ST (option Queue) A := λ flexUp,
  match flexUp with
  | Some q => let '(q', o) := m q in (Some q', o)
  | None => (None, Throw InterprocessException)
  end.

(** The constructor with [open_or_create]. *)
Definition open_or_create `{MessageQueue} (flexUp : option Queue) : outcome Queue :=
  match flexUp with
  | Some q => Ret q
  | None => mq_create
  end.

(** A concrete queue: the list of its messages. *)
Module ListQueue.
Definition send (m : string) : ST (list string) unit := λ q,
  if decide (max_msg_size < String.length m)%nat then (q, Throw InterprocessException)
  else if decide (length q < max_num_msg)%nat then (q ++ [m], Ret tt)
  else (q, Blocked).
Definition try_receive : ST (list string) (option string) := λ q,
  match q with [] => ([], Ret None) | m :: ms => (ms, Ret (Some m)) end.

#[refine] Instance queue : MessageQueue := {|
  Queue := list string;
  queue_contents q := q;
  mq_create := Ret [];
  mq_send := send;
  mq_try_receive := try_receive;
|}.
Proof.
  - by intros q [= <-].
  - intros q m Hm Hq. exists (q ++ [m]). split; [|done]. unfold send.
    rewrite decide_False by lia. by rewrite decide_True.
  - intros q m Hm. unfold send. by rewrite decide_True.
  - intros q m Hm Hq. unfold send. rewrite decide_False by lia. rewrite decide_False by lia. done.
  - by intros q ->.
  - intros q m ms ->. by exists ms.
Defined.
End ListQueue.

(** ** [RestServer] *)

Definition maxInstancesSize : Z := 1024.
Definition osd : string := "osd".
Definition mon : string := "mon".

(** What a handler returns to libmicrohttpd: a return code, or the result of
    queueing a response with the given body. *)
Inductive mhd_result :=
  | MHD_NO
  | MHD_YES
  | MHD_HTTP_NOT_FOUND
  | QueuedResponse (content_type body : string).

Record ConnectionData := mkConnectionData {
  is_parsing : bool;
  read_post_data : string;
}.

(** The connection's [*con_cls], and the queue shared with the event loop. *)
Record Rest `{MessageQueue} := mkRest {
  con_cls : option ConnectionData;
  flexUpMQ : option Queue;
}.

Section RestServer.
Context `{JsonCpp, MessageQueue}.

Definition jsonCheck (json : string) : ST (option Queue) string :=
  match json_parse json with
  | Some value =>
      instances ← lift (instances value);
      if (instances <? 1) || (instances >? maxInstancesSize)
      then mret "[error]:instances"
      else
        profile ← lift (profile value);
        if negb (bool_decide (profile = osd) || bool_decide (profile = mon))
        then mret "[error]:profile"
        else
          _ ← open_only (mq_send json);
          mret "[success]"
  | None => mret "[error]:json"
  end.

Definition set_con_cls (c : option ConnectionData) (r : Rest) : Rest := mkRest _ c (flexUpMQ r).

(** A call on the queue from the handler. *)
Definition on_queue {A} (m : ST (option Queue) A) : ST Rest A := λ r,
  let '(q, o) := m (flexUpMQ r) in (mkRest _ (con_cls r) q, o).

Definition rest_request (url method upload_data : string) : ST Rest mhd_result :=
  if negb (bool_decide (method = "POST")) then mret MHD_NO
  else if negb (bool_decide (url = "/api/cluster/flexup")) then mret MHD_HTTP_NOT_FOUND
  else
    let content_type := "text/plain" in
    con ← gets con_cls;
    let connection_data :=
      match con with
      | None => mkConnectionData false ""
      | Some d => d
      end in
    _ ← modify (set_con_cls (Some connection_data));
    if negb (is_parsing connection_data) then
      _ ← modify (set_con_cls (Some (mkConnectionData true (read_post_data connection_data))));
      mret MHD_YES
    else if negb (bool_decide (upload_data = "")) then
      _ ← modify (set_con_cls (Some (mkConnectionData true (read_post_data connection_data +:+ upload_data))));
      mret MHD_YES
    else
      let outpost := read_post_data connection_data in
      let output := "Received data:" +:+ String "010" "" +:+ outpost +:+ String "010" "" in
      r ← on_queue (jsonCheck (c_str outpost));
      _ ← modify (set_con_cls None);
      mret (QueuedResponse content_type (c_str (output +:+ r))).
End RestServer.

(** [RestServer(port)] and its default constructor keep what
    [MHD_start_daemon] returns; [start_daemon] says whether it is non-null on a
    port. *)
Record RestServer := mkRestServer { daemon : bool }.
Definition new_RestServer_default (start_daemon : Z → bool) : RestServer := mkRestServer (start_daemon 8889).
Definition new_RestServer (start_daemon : Z → bool) (port : Z) : RestServer := mkRestServer (start_daemon port).
Definition check (server : RestServer) : bool := daemon server.

(** [restServer]: it returns only when the daemon does not start. *)
Definition restServer (start_daemon : Z → bool) (port : Z) : outcome Z :=
  let server := new_RestServer start_daemon port in
  if negb (check server) then Ret 1 else Blocked.

(** ** [EventLoop] *)

(** [event_data]: the received bytes overwrite a prefix of what the buffer
    held; [string(event_data)] then reads up to the first NUL, which is past
    the buffer's end when it holds none. *)
Definition event_buffer_size : nat := 256.

Fixpoint str_drop (n : nat) (s : string) : string :=
  match n, s with
  | O, _ => s
  | S n', String _ s' => str_drop n' s'
  | S _, "" => ""
  end.

Definition receive_into (event_data received : string) : string :=
  received +:+ str_drop (String.length received) event_data.

Definition string_of_buffer (event_data : string) : outcome string :=
  if lacks Ascii.zero event_data then Undef else Ret (c_str event_data).

Section EventLoop.
Context `{JsonCpp, MessageQueue}.

Definition processData (data : string) (pendingOSD : list Z) : outcome (list Z) :=
  match json_parse (c_str data) with
  | Some jsonEvent =>
      profile ← profile jsonEvent;
      if bool_decide ("osd" = profile)
      then
        instances ← instances jsonEvent;
        Ret (pendingOSD ++ [instances])
      else Ret pendingOSD
  | None => Ret pendingOSD
  end.

(** One iteration of the loop of [recvData], with the contents of the
    uninitialized [event_data]. *)
Definition recv_step (event_data : string) (q : Queue) (pendingOSD : list Z)
    : Queue * outcome (list Z) :=
  (r ← mq_try_receive;
   match r with
   | Some received =>
       lift (data ← string_of_buffer (receive_into event_data received); processData data pendingOSD)
   | None => mret pendingOSD
   end) q.

(** The loop's flag, whether its thread still runs, and the requests it shares
    with the agent.  The constructor sets the flag and starts the thread. *)
Record EventLoop := mkEventLoop { loopTag : bool; recv_running : bool; pendingOSD : list Z }.
Definition new_EventLoop : EventLoop := mkEventLoop true true [].

(** An iteration, with the test of the flag; an exception ends the loop, and the
    pending requests stay. *)
Definition recv_iteration (event_data : string) (q : Queue) (el : EventLoop)
    : Queue * outcome EventLoop :=
  if negb (recv_running el) then (q, Ret el)
  else if negb (loopTag el) then (q, Ret (mkEventLoop false false (pendingOSD el)))
  else
    match recv_step event_data q (pendingOSD el) with
    | (q', Ret pending) => (q', Ret (mkEventLoop true true pending))
    | (q', Throw _) => (q', Ret (mkEventLoop true false (pendingOSD el)))
    | (q', Undef) => (q', Undef)
    | (q', Blocked) => (q', Blocked)
    end.

(** The destructor clears the flag, and then waits for the thread. *)
Definition clear_loopTag (el : EventLoop) : EventLoop := mkEventLoop false (recv_running el) (pendingOSD el).

(** A turn of the thread: what its buffer holds, what the other processes do to
    the queue while it sleeps, and whether the destructor is called meanwhile. *)
Record Turn := mkTurn { tn_buffer : string; tn_sleep : Queue → Queue; tn_stop : bool }.

(** The loop: [Blocked] when it still runs after the given turns. *)
Fixpoint recv_loop (turns : list Turn) (q : Queue) (el : EventLoop) : Queue * outcome EventLoop :=
  match turns with
  | [] => if recv_running el then (q, Blocked) else (q, Ret el)
  | t :: turns' =>
      match recv_iteration (tn_buffer t) q el with
      | (q', Ret el') => recv_loop turns' (tn_sleep t q') (if tn_stop t then clear_loopTag el' else el')
      | r => r
      end
  end.

(** The queue is opened outside of the [try]: what its constructor throws leaves
    the thread, and ends the process. *)
Definition recvData (turns : list Turn) (flexUp : option Queue) (el : EventLoop) : outcome (Queue * outcome EventLoop) :=
  q ← open_or_create flexUp;
  Ret (recv_loop turns q el).

(** [~EventLoop]: it returns when the thread has ended. *)
Definition delete_EventLoop (turns : list Turn) (q : Queue) (el : EventLoop) : Queue * outcome EventLoop :=
  recv_loop turns q (clear_loopTag el).
End EventLoop.

(** ** Lemmas *)

Section FlexUpFacts.
Context `{JsonCpp, MessageQueue}.

Lemma mq_send_Ret q m q' :
  mq_send m q = (q', Ret tt) →
  queue_contents q' = queue_contents q ++ [m] ∧ (String.length m ≤ max_msg_size)%nat.
Proof.
  intros E. destruct (decide (max_msg_size < String.length m)%nat) as [Hb|Hb].
  { rewrite mq_send_big in E by done. done. }
  destruct (decide (length (queue_contents q) < max_num_msg)%nat) as [Hf|Hf].
  - destruct (mq_send_ok q m) as (q2 & E2 & Hq); [lia|done|]. rewrite E in E2. injection E2 as <-.
    split; [done|lia].
  - rewrite mq_send_full in E by lia. done.
Qed.

Definition accepted_request (json : string) (n : Z) (p : string) : Prop :=
  ∃ v, json_parse json = Some v ∧ instances v = Ret n ∧ profile v = Ret p ∧
       1 ≤ n ≤ maxInstancesSize ∧ (p = osd ∨ p = mon).

Lemma jsonCheck_accepted json n p flexUp :
  accepted_request json n p →
  jsonCheck json flexUp = (_ ← open_only (mq_send json); mret "[success]") flexUp.
Proof.
  intros (v & Hp & Hi & Hpr & Hn & Hok). unfold jsonCheck. rewrite Hp.
  unfold mbind at 1, ST_bind, lift. rewrite Hi.
  replace ((n <? 1) || (n >? maxInstancesSize)) with false
    by (symmetry; apply orb_false_iff; split; [apply Z.ltb_ge|rewrite Z.gtb_ltb; apply Z.ltb_ge]; lia).
  unfold mbind at 1. rewrite Hpr.
  replace (bool_decide (p = osd) || bool_decide (p = mon)) with true; [done|].
  symmetry. apply orb_true_iff. rewrite !bool_decide_eq_true. done.
Qed.

Lemma jsonCheck_Ret json q q' reply :
  jsonCheck json q = (q', Ret reply) →
  (reply = "[success]" ∧ (∃ n p, accepted_request json n p) ∧ open_only (mq_send json) q = (q', Ret tt)) ∨
  (reply ≠ "[success]" ∧ q' = q).
Proof.
  unfold jsonCheck, lift, mbind, ST_bind, mret, ST_ret. intros E.
  destruct (json_parse json) as [v|] eqn:Ep; [|right; by simplify_eq].
  destruct (instances v) as [n| | |] eqn:Ei; [|done..].
  destruct (_ || _) eqn:En in E; [right; by simplify_eq|].
  apply orb_false_iff in En as [E1%Z.ltb_ge E2]. rewrite Z.gtb_ltb in E2. apply Z.ltb_ge in E2.
  destruct (profile v) as [p| | |] eqn:Epr; [|done..].
  destruct (negb _) eqn:En in E; [right; by simplify_eq|].
  apply negb_false_iff, orb_true_iff in En. rewrite !bool_decide_eq_true in En.
  destruct (open_only (mq_send json) q) as [q2 [[]| | |]] eqn:Es; simplify_eq.
  left. split_and!; [done| |done]. exists n, p, v. split_and!; done.
Qed.

Lemma recv_step_cons event_data q m ms (pending : list Z) : queue_contents q = m :: ms →
  ∃ q', queue_contents q' = ms ∧ recv_step event_data q pending =
    (q', data ← string_of_buffer (receive_into event_data m); processData data pending).
Proof.
  intros (q' & Er & Eq)%mq_receive_cons. exists q'. split; [done|]. unfold recv_step. by rewrite (bind_eq _ _ _ _ _ Er).
Qed.

Lemma recv_step_nil event_data q (pending : list Z) : queue_contents q = [] →
  recv_step event_data q pending = (q, Ret pending).
Proof. intros Er%mq_receive_nil. unfold recv_step. by rewrite (bind_eq _ _ _ _ _ Er). Qed.

Lemma string_of_buffer_terminated m event_data rest :
  lacks Ascii.zero m = true → str_drop (String.length m) event_data = String Ascii.zero rest →
  string_of_buffer (receive_into event_data m) = Ret m.
Proof.
  intros Hm Hd. unfold string_of_buffer, receive_into. rewrite Hd, lacks_app, Hm. cbn.
  by rewrite c_str_nul.
Qed.
End FlexUpFacts.

(** A concrete reader of requests written [profile:instances]. *)
Module ToyJson.
Definition parse (s : string) : option (string * Z) :=
  match explode s ":" with
  | [p; n] => match DecimalCast.to_int n with Ret z => Some (p, z) | _ => None end
  | _ => None
  end.
Instance json : JsonCpp := {|
  JsonValue := string * Z;
  json_parse := parse;
  json_get_int v key d := Ret (if decide (key = "instances") then v.2 else d);
  json_get_string v key d := Ret (if decide (key = "profile") then v.1 else d);
|}.
End ToyJson.

(** ** A whole POST *)

Section Post.
Context `{JsonCpp, MessageQueue}.

(** libmicrohttpd calls the handler once to announce the request, once per
    chunk of the body, and once more when the body is complete. *)
Fixpoint post_calls (uploads : list string) : ST Rest (list mhd_result) :=
  match uploads with
  | [] => mret []
  | u :: uploads' =>
      r ← rest_request "/api/cluster/flexup" "POST" u;
      rs ← post_calls uploads';
      mret (r :: rs)
  end.

Definition str_concat (l : list string) : string := foldr String.append "" l.

Definition post_reply (body reply : string) : mhd_result :=
  QueuedResponse "text/plain"
    (c_str (("Received data:" +:+ String "010" "" +:+ body +:+ String "010" "") +:+ reply)).

Definition flexup_call : string → ST Rest mhd_result := rest_request "/api/cluster/flexup" "POST".

Ltac rest_step := unfold flexup_call, rest_request, mbind, ST_bind, gets, modify, on_queue, mret,
  ST_ret, set_con_cls;
  rewrite !(bool_decide_true (_ = _)) by done; cbn [negb is_parsing read_post_data con_cls flexUpMQ].

Lemma rest_first u q :
  flexup_call u (mkRest _ None q) = (mkRest _ (Some (mkConnectionData true "")) q, Ret MHD_YES).
Proof. rest_step. done. Qed.

Lemma rest_chunk body u q : u ≠ "" →
  flexup_call u (mkRest _ (Some (mkConnectionData true body)) q) =
  (mkRest _ (Some (mkConnectionData true (body +:+ u))) q, Ret MHD_YES).
Proof. intros Hu. rest_step. rewrite bool_decide_false by done. done. Qed.

Lemma rest_last body q q' reply : jsonCheck (c_str body) q = (q', Ret reply) →
  flexup_call "" (mkRest _ (Some (mkConnectionData true body)) q) =
  (mkRest _ None q', Ret (post_reply body reply)).
Proof. intros Hj. rest_step. by rewrite Hj. Qed.

Lemma post_calls_cons u us r :
  post_calls (u :: us) r =
  match flexup_call u r with
  | (r', Ret x) => match post_calls us r' with
                   | (r'', Ret xs) => (r'', Ret (x :: xs))
                   | (r'', Throw e) => (r'', Throw e)
                   | (r'', Undef) => (r'', Undef)
                   | (r'', Blocked) => (r'', Blocked)
                   end
  | (r', Throw e) => (r', Throw e)
  | (r', Undef) => (r', Undef)
  | (r', Blocked) => (r', Blocked)
  end.
Proof. done. Qed.

Lemma post_chunks body chunks q q' reply :
  Forall (λ c, c ≠ "") chunks →
  jsonCheck (c_str (body +:+ str_concat chunks)) q = (q', Ret reply) →
  post_calls (chunks ++ [""]) (mkRest _ (Some (mkConnectionData true body)) q) =
  (mkRest _ None q',
   Ret (((λ _, MHD_YES) <$> chunks) ++ [post_reply (body +:+ str_concat chunks) reply])).
Proof.
  intros Hne. revert body. induction Hne as [|c chunks Hc Hne IH]; intros body Hj.
  - cbn [str_concat foldr] in *. rewrite str_app_nil_r in *. cbn [app].
    by rewrite post_calls_cons, (rest_last _ _ _ _ Hj).
  - cbn [app]. rewrite post_calls_cons, rest_chunk by done.
    cbn [str_concat foldr] in *. fold (str_concat chunks) in *.
    rewrite str_app_assoc in *. by rewrite (IH (body +:+ c) Hj).
Qed.
End Post.

(** ** Properties *)

(** [jsonCheck] answers "[success]" exactly when it put the request on the
    queue, and then the request is valid JSON with 1 to 1024 instances and the
    profile "osd" or "mon"; on any other answer the queue is untouched. *)
Lemma jsonCheck_success `{JsonCpp, MessageQueue} (json reply : string) (q : Queue) (flexUp : option Queue) :
  jsonCheck json (Some q) = (flexUp, Ret reply) →
  (reply = "[success]" ∧ (∃ q', flexUp = Some q' ∧ queue_contents q' = queue_contents q ++ [json]) ∧
   (String.length json ≤ 256)%nat ∧
   ∃ v n p, json_parse json = Some v ∧ instances v = Ret n ∧ 1 ≤ n ≤ 1024 ∧
            profile v = Ret p ∧ (p = "osd" ∨ p = "mon")) ∨
  (reply ≠ "[success]" ∧ flexUp = Some q).
Proof.
  intros E. destruct (jsonCheck_Ret _ _ _ _ E) as [(-> & (n & p & v & ?&?&?&?&?) & Hs)|?]; [left|by right].
  cbn in Hs. destruct (mq_send json q) as [q' o] eqn:Es. injection Hs as <- ->.
  apply mq_send_Ret in Es as [Hq Hl]. split_and!; [done|by exists q'|done|by exists v, n, p].
Qed.

Lemma jsonCheck_success_witness :
  queue_contents (MessageQueue := ListQueue.queue) ["x"; "osd:3"] = ["x"] ++ ["osd:3"].
Proof.
  destruct (jsonCheck_success (H := ToyJson.json) (H0 := ListQueue.queue) "osd:3" "[success]"
    ["x"] (Some ["x"; "osd:3"])) as [(_ & (q' & [= <-] & E) & _)|[E _]]; [vm_compute; reflexivity|exact E|by destruct E].
Defined.

(** A body posted in any number of non-empty chunks is reassembled: the
    announcing call and every chunk are acknowledged, the last call checks the
    concatenation of the chunks (up to its first NUL) and answers with it, and
    the connection is left as it began. *)
Lemma rest_request_reassembles `{JsonCpp, MessageQueue}
    (chunks : list string) (q q' : option Queue) (reply : string) :
  Forall (λ c, c ≠ "") chunks →
  let body := str_concat chunks in
  jsonCheck (c_str body) q = (q', Ret reply) →
  post_calls ("" :: chunks ++ [""]) (mkRest _ None q) =
  (mkRest _ None q',
   Ret (MHD_YES :: ((λ _, MHD_YES) <$> chunks) ++
        [QueuedResponse "text/plain"
           (c_str (("Received data:" +:+ String "010" "" +:+ body +:+ String "010" "") +:+ reply))])).
Proof.
  intros Hne body Hj. rewrite post_calls_cons, rest_first.
  by rewrite (post_chunks "" chunks q q' reply).
Qed.

Lemma rest_request_reassembles_witness :
  (post_calls (H := ToyJson.json) (H0 := ListQueue.queue) ["" ; "os"; "d:3"; ""]
     (mkRest ListQueue.queue None (Some []))).1 = mkRest ListQueue.queue None (Some ["osd:3"]).
Proof.
  change ["" ; "os"; "d:3"; ""] with ("" :: ["os"; "d:3"] ++ [""]).
  rewrite (rest_request_reassembles (H := ToyJson.json) (H0 := ListQueue.queue) ["os"; "d:3"]
    (Some []) (Some ["osd:3"]) "[success]"); [reflexivity| |vm_compute; reflexivity].
  repeat constructor; discriminate.
Defined.

(** What becomes of a request that was answered "[success]": provided the
    byte that follows it in the receive buffer is NUL, the event loop's next
    iteration on a queue that held nothing else records its number of instances
    if its profile is "osd", and drops it silently if it is "mon". *)
Lemma flexup_delivery `{JsonCpp, MessageQueue}
    (json event_data rest p : string) (n : Z) (q0 q1 : Queue) (pending : list Z) :
  lacks Ascii.zero json = true → accepted_request json n p → queue_contents q0 = [] →
  jsonCheck json (Some q0) = (Some q1, Ret "[success]") →
  str_drop (String.length json) event_data = String Ascii.zero rest →
  ∃ q2, queue_contents q2 = [] ∧
    recv_iteration event_data q1 (mkEventLoop true true pending) =
    (q2, Ret (mkEventLoop true true (if decide (p = osd) then pending ++ [n] else pending))).
Proof.
  intros Hnul Hacc Hq0 Hj Hd. rewrite (jsonCheck_accepted json n p (Some q0) Hacc) in Hj.
  unfold mbind, ST_bind, open_only in Hj.
  destruct (mq_send json q0) as [q [[]| | |]] eqn:Es; simplify_eq/=.
  unfold mret, ST_ret in Hj. simplify_eq.
  apply mq_send_Ret in Es as [Hq _]. rewrite Hq0 in Hq. cbn in Hq.
  destruct (recv_step_cons event_data q1 json [] pending Hq) as (q2 & Hq2 & Er).
  exists q2. split; [done|]. unfold recv_iteration. cbn [negb recv_running loopTag pendingOSD]. rewrite Er.
  rewrite (string_of_buffer_terminated json event_data rest) by done. cbn.
  destruct Hacc as (v & Hp & Hi & Hpr & _ & Hpp). unfold processData. rewrite c_str_id, Hp by done.
  unfold mbind, outcome_bind. rewrite Hpr.
  destruct Hpp as [-> | ->]; [|done]. rewrite bool_decide_true by done. by rewrite Hi.
Qed.

Lemma flexup_delivery_witness :
  ∃ q2, queue_contents (MessageQueue := ListQueue.queue) q2 = [] ∧
    recv_iteration (H := ToyJson.json) (H0 := ListQueue.queue) (String.string_of_list_ascii (replicate 256 Ascii.zero))
      ["osd:3"] (mkEventLoop true true [7]) = (q2, Ret (mkEventLoop true true [7; 3])).
Proof.
  apply (flexup_delivery (H := ToyJson.json) (H0 := ListQueue.queue) "osd:3"
    (String.string_of_list_ascii (replicate 256 Ascii.zero))
    (String.string_of_list_ascii (replicate 250 Ascii.zero)) "osd" 3 [] ["osd:3"] [7]);
    [reflexivity| |reflexivity|vm_compute; reflexivity|vm_compute; reflexivity].
  exists ("osd", 3). split_and!; try reflexivity; [lia|unfold maxInstancesSize; lia|by left].
Defined.

(** C39. The receive buffer is not terminated: when the byte after the message
    is not NUL, the event loop does not parse the message that was sent but
    one with stale bytes appended; on a message of exactly 256 bytes, which
    [jsonCheck] accepts, it reads past the end of the buffer. *)
Theorem recv_reads_stale_bytes `{JsonCpp, MessageQueue} (json event_data : string) (pending : list Z) (q0 : Queue) (ms : list string) :
  queue_contents q0 = json :: ms → lacks Ascii.zero json = true →
  String.length event_data = event_buffer_size → (String.length json ≤ 256)%nat →
  let stale := str_drop (String.length json) event_data in
  (lacks Ascii.zero stale = true → (recv_step event_data q0 pending).2 = Undef) ∧
  (lacks Ascii.zero stale = false →
   (recv_step event_data q0 pending).2 = processData (json +:+ c_str stale) pending) ∧
  (String.length json = 256%nat → (recv_step event_data q0 pending).2 = Undef).
Proof.
  intros Hq Hn Hl Hle stale.
  destruct (recv_step_cons event_data q0 json ms pending Hq) as (q2 & _ & ->). cbn.
  unfold string_of_buffer, receive_into. fold stale. rewrite lacks_app, Hn. cbn [andb].
  assert (Hall : lacks Ascii.zero stale = true →
    (data ← (if lacks Ascii.zero stale then Undef else Ret (c_str (json +:+ stale)));
     processData data pending) = Undef) by (by intros ->).
  split_and!; [done| |].
  - intros ->. cbn. by rewrite c_str_app.
  - intros E. apply Hall. unfold stale. rewrite E. change 256%nat with event_buffer_size.
    rewrite <- Hl. clear. by induction event_data.
Qed.

Lemma recv_reads_stale_bytes_witness :
  (recv_step (H := ToyJson.json) (H0 := ListQueue.queue)
     (String.string_of_list_ascii (replicate 6 "9"%char ++ replicate 250 Ascii.zero)) ["osd:3"] []).2 = Ret [39].
Proof.
  destruct (recv_reads_stale_bytes (H := ToyJson.json) (H0 := ListQueue.queue) "osd:3"
    (String.string_of_list_ascii (replicate 6 "9"%char ++ replicate 250 Ascii.zero)) [] ["osd:3"] [])
    as (_ & E & _); [reflexivity|reflexivity|reflexivity|cbn; lia|].
  rewrite E; vm_compute; reflexivity.
Defined.
