(* ===== verification/FileServer.v ===== *)
(** * The file server: [httpserver/FileServer.cpp]

    libmicrohttpd calls [file_request] for every request and, for a response
    made from a callback, [file_reader] until it has sent the announced size
    and [free_callback] once.  The scheduler serves the executors' binaries
    with it, and the executor of the initial MON the keyrings.  The file system
    and the two calls of libmicrohttpd whose result matters are classes. *)

From S2P Require Import Prelude StringUtil.
Open Scope Z_scope.

(** ** The services used *)

(** [stat] ([None]: failure, else [st_size]) and [fopen(path, "rb")] ([None]:
    null, else the bytes of the file). *)
Class FileSystem := {
  fs_stat : string → option Z;
  fs_fopen : string → option string;
}.

(** Whether [MHD_create_response_from_callback] gives a response, for a size,
    and what [MHD_queue_response] returns, for a status. *)
Class Mhd := {
  mhd_create : Z → bool;
  mhd_queue : Z → bool;
}.

(** A [FILE*]: the path it was opened with and its bytes. *)
Record FILE := mkFILE { file_path : string; file_data : string }.

Inductive Response :=
  | FromBuffer (body : string)
  | FromCallback (size block_size : Z) (file : FILE).

(** What a handler does: the files it opens and closes, the responses queued. *)
Inductive FsEvent :=
  | Fopen (file : FILE)
  | Fclose (file : FILE)
  | Queue (status : Z) (response : Response).

(** The global [path], whether [*con_cls] is [&aptr], and the events so far. *)
Record FileServer := mkFileServer {
  fsv_path : string;
  fsv_con : bool;
  fsv_events : list FsEvent;
}.

Definition fsv_set_path (p : string) (s : FileServer) : FileServer :=
  mkFileServer p (fsv_con s) (fsv_events s).
Definition fsv_set_con (b : bool) (s : FileServer) : FileServer :=
  mkFileServer (fsv_path s) b (fsv_events s).
Definition fsv_add (e : FsEvent) (s : FileServer) : FileServer :=
  mkFileServer (fsv_path s) (fsv_con s) (fsv_events s ++ [e]).

Definition MHD_HTTP_OK : Z := 200.
Definition MHD_HTTP_NOT_FOUND : Z := 404.

(** ** Operations *)

(** [fseek(file, pos, SEEK_SET)] then [fread(buf, 1, max, file)]. *)
Definition file_reader (file : FILE) (pos max : nat) : string :=
  String.substring pos max (file_data file).

Definition free_callback (file : FILE) : FsEvent := Fclose file.

Section Handler.
Context `{FileSystem, Mhd}.

(** [filepath] points into a temporary that is destroyed before it is used:
    [stale n p] is what the [n]-th use reads where the path [p] was. *)
Context (stale : nat → string → outcome string).

Definition emit (e : FsEvent) : ST FileServer unit := modify (fsv_add e).

Definition open_file (filepath : string) : ST FileServer (option (FILE * Z)) :=
  p0 ← lift (stale 0 filepath);
  match fs_stat p0 with
  | Some st_size =>
      p1 ← lift (stale 1 filepath);
      match fs_fopen p1 with
      | Some data => let f := mkFILE p1 data in _ ← emit (Fopen f); mret (Some (f, st_size))
      | None => mret None
      end
  | None => mret None
  end.

(** The result is [true] for [MHD_YES].  [&url[1]] of an empty [url] is past
    its terminator. *)
Definition file_request (url method : string) : ST FileServer bool :=
  if negb (bool_decide (method = "GET")) then mret false
  else
    con ← gets fsv_con;
    if negb con then
      _ ← modify (fsv_set_con true);
      mret true
    else
      _ ← modify (fsv_set_con false);
      match url with
      | "" => lift Undef
      | String _ surl =>
          path ← gets fsv_path;
          let filepath := path +:+ surl in
          file ← open_file filepath;
          match file with
          | None =>
              body ← lift (stale 2 filepath);
              _ ← emit (Queue MHD_HTTP_NOT_FOUND (FromBuffer body));
              mret (mhd_queue MHD_HTTP_NOT_FOUND)
          | Some (file, st_size) =>
              if negb (mhd_create st_size) then
                _ ← emit (Fclose file);
                mret false
              else
                _ ← emit (Queue MHD_HTTP_OK (FromCallback st_size (32 * 1024) file));
                mret (mhd_queue MHD_HTTP_OK)
          end
      end.
End Handler.

(** [fileServer]: it returns only when the daemon does not start. *)
Definition fileServer (start_daemon : Z → bool) (port : Z) (path : string) : ST FileServer Z :=
  _ ← modify (fsv_set_path path);
  if negb (start_daemon port) then mret 1 else lift Blocked.

(** ** Files opened, closed by the handler, and handed to a response *)

Definition opened (l : list FsEvent) : list FILE :=
  omap (λ e, match e with Fopen f => Some f | _ => None end) l.
Definition closed (l : list FsEvent) : list FILE :=
  omap (λ e, match e with Fclose f => Some f | _ => None end) l.
Definition handed (l : list FsEvent) : list FILE :=
  omap (λ e, match e with Queue _ (FromCallback _ _ f) => Some f | _ => None end) l.

(** ** Facts *)

Section ReaderFacts.
Lemma substring_0_all s : String.substring 0 (String.length s) s = s.
Proof. induction s as [|c s IH]; [done|]. cbn. by rewrite IH. Qed.

Lemma substring_past s n m : (String.length s ≤ n)%nat → String.substring n m s = "".
Proof.
  revert n m. induction s as [|c s IH]; intros [|n] [|m] Hn; cbn in *; try done; try lia;
    apply IH; lia.
Qed.

Lemma substring_0_long s m : (String.length s ≤ m)%nat → String.substring 0 m s = s.
Proof.
  revert m. induction s as [|c s IH]; intros [|m] Hm; cbn in *; try done; try lia.
  rewrite IH by lia. done.
Qed.

Lemma substring_0_length s m : String.length (String.substring 0 m s) = Nat.min m (String.length s).
Proof. revert m. induction s as [|c s IH]; intros [|m]; cbn; [done..|]. by rewrite IH. Qed.

(** Reading on from where the last read stopped. *)
Lemma substring_0_app s n m :
  String.substring 0 n s +:+ String.substring (String.length (String.substring 0 n s)) m s =
  String.substring 0 (n + m) s.
Proof.
  revert n. induction s as [|c s IH]; intros [|n]; cbn; try done; try by destruct m.
  rewrite str_app_cons. by rewrite IH.
Qed.
End ReaderFacts.

(** What libmicrohttpd has received after calls with these buffer sizes, each
    at the position the previous ones have reached. *)
Definition read_chunks (file : FILE) (sizes : list nat) : string :=
  foldl (λ received max, received +:+ file_reader file (String.length received) max) "" sizes.

Lemma read_chunks_from file sizes n :
  foldl (λ received max, received +:+ file_reader file (String.length received) max)
    (String.substring 0 n (file_data file)) sizes =
  String.substring 0 (n + sum_list sizes) (file_data file).
Proof.
  revert n. induction sizes as [|m sizes IH]; intros n; cbn [foldl sum_list].
  - by rewrite Nat.add_0_r.
  - unfold file_reader at 2. rewrite substring_0_app, IH. f_equal. cbn. lia.
Qed.

Lemma read_chunks_eq file sizes : read_chunks file sizes = String.substring 0 (sum_list sizes) (file_data file).
Proof.
  etrans; [|apply (read_chunks_from file sizes 0)]. unfold read_chunks.
  f_equal. by destruct (file_data file).
Qed.

Section HandlerFacts.
Context `{FileSystem, Mhd}.
Context (stale : nat → string → outcome string).

(** The state of a run extends the events of the one it starts from. *)
Definition balanced (l : list FsEvent) : Prop := opened l = closed l ++ handed l ∧ (length (opened l) ≤ 1)%nat.

Lemma open_file_cases filepath s :
  (∃ o, open_file stale filepath s = (s, o) ∧ ∀ r, o = Ret r → r = None) ∨
  (∃ p0 p1 n data, stale 0 filepath = Ret p0 ∧ fs_stat p0 = Some n ∧ stale 1 filepath = Ret p1 ∧
     fs_fopen p1 = Some data ∧
     open_file stale filepath s =
       (fsv_add (Fopen (mkFILE p1 data)) s, Ret (Some (mkFILE p1 data, n)))).
Proof.
  unfold open_file, mbind, ST_bind, lift.
  destruct (stale 0 filepath) as [p0| | |]; [|by left; eexists..].
  destruct (fs_stat p0) as [n|] eqn:E0; [|by left; eexists; split; [done|]; intros r [= <-]].
  destruct (stale 1 filepath) as [p1| | |]; [|by left; eexists..].
  destruct (fs_fopen p1) as [data|] eqn:E1; [right|by left; eexists; split; [done|]; intros r [= <-]].
  exists p0, p1, n, data. done.
Qed.

Lemma file_request_events url method s :
  ∃ l, fsv_events (file_request stale url method s).1 = fsv_events s ++ l ∧ balanced l.
Proof.
  assert (Hnil : ∃ l, fsv_events s = fsv_events s ++ l ∧ balanced l).
  { exists []. rewrite app_nil_r. split; [done|]. split; [done|cbn; lia]. }
  unfold file_request. destruct (negb _); [exact Hnil|].
  unfold mbind at 1, ST_bind, gets. destruct (negb _); [exact Hnil|].
  unfold mbind at 1, modify. destruct url as [|c surl]; [exact Hnil|].
  unfold mbind at 1. unfold mbind at 1.
  set (s1 := fsv_set_con false s).
  destruct (open_file_cases (fsv_path s1 +:+ surl) s1) as [(o & -> & Ho)|(p0 & p1 & n & data & _ & _ & _ & _ & ->)].
  - destruct o as [r| | |]; [|exact Hnil..]. rewrite (Ho r eq_refl).
    unfold mbind, lift. destruct (stale 2 _) as [body| | |]; [|exact Hnil..].
    eexists. split; [reflexivity|]. split; [done|cbn; lia].
  - destruct (negb (mhd_create n)).
    + exists [Fopen (mkFILE p1 data); Fclose (mkFILE p1 data)]. split; [|split; [done|cbn; lia]].
      unfold mbind, ST_bind, emit, modify. cbn. by rewrite <- app_assoc.
    + exists [Fopen (mkFILE p1 data); Queue MHD_HTTP_OK (FromCallback n (32 * 1024) (mkFILE p1 data))].
      split; [|split; [done|cbn; lia]]. unfold mbind, ST_bind, emit, modify. cbn. by rewrite <- app_assoc.
Qed.

(** The second call for a URL, when the two uses of the freed path read [p0] and
    [p1] there. *)
Lemma file_request_opens rest s p0 p1 n data :
  stale 0 (fsv_path s +:+ rest) = Ret p0 → stale 1 (fsv_path s +:+ rest) = Ret p1 →
  fsv_con s = true → fs_stat p0 = Some n → fs_fopen p1 = Some data → mhd_create n = true →
  let f := mkFILE p1 data in
  file_request stale (String "/" rest) "GET" s =
    (mkFileServer (fsv_path s) false
       (fsv_events s ++ [Fopen f; Queue MHD_HTTP_OK (FromCallback n (32 * 1024) f)]),
     Ret (mhd_queue MHD_HTTP_OK)).
Proof.
  intros Hs0 Hs1 Hc Hst Hf Hm f. unfold file_request. rewrite bool_decide_true by done. cbn [negb].
  rewrite (bind_eq _ _ s s true) by (unfold gets; by rewrite Hc). cbn [negb].
  rewrite (bind_eq _ _ s (fsv_set_con false s) tt) by done.
  set (s1 := fsv_set_con false s). rewrite (bind_eq _ _ s1 s1 (fsv_path s)) by done. cbn zeta.
  rewrite (bind_eq _ _ s1 (fsv_add (Fopen f) s1) (Some (f, n))).
  2: { unfold open_file. rewrite (bind_eq _ _ s1 s1 p0) by (unfold lift; by rewrite Hs0).
       rewrite Hst. rewrite (bind_eq _ _ s1 s1 p1) by (unfold lift; by rewrite Hs1).
       by rewrite Hf. }
  rewrite Hm. cbn [negb]. unfold emit, mbind, ST_bind, modify, mret, ST_ret, fsv_add. cbn.
  by rewrite <- app_assoc.
Qed.

(** When it still reads as itself. *)
Lemma file_request_serve rest s n data :
  (∀ k p, stale k p = Ret p) →
  fsv_con s = true → fs_stat (fsv_path s +:+ rest) = Some n → fs_fopen (fsv_path s +:+ rest) = Some data →
  mhd_create n = true →
  let f := mkFILE (fsv_path s +:+ rest) data in
  file_request stale (String "/" rest) "GET" s =
    (mkFileServer (fsv_path s) false
       (fsv_events s ++ [Fopen f; Queue MHD_HTTP_OK (FromCallback n (32 * 1024) f)]),
     Ret (mhd_queue MHD_HTTP_OK)).
Proof. intros Hs. by apply file_request_opens. Qed.

Lemma file_request_not_found rest s :
  (∀ k p, stale k p = Ret p) → fsv_con s = true → fs_stat (fsv_path s +:+ rest) = None →
  file_request stale (String "/" rest) "GET" s =
    (mkFileServer (fsv_path s) false
       (fsv_events s ++ [Queue MHD_HTTP_NOT_FOUND (FromBuffer (fsv_path s +:+ rest))]),
     Ret (mhd_queue MHD_HTTP_NOT_FOUND)).
Proof.
  intros Hs Hc Hst. unfold file_request. rewrite bool_decide_true by done. cbn [negb].
  rewrite (bind_eq _ _ s s true) by (unfold gets; by rewrite Hc). cbn [negb].
  rewrite (bind_eq _ _ s (fsv_set_con false s) tt) by done.
  set (s1 := fsv_set_con false s). rewrite (bind_eq _ _ s1 s1 (fsv_path s)) by done. cbn zeta.
  rewrite (bind_eq _ _ s1 s1 None).
  2: { unfold open_file. rewrite (bind_eq _ _ s1 s1 (fsv_path s +:+ rest)) by (unfold lift; by rewrite Hs).
       by rewrite Hst. }
  by rewrite (bind_eq _ _ s1 s1 (fsv_path s +:+ rest)) by (unfold lift; by rewrite Hs).
Qed.
End HandlerFacts.

(** ** Properties *)

(** C25. No request leaks a file: whatever the freed path reads as, and whether
    the request is served, refused or undefined, every file it opens, at most
    one, is closed by the handler or handed to exactly one response, whose
    [free_callback] closes it; and a call that announces no response because
    none could be made has closed its file. *)
Theorem file_request_no_leak `{FileSystem, Mhd} (stale : nat → string → outcome string)
    (url method : string) (s : FileServer) :
  ∃ l, fsv_events (file_request stale url method s).1 = fsv_events s ++ l ∧
    opened l = closed l ++ handed l ∧ (length (opened l) ≤ 1)%nat ∧
    (∀ f, f ∈ handed l → free_callback f = Fclose f ∧ f ∉ closed l).
Proof.
  destruct (file_request_events stale url method s) as (l & E & Ho & Hl). exists l.
  split_and!; [done..|]. intros f Hf. split; [done|]. intros Hc. rewrite Ho, length_app in Hl.
  destruct (closed l); [by apply not_elem_of_nil in Hc|].
  destruct (handed l); [by apply not_elem_of_nil in Hf|]. cbn in Hl. lia.
Qed.

(** Read in pieces of any sizes, each from where the last one stopped, a
    served file gives its first bytes in order, as many as asked for, and the
    whole file once that many have been asked for.  When the file is shorter
    than the size announced for it (it was truncated since [stat]), no sequence
    of reads completes the response: past the end every read gives nothing. *)
Lemma file_reader_reassembles (file : FILE) (sizes : list nat) :
  read_chunks file sizes = String.substring 0 (sum_list sizes) (file_data file) ∧
  ((String.length (file_data file) ≤ sum_list sizes)%nat → read_chunks file sizes = file_data file) ∧
  (String.length (read_chunks file sizes) ≤ String.length (file_data file))%nat ∧
  (∀ max, file_reader file (String.length (file_data file)) max = "").
Proof.
  rewrite read_chunks_eq. split_and!.
  - done.
  - apply substring_0_long.
  - rewrite substring_0_length. lia.
  - intros max. by apply substring_past.
Qed.

(** C26. What is served.  The path of a request is the root followed by the URL
    without its slash, and the handler uses it after the string that holds it was
    destroyed.  Whatever two paths [p0] and [p1] the uses of it read there, if
    [stat] succeeds on the first, [fopen] on the second, and libmicrohttpd creates
    the response, then the whole file at [p1] is served, with the size of [p0].
    So when they read the path itself, which undefined behaviour does not promise,
    any file the process can open is served: nothing keeps a request inside the
    root.  When the first use is undefined, so is the request.  The first call of
    a request only marks it. *)
Theorem file_request_unconfined `{FileSystem, Mhd} (stale : nat → string → outcome string)
    (path rest p0 p1 data : string) (n : Z) (events : list FsEvent) :
  let f := mkFILE p1 data in
  file_request stale (String "/" rest) "GET" (mkFileServer path false events) =
    (mkFileServer path true events, Ret true) ∧
  (stale 0%nat (path +:+ rest) = Ret p0 → stale 1%nat (path +:+ rest) = Ret p1 →
   fs_stat p0 = Some n → fs_fopen p1 = Some data → mhd_create n = true →
   file_request stale (String "/" rest) "GET" (mkFileServer path true events) =
     (mkFileServer path false (events ++ [Fopen f; Queue MHD_HTTP_OK (FromCallback n (32 * 1024) f)]),
      Ret (mhd_queue MHD_HTTP_OK)) ∧
   read_chunks f [String.length data] = data) ∧
  (stale 0%nat (path +:+ rest) = Undef →
   (file_request stale (String "/" rest) "GET" (mkFileServer path true events)).2 = Undef).
Proof.
  intros f. split; [done|]. split.
  - intros Hs0 Hs1 Hst Hf Hm. split; [by apply (file_request_opens stale rest (mkFileServer path true events) p0)|].
    rewrite read_chunks_eq. cbn [sum_list]. rewrite Nat.add_0_r. apply substring_0_all.
  - intros Hs. unfold file_request. rewrite bool_decide_true by done. cbn.
    unfold open_file, mbind, ST_bind, gets, modify, lift. cbn. by rewrite Hs.
Qed.

(** A host with one secret outside the directory served. *)
Module SampleFiles.
Instance fs : FileSystem := {|
  fs_stat p := if bool_decide (p = "/srv/ceph/../../etc/shadow") then Some 6 else None;
  fs_fopen p := if bool_decide (p = "/srv/ceph/../../etc/shadow") then Some "secret" else None;
|}.
Instance mhd : Mhd := {| mhd_create _ := true; mhd_queue _ := true |}.
End SampleFiles.
#[local] Existing Instances SampleFiles.fs SampleFiles.mhd.

Lemma file_request_unconfined_witness :
  (file_request (λ _ p, Ret p)
     "/../../etc/shadow" "GET" (mkFileServer "/srv/ceph/" true [])).2 = Ret true ∧
  read_chunks (mkFILE "/srv/ceph/../../etc/shadow" "secret") [6%nat] = "secret".
Proof.
  destruct (file_request_unconfined (λ _ p, Ret p) "/srv/ceph/" "../../etc/shadow"
    "/srv/ceph/../../etc/shadow" "/srv/ceph/../../etc/shadow" "secret" 6 []) as (_ & Hs & _).
  destruct Hs as [E Er]; [reflexivity..|]. rewrite E. split; [reflexivity|exact Er].
Defined.

(** Each call with its part of the file, the rest of which is read later. *)
Lemma file_reader_reassembles_witness :
  read_chunks (mkFILE "f" "secret") [4%nat; 4%nat] = "secret".
Proof.
  refine (proj1 (proj2 (file_reader_reassembles (mkFILE "f" "secret") [4%nat; 4%nat])) _). cbn. lia.
Defined.
