(* ===== verification/CurlHttp.v ===== *)
(** * The HTTP client: [common/CurlHttp.cpp]

    A wrapper of one libcurl handle.  [get] frees the handle it uses and keeps
    the pointer, so that an object serves one request.  What libcurl answers is
    the class [Libcurl]. *)

From S2P Require Import Prelude.
Open Scope Z_scope.

(** [curl_easy_init] ([false]: null), and for a URL the blocks given to the
    write callback with the code [curl_easy_perform] returns.  On a null handle
    [curl_easy_perform] returns [CURLE_BAD_FUNCTION_ARGUMENT], 43. *)
Class Libcurl := {
  easy_init : bool;
  easy_perform : string → list string * Z;
}.
Definition CURLE_BAD_FUNCTION_ARGUMENT : Z := 43.

Inductive CURL := CurlNull | CurlLive | CurlFreed.

(** The member [curl], and the files written, by path. *)
Record CurlHttp := mkCurlHttp {
  ch_curl : CURL;
  ch_files : gmap string string;
}.

Definition new_CurlHttp (files : gmap string string) : CurlHttp := mkCurlHttp CurlNull files.

Section CurlHttp.
Context `{Libcurl}.

Definition initialize : ST CurlHttp unit :=
  modify (λ c, mkCurlHttp (if easy_init then CurlLive else CurlNull) (ch_files c)).

(** [writeCallback]: [fwrite] of one block at the end of the file. *)
Definition writeCallback (filepath block : string) : ST CurlHttp unit :=
  modify (λ c, mkCurlHttp (ch_curl c) (alter (λ s, s +:+ block) filepath (ch_files c))).

(** [fopen_ok]: whether [fopen(filepath, "wb")] succeeds; the stream is used
    without a check. *)
Definition get (fopen_ok : string → bool) (url filepath : string) : ST CurlHttp Z :=
  if negb (fopen_ok filepath) then lift Undef
  else
    _ ← modify (λ c, mkCurlHttp (ch_curl c) (<[filepath := ""]> (ch_files c)));
    curl ← gets ch_curl;
    match curl with
    | CurlNull => mret CURLE_BAD_FUNCTION_ARGUMENT
    | CurlFreed => lift Undef
    | CurlLive =>
        let '(blocks, res) := easy_perform url in
        _ ← foreach blocks (λ _, writeCallback filepath) tt;
        _ ← modify (λ c, mkCurlHttp CurlFreed (ch_files c));
        mret res
    end.
End CurlHttp.

(** ** One request per object *)

Section CurlFacts.
Context `{Libcurl}.

Lemma write_blocks blocks filepath c old :
  ch_files c !! filepath = Some old →
  ∃ c', foreach blocks (λ _, writeCallback filepath) tt c = (c', Ret tt) ∧
    ch_curl c' = ch_curl c ∧ ch_files c' !! filepath = Some (foldl String.app old blocks).
Proof.
  revert c old. induction blocks as [|b blocks IH]; intros c old E; cbn [foreach].
  - by exists c.
  - set (c1 := mkCurlHttp (ch_curl c) (alter (λ s, s +:+ b) filepath (ch_files c))).
    rewrite (bind_eq _ _ c c1 tt) by done.
    destruct (IH c1 (old +:+ b)) as (c' & Ef & Ec & Eo); [cbn; by rewrite lookup_alter_eq, E|].
    exists c'. by split_and!.
Qed.

(** The first [get] of an initialized object writes exactly the blocks received
    and returns libcurl's code; any later one uses a freed handle. *)
Lemma get_once fopen_ok url filepath files :
  easy_init = true → fopen_ok filepath = true →
  ∃ c, (_ ← initialize; get fopen_ok url filepath) (new_CurlHttp files) = (c, Ret (easy_perform url).2) ∧
    ch_files c !! filepath = Some (foldl String.app "" (easy_perform url).1) ∧
    ∀ url' filepath', (get fopen_ok url' filepath' c).2 = Undef.
Proof.
  intros Hi Ho.
  rewrite (bind_eq _ _ _ (mkCurlHttp CurlLive files) tt)
    by (unfold initialize, modify, new_CurlHttp; by rewrite Hi).
  unfold get at 1. rewrite Ho. cbn [negb].
  set (c1 := mkCurlHttp CurlLive (<[filepath := ""]> files)).
  rewrite (bind_eq _ _ _ c1 tt) by done. rewrite (bind_eq _ _ c1 c1 CurlLive) by done.
  destruct (easy_perform url) as [blocks res]. cbn [fst snd].
  destruct (write_blocks blocks filepath c1 "") as (c2 & E & _ & Ef); [apply lookup_insert_eq|].
  rewrite (bind_eq _ _ _ _ _ E). eexists. split; [reflexivity|]. split; [exact Ef|].
  intros url' filepath'. unfold get. by destruct (fopen_ok filepath').
Qed.
End CurlFacts.
