(* ===== verification/Mesos.v ===== *)
(** * What the scheduler exchanges with Mesos

    The protobuf messages the code fills or reads, with the fields it uses, the
    calls it makes on the driver, and the two services outside the repository
    it relies on: resource arithmetic ([MesosResources]) and the host it runs
    on ([Env]). *)

From S2P Require Import Prelude StringUtil ConfigFile.
Open Scope Z_scope.

(** ** Resources

    [Resource::role()], a SCALAR resource built by the setters,
    [Resources::parse(text, role).get()], [flatten(role).get()] and
    [contains]. *)
Class MesosResources := {
  Resource : Type;
  res_role : Resource → string;
  scalar_resource : string → string → Z → Resource;
  resources_parse : string → string → outcome (list Resource);
  resources_flatten : list Resource → string → outcome (list Resource);
  resources_contains : list Resource → list Resource → bool;
}.

(** ** Messages *)

Record Offer `{MesosResources} := mkOffer {
  of_id : string;
  of_hostname : string;
  of_slave_id : string;
  of_resources : list Resource;
}.

Record Label := mkLabel { lb_key : string; lb_value : string }.

Record URI := mkURI { uri_value : string; uri_executable : bool }.

Record ExecutorInfo := mkExecutorInfo {
  ei_executor_id : string;
  ei_name : string;
  ei_command_value : string;
  ei_command_uris : list URI;
}.

Record TaskInfo `{MesosResources} := mkTaskInfo {
  ti_name : string;
  ti_task_id : string;
  ti_slave_id : string;
  ti_executor : ExecutorInfo;
  ti_data : option string;
  ti_labels : option (list Label);
  ti_resources : list Resource;
}.

Inductive MesosTaskState :=
  | TASK_STAGING
  | TASK_STARTING
  | TASK_RUNNING
  | TASK_FINISHED
  | TASK_FAILED
  | TASK_KILLED
  | TASK_LOST
  | TASK_ERROR.
#[export] Instance MesosTaskState_eq_dec : EqDecision MesosTaskState.
Proof. solve_decision. Defined.

Record TaskStatus := mkTaskStatus {
  st_task_id : string;
  st_state : MesosTaskState;
  st_message : option string;
}.

(** ** Calls on the scheduler driver *)

Inductive DriverCall `{MesosResources} :=
  | declineOffer (offerId : string) (refuse_seconds : option Z)
  | launchTasks (offerId : string) (tasks : list TaskInfo)
  | sendFrameworkMessage (executorId slaveId data : string).

(** ** Callbacks

    What a driver calls on the object it is given, and what its [run] returns. *)

Inductive SchedulerCallback `{MesosResources} :=
  | CB_registered (frameworkId : string)
  | CB_reregistered
  | CB_disconnected
  | CB_resourceOffers (offers : list Offer)
  | CB_offerRescinded (offerId : string)
  | CB_statusUpdate (status : TaskStatus)
  | CB_frameworkMessage (executorId slaveId data : string)
  | CB_slaveLost (slaveId : string)
  | CB_executorLost (executorId slaveId : string) (status : Z)
  | CB_error (message : string).

Inductive ExecutorCallback `{MesosResources} :=
  | EX_registered (hostname : string)
  | EX_reregistered
  | EX_disconnected
  | EX_launchTask (task : TaskInfo)
  | EX_killTask (taskId : string)
  | EX_frameworkMessage (data : string)
  | EX_shutdown
  | EX_error (message : string).

Inductive DriverStatus :=
  | DRIVER_NOT_STARTED
  | DRIVER_RUNNING
  | DRIVER_ABORTED
  | DRIVER_STOPPED.

#[export] Instance DriverStatus_eq_dec : EqDecision DriverStatus.
Proof. solve_decision. Defined.

(** ** The host the scheduler runs on

    The files it can read, what successive calls of [time] return during a
    handler, [gethostname] ([None]: non-zero result) and [gethostbyname]
    ([None]: null), the latter followed by [inet_ntoa]. *)
Record Env := mkEnv {
  env_files : Files;
  env_time : nat → Z;
  env_gethostname : option string;
  env_gethostbyname : string → option string;
}.

(** [NetUtil::getLocalIP]: after a failed [gethostname] the buffer is used
    uninitialized, and a null host entry is dereferenced. *)
Definition getLocalIP (env : Env) : outcome string :=
  match env_gethostname env with
  | None => Undef
  | Some hostname =>
      match env_gethostbyname env hostname with
      | None => Undef
      | Some ip => Ret ip
      end
  end.

(** [NetUtil::getIPByHostname]. *)
Definition getIPByHostname (env : Env) (hostname : string) : outcome string :=
  match env_gethostbyname env hostname with
  | None => Undef
  | Some ip => Ret ip
  end.

(** A concrete resource arithmetic: scalars, summed by name and role. *)
Module ScalarResources.
Record res := mkRes { r_name : string; r_role : string; r_value : Z }.

Definition total (l : list res) (name role : string) : Z :=
  foldr (λ r acc, if decide (r_name r = name ∧ r_role r = role) then r_value r + acc else acc) 0 l.

Definition parse_one (role text : string) : outcome res :=
  match explode text ":" with
  | [n; v] => z ← DecimalCast.to_int v; Ret (mkRes n role z)
  | _ => Throw AbortCheck
  end.

Fixpoint parse_all (role : string) (texts : list string) : outcome (list res) :=
  match texts with
  | [] => Ret []
  | t :: ts => r ← parse_one role t; rs ← parse_all role ts; Ret (r :: rs)
  end.

Instance resources : MesosResources := {|
  Resource := res;
  res_role := r_role;
  scalar_resource n r v := mkRes n r v;
  resources_parse text role := parse_all role (explode text ";");
  resources_flatten l role := Ret ((λ r, mkRes (r_name r) role (r_value r)) <$> l);
  resources_contains l needed :=
    forallb (λ r, r_value r <=? total l (r_name r) (r_role r)) needed;
|}.
End ScalarResources.
