(* ===== verification/Agent.v ===== *)
(** * The scheduler agent: [scheduler/CephSchedulerAgent.hpp]

    Every handler is an [ST Agent] method.  The agent owns the configuration,
    the state machine and the event loop's [pendingOSD]; [ag_calls] records the
    calls made on the driver, oldest first, and [ag_ticks] numbers the calls of
    [time]. *)

From S2P Require Import Prelude StringUtil CephTypes ConfigFile HostConfigs TaskMachine Mesos.
Open Scope Z_scope.

Record Agent `{MesosResources} := mkAgent {
  ag_config : Config;
  ag_stateMachine : StateMachine;
  ag_pendingOSD : list Z;
  ag_ticks : nat;
  ag_calls : list DriverCall;
}.

Section AgentUpdates.
Context `{MesosResources}.

Definition set_stateMachine (f : StateMachine → StateMachine) (a : Agent) : Agent :=
  mkAgent _ (ag_config a) (f (ag_stateMachine a)) (ag_pendingOSD a) (ag_ticks a) (ag_calls a).
Definition set_pendingOSD (l : list Z) (a : Agent) : Agent :=
  mkAgent _ (ag_config a) (ag_stateMachine a) l (ag_ticks a) (ag_calls a).
Definition tick (a : Agent) : Agent :=
  mkAgent _ (ag_config a) (ag_stateMachine a) (ag_pendingOSD a) (S (ag_ticks a)) (ag_calls a).
Definition add_call (c : DriverCall) (a : Agent) : Agent :=
  mkAgent _ (ag_config a) (ag_stateMachine a) (ag_pendingOSD a) (ag_ticks a) (ag_calls a ++ [c]).

(** A call on the driver, and calls on the state machine. *)
Definition driver (c : DriverCall) : ST Agent unit := modify (add_call c).
Definition sm_do (f : StateMachine → StateMachine) : ST Agent unit := modify (set_stateMachine f).
Definition sm_get {A} (f : StateMachine → A) : ST Agent A := gets (λ a, f (ag_stateMachine a)).
Definition sm_call {A} (f : StateMachine → StateMachine * A) : ST Agent A := λ a,
  let '(sm, r) := f (ag_stateMachine a) in (set_stateMachine (λ _, sm) a, Ret r).
Definition sm_try (f : StateMachine → outcome StateMachine) : ST Agent unit := λ a,
  match f (ag_stateMachine a) with
  | Ret sm => (set_stateMachine (λ _, sm) a, Ret tt)
  | Throw e => (a, Throw e)
  | Undef => (a, Undef)
  | Blocked => (a, Blocked)
  end.

(** [CephSchedulerAgent(Config *_config)]. *)
Definition new_CephSchedulerAgent `{Indeterminate} (config : Config) : Agent :=
  mkAgent _ config (new_StateMachine config) [] 0 [].
End AgentUpdates.

Section Agent.
Context `{LexicalCast, Yaml, Indeterminate, HashOrder, MesosResources}.
Context (flags : Flags) (env : Env).

Definition time : ST Agent Z :=
  n ← gets ag_ticks;
  _ ← modify tick;
  mret (env_time env n).

Definition getFileServerIP : ST Agent string := lift (getLocalIP env).

(** ** Launching a node *)

Definition createTaskName (taskType : TaskType) (token : Z) : string :=
  let prefix := match taskType with MON => "mon" | OSD => "osd" | RADOSGW => "radosgw" end in
  prefix +:+ lexical_to_string token.

Definition createExecutor (executorName : string) (taskType : TaskType) (token isInitialMonNode : Z)
    : ST Agent (string * ExecutorInfo) :=
  let name := executorName +:+ "." +:+ lexical_to_string (TaskType_to_int taskType)
              +:+ "." +:+ lexical_to_string token in
  timestamp ← time;
  let id := name +:+ "." +:+ lexical_to_string timestamp in
  ip ← getFileServerIP;
  config ← gets ag_config;
  let binary_uri := "http://" +:+ ip +:+ ":" +:+ lexical_to_string (cfg_fileport config)
                    +:+ "/" +:+ executorName in
  uris ← (
    if isInitialMonNode =? 0 then
      initialMon ← sm_get getInitialMon;
      let prefix := "http://" +:+ ts_hostName initialMon +:+ ":7777/" in
      mret ((λ f, mkURI (prefix +:+ f) false) <$>
        ["ceph.client.admin.keyring"; "ceph.conf"; "ceph.mon.keyring"; "monmap";
         "ceph.keyring.osd"; "ceph.keyring.rgw"; "ceph.keyring.mds"])
    else mret []);
  mret (id, mkExecutorInfo id name ("./" +:+ executorName) (mkURI binary_uri true :: uris)).

Definition addHostConfig (taskType : TaskType) (hostname : string) : ST Agent (list Label) :=
  hostconfig ← sm_get (getConfig hostname);
  mgmt ← sm_get (λ sm, getMgmtDev (deref hostconfig sm));
  data ← sm_get (λ sm, getDataDev (deref hostconfig sm));
  let labels := [mkLabel CustomData.mgmtdevKey mgmt; mkLabel CustomData.datadevKey data] in
  if decide (OSD = taskType) then
    osddisk ← sm_get (λ sm, (popOSDPartition (deref hostconfig sm)).2);
    _ ← sm_do (update_host hostconfig (λ hc, (popOSDPartition hc).1));
    journaldisk ← sm_get (λ sm, (popJournalPartition (deref hostconfig sm)).2);
    _ ← sm_do (update_host hostconfig (λ hc, (popJournalPartition hc).1));
    mret (labels ++ [mkLabel CustomData.osddevsKey osddisk; mkLabel CustomData.jnldevsKey journaldisk])
  else mret labels.

Definition launchNode (offer : Offer) (taskType : TaskType) (token isInitialMonNode : Z)
    : ST Agent (string * string) :=
  ex ← createExecutor "ceph-mesos-executor" taskType token isInitialMonNode;
  let '(executorId, executor) := ex in
  labels ← addHostConfig taskType (of_hostname offer);
  config ← gets ag_config;
  let name := createTaskName taskType token in
  let data := lexical_to_string isInitialMonNode +:+ "." +:+ lexical_to_string (TaskType_to_int taskType) in
  let taskId := name +:+ "." +:+ of_hostname offer +:+ "." +:+ of_slave_id offer in
  let resources := [scalar_resource "cpus" (cfg_role config) 1; scalar_resource "mem" (cfg_role config) 1024] in
  let task := mkTaskInfo _ name taskId (of_slave_id offer) executor (Some data) (Some labels) resources in
  _ ← driver (launchTasks (of_id offer) [task]);
  mret (taskId, executorId).

(** ** Offers *)

Definition hasRole (offer : Offer) (role : string) : bool :=
  existsb (λ r, bool_decide (role = res_role r)) (of_resources offer).

(** The text parsed is ["cpus:" + stringify(1) + ";mem:" + stringify(1024)]. *)
Definition offerNotEnoughResources (offer : Offer) (taskType : TaskType) : ST Agent bool :=
  config ← gets ag_config;
  neededResources ← lift (resources_parse "cpus:1;mem:1024" (cfg_role config));
  resRole ← lift (resources_flatten (of_resources offer) (cfg_role config));
  mret (negb (resources_contains resRole neededResources)).

(** The labels [tryLaunchDiskTask] adds. *)
Definition disk_labels (hc : HostConfig) : list Label :=
  (mkLabel CustomData.osddevsKey <$> hc_pendingOSDDevs hc) ++
  (mkLabel CustomData.jnldevsKey <$> hc_pendingJNLDevs hc) ++
  [mkLabel CustomData.jnlPartitionCountKey (lexical_to_string (getJnlPartitionCount hc))].

Definition tryLaunchDiskTask (offer : Offer) (hostname : string) : ST Agent unit :=
  hostconfig ← sm_get (getConfig hostname);
  hc ← sm_get (deref hostconfig);
  if isPreparingDisk hc then mret tt
  else if negb (havePendingOSDDevs hc) && negb (havePendingJNLDevs hc) then mret tt
  else
    notEnough ← offerNotEnoughResources offer OSD;
    if (notEnough : bool) then mret tt
    else
      let binary := "ceph-mesos-disk-executor" in
      timestamp ← time;
      let id := binary +:+ "." +:+ lexical_to_string timestamp in
      ip ← getFileServerIP;
      config ← gets ag_config;
      let binary_uri := "http://" +:+ ip +:+ ":" +:+ lexical_to_string (cfg_fileport config)
                        +:+ "/" +:+ binary in
      let executor := mkExecutorInfo id id ("./" +:+ binary) [mkURI binary_uri true] in
      let taskId := id +:+ "." +:+ of_hostname offer +:+ "." +:+ of_slave_id offer in
      let labels := disk_labels hc in
      let resources := [scalar_resource "cpus" (cfg_role config) 1; scalar_resource "mem" (cfg_role config) 256] in
      let task := mkTaskInfo _ id taskId (of_slave_id offer) executor None (Some labels) resources in
      _ ← driver (launchTasks (of_id offer) [task]);
      sm_do (update_host hostconfig setDiskPreparationOnGoing).

Definition fetchPendingRESTfulRequest : ST Agent bool :=
  OSDRequests ← gets ag_pendingOSD;
  match OSDRequests with
  | [] => mret false
  | first :: rest =>
      let OSDInstanceCount := first - 1 in
      _ ← modify (set_pendingOSD
            (if 0 =? OSDInstanceCount then rest else OSDInstanceCount :: rest));
      mret true
  end.

(** The loop over the tasks that wait for an OSD id; [break] when no id is left. *)
Fixpoint assign_osd_ids (OSDTasks : list TaskState) : ST Agent unit :=
  match OSDTasks with
  | [] => mret tt
  | taskState :: OSDTasks' =>
      OSDIDs ← sm_get getPendingOSDID;
      match last OSDIDs with
      | Some Id =>
          _ ← sm_do (set_pendingOSDID (List.removelast OSDIDs));
          let m := lexical_to_string (MessageToExecutor_to_int LAUNCH_OSD) +:+ "." +:+ lexical_to_string Id in
          _ ← driver (sendFrameworkMessage (ts_executorId taskState) (ts_slaveId taskState) m);
          _ ← sm_do (updateTaskToStarting (ts_taskId taskState));
          assign_osd_ids OSDTasks'
      | None => mret tt
      end
  end.

Definition handleWaitingOSDTasks : ST Agent unit :=
  OSDTasks ← sm_get getWaitingOSDTask;
  assign_osd_ids OSDTasks.

(** ** [resourceOffers]

    The variables declared before the loop. *)
Record Locals := mkLocals {
  l_taskType : TaskType;
  l_token : Z;
  l_isInitialMonNode : Z;
}.

(** The end of an iteration: the launch. *)
Definition launch_accepted (offer : Offer) (taskType : TaskType) (token isInitialMonNode : Z)
    : ST Agent Locals :=
  ids ← launchNode offer taskType token isInitialMonNode;
  let '(taskId, executorId) := ids in
  _ ← sm_do (addStagingTask taskId executorId taskType (of_hostname offer) (of_slave_id offer));
  _ ← (if (isInitialMonNode =? 0) && bool_decide (taskType = OSD) then
         initialMon ← sm_get getInitialMon;
         let m := lexical_to_string (MessageToExecutor_to_int REGISTER_OSD) in
         driver (sendFrameworkMessage (ts_executorId initialMon) (ts_slaveId initialMon) m)
       else mret tt);
  mret (mkLocals taskType token isInitialMonNode).

(** An iteration from the check of the resources on, each [continue] returning
    the locals. *)
Definition accept_offer (currentPhase : Phase) (l : Locals) (offer : Offer) : ST Agent Locals :=
  let taskType := l_taskType l in
  let token := l_token l in
  notEnough ← offerNotEnoughResources offer taskType;
  if (notEnough : bool) then
    _ ← driver (declineOffer (of_id offer) None);
    mret l
  else
    accept ← (if decide (currentPhase = WAINTING_REQUEST)
              then fetchPendingRESTfulRequest else mret true);
    if negb accept then
      _ ← driver (declineOffer (of_id offer) None);
      _ ← sm_do decreaseOSDIndex;
      mret l
    else
      let isInitialMonNode :=
        if bool_decide (taskType = MON) && (token =? 0) then 1 else l_isInitialMonNode l in
      launch_accepted offer taskType token isInitialMonNode.

(** One iteration of the loop. *)
Definition handle_offer (currentPhase : Phase) (l : Locals) (offer : Offer) : ST Agent Locals :=
  config ← gets ag_config;
  if negb (hasRole offer (cfg_role config)) then
    _ ← driver (declineOffer (of_id offer) (Some 86400));
    mret l
  else
    _ ← sm_try (addConfig flags (env_files env) (of_hostname offer));
    _ ← tryLaunchDiskTask offer (of_hostname offer);
    r ← sm_call (nextMove (l_taskType l) (l_token l) (of_hostname offer));
    let '(accept, taskType, token) := r in
    let l := mkLocals taskType token (l_isInitialMonNode l) in
    if negb accept then
      _ ← driver (declineOffer (of_id offer) None);
      mret l
    else accept_offer currentPhase l offer.

Definition resourceOffers (offers : list Offer) : ST Agent unit :=
  _ ← handleWaitingOSDTasks;
  currentPhase ← sm_get getCurrentPhase;
  _ ← foreach offers (handle_offer currentPhase) (mkLocals indet_TaskType indet_int 0);
  mret tt.

(** ** The other callbacks *)

Definition frameworkMessage (executorId data : string) : ST Agent unit :=
  initialMon ← sm_get getInitialMon;
  if decide (ts_executorId initialMon = executorId) then
    osdID ← lift (lexical_to_int data);
    sm_do (addPendingOSDID osdID)
  else mret tt.

(** [statusUpdate].  In the TASK_FINISHED branch the inner [devs] hides the
    outer one, which stays empty. *)
Definition statusUpdate (status : TaskStatus) : ST Agent unit :=
  let taskId := st_task_id status in
  match st_state status with
  | TASK_RUNNING =>
      _ ← sm_do (updateTaskToRunning taskId);
      match st_message status with
      | Some message =>
          let tokens := explode message "." in
          t0 ← lift (vec_at tokens 0);
          kind ← lift (lexical_to_int t0);
          if kind =? MessageToScheduler_to_int CONSUMED_OSD_ID then
            consumedOSDId ← lift (vec_at tokens 1);
            mret tt
          else mret tt
      | None => mret tt
      end
  | TASK_STARTING => sm_do (updateTaskToWaitingOSDID taskId)
  | TASK_FAILED => sm_do (updateTaskToFailed taskId)
  | TASK_FINISHED =>
      match st_message status with
      | Some message =>
          let tokens := explode message "." in
          t0 ← lift (vec_at tokens 0);
          kind ← lift (lexical_to_int t0);
          if kind =? MessageToScheduler_to_int DISK_READY then
            failedDevsStr ← lift (vec_at tokens 1);
            let failedDevs := explode failedDevsStr ":" in
            hostname ← lift (vec_at failedDevs 0);
            let devs : list string := [] in
            failed1 ← lift (vec_at failedDevs 1);
            _ ← (if decide ("-" ≠ failed1)
                 then let devs := explode failed1 "," in mret tt
                 else mret tt);
            hostconfig ← sm_get (getConfig hostname);
            _ ← sm_do (update_host hostconfig (λ hc, updateDiskPartition devs (getJnlPartitionCount hc) hc));
            sm_do (update_host hostconfig setDiskPreparationDone)
          else mret tt
      | None => mret tt
      end
  | _ => mret tt
  end.

(** [registered] logs; [reregistered], [disconnected], [offerRescinded],
    [slaveLost], [executorLost] and [error] have empty bodies. *)
Definition registered (frameworkId : string) : ST Agent unit := mret tt.
Definition reregistered : ST Agent unit := mret tt.
Definition disconnected : ST Agent unit := mret tt.
Definition offerRescinded (offerId : string) : ST Agent unit := mret tt.
Definition slaveLost (slaveId : string) : ST Agent unit := mret tt.
Definition executorLost (executorId slaveId : string) (status : Z) : ST Agent unit := mret tt.
Definition error (message : string) : ST Agent unit := mret tt.
End Agent.

(** ** Runs of the agent's methods *)

Section AgentRuns.
Context `{MesosResources}.

Lemma driver_Ret c (a a' : Agent) u : driver c a = (a', Ret u) → a' = add_call c a.
Proof. exact (modify_Ret (add_call c) a a' u). Qed.
Lemma sm_do_Ret f (a a' : Agent) u : sm_do f a = (a', Ret u) → a' = set_stateMachine f a.
Proof. exact (modify_Ret (set_stateMachine f) a a' u). Qed.
Lemma sm_get_Ret {A} (f : StateMachine → A) (a a' : Agent) b :
  sm_get f a = (a', Ret b) → a' = a ∧ b = f (ag_stateMachine a).
Proof. exact (gets_Ret (λ a, f (ag_stateMachine a)) a a' b). Qed.
Lemma sm_call_Ret {A} (f : StateMachine → StateMachine * A) (a a' : Agent) b :
  sm_call f a = (a', Ret b) →
  a' = set_stateMachine (λ _, (f (ag_stateMachine a)).1) a ∧ b = (f (ag_stateMachine a)).2.
Proof. unfold sm_call. destruct (f _). naive_solver. Qed.
Lemma sm_try_Ret f (a a' : Agent) u :
  sm_try f a = (a', Ret u) →
  ∃ sm, f (ag_stateMachine a) = Ret sm ∧ a' = set_stateMachine (λ _, sm) a.
Proof. unfold sm_try. destruct (f _); naive_solver. Qed.

(** [quiet cs a a']: between [a] and [a'] the core of the state machine, the
    pending requests and the configuration are the same, and the calls [cs]
    were made. *)
Record quiet (cs : list DriverCall) (a a' : Agent) : Prop := {
  quiet_core : core_eq (ag_stateMachine a) (ag_stateMachine a');
  quiet_pending : ag_pendingOSD a' = ag_pendingOSD a;
  quiet_config : ag_config a' = ag_config a;
  quiet_calls : ag_calls a' = ag_calls a ++ cs;
}.

Lemma quiet_refl a : quiet [] a a.
Proof. split; [done..|by rewrite app_nil_r]. Qed.

Lemma quiet_trans cs cs' a1 a2 a3 : quiet cs a1 a2 → quiet cs' a2 a3 → quiet (cs ++ cs') a1 a3.
Proof.
  intros [E1 E2 E3 E4] [F1 F2 F3 F4].
  split; [by etrans|congruence..|]. rewrite F4, E4. by rewrite app_assoc.
Qed.

Lemma quiet_add_call c a : quiet [c] a (add_call c a).
Proof. by split. Qed.
Lemma quiet_tick a : quiet [] a (tick a).
Proof. split; [done..|by rewrite app_nil_r]. Qed.
Lemma quiet_set_sm f a : core_eq (ag_stateMachine a) (f (ag_stateMachine a)) →
  quiet [] a (set_stateMachine f a).
Proof. intros E. split; [done..|by rewrite app_nil_r]. Qed.
Lemma quiet_update_host r f a : quiet [] a (set_stateMachine (update_host r f) a).
Proof. apply quiet_set_sm, core_eq_update_host. Qed.

Lemma quiet_nil_l a1 a2 a3 cs : quiet [] a1 a2 → quiet cs a2 a3 → quiet cs a1 a3.
Proof. apply (quiet_trans []). Qed.
Lemma quiet_nil_r a1 a2 a3 cs : quiet cs a1 a2 → quiet [] a2 a3 → quiet cs a1 a3.
Proof. intros H1 H2. pose proof (quiet_trans _ _ _ _ _ H1 H2) as Q. by rewrite app_nil_r in Q. Qed.
End AgentRuns.

Create HintDb quiet discriminated.
#[export] Hint Resolve quiet_refl quiet_tick quiet_update_host quiet_add_call : quiet.
#[export] Hint Resolve quiet_nil_l : quiet.

Ltac inv_agent_step :=
  match goal with
  | H : driver _ _ = (_, Ret _) |- _ => apply driver_Ret in H; subst
  | H : sm_do _ _ = (_, Ret _) |- _ => apply sm_do_Ret in H; subst
  | H : sm_get _ _ = (_, Ret _) |- _ => apply sm_get_Ret in H as [? ?]; subst
  | H : sm_call _ _ = (_, Ret _) |- _ => apply sm_call_Ret in H as [? ?]; subst
  | H : sm_try _ _ = (_, Ret _) |- _ => apply sm_try_Ret in H as (? & ? & ?); subst
  end.
Ltac inv_agent := repeat (inv_run_step || inv_agent_step).

(** Split a run on the first conditional of the method. *)
Ltac run_if :=
  match goal with
  | H : (if ?b then _ else _) _ = (_, Ret _) |- _ => destruct b eqn:?
  end.

Section AgentFacts.
Context `{LexicalCast, Yaml, Indeterminate, HashOrder, MesosResources}.
Context (flags : Flags) (env : Env).

Lemma time_quiet a a' t : time env a = (a', Ret t) → quiet [] a a'.
Proof. unfold time. intros E. inv_agent. apply quiet_tick. Qed.

(** The id and the command of the executor of a task: the timestamp [ts] ends
    the id. *)
Definition executor_id (t : TaskType) (k ts : Z) : string :=
  "ceph-mesos-executor." +:+ lexical_to_string (TaskType_to_int t) +:+ "." +:+ lexical_to_string k
  +:+ "." +:+ lexical_to_string ts.
Definition ceph_command : string := "./ceph-mesos-executor".
Definition disk_command : string := "./ceph-mesos-disk-executor".

Lemma createExecutor_Ret t k i a a' eid ex :
  createExecutor env "ceph-mesos-executor" t k i a = (a', Ret (eid, ex)) →
  quiet [] a a' ∧ ei_executor_id ex = eid ∧ ei_command_value ex = ceph_command ∧
  ∃ ts, eid = executor_id t k ts.
Proof.
  unfold createExecutor, time, getFileServerIP, executor_id. intros E. inv_agent.
  run_if; inv_agent;
    match goal with E : (_, _) = (_, _) |- _ => injection E as -> -> end;
    (split; [apply quiet_tick|]; split; [done|]; split; [done|]; eexists;
     str_norm; reflexivity).
Qed.

Lemma createExecutor_machine t k i a a' r :
  createExecutor env "ceph-mesos-executor" t k i a = (a', Ret r) → ag_stateMachine a' = ag_stateMachine a.
Proof.
  destruct r as [eid ex]. unfold createExecutor, time, getFileServerIP. intros E. inv_agent.
  run_if; inv_agent; match goal with E : (_, _) = (_, _) |- _ => injection E as -> -> end; done.
Qed.

(** The labels of a Ceph task on a host of configuration [hc]. *)
Definition task_labels (t : TaskType) (hc : HostConfig) : list Label :=
  [mkLabel CustomData.mgmtdevKey (getMgmtDev hc); mkLabel CustomData.datadevKey (getDataDev hc)] ++
  if decide (OSD = t) then
    [mkLabel CustomData.osddevsKey (popOSDPartition hc).2;
     mkLabel CustomData.jnldevsKey (popJournalPartition (popOSDPartition hc).1).2]
  else [].

Definition host_config (h : string) (sm : StateMachine) : HostConfig := deref (getConfig h sm) sm.

Lemma deref_update_host h f sm :
  deref (getConfig h (update_host (getConfig h sm) f sm)) (update_host (getConfig h sm) f sm) =
  f (deref (getConfig h sm) sm).
Proof.
  unfold getConfig at 2 3 4. destruct (sm_hostConfigMap sm !! h) as [hc|] eqn:E; cbn.
  - unfold getConfig. cbn. rewrite lookup_alter_eq, E. cbn. by rewrite lookup_alter_eq, E.
  - unfold getConfig. cbn. by rewrite E.
Qed.

Lemma getConfig_update_host h f sm : getConfig h (update_host (getConfig h sm) f sm) = getConfig h sm.
Proof.
  unfold getConfig. destruct (sm_hostConfigMap sm !! h) as [hc|] eqn:E; cbn; [by rewrite lookup_alter_eq, E|by rewrite E].
Qed.

Lemma addHostConfig_labels t h a a' ls :
  addHostConfig t h a = (a', Ret ls) → ls = task_labels t (host_config h (ag_stateMachine a)).
Proof.
  unfold addHostConfig, task_labels, host_config. intros E. inv_agent. case_decide; inv_agent; [|done].
  do 4 f_equal. cbn. set (sm := ag_stateMachine _). pose proof (deref_update_host h (λ hc, (popOSDPartition hc).1) sm) as Ed.
  rewrite getConfig_update_host in Ed. by rewrite Ed.
Qed.

Lemma addHostConfig_quiet t h a a' ls : addHostConfig t h a = (a', Ret ls) → quiet [] a a'.
Proof.
  unfold addHostConfig. intros E. inv_agent. case_decide; inv_agent; eauto with quiet.
Qed.

Lemma offerNotEnough_Ret offer t a a' b :
  offerNotEnoughResources offer t a = (a', Ret b) → a' = a.
Proof. unfold offerNotEnoughResources. intros E. by inv_agent. Qed.

(** What a launch of a Ceph node does, and the task it launches. *)
Definition task_id (t : TaskType) (k : Z) (hostname slave_id : string) : string :=
  createTaskName t k +:+ "." +:+ hostname +:+ "." +:+ slave_id.

Record ceph_task (offer : Offer) (t : TaskType) (k i : Z) (task : TaskInfo) : Prop := {
  ct_id : ti_task_id task = task_id t k (of_hostname offer) (of_slave_id offer);
  ct_name : ti_name task = createTaskName t k;
  ct_slave : ti_slave_id task = of_slave_id offer;
  ct_data : ti_data task = Some (lexical_to_string i +:+ "." +:+ lexical_to_string (TaskType_to_int t));
  ct_command : ei_command_value (ti_executor task) = ceph_command;
  ct_executor : ∃ ts, ei_executor_id (ti_executor task) = executor_id t k ts;
}.

Lemma launchNode_Ret offer t k i a a' taskId eid :
  launchNode env offer t k i a = (a', Ret (taskId, eid)) →
  taskId = task_id t k (of_hostname offer) (of_slave_id offer) ∧
  ∃ task, ceph_task offer t k i task ∧
    ti_labels task = Some (task_labels t (host_config (of_hostname offer) (ag_stateMachine a))) ∧
    eid = ei_executor_id (ti_executor task) ∧ quiet [launchTasks (of_id offer) [task]] a a'.
Proof.
  unfold launchNode. intros E. inv_run_step. destruct x0 as [executorId executor]. inv_agent.
  match goal with H : (_, _) = (_, _) |- _ => injection H as -> -> end.
  split; [done|].
  match goal with H1 : createExecutor _ _ _ _ _ _ = _, H2 : addHostConfig _ _ _ = _ |- _ =>
    pose proof (createExecutor_machine _ _ _ _ _ _ H1) as Em; pose proof (addHostConfig_labels _ _ _ _ _ H2) as Hl;
    apply createExecutor_Ret in H1 as (H1 & Hid & Hc & ts & Hts); apply addHostConfig_quiet in H2 end.
  rewrite Em in Hl. eexists. split; [|split; [|split; [|by eauto with quiet]]]; [|cbn; by rewrite Hl|by rewrite <- Hid].
  split; try done. exists ts. cbn. congruence.
Qed.

(** ** One offer *)

(** A disk task for a host of configuration [hc]. *)
Record disk_task (offer : Offer) (hc : HostConfig) (task : TaskInfo) : Prop := {
  dt_id : ∃ rest, ti_task_id task = "ceph-mesos-disk-executor." +:+ rest;
  dt_slave : ti_slave_id task = of_slave_id offer;
  dt_data : ti_data task = None;
  dt_labels : ti_labels task = Some (disk_labels hc);
  dt_command : ei_command_value (ti_executor task) = disk_command;
}.

(** The calls that may launch a disk task for an offer in a state: none, or one
    for the devices of its host. *)
Definition disk_launch (offer : Offer) (a : Agent) (cs : list DriverCall) : Prop :=
  cs = [] ∨ ∃ task sm, cs = [launchTasks (of_id offer) [task]] ∧
    addConfig flags (env_files env) (of_hostname offer) (ag_stateMachine a) = Ret sm ∧
    disk_task offer (deref (getConfig (of_hostname offer) sm) sm) task.

Definition preparing (h : string) (a : Agent) : bool :=
  isPreparingDisk (deref (getConfig h (ag_stateMachine a)) (ag_stateMachine a)).

Lemma tryLaunchDiskTask_Ret offer h a a' u :
  tryLaunchDiskTask env offer h a = (a', Ret u) →
  ∃ cs, quiet cs a a' ∧
    (cs = [] ∨ ∃ task, cs = [launchTasks (of_id offer) [task]] ∧
                 disk_task offer (deref (getConfig h (ag_stateMachine a)) (ag_stateMachine a)) task) ∧
    (cs = [] ∧ a' = a ∨ preparing h a' = true).
Proof.
  unfold tryLaunchDiskTask, time, getFileServerIP. intros E. inv_agent.
  run_if; inv_agent; [exists []; split_and!; [apply quiet_refl|by left|by left]|].
  run_if; inv_agent; [exists []; split_and!; [apply quiet_refl|by left|by left]|].
  match goal with Hn : offerNotEnoughResources _ _ _ = _ |- _ => apply offerNotEnough_Ret in Hn as -> end.
  run_if; inv_agent; [exists []; split_and!; [apply quiet_refl|by left|by left]|].
  eexists. split; [|split].
  - eapply quiet_nil_l; [apply quiet_tick|]. eapply quiet_nil_r; [apply quiet_add_call|].
    apply quiet_update_host.
  - right. eexists. split; [reflexivity|]. split; try done. eexists. cbn.
    by str_norm.
  - right. unfold preparing. cbn [ag_stateMachine set_stateMachine add_call tick].
    by rewrite deref_update_host.
Qed.

(** The effect of a run on the core of the state machine, the pending
    requests and the driver. *)
Record effect (f : StateMachine → StateMachine) (pending : list Z) (cs : list DriverCall)
    (a a' : Agent) : Prop := {
  eff_core : core_eq (f (ag_stateMachine a)) (ag_stateMachine a');
  eff_pending : ag_pendingOSD a' = pending;
  eff_config : ag_config a' = ag_config a;
  eff_calls : ag_calls a' = ag_calls a ++ cs;
}.

(** Why an offer was accepted for a task of type [t]. *)
Definition may_launch (t : TaskType) (sm : StateMachine) : Prop :=
  (t = MON → slots MON sm < 1) ∧
  (t = OSD → sm_currentPhase sm = WAINTING_REQUEST ∨ slots OSD sm < 3) ∧
  (t = RADOSGW → sm_currentPhase sm = BOOTSTRAP_RADOSGW ∧ stagingNum (counters RADOSGW sm) < 1) ∧
  (sm_currentPhase sm = WAINTING_REQUEST → t = OSD).

(** The pending requests after one instance was consumed. *)
Definition consume_one (l : list Z) : list Z :=
  match l with
  | [] => []
  | first :: rest => if 0 =? first - 1 then rest else (first - 1) :: rest
  end.

Definition is_initial (t : TaskType) (k : Z) (l : Locals) : Z :=
  if bool_decide (t = MON) && (k =? 0) then 1 else l_isInitialMonNode l.

Definition registers_osd (t : TaskType) (i : Z) (cs : list DriverCall) : Prop :=
  if (i =? 0) && bool_decide (t = OSD)
  then ∃ e s, cs = [sendFrameworkMessage e s (lexical_to_string 20)]
  else cs = [].

(** The message to the initial MON, as the state machine knows it. *)
Definition register_calls (t : TaskType) (i : Z) (sm : StateMachine) : list DriverCall :=
  if (i =? 0) && bool_decide (t = OSD)
  then [sendFrameworkMessage (ts_executorId (getInitialMon sm)) (ts_slaveId (getInitialMon sm)) (lexical_to_string 20)]
  else [].

Lemma register_calls_registers t i sm : registers_osd t i (register_calls t i sm).
Proof. unfold registers_osd, register_calls. case_match; [by eexists _, _|done]. Qed.

Inductive offer_case (ph : Phase) (l : Locals) (offer : Offer) (a a' : Agent) : Locals → Prop :=
  | OC_wrong_role :
      hasRole offer (cfg_role (ag_config a)) = false →
      a' = add_call (declineOffer (of_id offer) (Some 86400)) a →
      offer_case ph l offer a a' l
  | OC_declined cs t k :
      disk_launch offer a cs →
      quiet (cs ++ [declineOffer (of_id offer) None]) a a' →
      offer_case ph l offer a a' (mkLocals t k (l_isInitialMonNode l))
  | OC_too_small t :
      let sm := ag_stateMachine a in
      may_launch t sm →
      effect (on_counters t (add_index 1)) (ag_pendingOSD a) [declineOffer (of_id offer) None] a a' →
      offer_case ph l offer a a' (mkLocals t (index (counters t sm)) (l_isInitialMonNode l))
  | OC_no_request t :
      let sm := ag_stateMachine a in
      may_launch t sm → ph = WAINTING_REQUEST → ag_pendingOSD a = [] →
      effect (λ sm, decreaseOSDIndex (on_counters t (add_index 1) sm)) []
        [declineOffer (of_id offer) None] a a' →
      offer_case ph l offer a a' (mkLocals t (index (counters t sm)) (l_isInitialMonNode l))
  | OC_launched t i task eid cs :
      let sm := ag_stateMachine a in
      may_launch t sm → i = is_initial t (index (counters t sm)) l →
      ceph_task offer t (index (counters t sm)) i task →
      (ph = WAINTING_REQUEST → ag_pendingOSD a ≠ []) →
      registers_osd t i cs →
      effect (λ sm, addStagingTask (ti_task_id task) eid t (of_hostname offer) (of_slave_id offer)
                      (on_counters t (add_index 1) sm))
        (if decide (ph = WAINTING_REQUEST) then consume_one (ag_pendingOSD a) else ag_pendingOSD a)
        (launchTasks (of_id offer) [task] :: cs) a a' →
      eid = ei_executor_id (ti_executor task) →
      offer_case ph l offer a a' (mkLocals t (index (counters t sm)) i).

#[local] Instance may_launch_proper t : Proper (core_eq ==> iff) (may_launch t).
Proof.
  intros sm sm' E. unfold may_launch.
  by rewrite !(slots_proper _ _ _ E), (core_phase _ _ E), (core_counters _ _ E).
Qed.

Lemma fetchPending_Ret a a' b :
  fetchPendingRESTfulRequest a = (a', Ret b) →
  (b = false ∧ ag_pendingOSD a = [] ∧ a' = a) ∨
  (b = true ∧ ag_pendingOSD a ≠ [] ∧ a' = set_pendingOSD (consume_one (ag_pendingOSD a)) a).
Proof.
  unfold fetchPendingRESTfulRequest. intros E. inv_run_step. inv_run_step.
  destruct (ag_pendingOSD a) as [|first rest]; inv_run; [by left|right]. done.
Qed.

(** A launch: one task, its registration as STAGING, and the message to the
    initial MON. *)
Lemma launch_accepted_Ret offer t k i a a' l' :
  launch_accepted env offer t k i a = (a', Ret l') →
  l' = mkLocals t k i ∧ ∃ task, ceph_task offer t k i task ∧
    ti_labels task = Some (task_labels t (host_config (of_hostname offer) (ag_stateMachine a))) ∧
    effect (addStagingTask (ti_task_id task) (ei_executor_id (ti_executor task)) t (of_hostname offer) (of_slave_id offer))
      (ag_pendingOSD a) (launchTasks (of_id offer) [task] :: register_calls t i (ag_stateMachine a')) a a'.
Proof.
  unfold launch_accepted. intros E. inv_run_step.
  match goal with Hl : launchNode _ _ _ _ _ _ = (_, Ret ?ids) |- _ => destruct ids as [taskId eid];
    apply launchNode_Ret in Hl as (-> & task & Ht & Hl & -> & Hq) end. inv_agent. split; [done|].
  match goal with Hif : (if _ then _ else _) ?a1 = (?a2, _) |- _ =>
    assert (Hcs : quiet (register_calls t i (ag_stateMachine a2)) a1 a2)
      by (unfold register_calls; case_match; inv_agent; cbn [ag_stateMachine add_call]; auto with quiet) end.
  destruct Hcs as [Qc Qp Qg Qk]. destruct Hq as [Rc Rp Rg Rk].
  rewrite <- (ct_id _ _ _ _ _ Ht) in *. exists task. split; [done|]. split; [done|].
  split; [|by rewrite Qp; cbn; rewrite Rp|by rewrite Qg; cbn; rewrite Rg|].
  - etrans; [|exact Qc]. cbn. by rewrite <- Rc.
  - rewrite Qk. cbn. rewrite Rk. by rewrite <- app_assoc.
Qed.

(** The run of an iteration once [nextMove] has accepted, from the state it
    left. *)
Lemma accept_offer_Ret ph l offer a t a' l' :
  may_launch t (ag_stateMachine a) →
  accept_offer env ph (mkLocals t (index (counters t (ag_stateMachine a))) (l_isInitialMonNode l)) offer
    (set_stateMachine (on_counters t (add_index 1)) a) = (a', Ret l') →
  offer_case ph l offer a a' l'.
Proof.
  unfold accept_offer. intros Hm E. inv_run_step. cbn [l_taskType l_token l_isInitialMonNode] in *.
  match goal with Hn : offerNotEnoughResources _ _ _ = _ |- _ => apply offerNotEnough_Ret in Hn as -> end.
  destruct x0; inv_agent.
  { apply OC_too_small; [done|]. by split. }
  match goal with Hf : _ = (?a1, Ret ?b) |- _ => assert (Hfetch :
    (b = false ∧ ph = WAINTING_REQUEST ∧ ag_pendingOSD a = [] ∧
     a1 = set_stateMachine (on_counters t (add_index 1)) a) ∨
    (b = true ∧ (ph = WAINTING_REQUEST → ag_pendingOSD a ≠ []) ∧
     a1 = set_pendingOSD (if decide (ph = WAINTING_REQUEST) then consume_one (ag_pendingOSD a)
            else ag_pendingOSD a) (set_stateMachine (on_counters t (add_index 1)) a))) end.
  { case_decide; inv_run; [|by right; destruct a].
    match goal with Hf : fetchPendingRESTfulRequest _ = _ |- _ =>
      apply fetchPending_Ret in Hf as [(-> & ? & ->)|(-> & ? & ->)]; auto end. }
  destruct Hfetch as [(-> & Hph & Hp & ->)|(-> & Hp & ->)]; cbn [negb] in E.
  { inv_agent. by apply OC_no_request. }
  apply launch_accepted_Ret in E as (-> & task & Ht & _ & [Qc Qp Qg Qk]).
  eapply (OC_launched _ _ _ _ _ _ _ task); try done. apply register_calls_registers.
Qed.

Lemma effect_quiet f p cs a a1 a' :
  Proper (core_eq ==> core_eq) f → quiet [] a a1 → effect f p cs a1 a' → effect f p cs a a'.
Proof.
  intros Hf [Qc _ Qg Qk] [Ec Ep Eg Ek]. rewrite app_nil_r in Qk.
  split; [|done|congruence|congruence]. by rewrite Qc.
Qed.

Lemma offer_case_quiet ph l offer a a1 a' l' :
  quiet [] a a1 → hasRole offer (cfg_role (ag_config a)) = true →
  (∀ cs, disk_launch offer a1 cs → disk_launch offer a cs) →
  offer_case ph l offer a1 a' l' → offer_case ph l offer a a' l'.
Proof.
  intros Q Hr Hdl Hc. pose proof Q as [Qc Qp Qg _].
  destruct Hc as [Hr1|cs t k Hd Qd|t sm Hm He|t sm Hm Hph Hp He|t i task eid cs sm Hm Hi Ht Hp Hr1 He].
  - rewrite Qg in Hr1. congruence.
  - apply (OC_declined _ _ _ _ _ cs); [auto|]. by eapply quiet_nil_l.
  - subst sm. rewrite (core_counters _ _ Qc). apply OC_too_small; [by rewrite Qc|].
    rewrite <- Qp. eapply effect_quiet; [apply _|done..].
  - subst sm. rewrite (core_counters _ _ Qc).
    apply OC_no_request; [by rewrite Qc|done|by rewrite <- Qp|].
    eapply effect_quiet; [|done..]. intros s1 s2 E. unfold decreaseOSDIndex. by rewrite E.
  - subst sm. rewrite (core_counters _ _ Qc) in *. rewrite Qp in *.
    apply (OC_launched _ _ _ _ _ _ _ task eid cs); try done; [by rewrite Qc|].
    eapply effect_quiet; [|done..]. intros s1 s2 E. by rewrite E.
Qed.

Lemma addConfig_known h sm sm1 :
  addConfig flags (env_files env) h sm = Ret sm1 → addConfig flags (env_files env) h sm1 = Ret sm1.
Proof.
  unfold addConfig. destruct (sm_hostConfigMap sm !! h) as [hc|] eqn:E; [intros [= <-]; by rewrite E|].
  destruct (new_HostConfig _ _ _) as [hc| | |]; [|done..]. intros [= <-]. cbn. by rewrite lookup_insert_eq.
Qed.

Lemma set_stateMachine_id a : set_stateMachine (λ _, ag_stateMachine a) a = a.
Proof. by destruct a. Qed.

(** Every iteration of the loop of [resourceOffers] is one of the five cases. *)
Lemma handle_offer_Ret ph l offer a a' l' :
  handle_offer flags env ph l offer a = (a', Ret l') → offer_case ph l offer a a' l'.
Proof.
  unfold handle_offer. intros E. inv_run_step. inv_run_step. run_if; inv_run_step.
  { inv_agent. apply OC_wrong_role; [by apply negb_true_iff|done]. }
  inv_agent_step. inv_run_step.
  match goal with Hc : addConfig _ _ _ _ = Ret ?sm |- _ => pose proof Hc as Hadd; apply core_eq_addConfig in Hc;
    assert (Q0 : quiet [] a (set_stateMachine (λ _, sm) a)) by (by apply quiet_set_sm) end.
  match goal with Ht : tryLaunchDiskTask _ _ _ _ = _ |- _ =>
    apply tryLaunchDiskTask_Ret in Ht as (cs & Q1 & Hd & Hpr) end.
  pose proof (quiet_nil_l _ _ _ _ Q0 Q1) as Q. clear Q0 Q1.
  assert (Hd' : disk_launch offer a cs).
  { destruct Hd as [->|(task & -> & Ht)]; [by left|right]. by eexists _, _. }
  inv_run_step. inv_agent_step. unfold preparing in Hpr.
  match type of E with context [nextMove ?t0 ?k0 ?h ?sm] =>
    destruct (nextMove_cases t0 k0 h sm) as [Hp|t Hp|t Hp Hm1 Hm2 Hm3 Hm4] end; cbn in E.
  - inv_agent. rewrite set_stateMachine_id.
    apply (OC_declined _ _ _ _ _ cs); [done|]. eapply quiet_trans; [done|apply quiet_add_call].
  - inv_agent. rewrite set_stateMachine_id.
    apply (OC_declined _ _ _ _ _ cs); [done|]. eapply quiet_trans; [done|apply quiet_add_call].
  - destruct Hpr as [[-> ->]|Hpr]; [|congruence].
    apply (offer_case_quiet _ _ _ _ _ _ _ Q); [by apply negb_false_iff| |].
    { intros cs [->|(task & sm1 & -> & E1 & Ht)]; [by left|right]. cbn in E1.
      rewrite (addConfig_known _ _ _ Hadd) in E1. injection E1 as <-. by eexists _, _. }
    apply (accept_offer_Ret _ _ _ _ t); [by split|exact E].
Qed.

(** A known host whose disks are prepared: nothing is done before [nextMove]. *)
Record prepared_host (hostname : string) (sm : StateMachine) : Prop := {
  ph_known : is_Some (sm_hostConfigMap sm !! hostname);
  ph_osds : havePendingOSDDevs (deref (getConfig hostname sm) sm) = false;
  ph_jnls : havePendingJNLDevs (deref (getConfig hostname sm) sm) = false;
}.

Lemma addConfig_prepared h sm :
  prepared_host h sm → addConfig flags (env_files env) h sm = Ret sm.
Proof. intros [[hc E] _ _]. unfold addConfig. by rewrite E. Qed.

Lemma tryLaunchDiskTask_prepared offer h a :
  prepared_host h (ag_stateMachine a) → tryLaunchDiskTask env offer h a = (a, Ret tt).
Proof.
  intros [_ Ho Hj]. unfold tryLaunchDiskTask.
  rewrite (bind_eq _ _ a a (getConfig h (ag_stateMachine a))) by done.
  rewrite (bind_eq _ _ a a (deref (getConfig h (ag_stateMachine a)) (ag_stateMachine a))) by done.
  rewrite Ho, Hj. by case_match.
Qed.

(** On such a host an iteration that [nextMove] accepts goes straight on to the
    check of the resources. *)
Lemma handle_offer_prepared ph l offer a t k :
  let sm := ag_stateMachine a in
  hasRole offer (cfg_role (ag_config a)) = true →
  prepared_host (of_hostname offer) sm →
  (nextMove (l_taskType l) (l_token l) (of_hostname offer) sm).2 = (true, t, k) →
  may_launch t sm ∧ k = index (counters t sm) ∧
  handle_offer flags env ph l offer a =
    accept_offer env ph (mkLocals t k (l_isInitialMonNode l)) offer
      (set_stateMachine (on_counters t (add_index 1)) a).
Proof.
  intros sm Hr Hh Hm. unfold handle_offer.
  rewrite (bind_eq _ _ a a (ag_config a)) by done. rewrite Hr. cbn [negb].
  assert (Ea : sm_try (addConfig flags (env_files env) (of_hostname offer)) a = (a, Ret tt)).
  { unfold sm_try. fold sm. rewrite (addConfig_prepared _ _ Hh). by destruct a. }
  rewrite (bind_eq _ _ _ _ _ Ea).
  rewrite (bind_eq _ _ _ _ _ (tryLaunchDiskTask_prepared offer _ _ Hh)).
  unfold mbind at 1, ST_bind at 1, sm_call. fold sm. revert Hm.
  destruct (nextMove_cases (l_taskType l) (l_token l) (of_hostname offer) sm) as [Hp|t' Hp|t' Hp Hm1 Hm2 Hm3 Hm4];
    intros Hm; cbn in Hm; simplify_eq.
  split; [by split|]. split; [done|]. reflexivity.
Qed.

Lemma offerNotEnough_eq offer t a needed flat :
  resources_parse "cpus:1;mem:1024" (cfg_role (ag_config a)) = Ret needed →
  resources_flatten (of_resources offer) (cfg_role (ag_config a)) = Ret flat →
  offerNotEnoughResources offer t a = (a, Ret (negb (resources_contains flat needed))).
Proof.
  intros Ep Ef. unfold offerNotEnoughResources. rewrite (bind_eq _ _ a a (ag_config a)) by done.
  rewrite (bind_eq _ _ a a needed) by (unfold lift; by rewrite Ep).
  by rewrite (bind_eq _ _ a a flat) by (unfold lift; by rewrite Ef).
Qed.

(** The requests left by a launch in the phase [ph]. *)
Definition consumed (ph : Phase) (a : Agent) : list Z :=
  if decide (ph = WAINTING_REQUEST) then consume_one (ag_pendingOSD a) else ag_pendingOSD a.

(** With the resources and, in the request phase, a pending request, the
    iteration ends in the launch. *)
Lemma accept_offer_eq ph l offer a needed flat :
  resources_parse "cpus:1;mem:1024" (cfg_role (ag_config a)) = Ret needed →
  resources_flatten (of_resources offer) (cfg_role (ag_config a)) = Ret flat →
  resources_contains flat needed = true →
  (ph = WAINTING_REQUEST → ag_pendingOSD a ≠ []) →
  accept_offer env ph l offer a =
    launch_accepted env offer (l_taskType l) (l_token l) (is_initial (l_taskType l) (l_token l) l)
      (set_pendingOSD (consumed ph a) a).
Proof.
  intros Ep Ef Ec Hp. unfold accept_offer.
  rewrite (bind_eq _ _ _ _ _ (offerNotEnough_eq offer (l_taskType l) a needed flat Ep Ef)), Ec. cbn [negb].
  unfold consumed. case_decide as Hph; [|by destruct a].
  destruct (ag_pendingOSD a) as [|n rest] eqn:E; [by destruct Hp|].
  assert (Ef' : fetchPendingRESTfulRequest a = (set_pendingOSD (consume_one (n :: rest)) a, Ret true))
    by (unfold fetchPendingRESTfulRequest; rewrite (bind_eq _ _ a a (ag_pendingOSD a)), E by done; done).
  by rewrite (bind_eq _ _ _ _ _ Ef').
Qed.

(** ** The OSD ids handed out *)

Definition launch_osd_message (t : TaskState) (osdId : Z) : DriverCall :=
  sendFrameworkMessage (ts_executorId t) (ts_slaveId t)
    (lexical_to_string 21 +:+ "." +:+ lexical_to_string osdId).

Definition starting_all (tasks : list TaskState) (sm : StateMachine) : StateMachine :=
  foldl (λ sm t, updateTaskToStarting (ts_taskId t) sm) sm tasks.

(** The ids go out from the back of the vector, one per task, until one of
    the two lists is exhausted. *)
Definition assigned (tasks : list TaskState) (a : Agent) : Agent :=
  let ids := sm_pendingOSDID (ag_stateMachine a) in
  mkAgent _ (ag_config a)
    (set_pendingOSDID (take (length ids - length tasks) ids)
       (starting_all (take (length ids) tasks) (ag_stateMachine a)))
    (ag_pendingOSD a) (ag_ticks a)
    (ag_calls a ++ zip_with launch_osd_message tasks (reverse ids)).

Lemma updateTaskToStarting_pendingOSDID id l sm :
  updateTaskToStarting id (set_pendingOSDID l sm) = set_pendingOSDID l (updateTaskToStarting id sm).
Proof.
  unfold updateTaskToStarting. cbn. case_match; [|done].
  unfold set_status, updateCounters. by repeat case_match.
Qed.

Lemma starting_all_pendingOSDID tasks l sm :
  starting_all tasks (set_pendingOSDID l sm) = set_pendingOSDID l (starting_all tasks sm).
Proof.
  revert sm. induction tasks as [|t tasks IH]; intros sm; [done|].
  unfold starting_all in *. cbn [foldl]. by rewrite updateTaskToStarting_pendingOSDID, IH.
Qed.

Lemma set_pendingOSDID_id sm : set_pendingOSDID (sm_pendingOSDID sm) sm = sm.
Proof. by destruct sm. Qed.

Lemma assign_osd_ids_eq tasks a : assign_osd_ids tasks a = (assigned tasks a, Ret tt).
Proof.
  revert a. induction tasks as [|t tasks IH]; intros a; cbn [assign_osd_ids].
  - unfold assigned. cbn. rewrite take_nil, Nat.sub_0_r, firstn_all, app_nil_r. cbn.
    rewrite set_pendingOSDID_id. by destruct a.
  - unfold mbind, ST_bind, sm_get, gets, getPendingOSDID. cbn -[assigned take].
    destruct (sm_pendingOSDID (ag_stateMachine a)) as [|id ids _] eqn:E using rev_ind.
    + cbn. unfold assigned. rewrite E. cbn. rewrite app_nil_r.
      unfold mret, ST_ret. f_equal. rewrite <- E at 1. rewrite set_pendingOSDID_id. by destruct a.
    + rewrite last_snoc, List.removelast_last. cbn -[assigned take].
      rewrite IH. unfold assigned. cbn -[take]. rewrite E. f_equal. f_equal.
      * rewrite updateTaskToStarting_pendingOSDID, starting_all_pendingOSDID. cbn.
        rewrite length_app, Nat.add_1_r. cbn [take starting_all foldl].
        rewrite take_app_le by lia. done.
      * rewrite reverse_app, updateTaskToStarting_pendingOSDID. cbn. by rewrite <- app_assoc.
Qed.

Lemma handleWaitingOSDTasks_eq a :
  handleWaitingOSDTasks a = (assigned (getWaitingOSDTask (ag_stateMachine a)) a, Ret tt).
Proof. unfold handleWaitingOSDTasks, mbind, ST_bind, sm_get, gets. apply assign_osd_ids_eq. Qed.

(** [resourceOffers] is the assignment of ids, then the loop. *)
Lemma resourceOffers_Ret offers a a' u :
  resourceOffers flags env offers a = (a', Ret u) →
  let a1 := assigned (getWaitingOSDTask (ag_stateMachine a)) a in
  ∃ l, foreach offers (handle_offer flags env (getCurrentPhase (ag_stateMachine a1)))
         (mkLocals indet_TaskType indet_int 0) a1 = (a', Ret l).
Proof.
  unfold resourceOffers. rewrite (bind_eq _ _ _ _ _ (handleWaitingOSDTasks_eq a)).
  intros E. cbn zeta. inv_run_step. inv_agent_step. inv_agent. eauto.
Qed.

(** ** Answers to the offers *)

(** One offer is declined; or a disk task is launched on it and what is left
    declined; or a Ceph task is launched on it, with a message to the initial
    MON when an OSD must be registered. *)
Inductive answers (offer : Offer) : list DriverCall → Prop :=
  | A_declined r : answers offer [declineOffer (of_id offer) r]
  | A_disk task : ti_data task = None →
      answers offer [launchTasks (of_id offer) [task]; declineOffer (of_id offer) None]
  | A_launched task : answers offer [launchTasks (of_id offer) [task]]
  | A_launched_osd task e s m :
      answers offer [launchTasks (of_id offer) [task]; sendFrameworkMessage e s m].

Lemma offer_case_answers ph l offer a a' l' :
  offer_case ph l offer a a' l' → ∃ cs, answers offer cs ∧ ag_calls a' = ag_calls a ++ cs.
Proof.
  intros [Hr E|cs t k Hd Qd|t sm Hm He|t sm Hm Hph Hp He|t i task eid cs sm Hm Hi Ht Hp Hr He].
  - eexists. split; [apply A_declined|]. by rewrite E.
  - destruct Hd as [->|(task & sm & -> & _ & Hn)]; destruct Qd as [_ _ _ ->];
      eexists; (split; [|reflexivity]); [apply A_declined|apply A_disk, Hn].
  - destruct He as [_ _ _ ->]. eexists. split; [apply A_declined|done].
  - destruct He as [_ _ _ ->]. eexists. split; [apply A_declined|done].
  - destruct He as [_ _ _ ->]. unfold registers_osd in Hr.
    case_match; [destruct Hr as (e & s & ->)|subst cs]; eexists; (split; [|reflexivity]);
      [apply A_launched_osd|apply A_launched].
Qed.

Lemma foreach_answers ph offers l a a' l' :
  foreach offers (handle_offer flags env ph) l a = (a', Ret l') →
  ∃ css, ag_calls a' = ag_calls a ++ concat css ∧ Forall2 answers offers css.
Proof.
  revert l a. induction offers as [|o offers IH]; intros l a; cbn [foreach].
  - intros [-> ->]%mret_Ret. exists []. cbn. by rewrite app_nil_r.
  - intros (a1 & l1 & Ho & Hl)%bind_Ret. apply handle_offer_Ret, offer_case_answers in Ho as (cs & Hc & E1).
    destruct (IH _ _ Hl) as (css & E2 & Hcs). exists (cs :: css). split; [|by constructor].
    rewrite E2, E1. cbn. by rewrite app_assoc.
Qed.
End AgentFacts.

(** ** More facts on single methods *)

Lemma lookup_updateTaskToStarting id sm k :
  sm_taskMap (updateTaskToStarting id sm) !! k =
  (if decide (k = id) then set_currentStatus STARTING else λ t, t) <$> sm_taskMap sm !! k.
Proof.
  destruct (sm_taskMap sm !! id) as [ts|] eqn:E.
  - destruct (updateTaskTo_known ToStarting id ts sm E) as [Em _].
    cbn [updateTaskTo update_status] in Em. rewrite Em, lookup_insert.
    case_decide; case_decide; subst; try done; [by rewrite E|].
    by destruct (sm_taskMap sm !! k).
  - change updateTaskToStarting with (updateTaskTo ToStarting). rewrite updateTaskTo_unknown by done.
    case_decide; subst; [by rewrite E|]. by destruct (sm_taskMap sm !! k).
Qed.

Lemma lookup_starting_all tasks sm k :
  sm_taskMap (starting_all tasks sm) !! k =
  (if decide (k ∈ ts_taskId <$> tasks) then set_currentStatus STARTING else λ t, t) <$> sm_taskMap sm !! k.
Proof.
  unfold starting_all. revert sm. induction tasks as [|t tasks IH]; intros sm; cbn [foldl].
  - rewrite decide_False by apply not_elem_of_nil. by destruct (sm_taskMap sm !! k).
  - rewrite IH, lookup_updateTaskToStarting. rewrite fmap_cons.
    destruct (sm_taskMap sm !! k) as [ts|]; cbn; [|done]. f_equal.
    destruct (decide (k = ts_taskId t)) as [->|Hne].
    + rewrite (decide_True (P := _ ∈ ts_taskId t :: _)) by (by left). by case_decide.
    + destruct (decide (k ∈ ts_taskId <$> tasks)) as [Hin|Hni].
      * rewrite decide_True by (by right). done.
      * rewrite decide_False; [done|]. intros [?|?]%elem_of_cons; done.
Qed.

Lemma consume_one_sum l :
  Forall (λ n, 1 ≤ n) l → l ≠ [] →
  foldr Z.add 0 (consume_one l) = foldr Z.add 0 l - 1 ∧ Forall (λ n, 1 ≤ n) (consume_one l).
Proof.
  destruct l as [|n l]; [done|]. intros [Hn Hl]%Forall_cons _. cbn [consume_one].
  destruct (Z.eqb_spec 0 (n - 1)); cbn [foldr].
  - split; [lia|done].
  - split; [lia|]. constructor; [lia|done].
Qed.

Lemma counters_starting_all tasks sm t : counters t (starting_all tasks sm) = counters t sm.
Proof.
  unfold starting_all. revert sm. induction tasks as [|ts tasks IH]; intros sm; cbn [foldl]; [done|].
  rewrite IH. destruct (sm_taskMap sm !! ts_taskId ts) as [ts'|] eqn:E.
  - destruct (updateTaskTo_known ToStarting _ _ _ E) as [_ Ec].
    cbn [updateTaskTo update_status] in Ec. rewrite Ec. autorewrite with sm. case_decide; [|done].
    destruct (counters t sm). unfold bump. cbn. by destruct (ts_currentStatus ts'); cbn; rewrite !Z.add_0_r.
  - change updateTaskToStarting with (updateTaskTo ToStarting). by rewrite updateTaskTo_unknown.
Qed.

Lemma pendingOSDID_starting_all tasks sm :
  sm_pendingOSDID (starting_all tasks sm) = sm_pendingOSDID sm.
Proof. by rewrite <- (set_pendingOSDID_id sm) at 1; rewrite starting_all_pendingOSDID. Qed.

(** [n] successive calls of [fetchPendingRESTfulRequest]. *)
Fixpoint fetch_times `{MesosResources} (n : nat) : ST Agent (list bool) :=
  match n with
  | O => mret []
  | S n' => b ← fetchPendingRESTfulRequest; bs ← fetch_times n'; mret (b :: bs)
  end.

Lemma fetchPending_eq `{MesosResources} a :
  fetchPendingRESTfulRequest a =
  (set_pendingOSD (consume_one (ag_pendingOSD a)) a, Ret (negb (bool_decide (ag_pendingOSD a = [])))).
Proof.
  unfold fetchPendingRESTfulRequest, mbind, ST_bind, gets, modify, mret, ST_ret.
  by destruct a as [c sm [|n l] k cs].
Qed.

Lemma sum_positive l : Forall (λ n, 1 ≤ n) l → l = [] ∧ foldr Z.add 0 l = 0 ∨ l ≠ [] ∧ 1 ≤ foldr Z.add 0 l.
Proof.
  destruct 1 as [|n l Hn Hl]; [by left|right]. split; [done|]. cbn.
  assert (0 ≤ foldr Z.add 0 l) by (induction Hl; cbn; lia). lia.
Qed.

Section DiskReady.
Context `{LexicalCast, MesosResources}.

(** The message of the disk executor, and its effect on the host it names. *)
Definition disk_ready (hostname failedDevs : string) : string :=
  lexical_to_string 2 +:+ String "." (hostname +:+ String ":" failedDevs).

Definition disk_prepared (hostname : string) (devs : list string) (sm : StateMachine) : StateMachine :=
  let r := getConfig hostname sm in
  update_host r setDiskPreparationDone
    (update_host r (λ hc, updateDiskPartition devs (getJnlPartitionCount hc) hc) sm).

Lemma explode_disk_ready h f :
  lacks "." h = true → lacks "." f = true →
  explode (disk_ready h f) "." = [lexical_to_string 2; h +:+ String ":" f].
Proof.
  intros Hh Hf. unfold disk_ready. rewrite explode_delim by by apply lexical_lacks.
  f_equal. apply explode_last; [|by destruct h].
  autorewrite with lacks. auto.
Qed.

Lemma explode_disk_ready_dotted h1 h2 f :
  lacks "." h1 = true →
  ∃ rest, explode (disk_ready (h1 +:+ String "." h2) f) "." = lexical_to_string 2 :: h1 :: rest.
Proof.
  intros Hh. unfold disk_ready. rewrite explode_delim by by apply lexical_lacks.
  rewrite <- str_app_assoc, str_app_cons, explode_delim by done. eauto.
Qed.

(** The RUNNING report of an OSD, with the id it consumed. *)
Lemma statusUpdate_consumed taskId osdId (a : Agent) :
  statusUpdate (mkTaskStatus taskId TASK_RUNNING
    (Some (lexical_to_string 1 +:+ "." +:+ lexical_to_string osdId))) a =
  (set_stateMachine (updateTaskToRunning taskId) a, Ret tt).
Proof.
  unfold statusUpdate.
  cbn [st_state st_message st_task_id]. rewrite bind_eq with (s1 := _) (a := tt) by reflexivity.
  rewrite explode_pair. cbn zeta. rewrite bind_eq with (s1 := _) (a := lexical_to_string 1) by reflexivity.
  rewrite bind_eq with (s1 := _) (a := 1) by (unfold lift; by rewrite lexical_roundtrip by (split; done)).
  done.
Qed.

Lemma statusUpdate_disk_ready taskId h failedDevs (a : Agent) :
  lacks "." h = true → lacks ":" h = true →
  lacks "." failedDevs = true → lacks ":" failedDevs = true → failedDevs ≠ "" →
  statusUpdate (mkTaskStatus taskId TASK_FINISHED (Some (disk_ready h failedDevs))) a =
  (set_stateMachine (disk_prepared h []) a, Ret tt).
Proof.
  intros Hh1 Hh2 Hf1 Hf2 Hne. unfold statusUpdate. cbn [st_state st_message st_task_id].
  rewrite explode_disk_ready by done.
  rewrite (bind_eq _ _ a a (lexical_to_string 2)) by done.
  rewrite (bind_eq _ _ a a 2) by (unfold lift; by rewrite lexical_roundtrip).
  cbn [Z.eqb MessageToScheduler_to_int Pos.eqb].
  rewrite (bind_eq _ _ a a (h +:+ String ":" failedDevs)) by done.
  rewrite explode_delim, explode_last by done.
  rewrite (bind_eq _ _ a a h) by done. cbn zeta.
  rewrite (bind_eq _ _ a a failedDevs) by done.
  rewrite (bind_eq _ _ a a tt) by by case_decide. by destruct a.
Qed.
End DiskReady.

(** ** Methods that always return

    [returns cfg m]: from every agent configured by [cfg], [m] returns and
    leaves the configuration.  It composes along [bind] and loops. *)
Section Returns.
Context `{MesosResources}.

Definition returns {A} (cfg : Config) (m : ST Agent A) : Prop :=
  ∀ a, ag_config a = cfg → ∃ a' r, m a = (a', Ret r) ∧ ag_config a' = cfg.

Lemma returns_bind {A B} cfg (m : ST Agent A) (f : A → ST Agent B) :
  returns cfg m → (∀ x, returns cfg (f x)) → returns cfg (m ≫= f).
Proof.
  intros Hm Hf a Ha. destruct (Hm a Ha) as (a1 & x & E & H1).
  destruct (Hf x a1 H1) as (a2 & y & E2 & H2). exists a2, y.
  by rewrite (bind_eq _ _ _ _ _ E).
Qed.

Lemma returns_mret {A} cfg (x : A) : returns cfg (mret x).
Proof. by intros a Ha; eexists _, _. Qed.
Lemma returns_gets {A} cfg (f : Agent → A) : returns cfg (gets f).
Proof. by intros a Ha; eexists _, _. Qed.
Lemma returns_modify cfg f : (∀ a, ag_config (f a) = ag_config a) → returns cfg (modify f).
Proof. intros Hf a Ha. eexists _, _. split; [done|]. by rewrite Hf. Qed.
Lemma returns_lift {A} cfg (o : outcome A) x : o = Ret x → returns cfg (lift o).
Proof. intros -> a Ha. by eexists _, _. Qed.
Lemma returns_sm_call {A} cfg (f : StateMachine → StateMachine * A) : returns cfg (sm_call f).
Proof. intros a Ha. unfold sm_call. destruct (f _). by eexists _, _. Qed.
Lemma returns_sm_try cfg f : (∀ sm, ∃ sm', f sm = Ret sm') → returns cfg (sm_try f).
Proof. intros Hf a Ha. unfold sm_try. destruct (Hf (ag_stateMachine a)) as [sm' ->]. by eexists _, _. Qed.

(** The configuration read is the one fixed. *)
Lemma returns_config {B} cfg (f : Config → ST Agent B) :
  returns cfg (f cfg) → returns cfg (gets ag_config ≫= f).
Proof. intros Hf a Ha. rewrite (bind_eq _ _ a a (ag_config a)), Ha by done. by apply Hf. Qed.

Lemma returns_foreach {A L} cfg (l : list A) (body : L → A → ST Agent L) acc :
  Forall (λ x, ∀ acc, returns cfg (body acc x)) l → returns cfg (foreach l body acc).
Proof.
  intros Hl. revert acc. induction Hl as [|x l Hx Hl IH]; intros acc; cbn [foreach].
  - apply returns_mret.
  - by apply returns_bind.
Qed.
End Returns.

Create HintDb returns discriminated.
#[export] Hint Resolve returns_mret returns_gets returns_sm_call : returns.
#[export] Hint Extern 1 (returns _ (modify _)) => (apply returns_modify; by intros []) : returns.
#[export] Hint Extern 1 (returns _ (driver _)) => (apply returns_modify; by intros []) : returns.
#[export] Hint Extern 1 (returns _ (sm_do _)) => (apply returns_modify; by intros []) : returns.
#[export] Hint Extern 1 (returns _ (sm_get _)) => (apply returns_gets) : returns.
#[export] Hint Extern 1 (returns _ (lift _)) => (eapply returns_lift; eassumption) : returns.

(** Walk down a method, splitting its conditionals. *)
Ltac returns_step :=
  match goal with
  | |- returns _ (gets ag_config ≫= _) => apply returns_config
  | |- returns _ (_ ≫= _) => apply returns_bind; [|intros ?]
  | |- returns _ (if ?b then _ else _) => destruct b
  | |- returns _ (match ?x with _ => _ end) => destruct x
  | |- returns _ _ => solve [auto with returns]
  end; cbn zeta.
Ltac returns_auto := cbn zeta; repeat returns_step.

Section Total.
Context `{LexicalCast, Yaml, Indeterminate, HashOrder, MesosResources}.
Context (flags : Flags) (env : Env) (cfg : Config).

(** What the handlers rely on: the host resolves its own name, and Mesos
    parses and flattens resources for the configured role. *)
Record working_env : Prop := {
  we_ip : ∃ ip, getLocalIP env = Ret ip;
  we_parse : ∃ needed, resources_parse "cpus:1;mem:1024" (cfg_role cfg) = Ret needed;
  we_flatten rs : ∃ flat, resources_flatten rs (cfg_role cfg) = Ret flat;
}.
Context (W : working_env).

Lemma returns_getFileServerIP : returns cfg (getFileServerIP env).
Proof. destruct (we_ip W). unfold getFileServerIP. auto with returns. Qed.

Lemma returns_time : returns cfg (time env).
Proof. unfold time. returns_auto. Qed.

Lemma returns_offerNotEnough offer t : returns cfg (offerNotEnoughResources offer t).
Proof.
  unfold offerNotEnoughResources. destruct (we_parse W), (we_flatten W (of_resources offer)).
  returns_auto.
Qed.

#[local] Hint Resolve returns_getFileServerIP returns_time returns_offerNotEnough : returns.

Lemma returns_launchNode offer t k i : returns cfg (launchNode env offer t k i).
Proof. unfold launchNode, createExecutor, addHostConfig. returns_auto. Qed.

Lemma returns_tryLaunchDiskTask offer h : returns cfg (tryLaunchDiskTask env offer h).
Proof. unfold tryLaunchDiskTask. returns_auto. Qed.

Lemma returns_fetchPending : returns cfg fetchPendingRESTfulRequest.
Proof. unfold fetchPendingRESTfulRequest. returns_auto. Qed.

#[local] Hint Resolve returns_launchNode returns_tryLaunchDiskTask returns_fetchPending : returns.

Lemma addConfig_returns h sm :
  (∃ hc, new_HostConfig flags (env_files env) h = Ret hc) →
  ∃ sm', addConfig flags (env_files env) h sm = Ret sm'.
Proof. intros [hc E]. unfold addConfig. rewrite E. case_match; by eexists. Qed.

Lemma returns_launch_accepted offer t k i : returns cfg (launch_accepted env offer t k i).
Proof. unfold launch_accepted. returns_auto. Qed.

(** An accepted offer with the resources is launched on. *)
Lemma handle_offer_launched ph l offer a t k needed flat :
  let sm := ag_stateMachine a in
  let i := is_initial t k l in
  ag_config a = cfg →
  hasRole offer (cfg_role cfg) = true →
  prepared_host (of_hostname offer) sm →
  (nextMove (l_taskType l) (l_token l) (of_hostname offer) sm).2 = (true, t, k) →
  resources_parse "cpus:1;mem:1024" (cfg_role cfg) = Ret needed →
  resources_flatten (of_resources offer) (cfg_role cfg) = Ret flat →
  resources_contains flat needed = true →
  (ph = WAINTING_REQUEST → ag_pendingOSD a ≠ []) →
  ∃ a' task, handle_offer flags env ph l offer a = (a', Ret (mkLocals t k i)) ∧
    ceph_task offer t k i task ∧ ti_labels task = Some (task_labels t (host_config (of_hostname offer) sm)) ∧
    effect (λ sm, addStagingTask (ti_task_id task) (ei_executor_id (ti_executor task)) t (of_hostname offer)
                    (of_slave_id offer) (on_counters t (add_index 1) sm))
      (consumed ph a) (launchTasks (of_id offer) [task] :: register_calls t i (ag_stateMachine a')) a a'.
Proof.
  intros sm i Hcfg Hr Hh Hm Ep Ef Ec Hp. rewrite <- Hcfg in Hr, Ep, Ef.
  destruct (handle_offer_prepared flags env ph l offer a t k Hr Hh Hm) as (_ & _ & ->).
  rewrite (accept_offer_eq env ph _ offer _ needed flat) by done.
  edestruct (returns_launch_accepted offer t k i) as (a' & l' & E & _); [|].
  2: { pose proof E as (-> & task & Ht & Hl & He)%launch_accepted_Ret.
       exists a', task. split; [exact E|]. split; [done|]. split; [by destruct t|].
       destruct He as [Hc1 Hc2 Hc3 Hc4]. by split. }
  done.
Qed.

Lemma returns_handle_offer ph l offer :
  (∃ hc, new_HostConfig flags (env_files env) (of_hostname offer) = Ret hc) →
  returns cfg (handle_offer flags env ph l offer).
Proof.
  intros Hh. pose proof (returns_sm_try cfg _ (λ sm, addConfig_returns _ sm Hh)).
  unfold handle_offer, accept_offer, launch_accepted. returns_auto.
Qed.

Lemma returns_resourceOffers offers :
  Forall (λ o, ∃ hc, new_HostConfig flags (env_files env) (of_hostname o) = Ret hc) offers →
  returns cfg (resourceOffers flags env offers).
Proof.
  intros Ho. unfold resourceOffers. apply returns_bind.
  - intros a Ha. rewrite handleWaitingOSDTasks_eq. eexists _, _. by split.
  - intros _. apply returns_bind; [auto with returns|]. intros ph. apply returns_bind; [|by intros; returns_auto].
    apply returns_foreach. eapply Forall_impl; [exact Ho|]. intros o Hh l. by apply returns_handle_offer.
Qed.
End Total.

(** ** Properties *)

Section Properties.
Context `{LexicalCast, Yaml, Indeterminate, HashOrder, MesosResources}.
Context (flags : Flags) (env : Env).

(** C14. A call of [resourceOffers] that returns answers every offer, in order:
    after the messages that hand out OSD ids, the driver calls split into one
    group per offer, which declines it, or launches one task on it, or launches
    a disk task and declines what is left.  No offer is launched on twice and
    none is left unanswered. *)
Theorem resourceOffers_answers_each_offer (offers : list Offer) (a a' : Agent) (u : unit) :
  resourceOffers flags env offers a = (a', Ret u) →
  ∃ msgs css,
    ag_calls a' = ag_calls a ++ msgs ++ concat css ∧
    Forall (λ c, ∃ e s m, c = sendFrameworkMessage e s m) msgs ∧
    Forall2 answers offers css.
Proof.
  intros (l & E)%resourceOffers_Ret. apply foreach_answers in E as (css & Ec & Hcs).
  eexists _, css. split; [|split; [|exact Hcs]].
  - rewrite Ec. cbn [assigned ag_calls]. by rewrite <- app_assoc.
  - apply Forall_forall. intros c (t & id & -> & _)%elem_of_zip_with. unfold launch_osd_message. eauto.
Qed.

(** C12. Every iteration of the offer loop that returns is one of five steps
    ([offer_case]): the offer is of another role and is declined for a day with
    nothing else changed; it is declined, after at most a disk task, with the
    core of the state machine unchanged; it was wanted but is too small, and
    only the index of the type moves; no request is pending, and the OSD index
    moves and is moved back; or one task is launched, recorded as STAGING under
    its id, and one pending request consumed in the request phase.  On an offer
    of another role the iteration does return. *)
Theorem handle_offer_steps (ph : Phase) (l l' : Locals) (offer : Offer) (a a' : Agent) :
  (handle_offer flags env ph l offer a = (a', Ret l') → offer_case flags env ph l offer a a' l') ∧
  (hasRole offer (cfg_role (ag_config a)) = false →
   handle_offer flags env ph l offer a = (add_call (declineOffer (of_id offer) (Some 86400)) a, Ret l)).
Proof.
  split; [apply handle_offer_Ret|]. intros Hr. unfold handle_offer.
  rewrite (bind_eq _ _ a a (ag_config a)) by done. by rewrite Hr.
Qed.

(** C13. Progress: an offer of the right role from a known host whose disks are
    prepared, that [nextMove] accepts for a type and a token, that has the
    resources and finds a pending request in the request phase, is launched on.
    The iteration returns; it launches one task of that type and token, with the
    labels of its type and its host, and, for an OSD, asks the initial MON for an
    id; the task is entered as STAGING under its id with the counters moved (the
    index and the staging number), and exactly one request is consumed. *)
Theorem handle_offer_launches (ph : Phase) (l : Locals) (offer : Offer) (a : Agent)
    (t : TaskType) (k : Z) (needed flat : list Resource) :
  let sm := ag_stateMachine a in
  let i := is_initial t k l in
  working_env env (ag_config a) →
  hasRole offer (cfg_role (ag_config a)) = true →
  prepared_host (of_hostname offer) sm →
  (nextMove (l_taskType l) (l_token l) (of_hostname offer) sm).2 = (true, t, k) →
  resources_parse "cpus:1;mem:1024" (cfg_role (ag_config a)) = Ret needed →
  resources_flatten (of_resources offer) (cfg_role (ag_config a)) = Ret flat →
  resources_contains flat needed = true →
  (ph = WAINTING_REQUEST → ag_pendingOSD a ≠ []) →
  ∃ a' task, handle_offer flags env ph l offer a = (a', Ret (mkLocals t k i)) ∧
    ceph_task offer t k i task ∧ ti_labels task = Some (task_labels t (host_config (of_hostname offer) sm)) ∧
    effect (λ sm, addStagingTask (ti_task_id task) (ei_executor_id (ti_executor task)) t (of_hostname offer)
                    (of_slave_id offer) (on_counters t (add_index 1) sm))
      (consumed ph a) (launchTasks (of_id offer) [task] :: register_calls t i (ag_stateMachine a')) a a'.
Proof.
  intros sm i W Hr Hh Hm Ep Ef Ec Hp. by apply (handle_offer_launched flags env (ag_config a) W ph l offer a t k needed flat).
Qed.

(** C15. [resourceOffers] returns on every batch of offers, whatever its state,
    when the scheduler's host name resolves, Mesos parses and flattens the
    configured role's resources, and the configuration of every host that
    offers is readable. *)
Theorem resourceOffers_total (offers : list Offer) (a : Agent) :
  working_env env (ag_config a) →
  Forall (λ o, ∃ hc, new_HostConfig flags (env_files env) (of_hostname o) = Ret hc) offers →
  ∃ a', resourceOffers flags env offers a = (a', Ret tt) ∧ ag_config a' = ag_config a.
Proof.
  intros W Ho. destruct (returns_resourceOffers flags env _ W offers Ho a) as (a' & [] & E & Hc); [done|].
  eauto.
Qed.

(** C18. [handleWaitingOSDTasks] always returns.  It sends the pending OSD ids,
    newest first, one per OSD that waits for one, in the message LAUNCH_OSD to
    its executor; exactly the tasks served become STARTING, exactly the ids
    sent are forgotten, and no counter changes. *)
Theorem handleWaitingOSDTasks_spec (a : Agent) :
  let sm := ag_stateMachine a in
  let tasks := getWaitingOSDTask sm in
  let ids := sm_pendingOSDID sm in
  ∃ a', handleWaitingOSDTasks a = (a', Ret tt) ∧
    ag_calls a' = ag_calls a ++ zip_with launch_osd_message tasks (reverse ids) ∧
    sm_pendingOSDID (ag_stateMachine a') = take (length ids - length tasks) ids ∧
    (∀ k, sm_taskMap (ag_stateMachine a') !! k =
       (if decide (k ∈ ts_taskId <$> take (length ids) tasks) then set_currentStatus STARTING else λ t, t)
         <$> sm_taskMap sm !! k) ∧
    (∀ t, counters t (ag_stateMachine a') = counters t sm) ∧
    ag_pendingOSD a' = ag_pendingOSD a.
Proof.
  cbn zeta. rewrite handleWaitingOSDTasks_eq. eexists. split; [done|].
  unfold assigned. cbn [ag_calls ag_stateMachine ag_pendingOSD]. split_and!; [done..| | |done].
  - apply lookup_starting_all.
  - intros t. rewrite counters_set_pendingOSDID. apply counters_starting_all.
Qed.

(** Requests for OSDs are consumed exactly: from pending requests for [n1],
    [n2], ... instances, all positive, [n] successive calls of
    [fetchPendingRESTfulRequest] succeed [min n (n1 + n2 + ...)] times and then
    only fail, and what is left is positive and sums to the rest. *)
Lemma fetchPending_exact (n : nat) (a : Agent) :
  Forall (λ n, 1 ≤ n) (ag_pendingOSD a) →
  let total := Z.to_nat (foldr Z.add 0 (ag_pendingOSD a)) in
  ∃ left,
    fetch_times n a = (set_pendingOSD left a, Ret (replicate (n `min` total) true ++ replicate (n - total) false)) ∧
    Forall (λ n, 1 ≤ n) left ∧ foldr Z.add 0 left = Z.of_nat (total - n).
Proof.
  revert a. induction n as [|n IH]; intros a Hl; cbn zeta.
  - exists (ag_pendingOSD a). split_and!; [by destruct a|done|].
    destruct (sum_positive _ Hl) as [(_ & E)|(_ & E)]; lia.
  - cbn [fetch_times]. rewrite (bind_eq _ _ _ _ _ (fetchPending_eq a)).
    destruct (sum_positive _ Hl) as [(E & Es)|(E & Es)].
    + destruct (IH (set_pendingOSD (consume_one (ag_pendingOSD a)) a)) as (left & Ef & Hleft & Hs);
        [cbn; by rewrite E|].
      exists left. rewrite (bind_eq _ _ _ _ _ Ef). cbn [ag_pendingOSD set_pendingOSD] in *.
      rewrite E in *. cbn in *. split_and!; [|done|done].
      rewrite Nat.min_0_r, Nat.sub_0_r. done.
    + destruct (consume_one_sum _ Hl E) as [Ec Hc].
      destruct (IH (set_pendingOSD (consume_one (ag_pendingOSD a)) a)) as (left & Ef & Hleft & Hs);
        [done|].
      exists left. rewrite (bind_eq _ _ _ _ _ Ef). cbn [ag_pendingOSD set_pendingOSD] in *.
      rewrite bool_decide_false by done. rewrite Ec in *.
      replace (Z.to_nat (foldr Z.add 0 (ag_pendingOSD a) - 1)) with
        (pred (Z.to_nat (foldr Z.add 0 (ag_pendingOSD a)))) in * by lia.
      destruct (Z.to_nat (foldr Z.add 0 (ag_pendingOSD a))) as [|m] eqn:Em; [lia|]. done.
Qed.

(** When a disk executor reports that it has finished, for a host and a
    non-empty list of failed devices without '.' or ':', the scheduler ignores
    the list: every pending device becomes a partition to hand out, exactly as
    if none had failed. *)
Lemma statusUpdate_ignores_failed_devs (taskId h failedDevs : string) (a : Agent) :
  lacks "." h = true → lacks ":" h = true →
  lacks "." failedDevs = true → lacks ":" failedDevs = true → failedDevs ≠ "" →
  statusUpdate (mkTaskStatus taskId TASK_FINISHED (Some (disk_ready h failedDevs))) a =
  (set_stateMachine (disk_prepared h []) a, Ret tt).
Proof. apply statusUpdate_disk_ready. Qed.

(** A report from a host whose name contains a '.' is cut at that '.', and
    the scheduler then reads past the end of the tokens: undefined behaviour,
    on every fully qualified host name. *)
Lemma statusUpdate_dotted_hostname (taskId h1 h2 failedDevs : string) (a : Agent) :
  lacks "." h1 = true → lacks ":" h1 = true →
  statusUpdate (mkTaskStatus taskId TASK_FINISHED (Some (disk_ready (h1 +:+ String "." h2) failedDevs))) a =
  (a, Undef).
Proof.
  intros Hh1 Hh2. unfold statusUpdate. cbn [st_state st_message st_task_id].
  destruct (explode_disk_ready_dotted h1 h2 failedDevs Hh1) as [rest ->].
  rewrite (bind_eq _ _ a a (lexical_to_string 2)) by done.
  rewrite (bind_eq _ _ a a 2) by (unfold lift; by rewrite lexical_roundtrip).
  cbn [Z.eqb MessageToScheduler_to_int Pos.eqb].
  rewrite (bind_eq _ _ a a h1) by done.
  destruct h1 as [|c h1]; [done|]. by rewrite explode_last.
Qed.
End Properties.

(** ** Concrete runs *)

Module SampleRun.
#[local] Existing Instances DecimalCast.cast FlatYaml.yaml SomeValues.indet SomeOrder.order
  ScalarResources.resources.

Definition env : Env :=
  mkEnv (λ _, Some sample_yml) (λ n, 1000 + Z.of_nat n) (Some "sched") (λ _, Some "10.0.0.1").
Definition agent0 : Agent := new_CephSchedulerAgent sample_Config.
Definition offer (id host role : string) (cpus : Z) : Offer :=
  mkOffer _ id host "s" [ScalarResources.mkRes "cpus" role cpus; ScalarResources.mkRes "mem" role 2048].
Definition offers : list Offer := [offer "o1" "h1" "*" 4; offer "o2" "h2" "x" 4].

(** A scheduler in the request phase, with a prepared host [h1], an OSD that
    waits for its id, two ids and a request for two OSDs. *)
Definition machine1 : StateMachine :=
  {| sm_taskMap := <["mon0.h.s" := mon0_task]> (<["osd3.h.s" := osd_task "osd3.h.s" WAITING_OSDID]> ∅);
     sm_hostConfigMap := <["h1" := setDiskPreparationDone
       (updateDiskPartition [] 2 (HostConfig_of_config "h1" sample_Config))]> ∅;
     sm_pendingOSDID := [8; 9];
     sm_currentPhase := WAINTING_REQUEST;
     sm_mon := mkCounters 1 0 1;
     sm_osd := mkCounters 3 1 4;
     sm_radosgw := mkCounters 1 0 1;
     sm_config := sample_Config;
     sm_defaultHostConfig := HostConfig_of_config "" sample_Config |}.
Definition agent1 : Agent := mkAgent _ sample_Config machine1 [2; 1] 0 [].
End SampleRun.

#[local] Existing Instances DecimalCast.cast FlatYaml.yaml SomeValues.indet SomeOrder.order
  ScalarResources.resources.

(** The calls of a run, and whether it returned. *)
Definition returned {S A} (r : S * outcome A) : bool :=
  match r.2 with Ret _ => true | _ => false end.

Lemma run_Ret_tt {S} (m : ST S unit) s : returned (m s) = true → m s = ((m s).1, Ret tt).
Proof. unfold returned. destruct (m s) as [s' [[]|e| |]]; done. Qed.

Lemma resourceOffers_answers_each_offer_witness :
  ∃ msgs css,
    ag_calls (resourceOffers default_Flags SampleRun.env SampleRun.offers SampleRun.agent1).1 =
      msgs ++ concat css ∧
    Forall2 answers SampleRun.offers css.
Proof.
  destruct (resourceOffers_answers_each_offer default_Flags SampleRun.env SampleRun.offers SampleRun.agent1
    (resourceOffers default_Flags SampleRun.env SampleRun.offers SampleRun.agent1).1 tt)
    as (msgs & css & E & _ & F); [apply run_Ret_tt; vm_compute; reflexivity|].
  exists msgs, css. split; [exact E|exact F].
Defined.

Lemma handle_offer_steps_witness :
  handle_offer default_Flags SampleRun.env WAINTING_REQUEST (mkLocals MON 0 0)
    (SampleRun.offer "o2" "h2" "x" 4) SampleRun.agent1 =
  (add_call (declineOffer "o2" (Some 86400)) SampleRun.agent1, Ret (mkLocals MON 0 0)).
Proof.
  refine (proj2 (handle_offer_steps default_Flags SampleRun.env WAINTING_REQUEST (mkLocals MON 0 0)
    (mkLocals MON 0 0) (SampleRun.offer "o2" "h2" "x" 4) SampleRun.agent1 SampleRun.agent1) _).
  vm_compute; reflexivity.
Defined.

Lemma resourceOffers_total_witness :
  ∃ a', resourceOffers default_Flags SampleRun.env SampleRun.offers SampleRun.agent0 = (a', Ret tt) ∧
        ag_config a' = sample_Config.
Proof.
  apply (resourceOffers_total default_Flags SampleRun.env SampleRun.offers SampleRun.agent0).
  - split; [eexists; reflexivity|eexists; vm_compute; reflexivity|intros rs; eexists; reflexivity].
  - repeat constructor; (eexists; vm_compute; reflexivity).
Defined.

Lemma handle_offer_launches_witness :
  ∃ a' task, handle_offer default_Flags SampleRun.env WAINTING_REQUEST (mkLocals MON 0 0)
      (SampleRun.offer "o1" "h1" "*" 4) SampleRun.agent1 = (a', Ret (mkLocals OSD 4 0)) ∧
    ti_task_id task = "osd4.h1.s" ∧ ag_pendingOSD a' = [1; 1].
Proof.
  destruct (handle_offer_launches default_Flags SampleRun.env WAINTING_REQUEST (mkLocals MON 0 0)
    (SampleRun.offer "o1" "h1" "*" 4) SampleRun.agent1 OSD 4
    [ScalarResources.mkRes "cpus" "*" 1; ScalarResources.mkRes "mem" "*" 1024]
    [ScalarResources.mkRes "cpus" "*" 4; ScalarResources.mkRes "mem" "*" 2048])
    as (a' & task & E & Ht & _ & He).
  - split; [eexists; reflexivity|eexists; vm_compute; reflexivity|intros rs; eexists; reflexivity].
  - vm_compute; reflexivity.
  - split; [eexists; vm_compute; reflexivity|vm_compute; reflexivity..].
  - vm_compute; reflexivity.
  - vm_compute; reflexivity.
  - vm_compute; reflexivity.
  - vm_compute; reflexivity.
  - intros _ Hn. discriminate Hn.
  - exists a', task. split; [exact E|]. split; [exact (ct_id _ _ _ _ _ Ht)|exact (eff_pending _ _ _ _ _ He)].
Defined.

Lemma fetchPending_exact_witness :
  (fetch_times 4 SampleRun.agent1).2 = Ret [true; true; true; false].
Proof.
  destruct (fetchPending_exact 4 SampleRun.agent1) as (l & E & _);
    [repeat constructor; vm_compute; discriminate|]. rewrite E. reflexivity.
Defined.

Lemma statusUpdate_ignores_failed_devs_witness :
  statusUpdate (mkTaskStatus "disk" TASK_FINISHED (Some "2.h1:sdb")) SampleRun.agent1 =
  (set_stateMachine (disk_prepared "h1" []) SampleRun.agent1, Ret tt).
Proof.
  exact (statusUpdate_ignores_failed_devs "disk" "h1" "sdb" SampleRun.agent1
    eq_refl eq_refl eq_refl eq_refl (λ E, ltac:(discriminate E))).
Defined.

Lemma statusUpdate_dotted_hostname_witness :
  (statusUpdate (mkTaskStatus "disk" TASK_FINISHED (Some "2.h1.example.com:sdb")) SampleRun.agent1).2 = Undef.
Proof.
  pose proof (statusUpdate_dotted_hostname "disk" "h1" "example.com" "sdb" SampleRun.agent1
    eq_refl eq_refl) as E.
  change (Some (disk_ready _ _)) with (Some "2.h1.example.com:sdb") in E. by rewrite E.
Defined.
