(* ===== verification/HostInvariant.v ===== *)
(** * Invariants of the host configurations through the handlers

    A property of the hosts' map holds after a handler, however it ends, if the
    operations on a host that the handler uses keep it; what each part of a
    handler uses is a hypothesis of its lemma. *)

From S2P Require Import Prelude StringUtil CephTypes ConfigFile HostConfigs TaskMachine Mesos Agent.
Open Scope Z_scope.

Section Updates.
Context `{LexicalCast}.

Lemma hosts_updateCounters t o n sm : sm_hostConfigMap (updateCounters t o n sm) = sm_hostConfigMap sm.
Proof. unfold updateCounters. by repeat case_match. Qed.

Lemma hosts_updateTaskTo u id sm : sm_hostConfigMap (updateTaskTo u id sm) = sm_hostConfigMap sm.
Proof.
  destruct u; cbn; unfold updateTaskToRunning, updateTaskToWaitingOSDID, updateTaskToStarting, updateTaskToFailed;
    case_match; try done; unfold moveState, set_status; repeat case_match; cbn; apply hosts_updateCounters.
Qed.

Lemma ids_updateTaskTo u id sm : sm_pendingOSDID (updateTaskTo u id sm) = sm_pendingOSDID sm.
Proof.
  destruct u; cbn; unfold updateTaskToRunning, updateTaskToWaitingOSDID, updateTaskToStarting, updateTaskToFailed;
    case_match; try done; unfold moveState, set_status, updateCounters; by repeat case_match.
Qed.

Lemma hosts_nextMove t k h sm : sm_hostConfigMap (nextMove t k h sm).1 = sm_hostConfigMap sm.
Proof. by destruct (nextMove_cases t k h sm). Qed.

Lemma hosts_starting_all tasks sm : sm_hostConfigMap (starting_all tasks sm) = sm_hostConfigMap sm.
Proof.
  unfold starting_all. revert sm. induction tasks as [|t tasks IH]; intros sm; [done|]. cbn [foldl]. rewrite IH.
  apply (hosts_updateTaskTo ToStarting).
Qed.
End Updates.

Section HostInvariant.
Context `{LexicalCast, Yaml, Indeterminate, HashOrder, MesosResources, JsonCpp}.
Context (flags : Flags) (env : Env).
Context (J : gmap string HostConfig → Prop).

Definition hosts_inv (a : Agent) : Prop := J (sm_hostConfigMap (ag_stateMachine a)).

(** An operation on one host keeps [J]. *)
Definition host_op_ok (f : HostConfig → HostConfig) : Prop := ∀ h M, J M → J (alter f h M).

Lemma hosts_sm_same f : (∀ sm, sm_hostConfigMap (f sm) = sm_hostConfigMap sm) → keeps hosts_inv (sm_do f).
Proof. intros Hf. apply keeps_modify. intros a. unfold hosts_inv. cbn. by rewrite Hf. Qed.

Lemma hosts_sm_host r f : host_op_ok f → keeps hosts_inv (sm_do (update_host r f)).
Proof.
  intros Hf. apply keeps_modify. intros a Ha. unfold hosts_inv. destruct r as [h|]; cbn; [by apply Hf|done].
Qed.

Lemma hosts_sm_nextMove t k h : keeps hosts_inv (sm_call (nextMove t k h)).
Proof.
  intros a Ha. unfold sm_call. pose proof (hosts_nextMove t k h (ag_stateMachine a)) as E.
  destruct (nextMove _ _ _ _) as [sm r]. cbn in *. unfold hosts_inv. cbn. by rewrite E.
Qed.

#[local] Hint Extern 1 (keeps hosts_inv (modify tick)) => (by apply keeps_modify) : keeps.
#[local] Hint Extern 1 (keeps hosts_inv (modify (set_pendingOSD _))) => (by apply keeps_modify) : keeps.
#[local] Hint Extern 1 (keeps hosts_inv (driver _)) => (by apply keeps_modify) : keeps.
#[local] Hint Extern 1 (keeps hosts_inv (sm_get _)) => (apply keeps_gets) : keeps.
#[local] Hint Resolve hosts_sm_nextMove : keeps.
#[local] Hint Extern 1 (keeps hosts_inv (sm_do (update_host _ _))) => (apply hosts_sm_host; auto; fail) : keeps.
#[local] Hint Extern 1 (keeps hosts_inv (sm_do (set_pendingOSDID _))) => (by apply hosts_sm_same) : keeps.
#[local] Hint Extern 1 (keeps hosts_inv (sm_do (addPendingOSDID _))) => (by apply hosts_sm_same) : keeps.
#[local] Hint Extern 1 (keeps hosts_inv (sm_do decreaseOSDIndex)) => (by apply hosts_sm_same) : keeps.
#[local] Hint Extern 1 (keeps hosts_inv (sm_do (addStagingTask _ _ _ _ _))) => (by apply hosts_sm_same) : keeps.
#[local] Hint Extern 1 (keeps hosts_inv (sm_do (updateTaskToStarting _))) =>
  (apply hosts_sm_same; apply (hosts_updateTaskTo ToStarting)) : keeps.
#[local] Hint Extern 1 (keeps hosts_inv (sm_do (updateTaskToRunning _))) =>
  (apply hosts_sm_same; apply (hosts_updateTaskTo ToRunning)) : keeps.
#[local] Hint Extern 1 (keeps hosts_inv (sm_do (updateTaskToFailed _))) =>
  (apply hosts_sm_same; apply (hosts_updateTaskTo ToFailed)) : keeps.
#[local] Hint Extern 1 (keeps hosts_inv (sm_do (updateTaskToWaitingOSDID _))) =>
  (apply hosts_sm_same; apply (hosts_updateTaskTo ToWaitingOSDID)) : keeps.

(** A disk task marks its host. *)
Lemma hosts_tryLaunchDiskTask_at offer h :
  (∀ M, J M → J (alter setDiskPreparationOnGoing h M)) → keeps hosts_inv (tryLaunchDiskTask env offer h).
Proof.
  intros Hh. unfold tryLaunchDiskTask, offerNotEnoughResources, getFileServerIP, time.
  apply keeps_gets_bind with (P := λ r, r = InMap h ∨ r = DefaultHost); [intros a _; unfold getConfig; case_match; auto|].
  intros r Hr. assert (Hu : keeps hosts_inv (sm_do (update_host r setDiskPreparationOnGoing))).
  { apply keeps_modify. intros a Ha. unfold hosts_inv. destruct Hr as [-> | ->]; cbn; [by apply Hh|done]. }
  keeps_auto.
Qed.

(** An offer adds its host, and the loop is kept by its parts. *)
Section Offers.
Context (add : ∀ h hc M, new_HostConfig flags (env_files env) h = Ret hc → M !! h = None → J M → J (<[h := hc]> M)).

Lemma hosts_addConfig h : keeps hosts_inv (sm_try (addConfig flags (env_files env) h)).
Proof using add.
  intros a Ha. unfold sm_try, addConfig. destruct (sm_hostConfigMap _ !! h) eqn:Eh; [by destruct a|].
  destruct (new_HostConfig _ _ _) as [hc| | |] eqn:E; [|by destruct a..]. by apply add.
Qed.

Lemma hosts_handle_offer_with ph l offer :
  keeps hosts_inv (tryLaunchDiskTask env offer (of_hostname offer)) →
  (∀ l, keeps hosts_inv (accept_offer env ph l offer)) → keeps hosts_inv (handle_offer flags env ph l offer).
Proof using add. intros Ht Ha. pose proof hosts_addConfig. unfold handle_offer. keeps_auto. Qed.
End Offers.

Lemma hosts_assign_osd_ids tasks : keeps hosts_inv (assign_osd_ids tasks).
Proof. induction tasks as [|t tasks IH]; cbn [assign_osd_ids]; keeps_auto. Qed.

Lemma hosts_resourceOffers_with offers :
  (∀ ph l o, keeps hosts_inv (handle_offer flags env ph l o)) → keeps hosts_inv (resourceOffers flags env offers).
Proof.
  intros Ho. unfold resourceOffers. apply keeps_bind.
  - unfold handleWaitingOSDTasks. apply keeps_bind; [auto with keeps|]. intros. apply hosts_assign_osd_ids.
  - intros []. apply keeps_bind; [auto with keeps|]. intros ph. apply keeps_bind; [|intros; auto with keeps].
    apply keeps_foreach, Forall_true. intros o l. apply Ho.
Qed.

(** An iteration on an offer of the right role, from where the disks have been
    seen to. *)
Lemma hosts_after_disks ph l offer a a1 a2 a' l' :
  hasRole offer (cfg_role (ag_config a)) = true →
  sm_try (addConfig flags (env_files env) (of_hostname offer)) a = (a1, Ret tt) →
  tryLaunchDiskTask env offer (of_hostname offer) a1 = (a2, Ret tt) → hosts_inv a2 →
  (∀ l, keeps hosts_inv (accept_offer env ph l offer)) →
  handle_offer flags env ph l offer a = (a', Ret l') → hosts_inv a'.
Proof.
  intros Hr Ea Et Ha2 Hacc. unfold handle_offer. rewrite (bind_eq _ _ a a (ag_config a)) by done. rewrite Hr. cbn [negb].
  rewrite (bind_eq _ _ _ _ _ Ea), (bind_eq _ _ _ _ _ Et).
  match goal with |- ?m a2 = _ → _ => assert (Hk : keeps hosts_inv m) by keeps_auto end.
  intros E. by apply (keeps_Ret _ _ _ _ _ Hk Ha2 E).
Qed.

(** The launch hands out partitions. *)
Section Launch.
Context (pop_osd : host_op_ok (λ hc, (popOSDPartition hc).1)).
Context (pop_jnl : host_op_ok (λ hc, (popJournalPartition hc).1)).

Lemma hosts_launch_accepted offer t k i : keeps hosts_inv (launch_accepted env offer t k i).
Proof using pop_osd pop_jnl.
  unfold launch_accepted, launchNode, createExecutor, addHostConfig, getFileServerIP, time. keeps_auto.
Qed.

Lemma hosts_accept_offer ph l offer : keeps hosts_inv (accept_offer env ph l offer).
Proof using pop_osd pop_jnl.
  pose proof hosts_launch_accepted. unfold accept_offer, offerNotEnoughResources, fetchPendingRESTfulRequest. keeps_auto.
Qed.

Context (on_going : host_op_ok setDiskPreparationOnGoing).

Lemma hosts_tryLaunchDiskTask offer h : keeps hosts_inv (tryLaunchDiskTask env offer h).
Proof using on_going. apply hosts_tryLaunchDiskTask_at, on_going. Qed.

Context (add : ∀ h hc M, new_HostConfig flags (env_files env) h = Ret hc → M !! h = None → J M → J (<[h := hc]> M)).

Lemma hosts_handle_offer ph l offer : keeps hosts_inv (handle_offer flags env ph l offer).
Proof using pop_osd pop_jnl on_going add.
  apply hosts_handle_offer_with; [exact add|apply hosts_tryLaunchDiskTask|intros; apply hosts_accept_offer].
Qed.

(** An iteration on an offer of the right role, from where the host is known. *)
Lemma hosts_after_addConfig ph l offer a a1 a' l' :
  hasRole offer (cfg_role (ag_config a)) = true →
  sm_try (addConfig flags (env_files env) (of_hostname offer)) a = (a1, Ret tt) → hosts_inv a1 →
  handle_offer flags env ph l offer a = (a', Ret l') → hosts_inv a'.
Proof using pop_osd pop_jnl on_going.
  pose proof hosts_accept_offer. pose proof hosts_tryLaunchDiskTask. intros Hr Ea Ha1.
  unfold handle_offer. rewrite (bind_eq _ _ a a (ag_config a)) by done. rewrite Hr. cbn [negb].
  rewrite (bind_eq _ _ _ _ _ Ea). match goal with |- ?m a1 = _ → _ => assert (Hk : keeps hosts_inv m) by keeps_auto end.
  intros E. by apply (keeps_Ret _ _ _ _ _ Hk Ha1 E).
Qed.

Lemma hosts_resourceOffers offers : keeps hosts_inv (resourceOffers flags env offers).
Proof using pop_osd pop_jnl on_going add. apply hosts_resourceOffers_with, hosts_handle_offer. Qed.
End Launch.

(** A disk report prepares its host. *)
Section Reports.
Context (done_ok : host_op_ok setDiskPreparationDone).
Context (update_ok : ∀ devs, host_op_ok (λ hc, updateDiskPartition devs (getJnlPartitionCount hc) hc)).

Lemma hosts_statusUpdate st : keeps hosts_inv (statusUpdate st).
Proof using done_ok update_ok. unfold statusUpdate. keeps_auto. Qed.
End Reports.

Lemma hosts_frameworkMessage e d : keeps hosts_inv (frameworkMessage e d).
Proof. unfold frameworkMessage. keeps_auto. Qed.
End HostInvariant.

(** ** A host with a property *)

Definition host_has (P : HostConfig → Prop) (h : string) (M : gmap string HostConfig) : Prop :=
  ∃ hc, M !! h = Some hc ∧ P hc.

Lemma host_has_op P h f : (∀ hc, P hc → P (f hc)) → host_op_ok (host_has P h) f.
Proof.
  intros Hf h' M (hc & E & Hp). destruct (decide (h' = h)) as [->|Hne].
  - exists (f hc). rewrite lookup_alter_eq, E. auto.
  - exists hc. by rewrite lookup_alter_ne.
Qed.

Lemma host_has_other P h h' f M : h' ≠ h → host_has P h M → host_has P h (alter f h' M).
Proof. intros Hne (hc & E & Hp). exists hc. by rewrite lookup_alter_ne. Qed.

Lemma host_has_add P h h' hc M : M !! h' = None → host_has P h M → host_has P h (<[h' := hc]> M).
Proof. intros Hn (hc' & E & Hp). exists hc'. rewrite lookup_insert_ne by congruence. done. Qed.
