(* ===== verification/Cluster.v ===== *)
(** * The scheduler as a transition system

    A step is one callback of the driver that returns, or one request taken by
    the event loop.  The order, the contents and the number of the callbacks
    are free: reports may come late, twice, or for tasks never launched.  The
    invariants bound what the scheduler launches from it; [orderly] runs are
    those in which every report is one the counters account for. *)

From S2P Require Import Prelude StringUtil CephTypes ConfigFile HostConfigs TaskMachine FlexUp Mesos Agent.
Open Scope Z_scope.

(** ** States and steps

    [sys_requested], [sys_offers] and [sys_reports] are ghosts: the instances
    requested over REST, the offers and the status reports received so far. *)
Record System `{MesosResources} := mkSystem {
  sys_agent : Agent;
  sys_requested : Z;
  sys_offers : Z;
  sys_reports : Z;
}.

(** The Ceph tasks among the tasks launched by a list of driver calls: disk
    tasks carry no data. *)
Section Launched.
Context `{MesosResources}.

Definition ceph_tasks (c : DriverCall) : list TaskInfo :=
  match c with
  | launchTasks _ tasks => filter (λ t, is_Some (ti_data t)) tasks
  | _ => []
  end.

Definition launched (cs : list DriverCall) : list TaskInfo := cs ≫= ceph_tasks.
Definition launched_ids (cs : list DriverCall) : list string := ti_task_id <$> launched cs.

Lemma launched_app cs1 cs2 : launched (cs1 ++ cs2) = launched cs1 ++ launched cs2.
Proof. apply bind_app. Qed.
Lemma launched_ids_app cs1 cs2 : launched_ids (cs1 ++ cs2) = launched_ids cs1 ++ launched_ids cs2.
Proof. unfold launched_ids. by rewrite launched_app, fmap_app. Qed.
End Launched.

(** The status a report asks for, if any. *)
Definition report_update (st : MesosTaskState) : option Update :=
  match st with
  | TASK_RUNNING => Some ToRunning
  | TASK_STARTING => Some ToWaitingOSDID
  | TASK_FAILED => Some ToFailed
  | _ => None
  end.

Section Steps.
Context `{LexicalCast, Yaml, Indeterminate, HashOrder, MesosResources, JsonCpp}.
Context (flags : Flags).

(** [ok] says which reports may come, given the state they meet. *)
Inductive step (ok : StateMachine → TaskStatus → Prop) (s : System) : System → Prop :=
  | S_offers env offers a' :
      resourceOffers flags env offers (sys_agent s) = (a', Ret tt) →
      step ok s (mkSystem _ a' (sys_requested s) (sys_offers s + Z.of_nat (length offers)) (sys_reports s))
  | S_report status a' :
      ok (ag_stateMachine (sys_agent s)) status →
      statusUpdate status (sys_agent s) = (a', Ret tt) →
      step ok s (mkSystem _ a' (sys_requested s) (sys_offers s) (sys_reports s + 1))
  | S_message executorId data a' :
      frameworkMessage executorId data (sys_agent s) = (a', Ret tt) →
      step ok s (mkSystem _ a' (sys_requested s) (sys_offers s) (sys_reports s))
  | S_event data n p pending :
      accepted_request (c_str data) n p →
      processData data (ag_pendingOSD (sys_agent s)) = Ret pending →
      step ok s (mkSystem _ (set_pendingOSD pending (sys_agent s))
                   (sys_requested s + if decide (p = osd) then n else 0) (sys_offers s) (sys_reports s)).

Definition initial (cfg : Config) : System := mkSystem _ (new_CephSchedulerAgent cfg) 0 0 0.

Definition any_report (sm : StateMachine) (status : TaskStatus) : Prop := True.

(** A report is accounted for in a state when the status change it makes, if
    any, is one [updateCounters] counts. *)
Definition report_accounted (sm : StateMachine) (status : TaskStatus) : Prop :=
  ∀ u ts, report_update (st_state status) = Some u → sm_taskMap sm !! st_task_id status = Some ts →
    change_accounted (ts_currentStatus ts) (update_status u) = true.

Definition reachable (cfg : Config) : System → Prop := rtc (step any_report) (initial cfg).
Definition orderly (cfg : Config) : System → Prop := rtc (step report_accounted) (initial cfg).

(** A regular report is accounted for, and announces that a task starts only
    for an OSD. *)
Definition report_regular (sm : StateMachine) (status : TaskStatus) : Prop :=
  report_accounted sm status ∧
  (st_state status = TASK_STARTING → ∀ ts, sm_taskMap sm !! st_task_id status = Some ts → ts_taskType ts = OSD).

Definition regular (cfg : Config) : System → Prop := rtc (step report_regular) (initial cfg).

Lemma step_weaken (ok ok' : StateMachine → TaskStatus → Prop) s s' :
  (∀ sm st, ok sm st → ok' sm st) → step ok s s' → step ok' s s'.
Proof.
  intros Hok [? ? ? E|? ? ? E|? ? ? E|? ? ? ? Ha E];
    [by eapply S_offers|eapply S_report; eauto|by eapply S_message|by eapply S_event].
Qed.

Lemma regular_orderly cfg s : regular cfg s → orderly cfg s.
Proof. apply rtc_subrel. intros s1 s2. apply step_weaken. by intros sm st []. Qed.
End Steps.

(** ** Steps as sequences of moves

    A move is a single change of the counters, the task map or the pending
    requests; [ok] is as for steps, on the update a report makes. *)
Definition waiting_or_starting (id : string) (sm : StateMachine) : Prop :=
  ∀ ts, sm_taskMap sm !! id = Some ts →
    ts_currentStatus ts = WAITING_OSDID ∨ ts_currentStatus ts = STARTING.

Section Moves.
Context `{LexicalCast, Yaml, Indeterminate, HashOrder, MesosResources, JsonCpp}.
Context (flags : Flags).

(** The state and the ghosts change; [cs] are the calls made. *)
Definition moves_to (s s' : System) (sm' : StateMachine) (pending : list Z) (cs : list DriverCall)
    (requested offers reports : Z) : Prop :=
  core_eq sm' (ag_stateMachine (sys_agent s')) ∧
  ag_pendingOSD (sys_agent s') = pending ∧
  ag_calls (sys_agent s') = ag_calls (sys_agent s) ++ cs ∧
  sys_requested s' = sys_requested s + requested ∧
  sys_offers s' = sys_offers s + offers ∧
  sys_reports s' = sys_reports s + reports.

Inductive move (ok : StateMachine → Update → string → Prop) (s s' : System) : Prop :=
  | M_idle l cs n r :
      0 ≤ n → 0 ≤ r → launched cs = [] →
      moves_to s s' (set_pendingOSDID l (ag_stateMachine (sys_agent s))) (ag_pendingOSD (sys_agent s)) cs 0 n r →
      move ok s s'
  | M_index t cs :
      launched cs = [] →
      moves_to s s' (on_counters t (add_index 1) (ag_stateMachine (sys_agent s)))
        (ag_pendingOSD (sys_agent s)) cs 0 1 0 →
      move ok s s'
  | M_launch t task eid host slave pending cs :
      let sm := ag_stateMachine (sys_agent s) in
      may_launch t sm →
      ti_task_id task = task_id t (index (counters t sm)) host slave →
      (if decide (sm_currentPhase sm = WAINTING_REQUEST)
       then ag_pendingOSD (sys_agent s) ≠ [] ∧ pending = consume_one (ag_pendingOSD (sys_agent s))
       else pending = ag_pendingOSD (sys_agent s)) →
      launched cs = [task] →
      moves_to s s' (addStagingTask (ti_task_id task) eid t host slave (on_counters t (add_index 1) sm))
        pending cs 0 1 0 →
      move ok s s'
  | M_starting id :
      waiting_or_starting id (ag_stateMachine (sys_agent s)) →
      moves_to s s' (updateTaskToStarting id (ag_stateMachine (sys_agent s)))
        (ag_pendingOSD (sys_agent s)) [] 0 0 0 →
      move ok s s'
  | M_update u id :
      ok (ag_stateMachine (sys_agent s)) u id →
      moves_to s s' (updateTaskTo u id (ag_stateMachine (sys_agent s)))
        (ag_pendingOSD (sys_agent s)) [] 0 0 1 →
      move ok s s'
  | M_request n :
      1 ≤ n →
      moves_to s s' (ag_stateMachine (sys_agent s)) (ag_pendingOSD (sys_agent s) ++ [n]) [] n 0 0 →
      move ok s s'.

Lemma move_weaken (ok ok' : StateMachine → Update → string → Prop) s s' :
  (∀ sm u id, ok sm u id → ok' sm u id) → move ok s s' → move ok' s s'.
Proof.
  intros Hok [l cs n r Hn Hr Hl Hm|t cs Hl Hm|t task eid hs sl l cs sm HM Hid Hp Hl Hm|id Hw Hm|u id Hu Hm|n Hn Hm].
  - exact (M_idle _ s s' l cs n r Hn Hr Hl Hm).
  - exact (M_index _ s s' t cs Hl Hm).
  - exact (M_launch _ s s' t task eid hs sl l cs HM Hid Hp Hl Hm).
  - exact (M_starting _ s s' id Hw Hm).
  - exact (M_update _ s s' u id (Hok _ _ _ Hu) Hm).
  - exact (M_request _ s s' n Hn Hm).
Qed.

Lemma core_eq_set_ids sm : core_eq (set_pendingOSDID (sm_pendingOSDID sm) sm) sm.
Proof. by rewrite set_pendingOSDID_id. Qed.

Lemma offer_case_phase env ph l offer a a' l' :
  offer_case flags env ph l offer a a' l' →
  sm_currentPhase (ag_stateMachine a') = sm_currentPhase (ag_stateMachine a).
Proof.
  intros [Hr E|cs t k Hd Qd|t sm Hm He|t sm Hm Hph Hp He|t i task eid cs sm Hm Hi Ht Hp Hr He].
  - by rewrite E.
  - by rewrite (core_phase _ _ (quiet_core _ _ _ Qd)).
  - by rewrite (core_phase _ _ (eff_core _ _ _ _ _ He)).
  - by rewrite (core_phase _ _ (eff_core _ _ _ _ _ He)).
  - by rewrite (core_phase _ _ (eff_core _ _ _ _ _ He)).
Qed.

Lemma launched_one i task :
  launched [launchTasks i [task]] = if decide (is_Some (ti_data task)) then [task] else [].
Proof. unfold launched. cbn. by rewrite app_nil_r. Qed.

Lemma launched_disk env offer a cs : disk_launch flags env offer a cs → launched cs = [].
Proof.
  intros [->|(task & sm & -> & _ & [_ _ Hn _ _])]; [done|].
  rewrite launched_one, Hn. by rewrite decide_False by by intros [].
Qed.

Lemma launched_register t i cs : registers_osd t i cs → launched cs = [].
Proof. unfold registers_osd. case_match; [by intros (? & ? & ->)|by intros ->]. Qed.

Lemma launched_ceph offer t k i task : ceph_task offer t k i task →
  launched [launchTasks (of_id offer) [task]] = [task].
Proof. intros Ht. rewrite launched_one, (ct_data _ _ _ _ _ Ht). by rewrite decide_True. Qed.

(** One offer is one move. *)
Lemma offer_case_move ok env l offer a a' l' r o p :
  offer_case flags env (sm_currentPhase (ag_stateMachine a)) l offer a a' l' →
  move ok (mkSystem _ a r o p) (mkSystem _ a' r (o + 1) p).
Proof.
  intros [Hr E|cs t k Hd Qd|t sm Hm He|t sm Hm Hph Hp He|t i task eid cs sm Hm Hi Ht Hp Hr He].
  - subst a'. eapply (M_idle _ _ _ _ [declineOffer (of_id offer) (Some 86400)] 1 0); [lia..|done|].
    split_and!; cbn; [apply core_eq_set_ids|done|done|lia..].
  - destruct Qd as [Qc Qp Qg Qk].
    eapply (M_idle _ _ _ _ (cs ++ [declineOffer (of_id offer) None]) 1 0);
      [lia..|by rewrite launched_app, (launched_disk _ _ _ _ Hd)|].
    split_and!; cbn; [rewrite core_eq_set_ids; exact Qc|done|exact Qk|lia..].
  - destruct He as [Ec Ep Eg Ek]. eapply (M_index _ _ _ t [declineOffer (of_id offer) None]); [done|].
    split_and!; cbn; [exact Ec|done|exact Ek|lia..].
  - destruct He as [Ec Ep Eg Ek]. assert (t = OSD) as -> by (by apply Hm).
    eapply (M_idle _ _ _ _ [declineOffer (of_id offer) None] 1 0); [lia..|done|].
    split_and!; cbn; [|congruence|exact Ek|lia..].
    rewrite core_eq_set_ids, <- Ec. unfold decreaseOSDIndex. rewrite on_counters_cancel; [done|].
    intros []. unfold add_index. cbn. f_equal. lia.
  - destruct He as [Ec Ep Eg Ek].
    eapply (M_launch _ _ _ t task eid (of_hostname offer) (of_slave_id offer) (ag_pendingOSD a')
      (launchTasks (of_id offer) [task] :: cs));
      [done|by rewrite (ct_id _ _ _ _ _ Ht)| | |split_and!; cbn; [exact Ec|done|exact Ek|lia..]].
    + cbn. rewrite Ep. case_decide; auto.
    + change (_ :: cs) with ([launchTasks (of_id offer) [task]] ++ cs).
      rewrite launched_app, (launched_ceph _ _ _ _ _ Ht), (launched_register _ _ _ Hr). done.
Qed.

Lemma offers_moves ok env offers l a a' l' r o p :
  foreach offers (handle_offer flags env (sm_currentPhase (ag_stateMachine a))) l a = (a', Ret l') →
  rtc (move ok) (mkSystem _ a r o p) (mkSystem _ a' r (o + Z.of_nat (length offers)) p).
Proof.
  revert l a o. induction offers as [|x offers IH]; intros l a o; cbn [foreach length].
  - intros [-> ->]%mret_Ret. rewrite Z.add_0_r. done.
  - intros (a1 & l1 & Ho%handle_offer_Ret & Hl)%bind_Ret.
    eapply rtc_l; [by eapply offer_case_move|]. rewrite <- (offer_case_phase _ _ _ _ _ _ _ Ho) in Hl.
    apply (IH _ _ (o + 1)) in Hl. replace (o + Z.of_nat (S (length offers)))
      with (o + 1 + Z.of_nat (length offers)) by lia. exact Hl.
Qed.

(** ** The OSD ids handed out *)

Definition keyed (sm : StateMachine) : Prop := ∀ k ts, sm_taskMap sm !! k = Some ts → ts_taskId ts = k.

Lemma waiting_or_starting_step id id' sm :
  waiting_or_starting id' sm → waiting_or_starting id' (updateTaskToStarting id sm).
Proof.
  intros Hw ts. rewrite lookup_updateTaskToStarting.
  destruct (sm_taskMap sm !! id') as [ts'|] eqn:E; [|done]. cbn.
  case_decide; intros [= <-]; cbn; auto.
Qed.

Lemma starting_moves ok tasks a r o p :
  Forall (λ t, waiting_or_starting (ts_taskId t) (ag_stateMachine a)) tasks →
  rtc (move ok) (mkSystem _ a r o p) (mkSystem _ (set_stateMachine (starting_all tasks) a) r o p).
Proof.
  revert a. induction tasks as [|t tasks IH]; intros a Hw.
  - unfold starting_all. destruct a. done.
  - apply Forall_cons in Hw as [Ht Hw].
    apply (rtc_l _ _ (mkSystem _ (set_stateMachine (updateTaskToStarting (ts_taskId t)) a) r o p)).
    + apply (M_starting _ _ _ (ts_taskId t)); [done|].
      split_and!; cbn; [done|done|by rewrite app_nil_r|lia..].
    + apply (IH (set_stateMachine (updateTaskToStarting (ts_taskId t)) a)).
      eapply Forall_impl; [exact Hw|]. intros t' Ht'. by apply waiting_or_starting_step.
Qed.

Lemma waiting_tasks_status sm : keyed sm →
  Forall (λ t, waiting_or_starting (ts_taskId t) sm) (getWaitingOSDTask sm).
Proof.
  intros Hk. apply Forall_forall. intros t (Hw & k & Ek)%elem_of_waiting ts Ets.
  rewrite (Hk _ _ Ek), Ek in Ets. injection Ets as <-. left.
  unfold is_waiting_osd in Hw. by apply andb_true_iff in Hw as [_ Hw%bool_decide_eq_true].
Qed.

Lemma launched_messages tasks ids : launched (zip_with launch_osd_message tasks ids) = [].
Proof.
  revert ids. induction tasks as [|t tasks IH]; intros [|i ids]; [done..|].
  change (launched ([launch_osd_message t i] ++ zip_with launch_osd_message tasks ids) = []).
  by rewrite launched_app, IH.
Qed.

Lemma assigned_moves ok a r o p : keyed (ag_stateMachine a) →
  rtc (move ok) (mkSystem _ a r o p) (mkSystem _ (assigned (getWaitingOSDTask (ag_stateMachine a)) a) r o p).
Proof.
  intros Hk. set (tasks := getWaitingOSDTask (ag_stateMachine a)).
  set (ids := sm_pendingOSDID (ag_stateMachine a)).
  eapply rtc_r.
  - apply (starting_moves ok (take (length ids) tasks)).
    apply Forall_take, waiting_tasks_status, Hk.
  - apply (M_idle _ _ _ (take (length ids - length tasks) ids)
      (zip_with launch_osd_message tasks (reverse ids)) 0 0); [lia..|apply launched_messages|].
    split_and!; cbn; [done|done|done|lia..].
Qed.

Lemma assigned_phase tasks a :
  sm_currentPhase (ag_stateMachine (assigned tasks a)) = sm_currentPhase (ag_stateMachine a).
Proof.
  unfold assigned. cbn. unfold starting_all. generalize (take (length (sm_pendingOSDID (ag_stateMachine a))) tasks).
  intros l. generalize (ag_stateMachine a). induction l as [|t l IH]; intros sm; [done|]. cbn [foldl]. rewrite IH.
  unfold updateTaskToStarting. case_match; [|done]. unfold set_status. cbn. apply phase_updateCounters.
Qed.

(** ** Reports and messages *)

Lemma statusUpdate_Ret status a a' u :
  statusUpdate status a = (a', Ret u) →
  (report_update (st_state status) = None ∧ quiet [] a a') ∨
  (∃ up, report_update (st_state status) = Some up ∧
         quiet [] (set_stateMachine (updateTaskTo up (st_task_id status)) a) a').
Proof.
  unfold statusUpdate. intros E. destruct (st_state status) eqn:Es; cbn [report_update].
  all: try (right; eexists; split; [reflexivity|]); try (left; split; [reflexivity|]).
  all: try (inv_agent; apply quiet_refl).
  - inv_run_step. inv_agent_step. destruct (st_message status) as [m|]; [|by inv_agent; apply quiet_refl].
    inv_agent. run_if; inv_agent; apply quiet_refl.
  - destruct (st_message status) as [m|]; [|by inv_agent; apply quiet_refl].
    inv_agent. run_if; [|by inv_agent; apply quiet_refl].
    cbn zeta in E. inv_agent. case_decide; inv_agent; eauto with quiet.
Qed.

Lemma frameworkMessage_Ret e d a a' u :
  frameworkMessage e d a = (a', Ret u) →
  a' = a ∨ ∃ osdID, a' = set_stateMachine (addPendingOSDID osdID) a.
Proof. unfold frameworkMessage. intros E. inv_agent. case_decide; inv_agent; eauto. Qed.

Lemma processData_accepted data n p pending pending' :
  accepted_request (c_str data) n p → processData data pending = Ret pending' →
  pending' = if decide (p = osd) then pending ++ [n] else pending.
Proof.
  intros (v & Hp & Hi & Hpr & _ & Hpp). unfold processData, mbind, outcome_bind.
  rewrite Hp, Hpr. destruct Hpp as [-> | ->].
  - rewrite bool_decide_true, Hi by done. by intros [= <-].
  - rewrite bool_decide_false by done. by intros [= <-].
Qed.

Section StepMoves.
Context (okS : StateMachine → TaskStatus → Prop) (okM : StateMachine → Update → string → Prop).
Context (okSM : ∀ sm status u, okS sm status → report_update (st_state status) = Some u →
                               okM sm u (st_task_id status)).

Lemma step_moves s s' :
  keyed (ag_stateMachine (sys_agent s)) → step flags okS s s' → rtc (move okM) s s'.
Proof.
  destruct s as [a r o p]. cbn. intros Hk
    [env offers a' E|status a' Hok E|executorId data a' E|data n pr pending Hacc E]; cbn in *.
  - apply resourceOffers_Ret in E as [l E]. unfold getCurrentPhase in E.
    etrans; [by apply assigned_moves|]. eapply offers_moves, E.
  - apply rtc_once. apply statusUpdate_Ret in E as [(Hu & Q)|(u & Hu & Q)]; destruct Q as [Qc Qp Qg Qk].
    + apply (M_idle _ _ _ (sm_pendingOSDID (ag_stateMachine a)) [] 0 1); [lia..|done|].
      split_and!; cbn; [by rewrite core_eq_set_ids|done|done|lia..].
    + apply (M_update _ _ _ u (st_task_id status)); [by eapply okSM|].
      split_and!; cbn; [exact Qc|done|done|lia..].
  - apply rtc_once. apply frameworkMessage_Ret in E as [->|[i ->]].
    + apply (M_idle _ _ _ (sm_pendingOSDID (ag_stateMachine a)) [] 0 0); [lia..|done|].
      split_and!; cbn; [by rewrite core_eq_set_ids|done|by rewrite app_nil_r|lia..].
    + apply (M_idle _ _ _ (sm_pendingOSDID (ag_stateMachine a) ++ [i]) [] 0 0); [lia..|done|].
      split_and!; cbn; [done|done|by rewrite app_nil_r|lia..].
  - apply rtc_once. rewrite (processData_accepted _ _ _ _ _ Hacc E).
    destruct Hacc as (_ & _ & _ & _ & Hn & _). case_decide.
    + apply (M_request _ _ _ n); [lia|]. split_and!; cbn; [done|done|by rewrite app_nil_r|lia..].
    + apply (M_idle _ _ _ (sm_pendingOSDID (ag_stateMachine a)) [] 0 0); [lia..|done|].
      split_and!; cbn; [by rewrite core_eq_set_ids|done|by rewrite app_nil_r|lia..].
Qed.
End StepMoves.
End Moves.

(** ** Task ids *)

Section TaskIds.
Context `{LexicalCast}.

Lemma createTaskName_inj t t' k k' : createTaskName t k = createTaskName t' k' → t = t' ∧ k = k'.
Proof.
  unfold createTaskName. destruct t, t'; scbn; try discriminate; intros E; (split; [done|]);
    apply (inj lexical_to_string); by injection E.
Qed.

Lemma createTaskName_lacks t k : lacks "." (createTaskName t k) = true.
Proof. unfold createTaskName. rewrite lacks_app, lexical_lacks by done. by destruct t. Qed.

Lemma task_id_inj t t' k k' h h' s s' : task_id t k h s = task_id t' k' h' s' → t = t' ∧ k = k'.
Proof.
  unfold task_id. rewrite !str_app_cons, !str_app_nil_l. intros E.
  apply split_unique in E as [E _]; try apply createTaskName_lacks. by apply createTaskName_inj.
Qed.
End TaskIds.

(** ** The invariant *)

Definition total (l : list Z) : Z := foldr Z.add 0 l.

Lemma total_snoc l n : total (l ++ [n]) = total l + n.
Proof. unfold total. induction l as [|m l IH]; cbn; lia. Qed.

Section Invariant.
Context `{LexicalCast, MesosResources}.

(** The counters, against what has been requested, offered and reported. *)
Record counters_inv (requested offers reports : Z) (pending : list Z) (sm : StateMachine) : Prop := {
  ci_mon : slots MON sm ≤ 1;
  ci_osd : slots OSD sm + total pending ≤ 3 + requested;
  ci_positive : Forall (λ n, 1 ≤ n) pending;
  ci_total : total pending ≤ requested;
  ci_index t : 0 ≤ index (counters t sm) ≤ offers;
  ci_running t : - reports ≤ runningNum (counters t sm) ≤ reports;
  ci_staging t : - reports ≤ stagingNum (counters t sm) ≤ offers;
}.

(** The task map, against the ids launched: an entry sits under its own id,
    made of its type and a token below the index of the type. *)
Definition entry_ok (sm : StateMachine) (k : string) (ts : TaskState) : Prop :=
  ts_taskId ts = k ∧
  ∃ tok host slave, k = task_id (ts_taskType ts) tok host slave ∧
    0 ≤ tok < index (counters (ts_taskType ts) sm).

Record tasks_inv (ids : list string) (sm : StateMachine) : Prop := {
  ti_entries k ts : sm_taskMap sm !! k = Some ts → entry_ok sm k ts;
  ti_nodup : NoDup ids;
  ti_known k : is_Some (sm_taskMap sm !! k) ↔ k ∈ ids;
}.

Lemma counters_inv_weaken r o o' p p' l sm sm' :
  (∀ t, counters t sm' = counters t sm) → o ≤ o' → p ≤ p' →
  counters_inv r o p l sm → counters_inv r o' p' l sm'.
Proof.
  intros Ec Ho Hp [I1 I2 I3 I4 I5 I6 I7].
  split; unfold slots in *; try (intros t; specialize (I5 t); specialize (I6 t); specialize (I7 t));
    rewrite ?Ec in *; (done || lia).
Qed.

Lemma counters_inv_index r o p l t sm :
  counters_inv r o p l sm → counters_inv r (o + 1) p l (on_counters t (add_index 1) sm).
Proof.
  intros [I1 I2 I3 I4 I5 I6 I7].
  split; unfold slots in *; try (intros u; specialize (I5 u); specialize (I6 u); specialize (I7 u));
    autorewrite with sm; repeat case_decide; cbn; (done || lia).
Qed.

Lemma consume_one_positive l : Forall (λ n, 1 ≤ n) l → l ≠ [] →
  total (consume_one l) = total l - 1 ∧ Forall (λ n, 1 ≤ n) (consume_one l).
Proof. apply consume_one_sum. Qed.

Lemma counters_inv_launch r o p l l' t k e h s sm :
  may_launch t sm → 0 ≤ total l →
  (if decide (sm_currentPhase sm = WAINTING_REQUEST) then l ≠ [] ∧ l' = consume_one l else l' = l) →
  counters_inv r o p l sm →
  counters_inv r (o + 1) p l' (addStagingTask k e t h s (on_counters t (add_index 1) sm)).
Proof.
  intros (M1 & M2 & M3 & M4) Ht Hl [I1 I2 I3 I4 I5 I6 I7].
  assert (Hl' : Forall (λ n, 1 ≤ n) l' ∧ total l' ≤ r ∧
                (t = OSD → slots OSD sm + 1 + total l' ≤ 3 + r) ∧ slots OSD sm + total l' ≤ 3 + r).
  { case_decide as Hph.
    - destruct Hl as [Hne ->], (consume_one_positive l I3) as [-> ?]; [done|]. split_and!; [done|lia..].
    - subst l'. split_and!; [done|done| |done]. intros Et. destruct (M2 Et); [done|lia]. }
  destruct Hl' as (L1 & L2 & L3 & L4). clear Hl.
  split; unfold slots in *; try (intros u; specialize (I5 u); specialize (I6 u); specialize (I7 u));
    autorewrite with sm; repeat case_decide; subst; cbn; try done; try (cbn in *; lia).
  - specialize (M1 eq_refl). cbn in *. lia.
  - specialize (L3 eq_refl). cbn in *. lia.
Qed.

Lemma counters_inv_update r o p l u k sm :
  counters_inv r o p l sm → counters_inv r o (p + 1) l (updateTaskTo u k sm).
Proof.
  intros [I1 I2 I3 I4 I5 I6 I7].
  pose proof (updateTaskTo_slots u MON k sm). pose proof (updateTaskTo_slots u OSD k sm).
  split; try done; try lia; intros t; specialize (I5 t); specialize (I6 t); specialize (I7 t);
    [by rewrite updateTaskTo_index|..];
    (destruct (sm_taskMap sm !! k) as [ts|] eqn:E; [|rewrite updateTaskTo_unknown by done; lia];
     destruct (updateTaskTo_known u k ts sm E) as [_ ->]; autorewrite with sm;
     case_decide; [|lia]; destruct u, (ts_currentStatus ts); cbn; lia).
Qed.

Lemma counters_inv_request r o p l n sm :
  1 ≤ n → counters_inv r o p l sm → counters_inv (r + n) o p (l ++ [n]) sm.
Proof.
  intros Hn [I1 I2 I3 I4 I5 I6 I7]. split; rewrite ?total_snoc; try done; try lia.
  apply Forall_app. split; [done|]. by constructor.
Qed.

Lemma tasks_inv_ext ids sm sm' :
  sm_taskMap sm' = sm_taskMap sm →
  (∀ t, index (counters t sm) ≤ index (counters t sm')) → tasks_inv ids sm → tasks_inv ids sm'.
Proof.
  intros Em Ec [I1 I2 I3]. split; [|done|by rewrite Em].
  intros k ts. rewrite Em. intros Hk. destruct (I1 k ts Hk) as (? & tok & h & s & ? & ?).
  split; [done|]. exists tok, h, s. split; [done|]. specialize (Ec (ts_taskType ts)). lia.
Qed.

Lemma tasks_inv_update ids u k sm : tasks_inv ids sm → tasks_inv ids (updateTaskTo u k sm).
Proof.
  intros Hi. destruct (sm_taskMap sm !! k) as [ts|] eqn:E; [|by rewrite updateTaskTo_unknown].
  destruct Hi as [I1 I2 I3]. destruct (updateTaskTo_known u k ts sm E) as [Em _].
  split; [|done|].
  - intros k' ts'. rewrite Em, lookup_insert. unfold entry_ok. rewrite updateTaskTo_index.
    case_decide; [|by apply I1]. subst k'. intros [= <-]. exact (I1 k ts E).
  - intros k'. rewrite Em, lookup_insert, <- I3. case_decide; [|done]. subst k'. rewrite E. split; eauto.
Qed.

Lemma tasks_inv_fresh ids sm t h s :
  tasks_inv ids sm → task_id t (index (counters t sm)) h s ∉ ids.
Proof.
  intros [I1 I2 I3] [ts Hts]%I3. destruct (I1 _ _ Hts) as (_ & tok & h' & s' & E & Hlt).
  apply task_id_inj in E as [Et Ek]. rewrite Et in Ek. lia.
Qed.

Lemma tasks_inv_launch ids sm t e h s k :
  k = task_id t (index (counters t sm)) h s → (∀ u, 0 ≤ index (counters u sm)) →
  tasks_inv ids sm → tasks_inv (ids ++ [k]) (addStagingTask k e t h s (on_counters t (add_index 1) sm)).
Proof.
  intros -> H0i Hi. pose proof (tasks_inv_fresh ids sm t h s Hi) as Hf. destruct Hi as [I1 I2 I3]. split.
  - intros k' ts'. unfold entry_ok, addStagingTask. cbn. rewrite lookup_insert.
    case_decide; [intros [= <-]|intros Hk'].
    + cbn. subst k'. split; [done|]. eexists _, h, s. split; [done|].
      autorewrite with sm. rewrite !decide_True by done. cbn. specialize (H0i t). lia.
    + destruct (I1 _ _ Hk') as (? & tok & h' & s' & ? & ?). split; [done|]. exists tok, h', s'.
      split; [done|]. autorewrite with sm. repeat case_decide; cbn; lia.
  - apply NoDup_app. split_and!; [done| |apply NoDup_singleton].
    intros x Hx Hxk%list_elem_of_singleton. congruence.
  - intros k'. unfold addStagingTask. cbn. rewrite lookup_insert, elem_of_app, list_elem_of_singleton.
    case_decide; [subst; split; eauto|]. rewrite I3. split; [by left|by intros [?|?]].
Qed.
End Invariant.

(** ** Every reachable state *)

Section Reachable.
Context `{LexicalCast, Yaml, Indeterminate, HashOrder, MesosResources, JsonCpp}.
Context (flags : Flags).

Notation machine s := (ag_stateMachine (sys_agent s)).
Notation pending s := (ag_pendingOSD (sys_agent s)).
Notation ids s := (launched_ids (ag_calls (sys_agent s))).

Record system_inv (s : System) : Prop := {
  si_coherent : coherent (machine s);
  si_counters : counters_inv (sys_requested s) (sys_offers s) (sys_reports s) (pending s) (machine s);
  si_tasks : tasks_inv (ids s) (machine s);
}.

Lemma system_inv_intro s s' sm' l cs r o p :
  moves_to s s' sm' l cs r o p →
  coherent sm' →
  counters_inv (sys_requested s + r) (sys_offers s + o) (sys_reports s + p) l sm' →
  tasks_inv (ids s ++ launched_ids cs) sm' → system_inv s'.
Proof.
  intros (Ec & Ep & Ek & Er & Eo & Es) Hc Hn Ht. split.
  - by rewrite <- Ec.
  - rewrite Er, Eo, Es, Ep. revert Hn. apply counters_inv_weaken; [apply Ec|lia..].
  - rewrite Ek, launched_ids_app. revert Ht. apply tasks_inv_ext; [apply Ec|].
    intros t. by rewrite (core_counters _ _ Ec).
Qed.

Lemma launched_ids_nil cs : launched cs = [] → launched_ids cs = [].
Proof. unfold launched_ids. by intros ->. Qed.

Lemma total_nonneg l : Forall (λ n, 1 ≤ n) l → 0 ≤ total l.
Proof. intros Hl. destruct (sum_positive l Hl) as [(_ & E)|(_ & E)]; unfold total; lia. Qed.

Lemma move_system_inv ok s s' : move ok s s' → system_inv s → system_inv s'.
Proof.
  intros Hm [Hc Hn Ht]. pose proof (ci_positive _ _ _ _ _ Hn) as Hpos.
  destruct Hm as [l cs n r Hn0 Hr0 Hl Hm|t cs Hl Hm|t task eid h sl l cs sm Hmay Hid Hp Hl Hm
                 |id Hw Hm|u id Hok Hm|n Hn1 Hm];
    apply (system_inv_intro _ _ _ _ _ _ _ _ Hm); rewrite ?Z.add_0_r;
    try (rewrite (launched_ids_nil _ Hl)); try (change (launched_ids []) with (@nil string));
    try rewrite app_nil_r.
  - exact Hc.
  - revert Hn. apply counters_inv_weaken; [intros u; apply counters_set_pendingOSDID|lia..].
  - revert Ht. apply tasks_inv_ext; [done|]. intros t. by rewrite counters_set_pendingOSDID.
  - by apply on_counters_coherent.
  - by apply counters_inv_index.
  - revert Ht. apply tasks_inv_ext; [done|]. intros u. autorewrite with sm. case_decide; cbn; lia.
  - unfold addStagingTask. revert Hc. apply coherent_ext; [done|].
    intros u. autorewrite with sm. repeat case_decide; done.
  - by apply (counters_inv_launch _ _ _ (pending s)); [|apply total_nonneg|..].
  - unfold launched_ids at 2. rewrite Hl. cbn. apply tasks_inv_launch; [done| |done].
    intros u. apply (ci_index _ _ _ _ _ Hn).
  - by apply (updateTaskTo_coherent ToStarting).
  - apply (counters_inv_weaken _ (sys_offers s) _ (sys_reports s) _ _ (machine s)); [|lia..|done].
    apply (counters_starting_all [mkTaskState id "" MON "" "" STARTING]).
  - by apply (tasks_inv_update _ ToStarting).
  - by apply updateTaskTo_coherent.
  - by apply counters_inv_update.
  - by apply tasks_inv_update.
  - exact Hc.
  - by apply counters_inv_request.
  - exact Ht.
Qed.

Lemma moves_system_inv ok s s' : rtc (move ok) s s' → system_inv s → system_inv s'.
Proof. induction 1; eauto using move_system_inv. Qed.

Lemma initial_system_inv cfg : system_inv (initial cfg).
Proof.
  split; cbn; [done| |].
  - split; unfold slots; cbn; [lia|lia|constructor|lia|..]; intros []; cbn; lia.
  - split; [by intros k ts|constructor|]. intros k. split.
    + by intros [ts ?].
    + intros Hk. by apply not_elem_of_nil in Hk.
Qed.

Lemma tasks_inv_keyed l sm : tasks_inv l sm → keyed sm.
Proof. intros [I _ _] k ts Hk. by destruct (I k ts Hk). Qed.

Lemma reachable_inv ok cfg s : rtc (step flags ok) (initial cfg) s → system_inv s.
Proof.
  intros Hr. pose proof (initial_system_inv cfg) as Hi. revert Hi.
  induction Hr as [|s1 s2 s3 Hs _ IH]; [done|]. intros Hi. apply IH.
  apply (moves_system_inv (λ _ _ _, True) s1); [|done].
  apply (step_moves flags ok (λ _ _ _, True)) in Hs; [done|done|apply (tasks_inv_keyed _ _ (si_tasks _ Hi))].
Qed.

(** ** Orderly runs *)

Definition update_accounted (sm : StateMachine) (u : Update) (id : string) : Prop :=
  ∀ ts, sm_taskMap sm !! id = Some ts →
    change_accounted (ts_currentStatus ts) (update_status u) = true.

Record orderly_inv (s : System) : Prop := {
  oi_system : system_inv s;
  oi_accounted : accounted (machine s);
  oi_radosgw : slots RADOSGW (machine s) ≤ 1;
}.

Lemma accounted_update u id sm :
  update_accounted sm u id → accounted sm → accounted (updateTaskTo u id sm).
Proof.
  intros Hu Ha. destruct (sm_taskMap sm !! id) as [ts|] eqn:E; [|by rewrite updateTaskTo_unknown].
  apply (updateTaskTo_accounted u id ts sm E Ha), Hu, E.
Qed.

Lemma accounted_starting id sm :
  waiting_or_starting id sm → accounted sm → accounted (updateTaskToStarting id sm).
Proof.
  intros Hw. apply (accounted_update ToStarting). intros ts Hts. by destruct (Hw ts Hts) as [-> | ->].
Qed.

Lemma accounted_index t sm : accounted sm → accounted (on_counters t (add_index 1) sm).
Proof. apply accounted_ext; [done|]. intros u. autorewrite with sm. by case_decide. Qed.

Lemma radosgw_launch k e t h sl sm :
  coherent sm → accounted sm → may_launch t sm → slots RADOSGW sm ≤ 1 →
  slots RADOSGW (addStagingTask k e t h sl (on_counters t (add_index 1) sm)) ≤ 1.
Proof.
  intros Hc Ha (_ & _ & M3 & _) Hs. unfold slots in *. autorewrite with sm.
  case_decide as Et; [|done]. destruct (M3 Et) as [Hph Hst]. unfold coherent in Hc. rewrite Hph in Hc.
  cbn [runningNum stagingNum add_staging add_index].
  unfold phase_of in Hc. do 2 (case_match; [done|]).
  destruct (Z.ltb_spec (runningNum (counters RADOSGW sm)) 1); [lia|done].
Qed.

Lemma move_orderly_inv s s' : move update_accounted s s' → orderly_inv s → orderly_inv s'.
Proof.
  intros Hm [Hi Ha Hr]. pose proof (move_system_inv _ _ _ Hm Hi) as Hi'.
  cut (∃ sm', core_eq sm' (machine s') ∧ accounted sm' ∧ slots RADOSGW sm' ≤ 1).
  { intros (sm' & Ec & Ha' & Hr'). split; [done|by rewrite <- Ec..]. }
  destruct Hm as [l cs n r _ _ _ Hm|t cs _ Hm|t task eid h sl l cs sm Hmay Hid _ _ Hm
                 |id Hw Hm|u id Hok Hm|n _ Hm];
    eexists; (split; [apply Hm|]).
  - split; [|unfold slots; by rewrite counters_set_pendingOSDID].
    revert Ha. apply accounted_ext; [done|]. intros t. by rewrite counters_set_pendingOSDID.
  - split; [by apply accounted_index|]. unfold slots in *. autorewrite with sm. by case_decide.
  - split; [|apply radosgw_launch; by try apply Hi].
    apply addStagingTask_accounted; [|by apply accounted_index].
    pose proof (tasks_inv_fresh _ _ t h sl (si_tasks _ Hi)) as Hf. subst sm. rewrite <- Hid in Hf.
    rewrite <- (ti_known _ _ (si_tasks _ Hi)) in Hf. cbn. by apply eq_None_not_Some.
  - split; [by apply accounted_starting|].
    etrans; [apply (updateTaskTo_slots ToStarting)|done].
  - split; [by apply accounted_update|]. etrans; [apply updateTaskTo_slots|done].
  - done.
Qed.

Lemma step_orderly_inv s s' : step flags report_accounted s s' → orderly_inv s → orderly_inv s'.
Proof.
  intros Hs Hi. assert (Hm : rtc (move update_accounted) s s').
  { apply (step_moves flags report_accounted); [| |done].
    - intros sm st u Hok Hu ts Hts. by apply (Hok u).
    - apply (tasks_inv_keyed _ _ (si_tasks _ (oi_system _ Hi))). }
  clear -Hm Hi. induction Hm; eauto using move_orderly_inv.
Qed.

Lemma orderly_orderly_inv cfg s : orderly flags cfg s → orderly_inv s.
Proof.
  intros Hr. assert (Hi : orderly_inv (initial cfg)).
  { split; [apply initial_system_inv| |]; [intros []; by split|done]. }
  revert Hi. induction Hr; eauto using step_orderly_inv.
Qed.
End Reachable.

(** ** The configuration does not change *)

Section Configuration.
Context `{LexicalCast, Yaml, Indeterminate, HashOrder, MesosResources, JsonCpp}.
Context (flags : Flags).

Lemma offer_case_config env ph l offer a a' l' :
  offer_case flags env ph l offer a a' l' → ag_config a' = ag_config a.
Proof. by intros [Hr ->|cs t k Hd [_ _ -> _]|t sm Hm [_ _ -> _]|t sm Hm Hph Hp [_ _ -> _]|t i task eid cs sm Hm Hi Ht Hp Hr [_ _ -> _]]. Qed.

Lemma step_config ok s s' : step flags ok s s' → ag_config (sys_agent s') = ag_config (sys_agent s).
Proof.
  intros [env offers a' E|status a' Hok E|e d a' E|data n p pending Hacc E]; cbn; [|..|done].
  - apply resourceOffers_Ret in E as [l E].
    apply (foreach_Ret (λ _ a, ag_config a = ag_config (sys_agent s))) in E; [done| |done].
    intros o l1 a1 l2 a2 _ Hc Ho%handle_offer_Ret%offer_case_config. congruence.
  - by apply statusUpdate_Ret in E as [(_ & [_ _ -> _])|(u & _ & [_ _ -> _])].
  - by apply frameworkMessage_Ret in E as [->|[i ->]].
Qed.

Lemma steps_config ok cfg s : rtc (step flags ok) (initial cfg) s → ag_config (sys_agent s) = cfg.
Proof.
  intros Hr. change cfg with (ag_config (sys_agent (initial cfg))).
  induction Hr as [|s1 s2 s3 Hs _ IH]; [done|]. rewrite IH. by eapply step_config.
Qed.
End Configuration.

(** ** Once the first MON index is spent *)

Section LostInitialMon.
Context `{LexicalCast, Yaml, Indeterminate, HashOrder, MesosResources, JsonCpp}.
Context (flags : Flags).

Notation machine s := (ag_stateMachine (sys_agent s)).

(** The data of a task says whether it is the initial MON. *)
Definition not_initial (task : TaskInfo) : Prop :=
  ∃ rest, ti_data task = Some (lexical_to_string 0 +:+ String "." rest).

(** Between two agents: the MON index is spent, and no launch was initial. *)
Definition no_initial_launch (a a' : Agent) : Prop :=
  1 ≤ index (counters MON (ag_stateMachine a')) ∧
  ∃ cs, ag_calls a' = ag_calls a ++ cs ∧ Forall not_initial (launched cs).

Lemma no_initial_refl a : 1 ≤ index (counters MON (ag_stateMachine a)) → no_initial_launch a a.
Proof. intros Hi. split; [done|]. exists []. by rewrite app_nil_r. Qed.

Lemma no_initial_trans a1 a2 a3 :
  no_initial_launch a1 a2 → no_initial_launch a2 a3 → no_initial_launch a1 a3.
Proof.
  intros [_ (cs & E & Hcs)] [Hi (cs' & E' & Hcs')]. split; [done|]. exists (cs ++ cs').
  rewrite E', E, app_assoc, launched_app. split; [done|]. by apply Forall_app.
Qed.

Lemma no_initial_intro a a' cs :
  ag_calls a' = ag_calls a ++ cs → launched cs = [] →
  (∀ t, index (counters t (ag_stateMachine a)) ≤ index (counters t (ag_stateMachine a'))) →
  1 ≤ index (counters MON (ag_stateMachine a)) → no_initial_launch a a'.
Proof.
  intros E Hl Hi Hmon. split; [specialize (Hi MON); lia|]. exists cs. by rewrite Hl.
Qed.

Lemma offer_no_initial env ph l offer a a' l' :
  offer_case flags env ph l offer a a' l' → ph = sm_currentPhase (ag_stateMachine a) → l_isInitialMonNode l = 0 →
  1 ≤ index (counters MON (ag_stateMachine a)) →
  l_isInitialMonNode l' = 0 ∧ no_initial_launch a a'.
Proof.
  intros [Hr E|cs t k Hd Qd|t sm Hm He|t sm Hm Hph Hp He|t i task eid cs sm Hm Hi Ht Hp Hr He] -> Hl H1i.
  - split; [done|]. subst a'. by apply (no_initial_intro _ _ [declineOffer (of_id offer) (Some 86400)]).
  - split; [done|]. destruct Qd as [Qc _ _ Qk].
    apply (no_initial_intro _ _ _ Qk); [by rewrite launched_app, (launched_disk _ _ _ _ _ Hd)| |done].
    intros u. by rewrite (core_counters _ _ Qc).
  - split; [done|]. destruct He as [Ec _ _ Ek]. apply (no_initial_intro _ _ _ Ek); [done| |done].
    intros u. rewrite (core_counters _ _ Ec). autorewrite with sm. subst sm. case_decide; cbn; lia.
  - split; [done|]. destruct He as [Ec _ _ Ek]. assert (t = OSD) as -> by (by apply Hm).
    apply (no_initial_intro _ _ _ Ek); [done| |done].
    intros u. rewrite (core_counters _ _ Ec). unfold decreaseOSDIndex. autorewrite with sm.
    case_decide; cbn; lia.
  - assert (i = 0) as ->.
    { rewrite Hi. unfold is_initial. rewrite Hl. destruct t; try done. cbn.
      replace (_ =? 0) with false; [done|]. symmetry. apply Z.eqb_neq. subst sm. cbn in H1i. lia. }
    split; [done|]. destruct He as [Ec _ _ Ek]. split.
    + rewrite (core_counters _ _ Ec). autorewrite with sm. subst sm. repeat case_decide; cbn in *; lia.
    + eexists. split; [exact Ek|]. change (_ :: cs) with ([launchTasks (of_id offer) [task]] ++ cs).
      rewrite launched_app, (launched_ceph _ _ _ _ _ Ht), (launched_register _ _ _ Hr).
      constructor; [|constructor]. eexists. apply (ct_data _ _ _ _ _ Ht).
Qed.

Lemma assigned_no_initial tasks a :
  1 ≤ index (counters MON (ag_stateMachine a)) → no_initial_launch a (assigned tasks a).
Proof.
  apply (no_initial_intro _ _ (zip_with launch_osd_message tasks (reverse (sm_pendingOSDID (ag_stateMachine a)))));
    [done|apply launched_messages|].
  intros t. unfold assigned. cbn [ag_stateMachine].
  by rewrite counters_set_pendingOSDID, counters_starting_all.
Qed.

Lemma step_no_initial ok s s' :
  step flags ok s s' → 1 ≤ index (counters MON (machine s)) → no_initial_launch (sys_agent s) (sys_agent s').
Proof.
  intros [env offers a' E|status a' Hok E|executorId data a' E|data n pr pending Hacc E] H1i; cbn.
  - apply resourceOffers_Ret in E as [l E].
    set (a1 := assigned (getWaitingOSDTask (machine s)) (sys_agent s)) in *.
    eapply (foreach_Ret (λ l a, l_isInitialMonNode l = 0 ∧
      sm_currentPhase (ag_stateMachine a) = sm_currentPhase (ag_stateMachine a1) ∧
      no_initial_launch (sys_agent s) a)); [| |exact E];
      [|by split_and!; [..|apply assigned_no_initial]].
    intros o l1 a2 l2 a3 _ (Hl & Hph & Hn) Ho%handle_offer_Ret.
    pose proof (offer_case_phase _ _ _ _ _ _ _ _ Ho) as Hph2.
    apply offer_no_initial in Ho as [Hl2 Hn2]; [|done|done|apply Hn].
    split_and!; [done|congruence|by eapply no_initial_trans].
  - apply statusUpdate_Ret in E as [(_ & Q)|(u & _ & Q)]; destruct Q as [Qc _ _ Qk].
    + apply (no_initial_intro _ _ _ Qk); [done| |done]. intros t. by rewrite (core_counters _ _ Qc t).
    + apply (no_initial_intro (sys_agent s) a' [] Qk); [done| |done]. intros t.
      rewrite (core_counters _ _ Qc t). cbn. by rewrite updateTaskTo_index.
  - apply frameworkMessage_Ret in E as [->|[i ->]]; [by apply no_initial_refl|].
    apply (no_initial_intro _ _ []); [by rewrite app_nil_r|done| |done].
    intros t. cbn. unfold addPendingOSDID. by rewrite counters_set_pendingOSDID.
  - apply (no_initial_intro _ _ []); [by rewrite app_nil_r|done..].
Qed.
End LostInitialMon.

(** ** Scripted runs *)

Section Script.
Context `{LexicalCast, Yaml, Indeterminate, HashOrder, MesosResources, JsonCpp}.
Context (flags : Flags) (env : Env).

(** A script: batches of offers, reports (task, state, message), and messages
    from the executor of the initial MON. *)
Inductive event :=
  | Offers (offers : list Offer)
  | Report (taskId : string) (state : MesosTaskState) (message : option string)
  | FromMon (data : string).

Definition callback (e : event) : ST Agent unit :=
  match e with
  | Offers offers => resourceOffers flags env offers
  | Report taskId state message => statusUpdate (mkTaskStatus taskId state message)
  | FromMon data =>
      mon ← sm_get getInitialMon;
      frameworkMessage (ts_executorId mon) data
  end.

(** Whether every callback of the script returns and every report is
    regular, and the state it ends in. *)
Definition regular_now (e : event) (sm : StateMachine) : bool :=
  match e with
  | Report taskId state _ =>
      match report_update state, sm_taskMap sm !! taskId with
      | Some u, Some ts =>
          change_accounted (ts_currentStatus ts) (update_status u) &&
          (bool_decide (ts_taskType ts = OSD) || negb (bool_decide (u = ToWaitingOSDID)))
      | _, _ => true
      end
  | _ => true
  end.

Fixpoint play (script : list event) (s : System) : option System :=
  match script with
  | [] => Some s
  | e :: script' =>
      match callback e (sys_agent s) with
      | (a', Ret tt) =>
          if regular_now e (ag_stateMachine (sys_agent s)) then
            play script' (mkSystem _ a' (sys_requested s)
              (sys_offers s + match e with Offers l => Z.of_nat (length l) | _ => 0 end)
              (sys_reports s + match e with Report _ _ _ => 1 | _ => 0 end))
          else None
      | _ => None
      end
  end.

Lemma regular_now_spec taskId state message sm :
  regular_now (Report taskId state message) sm = true →
  report_regular sm (mkTaskStatus taskId state message).
Proof.
  intros E. split; [intros u ts Hu Hts|intros Hst ts Hts]; cbn in *.
  - rewrite Hu, Hts in E. by apply andb_true_iff in E as [E _].
  - subst state. cbn in E. rewrite Hts in E. apply andb_true_iff in E as [_ E].
    rewrite (bool_decide_true (ToWaitingOSDID = _)), orb_false_r in E by done. by apply bool_decide_eq_true in E.
Qed.

Lemma play_regular script s s' : play script s = Some s' → rtc (step flags report_regular) s s'.
Proof.
  revert s. induction script as [|e script IH]; intros s; cbn [play]; [by intros [= ->]|].
  destruct (callback e (sys_agent s)) as [a' [[]| | |]] eqn:E; try done.
  destruct (regular_now e _) eqn:Ea; [|done]. intros Hp. eapply rtc_l; [|by apply IH].
  destruct e as [offers|taskId state message|data]; cbn [callback] in E; rewrite ?Z.add_0_r.
  - by eapply S_offers.
  - eapply S_report; [|exact E]. by apply regular_now_spec.
  - inv_run_step. inv_agent_step. by eapply S_message.
Qed.

Lemma orderly_reachable cfg s : orderly flags cfg s → reachable flags cfg s.
Proof. apply rtc_subrel. intros s1 s2. by apply step_weaken. Qed.
End Script.

(** ** Properties *)

Section Properties.
Context `{LexicalCast, Yaml, Indeterminate, HashOrder, MesosResources, JsonCpp}.
Context (flags : Flags) (cfg : Config).

(** C1. Whatever the order and the contents of the callbacks, in every state
    the scheduler reaches: at most one MON is counted as running or staging;
    the OSDs counted, with the instances still pending, are at most three plus
    the instances requested over REST; the pending requests are positive; and
    the phase is the one the running counters call for. *)
Theorem reachable_launches_bounded (s : System) :
  reachable flags cfg s →
  let sm := ag_stateMachine (sys_agent s) in
  let pending := ag_pendingOSD (sys_agent s) in
  slots MON sm ≤ 1 ∧ slots OSD sm + total pending ≤ 3 + sys_requested s ∧
  total pending ≤ sys_requested s ∧ Forall (λ n, 1 ≤ n) pending ∧
  getCurrentPhase sm = phase_of sm.
Proof. intros [Hc [I1 I2 I3 I4 _ _ _] _]%reachable_inv. by split_and!. Qed.

(** C10. In every reachable state, no two Ceph tasks were ever launched under
    the same id; the task map holds exactly the tasks launched; and each entry
    is keyed by its own id, made of its type and of a token below the index of
    that type. *)
Theorem reachable_task_ids (s : System) :
  reachable flags cfg s →
  let sm := ag_stateMachine (sys_agent s) in
  let ids := launched_ids (ag_calls (sys_agent s)) in
  NoDup ids ∧ (∀ k, is_Some (sm_taskMap sm !! k) ↔ k ∈ ids) ∧
  (∀ k ts, sm_taskMap sm !! k = Some ts → entry_ok sm k ts).
Proof. intros [_ _ [I1 I2 I3]]%reachable_inv. by split_and!. Qed.

(** C27. No counter of the state machine overflows a 32-bit int while fewer than
    2^31 offers and status reports have been received, in any order. *)
Theorem reachable_counters_in_range (s : System) (t : TaskType) :
  reachable flags cfg s → sys_offers s < 2 ^ 31 → sys_reports s < 2 ^ 31 →
  let c := counters t (ag_stateMachine (sys_agent s)) in
  int_range (runningNum c) ∧ int_range (stagingNum c) ∧ int_range (index c).
Proof.
  intros [_ [_ _ _ _ I5 I6 I7] _]%reachable_inv Ho Hr. cbn zeta. unfold int_range.
  specialize (I5 t). specialize (I6 t). specialize (I7 t). lia.
Qed.

(** C2. When every report is one the counters account for, they count the
    tasks exactly, and so at every moment at most one MON, at most one RADOSGW
    and at most three OSDs plus those requested are running or in flight. *)
Theorem orderly_cluster_size (s : System) :
  orderly flags cfg s →
  let sm := ag_stateMachine (sys_agent s) in
  accounted sm ∧
  num_running MON sm + num_in_flight MON sm ≤ 1 ∧
  num_running RADOSGW sm + num_in_flight RADOSGW sm ≤ 1 ∧
  num_running OSD sm + num_in_flight OSD sm ≤ 3 + sys_requested s.
Proof.
  intros [[_ [I1 I2 I3 _ _ _ _] _] Ha Hr]%orderly_orderly_inv. cbn zeta. split; [done|].
  pose proof (total_nonneg _ I3). unfold slots in *.
  destruct (Ha MON) as [<- <-], (Ha OSD) as [<- <-], (Ha RADOSGW) as [<- <-]. lia.
Qed.

(** C35. The initial MON can be lost.  Once the MON index has been incremented,
    which the first offer of the right role does even when it is then declined
    for its size, no task launched later, in any run, is the initial MON. *)
Theorem initial_mon_lost (ok : StateMachine → TaskStatus → Prop) (s s' : System) :
  1 ≤ index (counters MON (ag_stateMachine (sys_agent s))) →
  rtc (step flags ok) s s' →
  ∃ cs, ag_calls (sys_agent s') = ag_calls (sys_agent s) ++ cs ∧ Forall not_initial (launched cs).
Proof.
  intros H1i Hr.
  assert (Hn : no_initial_launch (sys_agent s) (sys_agent s')); [|apply Hn].
  revert H1i. induction Hr as [s|s1 s2 s3 Hs _ IH]; intros H1i; [by apply no_initial_refl|].
  pose proof (step_no_initial flags ok _ _ Hs H1i) as Hn. eapply no_initial_trans; [exact Hn|].
  apply IH, Hn.
Qed.
End Properties.

#[local] Existing Instances DecimalCast.cast FlatYaml.yaml SomeValues.indet SomeOrder.order
  ScalarResources.resources ToyJson.json.

(** A whole bootstrap on one host: its disks are prepared, the initial MON is
    launched, three OSDs get their ids, then the RADOSGW runs. *)
Module Bootstrap.
Definition one : list Offer := [SampleRun.offer "o" "h1" "*" 4].
Definition three : list Offer := one ++ one ++ one.
Definition script : list event := [
  Offers one; Report "disk" TASK_FINISHED (Some "2.h1:-");
  Offers one; Report "mon0.h1.s" TASK_RUNNING None;
  Offers three; FromMon "0"; FromMon "1"; FromMon "2";
  Report "osd0.h1.s" TASK_STARTING None; Report "osd1.h1.s" TASK_STARTING None;
  Report "osd2.h1.s" TASK_STARTING None;
  Offers one;
  Report "osd0.h1.s" TASK_RUNNING (Some "1.0"); Report "osd1.h1.s" TASK_RUNNING None;
  Report "osd2.h1.s" TASK_RUNNING None;
  Offers one; Report "radosgw0.h1.s" TASK_RUNNING None].
Definition start : System := initial sample_Config.
Definition final : System := default start (play default_Flags SampleRun.env script start).

(** The same beginning, but the first offer of a prepared host is too small. *)
Definition small_first : list event := [
  Offers one; Report "disk" TASK_FINISHED (Some "2.h1:-");
  Offers [SampleRun.offer "o" "h1" "*" 0]].
Definition after_small : System := default start (play default_Flags SampleRun.env small_first start).
Definition after_big : System := default start (play default_Flags SampleRun.env [Offers one] after_small).
End Bootstrap.

(** Whether a script plays to the end, decided by evaluation. *)
Definition plays {A} (o : option A) : bool := match o with Some _ => true | None => false end.

Lemma plays_default {A} (d : A) o : plays o = true → o = Some (default d o).
Proof. by destruct o. Qed.

Lemma bootstrap_plays : play default_Flags SampleRun.env Bootstrap.script Bootstrap.start = Some Bootstrap.final.
Proof. apply plays_default. vm_compute. reflexivity. Qed.

Lemma bootstrap_orderly : orderly default_Flags sample_Config Bootstrap.final.
Proof. apply regular_orderly. apply (play_regular _ SampleRun.env Bootstrap.script), bootstrap_plays. Qed.

Lemma bootstrap_reachable : reachable default_Flags sample_Config Bootstrap.final.
Proof. apply orderly_reachable, bootstrap_orderly. Qed.

(** The bootstrap completes: from a new scheduler, a run in which one
    prepared host makes adequate offers and every task reports in the expected
    order reaches the request phase with one MON, three OSDs and one RADOSGW
    running and nothing in flight; the OSDs were told the ids 0, 1 and 2 the
    initial MON announced. *)
Lemma bootstrap_completes :
  orderly default_Flags sample_Config Bootstrap.final ∧
  let a := sys_agent Bootstrap.final in
  let sm := ag_stateMachine a in
  getCurrentPhase sm = WAINTING_REQUEST ∧
  (λ t, (num_running t sm, num_in_flight t sm)) <$> [MON; OSD; RADOSGW] = [(1, 0); (3, 0); (1, 0)] ∧
  launched_ids (ag_calls a) = ["mon0.h1.s"; "osd0.h1.s"; "osd1.h1.s"; "osd2.h1.s"; "radosgw0.h1.s"] ∧
  ti_data <$> launched (ag_calls a) = [Some "1.0"; Some "0.1"; Some "0.1"; Some "0.1"; Some "0.2"].
Proof.
  split; [exact bootstrap_orderly|]. cbn zeta. split_and!; vm_compute; reflexivity.
Qed.

Lemma reachable_launches_bounded_witness :
  slots MON (ag_stateMachine (sys_agent Bootstrap.final)) ≤ 1.
Proof.
  destruct (reachable_launches_bounded default_Flags sample_Config Bootstrap.final bootstrap_reachable)
    as (Hm & _). exact Hm.
Defined.

Lemma reachable_task_ids_witness : NoDup (launched_ids (ag_calls (sys_agent Bootstrap.final))).
Proof.
  destruct (reachable_task_ids default_Flags sample_Config Bootstrap.final bootstrap_reachable)
    as (Hn & _). exact Hn.
Defined.

Lemma reachable_counters_in_range_witness :
  int_range (index (counters OSD (ag_stateMachine (sys_agent Bootstrap.final)))).
Proof.
  destruct (reachable_counters_in_range default_Flags sample_Config Bootstrap.final OSD bootstrap_reachable)
    as (_ & _ & Hi); [vm_compute; reflexivity|vm_compute; reflexivity|exact Hi].
Defined.

Lemma orderly_cluster_size_witness :
  num_running OSD (ag_stateMachine (sys_agent Bootstrap.final)) +
  num_in_flight OSD (ag_stateMachine (sys_agent Bootstrap.final)) ≤ 3 + sys_requested Bootstrap.final.
Proof.
  destruct (orderly_cluster_size default_Flags sample_Config Bootstrap.final bootstrap_orderly)
    as (_ & _ & _ & Ho). exact Ho.
Defined.

Lemma after_small_plays :
  play default_Flags SampleRun.env [Offers Bootstrap.one] Bootstrap.after_small = Some Bootstrap.after_big.
Proof. apply plays_default. vm_compute. reflexivity. Qed.

(** After an offer that was too small, the first MON that is launched, on an
    adequate offer, is launched as a MON that joins a cluster. *)
Lemma initial_mon_lost_witness :
  launched_ids (ag_calls (sys_agent Bootstrap.after_small)) = [] ∧
  (ti_data <$> launched (ag_calls (sys_agent Bootstrap.after_big))) = [Some "0.0"] ∧
  ∃ cs, ag_calls (sys_agent Bootstrap.after_big) = ag_calls (sys_agent Bootstrap.after_small) ++ cs ∧
        Forall not_initial (launched cs).
Proof.
  split_and!; [vm_compute; reflexivity|vm_compute; reflexivity|].
  apply (initial_mon_lost default_Flags report_regular Bootstrap.after_small Bootstrap.after_big).
  - vm_compute. discriminate.
  - exact (play_regular _ _ _ _ _ after_small_plays).
Defined.
