(* ===== verification/Blocked.v ===== *)
(** * OSDs that fail while they wait block the bootstrap

    [updateCounters] does not take an OSD that fails after it announced itself
    off the staging counter.  Here the runs of [Cluster] go on from such a
    failure: the counter stays too high for ever, and once it is three too high
    in the OSD phase no OSD is launched any more. *)

From S2P Require Import Prelude StringUtil CephTypes ConfigFile HostConfigs TaskMachine FlexUp Mesos Agent Cluster.
Open Scope Z_scope.

(** ** The staging counter of the OSDs is [n] too high *)

Definition leaked (n : Z) (sm : StateMachine) : Prop :=
  ∀ t, runningNum (counters t sm) = num_running t sm ∧
       stagingNum (counters t sm) = num_in_flight t sm + if decide (t = OSD) then n else 0.

(** The same machine with the [n] taken off. *)
Definition corrected (n : Z) : StateMachine → StateMachine := on_counters OSD (add_staging (- n)).

Lemma leaked_corrected n sm : leaked n sm ↔ accounted (corrected n sm).
Proof.
  split; intros Hl t; specialize (Hl t); revert Hl; unfold corrected, num_running, num_in_flight; autorewrite with sm;
    cbn [sm_taskMap on_counters]; repeat case_decide; subst; cbn; try done; intros [? ?]; (split; [done|lia]).
Qed.

Lemma leaked_ext n sm sm' :
  sm_taskMap sm' = sm_taskMap sm →
  (∀ t, runningNum (counters t sm') = runningNum (counters t sm) ∧ stagingNum (counters t sm') = stagingNum (counters t sm)) →
  leaked n sm → leaked n sm'.
Proof.
  intros Em Ec Hl t. destruct (num_ext t sm sm' Em) as [-> ->], (Ec t) as [-> ->]. apply Hl.
Qed.

#[export] Instance leaked_proper n : Proper (core_eq ==> iff) (leaked n).
Proof. intros sm sm' [Et _ _ Ec]. split; apply leaked_ext; (done || (intros t; by rewrite Ec)). Qed.

Lemma accounted_leaked sm : accounted sm → leaked 0 sm.
Proof. intros Ha t. destruct (Ha t) as [-> ->]. split; [done|]. case_decide; lia. Qed.

Lemma leaked_launch n k e t h s sm :
  sm_taskMap sm !! k = None → leaked n sm → leaked n (addStagingTask k e t h s (on_counters t (add_index 1) sm)).
Proof.
  intros Hk Hl%leaked_corrected. apply (accounted_index t), (addStagingTask_accounted k e t h s) in Hl; [|done].
  apply leaked_corrected. revert Hl. apply accounted_ext; [done|].
  intros u. unfold corrected. autorewrite with sm. repeat case_decide; subst; cbn; (split; [done|lia]).
Qed.

Lemma leaked_update n u id sm : update_accounted sm u id → leaked n sm → leaked n (updateTaskTo u id sm).
Proof.
  intros Hu Hl%leaked_corrected. destruct (sm_taskMap sm !! id) as [ts|] eqn:E; [|by rewrite updateTaskTo_unknown; [apply leaked_corrected|]].
  apply (accounted_update u id (corrected n sm) Hu) in Hl. apply leaked_corrected.
  destruct (updateTaskTo_known u id ts sm E) as [Em Ec].
  destruct (updateTaskTo_known u id ts (corrected n sm) E) as [Em' Ec'].
  revert Hl. apply accounted_ext; [cbn [corrected sm_taskMap on_counters]; by rewrite Em, Em'|].
  intros t. rewrite Ec'. unfold corrected. autorewrite with sm. rewrite Ec. autorewrite with sm.
  repeat case_decide; subst; cbn; (split; [done|lia]).
Qed.

(** The failure of an OSD that waits for its id, or that got it. *)
Lemma leaked_failed n id ts sm :
  sm_taskMap sm !! id = Some ts → ts_taskType ts = OSD →
  ts_currentStatus ts = WAITING_OSDID ∨ ts_currentStatus ts = STARTING →
  leaked n sm → leaked (n + 1) (updateTaskToFailed id sm) ∧
    num_running OSD (updateTaskToFailed id sm) = num_running OSD sm ∧
    num_in_flight OSD (updateTaskToFailed id sm) = num_in_flight OSD sm - 1.
Proof.
  intros E Ht Hst Hl. destruct (updateTaskTo_known ToFailed id ts sm E) as [Em Ec]. cbn [updateTaskTo update_status] in Em, Ec.
  rewrite <- (taskMap_set_status id ts FAILED sm) in Em.
  assert (Hn : ∀ t, num_running t (updateTaskToFailed id sm) = num_running t sm ∧
    num_in_flight t (updateTaskToFailed id sm) = num_in_flight t sm - if decide (t = OSD) then 1 else 0).
  { intros t. destruct (num_ext t _ _ Em) as [-> ->]. destruct (set_status_num t id ts FAILED sm E) as [-> ->].
    rewrite Ht. repeat case_decide; try congruence; try lia; destruct Hst as [-> | ->]; cbn; lia. }
  split; [|by destruct (Hn OSD) as [-> ->]]. intros t. destruct (Hn t) as [-> ->]. rewrite Ec. autorewrite with sm.
  destruct (Hl t) as [<- Hs]. rewrite Ht.
  repeat case_decide; try congruence; try lia; destruct Hst as [-> | ->]; cbn in *; lia.
Qed.

(** ** The runs that follow *)

Section Runs.
Context `{LexicalCast, Yaml, Indeterminate, HashOrder, MesosResources, JsonCpp}.
Context (flags : Flags).

Notation machine s := (ag_stateMachine (sys_agent s)).

Record leaked_inv (n : Z) (s : System) : Prop := {
  li_system : system_inv s;
  li_leaked : leaked n (machine s);
}.

Lemma move_leaked_inv n s s' : move update_accounted s s' → leaked_inv n s → leaked_inv n s'.
Proof.
  intros Hm [Hi Hl]. split; [by eapply move_system_inv|].
  cut (∃ sm', core_eq sm' (machine s') ∧ leaked n sm'); [by intros (sm' & <- & ?)|].
  destruct Hm as [l cs k r _ _ _ Hm|t cs _ Hm|t task eid h sl l cs sm Hmay Hid _ _ Hm|id Hw Hm|u id Hok Hm|k _ Hm];
    eexists; (split; [apply Hm|]).
  - revert Hl. apply leaked_ext; [done|]. intros t. by rewrite counters_set_pendingOSDID.
  - revert Hl. apply leaked_ext; [done|]. intros u. autorewrite with sm. by case_decide.
  - apply leaked_launch; [|done]. pose proof (tasks_inv_fresh _ _ t h sl (si_tasks _ Hi)) as Hf. subst sm. rewrite <- Hid in Hf.
    rewrite <- (ti_known _ _ (si_tasks _ Hi)) in Hf. by apply eq_None_not_Some.
  - apply (leaked_update n ToStarting); [|done]. intros ts Hts. by destruct (Hw ts Hts) as [-> | ->].
  - by apply leaked_update.
  - done.
Qed.

(** *** Three too high, and no other OSD *)

Definition no_osd (task : TaskInfo) : Prop := ∀ k h sl, ti_task_id task ≠ task_id OSD k h sl.

(** From [s] on no OSD was launched, and none runs or is in flight. *)
Record blocked_from (s s' : System) : Prop := {
  bf_leaked : leaked_inv 3 s';
  bf_slots : slots OSD (machine s') ≤ 3;
  bf_launched : ∃ cs, ag_calls (sys_agent s') = ag_calls (sys_agent s) ++ cs ∧ Forall no_osd (launched cs);
}.

Lemma blocked_counts s s' : blocked_from s s' →
  num_running OSD (machine s') = 0 ∧ num_in_flight OSD (machine s') = 0.
Proof.
  intros [[_ Hl] Hs _]. destruct (Hl OSD) as [Er Es]. rewrite decide_True in Es by done. unfold slots in Hs.
  pose proof (num_nonneg OSD (machine s')). lia.
Qed.

Lemma blocked_phase s s' : blocked_from s s' →
  sm_currentPhase (machine s') = BOOTSTRAP_MON ∨ sm_currentPhase (machine s') = BOOTSTRAP_OSD.
Proof.
  intros Hb. destruct (blocked_counts s s' Hb) as [Hr _]. destruct Hb as [[Hi Hl] _ _]. rewrite (si_coherent _ Hi). unfold phase_of.
  destruct (Hl OSD) as [-> _]. rewrite Hr. cbn. case_match; auto.
Qed.

Lemma move_blocked s s1 s2 : move update_accounted s1 s2 → blocked_from s s1 → blocked_from s s2.
Proof.
  intros Hm Hb. pose proof (blocked_phase _ _ Hb) as Hph. pose proof (blocked_counts _ _ Hb) as [Hr Hf].
  destruct Hb as [Hl Hs (cs0 & E0 & H0n)]. pose proof (move_leaked_inv _ _ _ Hm Hl) as Hl2.
  cut (∃ sm' cs, core_eq sm' (machine s2) ∧ slots OSD sm' ≤ 3 ∧ ag_calls (sys_agent s2) = ag_calls (sys_agent s1) ++ cs ∧
         Forall no_osd (launched cs)).
  { intros (sm' & cs & Ec & Hs' & E & Hn). split; [done|by rewrite <- Ec|]. exists (cs0 ++ cs).
    rewrite E, E0, app_assoc, launched_app. split; [done|]. by apply Forall_app. }
  assert (HO : ∀ t, may_launch t (machine s1) → t ≠ OSD).
  { intros t (_ & HO & _) ->. destruct (HO eq_refl) as [Hw|Hlt]; [destruct Hph; congruence|].
    destruct Hl as [_ Hl]. destruct (Hl OSD) as [Er Es]. rewrite decide_True in Es by done. unfold slots in Hlt. lia. }
  destruct Hm as [l cs k r _ _ Hc Hm|t cs Hc Hm|t task eid h sl l cs sm Hmay Hid _ Hc Hm|id Hw Hm|u id Hok Hm|k _ Hm];
    eexists _, _; (split; [apply Hm|]); (split; [|split; [apply Hm|]]); rewrite ?Hc; try by constructor.
  - unfold slots. by rewrite counters_set_pendingOSDID.
  - unfold slots in *. autorewrite with sm. by case_decide.
  - unfold slots in *. autorewrite with sm. by rewrite !decide_False by (by apply HO).
  - constructor; [|constructor]. intros k h' sl' E. rewrite Hid in E. apply task_id_inj in E as [-> _]. by apply (HO OSD).
  - etrans; [apply (updateTaskTo_slots ToStarting)|done].
  - etrans; [apply updateTaskTo_slots|done].
  - done.
Qed.

Lemma step_accounted_moves s s' : system_inv s → step flags report_accounted s s' → rtc (move update_accounted) s s'.
Proof.
  intros Hi. apply (step_moves flags report_accounted).
  - intros sm st u Hok Hu ts Hts. by apply (Hok u).
  - apply (tasks_inv_keyed _ _ (si_tasks _ Hi)).
Qed.

Lemma steps_leaked n s s' : rtc (step flags report_accounted) s s' → leaked_inv n s → leaked_inv n s'.
Proof.
  induction 1 as [|s1 s2 s3 Hs _ IH]; [done|]. intros Hl. apply IH.
  apply step_accounted_moves in Hs; [|apply Hl]. clear -Hs Hl. induction Hs; eauto using move_leaked_inv.
Qed.

Lemma steps_blocked s0 s s' : rtc (step flags report_accounted) s s' → blocked_from s0 s → blocked_from s0 s'.
Proof.
  induction 1 as [|s1 s2 s3 Hs _ IH]; [done|]. intros Hb. apply IH.
  apply step_accounted_moves in Hs; [|apply Hb]. clear -Hs Hb. induction Hs; eauto using move_blocked.
Qed.

(** *** The failures *)

(** The scheduler handles the report that a task failed. *)
Definition fail_task (id : string) (m : option string) (s s' : System) : Prop :=
  ∃ a', statusUpdate (mkTaskStatus id TASK_FAILED m) (sys_agent s) = (a', Ret tt) ∧
    s' = mkSystem _ a' (sys_requested s) (sys_offers s) (sys_reports s + 1).

Definition announced_osd (id : string) (s : System) : Prop :=
  ∃ ts, sm_taskMap (machine s) !! id = Some ts ∧ ts_taskType ts = OSD ∧
    (ts_currentStatus ts = WAITING_OSDID ∨ ts_currentStatus ts = STARTING).

(** A failure that is not accounted for. *)
Record leaks (id : string) (n : Z) (s s' : System) : Prop := {
  lk_inv : leaked_inv (n + 1) s';
  lk_running : num_running OSD (machine s') = num_running OSD (machine s);
  lk_in_flight : num_in_flight OSD (machine s') = num_in_flight OSD (machine s) - 1;
  lk_slots : slots OSD (machine s') ≤ slots OSD (machine s);
  lk_others id' : id ≠ id' → announced_osd id' s → announced_osd id' s';
}.

Lemma fail_task_leaks id m n s s' : announced_osd id s → fail_task id m s s' → leaked_inv n s → leaks id n s s'.
Proof.
  intros (ts & E & Ht & Hst) (a' & [= <-] & ->) [Hi Hl]. destruct (leaked_failed n id ts _ E Ht Hst Hl) as (Hl' & Er & Ef). split.
  - split; [|exact Hl']. eapply (move_system_inv (λ _ _ _, True)); [|exact Hi].
    apply (M_update _ _ _ ToFailed id I). split_and!; cbn; [done|done|by rewrite app_nil_r|lia..].
  - exact Er.
  - exact Ef.
  - apply (updateTaskTo_slots ToFailed).
  - intros id' Hne (ts' & E' & ?). exists ts'. split; [|done]. cbn.
    destruct (updateTaskTo_known ToFailed id ts _ E) as [Em _]. cbn [updateTaskTo update_status] in Em.
    by rewrite Em, lookup_insert_ne.
Qed.
End Runs.

(** ** Properties *)

Section Properties.
Context `{LexicalCast, Yaml, Indeterminate, HashOrder, MesosResources, JsonCpp}.
Context (flags : Flags) (cfg : Config).

Notation machine s := (ag_stateMachine (sys_agent s)).

(** C36. OSDs that fail after they announced themselves (status WAITING_OSDID or
    STARTING) are never uncounted.  Let three of them fail, one after the other,
    in an orderly run.  In every state of every run that follows, in which the
    other reports are accounted for, the staging counter of the OSDs is three
    more than the number of OSDs in flight, and in the OSD phase every offer of
    every host is declined.  If the three were all the OSDs there were, running
    or in flight, then the bootstrap never gets any further: no OSD is launched
    any more, none runs or is in flight, and the phase is that of the MON or of
    the OSDs for ever. *)
Theorem failed_osds_block_bootstrap (id1 id2 id3 : string) (m1 m2 m3 : option string) (s0 s1 s2 s3 s : System) :
  orderly flags cfg s0 → id1 ≠ id2 → id1 ≠ id3 → id2 ≠ id3 →
  announced_osd id1 s0 → announced_osd id2 s0 → announced_osd id3 s0 →
  fail_task id1 m1 s0 s1 → fail_task id2 m2 s1 s2 → fail_task id3 m3 s2 s3 →
  rtc (step flags report_accounted) s3 s →
  stagingNum (counters OSD (machine s)) = num_in_flight OSD (machine s) + 3 ∧
  (getCurrentPhase (machine s) = BOOTSTRAP_OSD →
   ∀ taskType token host, (nextMove taskType token host (machine s)).2.1.1 = false) ∧
  (num_running OSD (machine s0) + num_in_flight OSD (machine s0) ≤ 3 →
   num_running OSD (machine s) = 0 ∧ num_in_flight OSD (machine s) = 0 ∧
   (getCurrentPhase (machine s) = BOOTSTRAP_MON ∨ getCurrentPhase (machine s) = BOOTSTRAP_OSD) ∧
   ∃ cs, ag_calls (sys_agent s) = ag_calls (sys_agent s3) ++ cs ∧ Forall no_osd (launched cs)).
Proof.
  intros [Hi Ha _]%orderly_orderly_inv N12 N13 N23 A1 A2 A3 F1 F2 F3 Hr.
  destruct (fail_task_leaks id1 m1 0 s0 s1 A1 F1) as [L1 R1 I1 S1 O1]; [by split; [|apply accounted_leaked]|].
  destruct (fail_task_leaks id2 m2 1 s1 s2 (O1 _ N12 A2) F2 L1) as [L2 R2 I2 S2 O2].
  destruct (fail_task_leaks id3 m3 2 s2 s3 (O2 _ N23 (O1 _ N13 A3)) F3 L2) as [L3 R3 I3 S3 _].
  destruct (steps_leaked flags 3 s3 s Hr L3) as [_ Hl]. destruct (Hl OSD) as [_ Es]. rewrite decide_True in Es by done.
  pose proof (num_nonneg OSD (machine s)) as [_ Hn]. split; [done|]. split.
  - unfold getCurrentPhase, nextMove. intros -> tt tok host. case_match; [done|]. cbn [counters] in Es.
    by replace (_ <? 3) with false by (symmetry; apply Z.ltb_ge; lia).
  - intros Hle. assert (Hb : blocked_from s3 s).
    { eapply steps_blocked; [exact Hr|]. split; [done| |exists []; by rewrite app_nil_r].
      destruct (Ha OSD). unfold slots in *. lia. }
    destruct (blocked_counts s3 s Hb). split_and!; [done|done|apply (blocked_phase s3 s Hb)|apply Hb].
Qed.
End Properties.

#[local] Existing Instances DecimalCast.cast FlatYaml.yaml SomeValues.indet SomeOrder.order
  ScalarResources.resources ToyJson.json.

(** The bootstrap of [Cluster], until its three OSDs announced themselves; they
    fail, two of them with their ids; more offers come, and ids. *)
Module SampleBlocked.
Definition script : list event := take 11 Bootstrap.script ++ [Offers Bootstrap.one].
Definition announced : System := default Bootstrap.start (play default_Flags SampleRun.env script Bootstrap.start).
Definition fail (id : string) (s : System) : System :=
  mkSystem _ (statusUpdate (mkTaskStatus id TASK_FAILED None) (sys_agent s)).1 (sys_requested s) (sys_offers s) (sys_reports s + 1).
Definition failed : System := fail "osd2.h1.s" (fail "osd1.h1.s" (fail "osd0.h1.s" announced)).
Definition later : list event := [Offers Bootstrap.three; FromMon "3"; Offers Bootstrap.one].
Definition final : System := default failed (play default_Flags SampleRun.env later failed).
End SampleBlocked.

Lemma blocked_plays : play default_Flags SampleRun.env SampleBlocked.script Bootstrap.start = Some SampleBlocked.announced.
Proof. apply plays_default. vm_compute. reflexivity. Qed.
Lemma blocked_goes_on : play default_Flags SampleRun.env SampleBlocked.later SampleBlocked.failed = Some SampleBlocked.final.
Proof. apply plays_default. vm_compute. reflexivity. Qed.

Lemma play_accounted script s s' :
  play default_Flags SampleRun.env script s = Some s' → rtc (step default_Flags report_accounted) s s'.
Proof. intros Hp%play_regular. eapply rtc_subrel, Hp. intros x y. apply step_weaken. by intros sm st []. Qed.

Lemma failed_osds_block_bootstrap_witness :
  num_running OSD (ag_stateMachine (sys_agent SampleBlocked.final)) = 0 ∧
  stagingNum (counters OSD (ag_stateMachine (sys_agent SampleBlocked.final))) = 3 ∧
  length (launched_ids (ag_calls (sys_agent SampleBlocked.final))) = 4%nat.
Proof.
  assert (A0 : announced_osd "osd0.h1.s" SampleBlocked.announced ∧ announced_osd "osd1.h1.s" SampleBlocked.announced ∧
    announced_osd "osd2.h1.s" SampleBlocked.announced).
  { split_and!; eexists; (split; [vm_compute; reflexivity|split; [reflexivity|first [by left|by right]]]). }
  destruct A0 as (A0 & A1 & A2).
  destruct (failed_osds_block_bootstrap default_Flags sample_Config "osd0.h1.s" "osd1.h1.s" "osd2.h1.s" None None None
    SampleBlocked.announced (SampleBlocked.fail "osd0.h1.s" SampleBlocked.announced)
    (SampleBlocked.fail "osd1.h1.s" (SampleBlocked.fail "osd0.h1.s" SampleBlocked.announced))
    SampleBlocked.failed SampleBlocked.final (play_accounted _ _ _ blocked_plays) ltac:(done) ltac:(done) ltac:(done)
    A0 A1 A2) as (Es & _ & Hb); [by eexists..|exact (play_accounted _ _ _ blocked_goes_on)|].
  destruct Hb as (Hr & Hf & _); [vm_compute; discriminate|]. rewrite Hf in Es.
  split; [exact Hr|]. split; [exact Es|]. vm_compute. reflexivity.
Defined.
