(* ===== verification/Liveness.v ===== *)
(** * The scheduler never gets stuck

    From every state of a regular run, whatever has failed or been lost so far,
    the scheduler can still bring the cluster up and serve every request: with
    one host that makes adequate offers, ids from the initial MON, and tasks that
    report that they run, a run leads to the request phase with nothing left to
    do.  The run is built in rounds: the tasks in flight are settled, then an
    offer is launched on. *)

From S2P Require Import Prelude StringUtil CephTypes ConfigFile HostConfigs TaskMachine FlexUp Mesos Agent HostInvariant Cluster.
Open Scope Z_scope.

(** The host is known, and has no disk to prepare. *)
Definition idle_config (hc : HostConfig) : Prop :=
  hc_pendingOSDDevs hc = [] ∧ hc_pendingJNLDevs hc = [] ∧ hc_isPreparingDiskFlag hc = false.
Definition idle_at : string → gmap string HostConfig → Prop := host_has idle_config.

(** ** Hosts with nothing to prepare *)

Section Idle.
Context `{LexicalCast, Yaml, Indeterminate, HashOrder, MesosResources, JsonCpp}.

Lemma idle_prepared h a : idle_at h (sm_hostConfigMap (ag_stateMachine a)) →
  prepared_host h (ag_stateMachine a) ∧ isPreparingDisk (deref (getConfig h (ag_stateMachine a)) (ag_stateMachine a)) = false.
Proof.
  intros (hc & E & Ho & Hj & Hp).
  assert (Ed : deref (getConfig h (ag_stateMachine a)) (ag_stateMachine a) = hc).
  { unfold getConfig. rewrite E. cbn. by rewrite E. }
  split; [|by rewrite Ed]. split; [by eexists|..]; rewrite Ed; unfold havePendingOSDDevs, havePendingJNLDevs;
    by rewrite ?Ho, ?Hj.
Qed.

(** What a launch does to a host is no concern of [P]. *)
Definition pops_keep (P : HostConfig → Prop) : Prop :=
  ∀ hc, P hc → P (popOSDPartition hc).1 ∧ P (popJournalPartition hc).1.

Lemma host_has_launch P h env ph l offer : pops_keep P → keeps (hosts_inv (host_has P h)) (accept_offer env ph l offer).
Proof. intros Hp. apply hosts_accept_offer; apply host_has_op; intros hc HP; by apply Hp. Qed.

Lemma idle_pops : pops_keep idle_config.
Proof. intros hc (Ho & Hj & Hf). unfold popOSDPartition, popJournalPartition. by repeat case_match. Qed.

Lemma idle_launch h env ph l offer : keeps (hosts_inv (idle_at h)) (accept_offer env ph l offer).
Proof. apply host_has_launch, idle_pops. Qed.

(** The report of its disk task leaves a known host with nothing to prepare. *)
Lemma disk_prepared_idle h devs sm :
  is_Some (sm_hostConfigMap sm !! h) → idle_at h (sm_hostConfigMap (disk_prepared h devs sm)).
Proof.
  intros [hc Ehc]. unfold idle_at, host_has, disk_prepared, getConfig.
  rewrite Ehc. cbn. rewrite lookup_alter_eq, lookup_alter_eq, Ehc. cbn. by eexists.
Qed.
End Idle.

Section Liveness.
Context `{LexicalCast, Yaml, Indeterminate, HashOrder, MesosResources, JsonCpp}.
Context (flags : Flags) (env : Env) (cfg : Config) (offer : Offer).

Notation machine s := (ag_stateMachine (sys_agent s)).
Notation tasks s := (sm_taskMap (machine s)).
Notation idle_host := (idle_at (of_hostname offer)).

(** A smooth run: regular, and nothing fails. *)
Definition smooth (sm : StateMachine) (st : TaskStatus) : Prop := report_regular sm st ∧ st_state st ≠ TASK_FAILED.

Notation runs := (rtc (step flags smooth)).

Lemma smooth_regular s s' : step flags smooth s s' → step flags report_regular s s'.
Proof. apply step_weaken. by intros sm st []. Qed.

(** An offer of the right role and size, from a host with a readable
    configuration and a name without punctuation. *)
Record adequate : Prop := {
  ad_env : working_env env cfg;
  ad_role : hasRole offer (cfg_role cfg) = true;
  ad_size : ∃ needed flat, resources_parse "cpus:1;mem:1024" (cfg_role cfg) = Ret needed ∧
    resources_flatten (of_resources offer) (cfg_role cfg) = Ret flat ∧ resources_contains flat needed = true;
  ad_config : ∃ hc, new_HostConfig flags (env_files env) (of_hostname offer) = Ret hc;
  ad_name : clean_name (of_hostname offer) = true;
}.

(** ** States from which the rounds start *)


(** Only OSDs wait for an OSD id. *)
Definition osd_waits (sm : StateMachine) : Prop :=
  ∀ k ts, sm_taskMap sm !! k = Some ts → ts_currentStatus ts = WAITING_OSDID → ts_taskType ts = OSD.

Record calm (s : System) : Prop := {
  ca_orderly : orderly_inv s;
  ca_waits : osd_waits (machine s);
  ca_config : ag_config (sys_agent s) = cfg;
  ca_host : idle_host (sm_hostConfigMap (machine s));
}.

Definition regular_update (sm : StateMachine) (u : Update) (id : string) : Prop :=
  u = ToWaitingOSDID → ∀ ts, sm_taskMap sm !! id = Some ts → ts_taskType ts = OSD.

Lemma osd_waits_update u id sm : regular_update sm u id → osd_waits sm → osd_waits (updateTaskTo u id sm).
Proof.
  intros Hu Hw. destruct (sm_taskMap sm !! id) as [ts|] eqn:E; [|by rewrite updateTaskTo_unknown].
  destruct (updateTaskTo_known u id ts sm E) as [Em _]. intros k ts'. rewrite Em, lookup_insert.
  case_decide; [|apply Hw]. intros [= <-]. cbn. intros Eu. apply Hu; [by destruct u|done].
Qed.

Lemma osd_waits_ext sm sm' : sm_taskMap sm' = sm_taskMap sm → osd_waits sm → osd_waits sm'.
Proof. unfold osd_waits. by intros ->. Qed.

Lemma move_osd_waits s s' : move regular_update s s' → osd_waits (machine s) → osd_waits (machine s').
Proof.
  intros Hm Hw. cut (∃ sm', core_eq sm' (machine s') ∧ osd_waits sm').
  { intros (sm' & Ec & Hw'). revert Hw'. apply osd_waits_ext, Ec. }
  destruct Hm as [l cs n r _ _ _ Hm|t cs _ Hm|t task eid h sl l cs sm _ _ _ _ Hm
                 |id _ Hm|u id Hok Hm|n _ Hm]; eexists; (split; [apply Hm|]).
  - exact Hw.
  - exact Hw.
  - intros k ts. unfold addStagingTask. cbn. rewrite lookup_insert. case_decide; [by intros [= <-]|apply Hw].
  - by apply (osd_waits_update ToStarting).
  - by apply osd_waits_update.
  - exact Hw.
Qed.

Lemma step_osd_waits s s' :
  keyed (machine s) → step flags report_regular s s' → osd_waits (machine s) → osd_waits (machine s').
Proof.
  intros Hk Hs. assert (Hm : rtc (move regular_update) s s').
  { apply (step_moves flags report_regular); [|done..]. intros sm st u [_ Hr] Hu -> ts Hts.
    apply (Hr); [|done]. by destruct (st_state st). }
  clear -Hm. induction Hm; eauto using move_osd_waits.
Qed.

Lemma orderly_keyed s : orderly_inv s → keyed (machine s).
Proof. intros Ho. apply (tasks_inv_keyed _ _ (si_tasks _ (oi_system _ Ho))). Qed.

(** A regular run keeps a state calm if it leaves its host idle. *)
Lemma calm_runs s s' : runs s s' → idle_host (sm_hostConfigMap (machine s')) → calm s → calm s'.
Proof.
  intros Hr Hh [C1 C2 C3 _]. revert C1 C2 C3 Hh. induction Hr as [s|s1 s2 s3 Hs _ IH]; [by split|].
  intros C1 C2 C3. pose proof (smooth_regular _ _ Hs) as Hg. apply IH.
  - eapply step_orderly_inv; [|exact C1]. eapply step_weaken; [|exact Hg]. by intros sm st [].
  - eapply step_osd_waits; [by apply orderly_keyed|done..].
  - rewrite <- C3. by eapply step_config.
Qed.

Lemma calm_step s s' :
  step flags smooth s s' → idle_host (sm_hostConfigMap (machine s')) → calm s → calm s'.
Proof. intros Hs. apply calm_runs. by apply rtc_once. Qed.

Lemma regular_orderly_inv s : regular flags cfg s → orderly_inv s ∧ osd_waits (machine s).
Proof.
  intros Hr. assert (Ho : orderly_inv s) by (by eapply orderly_orderly_inv, regular_orderly). split; [done|].
  assert (Hi : osd_waits (machine (initial cfg)) ∧ orderly_inv (initial cfg)).
  { split; [by intros k ts|]. apply (orderly_orderly_inv flags cfg), rtc_refl. }
  clear Ho. revert Hi. induction Hr as [|s1 s2 s3 Hs _ IH]; [by intros []|]. intros [Hw Ho]. apply IH. split.
  - eapply step_osd_waits; [by apply orderly_keyed|done..].
  - eapply step_orderly_inv; [|exact Ho]. eapply step_weaken; [|exact Hs]. by intros sm st [].
Qed.

(** ** Nothing asked for is lost *)

(** The OSDs that run or are on their way, or the first three if these are fewer,
    and those asked for that are still to be launched. *)
Definition promised (s : System) : Z :=
  Z.max 3 (num_running OSD (machine s) + num_in_flight OSD (machine s)) + total (ag_pendingOSD (sys_agent s)).

Definition no_failure (sm : StateMachine) (u : Update) (id : string) : Prop :=
  update_accounted sm u id ∧ u ≠ ToFailed.

Lemma tasks_addStagingTask k e t h sl sm :
  sm_taskMap (addStagingTask k e t h sl sm) = <[k := mkTaskState k e t h sl STAGING]> (sm_taskMap sm).
Proof. by destruct t. Qed.

(** How many tasks of a type run or are on their way. *)
Definition serving (t : TaskType) (m : gmap string TaskState) : Z :=
  count_map (running_task t) m + count_map (in_flight_task t) m.

Lemma serving_insert t id k e u h sl m :
  m !! id = None → serving t (<[id := mkTaskState k e u h sl STAGING]> m) = serving t m + Z.b2z (bool_decide (u = t)).
Proof.
  intros Hm. unfold serving. rewrite !count_map_insert_new by done.
  unfold running_task, in_flight_task. cbn. rewrite andb_true_r, andb_false_r. cbn. lia.
Qed.

Lemma serving_update t u k sm : u ≠ ToFailed → serving t (sm_taskMap sm) ≤ serving t (sm_taskMap (updateTaskTo u k sm)).
Proof.
  intros Hu. destruct (sm_taskMap sm !! k) as [ts|] eqn:E; [|by rewrite updateTaskTo_unknown].
  destruct (updateTaskTo_known u k ts sm E) as [-> _]. unfold serving.
  rewrite !(count_map_insert_update _ _ _ _ _ E). unfold running_task, in_flight_task. cbn.
  destruct (bool_decide (ts_taskType ts = t)), u, (ts_currentStatus ts); cbn; done || lia.
Qed.

Lemma fresh_id s t h sl : system_inv s → tasks s !! task_id t (index (counters t (machine s))) h sl = None.
Proof.
  intros Hi. apply eq_None_not_Some. rewrite (ti_known _ _ (si_tasks _ Hi)). apply (tasks_inv_fresh _ (machine s)), Hi.
Qed.

(** An OSD is launched among the first three, or for a request. *)
Lemma launch_serving s : orderly_inv s → may_launch OSD (machine s) →
  if decide (sm_currentPhase (machine s) = WAINTING_REQUEST) then 3 ≤ serving OSD (tasks s) else serving OSD (tasks s) < 3.
Proof.
  intros [[Hc _ _] Ha _] (_ & Hm & _). destruct (Ha OSD) as [Hr Hf]. unfold serving.
  change (count_map (running_task OSD) (tasks s)) with (num_running OSD (machine s)).
  change (count_map (in_flight_task OSD) (tasks s)) with (num_in_flight OSD (machine s)).
  pose proof (count_map_nonneg (in_flight_task OSD) (tasks s)) as Hn. fold (num_in_flight OSD (machine s)) in Hn.
  case_decide as Hw; [|destruct (Hm eq_refl) as [|Hs]; [done|unfold slots in Hs; lia]].
  unfold coherent, phase_of in Hc. rewrite Hw in Hc. case_match; [done|]. destruct (Z.ltb_spec (runningNum (counters OSD (machine s))) 3); [done|lia].
Qed.

Lemma move_promised s s' : orderly_inv s → move no_failure s s' → promised s ≤ promised s'.
Proof.
  intros Ho Hm. pose proof (oi_system _ Ho) as Hi. unfold promised, num_running, num_in_flight.
  change (Z.max 3 (serving OSD (tasks s)) + total (ag_pendingOSD (sys_agent s)) ≤
          Z.max 3 (serving OSD (tasks s')) + total (ag_pendingOSD (sys_agent s'))).
  pose proof (ci_positive _ _ _ _ _ (si_counters _ Hi)) as Hpos.
  destruct Hm as [l cs n r _ _ _ Hm|t cs _ Hm|t task eid h sl l cs sm HM Hid Hp _ Hm
                 |id _ Hm|u id [_ Hok] Hm|n Hn Hm]; destruct Hm as (Ec & Ep & _); rewrite Ep, (core_tasks _ _ Ec).
  - done.
  - done.
  - assert (Hsv : t = OSD → if decide (sm_currentPhase (machine s) = WAINTING_REQUEST) then 3 ≤ serving OSD (tasks s)
                            else serving OSD (tasks s) < 3) by (intros ->; exact (launch_serving s Ho HM)).
    destruct HM as (_ & _ & _ & M4).
    rewrite (tasks_addStagingTask _ _ _ _ _ (on_counters t (add_index 1) sm)).
    replace (sm_taskMap (on_counters t (add_index 1) sm)) with (tasks s) by (by destruct t).
    rewrite serving_insert by (rewrite Hid; by apply fresh_id). subst sm. destruct (decide (sm_currentPhase (machine s) = WAINTING_REQUEST)) as [Hw|Hw].
    + destruct Hp as [Hne ->], (consume_one_positive _ Hpos Hne) as [-> _].
      specialize (M4 Hw). specialize (Hsv M4). rewrite (bool_decide_true (t = OSD)) by done. cbn [Z.b2z]. lia.
    + subst l. case_bool_decide as Ht; cbn [Z.b2z]; [specialize (Hsv Ht)|]; lia.
  - pose proof (serving_update OSD ToStarting id (machine s)) as Hu. cbn [updateTaskTo] in Hu. specialize (Hu ltac:(done)). lia.
  - pose proof (serving_update OSD u id (machine s) Hok). lia.
  - rewrite total_snoc. lia.
Qed.

(** A smooth run only adds to the OSDs promised. *)
Lemma runs_promised s s' : orderly_inv s → runs s s' → promised s ≤ promised s'.
Proof.
  intros Ho. induction 1 as [s|s1 s2 s3 Hs _ IH]; [done|].
  assert (Hm : rtc (move no_failure) s1 s2).
  { apply (step_moves flags smooth); [|by eapply tasks_inv_keyed, Ho|done]. intros sm st u [[Ha _] Hn] Hu. split.
    - intros ts Hts. by apply (Ha u).
    - intros ->. revert Hu. unfold report_update. by destruct (st_state st). }
  cut (promised s1 ≤ promised s2 ∧ orderly_inv s2); [intros [Hle Ho2]; specialize (IH Ho2); lia|].
  clear -Hm Ho. induction Hm as [|a b c Hm _ IH]; [done|].
  pose proof (move_promised _ _ Ho Hm). destruct IH as [? ?]; [eapply move_orderly_inv, Ho; eapply move_weaken, Hm; by intros sm u id []|].
  split; [lia|done].
Qed.

(** ** Settling the tasks in flight *)

Definition settled (k : string) (s : System) : Prop :=
  ∀ ts, tasks s !! k = Some ts → in_flight (ts_currentStatus ts) = false.

Definition none_waiting (s : System) : Prop := ∀ k ts, tasks s !! k = Some ts → ts_currentStatus ts ≠ WAITING_OSDID.

(** No task of the first state stops, and none is added. *)
Record progress (s s' : System) : Prop := {
  pr_runs : runs s s';
  pr_running t : num_running t (machine s) ≤ num_running t (machine s');
  pr_tasks k : is_Some (tasks s' !! k) → is_Some (tasks s !! k);
  pr_settled k : settled k s → settled k s';
  pr_pending : ag_pendingOSD (sys_agent s') = ag_pendingOSD (sys_agent s);
}.

#[local] Instance progress_preorder : PreOrder progress.
Proof.
  split.
  - intros s. by split.
  - intros s1 s2 s3 [A1 A2 A3 A4 A5] [B1 B2 B3 B4 B5]. split; [by etrans| |by eauto..|by rewrite B5].
    intros t. specialize (A2 t). specialize (B2 t). lia.
Qed.

(** A report that a task which is STAGING or STARTING runs. *)
Definition reported (k : string) (s : System) : System :=
  mkSystem _ (set_stateMachine (updateTaskToRunning k) (sys_agent s)) (sys_requested s) (sys_offers s)
    (sys_reports s + 1).

Lemma running_smooth sm k ts m :
  sm_taskMap sm !! k = Some ts → ts_currentStatus ts = STAGING ∨ ts_currentStatus ts = STARTING →
  smooth sm (mkTaskStatus k TASK_RUNNING m).
Proof.
  intros Hts Hq. split; [|done]. split; [|done]. intros u ts'. cbn. rewrite Hts. intros [= <-] [= <-]. by destruct Hq as [-> | ->].
Qed.

Lemma report_step s k ts :
  calm s → tasks s !! k = Some ts → ts_currentStatus ts = STAGING ∨ ts_currentStatus ts = STARTING →
  runs s (reported k s) ∧ calm (reported k s) ∧
  tasks (reported k s) = <[k := set_currentStatus RUNNING ts]> (tasks s) ∧
  ∀ t, num_running t (machine (reported k s)) =
       num_running t (machine s) + if decide (ts_taskType ts = t) then 1 else 0.
Proof.
  intros Hc Hts Hq. assert (Hs : step flags smooth s (reported k s)).
  { apply (S_report _ _ _ (mkTaskStatus k TASK_RUNNING None)); [by eapply running_smooth|done]. }
  destruct (updateTaskTo_known ToRunning k ts _ Hts) as [Em _].
  split; [by apply rtc_once|]. split; [|split; [exact Em|]].
  - eapply calm_step; [exact Hs| |exact Hc]. cbn [reported sys_agent ag_stateMachine set_stateMachine].
    rewrite (hosts_updateTaskTo ToRunning). apply Hc.
  - intros t. unfold num_running. cbn [reported sys_agent ag_stateMachine set_stateMachine].
    cbn [updateTaskTo] in Em. rewrite Em, (count_map_insert_update _ _ _ _ _ Hts). unfold running_task. cbn.
    destruct Hq as [-> | ->]; cbn; case_bool_decide; case_decide; cbn; try done; lia.
Qed.

Lemma report_progress s k ts :
  calm s → none_waiting s → tasks s !! k = Some ts → in_flight (ts_currentStatus ts) = true →
  progress s (reported k s) ∧ calm (reported k s) ∧ none_waiting (reported k s) ∧ settled k (reported k s).
Proof.
  intros Hc Hw Hts Hf. pose proof (Hw _ _ Hts) as Hne.
  destruct (report_step s k ts Hc Hts) as (Hr & Hc' & Em & En); [destruct (ts_currentStatus ts); auto; done|].
  split_and!; [split| | |].
  - done.
  - intros t. rewrite En. case_decide; lia.
  - intros j. rewrite Em, lookup_insert. case_decide; [subst j; by rewrite Hts|done].
  - intros j Hj tj. rewrite Em, lookup_insert. case_decide; [by intros [= <-]|apply Hj].
  - done.
  - done.
  - intros j tj. rewrite Em, lookup_insert. case_decide; [by intros [= <-]|apply Hw].
  - intros tj. rewrite Em, lookup_insert_eq. by intros [= <-].
Qed.

Lemma reports_progress ks s :
  calm s → none_waiting s →
  ∃ s', progress s s' ∧ calm s' ∧ none_waiting s' ∧ Forall (λ k, settled k s') ks.
Proof.
  revert s. induction ks as [|k ks IH]; intros s Hc Hw; [by exists s|].
  assert (Hs : ∃ s1, progress s s1 ∧ calm s1 ∧ none_waiting s1 ∧ settled k s1).
  { destruct (tasks s !! k) as [ts|] eqn:Ets; [|exists s; split_and!; [done..|by intros ts; rewrite Ets]].
    destruct (in_flight (ts_currentStatus ts)) eqn:Ef.
    - exists (reported k s). by apply (report_progress s k ts).
    - exists s. split_and!; [done..|]. intros ts'. rewrite Ets. by intros [= <-]. }
  destruct Hs as (s1 & P1 & C1 & W1 & S1). destruct (IH s1 C1 W1) as (s2 & P2 & C2 & W2 & S2).
  exists s2. split; [by etrans|]. split; [done|]. split; [done|]. constructor; [|done]. by apply (pr_settled _ _ P2).
Qed.

(** [n] ids from the initial MON. *)
Lemma ids_progress n s :
  calm s → ∃ s', progress s s' ∧ calm s' ∧ tasks s' = tasks s ∧ (n ≤ length (sm_pendingOSDID (machine s')))%nat.
Proof.
  induction n as [|n IH]; intros Hc; [by exists s; split_and!; [..|lia]|].
  destruct (IH Hc) as (s1 & P1 & C1 & E1 & L1).
  set (s2 := mkSystem _ (set_stateMachine (addPendingOSDID 0) (sys_agent s1)) (sys_requested s1) (sys_offers s1) (sys_reports s1)).
  assert (Hs : step flags smooth s1 s2).
  { apply (S_message _ _ _ (ts_executorId (getInitialMon (machine s1))) (lexical_to_string 0)).
    unfold frameworkMessage. rewrite (bind_eq _ _ (sys_agent s1) (sys_agent s1) (getInitialMon (machine s1))) by done.
    rewrite decide_True by done. by rewrite (bind_eq _ _ (sys_agent s1) (sys_agent s1) 0)
      by (unfold lift; by rewrite lexical_roundtrip by (split; done)). }
  exists s2. split; [|split; [|split]].
  - etrans; [exact P1|]. split; [by apply rtc_once|done..].
  - eapply calm_step; [exact Hs|apply C1|exact C1].
  - exact E1.
  - cbn. rewrite length_app. cbn. lia.
Qed.

(** An empty batch of offers hands the ids out. *)
Lemma empty_offers_step s :
  step flags smooth s
    (mkSystem _ (assigned (getWaitingOSDTask (machine s)) (sys_agent s)) (sys_requested s) (sys_offers s) (sys_reports s)).
Proof.
  rewrite <- (Z.add_0_r (sys_offers s)). apply (S_offers _ _ _ env []).
  unfold resourceOffers. by rewrite (bind_eq _ _ _ _ _ (handleWaitingOSDTasks_eq _)).
Qed.

Lemma assigned_progress s :
  calm s → (length (getWaitingOSDTask (machine s)) ≤ length (sm_pendingOSDID (machine s)))%nat →
  ∃ s', progress s s' ∧ calm s' ∧ none_waiting s'.
Proof.
  intros Hc Hl. pose proof (empty_offers_step s) as Hs.
  set (s' := mkSystem _ _ _ _ _) in Hs. exists s'. set (l := getWaitingOSDTask (machine s)) in *.
  assert (Em : ∀ k, tasks s' !! k =
    (if decide (k ∈ ts_taskId <$> l) then set_currentStatus STARTING else λ t, t) <$> tasks s !! k).
  { intros k. subst s'. cbn -[take]. rewrite take_ge by done. apply lookup_starting_all. }
  assert (Hin : ∀ k ts, tasks s !! k = Some ts → (k ∈ ts_taskId <$> l ↔ ts_taskType ts = OSD ∧ ts_currentStatus ts = WAITING_OSDID)).
  { pose proof (orderly_keyed _ (ca_orderly _ Hc)) as Hk. intros k ts Hts. rewrite list_elem_of_fmap. split.
    - intros (t & -> & (Hw & k' & Hk')%elem_of_waiting). rewrite (Hk _ _ Hk') in Hts.
      rewrite Hk' in Hts. injection Hts as <-. unfold is_waiting_osd in Hw.
      by apply andb_true_iff in Hw as [?%bool_decide_eq_true ?%bool_decide_eq_true].
    - intros [Ht Hq]. exists ts. split; [by rewrite (Hk _ _ Hts)|]. apply elem_of_waiting. split; [|by exists k].
      unfold is_waiting_osd. by rewrite !bool_decide_true. }
  split; [split|split].
  - by apply rtc_once.
  - intros t. unfold num_running. apply Z.eq_le_incl. symmetry. apply count_map_ext. intros k. rewrite Em.
    destruct (tasks s !! k) as [ts|] eqn:Ets; [|done]. cbn. case_decide as Hk; [|done].
    apply (Hin _ _ Ets) in Hk as [_ Hq]. unfold running_task. cbn. by rewrite Hq, !andb_false_r.
  - intros k. rewrite Em, fmap_is_Some. done.
  - intros k Hk ts. rewrite Em. intros (ts0 & Ets & ->)%fmap_Some. case_decide as Hi; [|by apply Hk].
    apply (Hin _ _ Ets) in Hi as [_ Hq]. specialize (Hk _ Ets). by rewrite Hq in Hk.
  - done.
  - eapply calm_step; [exact Hs| |exact Hc]. subst s'. cbn [sys_agent].
    unfold assigned. cbn [ag_stateMachine]. change (sm_hostConfigMap (set_pendingOSDID ?i ?m)) with (sm_hostConfigMap m).
    rewrite hosts_starting_all. apply Hc.
  - intros k ts. rewrite Em. intros (ts0 & Ets & ->)%fmap_Some. case_decide as Hi; [done|]. intros Hq.
    apply Hi, (Hin _ _ Ets). split; [|done]. by apply (ca_waits _ Hc k).
Qed.

Lemma settle s : calm s → ∃ s', progress s s' ∧ calm s' ∧ ∀ k, settled k s'.
Proof.
  intros Hc. destruct (ids_progress (length (getWaitingOSDTask (machine s))) s Hc) as (s1 & P1 & C1 & E1 & L1).
  destruct (assigned_progress s1 C1) as (s2 & P2 & C2 & W2).
  { revert L1. unfold getWaitingOSDTask. by rewrite E1. }
  destruct (reports_progress (map_to_list (tasks s2)).*1 s2 C2 W2) as (s3 & P3 & C3 & _ & S3).
  exists s3. split; [by do 2 (etrans; [eassumption|])|]. split; [done|]. intros k ts Hts.
  rewrite Forall_forall in S3. refine (S3 k _ ts Hts).
  destruct (pr_tasks _ _ P3 k) as [ts2 Hts2]; [by eexists|].
  apply list_elem_of_fmap. exists (k, ts2). split; [done|]. by apply elem_of_map_to_list.
Qed.

(** ** Launching *)

(** How many tasks of each type are missing for the request phase. *)
Definition missing (sm : StateMachine) : nat :=
  Z.to_nat (1 - num_running MON sm) + Z.to_nat (3 - num_running OSD sm) + Z.to_nat (1 - num_running RADOSGW sm).

Lemma missing_le sm sm' :
  (∀ t, num_running t sm ≤ num_running t sm') → (missing sm' ≤ missing sm)%nat.
Proof. intros Hn. unfold missing. pose proof (Hn MON). pose proof (Hn OSD). pose proof (Hn RADOSGW). lia. Qed.

Context (AD : adequate).

(** With nothing in flight, the type the phase calls for is accepted. *)
Lemma nextMove_settled t0 k0 s :
  orderly_inv s → idle_host (sm_hostConfigMap (machine s)) → (∀ k, settled k s) →
  ∃ t k, (nextMove t0 k0 (of_hostname offer) (machine s)).2 = (true, t, k) ∧
    (getCurrentPhase (machine s) ≠ WAINTING_REQUEST → num_running t (machine s) < (if decide (t = OSD) then 3 else 1)) ∧
    (num_running MON (machine s) < 1 ↔ t = MON).
Proof.
  intros [[Hco _ _] Ha _] Hh Hs. unfold getCurrentPhase. apply idle_prepared in Hh as [_ Hp].
  assert (H0f : ∀ t, stagingNum (counters t (machine s)) = 0).
  { intros t. destruct (Ha t) as [_ ->]. apply count_map_zero. intros k ts Hts. unfold in_flight_task.
    by rewrite (Hs k ts Hts), andb_false_r. }
  pose proof (H0f MON) as F1. pose proof (H0f OSD) as F2. pose proof (H0f RADOSGW) as F3.
  destruct (Ha MON) as [R1 _], (Ha OSD) as [R2 _], (Ha RADOSGW) as [R3 _].
  unfold nextMove. rewrite Hp. unfold coherent, phase_of in Hco. rewrite Hco. clear Hco. cbn [counters] in *.
  destruct (Z.ltb_spec (runningNum (sm_mon (machine s))) 1).
  { rewrite F1. cbn [Z.ltb Z.compare Z.add andb]. exists MON, (index (sm_mon (machine s))).
    rewrite (proj2 (Z.ltb_lt _ _)) by lia. split_and!; [done| |split; [done|]; lia]. intros _. rewrite <- R1. case_decide; [done|]. lia. }
  assert (Hno : ∀ t, t ≠ MON → num_running MON (machine s) < 1 ↔ t = MON) by (intros t Ht; split; [lia|done]).
  destruct (Z.ltb_spec (runningNum (sm_osd (machine s))) 3).
  { rewrite F2. cbn [Z.ltb Z.compare Z.add andb]. exists OSD, (index (sm_osd (machine s))).
    rewrite (proj2 (Z.ltb_lt _ _)) by lia. split_and!; [done| |by apply Hno]. intros _. by rewrite <- R2. }
  destruct (Z.ltb_spec (runningNum (sm_radosgw (machine s))) 1); [|by eexists _, _; split_and!; [..|apply Hno]].
  rewrite F3. exists RADOSGW, (index (sm_radosgw (machine s))). split_and!; [done| |by apply Hno]. intros _. rewrite <- R3.
  case_decide; [done|]. lia.
Qed.

(** The offer alone, when nothing is in flight. *)
Lemma settled_not_waiting s : calm s → (∀ k, settled k s) → getWaitingOSDTask (machine s) = [].
Proof.
  intros Hc Hs. apply elem_of_nil_inv. intros ts (Hw & k & Hk)%elem_of_waiting.
  unfold is_waiting_osd in Hw. apply andb_true_iff in Hw as [_ Hq%bool_decide_eq_true].
  specialize (Hs k ts Hk). by rewrite Hq in Hs.
Qed.

(** The batch of the one offer, and what it launches. *)
Lemma launch_step s t k :
  calm s → (∀ k, settled k s) →
  (getCurrentPhase (machine s) = WAINTING_REQUEST → ag_pendingOSD (sys_agent s) ≠ []) →
  (nextMove indet_TaskType indet_int (of_hostname offer) (machine s)).2 = (true, t, k) →
  ∃ a' task,
    let s' := mkSystem _ a' (sys_requested s) (sys_offers s + 1) (sys_reports s) in
    resourceOffers flags env [offer] (sys_agent s) = (a', Ret tt) ∧
    ceph_task offer t k (is_initial t k (mkLocals indet_TaskType indet_int 0)) task ∧
    ti_labels task = Some (task_labels t (host_config (of_hostname offer) (machine s))) ∧
    effect (λ sm, addStagingTask (ti_task_id task) (ei_executor_id (ti_executor task)) t (of_hostname offer)
                    (of_slave_id offer) (on_counters t (add_index 1) sm))
      (consumed (getCurrentPhase (machine s)) (sys_agent s))
      (launchTasks (of_id offer) [task] ::
       register_calls t (is_initial t k (mkLocals indet_TaskType indet_int 0)) (machine s')) (sys_agent s) a' ∧
    k = index (counters t (machine s)) ∧ tasks s !! ti_task_id task = None ∧ step flags smooth s s' ∧ calm s'.
Proof using AD.
  intros Hc Hs Hph Hm. destruct (ad_size AD) as (needed & flat & Ep & Ef & Econt).
  destruct (idle_prepared _ _ (ca_host _ Hc)) as [Hh _].
  destruct (handle_offer_launched flags env cfg (ad_env AD) (getCurrentPhase (machine s)) (mkLocals indet_TaskType indet_int 0)
    offer (sys_agent s) t k needed flat (ca_config _ Hc) (ad_role AD) Hh Hm Ep Ef Econt)
    as (a' & task & E & Ht & Hl & He); [done|].
  pose proof (ad_role AD) as Hr. rewrite <- (ca_config _ Hc) in Hr.
  destruct (handle_offer_prepared flags env (getCurrentPhase (machine s)) (mkLocals indet_TaskType indet_int 0)
    offer (sys_agent s) t k Hr Hh Hm) as (_ & Hk & Eq).
  assert (Er : resourceOffers flags env [offer] (sys_agent s) = (a', Ret tt)).
  { unfold resourceOffers. rewrite (bind_eq _ _ (sys_agent s) (sys_agent s) tt).
    2: { unfold handleWaitingOSDTasks.
         rewrite (bind_eq _ _ (sys_agent s) (sys_agent s) (getWaitingOSDTask (machine s))) by done.
         by rewrite (settled_not_waiting _ Hc Hs). }
    rewrite (bind_eq _ _ (sys_agent s) (sys_agent s) (getCurrentPhase (machine s))) by done.
    unfold foreach. rewrite bind_eq with (s1 := a') (a := mkLocals t k (is_initial t k (mkLocals indet_TaskType indet_int 0))); [done|].
    by rewrite (bind_eq _ _ _ _ _ E). }
  exists a', task. set (s' := mkSystem _ a' _ _ _). cbn zeta.
  assert (Hst : step flags smooth s s') by exact (S_offers flags smooth s env [offer] a' Er).
  split_and!; [exact Er|exact Ht|exact Hl|exact He|exact Hk| |exact Hst|].
  - rewrite (ct_id _ _ _ _ _ Ht), Hk. apply fresh_id, Hc.
  - eapply calm_step; [exact Hst| |exact Hc]. rewrite Eq in E.
    eapply (keeps_Ret _ _ _ _ _ (idle_launch _ _ _ _ _)); [|exact E]. apply (ca_host _ Hc).
Qed.

(** The tasks after a launch. *)
Lemma launched_tasks id e t h sl p cs a a' :
  effect (λ sm, addStagingTask id e t h sl (on_counters t (add_index 1) sm)) p cs a a' →
  sm_taskMap (ag_stateMachine a') = <[id := mkTaskState id e t h sl STAGING]> (sm_taskMap (ag_stateMachine a)).
Proof. intros [Ec _ _ _]. rewrite (core_tasks _ _ Ec), tasks_addStagingTask. by destruct t. Qed.

(** What is left to do: tasks missing, and requests pending. *)
Definition todo (s : System) : nat := (missing (machine s) + Z.to_nat (total (ag_pendingOSD (sys_agent s))))%nat.

Lemma todo_less s s' t :
  calm s → (getCurrentPhase (machine s) = WAINTING_REQUEST → ag_pendingOSD (sys_agent s) ≠ []) →
  (getCurrentPhase (machine s) ≠ WAINTING_REQUEST → num_running t (machine s) < (if decide (t = OSD) then 3 else 1)) →
  (∀ u, num_running u (machine s') = num_running u (machine s) + if decide (t = u) then 1 else 0) →
  ag_pendingOSD (sys_agent s') = consumed (getCurrentPhase (machine s)) (sys_agent s) → (todo s' < todo s)%nat.
Proof.
  intros Hc Hph Hlt Hrun Ep.
  assert (Hle : (missing (machine s') ≤ missing (machine s))%nat).
  { apply missing_le. intros u. rewrite Hrun. destruct (decide (t = u)); lia. }
  pose proof (ci_positive _ _ _ _ _ (si_counters _ (oi_system _ (ca_orderly _ Hc)))) as Hpos.
  unfold todo. rewrite Ep. unfold consumed. destruct (decide (getCurrentPhase (machine s) = WAINTING_REQUEST)) as [Hw|Hw].
  - destruct (consume_one_positive _ Hpos (Hph Hw)) as [-> _]. specialize (Hph Hw).
    destruct (sum_positive _ Hpos) as [[? _]|[_ H1t]]; [done|]. unfold total in *. lia.
  - specialize (Hlt Hw). unfold missing. rewrite !Hrun. destruct t; repeat case_decide; try done; lia.
Qed.

(** One more task runs, for the bootstrap or for a request. *)
Lemma launch_round s :
  calm s → (∀ k, settled k s) →
  (getCurrentPhase (machine s) = WAINTING_REQUEST → ag_pendingOSD (sys_agent s) ≠ []) →
  ∃ s', runs s s' ∧ calm s' ∧ (todo s' < todo s)%nat.
Proof using AD.
  intros Hc Hs Hph. destruct (nextMove_settled indet_TaskType indet_int s (ca_orderly _ Hc) (ca_host _ Hc) Hs) as (t & k & Hm & Hlt & _).
  destruct (launch_step s t k Hc Hs Hph Hm) as (a1 & task & _ & _ & _ & He & _ & Hn & Hst & Hc1).
  set (s1 := mkSystem _ a1 _ _ _) in *. set (id := ti_task_id task) in *.
  pose proof (launched_tasks _ _ _ _ _ _ _ _ _ He) as Em. fold id in Em. set (ts := mkTaskState id _ t _ _ STAGING) in *.
  destruct (report_step s1 id ts Hc1) as (Hr & Hc2 & _ & Hrun); [unfold s1; cbn; by rewrite Em, lookup_insert_eq|by left|].
  exists (reported id s1). split; [by eapply rtc_l|]. split; [done|].
  eapply (todo_less s _ t); [done..| |apply (eff_pending _ _ _ _ _ He)].
  intros u. rewrite Hrun. f_equal. unfold num_running, s1. cbn. rewrite Em, count_map_insert_new by done.
  unfold running_task. cbn. rewrite andb_false_r. cbn. lia.
Qed.

Lemma progress_pending_todo s s' :
  progress s s' → ag_pendingOSD (sys_agent s') = ag_pendingOSD (sys_agent s) → (todo s' ≤ todo s)%nat.
Proof. intros P E. unfold todo. rewrite E. pose proof (missing_le _ _ (pr_running _ _ P)). lia. Qed.

Lemma bring_up s : calm s →
  ∃ s', runs s s' ∧ calm s' ∧ (∀ k, settled k s') ∧ getCurrentPhase (machine s') = WAINTING_REQUEST ∧
    ag_pendingOSD (sys_agent s') = [].
Proof using AD.
  remember (todo s) as n eqn:En. revert s En.
  induction (lt_wf n) as [n _ IH]. intros s -> Hc.
  destruct (settle s Hc) as (s1 & P1 & C1 & S1).
  pose proof (progress_pending_todo _ _ P1 (pr_pending _ _ P1)) as Hle.
  destruct (decide (getCurrentPhase (machine s1) = WAINTING_REQUEST ∧ ag_pendingOSD (sys_agent s1) = [])) as [[Hw Hp]|Hw].
  - exists s1. split; [apply P1|done].
  - destruct (launch_round s1 C1 S1) as (s2 & R2 & C2 & Hlt); [by intros Hph Hp; apply Hw|].
    destruct (IH (todo s2) ltac:(lia) s2 eq_refl C2) as (s3 & R3 & C3 & S3).
    exists s3. split; [|done]. etrans; [apply P1|]. by etrans.
Qed.

(** ** Preparing the host *)

(** The disks of a host that makes an adequate offer are handed to a disk
    executor. *)
Lemma tryLaunchDiskTask_launches a a' :
  ag_config a = cfg → let sm := ag_stateMachine a in let r := getConfig (of_hostname offer) sm in
  isPreparingDisk (deref r sm) = false →
  hc_pendingOSDDevs (deref r sm) ++ hc_pendingJNLDevs (deref r sm) ≠ [] →
  tryLaunchDiskTask env offer (of_hostname offer) a = (a', Ret tt) →
  ∃ task, disk_task offer (deref r sm) task ∧ ag_calls a' = ag_calls a ++ [launchTasks (of_id offer) [task]] ∧
    ag_stateMachine a' = update_host r setDiskPreparationOnGoing sm ∧ ag_pendingOSD a' = ag_pendingOSD a.
Proof using AD.
  intros Hcfg sm r Hp Hd. unfold tryLaunchDiskTask. rewrite (bind_eq _ _ a a r) by done.
  rewrite (bind_eq _ _ a a (deref r sm)) by done. rewrite Hp.
  replace (negb _ && negb _) with false.
  2: { unfold havePendingOSDDevs, havePendingJNLDevs. destruct (hc_pendingOSDDevs _); [|done].
       destruct (hc_pendingJNLDevs _); [by destruct Hd|done]. }
  destruct (ad_size AD) as (needed & flat & Ep & Ef & Ec).
  rewrite (bind_eq _ _ a a false).
  2: { unfold offerNotEnoughResources. rewrite (bind_eq _ _ a a cfg) by (unfold gets; by rewrite Hcfg).
       rewrite (bind_eq _ _ a a needed) by (unfold lift; by rewrite Ep). rewrite (bind_eq _ _ a a flat) by (unfold lift; by rewrite Ef).
       by rewrite Ec. }
  unfold time, getFileServerIP. intros E. inv_agent. eexists. split; [|split; [reflexivity|done]]. split; try done.
  eexists. cbn. by str_norm.
Qed.

Lemma known_op f : host_op_ok (λ M, is_Some (M !! of_hostname offer)) f.
Proof. intros h M HM. cbn. rewrite lookup_alter_is_Some. done. Qed.

(** An offer makes its host known, and the report of its disk task idle. *)
Lemma prepare s : regular flags cfg s → ∃ s', runs s s' ∧ calm s'.
Proof using AD.
  intros Hr. pose proof (steps_config flags _ _ _ Hr) as Hcfg.
  destruct (returns_resourceOffers flags env cfg (ad_env AD) [offer]) with (a := sys_agent s)
    as (a1 & [] & E & _); [constructor; [apply AD|constructor]|done|].
  set (s1 := mkSystem _ a1 (sys_requested s) (sys_offers s + Z.of_nat (length [offer])) (sys_reports s)).
  assert (Hs1 : step flags smooth s s1) by (by eapply S_offers).
  assert (Hk : is_Some (sm_hostConfigMap (machine s1) !! of_hostname offer)).
  { apply resourceOffers_Ret in E as [l E]. cbn [foreach] in E. apply bind_Ret in E as (a2 & l2 & E & E').
    apply mret_Ret in E' as [-> _]. set (a0 := assigned _ _) in *.
    assert (Hrole : hasRole offer (cfg_role (ag_config a0)) = true).
    { change (ag_config a0) with (ag_config (sys_agent s)). rewrite Hcfg. apply AD. }
    destruct (ad_config AD) as [hc Ehc].
    destruct (addConfig_returns flags env (of_hostname offer) (ag_stateMachine a0)) as [sm Esm]; [by eexists|].
    eapply (hosts_after_addConfig flags env (λ M, is_Some (M !! of_hostname offer))) with (a1 := set_stateMachine (λ _, sm) a0) in E;
      [exact E|apply known_op..|done|by unfold sm_try; rewrite Esm|].
    unfold hosts_inv. cbn. unfold addConfig in Esm.
    destruct (sm_hostConfigMap (ag_stateMachine a0) !! of_hostname offer) as [hc'|] eqn:Eh.
    - injection Esm as <-. by eexists.
    - rewrite Ehc in Esm. injection Esm as <-. cbn. rewrite lookup_insert_eq. by eexists. }
  set (s2 := mkSystem _ (set_stateMachine (disk_prepared (of_hostname offer) []) a1) (sys_requested s1) (sys_offers s1) (sys_reports s1 + 1)).
  assert (Hs2 : step flags smooth s1 s2).
  { pose proof (ad_name AD) as [Hn1 Hn2]%andb_true_iff.
    apply (S_report _ _ _ (mkTaskStatus "" TASK_FINISHED (Some (disk_ready (of_hostname offer) "-")))).
    - split; [|done]. split; [by intros u ts|done].
    - by apply statusUpdate_disk_ready. }
  exists s2. split; [by do 2 (eapply rtc_l; [eassumption|])|].
  assert (Hreg : regular flags cfg s2) by (unfold regular in *; do 2 (eapply rtc_r; [|by apply smooth_regular]); done).
  destruct (regular_orderly_inv s2 Hreg) as [Ho Hw].
  split; [done|done|by eapply steps_config|]. by apply disk_prepared_idle.
Qed.
(** ** Full service *)

(** Everything the code means to run runs, and every request is served. *)
Record full_service (s s' : System) : Prop := {
  fs_phase : getCurrentPhase (machine s') = WAINTING_REQUEST;
  fs_pending : ag_pendingOSD (sys_agent s') = [];
  fs_mon : 1 ≤ num_running MON (machine s');
  fs_osd : 3 ≤ num_running OSD (machine s');
  fs_radosgw : 1 ≤ num_running RADOSGW (machine s');
  fs_flight t : num_in_flight t (machine s') = 0;
  fs_promised : promised s ≤ num_running OSD (machine s');
}.

Lemma settled_full_service s s' :
  orderly_inv s → runs s s' → orderly_inv s' → (∀ k, settled k s') → getCurrentPhase (machine s') = WAINTING_REQUEST →
  ag_pendingOSD (sys_agent s') = [] → full_service s s'.
Proof.
  intros Ho R [[Hco _ _] Ha _] S2 Hph Hpd. pose proof (runs_promised s s' Ho R) as HP.
  assert (Hf : ∀ t, num_in_flight t (machine s') = 0).
  { intros t. apply count_map_zero. intros k ts Hts. unfold in_flight_task. by rewrite (S2 k ts Hts), andb_false_r. }
  unfold promised at 2 in HP. rewrite Hpd, Hf in HP. cbn [total foldr] in HP. rewrite !Z.add_0_r in HP.
  pose proof Hph as Hph'. unfold getCurrentPhase in Hph'. unfold coherent, phase_of in Hco. rewrite Hph' in Hco.
  revert HP. destruct (Ha MON) as [Hm _], (Ha OSD) as [Hos _], (Ha RADOSGW) as [Hr _]. cbn [counters] in *. intros HP.
  repeat match type of Hco with context [?x <? ?y] => destruct (Z.ltb_spec x y); [done|] end.
  split; done || lia.
Qed.

Lemma serve s : regular flags cfg s → ∃ s', runs s s' ∧ full_service s s'.
Proof using AD.
  intros Hr. destruct (prepare s Hr) as (s1 & R1 & C1). destruct (bring_up s1 C1) as (s2 & R2 & C2 & S2 & Hph & Hpd).
  pose proof (regular_orderly_inv s Hr) as [Ho _].
  assert (R : runs s s2) by (by etrans). exists s2. split; [done|]. apply settled_full_service; [done|done|apply C2|done..].
Qed.
End Liveness.

(** ** Properties *)

Section Properties.
Context `{LexicalCast, Yaml, Indeterminate, HashOrder, MesosResources, JsonCpp}.
Context (flags : Flags) (env : Env) (cfg : Config) (offer : Offer).

(** C6. The scheduler never gets stuck.  In every state of a regular run (tasks
    may have failed, packets been lost, offers been too small), as long as some
    host can make adequate offers, a run in which nothing more fails leads on to
    the request phase, with a MON, three OSDs and a RADOSGW running, no task in
    flight and no request pending; the OSDs that ran or were on their way run then,
    three at least, and besides these all that had been asked for.  (A task that fails while it waits for its OSD id is not
    regular, and three of them block the bootstrap for ever.) *)
Theorem bootstrap_never_stuck (s : System) :
  adequate flags env cfg offer → regular flags cfg s →
  ∃ s', rtc (step flags smooth) s s' ∧
    let sm := ag_stateMachine (sys_agent s') in
    getCurrentPhase sm = WAINTING_REQUEST ∧ ag_pendingOSD (sys_agent s') = [] ∧
    1 ≤ num_running MON sm ∧ 3 ≤ num_running OSD sm ∧ 1 ≤ num_running RADOSGW sm ∧
    (∀ t, num_in_flight t sm = 0) ∧ promised s ≤ num_running OSD sm.
Proof.
  intros AD Hr. destruct (serve flags env cfg offer AD s Hr) as (s' & R & [F1 F2 F3 F4 F5 F6 F7]).
  exists s'. cbn zeta. by split_and!.
Qed.
End Properties.

#[local] Existing Instances DecimalCast.cast FlatYaml.yaml SomeValues.indet SomeOrder.order
  ScalarResources.resources ToyJson.json.

(** The initial MON was launched, then failed. *)
Module SampleFailure.
Definition script : list event := [
  Offers Bootstrap.one; Report "disk" TASK_FINISHED (Some "2.h1:-"); Offers Bootstrap.one;
  Report "mon0.h1.s" TASK_FAILED None].
Definition failed : System := default Bootstrap.start (play default_Flags SampleRun.env script Bootstrap.start).
Lemma plays : play default_Flags SampleRun.env script Bootstrap.start = Some failed.
Proof. apply plays_default. vm_compute. reflexivity. Qed.

(** Then four OSDs are asked for. *)
Definition asked : System :=
  mkSystem _ (set_pendingOSD [4] (sys_agent failed)) (sys_requested failed + 4) (sys_offers failed) (sys_reports failed).
Lemma asked_regular : regular default_Flags sample_Config asked.
Proof.
  eapply rtc_r; [exact (play_regular _ _ _ _ _ plays)|].
  apply (S_event _ _ _ "osd:4" 4 osd); [|vm_compute; reflexivity].
  exists ("osd", 4). split_and!; [vm_compute; reflexivity..|done|done|by left].
Qed.
End SampleFailure.

Lemma sample_adequate :
  adequate default_Flags SampleRun.env sample_Config (SampleRun.offer "o" "h1" "*" 4).
Proof.
  split; [|vm_compute; reflexivity| | |vm_compute; reflexivity].
  - split; [eexists; reflexivity|eexists; vm_compute; reflexivity|intros rs; eexists; reflexivity].
  - eexists _, _. split_and!; vm_compute; reflexivity.
  - eexists. vm_compute. reflexivity.
Qed.

Lemma bootstrap_never_stuck_witness :
  num_running MON (ag_stateMachine (sys_agent SampleFailure.asked)) = 0 ∧
  ∃ s', rtc (step default_Flags smooth) SampleFailure.asked s' ∧
        getCurrentPhase (ag_stateMachine (sys_agent s')) = WAINTING_REQUEST ∧
        7 ≤ num_running OSD (ag_stateMachine (sys_agent s')).
Proof.
  split; [vm_compute; reflexivity|].
  destruct (bootstrap_never_stuck default_Flags SampleRun.env sample_Config (SampleRun.offer "o" "h1" "*" 4)
    SampleFailure.asked sample_adequate) as (s' & Hr & Hp & _ & _ & _ & _ & _ & HP).
  - exact SampleFailure.asked_regular.
  - exists s'. split; [exact Hr|]. split; [exact Hp|]. etrans; [|exact HP]. vm_compute. discriminate.
Defined.
