(* ===== verification/Requests.v ===== *)
(** * A flex-up request, from the REST call to the OSDs

    Requests for OSDs are posted in chunks, checked and queued by the REST
    server, taken by the event loop, recorded for the agent, and served by
    launches.  Here the parts of [FlexUp] and the run of [Liveness] are put
    together: every OSD that was asked for runs in the end. *)

From S2P Require Import Prelude StringUtil CephTypes ConfigFile HostConfigs TaskMachine FlexUp Mesos Agent Cluster Liveness.
Open Scope Z_scope.

(** A request: the chunks its body comes in, and the instances it asks for. *)
Record Request := mkRequest { rq_chunks : list string; rq_instances : Z }.
Definition rq_body (r : Request) : string := str_concat (rq_chunks r).

Section Pipeline.
Context `{JsonCpp, MessageQueue}.

(** A request for OSDs that is valid and fits a message. *)
Record osd_request (r : Request) : Prop := {
  or_chunks : Forall (λ c, c ≠ "") (rq_chunks r);
  or_text : lacks Ascii.zero (rq_body r) = true;
  or_length : (String.length (rq_body r) ≤ max_msg_size)%nat;
  or_accepted : accepted_request (rq_body r) (rq_instances r) osd;
}.

(** The POSTs, one connection after the other, and their final answers. *)
Fixpoint post_all (rs : list Request) : ST Rest (list mhd_result) :=
  match rs with
  | [] => mret []
  | r :: rs' =>
      answers ← post_calls ("" :: rq_chunks r ++ [""]);
      answers' ← post_all rs';
      mret (List.last answers MHD_NO :: answers')
  end.

(** The iterations of the event loop, with what its buffer held at each. *)
Fixpoint take_all (buffers : list string) (q : Queue) (el : EventLoop) : Queue * outcome EventLoop :=
  match buffers with
  | [] => (q, Ret el)
  | b :: buffers' =>
      match recv_iteration b q el with
      | (q', Ret el') => take_all buffers' q' el'
      | r => r
      end
  end.

(** The buffer is zero where the message ends. *)
Definition terminates (b : string) (r : Request) : Prop :=
  ∃ rest, str_drop (String.length (rq_body r)) b = String Ascii.zero rest.

Lemma post_one r q :
  osd_request r → (length (queue_contents q) < max_num_msg)%nat →
  ∃ q', post_calls ("" :: rq_chunks r ++ [""]) (mkRest _ None (Some q)) =
          (mkRest _ None (Some q'), Ret (MHD_YES :: ((λ _, MHD_YES) <$> rq_chunks r) ++ [post_reply (rq_body r) "[success]"])) ∧
        queue_contents q' = queue_contents q ++ [rq_body r].
Proof.
  intros [Hc Ht Hl Ha] Hq. destruct (mq_send_ok q (rq_body r) Hl Hq) as (q' & Es & Eq). exists q'. split; [|done].
  rewrite (rest_request_reassembles (rq_chunks r) (Some q) (Some q') "[success]" Hc); [done|].
  fold (rq_body r). rewrite c_str_id by done. rewrite (jsonCheck_accepted _ _ _ _ Ha). by rewrite (bind_eq _ _ (Some q) (Some q') tt) by (unfold open_only; by rewrite Es).
Qed.

Lemma post_all_queues rs q :
  Forall osd_request rs → (length (queue_contents q) + length rs ≤ max_num_msg)%nat →
  ∃ q', post_all rs (mkRest _ None (Some q)) = (mkRest _ None (Some q'), Ret ((λ r, post_reply (rq_body r) "[success]") <$> rs)) ∧
        queue_contents q' = queue_contents q ++ (rq_body <$> rs).
Proof.
  intros Hrs. revert q. induction Hrs as [|r rs Hr _ IH]; intros q Hl; cbn [post_all fmap list_fmap].
  - exists q. by rewrite app_nil_r.
  - cbn [length] in Hl. destruct (post_one r q Hr) as (q1 & E1 & Q1); [lia|].
    destruct (IH q1) as (q2 & E2 & Q2); [rewrite Q1, length_app; cbn; lia|].
    exists q2. rewrite (bind_eq _ _ _ _ _ E1), (bind_eq _ _ _ _ _ E2), app_comm_cons, List.last_last.
    split; [done|]. by rewrite Q2, Q1, <- app_assoc.
Qed.

Lemma processData_request r (l : list Z) :
  lacks Ascii.zero (rq_body r) = true → accepted_request (rq_body r) (rq_instances r) osd →
  processData (rq_body r) l = Ret (l ++ [rq_instances r]).
Proof.
  intros Hz (v & Hp & Hi & Hpr & _). unfold processData. rewrite c_str_id, Hp by done.
  unfold mbind, outcome_bind. rewrite Hpr, bool_decide_true by done. by rewrite Hi.
Qed.

Lemma take_one b r q el ms :
  osd_request r → terminates b r → loopTag el = true → recv_running el = true → queue_contents q = rq_body r :: ms →
  ∃ q', recv_iteration b q el = (q', Ret (mkEventLoop true true (pendingOSD el ++ [rq_instances r]))) ∧ queue_contents q' = ms.
Proof.
  intros [_ Ht _ Ha] [rest Hb] Hel Hrun Hq. destruct (recv_step_cons b q (rq_body r) ms (pendingOSD el) Hq) as (q' & Hq' & Er).
  exists q'. split; [|done]. unfold recv_iteration. rewrite Hel, Hrun, Er. cbn [negb].
  rewrite (string_of_buffer_terminated _ b rest) by done. cbn [fst snd mbind outcome_bind]. by rewrite (processData_request r).
Qed.

Lemma take_all_records buffers rs q el :
  Forall osd_request rs → Forall2 terminates buffers rs → loopTag el = true → recv_running el = true → queue_contents q = rq_body <$> rs →
  ∃ q', take_all buffers q el = (q', Ret (mkEventLoop true true (pendingOSD el ++ (rq_instances <$> rs)))) ∧ queue_contents q' = [].
Proof.
  intros Hrs Hb. revert q el. induction Hb as [|b r buffers rs Hbr _ IH]; intros q el Hel Hrun Hq; cbn [take_all].
  - exists q. rewrite app_nil_r. destruct el. cbn in *. by subst.
  - apply Forall_cons in Hrs as [Hr Hrs]. destruct (take_one b r q el (rq_body <$> rs)) as (q1 & E1 & Q1); [done..|].
    rewrite E1. destruct (IH Hrs q1 (mkEventLoop true true (pendingOSD el ++ [rq_instances r]))) as (q2 & E2 & Q2); [done..|].
    exists q2. rewrite E2. cbn [pendingOSD]. by rewrite <- app_assoc.
Qed.
End Pipeline.

(** ** The life of the event loop *)

(** A message that [jsonCheck] accepts: its text, its instances and its profile. *)
Record Message := mkMessage { ms_text : string; ms_instances : Z; ms_profile : string }.
Definition asked_of (ms : list Message) : list Z := ms_instances <$> filter (λ m, ms_profile m = osd) ms.

Section Thread.
Context `{JsonCpp, MessageQueue}.

Definition message_ok (m : Message) : Prop :=
  lacks Ascii.zero (ms_text m) = true ∧ accepted_request (ms_text m) (ms_instances m) (ms_profile m).

(** A turn whose buffer is zero where any of the given messages ends, and in whose
    sleep the [new] ones are sent. *)
Record turn_ok (all : list Message) (t : Turn) (new : list Message) : Prop := {
  to_buffer m : m ∈ all → ∃ rest, str_drop (String.length (ms_text m)) (tn_buffer t) = String Ascii.zero rest;
  to_sleep q : queue_contents (tn_sleep t q) = queue_contents q ++ (ms_text <$> new);
}.

Lemma asked_of_app l1 l2 : asked_of (l1 ++ l2) = asked_of l1 ++ asked_of l2.
Proof. unfold asked_of. by rewrite filter_app, fmap_app. Qed.

Lemma processData_message m (l : list Z) :
  message_ok m → processData (ms_text m) l = Ret (l ++ asked_of [m]).
Proof.
  intros [Hz (v & Hp & Hi & Hpr & _ & Hok)]. unfold processData, asked_of. rewrite c_str_id, Hp by done.
  unfold mbind, outcome_bind. rewrite Hpr, filter_cons, filter_nil.
  destruct Hok as [-> | ->]; cbn; [by rewrite Hi|by rewrite app_nil_r].
Qed.

(** An iteration serves the first message that waits. *)
Lemma recv_iteration_serves all t new ms q pending :
  turn_ok all t new → Forall message_ok all → ms ⊆ all → queue_contents q = ms_text <$> ms →
  ∃ q', recv_iteration (tn_buffer t) q (mkEventLoop true true pending) =
          (q', Ret (mkEventLoop true true (pending ++ asked_of (take 1 ms)))) ∧
        queue_contents q' = ms_text <$> drop 1 ms.
Proof.
  intros [Hb _] Hall Hms Hq. unfold recv_iteration. cbn [negb loopTag recv_running FlexUp.pendingOSD].
  destruct ms as [|m ms]; cbn [fmap list_fmap take drop] in *.
  - exists q. rewrite recv_step_nil by done. by rewrite app_nil_r.
  - assert (Hm : m ∈ all) by (apply Hms; left). destruct (Hb m Hm) as [rest Hr].
    pose proof (proj1 (Forall_forall _ _) Hall m Hm) as Hok.
    destruct (recv_step_cons (tn_buffer t) q _ _ pending Hq) as (q' & Eq & Er). exists q'. split; [|done].
    rewrite Er, (string_of_buffer_terminated _ _ rest) by first [apply Hok|done].
    cbn [mbind outcome_bind]. by rewrite (processData_message m _ Hok).
Qed.

(** A turn: at most one message is served, one if any waits, and those sent
    meanwhile come last. *)
Lemma recv_turn all t new ms q pending ts :
  turn_ok all t new → Forall message_ok all → ms ⊆ all → queue_contents q = ms_text <$> ms →
  ∃ q', recv_loop (t :: ts) q (mkEventLoop true true pending) =
          recv_loop ts q' (mkEventLoop (negb (tn_stop t)) true (pending ++ asked_of (take 1 ms))) ∧
        queue_contents q' = ms_text <$> (drop 1 ms ++ new).
Proof.
  intros Ht Hall Hms Hq. destruct (recv_iteration_serves all t new ms q pending Ht Hall Hms Hq) as (q' & E & Eq).
  exists (tn_sleep t q'). split.
  - cbn [recv_loop]. rewrite E. by destruct (tn_stop t).
  - by rewrite (to_sleep _ _ _ Ht), Eq, fmap_app.
Qed.

(** The reference: which messages a loop of as many turns takes, and which it
    leaves, when these wait at first and those come in the sleep of each turn. *)
Fixpoint fifo (sleeps : list (list Message)) (waiting : list Message) : list Message * list Message :=
  match sleeps with
  | [] => ([], waiting)
  | new :: sleeps' =>
      let '(served, rest) := fifo sleeps' (drop 1 waiting ++ new) in
      (take 1 waiting ++ served, rest)
  end.

Lemma fifo_cons new sleeps waiting :
  fifo (new :: sleeps) waiting =
  (take 1 waiting ++ (fifo sleeps (drop 1 waiting ++ new)).1, (fifo sleeps (drop 1 waiting ++ new)).2).
Proof. cbn [fifo]. by destruct (fifo _ _). Qed.

(** Nothing is lost, doubled or overtaken. *)
Lemma fifo_order sleeps waiting :
  (fifo sleeps waiting).1 ++ (fifo sleeps waiting).2 = waiting ++ concat sleeps.
Proof.
  revert waiting. induction sleeps as [|new sleeps IH]; intros waiting; [cbn; by rewrite app_nil_r|].
  rewrite fifo_cons. cbn [fst snd concat]. rewrite <- app_assoc, IH, <- app_assoc, app_assoc, take_drop. done.
Qed.

Lemma fifo_last sleeps new waiting :
  fifo (sleeps ++ [new]) waiting =
  ((fifo sleeps waiting).1 ++ take 1 (fifo sleeps waiting).2, drop 1 (fifo sleeps waiting).2 ++ new).
Proof.
  revert waiting. induction sleeps as [|new0 sleeps IH]; intros waiting; [cbn; by rewrite app_nil_r|].
  cbn [app]. rewrite !fifo_cons, IH. cbn [fst snd]. by rewrite app_assoc.
Qed.

(** Turns that do not stop: the loop goes on, having taken what [fifo] says. *)
Lemma recv_loop_turns all turns sleeps waiting q pending ts :
  Forall2 (turn_ok all) turns sleeps → Forall (λ t, tn_stop t = false) turns → Forall message_ok all →
  waiting ++ concat sleeps ⊆ all → queue_contents q = ms_text <$> waiting →
  ∃ q', recv_loop (turns ++ ts) q (mkEventLoop true true pending) =
          recv_loop ts q' (mkEventLoop true true (pending ++ asked_of (fifo sleeps waiting).1)) ∧
        queue_contents q' = ms_text <$> (fifo sleeps waiting).2.
Proof.
  intros Hok Hgo Hall. revert waiting q pending Hgo. induction Hok as [|t new turns sleeps Ht Hok IH]; intros waiting q pending Hgo Hsub Hq.
  { exists q. cbn. by rewrite app_nil_r. }
  apply Forall_cons in Hgo as [Hg Hgo]. cbn [concat] in Hsub.
  destruct (recv_turn all t new waiting q pending (turns ++ ts) Ht Hall) as (q1 & E1 & Q1); [|done|].
  { etrans; [|exact Hsub]. intros x. rewrite elem_of_app. tauto. }
  destruct (IH (drop 1 waiting ++ new) q1 (pending ++ asked_of (take 1 waiting)) Hgo) as (q' & E & Eq); [|done|].
  { etrans; [|exact Hsub]. rewrite <- (take_drop 1 waiting) at 2. intros x. rewrite !elem_of_app. tauto. }
  exists q'. cbn [app]. rewrite E1, Hg, fifo_cons. cbn [negb fst snd]. by rewrite E, asked_of_app, app_assoc.
Qed.
End Thread.

(** ** The requests recorded, as steps of the scheduler *)

Section Steps.
Context `{LexicalCast, Yaml, Indeterminate, HashOrder, MesosResources, JsonCpp}.
Context (flags : Flags) (ok : StateMachine → TaskStatus → Prop).

Definition recorded (rs : list Request) (s : System) : System :=
  mkSystem _ (set_pendingOSD (ag_pendingOSD (sys_agent s) ++ (rq_instances <$> rs)) (sys_agent s))
    (sys_requested s + total (rq_instances <$> rs)) (sys_offers s) (sys_reports s).

Lemma total_app l1 l2 : total (l1 ++ l2) = total l1 + total l2.
Proof. unfold total. induction l1 as [|n l1 IH]; cbn; lia. Qed.

Lemma recorded_nil s : recorded [] s = s.
Proof. unfold recorded. cbn. rewrite app_nil_r, Z.add_0_r. by destruct s as [[] ? ? ?]. Qed.

Lemma recorded_app r rs s : recorded rs (recorded [r] s) = recorded (r :: rs) s.
Proof. unfold recorded. cbn. rewrite <- app_assoc. cbn. f_equal. unfold total. cbn. lia. Qed.

Lemma recorded_steps rs s : Forall osd_request rs → rtc (step flags ok) s (recorded rs s).
Proof.
  intros Hrs. revert s. induction Hrs as [|r rs Hr _ IH]; intros s; [by rewrite recorded_nil|].
  destruct Hr as [_ Ht _ Ha]. eapply rtc_l.
  - eapply (S_event _ _ s (rq_body r) (rq_instances r) osd (ag_pendingOSD (sys_agent s) ++ [rq_instances r])).
    + by rewrite c_str_id.
    + by apply processData_request.
  - rewrite <- recorded_app. rewrite decide_True by done.
    replace (sys_requested s + rq_instances r) with (sys_requested s + total (rq_instances <$> [r])); [apply IH|].
    unfold total. cbn. lia.
Qed.

Lemma recorded_promised rs s : promised (recorded rs s) = promised s + total (rq_instances <$> rs).
Proof. unfold promised, recorded. cbn. rewrite total_app. lia. Qed.
End Steps.

(** ** Properties *)

(** C24. The life of the event loop.  Its thread opens the queue, with what an
    earlier process left in it, and takes one message in each turn in which any
    waits, while others are sent during the sleeps; an empty queue does not end
    it.  If all are messages that [jsonCheck] accepts, and the buffer is zero
    where each ends, then what is taken, and what is left in the queue, is what
    the reference [fifo] says, in the order they were sent: the instances of those
    whose profile is "osd" are recorded, and those for "mon" dropped without a
    trace.  The thread still runs after any number of turns up to the one in
    which the destructor clears its flag, that one included, and has ended after
    the next turn, so that the destructor returns then and not before. *)
Theorem event_loop_delivers `{JsonCpp, MessageQueue} (flexUp : option Queue) (q : Queue)
    (waiting : list Message) (turns : list Turn) (sleeps : list (list Message)) (stop last : Turn) (new1 new2 : list Message) :
  open_or_create flexUp = Ret q → queue_contents q = ms_text <$> waiting →
  let all := waiting ++ concat sleeps ++ new1 in
  Forall message_ok all →
  Forall2 (turn_ok all) turns sleeps → turn_ok all stop new1 → turn_ok all last new2 →
  Forall (λ t, tn_stop t = false) turns → tn_stop stop = true →
  let '(served, rest) := fifo (sleeps ++ [new1]) waiting in
  let recorded := ms_instances <$> filter (λ m, ms_profile m = "osd") served in
  served ++ rest = all ∧
  (∃ q', recvData (turns ++ [stop; last]) flexUp new_EventLoop = Ret (q', Ret (mkEventLoop false false recorded)) ∧
     queue_contents q' = ms_text <$> (rest ++ new2)) ∧
  ∀ n, (n ≤ S (length turns))%nat →
    ∃ q', recvData (take n (turns ++ [stop; last])) flexUp new_EventLoop = Ret (q', Blocked).
Proof.
  intros Ho Hq all Hall Hok Hok1 Hok2 Hgo Hstop.
  pose proof (fifo_order (sleeps ++ [new1]) waiting) as Hord. rewrite concat_app in Hord. cbn in Hord. rewrite app_nil_r in Hord.
  destruct (fifo (sleeps ++ [new1]) waiting) as [served rest] eqn:Ef. cbn [fst snd] in Hord. split; [exact Hord|].
  unfold recvData. rewrite Ho. cbn [mbind outcome_bind]. unfold new_EventLoop.
  assert (Hsub : waiting ++ concat sleeps ⊆ all) by (unfold all; intros x; rewrite !elem_of_app; tauto).
  assert (Hst : ∀ ts, ∃ q2, recv_loop (turns ++ stop :: ts) q (mkEventLoop true true []) =
      recv_loop ts q2 (mkEventLoop false true (asked_of served)) ∧ queue_contents q2 = ms_text <$> rest).
  { intros ts. destruct (recv_loop_turns all turns sleeps waiting q [] (stop :: ts)) as (q1 & -> & Q1); [done..|].
    destruct (recv_turn all stop new1 (fifo sleeps waiting).2 q1 (asked_of (fifo sleeps waiting).1) ts) as (q2 & E2 & Q2); [done|done| |done|].
    { etrans; [|exact Hsub]. rewrite <- fifo_order. intros x. rewrite elem_of_app. tauto. }
    exists q2. rewrite fifo_last in Ef. injection Ef as <- <-. rewrite asked_of_app. cbn [app]. by rewrite E2, Hstop. }
  split.
  - destruct (Hst [last]) as (q2 & -> & Q2). exists (tn_sleep last q2).
    split; [cbn; by destruct (tn_stop last)|]. by rewrite (to_sleep all last new2), Q2, <- fmap_app.
  - intros n Hn. destruct (decide (n = S (length turns))) as [->|Hne].
    + destruct (Hst []) as (q2 & E & _). exists q2. change [stop; last] with ([stop] ++ [last]).
      rewrite app_assoc, take_app_length' by (rewrite length_app; cbn; lia). by rewrite E.
    + destruct (recv_loop_turns all (take n turns) (take n sleeps) waiting q [] []) as (q1 & E & _);
        [by apply Forall2_take|by apply Forall_take|done| |done|].
      { etrans; [|exact Hsub]. rewrite <- (take_drop n sleeps) at 2. rewrite concat_app. intros x. rewrite !elem_of_app. tauto. }
      exists q1. rewrite take_app_le by lia. rewrite app_nil_r in E. by rewrite E.
Qed.

Section Properties.
Context `{LexicalCast, Yaml, Indeterminate, HashOrder, MesosResources, JsonCpp, MessageQueue}.
Context (flags : Flags) (env : Env) (cfg : Config) (offer : Offer).

(** C7. Every OSD that is asked for runs in the end.  Let valid requests for OSDs,
    without NUL and of at most 256 bytes, be posted, in non-empty chunks of any
    sizes, on an empty queue that has room for them, in any state of a regular
    run.  Each POST is answered with [success]; the
    event loop takes the requests in the order they were posted and records
    their instances behind those pending, provided its buffer is zero where each
    message ends; and from there a run in which nothing more fails, with the
    offers of one adequate host, leads to full service: the OSDs that ran or were
    on their way run, three at least, and besides these all that were pending or
    are asked for now. *)
Theorem posted_osds_run (rs : list Request) (buffers : list string) (q : Queue) (s : System) :
  adequate flags env cfg offer → regular flags cfg s →
  Forall osd_request rs → queue_contents q = [] → (length rs ≤ max_num_msg)%nat → Forall2 terminates buffers rs →
  ∃ q1 q2 s1 s2,
    post_all rs (mkRest _ None (Some q)) = (mkRest _ None (Some q1), Ret ((λ r, post_reply (rq_body r) "[success]") <$> rs)) ∧
    queue_contents q1 = rq_body <$> rs ∧
    take_all buffers q1 (mkEventLoop true true (ag_pendingOSD (sys_agent s))) =
      (q2, Ret (mkEventLoop true true (ag_pendingOSD (sys_agent s1)))) ∧ queue_contents q2 = [] ∧
    ag_pendingOSD (sys_agent s1) = ag_pendingOSD (sys_agent s) ++ (rq_instances <$> rs) ∧
    rtc (step flags smooth) s s1 ∧ rtc (step flags smooth) s1 s2 ∧ full_service s1 s2 ∧
    promised s + total (rq_instances <$> rs) ≤ num_running OSD (ag_stateMachine (sys_agent s2)).
Proof.
  intros AD Hr Hrs Hq Hl Hb. destruct (post_all_queues rs q Hrs) as (q1 & E1 & Q1); [by rewrite Hq|].
  rewrite Hq in Q1. destruct (take_all_records buffers rs q1 (mkEventLoop true true (ag_pendingOSD (sys_agent s)))) as (q2 & E2 & Q2);
    [done..|].
  pose proof (recorded_steps flags smooth rs s Hrs) as R1. set (s1 := recorded rs s) in *.
  assert (Hr1 : regular flags cfg s1).
  { unfold regular in *. etrans; [exact Hr|]. eapply rtc_subrel; [|exact R1]. intros x y. apply smooth_regular. }
  destruct (serve flags env cfg offer AD s1 Hr1) as (s2 & R2 & F). exists q1, q2, s1, s2. split_and!; try done.
  pose proof (fs_promised _ _ F) as HP. subst s1. by rewrite recorded_promised in HP.
Qed.
End Properties.

#[local] Existing Instances DecimalCast.cast FlatYaml.yaml SomeValues.indet SomeOrder.order
  ScalarResources.resources ToyJson.json ListQueue.queue.

(** Two posts, one of them in two chunks, after the initial MON has failed. *)
Module SampleRequests.
Definition requests : list Request := [mkRequest ["os"; "d:3"] 3; mkRequest ["osd:2"] 2].
Definition zeros : string := String.string_of_list_ascii (replicate 256 Ascii.zero).
Definition empty : Queue := ([] : list string).
End SampleRequests.

Lemma posted_osds_run_witness :
  ∃ s2, rtc (step default_Flags smooth) SampleFailure.asked s2 ∧
    12 ≤ num_running OSD (ag_stateMachine (sys_agent s2)).
Proof.
  destruct (posted_osds_run default_Flags SampleRun.env sample_Config (SampleRun.offer "o" "h1" "*" 4)
    SampleRequests.requests [SampleRequests.zeros; SampleRequests.zeros] SampleRequests.empty SampleFailure.asked sample_adequate
    SampleFailure.asked_regular) as (q1 & q2 & s1 & s2 & _ & _ & _ & _ & _ & R1 & R2 & _ & HP).
  - repeat constructor; try discriminate; try (vm_compute; reflexivity); [exists ("osd", 3)|exists ("osd", 2)];
      (split_and!; [vm_compute; reflexivity..|done|done|by left]).
  - reflexivity.
  - cbn. unfold max_num_msg. lia.
  - repeat constructor; eexists; vm_compute; reflexivity.
  - exists s2. split; [etrans; [exact R1|exact R2]|]. etrans; [|exact HP]. vm_compute. discriminate.
Defined.

(** One request that an earlier scheduler left, another that comes while the
    thread sleeps, for a MON, and a third. *)
Module SampleThread.
Definition queue : Queue := (["osd:3"] : list string).
Definition m1 := mkMessage "osd:3" 3 "osd".
Definition m2 := mkMessage "mon:1" 1 "mon".
Definition m3 := mkMessage "osd:2" 2 "osd".
Definition turn (new : list Message) (stop : bool) : Turn :=
  mkTurn SampleRequests.zeros (λ q, (q : list string) ++ (ms_text <$> new)) stop.
End SampleThread.

Lemma event_loop_delivers_witness :
  (∃ q', recvData [SampleThread.turn [SampleThread.m2; SampleThread.m3] false; SampleThread.turn [] false;
        SampleThread.turn [] true; SampleThread.turn [] false] (Some SampleThread.queue) new_EventLoop =
      Ret (q', Ret (mkEventLoop false false [3; 2])) ∧ queue_contents q' = []) ∧
  ∃ q', recvData [SampleThread.turn [SampleThread.m2; SampleThread.m3] false; SampleThread.turn [] false;
        SampleThread.turn [] true] (Some SampleThread.queue) new_EventLoop = Ret (q', Blocked).
Proof.
  assert (Hb : ∀ new stop m, m ∈ [SampleThread.m1; SampleThread.m2; SampleThread.m3] →
      ∃ rest, str_drop (String.length (ms_text m)) (tn_buffer (SampleThread.turn new stop)) = String Ascii.zero rest).
  { intros new stop m Hm. eexists. assert (String.length (ms_text m) = 5%nat) as ->; [|reflexivity].
    rewrite !elem_of_cons in Hm. destruct Hm as [->|[->|[->|Hm%elem_of_nil]]]; done. }
  destruct (event_loop_delivers (Some SampleThread.queue) SampleThread.queue [SampleThread.m1]
    [SampleThread.turn [SampleThread.m2; SampleThread.m3] false; SampleThread.turn [] false] [[SampleThread.m2; SampleThread.m3]; []]
    (SampleThread.turn [] true) (SampleThread.turn [] false) [] []) as (_ & E & Hrun);
    [reflexivity|reflexivity| |repeat constructor; intros; first [by eapply Hb|reflexivity]..|repeat constructor|reflexivity|].
  - repeat constructor; try reflexivity; [exists ("osd", 3)|exists ("mon", 1)|exists ("osd", 2)];
      (split_and!; [reflexivity..|done|done|]); first [by left|by right].
  - split; [exact E|]. exact (Hrun 3%nat (le_n 3)).
Defined.
