(* ===== verification/Fairness.v ===== *)
(** * Every fair run reaches full service

    [Liveness] builds a run that serves every request; here no run is chosen.  In
    any infinite run in which nothing fails any more and nothing new is asked for,
    if a host keeps making adequate offers, every task in flight is reported on,
    ids come when OSDs wait for them and disks are prepared, then full service is
    reached, whatever else is offered and reported, in whatever order and batches,
    and it lasts.  A measure of what is left to do never grows, and falls until it
    is zero. *)

From S2P Require Import Prelude StringUtil CephTypes ConfigFile HostConfigs TaskMachine FlexUp Mesos Agent HostInvariant Cluster Liveness.
Open Scope Z_scope.

(** ** What is left to do *)

(** The reports a task has still to make. *)
Definition has_status (q : Status) (ts : TaskState) : bool := bool_decide (ts_currentStatus ts = q).
Definition work (m : gmap string TaskState) : Z :=
  3 * count_map (has_status STAGING) m + 2 * count_map (has_status WAITING_OSDID) m + count_map (has_status STARTING) m.

Definition weight (q : Status) : Z :=
  match q with STAGING => 3 | WAITING_OSDID => 2 | STARTING => 1 | _ => 0 end.

Lemma work_insert_new m k ts : m !! k = None → work (<[k := ts]> m) = work m + weight (ts_currentStatus ts).
Proof.
  intros Hk. unfold work. rewrite !count_map_insert_new by done. unfold has_status. destruct (ts_currentStatus ts); repeat case_bool_decide; cbn; done || lia.
Qed.

Lemma work_insert_update m k ts ts' : m !! k = Some ts →
  work (<[k := ts']> m) = work m - weight (ts_currentStatus ts) + weight (ts_currentStatus ts').
Proof.
  intros Hk. unfold work. rewrite !(count_map_insert_update _ _ _ _ _ Hk). unfold has_status.
  destruct (ts_currentStatus ts), (ts_currentStatus ts'); repeat case_bool_decide; cbn; done || lia.
Qed.

Lemma work_nonneg m : 0 ≤ work m.
Proof.
  unfold work. pose proof (count_map_nonneg (has_status STAGING) m).
  pose proof (count_map_nonneg (has_status WAITING_OSDID) m). pose proof (count_map_nonneg (has_status STARTING) m). lia.
Qed.

Lemma work_in_flight m k ts : m !! k = Some ts → in_flight (ts_currentStatus ts) = true → 0 < work m.
Proof.
  intros Hk Hf. rewrite <- (insert_delete_id m k ts Hk), work_insert_new by apply lookup_delete_eq.
  pose proof (work_nonneg (delete k m)). destruct (ts_currentStatus ts); cbn in *; done || lia.
Qed.

Section Fairness.
Context `{LexicalCast, Yaml, Indeterminate, HashOrder, MesosResources, JsonCpp}.
Context (flags : Flags).

Notation machine s := (ag_stateMachine (sys_agent s)).
Notation tasks s := (sm_taskMap (machine s)).
Notation pending s := (ag_pendingOSD (sys_agent s)).
Notation hosts s := (sm_hostConfigMap (machine s)).

(** The launches that are missing. *)
Definition to_launch (s : System) : Z :=
  Z.max 0 (1 - serving MON (tasks s)) + Z.max 0 (3 - serving OSD (tasks s)) + Z.max 0 (1 - serving RADOSGW (tasks s)) +
  total (pending s).

(** A task makes at most three steps from its launch to its run. *)
Definition left_to_do (s : System) : Z := 4 * to_launch s + work (tasks s).

Lemma left_to_do_ext s s' : tasks s' = tasks s → pending s' = pending s → left_to_do s' = left_to_do s.
Proof. unfold left_to_do, to_launch. by intros -> ->. Qed.

Lemma left_to_do_nonneg s : orderly_inv s → 0 ≤ left_to_do s.
Proof.
  intros Ho. pose proof (work_nonneg (tasks s)). unfold left_to_do, to_launch.
  pose proof (total_nonneg _ (ci_positive _ _ _ _ _ (si_counters _ (oi_system _ Ho)))). lia.
Qed.

(** Something was done, or the tasks and the requests are as they were. *)
Definition advanced (s s' : System) : Prop :=
  left_to_do s' < left_to_do s ∨ tasks s' = tasks s ∧ pending s' = pending s.

#[local] Instance advanced_preorder : PreOrder advanced.
Proof.
  split.
  - intros s. by right.
  - intros s1 s2 s3 [H12|[T12 P12]] [H23|[T23 P23]].
    + left. lia.
    + left. by rewrite (left_to_do_ext s2 s3).
    + left. by rewrite <- (left_to_do_ext s1 s2).
    + right. by rewrite T23, P23.
Qed.

Lemma advanced_le s s' : advanced s s' → left_to_do s' ≤ left_to_do s.
Proof. intros [Hl|[Ht Hp]]; [lia|]. by rewrite (left_to_do_ext s s'). Qed.

Lemma advanced_changed s s' : advanced s s' → tasks s' ≠ tasks s → left_to_do s' < left_to_do s.
Proof. by intros [Hl|[Ht _]]. Qed.

(** ** Steps go forward *)

(** A forward run: smooth, and a task announces once that it starts. *)
Definition forward (sm : StateMachine) (st : TaskStatus) : Prop :=
  smooth sm st ∧
  (st_state st = TASK_STARTING → ∀ ts, sm_taskMap sm !! st_task_id st = Some ts → ts_currentStatus ts = STAGING).

Definition forward_update (sm : StateMachine) (u : Update) (id : string) : Prop :=
  no_failure sm u id ∧ u ≠ ToStarting ∧
  (u = ToWaitingOSDID → ∀ ts, sm_taskMap sm !! id = Some ts → ts_currentStatus ts = STAGING).

(** The update leaves the status, or leaves less to report. *)
Definition lightens (sm : StateMachine) (u : Update) (id : string) : Prop :=
  ∀ ts, sm_taskMap sm !! id = Some ts →
    ts_currentStatus ts = update_status u ∨ weight (update_status u) < weight (ts_currentStatus ts).

Lemma forward_lightens sm u id : forward_update sm u id → lightens sm u id.
Proof.
  intros ((Ha & Hf) & Hs & Hw) ts E. specialize (Ha _ E). destruct u; [| |done..].
  - destruct (ts_currentStatus ts); cbn in *; auto; done || (right; lia).
  - rewrite (Hw eq_refl ts E). right. cbn. lia.
Qed.

Lemma starting_lightens sm id : waiting_or_starting id sm → lightens sm ToStarting id.
Proof. intros Hw ts E. destruct (Hw ts E) as [-> | ->]; [right; cbn; lia|by left]. Qed.

Lemma update_lightens u k sm :
  u ≠ ToFailed → lightens sm u k → let m := sm_taskMap (updateTaskTo u k sm) in
  m = sm_taskMap sm ∨ work m < work (sm_taskMap sm) ∧ ∀ t, serving t (sm_taskMap sm) ≤ serving t m.
Proof.
  intros Hf Hl m. subst m. destruct (sm_taskMap sm !! k) as [ts|] eqn:E; [|left; by rewrite updateTaskTo_unknown].
  pose proof (λ t, serving_update t u k sm Hf) as Hsv. destruct (updateTaskTo_known u k ts sm E) as [Em _]. rewrite Em in *.
  rewrite (work_insert_update _ _ _ _ E). destruct (Hl ts E) as [Hq|Hq]; [left|right; split; [cbn; lia|done]].
  rewrite <- Hq. rewrite insert_id; [done|]. by destruct ts.
Qed.

Lemma advanced_update s s' u k cs r o p :
  u ≠ ToFailed → lightens (machine s) u k →
  moves_to s s' (updateTaskTo u k (machine s)) (pending s) cs r o p → advanced s s'.
Proof.
  intros Hf Hl (Ec & Ep & _). destruct (update_lightens u k (machine s) Hf Hl) as [Hm|[Hw Hs]]; [right|left].
  - by rewrite (core_tasks _ _ Ec).
  - unfold left_to_do, to_launch. rewrite Ep, (core_tasks _ _ Ec).
    pose proof (Hs MON). pose proof (Hs OSD). pose proof (Hs RADOSGW). lia.
Qed.

(** There is room for what is launched: a missing task, or one asked for. *)
Lemma launch_room t s : orderly_inv s → may_launch t (machine s) →
  if decide (sm_currentPhase (machine s) = WAINTING_REQUEST) then t = OSD ∧ 3 ≤ serving OSD (tasks s)
  else serving t (tasks s) < if decide (t = OSD) then 3 else 1.
Proof.
  intros Ho HM. pose proof HM as (M1 & M2 & M3 & M4). destruct (oi_accounted _ Ho t) as [Hr Hf].
  case_decide as Hw.
  - specialize (M4 Hw). subst t. split; [done|]. pose proof (launch_serving s Ho HM) as Hl. by rewrite decide_True in Hl.
  - unfold serving. change (count_map (running_task t) (tasks s)) with (num_running t (machine s)).
    change (count_map (in_flight_task t) (tasks s)) with (num_in_flight t (machine s)). rewrite <- Hr, <- Hf. destruct t.
    + specialize (M1 eq_refl). unfold slots in M1. rewrite decide_False by done. lia.
    + destruct (M2 eq_refl) as [|Hs]; [done|]. unfold slots in Hs. rewrite decide_True by done. lia.
    + destruct (M3 eq_refl) as [Hph Hst]. pose proof (si_coherent _ (oi_system _ Ho)) as Hc. unfold coherent, phase_of in Hc.
      rewrite Hph in Hc. rewrite decide_False by done.
      repeat match type of Hc with context [?x <? ?y] => destruct (Z.ltb_spec x y); [done || lia|] end. done.
Qed.

Lemma advanced_launch s s' t task eid h sl p cs r o n :
  orderly_inv s → may_launch t (machine s) → ti_task_id task = task_id t (index (counters t (machine s))) h sl →
  (if decide (sm_currentPhase (machine s) = WAINTING_REQUEST) then pending s ≠ [] ∧ p = consume_one (pending s)
   else p = pending s) →
  moves_to s s' (addStagingTask (ti_task_id task) eid t h sl (on_counters t (add_index 1) (machine s))) p cs r o n →
  left_to_do s' < left_to_do s.
Proof.
  intros Ho HM Hid Hp (Ec & Ep & _). pose proof (launch_room t s Ho HM) as Hroom.
  unfold left_to_do, to_launch. rewrite Ep, (core_tasks _ _ Ec), tasks_addStagingTask.
  replace (sm_taskMap (on_counters t (add_index 1) (machine s))) with (tasks s) by (by destruct t).
  assert (Hfr : tasks s !! ti_task_id task = None) by (rewrite Hid; apply fresh_id, Ho).
  rewrite work_insert_new, !serving_insert by done. cbn [ts_currentStatus weight].
  pose proof (ci_positive _ _ _ _ _ (si_counters _ (oi_system _ Ho))) as Hpos.
  destruct (decide (sm_currentPhase (machine s) = WAINTING_REQUEST)) as [Hw|Hw].
  - destruct Hp as [Hne ->], Hroom as [-> Hroom], (consume_one_positive _ Hpos Hne) as [-> _].
    repeat case_bool_decide; cbn [Z.b2z]; done || lia.
  - subst p. destruct t; repeat case_bool_decide; repeat case_decide; cbn [Z.b2z]; done || lia.
Qed.

Lemma move_advanced s s' : orderly_inv s → move forward_update s s' →
  sys_requested s ≤ sys_requested s' ∧ (sys_requested s' = sys_requested s → advanced s s').
Proof.
  intros Ho [l cs n r _ _ _ Hm|t cs _ Hm|t task eid h sl p cs sm HM Hid Hp _ Hm|id Hw Hm|u id Hok Hm|n Hn Hm].
  - split; [destruct Hm as (_ & _ & _ & -> & _); lia|]. intros _. right. destruct Hm as (Ec & Ep & _).
    by rewrite (core_tasks _ _ Ec).
  - split; [destruct Hm as (_ & _ & _ & -> & _); lia|]. intros _. right. destruct Hm as (Ec & Ep & _).
    rewrite (core_tasks _ _ Ec). by destruct t.
  - split; [destruct Hm as (_ & _ & _ & -> & _); lia|]. intros _. left. by eapply advanced_launch.
  - split; [destruct Hm as (_ & _ & _ & -> & _); lia|]. intros _.
    eapply (advanced_update s s' ToStarting id); [done|by apply starting_lightens|exact Hm].
  - split; [destruct Hm as (_ & _ & _ & -> & _); lia|]. intros _.
    eapply (advanced_update s s' u id); [apply Hok|by apply forward_lightens|exact Hm].
  - destruct Hm as (_ & _ & _ & -> & _). split; lia.
Qed.

Lemma moves_advanced s s' : orderly_inv s → rtc (move forward_update) s s' →
  orderly_inv s' ∧ sys_requested s ≤ sys_requested s' ∧ (sys_requested s' = sys_requested s → advanced s s').
Proof.
  intros Ho Hm. revert Ho. induction Hm as [s|s1 s2 s3 Hm _ IH]; intros Ho; [done|].
  destruct (move_advanced _ _ Ho Hm) as [Hr1 Ha1].
  destruct IH as (Ho3 & Hr2 & Ha2); [eapply move_orderly_inv, Ho; eapply move_weaken, Hm; by intros sm u id [[]]|].
  split; [done|]. split; [lia|]. intros E. etrans; [apply Ha1|apply Ha2]; lia.
Qed.

Lemma step_moves_forward s s' : orderly_inv s → step flags forward s s' → rtc (move forward_update) s s'.
Proof.
  intros Ho. apply (step_moves flags forward); [|by apply orderly_keyed].
  intros sm st u [[[Ha _] Hn] Hw] Hu. split_and!; [split| |].
  - intros ts. by apply (Ha u).
  - intros ->. revert Hu Hn. unfold report_update. by destruct (st_state st).
  - intros ->. revert Hu. unfold report_update. by destruct (st_state st).
  - intros -> ts. apply Hw. revert Hu. unfold report_update. by destruct (st_state st).
Qed.

(** ** Hosts get ready, and stay so *)

Section Hosts.
Context (h : string).

Lemma idle_handle_offer env ph l o : keeps (hosts_inv (idle_at h)) (handle_offer flags env ph l o).
Proof.
  apply hosts_handle_offer_with; [by intros; apply host_has_add| |intros; apply idle_launch].
  destruct (decide (of_hostname o = h)) as [->|Hne]; [|by apply hosts_tryLaunchDiskTask_at; intros M; apply host_has_other].
  intros a Ha. destruct (idle_prepared h a Ha) as [Hp _]. by rewrite (tryLaunchDiskTask_prepared env o h a Hp).
Qed.

Lemma idle_resourceOffers env offers : keeps (hosts_inv (idle_at h)) (resourceOffers flags env offers).
Proof. apply hosts_resourceOffers_with. intros. apply idle_handle_offer. Qed.

Lemma idle_done : host_op_ok (idle_at h) setDiskPreparationDone.
Proof. apply host_has_op. by intros hc (Ho & Hj & Hf). Qed.
Lemma idle_update devs : host_op_ok (idle_at h) (λ hc, updateDiskPartition devs (getJnlPartitionCount hc) hc).
Proof. apply host_has_op. intros hc (Ho & Hj & Hf). by rewrite updateDiskPartition_eq. Qed.

Lemma step_idle ok s s' : step flags ok s s' → idle_at h (hosts s) → idle_at h (hosts s').
Proof.
  intros [env offers a' E|status a' Hok E|e d a' E|data n p l Hacc E] Hi; cbn.
  - by apply (keeps_Ret _ _ _ _ _ (idle_resourceOffers env offers) Hi E).
  - by apply (keeps_Ret _ _ _ _ _ (hosts_statusUpdate _ idle_done idle_update status) Hi E).
  - by apply (keeps_Ret _ _ _ _ _ (hosts_frameworkMessage _ e d) Hi E).
  - done.
Qed.

Lemma step_known ok s s' : step flags ok s s' → is_Some (hosts s !! h) → is_Some (hosts s' !! h).
Proof.
  pose (J := λ M : gmap string HostConfig, is_Some (M !! h)).
  assert (Hop : ∀ f, host_op_ok J f) by (intros f h' M HM; unfold J; by rewrite lookup_alter_is_Some).
  intros [env offers a' E|status a' Hok E|e d a' E|data n p l Hacc E] Hi; cbn.
  - eapply (keeps_Ret (hosts_inv J)); [|exact Hi|exact E]. apply hosts_resourceOffers; [apply Hop..|].
    intros h' hc M _ _ HM. unfold J. rewrite lookup_insert. by case_decide.
  - eapply (keeps_Ret (hosts_inv J)); [|exact Hi|exact E]. apply hosts_statusUpdate; intros; apply Hop.
  - eapply (keeps_Ret (hosts_inv J)); [|exact Hi|exact E]. apply hosts_frameworkMessage.
  - done.
Qed.

(** A host whose disks are being prepared, or need no preparation. *)
Definition ready_config (hc : HostConfig) : Prop := hc_isPreparingDiskFlag hc = true ∨ idle_config hc.

Lemma ready_pops : pops_keep ready_config.
Proof.
  intros hc [Hf|Hi]; [|by destruct (idle_pops hc Hi); split; right].
  split; left; unfold popOSDPartition, popJournalPartition; by case_match.
Qed.

Lemma ready_handle_offer env ph l o : keeps (hosts_inv (host_has ready_config h)) (handle_offer flags env ph l o).
Proof.
  apply hosts_handle_offer_with; [by intros; apply host_has_add| |intros; apply host_has_launch, ready_pops].
  apply hosts_tryLaunchDiskTask. apply host_has_op. by left.
Qed.
End Hosts.

Section Adequate.
Context (env : Env) (cfg : Config) (o : Offer) (AD : adequate flags env cfg o).

(** After an adequate offer the host is ready, or on its way. *)
Lemma offer_readies ph l a a' l' :
  ag_config a = cfg → handle_offer flags env ph l o a = (a', Ret l') →
  host_has ready_config (of_hostname o) (sm_hostConfigMap (ag_stateMachine a')).
Proof using AD.
  intros Hcfg E. set (h := of_hostname o). destruct (ad_config _ _ _ _ AD) as [hc0 Ehc]. fold h in Ehc.
  assert (Hrole : hasRole o (cfg_role (ag_config a)) = true) by (rewrite Hcfg; apply AD).
  destruct (addConfig_returns flags env h (ag_stateMachine a)) as [sm Esm]; [by eexists|].
  set (a1 := set_stateMachine (λ _, sm) a).
  assert (Ea : sm_try (addConfig flags (env_files env) h) a = (a1, Ret tt)) by (unfold sm_try; by rewrite Esm).
  assert (Hk : is_Some (sm_hostConfigMap sm !! h)).
  { unfold addConfig in Esm. destruct (sm_hostConfigMap (ag_stateMachine a) !! h) as [hc'|] eqn:Eh.
    - injection Esm as <-. by eexists.
    - rewrite Ehc in Esm. injection Esm as <-. cbn. rewrite lookup_insert_eq. by eexists. }
  destruct Hk as [hc Ek].
  pose proof E as E'. unfold handle_offer in E'. rewrite (bind_eq _ _ a a (ag_config a)) in E' by done.
  rewrite Hrole in E'. cbn [negb] in E'. rewrite (bind_eq _ _ _ _ _ Ea) in E'.
  apply bind_Ret in E' as (a2 & [] & Et & _). fold h in Et.
  apply (hosts_after_disks flags env _ ph l o a a1 a2 a' l' Hrole Ea Et); [|intros; apply host_has_launch, ready_pops|exact E].
  assert (Er : getConfig h (ag_stateMachine a1) = InMap h) by (unfold getConfig; cbn; by rewrite Ek).
  assert (Ed : deref (InMap h) (ag_stateMachine a1) = hc) by (cbn; by rewrite Ek).
  unfold hosts_inv. destruct (hc_isPreparingDiskFlag hc) eqn:Ef; [|destruct (decide (hc_pendingOSDDevs hc ++ hc_pendingJNLDevs hc = [])) as [Hd|Hd]].
  - assert (a2 = a1) as ->; [|by exists hc; split; [|left]].
    revert Et. unfold tryLaunchDiskTask. rewrite (bind_eq _ _ a1 a1 (InMap h)) by (unfold sm_get, gets; by rewrite Er).
    rewrite (bind_eq _ _ a1 a1 hc) by (unfold sm_get, gets; by rewrite Ed). unfold isPreparingDisk. rewrite Ef. by intros [= <-].
  - apply app_eq_nil in Hd as [Ho Hj].
    assert (Hi : idle_at h (sm_hostConfigMap (ag_stateMachine a1))) by (exists hc; by split).
    destruct (idle_prepared h a1 Hi) as [Hp _]. pose proof (tryLaunchDiskTask_prepared env o h a1 Hp) as Et2.
    rewrite Et2 in Et. injection Et as <-. destruct Hi as (hc' & E1 & E2). exists hc'. split; [done|by right].
  - destruct (tryLaunchDiskTask_launches flags env cfg o AD a1 a2) as (task & _ & _ & Em & _); [done| | |exact Et|].
    + fold h. by rewrite Er, Ed.
    + fold h. by rewrite Er, Ed.
    + fold h in Em. rewrite Er in Em. rewrite Em. cbn. exists (setDiskPreparationOnGoing hc).
      rewrite lookup_alter_eq. rewrite Ek. split; [done|by left].
Qed.

Lemma offers_config offers ph l a a' l' :
  foreach offers (handle_offer flags env ph) l a = (a', Ret l') → ag_config a' = ag_config a.
Proof using.
  intros E. apply (foreach_Ret (λ _ b, ag_config b = ag_config a)) in E; [done| |done].
  intros x l1 a1 l2 a2 _ Hc Hx%handle_offer_Ret%offer_case_config. congruence.
Qed.

(** The iterations of a batch around one of its offers. *)
Lemma batch_split offers ph l a a' l' :
  o ∈ offers → foreach offers (handle_offer flags env ph) l a = (a', Ret l') →
  ∃ before after a1 l1 a2 l2, offers = before ++ o :: after ∧
    foreach before (handle_offer flags env ph) l a = (a1, Ret l1) ∧
    handle_offer flags env ph l1 o a1 = (a2, Ret l2) ∧ foreach after (handle_offer flags env ph) l2 a2 = (a', Ret l').
Proof using.
  intros (before & after & ->)%list_elem_of_split E. rewrite foreach_app in E.
  apply bind_Ret in E as (a1 & l1 & E1 & E). cbn [foreach] in E. apply bind_Ret in E as (a2 & l2 & E2 & E3).
  by exists before, after, a1, l1, a2, l2.
Qed.

Lemma batch_readies offers a a' :
  ag_config a = cfg → o ∈ offers → resourceOffers flags env offers a = (a', Ret tt) →
  host_has ready_config (of_hostname o) (sm_hostConfigMap (ag_stateMachine a')).
Proof using AD.
  intros Hcfg Ho [l E]%resourceOffers_Ret.
  destruct (batch_split _ _ _ _ _ _ Ho E) as (before & after & a1 & l1 & a2 & l2 & _ & E1 & E2 & E3).
  apply offers_config in E1 as Hc1. change (ag_config (assigned _ a)) with (ag_config a) in Hc1.
  pose proof (offer_readies _ _ _ _ _ (eq_trans Hc1 Hcfg) E2) as Hr.
  refine (keeps_Ret (hosts_inv (host_has ready_config (of_hostname o))) _ _ _ _ _ Hr E3).
  apply keeps_foreach, Forall_true. intros x acc. apply ready_handle_offer.
Qed.
End Adequate.

(** ** What makes a run advance *)

Lemma phase_tasks s s' :
  orderly_inv s → orderly_inv s' → tasks s' = tasks s → getCurrentPhase (machine s') = getCurrentPhase (machine s).
Proof.
  intros Ho Ho' Et. unfold getCurrentPhase. rewrite (si_coherent _ (oi_system _ Ho')), (si_coherent _ (oi_system _ Ho)).
  apply phase_of_ext. intros t. destruct (oi_accounted _ Ho' t) as [-> _], (oi_accounted _ Ho t) as [-> _].
  unfold num_running. by rewrite Et.
Qed.

(** A part of a batch of offers. *)
Definition after_offers (s : System) (offers : list Offer) (a' : Agent) : System :=
  mkSystem _ a' (sys_requested s) (sys_offers s + Z.of_nat (length offers)) (sys_reports s).

Lemma foreach_advanced env s offers ph l a' l' :
  orderly_inv s → ph = getCurrentPhase (machine s) →
  foreach offers (handle_offer flags env ph) l (sys_agent s) = (a', Ret l') →
  orderly_inv (after_offers s offers a') ∧ advanced s (after_offers s offers a').
Proof.
  destruct s as [a r o p]. cbn. intros Ho -> E.
  destruct (moves_advanced _ _ Ho (offers_moves flags forward_update env offers l a a' l' r o p E)) as (Ho' & _ & Ha). auto.
Qed.

(** An offer from an idle host that is launched on, in the middle of a batch. *)
Lemma offer_progress env cfg o s l a' l' :
  adequate flags env cfg o → ag_config (sys_agent s) = cfg → orderly_inv s → idle_at (of_hostname o) (hosts s) →
  (∀ k, settled k s) → (getCurrentPhase (machine s) = WAINTING_REQUEST → pending s ≠ []) →
  handle_offer flags env (getCurrentPhase (machine s)) l o (sys_agent s) = (a', Ret l') →
  sm_taskMap (ag_stateMachine a') ≠ tasks s.
Proof.
  intros AD Hcfg Ho Hi Hs Hph E. destruct (ad_size _ _ _ _ AD) as (needed & flat & Ep & Ef & Ec).
  destruct (idle_prepared _ _ Hi) as [Hh _].
  destruct (nextMove_settled o (l_taskType l) (l_token l) s Ho Hi Hs) as (t & k & Hm & _ & _).
  pose proof (ad_role _ _ _ _ AD) as Hr. rewrite <- Hcfg in Hr.
  destruct (handle_offer_prepared flags env (getCurrentPhase (machine s)) l o _ t k Hr Hh Hm) as (_ & Hk & _).
  rewrite Hcfg in Hr.
  destruct (handle_offer_launched flags env cfg (ad_env _ _ _ _ AD) (getCurrentPhase (machine s)) l o _ t k needed flat
    Hcfg Hr Hh Hm Ep Ef Ec Hph) as (a2 & task & E2 & Ht & _ & He).
  rewrite E in E2. injection E2 as <- _. rewrite (launched_tasks _ _ _ _ _ _ _ _ _ He). intros Em.
  pose proof (fresh_id s t (of_hostname o) (of_slave_id o) (oi_system _ Ho)) as Hf.
  rewrite <- Hk, <- (ct_id _ _ _ _ _ Ht), <- Em, lookup_insert_eq in Hf. done.
Qed.

(** A batch with an adequate offer from an idle host, when all is settled. *)
Lemma batch_progress env cfg o s offers a' :
  adequate flags env cfg o → ag_config (sys_agent s) = cfg → orderly_inv s → idle_at (of_hostname o) (hosts s) →
  (∀ k, settled k s) → (getCurrentPhase (machine s) = WAINTING_REQUEST → pending s ≠ []) → o ∈ offers →
  resourceOffers flags env offers (sys_agent s) = (a', Ret tt) → left_to_do (after_offers s offers a') < left_to_do s.
Proof.
  intros AD Hcfg Ho Hi Hs Hph Hin E.
  assert (Ew : getWaitingOSDTask (machine s) = []).
  { apply elem_of_nil_inv. intros ts (Hw & k & Hk)%elem_of_waiting. unfold is_waiting_osd in Hw.
    apply andb_true_iff in Hw as [_ Hq%bool_decide_eq_true]. specialize (Hs k ts Hk). by rewrite Hq in Hs. }
  assert (El : ∃ l', foreach offers (handle_offer flags env (getCurrentPhase (machine s))) (mkLocals indet_TaskType indet_int 0)
                      (sys_agent s) = (a', Ret l')).
  { revert E. unfold resourceOffers. rewrite (bind_eq _ _ (sys_agent s) (sys_agent s) tt).
    2: { unfold handleWaitingOSDTasks. by rewrite (bind_eq _ _ (sys_agent s) (sys_agent s) []) by (unfold sm_get, gets; by rewrite Ew). }
    rewrite (bind_eq _ _ (sys_agent s) (sys_agent s) (getCurrentPhase (machine s))) by done.
    intros (a2 & l' & E & E2)%bind_Ret. apply mret_Ret in E2 as [-> _]. by exists l'. }
  destruct El as [l' El].
  destruct (batch_split env o _ _ _ _ _ _ Hin El) as (before & after & a1 & l1 & a2 & l2 & -> & E1 & E2 & E3).
  set (s1 := after_offers s before a1). set (s2 := after_offers s1 [o] a2).
  destruct (foreach_advanced env s before _ _ _ _ Ho eq_refl E1) as [Ho1 A1]. fold s1 in Ho1, A1.
  assert (E2' : foreach [o] (handle_offer flags env (getCurrentPhase (machine s))) l1 (sys_agent s1) = (a2, Ret l2)).
  { cbn [foreach]. by rewrite (bind_eq _ _ _ _ _ E2). }
  assert (Hph1 : getCurrentPhase (machine s) = getCurrentPhase (machine s1)).
  { clear -E1 Ho. revert E1. generalize (mkLocals indet_TaskType indet_int 0). unfold getCurrentPhase. intros l E1.
    apply (foreach_Ret (λ _ b, sm_currentPhase (machine s) = sm_currentPhase (ag_stateMachine b))) in E1; [done| |done].
    intros x l3 a3 l4 a4 _ Hc Hx%handle_offer_Ret%offer_case_phase. congruence. }
  destruct (foreach_advanced env s1 [o] _ _ _ _ Ho1 Hph1 E2') as [Ho2 A2]. fold s2 in Ho2, A2.
  assert (Hph2 : getCurrentPhase (machine s) = getCurrentPhase (machine s2)).
  { rewrite Hph1. apply handle_offer_Ret, offer_case_phase in E2. unfold getCurrentPhase. by symmetry. }
  destruct (foreach_advanced env s2 after _ _ _ _ Ho2 Hph2 E3) as [_ A3].
  replace (left_to_do (after_offers s (before ++ o :: after) a')) with (left_to_do (after_offers s2 after a')) by done.
  apply advanced_le in A3. destruct A1 as [A1|[T1 P1]]; [apply advanced_le in A2; lia|].
  rewrite <- (left_to_do_ext s s1) by done. enough (left_to_do s2 < left_to_do s1) by lia.
  apply (advanced_changed _ _ A2). rewrite Hph1 in E2.
  apply (offer_progress env cfg o s1 l1 a2 l2 AD); [by rewrite <- Hcfg; eapply offers_config|done| | | |exact E2].
  - refine (keeps_Ret (hosts_inv (idle_at (of_hostname o))) _ _ _ _ _ Hi E1).
    apply keeps_foreach, Forall_true. intros x acc. apply idle_handle_offer.
  - intros k ts. rewrite T1. apply Hs.
  - rewrite <- Hph1, P1. exact Hph.
Qed.

(** A batch, whatever it offers, when an OSD waits and an id is there for it. *)
Lemma waiting_progress env s offers a' k ts :
  orderly_inv s → osd_waits (machine s) → tasks s !! k = Some ts → ts_currentStatus ts = WAITING_OSDID →
  sm_pendingOSDID (machine s) ≠ [] →
  resourceOffers flags env offers (sys_agent s) = (a', Ret tt) → left_to_do (after_offers s offers a') < left_to_do s.
Proof.
  intros Ho Hw Hk Hq Hids [l E]%resourceOffers_Ret. set (ws := getWaitingOSDTask (machine s)) in *.
  set (s1 := after_offers s [] (assigned ws (sys_agent s))).
  assert (Hm : rtc (move forward_update) s s1).
  { pose proof (assigned_moves forward_update (sys_agent s) (sys_requested s) (sys_offers s) (sys_reports s) (orderly_keyed _ Ho)) as Hm.
    unfold s1, after_offers. cbn [length Z.of_nat]. rewrite Z.add_0_r. by destruct s. }
  destruct (moves_advanced _ _ Ho Hm) as (Ho1 & _ & A1). specialize (A1 eq_refl).
  destruct (foreach_advanced env s1 offers _ _ _ _ Ho1 eq_refl E) as [_ A2]. apply advanced_le in A2.
  replace (left_to_do (after_offers s offers a')) with (left_to_do (after_offers s1 offers a')) by done.
  enough (left_to_do s1 < left_to_do s) by lia. apply (advanced_changed _ _ A1). intros Em.
  assert (Hne : ws ≠ []).
  { intros Hn. assert (Hin : ts ∈ ws); [|by rewrite Hn in Hin; apply not_elem_of_nil in Hin].
    apply elem_of_waiting. split; [|by exists k]. unfold is_waiting_osd. by rewrite !bool_decide_true by (done || by apply (Hw k)). }
  destruct ws as [|t ws'] eqn:Ews; [done|]. destruct (sm_pendingOSDID (machine s)) as [|z ids] eqn:Eids; [done|].
  assert (Ht : t ∈ ws) by (rewrite Ews; by left). apply elem_of_waiting in Ht as (Hwt & k' & Hk').
  pose proof (lookup_starting_all (take (length (z :: ids)) (t :: ws')) (machine s) (ts_taskId t)) as El.
  assert (Es1 : tasks s1 = sm_taskMap (starting_all (take (length (z :: ids)) (t :: ws')) (machine s)))
    by (subst s1; unfold after_offers, assigned; cbn -[take starting_all]; by rewrite Eids).
  rewrite <- Es1, Em, (orderly_keyed _ Ho _ _ Hk'), Hk', decide_True in El
    by (cbn [length take fmap list_fmap]; rewrite (orderly_keyed _ Ho _ _ Hk'); by left).
  injection El as El.
  unfold is_waiting_osd in Hwt. apply andb_true_iff in Hwt as [_ Hqt%bool_decide_eq_true]. rewrite El in Hqt. done.
Qed.

(** A report on a task that is STAGING or STARTING. *)
Lemma report_changes s st a' ts :
  forward (machine s) st → tasks s !! st_task_id st = Some ts →
  ts_currentStatus ts = STAGING ∨ ts_currentStatus ts = STARTING → is_Some (report_update (st_state st)) →
  statusUpdate st (sys_agent s) = (a', Ret tt) → sm_taskMap (ag_stateMachine a') ≠ tasks s.
Proof.
  intros [[[Ha _] Hf] Hst] Hk Hq [u Hu] E Em.
  apply statusUpdate_Ret in E as [(Hn & _)|(u' & Hu' & Q)]; [congruence|]. rewrite Hu in Hu'. injection Hu' as <-.
  pose proof (core_tasks _ _ (quiet_core _ _ _ Q)) as Ec. cbn in Ec. rewrite Em in Ec.
  destruct (updateTaskTo_known u _ ts _ Hk) as [Eu _]. rewrite <- Ec in Eu. rewrite Eu, lookup_insert_eq in Hk.
  injection Hk as Hk. rewrite <- Hk in Hq. cbn in Hq. unfold report_update in Hu.
  destruct (st_state st); try done; injection Hu as <-; cbn in Hq; by destruct Hq.
Qed.

(** ** When nothing is left to do *)

Lemma nothing_left s : orderly_inv s → left_to_do s = 0 →
  (∀ k, settled k s) ∧ getCurrentPhase (machine s) = WAINTING_REQUEST ∧ pending s = [].
Proof.
  intros Ho E. pose proof (ci_positive _ _ _ _ _ (si_counters _ (oi_system _ Ho))) as Hpos.
  pose proof (work_nonneg (tasks s)) as Hw. pose proof (total_nonneg _ Hpos) as Ht. unfold left_to_do, to_launch in E.
  assert (Hs : ∀ k, settled k s).
  { intros k ts Hk. destruct (in_flight (ts_currentStatus ts)) eqn:Hf; [|done]. pose proof (work_in_flight _ _ _ Hk Hf). lia. }
  split; [done|]. split.
  - unfold getCurrentPhase. rewrite (si_coherent _ (oi_system _ Ho)). unfold phase_of.
    assert (Hr : ∀ t, runningNum (counters t (machine s)) = serving t (tasks s)).
    { intros t. destruct (oi_accounted _ Ho t) as [-> _]. unfold serving, num_running.
      rewrite (count_map_zero (in_flight_task t)); [lia|]. intros k ts Hk. unfold in_flight_task. by rewrite (Hs k ts Hk), andb_false_r. }
    rewrite !Hr. repeat match goal with |- context [?x <? ?y] => destruct (Z.ltb_spec x y); [lia|] end. done.
  - destruct (sum_positive _ Hpos) as [[? _]|[_ Hp]]; [done|]. unfold total in E. lia.
Qed.

Lemma nothing_left_iff s : orderly_inv s → (∀ k, settled k s) → getCurrentPhase (machine s) = WAINTING_REQUEST →
  pending s = [] → left_to_do s = 0.
Proof.
  intros Ho Hs Hph Hp. pose proof (si_coherent _ (oi_system _ Ho)) as Hc. unfold getCurrentPhase in Hph.
  unfold coherent, phase_of in Hc. rewrite Hph in Hc.
  assert (Hr : ∀ t, runningNum (counters t (machine s)) ≤ serving t (tasks s)).
  { intros t. destruct (oi_accounted _ Ho t) as [-> _]. unfold serving, num_running.
    pose proof (count_map_nonneg (in_flight_task t) (tasks s)). lia. }
  pose proof (Hr MON). pose proof (Hr OSD). pose proof (Hr RADOSGW).
  repeat match type of Hc with context [?x <? ?y] => destruct (Z.ltb_spec x y); [done|] end.
  unfold left_to_do, to_launch, work. rewrite Hp. cbn [total foldr].
  rewrite !count_map_zero; [lia|..]; intros k ts Hk; specialize (Hs k ts Hk); unfold has_status;
    apply bool_decide_eq_false; intros Hq; by rewrite Hq in Hs.
Qed.

(** ** Fair runs *)

Section Runs.
Context (env : Env) (cfg : Config) (h : string).

(** The handlers at a step of a run. *)
Definition offered (σ : nat → System) (i : nat) (offers : list Offer) : Prop :=
  resourceOffers flags env offers (sys_agent (σ i)) = (sys_agent (σ (S i)), Ret tt).
Definition told (σ : nat → System) (i : nat) (st : TaskStatus) : Prop :=
  statusUpdate st (sys_agent (σ i)) = (sys_agent (σ (S i)), Ret tt).

(** From a state of a regular run on, nothing fails and nothing is asked for. *)
Record untroubled_run (σ : nat → System) : Prop := {
  fr_start : regular flags cfg (σ 0%nat);
  fr_step i : step flags forward (σ i) (σ (S i));
  fr_requests i : sys_requested (σ (S i)) = sys_requested (σ i);
}.

(** Offers of adequate size keep coming from the host [h], in batches with any
    others; its disk tasks and the tasks in flight report; and an OSD does not
    wait for ever without an id. *)
Record fair_run (σ : nat → System) : Prop := {
  fr_run : untroubled_run σ;
  fr_offers i : ∃ j o offers, (i ≤ j)%nat ∧ adequate flags env cfg o ∧ of_hostname o = h ∧ o ∈ offers ∧ offered σ j offers;
  fr_disks i : host_has (λ hc, hc_isPreparingDiskFlag hc = true) h (hosts (σ i)) →
    ∃ j id f, (i ≤ j)%nat ∧ clean_name f = true ∧ f ≠ "" ∧ told σ j (mkTaskStatus id TASK_FINISHED (Some (disk_ready h f)));
  fr_reports i k ts : tasks (σ i) !! k = Some ts → ts_currentStatus ts = STAGING ∨ ts_currentStatus ts = STARTING →
    ∃ j st, (i ≤ j)%nat ∧ st_task_id st = k ∧ is_Some (report_update (st_state st)) ∧ forward (machine (σ j)) st ∧ told σ j st;
  fr_ids i k ts : tasks (σ i) !! k = Some ts → ts_currentStatus ts = WAITING_OSDID →
    ∃ j, (i ≤ j)%nat ∧ sm_pendingOSDID (machine (σ j)) ≠ [];
}.

Context (σ : nat → System).

Section Untroubled.
Context (UR : untroubled_run σ).

Lemma run_regular i : regular flags cfg (σ i).
Proof using UR.
  induction i as [|i IH]; [apply (fr_start _ UR)|]. eapply rtc_r; [exact IH|].
  eapply step_weaken; [|apply (fr_step _ UR)]. by intros sm st [[]].
Qed.

Lemma run_orderly i : orderly_inv (σ i) ∧ osd_waits (machine (σ i)).
Proof using UR. apply (regular_orderly_inv flags cfg), run_regular. Qed.

Lemma run_smooth i j : (i ≤ j)%nat → rtc (step flags smooth) (σ i) (σ j).
Proof using UR.
  induction 1 as [|j _ IH]; [done|]. eapply rtc_r; [exact IH|]. eapply step_weaken; [|apply (fr_step _ UR)]. by intros sm st [].
Qed.

Lemma run_advanced_step i : advanced (σ i) (σ (S i)).
Proof using UR.
  destruct (run_orderly i) as [Ho _].
  destruct (moves_advanced _ _ Ho (step_moves_forward _ _ Ho (fr_step _ UR i))) as (_ & _ & Ha). apply Ha, (fr_requests _ UR).
Qed.

Lemma run_advanced i j : (i ≤ j)%nat → advanced (σ i) (σ j).
Proof using UR. induction 1 as [|j _ IH]; [done|]. etrans; [exact IH|apply run_advanced_step]. Qed.

Lemma run_idle n i : (n ≤ i)%nat → idle_at h (hosts (σ n)) → idle_at h (hosts (σ i)).
Proof using UR. induction 1 as [|i _ IH]; [done|]. intros Hi. eapply step_idle; [apply (fr_step _ UR)|auto]. Qed.

Lemma run_known n i : (n ≤ i)%nat → is_Some (hosts (σ n) !! h) → is_Some (hosts (σ i) !! h).
Proof using UR. induction 1 as [|i _ IH]; [done|]. intros Hi. eapply step_known; [apply (fr_step _ UR)|auto]. Qed.

Lemma run_nothing_left n i : (n ≤ i)%nat → left_to_do (σ n) = 0 → left_to_do (σ i) = 0.
Proof using UR.
  intros Hi Hn. pose proof (advanced_le _ _ (run_advanced n i Hi)).
  pose proof (left_to_do_nonneg _ (proj1 (run_orderly i))). lia.
Qed.
End Untroubled.

Context (FR : fair_run σ).

Definition falls (i : nat) : Prop := ∃ j, (i ≤ j)%nat ∧ left_to_do (σ j) < left_to_do (σ i).

(** To fall from [i], it is enough to fall from a later state with the same tasks. *)
Lemma falls_later i j : (i ≤ j)%nat → (tasks (σ j) = tasks (σ i) → pending (σ j) = pending (σ i) → falls j) → falls i.
Proof using FR.
  intros Hij Hf. destruct (run_advanced (fr_run _ FR) i j Hij) as [Hl|[Ht Hp]]; [by exists j|].
  destruct (Hf Ht Hp) as (m & Hm & Hl). exists m. rewrite (left_to_do_ext (σ i) (σ j)) in Hl by done. split; [lia|done].
Qed.

Lemma falls_reported i k ts :
  tasks (σ i) !! k = Some ts → ts_currentStatus ts = STAGING ∨ ts_currentStatus ts = STARTING → falls i.
Proof using FR.
  intros Hk Hq. destruct (fr_reports _ FR i k ts Hk Hq) as (j & st & Hij & Hid & Hu & Hf & E).
  apply (falls_later i j Hij). intros Ht _. exists (S j). split; [lia|]. rewrite <- Ht, <- Hid in Hk.
  apply (advanced_changed _ _ (run_advanced_step (fr_run _ FR) j)). by apply (report_changes _ st _ ts).
Qed.

(** An id that is there stays until it is given to an OSD that waits. *)
Lemma ids_stay i k ts :
  tasks (σ i) !! k = Some ts → ts_currentStatus ts = WAITING_OSDID → sm_pendingOSDID (machine (σ i)) ≠ [] →
  falls i ∨ sm_pendingOSDID (machine (σ (S i))) ≠ [].
Proof using FR.
  intros Hk Hq Hids. destruct (run_orderly (fr_run _ FR) i) as [Ho Hw].
  pose proof (fr_step _ (fr_run _ FR) i) as Hs. inversion Hs as [env' offers a' E Eq|st a' Hok E Eq|e d a' E Eq|data n p l Hacc E Eq].
  - left. exists (S i). split; [lia|]. rewrite <- Eq. by eapply waiting_progress.
  - right. apply statusUpdate_Ret in E as [(_ & Q)|(u & _ & Q)]; cbn; rewrite (core_ids _ _ (quiet_core _ _ _ Q)); [done|].
    cbn. by rewrite ids_updateTaskTo.
  - right. apply frameworkMessage_Ret in E as [->|[z ->]]; [done|]. cbn. by destruct (sm_pendingOSDID _).
  - by right.
Qed.

Lemma falls_waiting i k ts : tasks (σ i) !! k = Some ts → ts_currentStatus ts = WAITING_OSDID → falls i.
Proof using FR.
  intros Hk Hq. destruct (fr_ids _ FR i k ts Hk Hq) as (j & Hij & Hids).
  apply (falls_later i j Hij). intros Ht _. rewrite <- Ht in Hk. clear i Hij Ht.
  destruct (fr_offers _ FR j) as (m & o & offers & Hjm & _ & _ & _ & E).
  remember (m - j)%nat as d eqn:Ed. revert j Hk Hids Hjm Ed. induction d as [|d IH]; intros j Hk Hids Hjm Ed.
  - assert (m = j) as -> by lia. destruct (run_orderly (fr_run _ FR) j) as [Ho Hw]. exists (S j). split; [lia|].
    exact (waiting_progress env (σ j) offers _ k ts Ho Hw Hk Hq Hids E).
  - destruct (ids_stay j k ts Hk Hq Hids) as [Hf|Hids']; [done|].
    apply (falls_later j (S j)); [lia|]. intros Ht _. rewrite <- Ht in Hk. apply (IH (S j)); [done|done|lia|lia].
Qed.

(** The host is ready in the end. *)
Lemma fair_idle : ∃ n, ∀ i, (n ≤ i)%nat → idle_at h (hosts (σ i)).
Proof using FR.
  assert (Hn : ∃ n, idle_at h (hosts (σ n))).
  { destruct (fr_offers _ FR 0%nat) as (j & o & offers & _ & AD & Hh & Hin & E).
    pose proof (batch_readies env cfg o AD offers _ _ (steps_config flags _ _ _ (run_regular (fr_run _ FR) j)) Hin E) as (hc & Ehc & Hr).
    rewrite Hh in Ehc. destruct Hr as [Hr|Hr]; [|by exists (S j), hc].
    destruct (fr_disks _ FR (S j)) as (m & id & f & Hjm & [Hf1 Hf2]%andb_true_iff & Hf & Et); [by exists hc|].
    exists (S m). pose proof (ad_name _ _ _ _ AD) as [Hn1 Hn2]%andb_true_iff. rewrite Hh in Hn1, Hn2.
    unfold told in Et. rewrite (statusUpdate_disk_ready id h f) in Et by done. injection Et as <-.
    apply disk_prepared_idle. eapply run_known; [apply (fr_run _ FR)|exact Hjm|by eexists]. }
  destruct Hn as [n Hn]. exists n. intros i Hi. by eapply run_idle; [apply (fr_run _ FR)|exact Hi|].
Qed.

Lemma falls_settled i : (∀ k, settled k (σ i)) → left_to_do (σ i) ≠ 0 → falls i.
Proof using FR.
  intros Hs Hne. destruct fair_idle as [n Hn].
  destruct (fr_offers _ FR (i `max` n)%nat) as (j & o & offers & Hj & AD & Hh & Hin & E).
  apply (falls_later i j); [lia|]. intros Ht Hp. destruct (run_orderly (fr_run _ FR) j) as [Ho _].
  exists (S j). split; [lia|].
  eapply (batch_progress env cfg o (σ j) offers); [exact AD|by eapply steps_config, (run_regular (fr_run _ FR))|exact Ho|
    rewrite Hh; apply Hn; lia|intros k ts; rewrite Ht; apply Hs| |exact Hin|exact E].
  intros Hph Hpd. apply Hne. rewrite <- (left_to_do_ext (σ i) (σ j)) by done.
  apply nothing_left_iff; [done| |done|done]. intros k ts. rewrite Ht. apply Hs.
Qed.

Lemma fair_falls i : left_to_do (σ i) ≠ 0 → falls i.
Proof using FR.
  intros Hne. destruct (decide (map_Forall (λ _ ts, in_flight (ts_currentStatus ts) = false) (tasks (σ i)))) as [Hs|Hs].
  - apply falls_settled; [|done]. intros k ts Hk. exact (Hs k ts Hk).
  - apply map_not_Forall in Hs as (k & ts & Hk & Hf); [|solve_decision].
    destruct (ts_currentStatus ts) eqn:Hq; try done; [eapply falls_reported|eapply falls_waiting|eapply falls_reported]; eauto.
Qed.

Lemma fair_nothing_left : ∃ n, ∀ i, (n ≤ i)%nat → left_to_do (σ i) = 0.
Proof using FR.
  assert (Hn : ∃ n, left_to_do (σ n) = 0).
  { cut (∀ d i, Z.to_nat (left_to_do (σ i)) = d → ∃ n, left_to_do (σ n) = 0); [intros Hc; exact (Hc _ 0%nat eq_refl)|].
    intros d. induction (lt_wf d) as [d _ IH]. intros i Ed.
    destruct (decide (left_to_do (σ i) = 0)) as [E|E]; [by exists i|]. destruct (fair_falls i E) as (j & _ & Hl).
    pose proof (left_to_do_nonneg _ (proj1 (run_orderly (fr_run _ FR) j))). apply (IH (Z.to_nat (left_to_do (σ j))) ltac:(lia) j eq_refl). }
  destruct Hn as [n Hn]. exists n. intros i Hi. exact (run_nothing_left (fr_run _ FR) n i Hi Hn).
Qed.
End Runs.
End Fairness.

(** ** Runs of a script, then of the same offers for ever *)

Section Script.
Context `{LexicalCast, Yaml, Indeterminate, HashOrder, MesosResources, JsonCpp}.
Context (flags : Flags) (env : Env) (cfg : Config) (o : Offer).
Context (start : System) (script : list event).

Notation machine s := (ag_stateMachine (sys_agent s)).
Notation tasks s := (sm_taskMap (machine s)).

Definition event_at (i : nat) : event := nth i script (Offers [o]).

Definition after_event (e : event) (s : System) : System :=
  mkSystem _ (callback flags env e (sys_agent s)).1 (sys_requested s)
    (sys_offers s + match e with Offers l => Z.of_nat (length l) | _ => 0 end)
    (sys_reports s + match e with Report _ _ _ => 1 | _ => 0 end).

Fixpoint scripted (i : nat) : System :=
  match i with
  | O => start
  | S i => after_event (event_at i) (scripted i)
  end.

Definition forward_now (e : event) (sm : StateMachine) : bool :=
  regular_now e sm &&
  match e with
  | Report id st _ =>
      negb (bool_decide (st = TASK_FAILED)) &&
      match sm_taskMap sm !! id with
      | Some ts => negb (bool_decide (st = TASK_STARTING)) || has_status STAGING ts
      | None => true
      end
  | _ => true
  end.

Definition event_ok (e : event) (s : System) : bool :=
  match (callback flags env e (sys_agent s)).2 with Ret tt => forward_now e (machine s) | _ => false end.

Notation N := (length script).

(** The reports and the ids of the script come after they are called for. *)
Definition reports_on (k : string) (e : event) : bool :=
  match e with Report k' st _ => bool_decide (k' = k) && bool_decide (is_Some (report_update st)) | _ => false end.
Definition answered (i : nat) (ts : TaskState) : bool :=
  if has_status STAGING ts || has_status STARTING ts
  then existsb (λ j, reports_on (ts_taskId ts) (event_at j)) (seq i (N - i))
  else if has_status WAITING_OSDID ts
  then existsb (λ j, negb (bool_decide (sm_pendingOSDID (machine (scripted j)) = []))) (seq i (N - i))
  else true.
Definition all_answered (i : nat) : bool := forallb (λ kts, answered i kts.2) (map_to_list (tasks (scripted i))).

(** The disk task of the host reports at the step [d], at the latest when it is
    being prepared, and the script leaves nothing to do. *)
Record complete_script (d : nat) : Prop := {
  cs_adequate : adequate flags env cfg o;
  cs_start : regular flags cfg start;
  cs_events : forallb (λ i, event_ok (event_at i) (scripted i)) (seq 0 N) = true;
  cs_disk : event_at d = Report "disk" TASK_FINISHED (Some (disk_ready (of_hostname o) "-")) ∧ (d < N)%nat;
  cs_answered : forallb all_answered (seq 0 N) = true;
  cs_idle : idle_at (of_hostname o) (sm_hostConfigMap (machine (scripted (S d))));
  cs_done : left_to_do (scripted N) = 0;
}.

Context (d : nat) (CS : complete_script d).

Lemma forward_now_spec id st m sm : forward_now (Report id st m) sm = true → forward sm (mkTaskStatus id st m).
Proof.
  intros [Hr Hf]%andb_true_iff. apply andb_true_iff in Hf as [Hf1 Hf2]. apply negb_true_iff, bool_decide_eq_false in Hf1.
  split; [split; [by apply regular_now_spec|done]|].
  cbn. intros -> ts Hts. rewrite Hts in Hf2. by apply bool_decide_eq_true in Hf2.
Qed.

Lemma event_step e s : event_ok e s = true →
  callback flags env e (sys_agent s) = (sys_agent (after_event e s), Ret tt) ∧ step flags forward s (after_event e s).
Proof.
  unfold event_ok, after_event. destruct (callback flags env e (sys_agent s)) as [a' [[]| | |]] eqn:E; try done. cbn.
  intros Hf. split; [done|]. destruct e as [offers|id st m|data]; cbn [callback] in E; rewrite ?Z.add_0_r.
  - by eapply S_offers.
  - eapply S_report; [by apply forward_now_spec|exact E].
  - inv_run_step. inv_agent_step. by eapply S_message.
Qed.

Lemma event_at_end i : (N ≤ i)%nat → event_at i = Offers [o].
Proof. apply nth_overflow. Qed.

Lemma scripted_ok i : event_ok (event_at i) (scripted i) = true ∧ regular flags cfg (scripted i).
Proof using CS.
  assert (Hi : ∀ i, regular flags cfg (scripted i) → event_ok (event_at i) (scripted i) = true).
  { clear i. intros i Hr. destruct (decide (i < N)%nat) as [Hi|Hi].
    - pose proof (cs_events _ CS) as He. rewrite forallb_forall in He. apply He, in_seq. lia.
    - rewrite event_at_end by lia. unfold event_ok. cbn [callback forward_now regular_now].
      destruct (returns_resourceOffers flags env cfg (ad_env _ _ _ _ (cs_adequate _ CS)) [o]) with (a := sys_agent (scripted i))
        as (a1 & [] & -> & _); [constructor; [apply (cs_adequate _ CS)|constructor]|by eapply steps_config|done]. }
  cut (regular flags cfg (scripted i)); [intros Hr; split; [by apply Hi|done]|].
  induction i as [|i IH]; [apply (cs_start _ CS)|]. eapply rtc_r; [exact IH|].
  eapply step_weaken; [|apply (event_step _ _ (Hi i IH))]. by intros sm st [[]].
Qed.

Lemma scripted_callback i :
  callback flags env (event_at i) (sys_agent (scripted i)) = (sys_agent (scripted (S i)), Ret tt).
Proof using CS. apply event_step, scripted_ok. Qed.

Lemma scripted_untroubled : untroubled_run flags cfg scripted.
Proof using CS. split; [apply (cs_start _ CS)|intros i; apply event_step, scripted_ok|done]. Qed.

Lemma scripted_answered i k ts : tasks (scripted i) !! k = Some ts → in_flight (ts_currentStatus ts) = true →
  answered i ts = true ∧ ts_taskId ts = k.
Proof using CS.
  intros Hk Hf. destruct (run_orderly flags cfg scripted scripted_untroubled i) as [Ho _].
  split; [|by apply (orderly_keyed _ Ho)]. destruct (decide (i < N)%nat) as [Hi|Hi].
  - pose proof (cs_answered _ CS) as Ha. rewrite forallb_forall in Ha. specialize (Ha i). rewrite in_seq in Ha.
    specialize (Ha ltac:(lia)). unfold all_answered in Ha. rewrite forallb_forall in Ha.
    apply (Ha (k, ts)), list_elem_of_In, elem_of_map_to_list, Hk.
  - pose proof (run_nothing_left flags cfg scripted scripted_untroubled N i ltac:(lia) (cs_done _ CS)) as Hn.
    destruct (nothing_left _ Ho Hn) as (Hs & _). by rewrite (Hs k ts Hk) in Hf.
Qed.

Lemma answered_later i P : existsb P (seq i (N - i)) = true → ∃ j, (i ≤ j)%nat ∧ P j = true.
Proof. intros (j & Hj%in_seq & Hp)%existsb_exists. exists j. split; [lia|done]. Qed.

Lemma scripted_fair : fair_run flags env cfg (of_hostname o) scripted.
Proof using CS.
  split.
  - apply scripted_untroubled.
  - intros i. exists (i `max` N)%nat, o, [o]. split; [lia|]. split; [apply (cs_adequate _ CS)|]. split; [done|]. split; [by left|].
    pose proof (scripted_callback (i `max` N)) as E. by rewrite event_at_end in E by lia.
  - intros i (hc & Ehc & Hp). assert (Hi : (i ≤ d)%nat).
    { destruct (decide (S d ≤ i)%nat) as [Hi|Hi]; [|lia].
      destruct (run_idle flags cfg _ scripted scripted_untroubled (S d) i Hi (cs_idle _ CS)) as (hc' & E & _ & _ & Hf).
      rewrite E in Ehc. injection Ehc as ->. congruence. }
    destruct (cs_disk _ CS) as [Hd _]. exists d, "disk", "-". split_and!; [done..|]. pose proof (scripted_callback d) as E. by rewrite Hd in E.
  - intros i k ts Hk Hq. destruct (scripted_answered i k ts Hk) as [Ha Hid]; [by destruct Hq as [-> | ->]|].
    unfold answered in Ha. rewrite (proj2 (orb_true_iff _ _)) in Ha by (unfold has_status; rewrite !bool_decide_eq_true; exact Hq).
    apply answered_later in Ha as (j & Hij & Hr). destruct (event_at j) as [|k' st m|] eqn:Ej; try done. cbn in Hr.
    apply andb_true_iff in Hr as [Hk'%bool_decide_eq_true Hu%bool_decide_eq_true]. rewrite Hid in Hk'. subst k'.
    exists j, (mkTaskStatus k st m). pose proof (scripted_callback j) as E. destruct (scripted_ok j) as [Hok _].
    rewrite Ej in E, Hok. split_and!; [done..| |exact E]. apply forward_now_spec. unfold event_ok in Hok. by rewrite E in Hok.
  - intros i k ts Hk Hq. destruct (scripted_answered i k ts Hk) as [Ha _]; [by rewrite Hq|].
    unfold answered, has_status in Ha. rewrite Hq in Ha. cbn in Ha.
    apply answered_later in Ha as (j & Hij & Hne%negb_true_iff%bool_decide_eq_false). by exists j.
Qed.
End Script.

(** ** Properties *)

Section Properties.
Context `{LexicalCast, Yaml, Indeterminate, HashOrder, MesosResources, JsonCpp}.
Context (flags : Flags) (env : Env) (cfg : Config) (h : string).

(** C4. Every fair run reaches full service and stays there.  Take any infinite run
    of the scheduler, from a state of a regular run on, in which nothing fails any
    more and nothing new is asked for: any offers, from any hosts, in any batches,
    any reports and messages, late or repeated.  If one host keeps making adequate
    offers, its disk tasks and the tasks in flight report in the end, and OSDs that
    wait are not left without an id, then from some state on there are a MON, three
    OSDs and a RADOSGW running, nothing is in flight or pending, the OSDs that ran
    or were on their way at the start, three at least, run, and besides these all
    that had been asked for, and no task changes any more. *)
Theorem fair_runs_serve (σ : nat → System) :
  fair_run flags env cfg h σ →
  ∃ n, ∀ i, (n ≤ i)%nat → full_service (σ 0%nat) (σ i) ∧
    sm_taskMap (ag_stateMachine (sys_agent (σ i))) = sm_taskMap (ag_stateMachine (sys_agent (σ n))).
Proof.
  intros FR. destruct (fair_nothing_left flags env cfg h σ FR) as [n Hn]. exists n. intros i Hi.
  destruct (run_orderly flags cfg σ (fr_run _ _ _ _ _ FR) i) as [Ho _].
  destruct (nothing_left _ Ho (Hn i Hi)) as (Hs & Hph & Hp). split.
  - apply (settled_full_service flags); [apply (run_orderly flags cfg σ (fr_run _ _ _ _ _ FR))|apply (run_smooth flags cfg σ (fr_run _ _ _ _ _ FR)); lia|done..].
  - destruct (run_advanced flags cfg σ (fr_run _ _ _ _ _ FR) n i Hi) as [Hl|[Ht _]]; [|done]. rewrite !Hn in Hl; lia.
Qed.
End Properties.

#[local] Existing Instances DecimalCast.cast FlatYaml.yaml SomeValues.indet SomeOrder.order
  ScalarResources.resources ToyJson.json.

(** The bootstrap on one host, and two OSDs asked for from the start. *)
Module SampleFairRun.
Definition offer : Offer := SampleRun.offer "o" "h1" "*" 4.
Definition start : System :=
  mkSystem _ (set_pendingOSD [2] (sys_agent Bootstrap.start)) (sys_requested Bootstrap.start + 2)
    (sys_offers Bootstrap.start) (sys_reports Bootstrap.start).
Definition script : list event := Bootstrap.script ++ [
  Offers [offer]; FromMon "3"; Report "osd3.h1.s" TASK_STARTING None;
  Offers [offer]; FromMon "4"; Report "osd4.h1.s" TASK_STARTING None;
  Offers [offer]; Report "osd4.h1.s" TASK_RUNNING None; Report "osd3.h1.s" TASK_RUNNING None].
Definition run : nat → System := scripted default_Flags SampleRun.env offer start script.

Lemma complete : complete_script default_Flags SampleRun.env sample_Config offer start script 1.
Proof.
  split.
  - apply sample_adequate.
  - apply rtc_once, (S_event _ _ Bootstrap.start "osd:2" 2 osd); [|vm_compute; reflexivity].
    exists ("osd", 2). split_and!; [vm_compute; reflexivity..|done|done|by left].
  - vm_compute. reflexivity.
  - split; [reflexivity|apply Nat.ltb_lt; reflexivity].
  - vm_compute. reflexivity.
  - eexists. vm_compute. split_and!; reflexivity.
  - vm_compute. reflexivity.
Qed.
End SampleFairRun.

Lemma fair_runs_serve_witness :
  ∃ n, ∀ i, (n ≤ i)%nat → 5 ≤ num_running OSD (ag_stateMachine (sys_agent (SampleFairRun.run i))).
Proof.
  destruct (fair_runs_serve default_Flags SampleRun.env sample_Config "h1" SampleFairRun.run) as [n Hn].
  - exact (scripted_fair _ _ _ _ _ _ 1 SampleFairRun.complete).
  - exists n. intros i Hi. destruct (Hn i Hi) as [[_ _ _ _ _ _ HP] _]. etrans; [|exact HP]. vm_compute. discriminate.
Defined.
