(* ===== verification/UnitTests.v ===== *)
(** * The unit tests of the repository

    [tests/ConfigTest.cpp], [tests/CephSchedulerAgentTest.cpp] and
    [tests/RestServerTest.cpp], run on the model: each test is its fixture and a
    lemma that its assertion holds.  The mock driver records the calls, as the
    model's agent does.  The tests of the REST server need the queue, which
    nothing in them creates; it is there, and empty, in the lemmas, and the last
    lemma says what a test sees when it is not. *)

From S2P Require Import Prelude StringUtil CephTypes ConfigFile HostConfigs TaskMachine FlexUp Mesos Agent.
Open Scope Z_scope.

(** ** [tests/ConfigTest.cpp] *)

(** YAML whose values follow the colon and a space, on lines of their own. *)
Module SpacedYaml.
Fixpoint trim (s : string) : string :=
  match s with
  | String " " s' => trim s'
  | _ => s
  end.
Instance yaml : Yaml := {|
  Node := FlatYaml.doc + string;
  yaml_load s := d ← FlatYaml.load s; Ret (inl (List.map (λ kv : string * string, (kv.1, trim kv.2)) d));
  yaml_get := FlatYaml.get;
  as_string := FlatYaml.scalar;
  as_int n := s ← FlatYaml.scalar n; DecimalCast.to_int s;
  as_strings n := s ← FlatYaml.scalar n; Ret (explode s ",");
|}.
End SpacedYaml.

Module ConfigTest.
Definition input : string := "id: ceph".
Definition parsed_config : outcome Config := parse_config_string (H := SpacedYaml.yaml) default_Flags input.

(** The test; what the text leaves out is the flags' or empty. *)
Lemma YetAnotherUnitTest :
  ∃ c, parsed_config = Ret c ∧ cfg_id c = "ceph" ∧ cfg_role c = FLAGS_role default_Flags ∧ cfg_mgmtdev c = "" ∧ cfg_jnlparts c = 4.
Proof. eexists. split; [vm_compute; reflexivity|]. by split_and!. Qed.
End ConfigTest.

(** ** [tests/CephSchedulerAgentTest.cpp] *)

Module SchedulerAgentTest.
Section SetUp.
Context `{LexicalCast, Yaml, Indeterminate, HashOrder, MesosResources}.

(** The aggregate has eleven initializers: [jnlparts] is zero. *)
Definition test_config : Config :=
  mkConfig "ceph" "*" "cmsnmh:2181/mesos" "" 8889 8888 "./" "ens2f0" "" [] [] 0.

Definition test_agent : Agent := new_CephSchedulerAgent test_config.

Definition createOffer (hostname role : string) (cpu mem : Z) : Offer :=
  mkOffer _ "" hostname "" [scalar_resource "cpus" role cpu; scalar_resource "mem" role mem].

(** An offer of another role is declined, once, and nothing else is done.  The
    second [declineOffer] of the mock, with filters, is the one that is called. *)
Lemma decline_offer_from_wrong_role (flags : Flags) (env : Env) :
  (∀ n v, res_role (scalar_resource n "ceph" v) = "ceph") →
  resourceOffers flags env [createOffer "cmsnmh" "ceph" 8 4096] test_agent =
    (add_call (declineOffer "" (Some 86400)) test_agent, Ret tt).
Proof.
  intros Hr. unfold resourceOffers, handleWaitingOSDTasks.
  assert (Ew : getWaitingOSDTask (ag_stateMachine test_agent) = []).
  { apply elem_of_nil_inv. intros t (_ & k & Hk)%elem_of_waiting. done. }
  rewrite (bind_eq _ _ test_agent test_agent tt).
  2: { by rewrite (bind_eq _ _ test_agent test_agent []) by (unfold sm_get, gets; by rewrite Ew). }
  rewrite (bind_eq _ _ test_agent test_agent BOOTSTRAP_MON) by done. cbn [foreach].
  assert (Eh : hasRole (createOffer "cmsnmh" "ceph" 8 4096) (cfg_role test_config) = false)
    by (unfold hasRole; cbn; by rewrite !Hr).
  unfold handle_offer, mbind, ST_bind, gets. change (ag_config test_agent) with test_config. by rewrite Eh.
Qed.
End SetUp.
End SchedulerAgentTest.

(** ** [tests/RestServerTest.cpp] *)

(** JSON objects of numbers and strings, without spaces. *)
Module FlatJson.
Definition quote : ascii := "034".
Definition quoted (s : string) : string := String quote (s +:+ String quote "").

Inductive scalar := Number (z : Z) | Text (s : string).

Definition parse_scalar (s : string) : option scalar :=
  match explode s quote with
  | [""; t] => Some (Text t)
  | _ => match DecimalCast.to_int s with Ret z => Some (Number z) | _ => None end
  end.

Definition parse_member (s : string) : option (string * scalar) :=
  match explode s ":" with
  | [k; v] => match parse_scalar k, parse_scalar v with
              | Some (Text k), Some v => Some (k, v)
              | _, _ => None
              end
  | _ => None
  end.

Definition parse (s : string) : option (list (string * scalar)) :=
  match explode s "{" with
  | [""; rest] =>
      match explode rest "}" with
      | [members] => mapM parse_member (explode members ",")
      | _ => None
      end
  | _ => None
  end.

Definition get (o : list (string * scalar)) (key : string) : option scalar :=
  snd <$> List.find (λ kv, bool_decide (kv.1 = key)) o.

(** The accessors of another type throw, as those of jsoncpp. *)
Instance json : JsonCpp := {|
  JsonValue := list (string * scalar);
  json_parse := parse;
  json_get_int o key d := match get o key with
    | Some (Number z) => Ret z | Some (Text _) => Throw JsonException | None => Ret d end;
  json_get_string o key d := match get o key with
    | Some (Text s) => Ret s | Some (Number _) => Throw JsonException | None => Ret d end;
|}.

(** The text of an object with two members. *)
Definition two (k1 v1 k2 v2 : string) : string :=
  "{" +:+ quoted k1 +:+ ":" +:+ v1 +:+ "," +:+ quoted k2 +:+ ":" +:+ v2 +:+ "}".
End FlatJson.

Module RestServerTest.
#[local] Existing Instances FlatJson.json ListQueue.queue.
Import FlatJson.

Definition jsonCheck_reply (json : string) : outcome string := (jsonCheck json (Some ([] : Queue))).2.

Lemma jsonCheckTest_right_mon : jsonCheck_reply (two "instances" "1" "profile" (quoted "mon")) = Ret "[success]".
Proof. vm_compute. reflexivity. Qed.
Lemma jsonCheckTest_right_osd : jsonCheck_reply (two "instances" "1" "profile" (quoted "osd")) = Ret "[success]".
Proof. vm_compute. reflexivity. Qed.
Lemma jsonCheckTest_instances_error : jsonCheck_reply (two "error" "1" "profile" (quoted "osd")) = Ret "[error]:instances".
Proof. vm_compute. reflexivity. Qed.
Lemma jsonCheckTest_instances_num_error :
  jsonCheck_reply (two "instances" "2222" "profile" (quoted "osd")) = Ret "[error]:instances".
Proof. vm_compute. reflexivity. Qed.
Lemma jsonCheckTest_profile_error : jsonCheck_reply (two "instances" "1" "error" (quoted "osd")) = Ret "[error]:profile".
Proof. vm_compute. reflexivity. Qed.
Lemma jsonCheckTest_profile_type_error : jsonCheck_reply (two "instances" "1" "profile" (quoted "error")) = Ret "[error]:profile".
Proof. vm_compute. reflexivity. Qed.

Lemma jsonCheckTest_without_queue : (jsonCheck (two "instances" "1" "profile" (quoted "mon")) None).2 = Throw InterprocessException.
Proof. vm_compute. reflexivity. Qed.
End RestServerTest.
