(* ===== verification/Framework.v ===== *)
(** * The scheduler process: [scheduler/CephScheduler.cpp] and [scheduler/main.cpp]

    [CephScheduler] forwards the callbacks of the Mesos driver to the agent;
    [framework] runs the driver; [main] starts the two HTTP servers and the
    framework, each in a thread.  The runs of [framework] are runs of the
    transition system of [Cluster]. *)

From S2P Require Import Prelude StringUtil CephTypes ConfigFile HostConfigs TaskMachine FlexUp FileServer Mesos Agent Cluster.
Open Scope Z_scope.

Section CephScheduler.
Context `{LexicalCast, Yaml, Indeterminate, HashOrder, MesosResources, JsonCpp}.
Context (flags : Flags).

(** ** [class CephScheduler]

    The callbacks with an empty body here do not reach the agent's. *)
Definition reregistered : ST Agent unit := mret tt.
Definition disconnected : ST Agent unit := mret tt.
Definition offerRescinded (offerId : string) : ST Agent unit := mret tt.
Definition slaveLost (slaveId : string) : ST Agent unit := mret tt.
Definition executorLost (executorId slaveId : string) (status : Z) : ST Agent unit := mret tt.
Definition error (message : string) : ST Agent unit := mret tt.
Definition registered (frameworkId : string) : ST Agent unit := Agent.registered frameworkId.
Definition statusUpdate (status : TaskStatus) : ST Agent unit := Agent.statusUpdate status.
Definition frameworkMessage (executorId slaveId data : string) : ST Agent unit :=
  Agent.frameworkMessage executorId data.
Definition resourceOffers (env : Env) (offers : list Offer) : ST Agent unit :=
  Agent.resourceOffers flags env offers.

Definition new_CephScheduler (config : Config) : Agent := new_CephSchedulerAgent config.

(** The virtual methods, as the driver calls them on a host [env]. *)
Definition callback (env : Env) (cb : SchedulerCallback) : ST Agent unit :=
  match cb with
  | CB_registered frameworkId => registered frameworkId
  | CB_reregistered => reregistered
  | CB_disconnected => disconnected
  | CB_resourceOffers offers => resourceOffers env offers
  | CB_offerRescinded offerId => offerRescinded offerId
  | CB_statusUpdate status => statusUpdate status
  | CB_frameworkMessage executorId slaveId data => frameworkMessage executorId slaveId data
  | CB_slaveLost slaveId => slaveLost slaveId
  | CB_executorLost executorId slaveId status => executorLost executorId slaveId status
  | CB_error message => error message
  end.

(** ** [framework] *)

Record FrameworkInfo := mkFrameworkInfo {
  fi_user : string;
  fi_name : string;
  fi_role : string;
  fi_checkpoint : bool;
}.

Definition framework_info (config : Config) : FrameworkInfo :=
  mkFrameworkInfo "root" (cfg_id config) (cfg_role config) true.

(** What happens while the driver runs: its callbacks, one at a time, and the
    requests the event loop takes between them. *)
Inductive event :=
  | Callback (env : Env) (cb : SchedulerCallback)
  | Taken (data : string).

Definition handle_event (e : event) : ST Agent unit :=
  match e with
  | Callback env cb => callback env cb
  | Taken data =>
      pending ← gets ag_pendingOSD;
      pending' ← lift (processData data pending);
      modify (set_pendingOSD pending')
  end.

(** [driver] is the Mesos driver: for a framework and a master, the events of
    its run and the status [run] returns ([None]: it is still running). *)
Definition framework (driver : FrameworkInfo → string → list event * option DriverStatus)
    (config : Config) : Agent * outcome Z :=
  let '(events, status) := driver (framework_info config) (cfg_master config) in
  (_ ← foreach events (λ _, handle_event) tt;
   match status with
   | None => lift Blocked
   | Some st => mret (if decide (st = DRIVER_STOPPED) then 0 else 1)
   end) (new_CephScheduler config).

(** ** [main]

    The process ends when a thread dies, and otherwise when the three threads
    have been joined; their results are dropped. *)
Definition join (threads : list (outcome Z)) : outcome unit :=
  if existsb (λ o, match o with Undef => true | _ => false end) threads then Undef
  else match omap (λ o, match o with Throw e => Some e | _ => None end) threads with
  | e :: _ => Throw e
  | [] =>
      if existsb (λ o, match o with Blocked => true | _ => false end) threads then Blocked else Ret tt
  end.

Definition main (files : Files) (start_daemon : Z → bool)
    (driver : FrameworkInfo → string → list event * option DriverStatus) : outcome Z :=
  config ← get_config flags files;
  let fileServerThread := (fileServer start_daemon (cfg_fileport config) (cfg_fileroot config)
                             (mkFileServer "" false [])).2 in
  let restServerThread := restServer start_daemon (cfg_restport config) in
  let frameworkThread := (framework driver config).2 in
  _ ← join [fileServerThread; restServerThread; frameworkThread];
  Ret 0.
End CephScheduler.

(** ** Runs of the framework as runs of the cluster *)

Section FrameworkFacts.
Context `{LexicalCast, Yaml, Indeterminate, HashOrder, MesosResources, JsonCpp}.
Context (flags : Flags).

(** The requests taken are among those the REST server accepts. *)
Definition accepted_event (e : event) : Prop :=
  match e with Taken data => ∃ n p, accepted_request (c_str data) n p | _ => True end.

(** The offers and the reports an event brings. *)
Definition event_offers (e : event) : Z :=
  match e with Callback _ (CB_resourceOffers offers) => Z.of_nat (length offers) | _ => 0 end.
Definition event_reports (e : event) : Z :=
  match e with Callback _ (CB_statusUpdate _) => 1 | _ => 0 end.

Definition sum_of (f : event → Z) (events : list event) : Z := foldr (λ e n, f e + n) 0 events.

Lemma handle_event_step e s a' :
  accepted_event e → handle_event flags e (sys_agent s) = (a', Ret tt) →
  ∃ s', rtc (step flags any_report) s s' ∧ sys_agent s' = a' ∧
    sys_offers s' = sys_offers s + event_offers e ∧ sys_reports s' = sys_reports s + event_reports e.
Proof.
  assert (Hid : ∀ (s : System) a', (mret tt : ST Agent unit) (sys_agent s) = (a', Ret tt) →
    ∃ s', rtc (step flags any_report) s s' ∧ sys_agent s' = a' ∧
      sys_offers s' = sys_offers s + 0 ∧ sys_reports s' = sys_reports s + 0).
  { intros s0 a0 [-> _]%mret_Ret. exists s0. rewrite !Z.add_0_r. by split_and!. }
  destruct e as [env cb|data]; cbn [accepted_event handle_event event_offers event_reports].
  - intros _. destruct cb; cbn [callback]; try by apply Hid.
    + intros E. eexists. split; [apply rtc_once; by eapply S_offers|]. cbn. rewrite !Z.add_0_r. by split_and!.
    + intros E. eexists. split; [apply rtc_once; by eapply (S_report _ _ _ status)|].
      cbn. rewrite !Z.add_0_r. by split_and!.
    + intros E. eexists. split; [apply rtc_once; by eapply S_message|].
      cbn. rewrite !Z.add_0_r. by split_and!.
  - intros (n & p & Hacc) E. inv_run. eexists. split; [apply rtc_once; by eapply S_event|].
    cbn. rewrite !Z.add_0_r. by split_and!.
Qed.

Lemma events_steps events s a' :
  Forall accepted_event events → foreach events (λ _, handle_event flags) tt (sys_agent s) = (a', Ret tt) →
  ∃ s', rtc (step flags any_report) s s' ∧ sys_agent s' = a' ∧
    sys_offers s' = sys_offers s + sum_of event_offers events ∧
    sys_reports s' = sys_reports s + sum_of event_reports events.
Proof.
  intros Hev. revert s. induction Hev as [|e events He _ IH]; intros s; cbn [foreach].
  - intros [-> _]%mret_Ret. exists s. cbn. rewrite !Z.add_0_r. by split_and!.
  - intros (a1 & [] & E & El)%bind_Ret.
    destruct (handle_event_step e s a1 He E) as (s1 & Hs1 & <- & Ho1 & Hr1).
    destruct (IH s1 El) as (s2 & Hs2 & <- & Ho2 & Hr2). exists s2.
    unfold sum_of in *. cbn [foldr]. split_and!; [by etrans|done|lia..].
Qed.

Lemma join_Ret threads : join threads = Ret tt ↔ Forall (λ o, ∃ z, o = Ret z) threads.
Proof.
  unfold join. induction threads as [|o threads IH]; [by split; [constructor|]|].
  rewrite Forall_cons, <- IH. clear IH. destruct o as [z|e| |]; cbn.
  - split; [|by intros [_ ?]]. intros Hj. split; [eauto|done].
  - split; [|by intros [[z ?] _]]. destruct (existsb _ threads); done.
  - split; [done|by intros [[z ?] _]].
  - split; [|by intros [[z ?] _]]. destruct (existsb _ threads); [done|].
    destruct (omap _ threads); done.
Qed.
End FrameworkFacts.

(** ** Properties *)

Section Properties.
Context `{LexicalCast, Yaml, Indeterminate, HashOrder, MesosResources, JsonCpp}.
Context (flags : Flags).

(** C16. The scheduler process implements the transition system: whatever
    callbacks the driver makes and whatever accepted requests the event loop
    takes between them, in any order, the state after any part of the run that
    returned is a reachable state of [Cluster], with the offers and the reports
    of that part, and the run goes on from it.  Every invariant of the reachable
    states so holds throughout every run of [framework]. *)
Theorem framework_refines_cluster
    (driver : FrameworkInfo → string → list event * option DriverStatus) (config : Config)
    (events1 events2 : list event) (status : option DriverStatus) (a : Agent) :
  driver (framework_info config) (cfg_master config) = (events1 ++ events2, status) →
  Forall accepted_event events1 →
  foreach events1 (λ _, handle_event flags) tt (new_CephScheduler config) = (a, Ret tt) →
  (∃ s, reachable flags config s ∧ sys_agent s = a ∧
     sys_offers s = sum_of event_offers events1 ∧ sys_reports s = sum_of event_reports events1) ∧
  framework flags driver config =
    (_ ← foreach events2 (λ _, handle_event flags) tt;
     match status with
     | None => lift Blocked
     | Some st => mret (if decide (st = DRIVER_STOPPED) then 0 else 1)
     end) a.
Proof.
  intros Ed Hacc E. split.
  - destruct (events_steps flags events1 (initial config) a Hacc E) as (s & Hs & Ea & Ho & Hr).
    exists s. by split_and!.
  - unfold framework. rewrite Ed. unfold mbind, ST_bind. rewrite foreach_app. unfold mbind, ST_bind. by rewrite E.
Qed.

(** C34. The process outlives its framework.  Once the driver has stopped or
    aborted, [main] still never returns if one of the two HTTP servers runs; it
    returns only if neither could be started, and then with 0, whatever
    [framework] returned. *)
Theorem main_outlives_framework (files : Files) (start_daemon : Z → bool)
    (driver : FrameworkInfo → string → list event * option DriverStatus) :
  (∀ z, main flags files start_daemon driver = Ret z →
     z = 0 ∧ ∃ config st, get_config flags files = Ret config ∧
       start_daemon (cfg_fileport config) = false ∧ start_daemon (cfg_restport config) = false ∧
       (framework flags driver config).2 = Ret st) ∧
  (∀ config st, get_config flags files = Ret config → (framework flags driver config).2 = Ret st →
     main flags files start_daemon driver =
       if start_daemon (cfg_fileport config) || start_daemon (cfg_restport config) then Blocked else Ret 0).
Proof.
  unfold main. split.
  - intros z. destruct (get_config flags files) as [config|e| |] eqn:Ec; [|done..].
    unfold mbind, outcome_bind. destruct (join _) as [[]| | |] eqn:Ej; [|done..].
    intros [= <-]. split; [done|]. apply join_Ret in Ej as Hj. apply Forall_cons in Hj as [[z1 H1z] Hj].
    apply Forall_cons in Hj as [[z2 H2z] Hj]. apply Forall_cons in Hj as [[z3 H3z] _].
    exists config, z3. split; [done|]. unfold fileServer, mbind, ST_bind, modify in H1z.
    unfold restServer, new_RestServer, check in H2z. cbn in H2z.
    destruct (start_daemon (cfg_fileport config)); [done|]. by destruct (start_daemon (cfg_restport config)).
  - intros config st Ec Ef. rewrite Ec. unfold mbind, outcome_bind, join. rewrite Ef.
    unfold fileServer, restServer, mbind, ST_bind, modify, new_RestServer, check. cbn.
    destruct (start_daemon (cfg_fileport config)), (start_daemon (cfg_restport config)); done.
Qed.
End Properties.

#[local] Existing Instances DecimalCast.cast FlatYaml.yaml SomeValues.indet SomeOrder.order
  ScalarResources.resources ToyJson.json.

(** A driver that registers, brings one offer, then stops or aborts. *)
Module SampleFramework.
Definition events : list event :=
  [Callback SampleRun.env (CB_registered "f"); Callback SampleRun.env (CB_resourceOffers Bootstrap.one)].
Definition driver (status : DriverStatus) (info : FrameworkInfo) (master : string) :
    list event * option DriverStatus := (events, Some status).
Definition files : Files := λ _, Some sample_yml.
Definition config : Config :=
  match get_config default_Flags files with Ret c => c | _ => sample_Config end.
End SampleFramework.

Lemma framework_refines_cluster_witness :
  ∃ s, reachable default_Flags sample_Config s ∧ sys_offers s = 1 ∧ sys_reports s = 0.
Proof.
  destruct (framework_refines_cluster default_Flags (SampleFramework.driver DRIVER_STOPPED) sample_Config
    SampleFramework.events [] (Some DRIVER_STOPPED)
    (foreach SampleFramework.events (λ _, handle_event default_Flags) tt (new_CephScheduler sample_Config)).1)
    as ((s & Hs & _ & Ho & Hr) & _).
  - reflexivity.
  - repeat constructor.
  - apply run_Ret_tt. vm_compute. reflexivity.
  - exists s. split_and!; [exact Hs|exact Ho|exact Hr].
Defined.

Lemma main_outlives_framework_witness :
  main default_Flags SampleFramework.files (λ _, true) (SampleFramework.driver DRIVER_ABORTED) = Blocked ∧
  main default_Flags SampleFramework.files (λ _, false) (SampleFramework.driver DRIVER_ABORTED) = Ret 0.
Proof.
  split.
  - apply (proj2 (main_outlives_framework default_Flags SampleFramework.files (λ _, true)
      (SampleFramework.driver DRIVER_ABORTED)) SampleFramework.config 1); vm_compute; reflexivity.
  - apply (proj2 (main_outlives_framework default_Flags SampleFramework.files (λ _, false)
      (SampleFramework.driver DRIVER_ABORTED)) SampleFramework.config 1); vm_compute; reflexivity.
Defined.
