(* ===== verification/Executor.v ===== *)
(** * What the two executors share

    Both executors act on their host through [popen], [fork] and the executor
    driver, and both have the same [runShellCommand].  What the host answers is
    the class [Host]; what an executor does is its trace of [Effect]s, kept in
    its state through the interface [Traced]. *)

From S2P Require Import Prelude StringUtil Mesos.
Open Scope Z_scope.

(** ** Effects *)

Inductive Effect :=
  | RunCommand (cmd : string)
  | Spawn (binary : string) (argv : list string)
  | SendStatusUpdate (status : TaskStatus)
  | SendFrameworkMessage (data : string)
  | StartFileServer (port : Z) (path : string).

(** The host, given everything the executor has done so far: what a command
    prints ([None]: [popen] fails), what [fork] returns in the parent (-1 on
    failure), what [time] returns, and the working directory ([None]: [getcwd]
    fails). *)
Class Host := {
  host_popen : list Effect → string → option string;
  host_fork : list Effect → Z;
  host_time : list Effect → Z;
  host_getcwd : option string;
}.

(** The reports and the framework messages among the effects. *)
Definition sent (tr : list Effect) : list TaskStatus :=
  omap (λ e, match e with SendStatusUpdate st => Some st | _ => None end) tr.
Definition told (tr : list Effect) : list string :=
  omap (λ e, match e with SendFrameworkMessage d => Some d | _ => None end) tr.

Lemma sent_app tr1 tr2 : sent (tr1 ++ tr2) = sent tr1 ++ sent tr2.
Proof. apply omap_app. Qed.
Lemma told_app tr1 tr2 : told (tr1 ++ tr2) = told tr1 ++ told tr2.
Proof. apply omap_app. Qed.

(** An executor state with a trace. *)
Class Traced (X : Type) := {
  trace : X → list Effect;
  add_effect : Effect → X → X;
  trace_add_effect e x : trace (add_effect e x) = trace x ++ [e];
}.

(** ** [runShellCommand] *)

Definition newline : ascii := "010".

(** [fgets]: at most [room] characters, through the first newline. *)
Fixpoint fgets (room : nat) (s : string) : string * string :=
  match room, s with
  | O, _ | _, "" => ("", s)
  | S room', String c s' =>
      if Ascii.eqb c newline then (String c "", s')
      else let '(line, rest) := fgets room' s' in (String c line, rest)
  end.

(** The reading loop, on what is left of the pipe; an iteration that finds it
    empty sets [feof].  [result += buffer] stops at a NUL. *)
Fixpoint read_loop (fuel : nat) (pipe result : string) : option string :=
  match pipe with
  | "" => Some result
  | _ =>
      match fuel with
      | O => None
      | S fuel' =>
          let '(buffer, pipe') := fgets 127 pipe in
          read_loop fuel' pipe' (result +:+ c_str buffer)
      end
  end.

(** [result.substr(0, result.find_last_not_of('\n') + 1)]. *)
Fixpoint strip_newlines (s : string) : string :=
  match s with
  | "" => ""
  | String c s' =>
      match strip_newlines s' with
      | "" => if Ascii.eqb c newline then "" else String c ""
      | r => String c r
      end
  end.

Definition shell_result (output : option string) : string :=
  match output with
  | None => "Run shell command ERROR!"
  | Some out => strip_newlines (default "" (read_loop (String.length out) out ""))
  end.

Section Shell.
Context `{Host, Traced X}.

Definition effect_do (e : Effect) : ST X unit := modify (add_effect e).

Definition runShellCommand (cmd : string) : ST X string :=
  past ← gets trace;
  _ ← effect_do (RunCommand cmd);
  mret (shell_result (host_popen past cmd)).

(** What [runShellCommand] returns in a state. *)
Definition answer (cmd : string) (x : X) : string := shell_result (host_popen (trace x) cmd).

Lemma runShellCommand_eq cmd x :
  runShellCommand cmd x = (add_effect (RunCommand cmd) x, Ret (answer cmd x)).
Proof. done. Qed.

Lemma runShellCommand_Ret cmd x x' r :
  runShellCommand cmd x = (x', Ret r) → x' = add_effect (RunCommand cmd) x ∧ r = answer cmd x.
Proof. rewrite runShellCommand_eq. by intros [= <- <-]. Qed.

Lemma effect_do_Ret e x x' u : effect_do e x = (x', Ret u) → x' = add_effect e x.
Proof. apply modify_Ret. Qed.
End Shell.

Ltac inv_exec_step :=
  match goal with
  | H : runShellCommand _ _ = (_, Ret _) |- _ => apply runShellCommand_Ret in H as [? ?]; subst
  | H : effect_do _ _ = (_, Ret _) |- _ => apply effect_do_Ret in H; subst
  end.
Ltac inv_exec := repeat (inv_run_step || inv_exec_step).

(** ** The reading loop reads everything *)

Lemma fgets_split room s : (fgets room s).1 +:+ (fgets room s).2 = s.
Proof.
  revert s. induction room as [|room IH]; intros [|c s]; try done. cbn.
  destruct (Ascii.eqb c newline); [done|]. specialize (IH s). destruct (fgets room s). cbn in *.
  rewrite str_app_cons. by f_equal.
Qed.

Lemma fgets_shorter room c s : (String.length (fgets (S room) (String c s)).2 ≤ String.length s)%nat.
Proof.
  cbn. destruct (Ascii.eqb c newline); [done|].
  pose proof (fgets_split room s) as E. destruct (fgets room s) as [a b]. cbn in *.
  rewrite <- E, str_length_app. lia.
Qed.

Lemma read_loop_all fuel pipe result :
  (String.length pipe ≤ fuel)%nat → lacks Ascii.zero pipe = true →
  read_loop fuel pipe result = Some (result +:+ pipe).
Proof.
  revert pipe result. induction fuel as [|fuel IH]; intros [|c s] result Hf Hn; cbn [read_loop];
    rewrite ?str_app_nil_r; try done; [cbn in Hf; lia|].
  pose proof (fgets_split 127 (String c s)) as E. pose proof (fgets_shorter 126 c s) as Hl.
  change 127%nat with (S 126) in *. destruct (fgets (S 126) (String c s)) as [line rest].
  cbn [fst snd] in *. rewrite <- E in Hn. rewrite lacks_app in Hn. apply andb_true_iff in Hn as [Hn1 Hn2].
  rewrite IH by (done || (cbn in Hf; lia)). rewrite c_str_id by done.
  by rewrite <- str_app_assoc, E.
Qed.

Lemma strip_newlines_no_newline s : lacks newline s = true → strip_newlines s = s.
Proof.
  induction s as [|c s IH]; [done|]. cbn. intros [Hc Hs]%andb_true_iff.
  apply negb_true_iff in Hc. rewrite IH, Hc by done. by destruct s.
Qed.

Lemma strip_newlines_snoc s : lacks newline s = true → strip_newlines (s +:+ String newline "") = s.
Proof.
  induction s as [|c s IH]; [done|]. rewrite str_app_cons. cbn. intros [Hc Hs]%andb_true_iff.
  apply negb_true_iff in Hc. rewrite IH, Hc by done. by destruct s.
Qed.

(** ** Properties *)

(** The loop of [runShellCommand] reads the whole output of a command, in
    chunks of at most 127 bytes, in at most one iteration per byte, and the
    result is the output without its trailing newlines: a command that prints
    one line gives exactly that line. *)
Lemma shell_result_spec (out line : string) :
  lacks Ascii.zero out = true →
  read_loop (String.length out) out "" = Some out ∧
  shell_result (Some out) = strip_newlines out ∧
  (lacks newline line = true → out = line +:+ String newline "" → shell_result (Some out) = line).
Proof.
  intros Hn. pose proof (read_loop_all (String.length out) out "" ltac:(done) Hn) as E.
  rewrite str_app_nil_l in E. unfold shell_result. rewrite E. cbn. split_and!; [done..|].
  intros Hl ->. by apply strip_newlines_snoc.
Qed.

Lemma shell_result_spec_witness : shell_result (Some ("3" +:+ String newline "")) = "3".
Proof.
  refine (proj2 (proj2 (shell_result_spec ("3" +:+ String newline "") "3" _)) _ _);
    vm_compute; reflexivity.
Defined.

(** A host on which every command prints [1] and [fork] succeeds. *)
Module SampleHost.
Instance host : Host := {|
  host_popen _ _ := Some ("1" +:+ String newline "");
  host_fork _ := 42;
  host_time past := Z.of_nat (length past);
  host_getcwd := Some "/sandbox";
|}.
End SampleHost.
