(* ===== verification/Shell.v ===== *)
(** * The shell the executors speak to

    Both executors act on their host by texts given to [popen], which runs
    [/bin/sh -c].  The shell and the utilities are not part of the program: they
    are the class [Sh], with the documented behaviour of what the program writes
    as the laws [ShLaws], on a disk of directories and files (no links, no
    permissions).  [ShellHost] is a host whose [popen] is that shell.  A small
    shell, [MiniShell], has the laws. *)

From S2P Require Import Prelude StringUtil Mesos Executor.
From stdpp Require Import pretty.
Open Scope Z_scope.

(** ** Cutting a command into words *)

(** A text that is one argument: no space, no NUL. *)
Definition word (s : string) : bool := lacks " " s && lacks Ascii.zero s.

(** Texts with a separator between them. *)
Fixpoint sep (d : ascii) (l : list string) : string :=
  match l with
  | [] => ""
  | [w] => w
  | w :: l' => w +:+ String d (sep d l')
  end.
Notation unwords := (sep " ").
Notation path := (sep "/").

Lemma word_app s1 s2 : word (s1 +:+ s2) = word s1 && word s2.
Proof.
  unfold word. rewrite !lacks_app. by destruct (lacks " " s1), (lacks " " s2), (lacks Ascii.zero s1).
Qed.

Lemma c_str_word s : word s = true → c_str s = s.
Proof.
  intros [_ Hs]%andb_true_iff. induction s as [|c s IH]; [done|]. cbn in *.
  apply andb_true_iff in Hs as [Hc Hs]. apply negb_true_iff in Hc. by rewrite Hc, IH.
Qed.

Lemma explode_sep d l w :
  Forall (λ w, lacks d w = true) (l ++ [w]) → w ≠ "" → explode (sep d (l ++ [w])) d = l ++ [w].
Proof.
  intros Hl Hw. induction l as [|v l IH]; cbn [app] in *.
  - apply Forall_cons in Hl as [Hs _]. by apply explode_last.
  - apply Forall_cons in Hl as [Hs Hl].
    replace (sep d (v :: l ++ [w])) with (v +:+ String d (sep d (l ++ [w]))) by (by destruct l).
    by rewrite explode_delim, IH.
Qed.

Lemma explode_sep_all d l :
  Forall (λ w, lacks d w = true ∧ w ≠ "") l → explode (sep d l) d = l.
Proof.
  intros Hl. destruct l as [|w l] using rev_ind; [done|]. apply explode_sep.
  - eapply Forall_impl; [exact Hl|]. by intros ? [? _].
  - apply Forall_app in Hl as [_ Hl]. by apply Forall_singleton in Hl as [_ ?].
Qed.

Lemma string_all_sep p d l :
  p d = true → Forall (λ w, string_all p w = true) l → string_all p (sep d l) = true.
Proof.
  intros Hp. induction 1 as [|w [|v l] Hw _ IH]; [done..|].
  change (sep d (w :: v :: l)) with (w +:+ String d (sep d (v :: l))).
  rewrite string_all_app, Hw. cbn [string_all andb]. by rewrite Hp, IH.
Qed.

(** ** Disks and processes *)

(** The directories, named without a slash at the end (the root is [""]), and
    the files with their contents. *)
Record Disk := mkDisk { dk_dirs : gset string; dk_files : gmap string string }.

Definition add_dirs (ds : list string) (D : Disk) : Disk := mkDisk (dk_dirs D ∪ list_to_set ds) (dk_files D).
Definition write (f data : string) (D : Disk) : Disk := mkDisk (dk_dirs D) (<[f := data]> (dk_files D)).

(** The name [n] in the directory [d]. *)
Definition sub (d n : string) : string := d +:+ String "/" n.

(** Files of these names, copied from one directory to another. *)
Definition copies (from to : string) (names : list string) (D : Disk) : Disk :=
  foldr (λ n E, match dk_files D !! sub from n with Some x => write (sub to n) x E | None => E end) D names.

(** The directories from [d] down a path. *)
Fixpoint below (d : string) (names : list string) : list string :=
  match names with
  | [] => []
  | n :: names' => sub d n :: below (sub d n) names'
  end.

(** A shell process: its directory, its disk, the status of the last command
    and what has been printed. *)
Record Proc := mkProc { pc_cwd : string; pc_disk : Disk; pc_status : Z; pc_out : string }.

Definition succeed (D : Disk) (p : Proc) : Proc := mkProc (pc_cwd p) D 0 (pc_out p).
Definition fails_with (status : Z) (p : Proc) : Proc := mkProc (pc_cwd p) (pc_disk p) status (pc_out p).
Definition moved (d : string) (p : Proc) : Proc := mkProc d (pc_disk p) 0 (pc_out p).
Definition new_shell (cwd : string) (D : Disk) : Proc := mkProc cwd D 0 "".

(** The path of an argument. *)
Definition resolve (cwd a : string) : string :=
  match a with
  | String "/" _ => a
  | String "." (String "/" q) => sub cwd q
  | _ => sub cwd a
  end.

(** ** The texts the laws speak of *)

(** Characters without meaning to the shell. *)
Definition plain_char (c : ascii) : bool :=
  let n := N_of_ascii c in
  ((97 <=? n) && (n <=? 122) || (65 <=? n) && (n <=? 90) || (48 <=? n) && (n <=? 57) ||
   (45 <=? n) && (n <=? 47) || (n =? 95))%N.

Definition plain (w : string) : bool := negb (bool_decide (w = "")) && string_all plain_char w.

(** A name in a directory. *)
Definition plain_name (n : string) : bool :=
  plain n && lacks "/" n && negb (bool_decide (n = "..")) && negb (bool_decide (n = ".")).

Definition absolute (s : string) : bool :=
  match s with String c _ => Ascii.eqb c "/" | "" => false end.

(** A simple command with one of the utilities used. *)
Definition is_test (w : list string) : bool :=
  match w with
  | [a; b; f; c] => bool_decide (a = "[") && bool_decide (b = "-f") && plain f && bool_decide (c = "]")
  | _ => false
  end.
Definition simple (w : list string) : bool :=
  match w with
  | u :: args => bool_decide (u ∈ ["cd"; "mkdir"; "chmod"; "cp"]) && forallb plain args || is_test w
  | [] => false
  end.

(** Characters of a list of commands, without [;], quotes and redirections. *)
Definition list_char (c : ascii) : bool :=
  plain_char c || existsb (Ascii.eqb c) [" "; "&"; "["; "]"; "$"; "?"]%char.

(** ** The shell and its laws *)

(** What running a text, and what running a simple command, does to a process. *)
Class Sh := {
  sh_exec : string → Proc → Proc;
  sh_util : list string → Proc → Proc;
}.

Class ShLaws `{Sh} : Prop := {
  sh_simple w p : simple w = true → sh_exec (unwords w) p = sh_util w p;
  sh_and w c p : simple w = true → string_all list_char c = true →
    sh_exec (unwords w +:+ " && " +:+ c) p =
    let q := sh_util w p in if pc_status q =? 0 then sh_exec c q else q;
  sh_seq c1 c2 p : string_all list_char c1 = true →
    sh_exec (c1 +:+ ";" +:+ c2) p = sh_exec c2 (sh_exec c1 p);
  sh_echo p : sh_exec "echo $?" p =
    mkProc (pc_cwd p) (pc_disk p) 0 (pc_out p +:+ pretty (pc_status p) +:+ String newline "");
  sh_echo_home p : pc_disk (sh_exec "echo ~" p) = pc_disk p;
  sh_sed f p : plain f = true → absolute f = true → is_Some (dk_files (pc_disk p) !! f) →
    ∃ data, pc_disk (sh_exec ("sed -i '/osd journal size/d' " +:+ f +:+ "; echo $?") p) = write f data (pc_disk p);
  sh_cd d p : absolute d = true → d ∈ dk_dirs (pc_disk p) → sh_util ["cd"; d] p = moved d p;
  sh_cd_name n p : plain_name n = true → sub (pc_cwd p) n ∈ dk_dirs (pc_disk p) →
    sh_util ["cd"; n] p = moved (sub (pc_cwd p) n) p;
  sh_cd_up d n p : pc_cwd p = sub d n → lacks "/" n = true → d ∈ dk_dirs (pc_disk p) →
    sh_util ["cd"; ".."] p = moved d p;
  sh_mkdir n p : plain_name n = true → pc_cwd p ∈ dk_dirs (pc_disk p) →
    sub (pc_cwd p) n ∉ dk_dirs (pc_disk p) → dk_files (pc_disk p) !! sub (pc_cwd p) n = None →
    sh_util ["mkdir"; n] p = succeed (add_dirs [sub (pc_cwd p) n] (pc_disk p)) p;
  sh_mkdir_exists n p : plain_name n = true → sub (pc_cwd p) n ∈ dk_dirs (pc_disk p) →
    sh_util ["mkdir"; n] p = fails_with 1 p;
  sh_mkdir_p names p : names ≠ [] → forallb plain_name names = true → pc_cwd p ∈ dk_dirs (pc_disk p) →
    Forall (λ f, dk_files (pc_disk p) !! f = None) (below (pc_cwd p) names) →
    sh_util ["mkdir"; "-p"; "./" +:+ path names] p = succeed (add_dirs (below (pc_cwd p) names) (pc_disk p)) p;
  sh_chmod n p : plain_name n = true → sub (pc_cwd p) n ∈ dk_dirs (pc_disk p) →
    sh_util ["chmod"; "777"; "-R"; n] p = succeed (pc_disk p) p;
  sh_cp a d n x p : dk_files (pc_disk p) !! resolve (pc_cwd p) a = Some x → absolute (sub d n) = true →
    plain_name n = true → d ∈ dk_dirs (pc_disk p) → sub d n ∉ dk_dirs (pc_disk p) →
    resolve (pc_cwd p) a ≠ sub d n → sh_util ["cp"; a; sub d n] p = succeed (write (sub d n) x (pc_disk p)) p;
  sh_cp_all names d p : names ≠ [] → NoDup names → forallb plain_name names = true → absolute d = true →
    d ∈ dk_dirs (pc_disk p) → d ≠ pc_cwd p →
    Forall (λ n, is_Some (dk_files (pc_disk p) !! sub (pc_cwd p) n) ∧ sub d n ∉ dk_dirs (pc_disk p)) names →
    sh_util ("cp" :: ((λ n, "./" +:+ n) <$> names) ++ [d +:+ "/"]) p =
    succeed (copies (pc_cwd p) d names (pc_disk p)) p;
  sh_test f p : plain f = true → absolute f = true →
    sh_util ["["; "-f"; f; "]"] p =
    fails_with (if decide (is_Some (dk_files (pc_disk p) !! f)) then 0 else 1) p;
}.

(** A host whose commands run in the shell; other effects of the executor
    (containers it starts) may change the disk, the commands only as they say.
    A process starts in the working directory of the executor. *)
Class ShellHost `{Host, Sh} := {
  disk_at : list Effect → Disk;
  popen_runs past cmd :
    host_popen past cmd = Some (pc_out (sh_exec cmd (new_shell (default "" host_getcwd) (disk_at past))));
  disk_run past cmd :
    disk_at (past ++ [RunCommand cmd]) = pc_disk (sh_exec cmd (new_shell (default "" host_getcwd) (disk_at past)));
  disk_serve past port root : disk_at (past ++ [StartFileServer port root]) = disk_at past;
}.

(** ** Characters *)

Lemma plain_char_not c d : plain_char c = true → plain_char d = false → Ascii.eqb c d = false.
Proof. intros Hc Hd. destruct (Ascii.eqb_spec c d) as [->|]; congruence. Qed.

Lemma plain_lacks d w : plain_char d = false → string_all plain_char w = true → lacks d w = true.
Proof.
  intros Hd. apply string_all_impl. intros c Hc. by rewrite (plain_char_not c d Hc Hd).
Qed.

Lemma plain_list_char w : string_all plain_char w = true → string_all list_char w = true.
Proof. apply string_all_impl. intros c Hc. unfold list_char. by rewrite Hc. Qed.

Lemma plain_chars w : plain w = true → string_all plain_char w = true ∧ w ≠ "".
Proof. unfold plain. intros [Hn Hw]%andb_true_iff. by apply negb_true_iff, bool_decide_eq_false in Hn. Qed.

Lemma plain_app s1 s2 : plain s1 = true → string_all plain_char s2 = true → plain (s1 +:+ s2) = true.
Proof.
  intros [H1 Hn]%plain_chars H2. unfold plain. rewrite string_all_app, H1, H2.
  rewrite bool_decide_false; [done|]. by destruct s1.
Qed.

(** The words of a simple command are neither empty nor special. *)
Lemma simple_words p w :
  (∀ c, plain_char c = true → p c = true) → p "["%char = true → p "]"%char = true → simple w = true →
  Forall (λ s, string_all p s = true ∧ s ≠ "") w.
Proof.
  intros Hp Ho Hc Hw.
  assert (Hpl : ∀ s, plain s = true → string_all p s = true ∧ s ≠ "").
  { intros s [Hs Hn]%plain_chars. split; [|done]. by apply (string_all_impl plain_char). }
  destruct w as [|u args]; [done|]. apply orb_true_iff in Hw as [Hw|Hw].
  - apply andb_true_iff in Hw as [Hu Ha]. apply bool_decide_eq_true in Hu. constructor.
    + apply Hpl. repeat (apply elem_of_cons in Hu as [->|Hu]; [reflexivity|]). by apply not_elem_of_nil in Hu.
    + apply Forall_forall. intros s Hs. apply Hpl. rewrite forallb_forall in Ha. by apply Ha, list_elem_of_In.
  - destruct args as [|b [|f [|c [|? ?]]]]; try done. cbn in Hw. rewrite !andb_true_iff, !bool_decide_eq_true in Hw.
    destruct Hw as [[[-> ->] Hf] ->]. repeat constructor; cbn; rewrite ?Ho, ?Hc, ?Hp; try done; by apply Hpl.
Qed.

Lemma simple_unwords p w :
  (∀ c, plain_char c = true → p c = true) → p "["%char = true → p "]"%char = true → p " "%char = true →
  simple w = true → string_all p (unwords w) = true.
Proof.
  intros Hp Ho Hc Hs Hw. apply string_all_sep; [done|].
  eapply Forall_impl; [by apply (simple_words p)|]. by intros s [? _].
Qed.

Lemma simple_list_char w : simple w = true → string_all list_char (unwords w) = true.
Proof. apply simple_unwords; try done. intros c Hc. unfold list_char. by rewrite Hc. Qed.

Lemma simple_lacks d w :
  plain_char d = false → d ≠ "["%char → d ≠ "]"%char → d ≠ " "%char → simple w = true → lacks d (unwords w) = true.
Proof.
  intros Hd H1 H2 H3. apply simple_unwords; cbv beta.
  - intros c Hc. by rewrite (plain_char_not c d Hc Hd).
  - by destruct (Ascii.eqb_spec "[" d) as [<-|].
  - by destruct (Ascii.eqb_spec "]" d) as [<-|].
  - by destruct (Ascii.eqb_spec " " d) as [<-|].
Qed.

(** ** Lists of commands *)

Fixpoint and_text (l : list (list string)) : string :=
  match l with
  | [] => ""
  | [w] => unwords w
  | w :: l' => unwords w +:+ " && " +:+ and_text l'
  end.

Lemma and_text_cons w l : l ≠ [] → and_text (w :: l) = unwords w +:+ " && " +:+ and_text l.
Proof. by destruct l. Qed.

Section Lists.
Context `{ShLaws}.

Fixpoint run_all (l : list (list string)) (p : Proc) : Proc :=
  match l with
  | [] => p
  | w :: l' => let q := sh_util w p in if pc_status q =? 0 then run_all l' q else q
  end.

Lemma and_text_list_char l : forallb simple l = true → string_all list_char (and_text l) = true.
Proof.
  induction l as [|w l IH]; [done|]. cbn [forallb]. intros [Hw Hl]%andb_true_iff.
  destruct l as [|v l]; [by apply simple_list_char|]. rewrite and_text_cons by done.
  rewrite !string_all_app, simple_list_char, IH by done. done.
Qed.

Lemma exec_and_text l p : l ≠ [] → forallb simple l = true → sh_exec (and_text l) p = run_all l p.
Proof.
  intros Hn Hs. revert p. induction l as [|w l IH]; [done|]. intros p. apply andb_true_iff in Hs as [Hw Hl].
  destruct l as [|v l].
  - cbn [and_text run_all]. rewrite sh_simple by done. by case_match.
  - rewrite and_text_cons, sh_and by (done || by apply and_text_list_char). cbn zeta.
    change (run_all (w :: v :: l) p) with (let q := sh_util w p in if pc_status q =? 0 then run_all (v :: l) q else q).
    cbn zeta. by rewrite IH.
Qed.

(** One command that gives what is known. *)
Lemma run_all_step w l p q : sh_util w p = q → pc_status q = 0 → run_all (w :: l) p = run_all l q.
Proof. intros <- Hq. cbn [run_all]. by rewrite Hq. Qed.

(** [... && ...; echo $?]. *)
Lemma exec_status l p q :
  l ≠ [] → forallb simple l = true → run_all l p = q →
  sh_exec (and_text l +:+ ";echo $?") p =
  mkProc (pc_cwd q) (pc_disk q) 0 (pc_out q +:+ pretty (pc_status q) +:+ String newline "").
Proof.
  intros Hn Hs <-. change (";echo $?") with (";" +:+ "echo $?"). rewrite sh_seq by by apply and_text_list_char.
  by rewrite exec_and_text, sh_echo.
Qed.

(** [... && ... && echo $?] prints nothing when a command fails. *)
Lemma exec_and_echo l p :
  l ≠ [] → forallb simple l = true →
  sh_exec (and_text (l ++ [["echo"; "$?"]])) p =
  let q := run_all l p in if pc_status q =? 0 then sh_exec "echo $?" q else q.
Proof.
  intros Hn Hs. revert p. induction l as [|w l IH]; [done|]. intros p. apply andb_true_iff in Hs as [Hw Hl].
  cbn [app]. rewrite and_text_cons by by destruct l. rewrite sh_and; [|done|].
  - cbn zeta. cbn [run_all]. destruct (decide (l = [])) as [->|Hne]; [cbn; by destruct (_ =? 0) eqn:E; rewrite ?E|].
    rewrite IH by done. by destruct (pc_status (sh_util w p) =? 0) eqn:E; rewrite ?E.
  - clear IH Hw Hn. induction l as [|v l IH]; [done|]. cbn [app]. rewrite and_text_cons by by destruct l.
    cbn [forallb] in Hl. apply andb_true_iff in Hl as [Hv Hl]. rewrite !string_all_app, simple_list_char, IH by done. done.
Qed.
End Lists.

(** ** Commands of an executor *)

Section Commands.
Context `{ShellHost, Traced X}.

Lemma answer_shell cmd (x : X) q :
  sh_exec cmd (new_shell (default "" host_getcwd) (disk_at (trace x))) = q →
  answer cmd x = shell_result (Some (pc_out q)) ∧ disk_at (trace (add_effect (RunCommand cmd) x)) = pc_disk q.
Proof. intros <-. unfold answer. by rewrite popen_runs, trace_add_effect, disk_run. Qed.
End Commands.

(** ** A small shell with the laws *)

Module MiniShell.
Fixpoint ends_in_slash (s : string) : bool :=
  match s with "" => false | String c "" => Ascii.eqb c "/" | String _ s' => ends_in_slash s' end.
(** The text before the last slash. *)
Fixpoint dirname (s : string) : string :=
  match s with "" => "" | String c s' => if lacks "/" s' then "" else String c (dirname s') end.
Definition cd_target (cwd a : string) : string := if decide (a = "..") then dirname cwd else resolve cwd a.
Definition components (a : string) : list string :=
  match a with String "." (String "/" q) => explode q "/" | _ => explode a "/" end.
Definition without_dot (a : string) : string :=
  match a with String "." (String "/" q) => q | _ => a end.
Fixpoint drop_last (s : string) : string :=
  match s with "" | String _ "" => "" | String c s' => String c (drop_last s') end.

Definition cp (args : list string) (p : Proc) : Proc :=
  let D := pc_disk p in
  let srcs := List.removelast args in
  let t := List.last args "" in
  if ends_in_slash t then
    let names := without_dot <$> srcs in
    if decide (Forall (λ n, is_Some (dk_files D !! sub (pc_cwd p) n)) names)
    then succeed (copies (pc_cwd p) (drop_last t) names D) p else fails_with 1 p
  else
    match srcs with
    | [a] =>
        match dk_files D !! resolve (pc_cwd p) a with
        | Some x => if decide (resolve (pc_cwd p) a = t ∨ t ∈ dk_dirs D) then fails_with 1 p else succeed (write t x D) p
        | None => fails_with 1 p
        end
    | _ => fails_with 1 p
    end.

Definition util (w : list string) (p : Proc) : Proc :=
  let D := pc_disk p in
  match w with
  | [] => p
  | u :: args =>
      if decide (u = "cp") then cp args p
      else if decide (u = "cd") then
        let d := cd_target (pc_cwd p) (List.last args "") in
        if decide (d ∈ dk_dirs D) then moved d p else fails_with 1 p
      else if decide (u = "mkdir") then
        match args with
        | [n] => if decide (sub (pc_cwd p) n ∈ dk_dirs D) then fails_with 1 p
                 else succeed (add_dirs [sub (pc_cwd p) n] D) p
        | _ => succeed (add_dirs (below (pc_cwd p) (components (List.last args ""))) D) p
        end
      else if decide (u = "[") then
        fails_with (if decide (is_Some (dk_files D !! nth 1 args "")) then 0 else 1) p
      else if decide (u = "sed") then succeed (write (List.last args "") (default "" (dk_files D !! List.last args "")) D) p
      else if decide (u = "echo") then
        if decide (args = ["$?"])
        then mkProc (pc_cwd p) D 0 (pc_out p +:+ pretty (pc_status p) +:+ String newline "")
        else mkProc (pc_cwd p) D 0 (pc_out p +:+ "/home" +:+ String newline "")
      else succeed D p
  end.

Definition words (c : string) : list string := filter (λ s, s ≠ "") (explode c " ").
Fixpoint and_list (l : list string) (p : Proc) : Proc :=
  match l with
  | [] => p
  | c :: l' => let q := util (words c) p in if pc_status q =? 0 then and_list l' q else q
  end.
Definition commands (c : string) : list string := explode c "&".
Definition exec (c : string) (p : Proc) : Proc := foldl (λ p c, and_list (commands c) p) p (explode c ";").

#[export] Instance sh : Sh := {| sh_exec := exec; sh_util := util |}.

Lemma explode_cons x s d :
  x ≠ d → explode (String x s) d = match explode s d with [] => [String x ""] | t :: ts => String x t :: ts end.
Proof. intros Hx. rewrite !explode_split. cbn. by destruct (Ascii.eqb_spec x d). Qed.

Lemma words_space s : words (String " " s) = words s.
Proof. unfold words. rewrite !explode_split. reflexivity. Qed.

Definition clean (s : string) : Prop := lacks " " s = true ∧ s ≠ "".

Lemma filter_clean w : Forall clean w → filter (λ s, s ≠ "") w = w.
Proof. induction 1 as [|s w [_ Hs] _ IH]; [done|]. by rewrite filter_cons_True, IH. Qed.

Lemma words_unwords w : Forall clean w → words (unwords w) = w.
Proof. intros Hw. unfold words. rewrite explode_sep_all by done. by apply filter_clean. Qed.

Lemma words_unwords_space w : Forall clean w → words (unwords w +:+ " ") = w.
Proof.
  intros Hw. destruct w as [|s w]; [done|].
  replace (unwords (s :: w) +:+ " ") with (terminate_all " " (s :: w)).
  - unfold words. rewrite explode_terminate_all; [by apply filter_clean|].
    eapply Forall_impl; [exact Hw|]. by intros ? [? _].
  - clear Hw. revert s. induction w as [|v w IH]; intros s; [done|].
    change (s +:+ String " " (terminate_all " " (v :: w)) = (s +:+ String " " (unwords (v :: w))) +:+ " ").
    by rewrite IH, <- str_app_assoc, str_app_cons.
Qed.

Lemma simple_clean w : simple w = true → Forall clean w.
Proof. apply simple_words; try done. intros c Hc. by rewrite (plain_char_not c " " Hc). Qed.

(** A text without [;] is one list of commands, from blank to blank. *)
Lemma exec_list c p : lacks ";" c = true → exec c p = and_list (commands c) p.
Proof. intros Hc. destruct (decide (c = "")) as [->|Hn]; [done|]. unfold exec. by rewrite explode_last. Qed.

Lemma and_list_space c p : and_list (commands (String " " c)) p = and_list (commands c) p.
Proof.
  unfold commands. rewrite explode_cons by done. destruct (explode c "&") as [|t ts]; cbn [and_list].
  - cbn. by case_match.
  - by rewrite words_space.
Qed.

Lemma list_char_semi s : string_all list_char s = true → lacks ";" s = true.
Proof.
  apply string_all_impl. intros c Hc. unfold list_char in Hc.
  destruct (Ascii.eqb_spec c ";") as [->|]; [done|done].
Qed.

Lemma resolve_name cwd n : plain_name n = true → resolve cwd n = sub cwd n ∧ cd_target cwd n = sub cwd n.
Proof.
  unfold plain_name, cd_target. rewrite !andb_true_iff. intros [[[_ Hn] Hu] Hd].
  apply negb_true_iff, bool_decide_eq_false in Hu. rewrite decide_False by done.
  cut (resolve cwd n = sub cwd n); [done|]. destruct n as [|c n]; [done|]. cbn in Hn.
  apply andb_true_iff in Hn as [Hc Hn]. destruct c as [[] [] [] [] [] [] [] []]; try done.
  destruct n as [|c n]; [done|]. cbn in Hn. apply andb_true_iff in Hn as [Hc' Hn].
  by destruct c as [[] [] [] [] [] [] [] []].
Qed.

Lemma absolute_resolve cwd d : absolute d = true → resolve cwd d = d ∧ cd_target cwd d = d.
Proof.
  intros Hd. unfold cd_target. destruct d as [|c d]; [done|]. cbn in Hd. apply Ascii.eqb_eq in Hd as ->.
  split; [done|]. by rewrite decide_False.
Qed.

Lemma lacks_sub d n : lacks "/" (sub d n) = false.
Proof. unfold sub. rewrite lacks_app. cbn. by rewrite andb_false_r. Qed.

Lemma dirname_sub d n : lacks "/" n = true → dirname (sub d n) = d.
Proof.
  intros Hn. induction d as [|c d IH].
  - unfold sub. rewrite str_app_nil_l. cbn. by rewrite Hn.
  - unfold sub in *. rewrite str_app_cons. cbn [dirname].
    pose proof (lacks_sub d n) as E. unfold sub in E. by rewrite E, IH.
Qed.

Lemma ends_in_slash_app s t : t ≠ "" → ends_in_slash (s +:+ t) = ends_in_slash t.
Proof.
  intros Ht. induction s as [|c s IH]; [done|]. rewrite str_app_cons. cbn [ends_in_slash]. rewrite <- IH.
  destruct s, t; done.
Qed.

Lemma ends_in_slash_name n : n ≠ "" → lacks "/" n = true → ends_in_slash n = false.
Proof.
  induction n as [|c n IH]; [done|]. cbn. intros _ [Hc Hn]%andb_true_iff. destruct n; [by apply negb_true_iff|by apply IH].
Qed.

Lemma ends_in_slash_sub d n : plain_name n = true → ends_in_slash (sub d n) = false.
Proof.
  unfold plain_name. rewrite !andb_true_iff. intros [[[[_ Hn]%plain_chars Hl] _] _]. unfold sub.
  rewrite ends_in_slash_app by done. cbn. destruct n; [done|]. by apply ends_in_slash_name.
Qed.

Lemma drop_last_snoc d c : drop_last (d +:+ String c "") = d.
Proof.
  induction d as [|a d IH]; [done|]. rewrite str_app_cons. cbn [drop_last]. rewrite IH.
  destruct d; done.
Qed.

Lemma components_path names : forallb plain_name names = true → components ("./" +:+ path names) = names.
Proof.
  intros Hn. change (explode (path names) "/" = names). apply explode_sep_all, Forall_forall.
  intros n Hi. rewrite forallb_forall in Hn. specialize (Hn n (proj1 (list_elem_of_In _ _) Hi)).
  unfold plain_name in Hn. rewrite !andb_true_iff in Hn. destruct Hn as [[[[_ ?]%plain_chars ?] _] _]. done.
Qed.

Lemma simple_nonempty w : simple w = true → unwords w ≠ "".
Proof.
  intros Hw. pose proof (simple_clean w Hw) as Hc. destruct w as [|s w]; [done|].
  apply Forall_cons in Hc as [[_ Hs] _]. destruct s; [done|]. by destruct w.
Qed.

Lemma exec_simple w p : simple w = true → exec (unwords w) p = util w p.
Proof.
  intros Hw. rewrite exec_list by by apply simple_lacks. unfold commands.
  rewrite explode_last by (by apply simple_lacks || by apply simple_nonempty). cbn [and_list].
  rewrite words_unwords by by apply simple_clean. cbn zeta. by destruct (_ =? 0).
Qed.

Lemma exec_and w c p : simple w = true → string_all list_char c = true →
  exec (unwords w +:+ " && " +:+ c) p = let q := util w p in if pc_status q =? 0 then exec c q else q.
Proof.
  intros Hw Hc%list_char_semi. rewrite exec_list; [|by rewrite !lacks_app, simple_lacks, Hc].
  unfold commands. change (unwords w +:+ " && " +:+ c) with (unwords w +:+ (String " " (String "&" (String "&" (String " " c))))).
  replace (unwords w +:+ String " " (String "&" (String "&" (String " " c))))
    with ((unwords w +:+ " ") +:+ String "&" ("" +:+ String "&" (String " " c))) by (by rewrite <- str_app_assoc).
  rewrite explode_delim by (by rewrite lacks_app, simple_lacks). rewrite explode_delim by done.
  change (explode (String " " c) "&") with (commands (String " " c)). cbn [and_list].
  rewrite words_unwords_space by by apply simple_clean. cbn zeta. destruct (pc_status (util w p) =? 0) eqn:E; [|done].
  change (words "") with (@nil string). cbn [util]. rewrite E, and_list_space. by rewrite exec_list.
Qed.

Lemma exec_seq c1 c2 p : string_all list_char c1 = true → exec (c1 +:+ ";" +:+ c2) p = exec c2 (exec c1 p).
Proof.
  intros Hc%list_char_semi. rewrite (exec_list c1) by done. unfold exec at 1.
  change (c1 +:+ ";" +:+ c2) with (c1 +:+ String ";" c2). by rewrite explode_delim.
Qed.

Lemma exec_sed f p : plain f = true → ∃ data,
  pc_disk (exec ("sed -i '/osd journal size/d' " +:+ f +:+ "; echo $?") p) = write f data (pc_disk p).
Proof.
  intros [Hf Hn]%plain_chars. eexists. unfold exec.
  assert (Hl : ∀ d, plain_char d = false → lacks d f = true) by (intros d Hd; by apply plain_lacks).
  set (w := ["sed"; "-i"; "'/osd"; "journal"; "size/d'"; f]).
  replace ("sed -i '/osd journal size/d' " +:+ f +:+ "; echo $?") with (unwords w +:+ String ";" " echo $?")
    by (cbn [sep w]; by rewrite <- !str_app_assoc).
  assert (Hw : ∀ d, Ascii.eqb " " d = false → forallb (lacks d) ["sed"; "-i"; "'/osd"; "journal"; "size/d'"] = true →
                 plain_char d = false → lacks d (unwords w) = true).
  { intros d Hd Ho Hp. apply string_all_sep; [by rewrite Hd|]. cbn [forallb] in Ho. rewrite !andb_true_iff in Ho.
    destruct Ho as (? & ? & ? & ? & ? & _). repeat constructor; try done. by apply Hl. }
  rewrite explode_delim by by apply Hw.
  cbn [foldl]. change (explode " echo $?" ";") with [" echo $?"]. cbn [foldl]. unfold commands at 2.
  rewrite explode_last; [|by apply Hw|done].
  cbn [and_list]. rewrite words_unwords.
  2: { unfold clean. repeat constructor; try done. by apply Hl. }
  reflexivity.
Qed.

Lemma util_cd a p : util ["cd"; a] p =
  if decide (cd_target (pc_cwd p) a ∈ dk_dirs (pc_disk p)) then moved (cd_target (pc_cwd p) a) p else fails_with 1 p.
Proof. reflexivity. Qed.
Lemma util_mkdir n p : util ["mkdir"; n] p =
  if decide (sub (pc_cwd p) n ∈ dk_dirs (pc_disk p)) then fails_with 1 p
  else succeed (add_dirs [sub (pc_cwd p) n] (pc_disk p)) p.
Proof. reflexivity. Qed.
Lemma util_mkdir_p a p : util ["mkdir"; "-p"; a] p = succeed (add_dirs (below (pc_cwd p) (components a)) (pc_disk p)) p.
Proof. reflexivity. Qed.
Lemma util_cp args p : util ("cp" :: args) p = cp args p.
Proof. reflexivity. Qed.

#[export] Instance laws : ShLaws.
Proof.
  split; cbn [sh_exec sh_util sh].
  - exact exec_simple.
  - exact exec_and.
  - exact exec_seq.
  - intros p. reflexivity.
  - intros p. reflexivity.
  - intros f p Hf _ _. by apply exec_sed.
  - intros d p Hd Hin. rewrite util_cd. destruct (absolute_resolve (pc_cwd p) d Hd) as [_ ->]. by rewrite decide_True.
  - intros n p Hn Hin. rewrite util_cd. destruct (resolve_name (pc_cwd p) n Hn) as [_ ->]. by rewrite decide_True.
  - intros d n p E Hn Hin. rewrite util_cd. unfold cd_target. rewrite (decide_True (P := ".." = "..")) by done.
    rewrite E, dirname_sub by done. by rewrite decide_True.
  - intros n p Hn _ Hd _. rewrite util_mkdir. by rewrite decide_False.
  - intros n p Hn Hd. rewrite util_mkdir. by rewrite decide_True.
  - intros names p _ Hn _ _. by rewrite util_mkdir_p, components_path.
  - intros n p _ _. reflexivity.
  - intros a d n x p Hx Ha Hn Hd Hs Hne. rewrite util_cp. unfold cp. cbn [List.removelast List.last].
    rewrite ends_in_slash_sub, Hx by done. rewrite decide_False; [done|]. by intros [?|?].
  - intros names d p Hn _ Hp Hd Hin Hne Hf. rewrite util_cp. unfold cp.
    rewrite List.removelast_last, List.last_last, ends_in_slash_app by done. cbn [ends_in_slash]. rewrite Ascii.eqb_refl.
    rewrite <- list_fmap_compose, (list_fmap_id names : without_dot ∘ (λ n, "./" +:+ n) <$> names = names), drop_last_snoc.
    cbn zeta. rewrite decide_True; [done|]. eapply Forall_impl; [exact Hf|]. by intros n [? _].
  - intros f p Hf Ha. reflexivity.
Qed.
End MiniShell.
