(* ===== verification/DiskExec.v ===== *)
(** * The disk executor: [executor/DiskExecutor.cpp]

    It partitions and formats the devices the scheduler labels its task with,
    and reports the ones that failed in the message the scheduler parses. *)

From S2P Require Import Prelude StringUtil CephTypes ConfigFile HostConfigs TaskMachine Mesos Agent Executor.
Open Scope Z_scope.

(** ** State *)

Record DiskExecutor := mkDiskExecutor {
  dx_myTaskId : string;
  dx_myHostname : string;
  dx_pendingOSDDevs : list string;
  dx_pendingJNLDevs : list string;
  dx_failedOSDDevs : list string;
  dx_failedJNLDevs : list string;
  dx_jnlPartitionCount : Z;
  dx_trace : list Effect;
}.

(** Initializers of the class; [fsType] and [mkfsFLAGS] are never assigned. *)
Definition new_DiskExecutor : DiskExecutor := mkDiskExecutor "" "" [] [] [] [] 4 [].
Definition fsType : string := "xfs".
Definition mkfsFLAGS : string := " -f -i size=2048 -n size=64k".

Definition dx_set_task (id : string) (x : DiskExecutor) : DiskExecutor :=
  mkDiskExecutor id (dx_myHostname x) (dx_pendingOSDDevs x) (dx_pendingJNLDevs x)
    (dx_failedOSDDevs x) (dx_failedJNLDevs x) (dx_jnlPartitionCount x) (dx_trace x).
Definition dx_set_hostname (h : string) (x : DiskExecutor) : DiskExecutor :=
  mkDiskExecutor (dx_myTaskId x) h (dx_pendingOSDDevs x) (dx_pendingJNLDevs x)
    (dx_failedOSDDevs x) (dx_failedJNLDevs x) (dx_jnlPartitionCount x) (dx_trace x).
Definition dx_add_pending (osd jnl : list string) (x : DiskExecutor) : DiskExecutor :=
  mkDiskExecutor (dx_myTaskId x) (dx_myHostname x) (dx_pendingOSDDevs x ++ osd) (dx_pendingJNLDevs x ++ jnl)
    (dx_failedOSDDevs x) (dx_failedJNLDevs x) (dx_jnlPartitionCount x) (dx_trace x).
Definition dx_add_failed (osd jnl : list string) (x : DiskExecutor) : DiskExecutor :=
  mkDiskExecutor (dx_myTaskId x) (dx_myHostname x) (dx_pendingOSDDevs x) (dx_pendingJNLDevs x)
    (dx_failedOSDDevs x ++ osd) (dx_failedJNLDevs x ++ jnl) (dx_jnlPartitionCount x) (dx_trace x).
Definition dx_set_count (n : Z) (x : DiskExecutor) : DiskExecutor :=
  mkDiskExecutor (dx_myTaskId x) (dx_myHostname x) (dx_pendingOSDDevs x) (dx_pendingJNLDevs x)
    (dx_failedOSDDevs x) (dx_failedJNLDevs x) n (dx_trace x).
Definition dx_add_effect (e : Effect) (x : DiskExecutor) : DiskExecutor :=
  mkDiskExecutor (dx_myTaskId x) (dx_myHostname x) (dx_pendingOSDDevs x) (dx_pendingJNLDevs x)
    (dx_failedOSDDevs x) (dx_failedJNLDevs x) (dx_jnlPartitionCount x) (dx_trace x ++ [e]).

#[export] Instance DiskExecutor_traced : Traced DiskExecutor :=
  {| trace := dx_trace; add_effect := dx_add_effect; trace_add_effect e x := eq_refl |}.

(** ** Operations *)

Section DiskExecutor.
Context `{LexicalCast, MesosResources, Host}.

Definition run (cmd : string) : ST DiskExecutor unit := _ ← runShellCommand cmd; mret tt.

Definition registered (hostname : string) : ST DiskExecutor unit := modify (dx_set_hostname hostname).

(** One label; the keys are compared by [strcmp]. *)
Definition add_label (l : Label) : ST DiskExecutor unit :=
  let key := c_str (lb_key l) in
  _ ← (if decide (CustomData.osddevsKey = key) then modify (dx_add_pending [lb_value l] []) else mret tt);
  _ ← (if decide (CustomData.jnldevsKey = key) then modify (dx_add_pending [] [lb_value l]) else mret tt);
  if decide (CustomData.jnlPartitionCountKey = key) then
    n ← lift (lexical_to_int (lb_value l));
    modify (dx_set_count n)
  else mret tt.

Definition addPendingDisks (task : TaskInfo) : ST DiskExecutor bool :=
  match ti_labels task with
  | Some labels =>
      if bool_decide (labels = []) then mret false
      else
        _ ← foreach labels (λ _ l, add_label l) tt;
        mret true
  | None => mret false
  end.

Definition mkpart_cmd (diskpath partitionLabel : string) (i start last : Z) : string :=
  "parted " +:+ diskpath +:+ " mkpart " +:+ partitionLabel +:+ " "
  +:+ lexical_to_string start +:+ (if 0 =? i then "" else "%") +:+ " " +:+ lexical_to_string last
  +:+ "%" +:+ " &>/dev/null 2>/dev/null".

(** The loop of [partitionDisk], [n] iterations left, from [i]. *)
Fixpoint mkpart_loop (n : nat) (i start last partitionCount : Z) (diskpath partitionLabel : string)
    : ST DiskExecutor unit :=
  match n with
  | O => mret tt
  | S n' =>
      let cmd := mkpart_cmd diskpath partitionLabel i start last in
      let start := last in
      let last := start + Z.quot 100 partitionCount in
      _ ← run cmd;
      mkpart_loop n' (i + 1) start last partitionCount diskpath partitionLabel
  end.

Definition dd_cmd (diskpath : string) : string :=
  "dd if=/dev/zero of=" +:+ diskpath +:+ " bs=4M count=1 oflag=direct 2>/dev/null;echo $?".
Definition mklabel_cmd (diskpath : string) : string :=
  "parted " +:+ diskpath +:+ "  mklabel gpt &>/dev/null 2>/dev/null".

Definition partitionDisk (diskname : string) (partitionCount : Z) (partitionLabel : string)
    : ST DiskExecutor unit :=
  let diskpath := "/dev/" +:+ diskname in
  _ ← run (dd_cmd diskpath);
  _ ← run (mklabel_cmd diskpath);
  if partitionCount =? 0 then lift Undef
  else
    let start := 1 in
    let last := Z.quot 100 partitionCount in
    mkpart_loop (Z.to_nat partitionCount) 0 start last partitionCount diskpath partitionLabel.

Definition mkfsDisk (diskname type flags : string) : ST DiskExecutor unit :=
  run ("mkfs." +:+ type +:+ flags +:+ " " +:+ diskname).

Definition count_cmd (diskname pattern : string) : string :=
  "parted /dev/" +:+ diskname +:+ " p |grep " +:+ pattern +:+ "|wc -l".

Definition checkSuccess (diskname : string) (partitionCount : Z) (partitionLabel : string)
    : ST DiskExecutor bool :=
  out ← runShellCommand (count_cmd diskname partitionLabel);
  pCount ← lift (lexical_to_int out);
  out ← runShellCommand (count_cmd diskname fsType);
  fsTypeCount ← lift (lexical_to_int out);
  mret ((partitionCount =? pCount) && (partitionCount =? fsTypeCount)).

Definition osdlabel : string := "cephosddata".
Definition jnllabel : string := "cephjnldata".

(** The bodies of the two loops of [prepareDisks]. *)
Definition prepare_osd (dev : string) : ST DiskExecutor unit :=
  _ ← partitionDisk dev 1 osdlabel;
  _ ← mkfsDisk ("/dev/" +:+ dev +:+ "1") fsType mkfsFLAGS;
  r ← checkSuccess dev 1 osdlabel;
  if (r : bool) then mret tt else modify (dx_add_failed [dev] []).

Definition prepare_jnl (dev : string) : ST DiskExecutor unit :=
  jnlPartitionCount ← gets dx_jnlPartitionCount;
  _ ← partitionDisk dev jnlPartitionCount jnllabel;
  _ ← foreach (seqZ 1 jnlPartitionCount)
        (λ _ j, mkfsDisk ("/dev/" +:+ dev +:+ lexical_to_string j) fsType mkfsFLAGS) tt;
  r ← checkSuccess dev jnlPartitionCount jnllabel;
  if (r : bool) then mret tt else modify (dx_add_failed [] [dev]).

Definition prepareDisks : ST DiskExecutor unit :=
  pendingOSDDevs ← gets dx_pendingOSDDevs;
  _ ← foreach pendingOSDDevs (λ _ dev, prepare_osd dev) tt;
  pendingJNLDevs ← gets dx_pendingJNLDevs;
  foreach pendingJNLDevs (λ _ dev, prepare_jnl dev) tt.

(** The loop over [failedJNLDevs]: only the last device gets its comma. *)
Fixpoint jnl_part (tmp : string) (failedJNLDevs : list string) : string :=
  match failedJNLDevs with
  | [] => tmp
  | [d] => tmp +:+ d +:+ ","
  | d :: rest => jnl_part (tmp +:+ d) rest
  end.

Definition failed_string (x : DiskExecutor) : string :=
  let tmp := foldl (λ tmp d, tmp +:+ d +:+ ",") "" (dx_failedOSDDevs x) in
  jnl_part tmp (dx_failedJNLDevs x).

Definition prepareReturnValue (x : DiskExecutor) : string :=
  let msg := lexical_to_string (MessageToScheduler_to_int DISK_READY) in
  let tmp := failed_string x in
  msg +:+ "." +:+ dx_myHostname x +:+ ":" +:+ (if decide ("" = tmp) then "-" else tmp).

Definition launchTask (task : TaskInfo) : ST DiskExecutor unit :=
  _ ← modify (dx_set_task (ti_task_id task));
  ok ← addPendingDisks task;
  _ ← (if (ok : bool) then mret tt
       else effect_do (SendStatusUpdate (mkTaskStatus (ti_task_id task) TASK_FAILED None)));
  _ ← prepareDisks;
  msg ← gets prepareReturnValue;
  effect_do (SendStatusUpdate (mkTaskStatus (ti_task_id task) TASK_FINISHED (Some msg))).

(** Callbacks with an empty body. *)
Definition reregistered : ST DiskExecutor unit := mret tt.
Definition disconnected : ST DiskExecutor unit := mret tt.
Definition killTask (taskId : string) : ST DiskExecutor unit := mret tt.
Definition error (message : string) : ST DiskExecutor unit := mret tt.
Definition frameworkMessage (data : string) : ST DiskExecutor unit := mret tt.
Definition shutdown : ST DiskExecutor unit := mret tt.

(** The virtual methods, as the driver calls them. *)
Definition callback (cb : ExecutorCallback) : ST DiskExecutor unit :=
  match cb with
  | EX_registered hostname => registered hostname
  | EX_reregistered => reregistered
  | EX_disconnected => disconnected
  | EX_launchTask task => launchTask task
  | EX_killTask taskId => killTask taskId
  | EX_frameworkMessage data => frameworkMessage data
  | EX_shutdown => shutdown
  | EX_error message => error message
  end.

(** [main], given the callbacks of the driver and what [run] returns. *)
Definition main (callbacks : list ExecutorCallback) (status : DriverStatus) : ST DiskExecutor Z :=
  _ ← foreach callbacks (λ _, callback) tt;
  mret (if decide (status = DRIVER_STOPPED) then 0 else 1).
End DiskExecutor.

(** ** Facts *)

Section DiskFacts.
Context `{LexicalCast, MesosResources, Host}.

Lemma run_Ret cmd (x x' : DiskExecutor) u : run cmd x = (x', Ret u) → x' = dx_add_effect (RunCommand cmd) x.
Proof. unfold run. intros E. by inv_exec. Qed.

Lemma run_eq cmd (x : DiskExecutor) : run cmd x = (dx_add_effect (RunCommand cmd) x, Ret tt).
Proof. done. Qed.

(** Several commands in a row. *)
Definition ran (cmds : list string) (x : DiskExecutor) : DiskExecutor :=
  foldl (λ x cmd, dx_add_effect (RunCommand cmd) x) x cmds.

#[local] Arguments ran : simpl never.

Lemma ran_trace cmds x : dx_trace (ran cmds x) = dx_trace x ++ (RunCommand <$> cmds).
Proof.
  revert x. unfold ran. induction cmds as [|c cmds IH]; intros x; cbn; [by rewrite app_nil_r|].
  rewrite IH. cbn. by rewrite <- app_assoc.
Qed.

(** The bounds of partition [i] out of [n]: consecutive, from 1 (MB). *)
Definition part_start (n i : Z) : Z := if i =? 0 then 1 else i * Z.quot 100 n.
Definition part_end (n i : Z) : Z := (i + 1) * Z.quot 100 n.
Definition mkpart_cmds (diskname label : string) (n : Z) : list string :=
  (λ i, mkpart_cmd ("/dev/" +:+ diskname) label i (part_start n i) (part_end n i)) <$> seqZ 0 n.

Lemma mkpart_loop_eq k i n dp label x :
  0 ≤ i →
  mkpart_loop k i (part_start n i) (part_end n i) n dp label x =
  (ran ((λ i, mkpart_cmd dp label i (part_start n i) (part_end n i)) <$> seqZ i (Z.of_nat k)) x, Ret tt).
Proof.
  revert i x. induction k as [|k IH]; intros i x Hi; [done|].
  rewrite seqZ_cons by lia. cbn [mkpart_loop]. cbn zeta. rewrite (bind_eq _ _ _ _ _ (run_eq _ _)).
  set (x1 := dx_add_effect _ x). specialize (IH (i + 1) x1 ltac:(lia)).
  replace (part_start n (i + 1)) with (part_end n i) in IH at 1
    by (unfold part_start, part_end; by rewrite (proj2 (Z.eqb_neq (i + 1) 0)) by lia).
  replace (part_end n (i + 1)) with (part_end n i + Z.quot 100 n) in IH at 1 by (unfold part_end; lia).
  rewrite IH. replace (Z.pred (Z.of_nat (S k))) with (Z.of_nat k) by lia. done.
Qed.

Lemma partitionDisk_eq diskname n label x :
  partitionDisk diskname n label x =
  let x2 := ran [dd_cmd ("/dev/" +:+ diskname); mklabel_cmd ("/dev/" +:+ diskname)] x in
  if n =? 0 then (x2, Undef) else (ran (mkpart_cmds diskname label n) x2, Ret tt).
Proof.
  unfold partitionDisk. cbn zeta. rewrite !(bind_eq _ _ _ _ _ (run_eq _ _)).
  destruct (Z.eqb_spec n 0); [done|].
  set (x2 := dx_add_effect _ _).
  pose proof (mkpart_loop_eq (Z.to_nat n) 0 n ("/dev/" +:+ diskname) label x2 ltac:(lia)) as E.
  replace (part_end n 0) with (Z.quot 100 n) in E at 1 by (unfold part_end; lia).
  change (part_start n 0) with 1 in E at 1. rewrite E. unfold mkpart_cmds. destruct (decide (0 ≤ n)); [by rewrite Z2Nat.id|].
  replace (Z.of_nat (Z.to_nat n)) with 0 by lia.
  rewrite !seqZ_nil by lia. done.
Qed.

(** What preparing the disks leaves unchanged: [same_task x x'] when only effects
    and failed devices were added. *)
Record same_task (x x' : DiskExecutor) : Prop := {
  same_task_id : dx_myTaskId x' = dx_myTaskId x;
  same_task_host : dx_myHostname x' = dx_myHostname x;
  same_task_osd : dx_pendingOSDDevs x' = dx_pendingOSDDevs x;
  same_task_jnl : dx_pendingJNLDevs x' = dx_pendingJNLDevs x;
}.

#[global] Instance same_task_preorder : PreOrder same_task.
Proof. split; [by intros x|]. intros x y z [? ? ? ?] [? ? ? ?]. split; congruence. Qed.

(** Only pending devices are reported as failed. *)
Definition failed_pending (x : DiskExecutor) : Prop :=
  dx_failedOSDDevs x ⊆ dx_pendingOSDDevs x ∧ dx_failedJNLDevs x ⊆ dx_pendingJNLDevs x.

Definition disk_inv (x0 x : DiskExecutor) : Prop := same_task x0 x ∧ failed_pending x.

Lemma disk_inv_effect x0 e x : disk_inv x0 x → disk_inv x0 (dx_add_effect e x).
Proof. intros [[? ? ? ?] Hf]. done. Qed.

Lemma disk_inv_ran x0 cmds x : disk_inv x0 x → disk_inv x0 (ran cmds x).
Proof.
  revert x. induction cmds as [|c cmds IH]; intros x Hi; [done|]. apply IH. by apply disk_inv_effect.
Qed.

Lemma disk_inv_partition x0 d n l x x' u :
  disk_inv x0 x → partitionDisk d n l x = (x', Ret u) → disk_inv x0 x'.
Proof.
  rewrite partitionDisk_eq. cbn zeta. case_match; [done|]. intros Hi [= <- _]. by apply disk_inv_ran, disk_inv_ran.
Qed.

Lemma checkSuccess_Ret d n l x x' b :
  checkSuccess d n l x = (x', Ret b) → x' = ran [count_cmd d l; count_cmd d fsType] x.
Proof. unfold checkSuccess. intros E. by inv_exec. Qed.

Lemma disk_inv_failed x0 osd jnl x :
  osd ⊆ dx_pendingOSDDevs x0 → jnl ⊆ dx_pendingJNLDevs x0 →
  disk_inv x0 x → disk_inv x0 (dx_add_failed osd jnl x).
Proof.
  intros Hosd Hjnl [Hk [Ho Hj]]. pose proof Hk as [? ? Eo Ej]. split; [by split|].
  split; cbn; intros y [Hy|Hy]%elem_of_app; rewrite ?Eo, ?Ej in *; auto.
Qed.

(** The end of both loop bodies: the check, then the failed device. *)
Lemma check_inv x0 d n l osd jnl x x' u :
  osd ⊆ dx_pendingOSDDevs x0 → jnl ⊆ dx_pendingJNLDevs x0 → disk_inv x0 x →
  (r ← checkSuccess d n l; if (r : bool) then mret tt else modify (dx_add_failed osd jnl)) x = (x', Ret u) →
  disk_inv x0 x'.
Proof.
  intros Hosd Hjnl Hi E. inv_run_step.
  match goal with Hc : checkSuccess _ _ _ _ = _ |- _ => apply checkSuccess_Ret in Hc; subst end.
  run_if; inv_run; [|apply disk_inv_failed; [done..|]]; by apply disk_inv_ran.
Qed.

Lemma prepare_osd_inv x0 d x x' u :
  d ∈ dx_pendingOSDDevs x0 → disk_inv x0 x → prepare_osd d x = (x', Ret u) → disk_inv x0 x'.
Proof.
  intros Hd Hi E. unfold prepare_osd in E. inv_run_step. inv_run_step.
  apply (check_inv x0) in E; [done| |apply list_subseteq_nil|].
  - by intros y ->%list_elem_of_singleton.
  - match goal with Hm : mkfsDisk _ _ _ _ = _ |- _ => apply run_Ret in Hm; subst end.
    apply disk_inv_effect. by eapply disk_inv_partition.
Qed.

Lemma prepare_jnl_inv x0 d x x' u :
  d ∈ dx_pendingJNLDevs x0 → disk_inv x0 x → prepare_jnl d x = (x', Ret u) → disk_inv x0 x'.
Proof.
  intros Hd Hi E. unfold prepare_jnl in E. inv_run_step. inv_run_step. inv_run_step.
  apply (check_inv x0) in E; [done|apply list_subseteq_nil| |].
  - by intros y ->%list_elem_of_singleton.
  - inv_run. match goal with Hf : foreach _ _ _ _ = _ |- _ =>
      revert Hf; apply (foreach_Ret (λ _, disk_inv x0)) end.
    + intros j c1 y1 c2 y2 _ Hy Hm%run_Ret. subst. by apply disk_inv_effect.
    + by eapply disk_inv_partition.
Qed.

Lemma prepareDisks_inv x x' u :
  failed_pending x → prepareDisks x = (x', Ret u) → disk_inv x x'.
Proof.
  intros Hf E. unfold prepareDisks in E. inv_run.
  match goal with Ho : foreach (dx_pendingOSDDevs x) _ _ _ = (?y, _) |- _ => assert (Hy : disk_inv x y) end.
  { match goal with Ho : foreach (dx_pendingOSDDevs x) _ _ _ = _ |- _ => revert Ho end.
    apply (foreach_Ret (λ _, disk_inv x)); [|by split].
    intros d c1 y1 c2 y2 Hd Hi1 E1. by eapply prepare_osd_inv. }
  revert E. apply (foreach_Ret (λ _, disk_inv x)); [|done].
  intros d c1 y1 c2 y2 Hd Hi1 E1. eapply prepare_jnl_inv; [|done|done].
  destruct Hy as [[_ _ _ <-] _]. done.
Qed.

(** The labels only add pending devices, from a state without failed ones. *)
Definition unfailed (h : string) (x : DiskExecutor) : Prop :=
  dx_failedOSDDevs x = [] ∧ dx_failedJNLDevs x = [] ∧ dx_myHostname x = h.

Lemma add_label_unfailed h l x x' u : unfailed h x → add_label l x = (x', Ret u) → unfailed h x'.
Proof.
  intros Hx E. unfold add_label in E. inv_run_step. inv_run_step.
  repeat case_decide; inv_run; done.
Qed.

Lemma addPendingDisks_unfailed h task x x' b :
  unfailed h x → addPendingDisks task x = (x', Ret b) → unfailed h x'.
Proof.
  intros Hx E. unfold addPendingDisks in E. case_match; [|by inv_run].
  run_if; inv_run; [done|].
  match goal with Hf : foreach _ _ _ _ = _ |- _ => revert Hf; apply (foreach_Ret (λ _, unfailed h)) end; [|done].
  intros y c1 s1 c2 s2 _ Hs1. by apply add_label_unfailed.
Qed.
End DiskFacts.

(** ** The report, as text *)

Definition concat_strings (l : list string) : string := foldr String.append "" l.

(** The failed journals, as they are printed: glued into one name. *)
Definition glued (l : list string) : list string :=
  match l with [] => [] | _ => [concat_strings l] end.

Lemma terminate_all_app d l1 l2 : terminate_all d (l1 ++ l2) = terminate_all d l1 +:+ terminate_all d l2.
Proof.
  induction l1 as [|t l1 IH]; [done|]. cbn [terminate_all app]. rewrite IH.
  by rewrite <- str_app_assoc, str_app_cons.
Qed.

Lemma osd_part_eq tmp l : foldl (λ tmp d, tmp +:+ d +:+ ",") tmp l = tmp +:+ terminate_all "," l.
Proof.
  revert tmp. induction l as [|d l IH]; intros tmp; cbn [foldl terminate_all]; [by rewrite str_app_nil_r|].
  rewrite IH, <- !str_app_assoc. by rewrite str_app_cons, str_app_nil_l.
Qed.

Lemma jnl_part_eq tmp l : jnl_part tmp l = tmp +:+ terminate_all "," (glued l).
Proof.
  revert tmp. induction l as [|d l IH]; intros tmp; [by rewrite str_app_nil_r|].
  destruct l as [|d' l].
  - cbn. by rewrite !str_app_nil_r.
  - change (jnl_part tmp (d :: d' :: l)) with (jnl_part (tmp +:+ d) (d' :: l)). rewrite IH.
    cbn [glued concat_strings foldr terminate_all]. by rewrite <- !str_app_assoc.
Qed.

Lemma failed_string_eq x :
  failed_string x = terminate_all "," (dx_failedOSDDevs x ++ glued (dx_failedJNLDevs x)).
Proof. unfold failed_string. rewrite osd_part_eq, str_app_nil_l, jnl_part_eq. by rewrite terminate_all_app. Qed.

Lemma lacks_concat d l : Forall (λ t, lacks d t = true) l → lacks d (concat_strings l) = true.
Proof.
  induction 1 as [|t l Ht Hl IH]; [done|].
  change (concat_strings (t :: l)) with (t +:+ concat_strings l). by rewrite lacks_app, Ht.
Qed.

Lemma lacks_glued d l : Forall (λ t, lacks d t = true) l → Forall (λ t, lacks d t = true) (glued l).
Proof. intros Hl. destruct l; [done|]. constructor; [by apply lacks_concat|constructor]. Qed.

Lemma lacks_terminate_all d e l : Forall (λ t, lacks d t = true) l → Ascii.eqb e d = false →
  lacks d (terminate_all e l) = true.
Proof.
  intros Hl He. induction Hl as [|t l Ht Hl IH]; [done|]. cbn [terminate_all].
  by rewrite lacks_app, lacks_cons, Ht, He, IH.
Qed.

Lemma lacks_failed_string d x :
  Forall (λ t, lacks d t = true) (dx_failedOSDDevs x) → Forall (λ t, lacks d t = true) (dx_failedJNLDevs x) →
  Ascii.eqb "," d = false → lacks d (failed_string x) = true.
Proof.
  intros Ho Hj Hd. rewrite failed_string_eq. apply lacks_terminate_all; [|done].
  apply Forall_app. split; [done|]. by apply lacks_glued.
Qed.

(** The list of failed devices of the report, "-" when there is none. *)
Definition report_devs (x : DiskExecutor) : string :=
  if decide ("" = failed_string x) then "-" else failed_string x.

Lemma prepareReturnValue_eq `{LexicalCast} x :
  prepareReturnValue x = disk_ready (dx_myHostname x) (report_devs x).
Proof.
  unfold prepareReturnValue, disk_ready, report_devs. cbn zeta.
  by rewrite !str_app_cons, !str_app_nil_l.
Qed.

(** The labels of the scheduler, read back. *)
Section Labels.
Context `{LexicalCast, MesosResources, Host}.

Lemma addPendingDisks_labels (hc : HostConfig) (task : TaskInfo) (x : DiskExecutor) :
  int_range (getJnlPartitionCount hc) → ti_labels task = Some (disk_labels hc) →
  addPendingDisks task x =
  (dx_set_count (getJnlPartitionCount hc)
     (dx_add_pending (hc_pendingOSDDevs hc) (hc_pendingJNLDevs hc) x), Ret true).
Proof.
  intros Hr Hl. unfold addPendingDisks. rewrite Hl.
  rewrite bool_decide_false by (unfold disk_labels; intros E; by apply app_eq_nil in E as [_ [_ ?]%app_eq_nil]).
  erewrite bind_eq; [done|]. unfold disk_labels.
  revert x. induction (hc_pendingOSDDevs hc) as [|d l IH]; intros x.
  - cbn [fmap list_fmap app]. revert x. induction (hc_pendingJNLDevs hc) as [|d l IH]; intros x.
    + cbn [fmap list_fmap app foreach]. erewrite bind_eq; [done|].
      unfold add_label. cbn [lb_key lb_value].
      unfold mbind, ST_bind, lift, modify, mret, ST_ret. cbn.
      rewrite lexical_roundtrip by done. destruct x. cbn. unfold dx_add_pending, dx_set_count. cbn.
      by rewrite !app_nil_r.
    + cbn [fmap list_fmap app foreach]. rewrite (bind_eq _ _ x (dx_add_pending [] [d] x) tt) by done.
      rewrite IH. unfold dx_add_pending. cbn. by rewrite !app_nil_r, <- app_assoc.
  - cbn [fmap list_fmap app foreach]. rewrite (bind_eq _ _ x (dx_add_pending [d] [] x) tt) by done.
    rewrite IH. unfold dx_add_pending. cbn. by rewrite <- !app_assoc.
Qed.
End Labels.

(** ** What a disk executor sends

    With names that survive the punctuation of the messages, every report of a
    run, whatever its outcome, is a failure or one the scheduler can read. *)
Section DiskReports.
Context `{LexicalCast, MesosResources, Host}.
Context (taskId : string).

Definition disk_report (st : TaskStatus) : Prop :=
  st_task_id st = taskId ∧
  (st_state st = TASK_FAILED ∧ st_message st = None ∨
   st_state st = TASK_FINISHED ∧ ∃ h f, st_message st = Some (disk_ready h f) ∧
     clean_name h = true ∧ clean_name f = true ∧ f ≠ "").

Record dx_clean (x : DiskExecutor) : Prop := {
  dc_host : clean_name (dx_myHostname x) = true;
  dc_pending : Forall (λ d, clean_name d = true) (dx_pendingOSDDevs x ++ dx_pendingJNLDevs x);
  dc_failed : Forall (λ d, clean_name d = true) (dx_failedOSDDevs x ++ dx_failedJNLDevs x);
  dc_sent : Forall disk_report (sent (dx_trace x));
  dc_told : told (dx_trace x) = [];
}.

Lemma dx_clean_effect e x : sent [e] = [] → told [e] = [] → dx_clean x → dx_clean (dx_add_effect e x).
Proof.
  intros Es Et [H1c H2c H3c H4c H5c]. split; cbn; try done.
  - by rewrite sent_app, Es, app_nil_r.
  - by rewrite told_app, H5c.
Qed.

Lemma dx_clean_run cmd : keeps dx_clean (run cmd).
Proof. intros x Hx. by apply dx_clean_effect. Qed.
Lemma dx_clean_sh cmd : keeps dx_clean (runShellCommand (X := DiskExecutor) cmd).
Proof. intros x Hx. by apply dx_clean_effect. Qed.
#[local] Hint Resolve dx_clean_run dx_clean_sh : keeps.
#[local] Hint Extern 1 (keeps dx_clean (modify (dx_set_count _))) =>
  (apply keeps_modify; by intros x []) : keeps.
#[local] Hint Extern 1 (keeps dx_clean (modify (dx_set_task _))) =>
  (apply keeps_modify; by intros x []) : keeps.

Lemma dx_clean_pending osd jnl :
  Forall (λ d, clean_name d = true) (osd ++ jnl) → keeps dx_clean (modify (dx_add_pending osd jnl)).
Proof.
  intros [Ho Hj]%Forall_app. apply keeps_modify. intros x [H1c [H2o H2j]%Forall_app H3c H4c H5c].
  split; cbn; try done. by repeat apply Forall_app_2.
Qed.

Lemma dx_clean_failed osd jnl :
  Forall (λ d, clean_name d = true) (osd ++ jnl) → keeps dx_clean (modify (dx_add_failed osd jnl)).
Proof.
  intros [Ho Hj]%Forall_app. apply keeps_modify. intros x [H1c H2c [H3o H3j]%Forall_app H4c H5c].
  split; cbn; try done. by repeat apply Forall_app_2.
Qed.

Lemma dx_clean_send state message :
  disk_report (mkTaskStatus taskId state message) →
  keeps dx_clean (effect_do (SendStatusUpdate (mkTaskStatus taskId state message))).
Proof.
  intros Hr. apply keeps_modify. intros x [H1c H2c H3c H4c H5c]. split; cbn; try done.
  - rewrite sent_app. apply Forall_app. split; [done|]. by constructor.
  - by rewrite told_app, H5c.
Qed.

Lemma dx_clean_addPendingDisks task :
  Forall (λ l, clean_name (lb_value l) = true) (default [] (ti_labels task)) →
  keeps dx_clean (addPendingDisks task).
Proof.
  intros Hl. unfold addPendingDisks. destruct (ti_labels task) as [labels|]; [|keeps_auto].
  destruct (bool_decide _); [keeps_auto|]. apply keeps_bind; [|intros []; keeps_auto].
  apply keeps_foreach. eapply Forall_impl; [exact Hl|]. intros l Hv [].
  assert (Hk : ∀ osd jnl, osd ++ jnl = [lb_value l] → keeps dx_clean (modify (dx_add_pending osd jnl))).
  { intros osd jnl E. apply dx_clean_pending. rewrite E. by constructor. }
  unfold add_label. apply keeps_bind; [case_decide; [by apply Hk|keeps_auto]|intros []].
  apply keeps_bind; [case_decide; [by apply Hk|keeps_auto]|intros []]. keeps_auto.
Qed.

Lemma dx_clean_partitionDisk d n l : keeps dx_clean (partitionDisk d n l).
Proof.
  unfold partitionDisk. keeps_auto. generalize 0, 1, (Z.quot 100 n). generalize (Z.to_nat n).
  intros k. induction k as [|k IH]; intros i b c; cbn [mkpart_loop]; keeps_auto.
Qed.
#[local] Hint Resolve dx_clean_partitionDisk : keeps.

Lemma dx_clean_mkfs d t f : keeps dx_clean (mkfsDisk d t f).
Proof. apply dx_clean_run. Qed.
Lemma dx_clean_check d n l : keeps dx_clean (checkSuccess d n l).
Proof. unfold checkSuccess. keeps_auto. Qed.
#[local] Hint Resolve dx_clean_mkfs dx_clean_check : keeps.

Lemma dx_clean_prepareDisks : keeps dx_clean prepareDisks.
Proof.
  assert (Hp : ∀ x, dx_clean x → Forall (λ d, clean_name d = true) (dx_pendingOSDDevs x) ∧
                                 Forall (λ d, clean_name d = true) (dx_pendingJNLDevs x)).
  { intros x [_ Hp _ _ _]. by apply Forall_app. }
  unfold prepareDisks. apply keeps_gets_bind with (P := Forall (λ d, clean_name d = true)); [by apply Hp|].
  intros devs Hdevs. apply keeps_bind.
  - apply keeps_foreach. eapply Forall_impl; [exact Hdevs|]. intros d Hd []. unfold prepare_osd. keeps_auto.
    apply dx_clean_failed. by constructor.
  - intros []. apply keeps_gets_bind with (P := Forall (λ d, clean_name d = true)); [by apply Hp|].
    intros jdevs Hj. apply keeps_foreach. eapply Forall_impl; [exact Hj|]. intros d Hd [].
    unfold prepare_jnl. keeps_auto; [|by apply dx_clean_failed; constructor].
    apply keeps_foreach, Forall_true. intros j []. auto with keeps.
Qed.

Lemma clean_report_devs x : dx_clean x → clean_name (report_devs x) = true ∧ report_devs x ≠ "".
Proof.
  intros [_ _ [Ho Hj]%Forall_app _ _]. unfold report_devs. case_decide as E; [done|]. split; [|congruence].
  assert (Hd : ∀ d, d = "."%char ∨ d = ":"%char → lacks d (failed_string x) = true).
  { intros d Hd. apply lacks_failed_string; [..|by destruct Hd as [-> | ->]];
      (eapply Forall_impl; [eassumption|]); intros t [H1t H2t]%andb_true_iff; by destruct Hd as [-> | ->]. }
  apply andb_true_iff. auto.
Qed.

Lemma dx_clean_launchTask task :
  ti_task_id task = taskId →
  Forall (λ l, clean_name (lb_value l) = true) (default [] (ti_labels task)) →
  keeps dx_clean (launchTask task).
Proof.
  intros Hid Hl. unfold launchTask. rewrite Hid.
  apply keeps_bind; [auto with keeps|]. intros [].
  apply keeps_bind; [by apply dx_clean_addPendingDisks|]. intros ok.
  apply keeps_bind; [destruct ok; [keeps_auto|apply dx_clean_send; split; [done|by left]]|]. intros [].
  apply keeps_bind; [apply dx_clean_prepareDisks|]. intros [].
  apply keeps_gets_bind with (P := λ m, ∃ h f, m = disk_ready h f ∧ clean_name h = true ∧ clean_name f = true ∧ f ≠ "").
  - intros x Hx. rewrite prepareReturnValue_eq. eexists _, _. split; [done|]. split; [apply Hx|].
    by apply clean_report_devs.
  - intros m (h & f & -> & Hm). apply dx_clean_send. split; [done|right]. split; [done|]. by exists h, f.
Qed.

(** A run of the process on a task: registration, then launch. *)
Lemma disk_run_clean hostname task :
  clean_name hostname = true → ti_task_id task = taskId →
  Forall (λ l, clean_name (lb_value l) = true) (default [] (ti_labels task)) →
  dx_clean ((_ ← registered hostname; launchTask task) new_DiskExecutor).1.
Proof.
  intros Hh Hid Hl. apply (dx_clean_launchTask task Hid Hl). by split; cbn; try constructor.
Qed.
End DiskReports.

(** Whatever the names, the reports of a run are on its task. *)
Section DiskIds.
Context `{LexicalCast, MesosResources, Host}.
Context (taskId : string).

Definition dx_ids (x : DiskExecutor) : Prop := Forall (λ st, st_task_id st = taskId) (sent (dx_trace x)).

Lemma dx_ids_effect e x : Forall (λ st, st_task_id st = taskId) (sent [e]) → dx_ids x → dx_ids (dx_add_effect e x).
Proof. intros He Hx. unfold dx_ids. cbn [dx_trace dx_add_effect]. rewrite sent_app. by apply Forall_app. Qed.

Lemma dx_ids_run cmd : keeps dx_ids (run cmd).
Proof. intros x. apply dx_ids_effect. constructor. Qed.
Lemma dx_ids_sh cmd : keeps dx_ids (runShellCommand (X := DiskExecutor) cmd).
Proof. intros x. apply dx_ids_effect. constructor. Qed.
Lemma dx_ids_send state message : keeps dx_ids (effect_do (SendStatusUpdate (mkTaskStatus taskId state message))).
Proof. intros x. apply dx_ids_effect. by constructor. Qed.
#[local] Hint Resolve dx_ids_run dx_ids_sh dx_ids_send : keeps.
#[local] Hint Extern 1 (keeps dx_ids (modify _)) => (by apply keeps_modify) : keeps.

Lemma dx_ids_mkpart n : ∀ i b c d nn l, keeps dx_ids (mkpart_loop n i b c d nn l).
Proof. induction n as [|n IH]; intros; cbn [mkpart_loop]; keeps_auto. Qed.
#[local] Hint Resolve dx_ids_mkpart : keeps.
#[local] Hint Extern 2 (keeps dx_ids (foreach _ _ _)) =>
  (apply keeps_foreach, Forall_true; intros; keeps_auto) : keeps.

Lemma dx_ids_launchTask task : ti_task_id task = taskId → keeps dx_ids (launchTask task).
Proof.
  intros Hid. unfold launchTask. rewrite Hid. unfold addPendingDisks, prepareDisks, prepare_osd, prepare_jnl,
    add_label, mkfsDisk, partitionDisk, checkSuccess. keeps_auto.
Qed.

Lemma disk_run_ids hostname task :
  ti_task_id task = taskId → dx_ids ((_ ← registered hostname; launchTask task) new_DiskExecutor).1.
Proof. intros Hid. apply (dx_ids_launchTask task Hid). constructor. Qed.
End DiskIds.

(** ** Properties *)

Section Properties.
Context `{LexicalCast, MesosResources, Host}.

(** C30. [partitionDisk] returns for every count but zero, whatever the commands
    answer: it wipes the head of the disk, writes a label, then makes as many
    partitions as asked, each starting where the one before ends, none past
    100%.  For a count of zero it divides by zero. *)
Theorem partitionDisk_spec (diskname label : string) (n : Z) (x : DiskExecutor) :
  let path := "/dev/" +:+ diskname in
  let x2 := ran [dd_cmd path; mklabel_cmd path] x in
  partitionDisk diskname n label x =
    (if n =? 0 then (x2, Undef) else (ran (mkpart_cmds diskname label n) x2, Ret tt)) ∧
  (0 < n → length (mkpart_cmds diskname label n) = Z.to_nat n ∧
     ∀ i, 0 ≤ i < n → part_start n (i + 1) = part_end n i ∧ 0 ≤ part_end n i ≤ 100).
Proof.
  cbn zeta. split; [apply partitionDisk_eq|]. intros Hn. unfold mkpart_cmds.
  rewrite length_fmap, length_seqZ. split; [done|]. intros i Hi. unfold part_start, part_end.
  rewrite (proj2 (Z.eqb_neq (i + 1) 0)) by lia. split; [done|].
  rewrite Z.quot_div_nonneg by lia. split; [apply Z.mul_nonneg_nonneg; [lia|apply Z.div_pos; lia]|].
  etrans; [apply Z.mul_le_mono_nonneg_r; [apply Z.div_pos; lia|]; instantiate (1 := n); lia|].
  apply Z.mul_div_le. lia.
Qed.

(** C23. Disk tasks round trip: the labels the scheduler writes for a host's
    pending devices are read back by the disk executor as exactly those OSD
    devices, those journal devices, and that number of journal partitions. *)
Theorem disk_labels_roundtrip (hc : HostConfig) (task : TaskInfo) (x : DiskExecutor) :
  int_range (getJnlPartitionCount hc) → ti_labels task = Some (disk_labels hc) →
  addPendingDisks task x =
  (dx_set_count (getJnlPartitionCount hc)
     (dx_add_pending (hc_pendingOSDDevs hc) (hc_pendingJNLDevs hc) x), Ret true).
Proof. apply addPendingDisks_labels. Qed.

(** The list of failed devices in the report: cut at its commas, it gives
    back the failed OSD devices followed by all the failed journals glued into
    one name.  It is the list of the failed devices when at most one journal
    failed, and names a device that does not exist when several did. *)
Lemma failed_devices_roundtrip (x : DiskExecutor) :
  Forall (λ d, lacks "," d = true) (dx_failedOSDDevs x ++ dx_failedJNLDevs x) →
  explode (failed_string x) "," = dx_failedOSDDevs x ++ glued (dx_failedJNLDevs x) ∧
  ((length (dx_failedJNLDevs x) ≤ 1)%nat →
   explode (failed_string x) "," = dx_failedOSDDevs x ++ dx_failedJNLDevs x).
Proof.
  intros [Ho Hj]%Forall_app.
  assert (E : explode (failed_string x) "," = dx_failedOSDDevs x ++ glued (dx_failedJNLDevs x)).
  { rewrite failed_string_eq. apply explode_terminate_all, Forall_app. split; [done|]. by apply lacks_glued. }
  split; [done|]. rewrite E. destruct (dx_failedJNLDevs x) as [|d [|d' l]]; [done| |cbn; lia].
  intros _. cbn. change (String.append d "") with (d +:+ ""). by rewrite str_app_nil_r.
Qed.

(** A disk task without labels is reported FAILED and then FINISHED: after
    the failure the executor goes on, prepares nothing, and announces success. *)
Lemma launchTask_without_labels (task : TaskInfo) (hostname : string) :
  ti_labels task = None →
  let x := dx_set_hostname hostname new_DiskExecutor in
  ∃ x', launchTask task x = (x', Ret tt) ∧
    dx_trace x' = [SendStatusUpdate (mkTaskStatus (ti_task_id task) TASK_FAILED None);
                   SendStatusUpdate (mkTaskStatus (ti_task_id task) TASK_FINISHED
                                       (Some (disk_ready hostname "-")))].
Proof.
  intros Hl. cbn zeta. unfold launchTask, addPendingDisks. rewrite Hl.
  eexists. split; [reflexivity|]. cbn. unfold prepareReturnValue, failed_string. cbn.
  unfold disk_ready. by rewrite !str_app_cons.
Qed.

(** C32. From the disks to the scheduler: when a disk task returns on a host
    whose name and devices contain no '.' and no ':', its last effect is a
    FINISHED report whose delivery makes the scheduler count every pending
    device of the host as prepared, whichever devices failed. *)
Theorem disk_failures_not_delivered (task : TaskInfo) (h : string) (x x' : DiskExecutor) :
  unfailed h x → launchTask task x = (x', Ret tt) →
  lacks "." h = true → lacks ":" h = true →
  Forall (λ d, lacks "." d = true ∧ lacks ":" d = true) (dx_pendingOSDDevs x' ++ dx_pendingJNLDevs x') →
  ∃ msg, last (dx_trace x') =
      Some (SendStatusUpdate (mkTaskStatus (ti_task_id task) TASK_FINISHED (Some msg))) ∧
    ∀ a : Agent, statusUpdate (mkTaskStatus (ti_task_id task) TASK_FINISHED (Some msg)) a =
      (set_stateMachine (disk_prepared h []) a, Ret tt).
Proof.
  intros Hx E Hh1 Hh2 Hdevs. unfold launchTask in E. inv_run_step. inv_run_step. inv_run_step. inv_run_step.
  inv_run_step. inv_exec.
  match goal with Ha : addPendingDisks _ _ = (?y, Ret ?b), Hif : (if ?b then _ else _) ?y = (?z, _) |- _ =>
    apply (addPendingDisks_unfailed h) in Ha; [|done]; assert (Hz : unfailed h z) by
      (destruct b; inv_exec; exact Ha) end.
  match goal with Hp : prepareDisks ?z = (?y, _) |- _ => apply prepareDisks_inv in Hp as [Hk [Hfo Hfj]];
    [|destruct Hz as (Eo & Ej & _); unfold failed_pending; rewrite Eo, Ej; split; apply list_subseteq_nil] end.
  destruct Hz as (_ & _ & Hz). destruct Hk as [_ Hhost _ _].
  cbn [add_effect DiskExecutor_traced dx_add_effect dx_trace]. rewrite last_snoc. eexists. split; [reflexivity|]. intros a.
  rewrite prepareReturnValue_eq, Hhost, Hz. cbn [add_effect DiskExecutor_traced dx_pendingOSDDevs dx_pendingJNLDevs dx_add_effect] in Hdevs.
  rewrite Forall_forall in Hdevs.
  match goal with |- context [report_devs ?y] => assert (Hl : ∀ d, Ascii.eqb "," d = false → negb (Ascii.eqb "-" d) = true →
    (∀ t, t ∈ dx_pendingOSDDevs y ++ dx_pendingJNLDevs y → lacks d t = true) → lacks d (report_devs y) = true) end.
  { intros d Hc Hd Ht. unfold report_devs. case_decide; [by rewrite lacks_cons, Hd|].
    apply lacks_failed_string; [..|done]; apply Forall_forall; intros t Hin; apply Ht, elem_of_app; auto. }
  apply statusUpdate_disk_ready; [done|done|apply Hl; [done..|]; by intros t [? _]%Hdevs|
    apply Hl; [done..|]; by intros t [_ ?]%Hdevs|].
  unfold report_devs. case_decide; [done|congruence].
Qed.
End Properties.

#[local] Existing Instances DecimalCast.cast ScalarResources.resources SampleHost.host.

(** A task for one OSD device and two journals of two partitions, on a host
    where every count is 1: the journals fail. *)
Module SampleDisks.
Definition hc : HostConfig :=
  HostConfig_of_config "h1" (mkConfig "ceph" "*" "m" "z" 8889 8888 "./" "" "" ["sdb"] ["sde"; "sdf"] 2).
Definition task : TaskInfo :=
  mkTaskInfo _ "disk" "disk.h1.s" "s" (mkExecutorInfo "e" "e" "./e" []) None (Some (disk_labels hc)) [].
Definition x0 : DiskExecutor := dx_set_hostname "h1" new_DiskExecutor.
Definition x1 : DiskExecutor := (launchTask task x0).1.
End SampleDisks.

Lemma partitionDisk_spec_witness :
  part_start 3 (1 + 1) = part_end 3 1 ∧ 0 ≤ part_end 3 1 ≤ 100.
Proof.
  destruct (partitionDisk_spec "sdb" "l" 3 SampleDisks.x0) as [_ Hp].
  destruct (Hp eq_refl) as [_ Hi]. apply Hi. split; [discriminate|reflexivity].
Defined.

Lemma disk_labels_roundtrip_witness :
  dx_pendingJNLDevs (addPendingDisks SampleDisks.task SampleDisks.x0).1 = ["sde"; "sdf"].
Proof.
  rewrite (disk_labels_roundtrip SampleDisks.hc SampleDisks.task SampleDisks.x0);
    [reflexivity|split; [discriminate|reflexivity]|reflexivity].
Defined.

(** Two failed journals are reported as the one device [sdesdf]. *)
Lemma failed_devices_roundtrip_witness :
  dx_failedJNLDevs SampleDisks.x1 = ["sde"; "sdf"] ∧
  explode (failed_string SampleDisks.x1) "," = ["sdesdf"].
Proof.
  split; [vm_compute; reflexivity|].
  refine (proj1 (failed_devices_roundtrip SampleDisks.x1 _)).
  apply Forall_forall. intros d Hd. apply elem_of_app in Hd as [Hd|Hd]; vm_compute in Hd;
    repeat (apply elem_of_cons in Hd as [->|Hd]; [reflexivity|]); by apply not_elem_of_nil in Hd.
Defined.

Lemma launchTask_without_labels_witness :
  length (dx_trace (launchTask (mkTaskInfo _ "disk" "t" "s" (mkExecutorInfo "e" "e" "./e" []) None None [])
    (dx_set_hostname "h1" new_DiskExecutor)).1) = 2%nat.
Proof.
  destruct (launchTask_without_labels (mkTaskInfo _ "disk" "t" "s" (mkExecutorInfo "e" "e" "./e" []) None None [])
    "h1" eq_refl) as (x' & E & Et). rewrite E. cbn [fst]. by rewrite Et.
Defined.

Lemma disk_failures_not_delivered_witness :
  ∃ msg, last (dx_trace SampleDisks.x1) =
      Some (SendStatusUpdate (mkTaskStatus "disk.h1.s" TASK_FINISHED (Some msg))) ∧
    statusUpdate (mkTaskStatus "disk.h1.s" TASK_FINISHED (Some msg)) SampleRun.agent1 =
      (set_stateMachine (disk_prepared "h1" []) SampleRun.agent1, Ret tt).
Proof.
  destruct (disk_failures_not_delivered SampleDisks.task "h1" SampleDisks.x0 SampleDisks.x1)
    as (msg & E & Hs); [by split_and!|by vm_compute|reflexivity|reflexivity| |by exists msg].
  apply Forall_forall. intros d Hd. vm_compute in Hd.
  repeat (apply elem_of_cons in Hd as [->|Hd]; [by split|]). by apply not_elem_of_nil in Hd.
Defined.
