(* ===== verification/CephExec.v ===== *)
(** * The Ceph executor: [executor/CephExecutor.cpp]

    It prepares the configuration directory, runs the Ceph container of its
    task, and registers or launches OSDs on the scheduler's messages.  [fork]
    is seen from the parent: the child runs [startLongRunning], recorded as the
    effect [Spawn]. *)

From S2P Require Import Prelude StringUtil CephTypes ConfigFile HostConfigs TaskMachine Mesos Agent Executor.
Open Scope Z_scope.

(** ** State *)

Record CephExecutor := mkCephExecutor {
  cx_containerName : string;
  cx_myTaskId : string;
  cx_myHostname : string;
  cx_myPID : Z;
  cx_root : string;        (* localSharedConfigDirRoot *)
  cx_sandbox : string;     (* sandboxAbsolutePath *)
  cx_osdDir : string;      (* localMountOSDDir *)
  cx_jnlDir : string;      (* localMountJNLDir *)
  cx_mgmtNIC : string;
  cx_dataNIC : string;
  cx_osddisk : string;
  cx_jnldisk : string;
  cx_trace : list Effect;
}.

Definition new_CephExecutor `{Indeterminate} : CephExecutor :=
  mkCephExecutor "" "" "" indet_int "" "" "" "" "" "" "" "" [].
Definition localConfigDirName : string := "ceph_config_root".
Definition mountFLAGS : string := " -o inode64,noatime,logbsize=256k".

Section Updates.
Implicit Types (x : CephExecutor).

Definition cx_add_effect (e : Effect) x := mkCephExecutor (cx_containerName x) (cx_myTaskId x)
  (cx_myHostname x) (cx_myPID x) (cx_root x) (cx_sandbox x) (cx_osdDir x) (cx_jnlDir x) (cx_mgmtNIC x)
  (cx_dataNIC x) (cx_osddisk x) (cx_jnldisk x) (cx_trace x ++ [e]).
Definition cx_set_task (name id : string) x := mkCephExecutor name id
  (cx_myHostname x) (cx_myPID x) (cx_root x) (cx_sandbox x) (cx_osdDir x) (cx_jnlDir x) (cx_mgmtNIC x)
  (cx_dataNIC x) (cx_osddisk x) (cx_jnldisk x) (cx_trace x).
Definition cx_set_hostname (h sandbox : string) x := mkCephExecutor (cx_containerName x) (cx_myTaskId x)
  h (cx_myPID x) (cx_root x) sandbox (cx_osdDir x) (cx_jnlDir x) (cx_mgmtNIC x)
  (cx_dataNIC x) (cx_osddisk x) (cx_jnldisk x) (cx_trace x).
Definition cx_set_pid (pid : Z) x := mkCephExecutor (cx_containerName x) (cx_myTaskId x)
  (cx_myHostname x) pid (cx_root x) (cx_sandbox x) (cx_osdDir x) (cx_jnlDir x) (cx_mgmtNIC x)
  (cx_dataNIC x) (cx_osddisk x) (cx_jnldisk x) (cx_trace x).
Definition cx_set_root (root : string) x := mkCephExecutor (cx_containerName x) (cx_myTaskId x)
  (cx_myHostname x) (cx_myPID x) root (cx_sandbox x) (cx_osdDir x) (cx_jnlDir x) (cx_mgmtNIC x)
  (cx_dataNIC x) (cx_osddisk x) (cx_jnldisk x) (cx_trace x).
Definition cx_set_dirs (osd jnl : string) x := mkCephExecutor (cx_containerName x) (cx_myTaskId x)
  (cx_myHostname x) (cx_myPID x) (cx_root x) (cx_sandbox x) osd jnl (cx_mgmtNIC x)
  (cx_dataNIC x) (cx_osddisk x) (cx_jnldisk x) (cx_trace x).
Definition cx_set_mgmtNIC (s : string) x := mkCephExecutor (cx_containerName x) (cx_myTaskId x)
  (cx_myHostname x) (cx_myPID x) (cx_root x) (cx_sandbox x) (cx_osdDir x) (cx_jnlDir x) s
  (cx_dataNIC x) (cx_osddisk x) (cx_jnldisk x) (cx_trace x).
Definition cx_set_dataNIC (s : string) x := mkCephExecutor (cx_containerName x) (cx_myTaskId x)
  (cx_myHostname x) (cx_myPID x) (cx_root x) (cx_sandbox x) (cx_osdDir x) (cx_jnlDir x) (cx_mgmtNIC x)
  s (cx_osddisk x) (cx_jnldisk x) (cx_trace x).
Definition cx_set_osddisk (s : string) x := mkCephExecutor (cx_containerName x) (cx_myTaskId x)
  (cx_myHostname x) (cx_myPID x) (cx_root x) (cx_sandbox x) (cx_osdDir x) (cx_jnlDir x) (cx_mgmtNIC x)
  (cx_dataNIC x) s (cx_jnldisk x) (cx_trace x).
Definition cx_set_jnldisk (s : string) x := mkCephExecutor (cx_containerName x) (cx_myTaskId x)
  (cx_myHostname x) (cx_myPID x) (cx_root x) (cx_sandbox x) (cx_osdDir x) (cx_jnlDir x) (cx_mgmtNIC x)
  (cx_dataNIC x) (cx_osddisk x) s (cx_trace x).
End Updates.

#[export] Instance CephExecutor_traced : Traced CephExecutor :=
  {| trace := cx_trace; add_effect := cx_add_effect; trace_add_effect e x := eq_refl |}.

(** ** Operations *)

Section CephExecutor.
Context `{LexicalCast, Indeterminate, MesosResources, Host}.
(** How many answers of [docker ps] a run looks at before it is deemed blocked. *)
Context (polls : nat).

Definition sh (cmd : string) : ST CephExecutor string := runShellCommand cmd.
Definition succeeds (cmd : string) : ST CephExecutor bool :=
  r ← sh cmd; mret (bool_decide ("0" = r)).

(** *** Configuration files *)

Definition deleteConfigDir (localSharedConfigDir : string) : ST CephExecutor unit :=
  root ← gets cx_root;
  _ ← sh ("rm -rf " +:+ root +:+ "/" +:+ localSharedConfigDir);
  mret tt.

Definition existsConfigFiles (localSharedConfigDir : string) : ST CephExecutor bool :=
  root ← gets cx_root;
  let pre := root +:+ "/" +:+ localSharedConfigDir +:+ "/etc/ceph/" in
  let pre1 := root +:+ "/" +:+ localSharedConfigDir +:+ "/var/lib/ceph/" in
  let adminkeyring := pre +:+ "ceph.client.admin.keyring" in
  let cephconf := pre +:+ "ceph.conf" in
  let monkeyring := pre +:+ "ceph.mon.keyring" in
  let monmap := pre +:+ "monmap" in
  let osdkeyring := pre1 +:+ "bootstrap-osd/ceph.keyring" in
  let rgwkeyring := pre1 +:+ "bootstrap-rgw/ceph.keyring" in
  let mdskeyring := pre1 +:+ "bootstrap-mds/ceph.keyring" in
  succeeds ("[ -f " +:+ adminkeyring +:+ " ]" +:+ " && " +:+
    "[ -f " +:+ cephconf +:+ " ]" +:+ " && " +:+
    "[ -f " +:+ monkeyring +:+ " ]" +:+ " && " +:+
    "[ -f " +:+ monmap +:+ " ]" +:+ " && " +:+
    "[ -f " +:+ osdkeyring +:+ " ]" +:+ " && " +:+
    "[ -f " +:+ rgwkeyring +:+ " ]" +:+ " && " +:+
    "[ -f " +:+ mdskeyring +:+ " ]" +:+
    ";echo $?").

Definition createLocalSharedConfigDir (localSharedConfigDir : string) : ST CephExecutor bool :=
  exist ← existsConfigFiles localSharedConfigDir;
  if (exist : bool) then mret true
  else
    root ← gets cx_root;
    succeeds ("cd " +:+ root +:+ " && " +:+
      "mkdir " +:+ localSharedConfigDir +:+ " && " +:+
      "cd " +:+ localSharedConfigDir +:+ " && " +:+
      "mkdir -p ./etc/ceph && " +:+
      "mkdir -p ./var/lib/ceph/bootstrap-mds && " +:+
      "mkdir -p ./var/lib/ceph/bootstrap-rgw && " +:+
      "mkdir -p ./var/lib/ceph/bootstrap-osd && " +:+
      "mkdir -p ./var/lib/ceph/mds && " +:+
      "mkdir -p ./var/lib/ceph/osd && " +:+
      "mkdir -p ./var/lib/ceph/mon && " +:+
      "mkdir -p ./var/lib/ceph/radosgw && " +:+
      "mkdir -p ./var/lib/ceph/tmp && " +:+
      "cd .. && chmod 777 -R " +:+ localSharedConfigDir +:+ " && " +:+
      "echo $?").

Definition copySharedConfigFiles : ST CephExecutor bool :=
  root ← gets cx_root;
  sandbox ← gets cx_sandbox;
  let localMountDir := root +:+ "/" +:+ localConfigDirName in
  let abpath1 := localMountDir +:+ "/" +:+ "etc/ceph/" in
  let abpath2 := localMountDir +:+ "/" +:+ "var/lib/ceph/" in
  succeeds ("cd " +:+ sandbox +:+ " && " +:+
    "cp ./ceph.client.admin.keyring " +:+
    "./ceph.conf " +:+
    "./ceph.mon.keyring " +:+
    "./monmap " +:+ abpath1 +:+ " && " +:+
    "cp ./ceph.keyring.osd " +:+ abpath2 +:+ "bootstrap-osd/ceph.keyring" +:+
    " && " +:+
    "cp ./ceph.keyring.mds " +:+ abpath2 +:+ "bootstrap-mds/ceph.keyring" +:+
    " && " +:+
    "cp ./ceph.keyring.rgw " +:+ abpath2 +:+ "bootstrap-rgw/ceph.keyring" +:+
    ";echo $?").

(** *** Container commands *)

Fixpoint matching_ip (tokens : list string) (CIDR : string) : ST CephExecutor string :=
  match tokens with
  | [] => sh "hostname -i"
  | token :: tokens' =>
      m ← lift (matchIPToCIDR token CIDR);
      if (m : bool) then mret token else matching_ip tokens' CIDR
  end.

Definition getPublicNetworkIP (ips CIDR : string) : ST CephExecutor string :=
  matching_ip (explode ips " ") CIDR.

Definition constructMonCommand (localMountDir containerName : string) : ST CephExecutor string :=
  let imagename := "ceph/daemon mon" in
  let local_config_dir := localMountDir +:+ "/etc/ceph" in
  let local_monfs_dir := localMountDir +:+ "/var/lib/ceph" in
  let docker_start_cmd := "docker run --rm --net=host --privileged --name " +:+ containerName in
  ips ← sh "hostname -I";
  mgmtNIC ← gets cx_mgmtNIC;
  dataNIC ← gets cx_dataNIC;
  ip ← getPublicNetworkIP ips mgmtNIC;
  let docker_env_param := " -e MON_IP=" +:+ ip +:+ " -e OSD_JOURNAL_SIZE=0"
    +:+ " -e CEPH_PUBLIC_NETWORK=" +:+ mgmtNIC +:+ " -e CEPH_CLUSTER_NETWORK=" +:+ dataNIC in
  let docker_volume_param := " -v " +:+ local_config_dir +:+ ":/etc/ceph:rw" +:+ " -v " +:+ local_monfs_dir
    +:+ ":/var/lib/ceph:rw " in
  mret (docker_start_cmd +:+ docker_env_param +:+ docker_volume_param +:+ imagename).

Definition registerOSD : ST CephExecutor string :=
  containerName ← gets cx_containerName;
  sh ("docker exec " +:+ containerName +:+ " ceph osd create").

Definition constructOSDCommand (localMountDir osdId containerName : string) : string :=
  let imagename := "ceph/daemon osd" in
  let local_config_dir := localMountDir +:+ "/etc/ceph" in
  let local_fs_dir := localMountDir +:+ "/var/lib/ceph" in
  let osdid_dir_name := "ceph-" +:+ osdId in
  let jnlid_dir_name := "jnl-" +:+ osdId in
  let docker_start_cmd := "docker run --rm --pid=host --net=host --privileged --name " +:+ containerName in
  let docker_env_param := " -e JOURNAL_DIR=/var/lib/ceph/osd/journal" +:+ " -e OSD_TYPE=directory" in
  let docker_volume_param :=
    " -v " +:+ local_config_dir +:+ ":/etc/ceph:rw" +:+
    " -v " +:+ local_fs_dir +:+ "/bootstrap-osd" +:+ ":/var/lib/ceph/bootstrap-osd:rw" +:+
    " -v " +:+ local_fs_dir +:+ "/osd/" +:+ osdid_dir_name +:+
      ":/var/lib/ceph/osd/" +:+ osdid_dir_name +:+ ":rw" +:+
    " -v " +:+ local_fs_dir +:+ "/osd/" +:+ jnlid_dir_name +:+ ":/var/lib/ceph/osd/journal" +:+ ":rw " in
  docker_start_cmd +:+ docker_env_param +:+ docker_volume_param +:+ imagename.

Definition constructRADOSGWCommand (localMountDir containerName : string) : string :=
  let imagename := "ceph/daemon rgw" in
  let local_config_dir := localMountDir +:+ "/etc/ceph" in
  let local_fs_dir := localMountDir +:+ "/var/lib/ceph" in
  let docker_start_cmd := "docker run --rm --net=host --privileged --name " +:+ containerName in
  let docker_env_param := " -e RGW_NAME=" +:+ containerName in
  let docker_volume_param :=
    " -v " +:+ local_config_dir +:+ ":/etc/ceph:rw" +:+
    " -v " +:+ local_fs_dir +:+ "/bootstrap-rgw" +:+ ":/var/lib/ceph/bootstrap-rgw:rw " in
  docker_start_cmd +:+ docker_env_param +:+ docker_volume_param +:+ imagename.

(** *** Processes *)

Definition docker_ps_cmd (containerName : string) : string :=
  "docker ps |grep " +:+ containerName +:+ " > /dev/null ;echo $?".

(** The polling loop, with the last answer [r]: no iteration updates [current]. *)
Fixpoint poll_loop (n : nat) (containerName : string) (current deadline : Z) (r : string)
    : ST CephExecutor string :=
  if current <? deadline then
    match n with
    | O => lift Blocked
    | S n' =>
        r ← sh (docker_ps_cmd containerName);
        if decide ("0" = r) then mret r else poll_loop n' containerName current deadline r
    end
  else mret r.

Definition block_until_started (containerName timeout : string) : ST CephExecutor bool :=
  current ← gets (λ x, host_time (trace x));
  seconds ← lift (lexical_to_int timeout);
  let deadline := current + seconds in
  r ← poll_loop polls containerName current deadline "";
  if decide ("0" ≠ r) then mret false
  else
    r ← sh ("docker exec " +:+ containerName +:+ " timeout " +:+ timeout
            +:+ " ceph mon stat > /dev/null 2>&1; echo $?");
    if decide ("0" ≠ r) then mret false else mret true.

(** [fork], and [startLongRunning] in the child. *)
Definition spawn (binaryName cmd : string) : ST CephExecutor Z :=
  past ← gets trace;
  let pid := host_fork past in
  _ ← (if pid =? -1 then mret tt
       else if decide ("" = cmd) then mret tt
       else effect_do (Spawn binaryName (explode_argv cmd " ")));
  mret pid.

(** After the fork, [waitpid] stores through a pointer that was never set. *)
Definition downloadDockerImage (imageName : string) : ST CephExecutor bool :=
  exist ← succeeds ("docker images|grep " +:+ imageName +:+ " > /dev/null 2>&1;echo $?");
  if (exist : bool) then mret true
  else
    downloadPid ← spawn "docker" ("docker pull " +:+ imageName);
    lift Undef.

(** *** Host configuration and disks *)

Definition parse_label (l : Label) : ST CephExecutor unit :=
  let key := c_str (lb_key l) in
  _ ← (if decide (CustomData.mgmtdevKey = key) then modify (cx_set_mgmtNIC (lb_value l)) else mret tt);
  _ ← (if decide (CustomData.datadevKey = key) then modify (cx_set_dataNIC (lb_value l)) else mret tt);
  _ ← (if decide (CustomData.osddevsKey = key) then modify (cx_set_osddisk (lb_value l)) else mret tt);
  if decide (CustomData.jnldevsKey = key) then modify (cx_set_jnldisk (lb_value l)) else mret tt.

Definition parseHostConfig (task : TaskInfo) : ST CephExecutor bool :=
  match ti_labels task with
  | Some labels =>
      if bool_decide (labels = []) then mret false
      else
        _ ← foreach labels (λ _ l, parse_label l) tt;
        mret true
  | None => mret false
  end.

Definition mountDisk (diskname dir flags : string) : ST CephExecutor bool :=
  _ ← sh ("mount" +:+ flags +:+ " " +:+ diskname +:+ " " +:+ dir);
  mret true.

Definition prepareDisks : ST CephExecutor bool :=
  osdDir ← gets cx_osdDir;
  jnlDir ← gets cx_jnlDir;
  _ ← sh ("mkdir -p " +:+ osdDir);
  _ ← sh ("mkdir -p " +:+ jnlDir);
  osddisk ← gets cx_osddisk;
  r ← (if decide ("" = osddisk) then mret true
       else mountDisk ("/dev/" +:+ osddisk) osdDir mountFLAGS);
  if negb r then mret false
  else
    jnldisk ← gets cx_jnldisk;
    r ← (if decide ("" = jnldisk) then mret true
         else mountDisk ("/dev/" +:+ jnldisk) jnlDir mountFLAGS);
    if negb r then mret false else mret true.

Definition getContainerName (taskId : string) : outcome string := vec_at (explode taskId ".") 0.

(** *** Callbacks *)

Definition send_status (state : MesosTaskState) (message : option string) (taskId : string)
    : ST CephExecutor unit :=
  effect_do (SendStatusUpdate (mkTaskStatus taskId state message)).

Definition registered (hostname : string) : ST CephExecutor unit :=
  modify (cx_set_hostname hostname (default "" host_getcwd)).

(** [LAUNCH_OSD], from the preparation of the disks on. *)
Definition launch_osd (osdId localMountDir myTaskId : string) : ST CephExecutor unit :=
  prepared ← prepareDisks;
  if negb prepared then send_status TASK_FAILED None myTaskId
  else
    containerName ← gets cx_containerName;
    pid ← spawn "docker" (constructOSDCommand localMountDir osdId containerName);
    _ ← modify (cx_set_pid pid);
    started ← block_until_started containerName "30";
    if (started : bool) then
      let msg := lexical_to_string (MessageToScheduler_to_int CONSUMED_OSD_ID) +:+ "." +:+ osdId in
      send_status TASK_RUNNING (Some msg) myTaskId
    else send_status TASK_FAILED None myTaskId.

Definition frameworkMessage (data : string) : ST CephExecutor unit :=
  let tokens := explode data "." in
  t0 ← lift (vec_at tokens 0);
  msg ← lift (lexical_to_int t0);
  if msg =? MessageToExecutor_to_int REGISTER_OSD then
    osdID ← registerOSD;
    effect_do (SendFrameworkMessage osdID)
  else if msg =? MessageToExecutor_to_int LAUNCH_OSD then
    match tokens with
    | [_; osdId] =>
        root ← gets cx_root;
        let localMountDir := root +:+ "/" +:+ localConfigDirName in
        _ ← modify (cx_set_dirs (localMountDir +:+ "/var/lib/ceph/osd/ceph-" +:+ osdId)
                                (localMountDir +:+ "/var/lib/ceph/osd/jnl-" +:+ osdId));
        myTaskId ← gets cx_myTaskId;
        launch_osd osdId localMountDir myTaskId
    | _ => mret tt
    end
  else mret tt.

Definition shutdown : ST CephExecutor unit :=
  osdDir ← gets cx_osdDir;
  _ ← (if decide ("" ≠ osdDir) then _ ← sh ("umount -f " +:+ osdDir); mret tt else mret tt);
  jnlDir ← gets cx_jnlDir;
  _ ← (if decide ("" ≠ jnlDir) then _ ← sh ("umount -f " +:+ jnlDir); mret tt else mret tt);
  containerName ← gets cx_containerName;
  _ ← sh ("docker rm -f " +:+ containerName);
  myTaskId ← gets cx_myTaskId;
  send_status TASK_KILLED None myTaskId.

Definition reregistered : ST CephExecutor unit := mret tt.
Definition disconnected : ST CephExecutor unit := mret tt.
Definition killTask (taskId : string) : ST CephExecutor unit := mret tt.
Definition error (message : string) : ST CephExecutor unit := mret tt.

(** *** [launchTask] *)

(** The root: [remove_if] keeps the length of [r], and only its emptiness is
    looked at. *)
Definition shared_root (r : string) : string := if decide (r = "") then r else "/root".

(** The task's data: whether to copy the configuration, and the type. *)
Definition parse_data (data : string) : outcome (bool * Z) :=
  let tokens := explode data "." in
  t0 ← vec_at tokens 0;
  t1 ← vec_at tokens 1;
  taskType ← lexical_to_int t1;
  Ret (negb (bool_decide (t0 = "1")), taskType).

(** What follows a MON that started: its keyrings are published. *)
Definition start_file_server : ST CephExecutor unit :=
  root ← gets cx_root;
  let prefix := root +:+ "/" +:+ localConfigDirName in
  _ ← sh ("sed -i '/osd journal size/d' " +:+ prefix +:+ "/etc/ceph/ceph.conf; echo $?");
  let osd_bootstrap_key := prefix +:+ "/var/lib/ceph/bootstrap-osd/ceph.keyring" in
  let tmp_osd_key := prefix +:+ "/etc/ceph/ceph.keyring.osd" in
  let rgw_bootstrap_key := prefix +:+ "/var/lib/ceph/bootstrap-rgw/ceph.keyring" in
  let tmp_rgw_key := prefix +:+ "/etc/ceph/ceph.keyring.rgw" in
  let mds_bootstrap_key := prefix +:+ "/var/lib/ceph/bootstrap-mds/ceph.keyring" in
  let tmp_mds_key := prefix +:+ "/etc/ceph/ceph.keyring.mds" in
  _ ← sh ("cp " +:+ osd_bootstrap_key +:+ " " +:+ tmp_osd_key +:+
          ";cp " +:+ rgw_bootstrap_key +:+ " " +:+ tmp_rgw_key +:+
          ";cp " +:+ mds_bootstrap_key +:+ " " +:+ tmp_mds_key +:+
          ";echo $?");
  effect_do (StartFileServer 7777 (prefix +:+ "/etc/ceph/")).

(** The part of [launchTask] that follows the [switch]. *)
Definition start_container (taskId cName dockerCommand : string) (needStartFileServer : bool)
    : ST CephExecutor unit :=
  pid ← spawn "docker" dockerCommand;
  _ ← modify (cx_set_pid pid);
  started ← block_until_started cName "60";
  if (started : bool) then
    _ ← (if needStartFileServer then start_file_server else mret tt);
    send_status TASK_RUNNING None taskId
  else send_status TASK_FAILED None taskId.

(** The part of [launchTask] that follows the preparation of the files. *)
Definition run_container (taskId localMountDir : string) (taskType : Z) : ST CephExecutor unit :=
  cName ← lift (getContainerName taskId);
  _ ← modify (cx_set_task cName taskId);
  _ ← sh ("docker rm -f " +:+ cName);
  if taskType =? TaskType_to_int MON then
    dockerCommand ← constructMonCommand localMountDir cName;
    _ ← downloadDockerImage "ceph/daemon";
    start_container taskId cName dockerCommand true
  else if taskType =? TaskType_to_int OSD then
    _ ← downloadDockerImage "ceph/daemon";
    send_status TASK_STARTING None taskId
  else if taskType =? TaskType_to_int RADOSGW then
    _ ← downloadDockerImage "ceph/daemon";
    start_container taskId cName (constructRADOSGWCommand localMountDir cName) false
  else start_container taskId cName "" false.

Definition launchTask (task : TaskInfo) : ST CephExecutor unit :=
  r ← sh "echo ~";
  _ ← modify (cx_set_root (shared_root r));
  d ← match ti_data task with
      | Some data =>
          t0 ← lift (vec_at (explode data ".") 0);
          _ ← (if decide (t0 = "1") then deleteConfigDir localConfigDirName else mret tt);
          lift (parse_data data)
      | None => mret (true, indet_int)
      end;
  let '(needCopyConfig, taskType) := d in
  root ← gets cx_root;
  let localMountDir := root +:+ "/" +:+ localConfigDirName in
  let taskId := ti_task_id task in
  ok ← parseHostConfig task;
  if negb ok then send_status TASK_FAILED None taskId
  else
    ok ← createLocalSharedConfigDir localConfigDirName;
    if negb ok then send_status TASK_FAILED None taskId
    else
      ok ← (if (needCopyConfig : bool) then copySharedConfigFiles else mret true);
      if negb ok then send_status TASK_FAILED None taskId
      else run_container taskId localMountDir taskType.

(** *** The virtual methods, as the driver calls them, and [main] *)

Definition callback (cb : ExecutorCallback) : ST CephExecutor unit :=
  match cb with
  | EX_registered hostname => registered hostname
  | EX_reregistered => reregistered
  | EX_disconnected => disconnected
  | EX_launchTask task => launchTask task
  | EX_killTask taskId => killTask taskId
  | EX_frameworkMessage data => frameworkMessage data
  | EX_shutdown => shutdown
  | EX_error message => error message
  end.

Definition main (callbacks : list ExecutorCallback) (status : DriverStatus) : ST CephExecutor Z :=
  _ ← foreach callbacks (λ _, callback) tt;
  mret (if decide (status = DRIVER_STOPPED) then 0 else 1).
End CephExecutor.

(** ** The reports sent

    [silent m]: no run of [m], whatever its outcome, sends anything or changes
    the task. *)
Definition silent {A} (m : ST CephExecutor A) : Prop := ∀ x x' o,
  m x = (x', o) →
  sent (cx_trace x') = sent (cx_trace x) ∧ cx_myTaskId x' = cx_myTaskId x ∧
  told (cx_trace x') = told (cx_trace x).

Lemma silent_bind {A B} (m : ST CephExecutor A) (f : A → ST CephExecutor B) :
  silent m → (∀ a, silent (f a)) → silent (m ≫= f).
Proof.
  intros Hm Hf x x' o. unfold mbind, ST_bind. destruct (m x) as [x1 r] eqn:E1.
  apply Hm in E1 as (E1 & F1 & G1). destruct r as [a| | |]; [|by intros [= <- <-]..].
  intros (E2 & F2 & G2)%Hf. split_and!; congruence.
Qed.
Lemma silent_mret {A} (a : A) : silent (mret a).
Proof. by intros x x' o [= <- <-]. Qed.
Lemma silent_gets {A} (f : CephExecutor → A) : silent (gets f).
Proof. by intros x x' o [= <- <-]. Qed.
Lemma silent_lift {A} (o : outcome A) : silent (lift o).
Proof. by intros x x' r [= <- <-]. Qed.
Lemma silent_modify f :
  (∀ x, cx_trace (f x) = cx_trace x ∧ cx_myTaskId (f x) = cx_myTaskId x) → silent (modify f).
Proof. intros Hf x x' o [= <- <-]. by destruct (Hf x) as [-> ->]. Qed.
Lemma silent_effect e : sent [e] = [] → told [e] = [] → silent (effect_do e).
Proof.
  intros He Ht x x' o [= <- <-]. cbn. rewrite sent_app, He, told_app, Ht, !app_nil_r. done.
Qed.
Lemma silent_foreach {A L} (l : list A) (body : L → A → ST CephExecutor L) acc :
  (∀ acc a, silent (body acc a)) → silent (foreach l body acc).
Proof.
  intros Hb. revert acc. induction l as [|a l IH]; intros acc; cbn [foreach].
  - apply silent_mret.
  - by apply silent_bind.
Qed.

Create HintDb silent discriminated.
#[export] Hint Resolve silent_mret silent_gets silent_lift silent_foreach : silent.
#[export] Hint Extern 1 (silent (modify _)) => (apply silent_modify; by intros []) : silent.
#[export] Hint Extern 1 (silent (effect_do _)) => (by apply silent_effect) : silent.

Ltac silent_step :=
  match goal with
  | |- silent (_ ≫= _) => apply silent_bind; [|intros ?]
  | |- silent (if ?b then _ else _) => destruct b
  | |- silent (match ?x with _ => _ end) => destruct x
  | |- silent (foreach _ _ _) => apply silent_foreach; intros ? ?
  | |- silent _ => solve [auto with silent]
  end; cbn zeta.
Ltac silent_auto := cbn zeta; repeat silent_step.

Section CephFacts.
Context `{LexicalCast, Indeterminate, MesosResources, Host}.
Context (polls : nat).

Lemma silent_sh cmd : silent (sh cmd).
Proof.
  intros x x' o [= <- <-]. cbn. rewrite sent_app, told_app. cbn. by rewrite !app_nil_r.
Qed.
#[local] Hint Resolve silent_sh : silent.

Lemma silent_poll n c s d r : silent (poll_loop n c s d r).
Proof. revert r. induction n as [|n IH]; intros r; cbn [poll_loop]; silent_auto. Qed.
#[local] Hint Resolve silent_poll : silent.
Lemma silent_block c t : silent (block_until_started polls c t).
Proof. unfold block_until_started. silent_auto. Qed.
Lemma silent_spawn b c : silent (spawn b c).
Proof. unfold spawn. silent_auto. Qed.
#[local] Hint Resolve silent_block silent_spawn : silent.
Lemma silent_download i : silent (downloadDockerImage i).
Proof. unfold downloadDockerImage, succeeds. silent_auto. Qed.
Lemma silent_parseHostConfig t : silent (parseHostConfig t).
Proof. unfold parseHostConfig, parse_label. silent_auto. Qed.
Lemma silent_create d : silent (createLocalSharedConfigDir d).
Proof. unfold createLocalSharedConfigDir, existsConfigFiles, succeeds. silent_auto. Qed.
Lemma silent_copy : silent copySharedConfigFiles.
Proof. unfold copySharedConfigFiles, succeeds. silent_auto. Qed.
Lemma silent_delete d : silent (deleteConfigDir d).
Proof. unfold deleteConfigDir. silent_auto. Qed.
Lemma silent_matching l c : silent (matching_ip l c).
Proof. induction l as [|t l IH]; cbn [matching_ip]; silent_auto. Qed.
#[local] Hint Resolve silent_matching : silent.
Lemma silent_mon_command d c : silent (constructMonCommand d c).
Proof. unfold constructMonCommand, getPublicNetworkIP. silent_auto. Qed.
Lemma silent_prepareDisks : silent prepareDisks.
Proof. unfold prepareDisks, mountDisk. silent_auto. Qed.
Lemma silent_file_server : silent start_file_server.
Proof. unfold start_file_server. silent_auto. Qed.

(** [reports taskId P known m]: a run of [m] that returns sends exactly one
    report, about [taskId] and such that [P]; one that does not return sends
    nothing.  With [known], the task is that of the executor from the start;
    in any case it is at the end, unless the report is a failure. *)
Definition reports (taskId : string) (P : TaskStatus → Prop) (known : bool) (m : ST CephExecutor unit) : Prop :=
  ∀ x x' o, m x = (x', o) → (known = true → cx_myTaskId x = taskId) →
    told (cx_trace x') = told (cx_trace x) ∧
    match o with
    | Ret _ => ∃ st, sent (cx_trace x') = sent (cx_trace x) ++ [st] ∧ st_task_id st = taskId ∧ P st ∧
                 (st_state st = TASK_FAILED ∨ cx_myTaskId x' = taskId)
    | _ => sent (cx_trace x') = sent (cx_trace x)
    end.

Lemma reports_bind {A} taskId P known (m : ST CephExecutor A) f :
  silent m → (∀ a, (∃ x x', m x = (x', Ret a)) → reports taskId P known (f a)) →
  reports taskId P known (m ≫= f).
Proof.
  intros Hm Hf x x' o. unfold mbind, ST_bind. destruct (m x) as [x1 r] eqn:E1.
  pose proof (Hm _ _ _ E1) as (Es & Ei & Et). destruct r as [a| | |]; [|by intros [= <- <-]..].
  intros E Hk. rewrite <- Es, <- Et. apply (Hf a); [by eauto|done|by rewrite Ei].
Qed.

Lemma reports_send state message taskId (P : TaskStatus → Prop) known :
  P (mkTaskStatus taskId state message) → state = TASK_FAILED ∨ known = true →
  reports taskId P known (send_status state message taskId).
Proof.
  intros HP Hk x x' o [= <- <-] Hid. cbn. rewrite told_app, app_nil_r. split; [done|].
  eexists. split_and!; [by rewrite sent_app|done|exact HP|]. cbn.
  destruct Hk as [Hk|Hk]; [by left|right; by apply Hid].
Qed.

Lemma reports_set_task name taskId P known (k : unit → ST CephExecutor unit) :
  reports taskId P true (k tt) → reports taskId P known (modify (cx_set_task name taskId) ≫= k).
Proof. intros Hk x x' o E _. by apply (Hk _ _ _ E). Qed.

Lemma reports_weaken taskId (P Q : TaskStatus → Prop) known m :
  (∀ st, P st → Q st) → reports taskId P known m → reports taskId Q known m.
Proof.
  intros HPQ Hm x x' o E Hk. destruct (Hm _ _ _ E Hk) as [Ht Hs]. split; [done|].
  destruct o; [|done..]. destruct Hs as (st & ? & ? & ? & ?). exists st. split_and!; auto.
Qed.

(** A guard that fails is reported. *)
Lemma reports_guard taskId (P : TaskStatus → Prop) known (m : ST CephExecutor bool) (k : ST CephExecutor unit) :
  silent m → P (mkTaskStatus taskId TASK_FAILED None) → reports taskId P known k →
  reports taskId P known (ok ← m; if negb ok then send_status TASK_FAILED None taskId else k).
Proof.
  intros Hm HP Hk. apply reports_bind; [done|]. intros ok _.
  destruct (negb ok); [apply reports_send; auto|done].
Qed.

(** The reports of a launch: a failure, or the state its type calls for. *)
Definition launch_report (taskType : Z) (st : TaskStatus) : Prop :=
  st_message st = None ∧
  (st_state st = TASK_FAILED ∨
   st_state st = if taskType =? TaskType_to_int OSD then TASK_STARTING else TASK_RUNNING).

Lemma launch_report_failed ty taskId : launch_report ty (mkTaskStatus taskId TASK_FAILED None).
Proof. split; [done|by left]. Qed.
#[local] Hint Resolve launch_report_failed : core.

#[local] Hint Resolve silent_spawn silent_block silent_file_server silent_mon_command silent_download : silent.

Lemma start_container_reports taskId c cmd b ty :
  ty ≠ TaskType_to_int OSD → reports taskId (launch_report ty) true (start_container polls taskId c cmd b).
Proof.
  intros Hty. unfold start_container.
  apply reports_bind; [auto with silent|]. intros pid _.
  apply reports_bind; [auto with silent|]. intros [] _.
  apply reports_bind; [auto with silent|]. intros [] _; [|by apply reports_send; auto].
  apply reports_bind; [destruct b; auto with silent|]. intros [] _.
  apply reports_send; [|by right]. split; [done|right]. by rewrite (proj2 (Z.eqb_neq _ _) Hty).
Qed.

Lemma run_container_reports taskId d ty known :
  reports taskId (launch_report ty) known (run_container polls taskId d ty).
Proof.
  unfold run_container. apply reports_bind; [auto with silent|]. intros cName _. apply reports_set_task.
  apply reports_bind; [auto with silent|]. intros _ _.
  destruct (Z.eqb_spec ty (TaskType_to_int MON)) as [->|_];
    [|destruct (Z.eqb_spec ty (TaskType_to_int OSD)) as [->|Hne];
      [|destruct (Z.eqb_spec ty (TaskType_to_int RADOSGW)) as [->|_]]].
  - apply reports_bind; [auto with silent|]. intros cmd _.
    apply reports_bind; [auto with silent|]. intros _ _. by apply start_container_reports.
  - apply reports_bind; [auto with silent|]. intros _ _. apply reports_send; [|by right].
    split; [done|by right].
  - apply reports_bind; [auto with silent|]. intros _ _. by apply start_container_reports.
  - by apply start_container_reports.
Qed.

(** The type of a launched task, [indet_int] when it carries no data. *)
Definition task_type (task : TaskInfo) : outcome Z :=
  match ti_data task with
  | Some data => d ← parse_data data; Ret d.2
  | None => Ret indet_int
  end.

#[local] Hint Resolve silent_parseHostConfig silent_create silent_copy silent_delete : silent.

Lemma launchTask_reports task :
  reports (ti_task_id task) (λ st, ∃ ty, task_type task = Ret ty ∧ launch_report ty st) false
    (launchTask polls task).
Proof.
  unfold launchTask. apply reports_bind; [auto with silent|]. intros r _.
  apply reports_bind; [auto with silent|]. intros [] _.
  apply reports_bind; [destruct (ti_data task); silent_auto|].
  intros [needCopy ty] (y & y' & Ed).
  assert (Hty : task_type task = Ret ty).
  { unfold task_type. destruct (ti_data task) as [data|]; [|by inv_run; simplify_eq].
    inv_run. match goal with Hp : parse_data _ = _ |- _ => by rewrite Hp end. }
  apply (reports_weaken _ (launch_report ty)); [by eauto|].
  apply reports_bind; [auto with silent|]. intros root _. cbn zeta.
  apply reports_guard; [auto with silent|auto|]. apply reports_guard; [auto with silent|auto|].
  apply reports_guard; [destruct needCopy; auto with silent|auto|]. apply run_container_reports.
Qed.

(** The reports of the launch of an OSD with the id [osdId]. *)
Definition osd_report (osdId : string) (taskId : string) (st : TaskStatus) : Prop :=
  st = mkTaskStatus taskId TASK_FAILED None ∨
  st = mkTaskStatus taskId TASK_RUNNING (Some (lexical_to_string 1 +:+ "." +:+ osdId)).

#[local] Hint Resolve silent_prepareDisks : silent.

Lemma launch_osd_reports (osdId localMountDir taskId : string) :
  reports taskId (osd_report osdId taskId) true (launch_osd polls osdId localMountDir taskId).
Proof.
  unfold launch_osd. apply reports_guard; [auto with silent|by left|].
  do 3 (apply reports_bind; [auto with silent|]; intros ? _).
  apply reports_bind; [auto with silent|]. intros [] _; apply reports_send; try by right.
  by left.
Qed.

(** ** Polling *)

(** After [n] polls that were not answered. *)
Fixpoint polled (n : nat) (c : string) (x : CephExecutor) : CephExecutor :=
  match n with
  | O => x
  | S n' => polled n' c (cx_add_effect (RunCommand (docker_ps_cmd c)) x)
  end.

(** [docker ps] shows the container at the next poll. *)
Definition shown (c : string) (x : CephExecutor) : bool :=
  bool_decide ("0" = answer (docker_ps_cmd c) x).

Lemma poll_loop_S n c s d r x : s < d →
  poll_loop (S n) c s d r x =
  let x1 := cx_add_effect (RunCommand (docker_ps_cmd c)) x in
  if shown c x then (x1, Ret "0") else poll_loop n c s d (answer (docker_ps_cmd c) x) x1.
Proof.
  intros Hs. cbn [poll_loop]. rewrite (proj2 (Z.ltb_lt s d)) by done.
  unfold sh. rewrite (bind_eq _ _ _ _ _ (runShellCommand_eq _ _)). cbn zeta.
  unfold shown. case_decide as Ed; [rewrite <- Ed|]; by case_bool_decide.
Qed.

Lemma poll_loop_blocked n c s d r x : s < d →
  (∀ j, (j < n)%nat → shown c (polled j c x) = false) → poll_loop n c s d r x = (polled n c x, Blocked).
Proof.
  intros Hd. revert r x. induction n as [|n IH]; intros r x Hs.
  { cbn [poll_loop]. by rewrite (proj2 (Z.ltb_lt s d)). }
  rewrite poll_loop_S by done. cbn zeta.
  pose proof (Hs 0%nat ltac:(lia)) as Hx. cbn [polled] in Hx. rewrite Hx. cbn [polled]. apply IH. intros j Hj. apply (Hs (S j)). lia.
Qed.

Lemma poll_loop_shown n k c s d r x : s < d →
  (∀ j, (j < k)%nat → shown c (polled j c x) = false) → shown c (polled k c x) = true → (k < n)%nat →
  poll_loop n c s d r x = (polled (S k) c x, Ret "0").
Proof.
  intros Hd. revert n r x. induction k as [|k IH]; intros [|n] r x Hs Hk Hn; try lia; rewrite poll_loop_S by done; cbn zeta.
  - change (polled 0 c x) with x in Hk. by rewrite Hk.
  - pose proof (Hs 0%nat ltac:(lia)) as Hx. cbn [polled] in Hx. rewrite Hx. cbn [polled]. apply IH; [|done|lia].
    intros j Hj. apply (Hs (S j)). lia.
Qed.

Definition mon_stat_cmd (c timeout : string) : string :=
  "docker exec " +:+ c +:+ " timeout " +:+ timeout +:+ " ceph mon stat > /dev/null 2>&1; echo $?".

(** ** A container name per task *)

Lemma getContainerName_task_id t k h s : getContainerName (task_id t k h s) = Ret (createTaskName t k).
Proof.
  unfold getContainerName, task_id. rewrite !str_app_cons, !str_app_nil_l.
  rewrite explode_delim; [done|]. unfold createTaskName. rewrite lacks_app, lexical_lacks by done. by destruct t.
Qed.

Lemma parse_data_eq i t :
  parse_data (lexical_to_string i +:+ "." +:+ lexical_to_string (TaskType_to_int t)) =
  Ret (negb (i =? 1), TaskType_to_int t).
Proof.
  unfold parse_data. rewrite explode_pair. unfold mbind, outcome_bind, vec_at. cbn [lookup list_lookup].
  rewrite lexical_roundtrip by (destruct t; split; done). f_equal. f_equal. f_equal.
  destruct (Z.eqb_spec i 1) as [->|Hne].
  - by rewrite lexical_small, bool_decide_true.
  - rewrite bool_decide_false; [done|]. intros E. apply Hne, (inj lexical_to_string). by rewrite E, (lexical_small 1).
Qed.

(** The two messages of the scheduler. *)
Lemma frameworkMessage_register x :
  let cmd := "docker exec " +:+ cx_containerName x +:+ " ceph osd create" in
  frameworkMessage polls (lexical_to_string 20) x =
    (cx_add_effect (SendFrameworkMessage (answer cmd x)) (cx_add_effect (RunCommand cmd) x), Ret tt).
Proof.
  unfold frameworkMessage. rewrite explode_last by (apply lexical_nonempty || by apply lexical_lacks). cbn zeta.
  rewrite (bind_eq _ _ x x (lexical_to_string 20)) by done.
  by rewrite (bind_eq _ _ x x 20) by (unfold lift; by rewrite lexical_roundtrip by (split; done)).
Qed.

Lemma frameworkMessage_launch osdId x :
  let localMountDir := cx_root x +:+ "/" +:+ localConfigDirName in
  frameworkMessage polls (lexical_to_string 21 +:+ "." +:+ lexical_to_string osdId) x =
  launch_osd polls (lexical_to_string osdId) localMountDir (cx_myTaskId x)
    (cx_set_dirs (localMountDir +:+ "/var/lib/ceph/osd/ceph-" +:+ lexical_to_string osdId)
                 (localMountDir +:+ "/var/lib/ceph/osd/jnl-" +:+ lexical_to_string osdId) x).
Proof.
  unfold frameworkMessage. rewrite explode_pair. cbn zeta.
  rewrite (bind_eq _ _ x x (lexical_to_string 21)) by done.
  by rewrite (bind_eq _ _ x x 21) by (unfold lift; by rewrite lexical_roundtrip by (split; done)).
Qed.
End CephFacts.

(** ** Traces only grow, and the messages of the scheduler do not fail *)

Section CephRuns.
Context `{LexicalCast, Indeterminate, MesosResources, Host}.
Context (polls : nat).

Definition grows (tr : list Effect) (x : CephExecutor) : Prop := tr `prefix_of` cx_trace x.

Section Grows.
Context (tr : list Effect).

Lemma grows_effect e : keeps (grows tr) (effect_do e).
Proof. apply keeps_modify. intros x Hx. by apply prefix_app_r. Qed.
Lemma grows_sh cmd : keeps (grows tr) (sh cmd).
Proof. intros x Hx. by apply prefix_app_r. Qed.
#[local] Hint Resolve grows_effect grows_sh : keeps.
#[local] Hint Extern 1 (keeps (grows _) (modify _)) => (apply keeps_modify; by intros []) : keeps.
#[local] Hint Extern 1 (keeps (grows _) (send_status _ _ _)) => (apply grows_effect) : keeps.

Lemma grows_poll n c s d r : keeps (grows tr) (poll_loop n c s d r).
Proof. revert r. induction n as [|n IH]; intros r; cbn [poll_loop]; keeps_auto. Qed.
#[local] Hint Resolve grows_poll : keeps.
Lemma grows_block c t : keeps (grows tr) (block_until_started polls c t).
Proof. unfold block_until_started. keeps_auto. Qed.
Lemma grows_spawn b c : keeps (grows tr) (spawn b c).
Proof. unfold spawn. keeps_auto. Qed.
#[local] Hint Resolve grows_block grows_spawn : keeps.
Lemma grows_download i : keeps (grows tr) (downloadDockerImage i).
Proof. unfold downloadDockerImage, succeeds. keeps_auto. Qed.
Lemma grows_parseHostConfig t : keeps (grows tr) (parseHostConfig t).
Proof.
  unfold parseHostConfig. destruct (ti_labels t) as [labels|]; [|keeps_auto].
  destruct (bool_decide _); [keeps_auto|]. apply keeps_bind; [|intros []; keeps_auto].
  apply keeps_foreach, Forall_true. intros l []. unfold parse_label. keeps_auto.
Qed.
Lemma grows_matching l c : keeps (grows tr) (matching_ip l c).
Proof. induction l as [|t l IH]; cbn [matching_ip]; keeps_auto. Qed.
Lemma grows_prepareDisks : keeps (grows tr) prepareDisks.
Proof. unfold prepareDisks, mountDisk. keeps_auto. Qed.
#[local] Hint Resolve grows_download grows_parseHostConfig grows_matching grows_prepareDisks : keeps.

Lemma grows_run_container taskId d ty : keeps (grows tr) (run_container polls taskId d ty).
Proof.
  unfold run_container, start_container, start_file_server, constructMonCommand, getPublicNetworkIP. keeps_auto.
Qed.
#[local] Hint Resolve grows_run_container : keeps.

Lemma grows_launchTask task : keeps (grows tr) (launchTask polls task).
Proof.
  unfold launchTask, createLocalSharedConfigDir, existsConfigFiles, copySharedConfigFiles, deleteConfigDir, succeeds.
  keeps_auto.
Qed.

Lemma grows_frameworkMessage data : keeps (grows tr) (frameworkMessage polls data).
Proof. unfold frameworkMessage, launch_osd, registerOSD. keeps_auto. Qed.
End Grows.

Lemma launchTask_prefix task x x' o :
  launchTask polls task x = (x', o) → cx_trace x `prefix_of` cx_trace x'.
Proof. intros E. change (grows (cx_trace x) x'). eapply keeps_Ret, E; [apply grows_launchTask|]. unfold grows. done. Qed.

Lemma frameworkMessage_prefix data x x' o :
  frameworkMessage polls data x = (x', o) → cx_trace x `prefix_of` cx_trace x'.
Proof. intros E. change (grows (cx_trace x) x'). eapply keeps_Ret, E; [apply grows_frameworkMessage|]. unfold grows. done. Qed.

Lemma no_failure_sh cmd : no_failure (sh cmd).
Proof. done. Qed.
Lemma no_failure_send st m i : no_failure (send_status st m i).
Proof. done. Qed.
Lemma no_failure_effect e : no_failure (effect_do (X := CephExecutor) e).
Proof. done. Qed.
#[local] Hint Resolve no_failure_sh no_failure_send no_failure_effect : no_failure.

Lemma no_failure_poll n c s d r : no_failure (poll_loop n c s d r).
Proof. revert r. induction n as [|n IH]; intros r; cbn [poll_loop]; no_failure_auto. Qed.
#[local] Hint Resolve no_failure_poll : no_failure.

Lemma lexical_thirty : lexical_to_int "30" = Ret 30.
Proof. change "30" with (small_decimal 30). rewrite <- lexical_small by done. by apply lexical_roundtrip. Qed.

Lemma no_failure_launch_osd osdId d taskId : no_failure (launch_osd polls osdId d taskId).
Proof.
  assert (Hb : ∀ c, no_failure (block_until_started polls c "30")).
  { intros c. unfold block_until_started. rewrite lexical_thirty.
    apply no_failure_bind; [done|]. intros current. apply no_failure_bind; [by eapply no_failure_lift|]. intros seconds.
    cbn zeta. no_failure_auto. }
  unfold launch_osd, prepareDisks, mountDisk, spawn. no_failure_auto.
Qed.
Lemma block_until_started_spec (c timeout : string) (seconds : Z) (x : CephExecutor) :
  lexical_to_int timeout = Ret seconds → 0 < seconds →
  ((∀ j, (j < polls)%nat → shown c (polled j c x) = false) →
     block_until_started polls c timeout x = (polled polls c x, Blocked)) ∧
  (∀ k, (∀ j, (j < k)%nat → shown c (polled j c x) = false) → shown c (polled k c x) = true → (k < polls)%nat →
     let y := polled (S k) c x in
     block_until_started polls c timeout x =
       (cx_add_effect (RunCommand (mon_stat_cmd c timeout)) y,
        Ret (bool_decide ("0" = answer (mon_stat_cmd c timeout) y)))).
Proof.
  intros Ht Hs. unfold block_until_started.
  rewrite (bind_eq _ _ x x (host_time (trace x))) by done.
  rewrite (bind_eq _ _ x x seconds) by (unfold lift; by rewrite Ht). cbn zeta.
  assert (Hsd : host_time (trace x) < host_time (trace x) + seconds) by lia. split.
  - intros Hb. unfold mbind, ST_bind. by rewrite poll_loop_blocked.
  - intros k Hb Hk Hlt.
    rewrite (bind_eq _ _ _ _ _ (poll_loop_shown _ k _ _ _ _ _ Hsd Hb Hk Hlt)).
    rewrite decide_False by (intros Hn; by apply Hn).
    unfold sh. rewrite (bind_eq _ _ _ _ _ (runShellCommand_eq _ _)). fold (mon_stat_cmd c timeout).
    case_decide as Hd; [by rewrite bool_decide_false|]. rewrite bool_decide_true; [done|].
    destruct (decide ("0" = answer (mon_stat_cmd c timeout) (polled (S k) c x))); done.
Qed.

(** The preparation of the disks and the fork return, whatever the host answers. *)
Lemma prepareDisks_returns (x : CephExecutor) :
  ∃ x1, prepareDisks x = (x1, Ret true) ∧ cx_containerName x1 = cx_containerName x.
Proof.
  unfold prepareDisks, mountDisk, sh, mbind, ST_bind, gets, mret, ST_ret. rewrite !runShellCommand_eq. cbn.
  repeat (case_decide; cbn); rewrite ?runShellCommand_eq; cbn; repeat (case_decide; cbn);
    rewrite ?runShellCommand_eq; (eexists; split; [reflexivity|done]).
Qed.

(** The effects of a [fork] whose child executes a command. *)
Definition forked (binary cmd : string) (past : list Effect) : list Effect :=
  if host_fork past =? -1 then [] else [Spawn binary (explode_argv cmd " ")].

Lemma spawn_returns binary cmd (x : CephExecutor) : cmd ≠ "" →
  ∃ x1 pid, spawn binary cmd x = (x1, Ret pid) ∧ cx_trace x1 = cx_trace x ++ forked binary cmd (cx_trace x).
Proof.
  intros Hc. unfold spawn, forked, mbind, ST_bind, gets. cbn [trace CephExecutor_traced].
  destruct (_ =? -1); [|rewrite decide_False by done]; eexists _, _; (split; [reflexivity|]); [by rewrite app_nil_r|done].
Qed.

(** The first poll, if any, that shows the container. *)
Lemma first_shown c y n :
  (∀ j, (j < n)%nat → shown c (polled j c y) = false) ∨
  ∃ k, (k < n)%nat ∧ shown c (polled k c y) = true ∧ ∀ j, (j < k)%nat → shown c (polled j c y) = false.
Proof.
  induction n as [|n [IH|(k & Hk & ?)]]; [left; lia| |right; exists k; split; [lia|done]].
  destruct (shown c (polled n c y)) eqn:E; [right; exists n; split_and!; [lia|done..]|left].
  intros j Hj. destruct (decide (j = n)) as [->|Hne]; [done|apply IH; lia].
Qed.

Lemma sent_polled n c (x : CephExecutor) : sent (cx_trace (polled n c x)) = sent (cx_trace x).
Proof.
  revert x. induction n as [|n IH]; intros x; [done|]. cbn [polled]. rewrite IH.
  cbn. rewrite sent_app. by apply app_nil_r.
Qed.

(** What becomes of the launch of an OSD is what becomes of the wait for its
    container, which starts in some state [y]. *)
Lemma launch_osd_outcome osdId dir taskId (x : CephExecutor) :
  ∃ y past, cx_trace x `prefix_of` past ∧
    cx_trace y = past ++ forked "docker" (constructOSDCommand dir osdId (cx_containerName x)) past ∧
    sent (cx_trace y) = sent (cx_trace x) ∧
    launch_osd polls osdId dir taskId x =
      (started ← block_until_started polls (cx_containerName x) "30";
       if (started : bool) then
         send_status TASK_RUNNING (Some (lexical_to_string (MessageToScheduler_to_int CONSUMED_OSD_ID) +:+ "." +:+ osdId)) taskId
       else send_status TASK_FAILED None taskId) y.
Proof.
  destruct (prepareDisks_returns x) as (x1 & E1 & C1).
  destruct (spawn_returns "docker" (constructOSDCommand dir osdId (cx_containerName x)) x1) as (x2 & pid & E2 & T2); [done|].
  exists (cx_set_pid pid x2), (cx_trace x1). split_and!.
  - change (grows (cx_trace x) x1). eapply keeps_Ret, E1; [apply grows_prepareDisks|unfold grows; done].
  - exact T2.
  - destruct (silent_prepareDisks _ _ _ E1) as [<- _]. by destruct (silent_spawn _ _ _ _ _ E2) as [<- _].
  - unfold launch_osd. rewrite (bind_eq _ _ _ _ _ E1). cbn [negb].
    rewrite (bind_eq _ _ x1 x1 (cx_containerName x)) by (unfold gets; by rewrite C1).
    rewrite (bind_eq _ _ _ _ _ E2). by rewrite (bind_eq _ _ x2 (cx_set_pid pid x2) tt) by done.
Qed.
End CephRuns.

(** ** Properties *)

Section Properties.
Context `{LexicalCast, Indeterminate, MesosResources, Host}.
Context (polls : nat).

(** C19. A launch of the Ceph executor that returns sends exactly one report,
    about its task: FAILED, or STARTING if the type in the task's data is OSD
    and RUNNING if it is not.  Its data was readable. *)
Theorem launchTask_one_report (task : TaskInfo) (x x' : CephExecutor) (u : unit) :
  launchTask polls task x = (x', Ret u) →
  ∃ ty st, task_type task = Ret ty ∧
    sent (cx_trace x') = sent (cx_trace x) ++ [st] ∧ st_task_id st = ti_task_id task ∧
    launch_report ty st.
Proof.
  intros E. destruct (launchTask_reports polls task _ _ _ E) as [_ (st & Es & Hid & (ty & Hty & Hst) & _)]; [done|].
  exists ty, st. by split_and!.
Qed.

(** C22. What the scheduler writes into a Ceph task is what the executor reads:
    the configuration is copied unless the task is the initial MON, the type is
    the one launched, and the container is named after the type and the token,
    so that no two launched tasks share a container name. *)
Theorem task_data_roundtrip (offer : Offer) (t : TaskType) (k i : Z) (task : TaskInfo) :
  ceph_task offer t k i task →
  (∃ data, ti_data task = Some data ∧ parse_data data = Ret (negb (i =? 1), TaskType_to_int t)) ∧
  task_type task = Ret (TaskType_to_int t) ∧
  getContainerName (ti_task_id task) = Ret (createTaskName t k) ∧
  (∀ t' k', createTaskName t k = createTaskName t' k' → t = t' ∧ k = k').
Proof.
  intros [Hid _ _ Hdata _ _].
  split_and!.
  - eauto using parse_data_eq.
  - unfold task_type. by rewrite Hdata, parse_data_eq.
  - rewrite Hid. apply getContainerName_task_id.
  - intros t' k'. unfold createTaskName. destruct t, t'; scbn; try discriminate; intros E; (split; [done|]);
      apply (inj lexical_to_string); by injection E.
Qed.

(** C37. Waiting for a container never times out.  With any positive timeout, if
    [docker ps] does not show the container at any poll, the wait is still
    running after that many polls, whatever the timeout; if it shows it at poll
    [k], the wait ends there with the answer of [ceph mon stat]. *)
Theorem block_until_started_no_timeout (c timeout : string) (seconds : Z) (x : CephExecutor) :
  lexical_to_int timeout = Ret seconds → 0 < seconds →
  ((∀ j, (j < polls)%nat → shown c (polled j c x) = false) →
     block_until_started polls c timeout x = (polled polls c x, Blocked)) ∧
  (∀ k, (∀ j, (j < k)%nat → shown c (polled j c x) = false) → shown c (polled k c x) = true → (k < polls)%nat →
     let y := polled (S k) c x in
     block_until_started polls c timeout x =
       (cx_add_effect (RunCommand (mon_stat_cmd c timeout)) y,
        Ret (bool_decide ("0" = answer (mon_stat_cmd c timeout) y)))).
Proof. exact (block_until_started_spec polls c timeout seconds x). Qed.

(** C20. Launching an OSD, from the scheduler's message to its reaction.  The
    message that carries an OSD id is handled without an exception: the executor
    comes to wait for the container, in a state [y] with nothing reported yet,
    just after the [fork] whose child runs the command of that OSD.
    While no poll shows the container it goes on waiting and reports nothing;
    once a poll shows it, it returns with one report about its task, RUNNING with
    the id it consumed if [ceph mon stat] then succeeds, and FAILED if not.  The
    scheduler, given the RUNNING report, marks the task as running and nothing
    else. *)
Theorem launch_osd_roundtrip (t : TaskState) (osdId : Z) (e s msg : string) (x x' : CephExecutor) (o : outcome unit) :
  launch_osd_message t osdId = sendFrameworkMessage e s msg →
  frameworkMessage polls msg x = (x', o) →
  let c := cx_containerName x in
  let id := cx_myTaskId x in
  let running := mkTaskStatus id TASK_RUNNING (Some (lexical_to_string 1 +:+ "." +:+ lexical_to_string osdId)) in
  let dir := cx_root x +:+ "/" +:+ localConfigDirName in
  let command := constructOSDCommand dir (lexical_to_string osdId) c in
  (∃ y past, cx_trace x `prefix_of` past ∧ cx_trace y = past ++ forked "docker" command past ∧
    sent (cx_trace y) = sent (cx_trace x) ∧
    ((∀ j, (j < polls)%nat → shown c (polled j c y) = false) ∧ o = Blocked ∧
     sent (cx_trace x') = sent (cx_trace x) ∨
     ∃ k, (k < polls)%nat ∧ shown c (polled k c y) = true ∧
       (∀ j, (j < k)%nat → shown c (polled j c y) = false) ∧ o = Ret tt ∧
       sent (cx_trace x') = sent (cx_trace x) ++
         [if decide ("0" = answer (mon_stat_cmd c "30") (polled (S k) c y)) then running
          else mkTaskStatus id TASK_FAILED None])) ∧
  ∀ a : Agent, statusUpdate running a = (set_stateMachine (updateTaskToRunning id) a, Ret tt).
Proof.
  intros [= _ _ <-] E c id running dir command. split; [|intros a; apply statusUpdate_consumed].
  rewrite frameworkMessage_launch in E.
  match type of E with launch_osd _ ?osd ?d ?i ?x0 = _ =>
    destruct (launch_osd_outcome polls osd d i x0) as (y & past & Hp & Hy & Hs & El) end.
  rewrite El in E. change (cx_containerName _) with c in E. change (sent (cx_trace y) = sent (cx_trace x)) in Hs. clear El.
  exists y, past. split; [exact Hp|]. split; [exact Hy|]. split; [exact Hs|].
  destruct (block_until_started_spec polls c "30" 30 y lexical_thirty ltac:(lia)) as [Hblocked Hshown].
  destruct (first_shown c y polls) as [Hn|(k & Hk & Hsh & Hb)]; [left|right].
  - unfold mbind, ST_bind in E. rewrite (Hblocked Hn) in E. injection E as <- <-. split_and!; [done..|].
    by rewrite sent_polled.
  - exists k. rewrite (bind_eq _ _ _ _ _ (Hshown k Hb Hsh Hk)) in E. unfold send_status in E.
    assert (Ex : o = Ret tt ∧ x' = cx_add_effect (SendStatusUpdate (if decide ("0" = answer (mon_stat_cmd c "30") (polled (S k) c y))
        then running else mkTaskStatus id TASK_FAILED None)) (cx_add_effect (RunCommand (mon_stat_cmd c "30")) (polled (S k) c y))).
    { case_bool_decide; [rewrite decide_True by done|rewrite decide_False by done]; by injection E as <- <-. }
    destruct Ex as [-> ->]. split_and!; [done..|]. cbn [cx_trace cx_add_effect]. rewrite !sent_app, sent_polled, Hs.
    cbn. by rewrite app_nil_r.
Qed.

(** C38. The address a MON binds is the first one of its host, as [hostname -I]
    prints them, that agrees with the management network on the whole octets of
    the mask, and what [hostname -i] prints when none does.  With no management
    network configured, the executor reads past the end of a vector instead. *)
Theorem getPublicNetworkIP_spec (ips : list quad) (net : quad) (mask : Z) (x : CephExecutor) :
  Forall quad_ok ips → quad_ok net → 0 ≤ mask ≤ 32 →
  let printed := terminate_all " " (dotted <$> ips) in
  getPublicNetworkIP printed (cidr net mask) x =
    (match List.find (λ q, in_block q net (8 * (mask / 8))) ips with
     | Some q => mret (dotted q)
     | None => sh "hostname -i"
     end) x ∧
  (ips ≠ [] → getPublicNetworkIP printed "" x = (x, Undef)).
Proof.
  intros Hips Hnet Hm. cbn zeta. unfold getPublicNetworkIP. rewrite explode_terminate_all.
  2: { apply Forall_fmap, Forall_true. intros q. cbn. unfold dotted. autorewrite with lacks.
       by rewrite !lexical_lacks. }
  split.
  - induction Hips as [|q ips Hq Hips IH]; [done|]. cbn [fmap list_fmap matching_ip List.find].
    rewrite (bind_eq _ _ x x (in_block q net (8 * (mask / 8))))
      by (unfold lift; by rewrite match_cidr_octets).
    by destruct (in_block _ _ _).
  - by destruct ips.
Qed.
End Properties.

(** Once the image is missing, no launch of a known type ever reports success:
    [downloadDockerImage] does not return. *)
Section MissingImage.
Context `{LexicalCast, Indeterminate, MesosResources, Host}.
Context (polls : nat).

Lemma downloadDockerImage_missing image x x' r :
  (∀ past cmd, shell_result (host_popen past cmd) ≠ "0") →
  downloadDockerImage image x ≠ (x', Ret r).
Proof.
  intros Hm E. unfold downloadDockerImage in E. inv_run_step.
  match goal with Hs : succeeds _ _ = _ |- _ => unfold succeeds, sh in Hs; inv_exec end.
  rewrite bool_decide_false in E by (intros Ez; by eapply Hm). inv_run. done.
Qed.
End MissingImage.

#[local] Existing Instances DecimalCast.cast SomeValues.indet ScalarResources.resources.

(** A host where every check succeeds. *)
Module SampleCeph.
Instance host : Host := {|
  host_popen _ cmd := Some (if decide (cmd = "echo ~") then "/root" else "0");
  host_fork _ := 42;
  host_time past := Z.of_nat (length past);
  host_getcwd := Some "/sandbox";
|}.
Definition labels : list Label := [mkLabel CustomData.mgmtdevKey "10.0.0.0/8"].
Definition task : TaskInfo :=
  mkTaskInfo _ "osd3" "osd3.h1.s" "s" (mkExecutorInfo "ceph-mesos-executor.1.3.7" "e" ceph_command []) (Some "0.1") (Some labels) [].
Definition offer : Offer := mkOffer _ "o" "h1" "s" [].
Definition x1 : CephExecutor := (launchTask 1 task new_CephExecutor).1.
Definition x2 : CephExecutor := (frameworkMessage 1 "21.7" x1).1.
End SampleCeph.
#[local] Existing Instance SampleCeph.host.

Lemma launchTask_one_report_witness :
  ∃ ty st, task_type SampleCeph.task = Ret ty ∧ sent (cx_trace SampleCeph.x1) = [st] ∧ launch_report ty st.
Proof.
  destruct (launchTask_one_report 1 SampleCeph.task new_CephExecutor SampleCeph.x1 tt)
    as (ty & st & Ht & Es & _ & Hst); [vm_compute; reflexivity|]. exists ty, st. by split_and!.
Defined.

Lemma task_data_roundtrip_witness : getContainerName (ti_task_id SampleCeph.task) = Ret "osd3".
Proof.
  refine (proj1 (proj2 (proj2 (task_data_roundtrip SampleCeph.offer OSD 3 0 SampleCeph.task _)))).
  split; try reflexivity. exists 7. reflexivity.
Defined.

Lemma block_until_started_no_timeout_witness :
  (block_until_started 1 "osd3" "30" SampleCeph.x1).2 = Ret true.
Proof.
  destruct (block_until_started_no_timeout 1 "osd3" "30" 30 SampleCeph.x1) as [_ Hk];
    [vm_compute; reflexivity|lia|].
  rewrite (Hk 0%nat); [reflexivity|intros j Hj; lia|reflexivity|lia].
Defined.

(** On this host the first poll shows the container, and the OSD runs. *)
Lemma launch_osd_roundtrip_witness :
  sent (cx_trace SampleCeph.x2) = sent (cx_trace SampleCeph.x1) ++
    [mkTaskStatus "osd3.h1.s" TASK_RUNNING (Some "1.7")].
Proof.
  destruct (launch_osd_roundtrip 1 (osd_task "osd3.h1.s" STARTING) 7 "e" "s" "21.7" SampleCeph.x1 SampleCeph.x2 (Ret tt))
    as [(y & past & _ & _ & _ & [(_ & [=] & _)|(k & _ & _ & _ & _ & Es)]) _]; [reflexivity|vm_compute; reflexivity|].
  rewrite Es. rewrite decide_True; [vm_compute; reflexivity|]. unfold answer. cbn [host_popen SampleCeph.host].
  by rewrite decide_False.
Defined.

Lemma getPublicNetworkIP_spec_witness :
  (getPublicNetworkIP "192.168.0.1 10.1.2.3 " "10.0.0.0/12" SampleCeph.x1).2 = Ret "10.1.2.3".
Proof.
  destruct (getPublicNetworkIP_spec [Quad 192 168 0 1; Quad 10 1 2 3] (Quad 10 0 0 0) 12 SampleCeph.x1) as [E _].
  - repeat constructor; discriminate.
  - repeat constructor; discriminate.
  - lia.
  - change (terminate_all _ _) with "192.168.0.1 10.1.2.3 " in E. change (cidr _ _) with "10.0.0.0/12" in E.
    by rewrite E.
Defined.
