(* ===== verification/DockerArgv.v ===== *)
(** * The containers the Ceph executor starts

    The executor writes each [docker run] command as one text, and the child of
    [fork] cuts it at the spaces.  Here are the argument vectors that come out,
    and that an OSD which is reported to run was started with its own. *)

From S2P Require Import Prelude StringUtil CephTypes Mesos Agent Executor Shell CephExec.
#[local] Existing Instance CephExecutor_traced.
Open Scope Z_scope.

(** ** Cutting a command into words *)

Lemma explode_argv_unwords l w :
  Forall (λ w, word w = true) (l ++ [w]) → w ≠ "" → explode_argv (unwords (l ++ [w])) " " = l ++ [w].
Proof.
  intros Hl Hw. unfold explode_argv. rewrite explode_sep; [|by eapply Forall_impl; [|by intros s [? _]%andb_true_iff]|done].
  induction Hl as [|v l' Hv _ IH]; [done|]. rewrite fmap_cons, IH. by rewrite c_str_word.
Qed.

(** ** The argument vectors

    [dir] is the directory of the shared configuration. *)
Definition mon_argv (dir cName ip mgmt data : string) : list string :=
  ["docker"; "run"; "--rm"; "--net=host"; "--privileged"; "--name"; cName;
   "-e"; "MON_IP=" +:+ ip; "-e"; "OSD_JOURNAL_SIZE=0"; "-e"; "CEPH_PUBLIC_NETWORK=" +:+ mgmt;
   "-e"; "CEPH_CLUSTER_NETWORK=" +:+ data;
   "-v"; dir +:+ "/etc/ceph:/etc/ceph:rw"; "-v"; dir +:+ "/var/lib/ceph:/var/lib/ceph:rw";
   "ceph/daemon"] ++ ["mon"].

Definition osd_argv (dir osdDir jnlDir osdId cName : string) : list string :=
  ["docker"; "run"; "--rm"; "--pid=host"; "--net=host"; "--privileged"; "--name"; cName;
   "-e"; "JOURNAL_DIR=/var/lib/ceph/osd/journal"; "-e"; "OSD_TYPE=directory";
   "-v"; dir +:+ "/etc/ceph:/etc/ceph:rw";
   "-v"; dir +:+ "/var/lib/ceph/bootstrap-osd:/var/lib/ceph/bootstrap-osd:rw";
   "-v"; osdDir +:+ ":/var/lib/ceph/osd/ceph-" +:+ osdId +:+ ":rw";
   "-v"; jnlDir +:+ ":/var/lib/ceph/osd/journal:rw"; "ceph/daemon"] ++ ["osd"].

Definition radosgw_argv (dir cName : string) : list string :=
  ["docker"; "run"; "--rm"; "--net=host"; "--privileged"; "--name"; cName; "-e"; "RGW_NAME=" +:+ cName;
   "-v"; dir +:+ "/etc/ceph:/etc/ceph:rw";
   "-v"; dir +:+ "/var/lib/ceph/bootstrap-rgw:/var/lib/ceph/bootstrap-rgw:rw"; "ceph/daemon"] ++ ["rgw"].

(** A command is its words: both sides in the same normal form. *)
Ltac words_done :=
  match goal with |- explode_argv ?cmd _ = _ =>
    match goal with |- _ = ?l ++ [?w] =>
      replace cmd with (unwords (l ++ [w]));
      [apply explode_argv_unwords; [|done]|cbn [sep app]; rewrite <- !str_app_assoc; reflexivity]
    end
  end; repeat (constructor || (rewrite word_app; apply andb_true_intro; split) || assumption || reflexivity).

Lemma radosgw_words dir cName : word dir = true → word cName = true →
  explode_argv (constructRADOSGWCommand dir cName) " " = radosgw_argv dir cName.
Proof. intros Hd Hc. unfold constructRADOSGWCommand, radosgw_argv. cbn zeta. words_done. Qed.

Lemma osd_words dir osdId cName : word dir = true → word osdId = true → word cName = true →
  explode_argv (constructOSDCommand dir osdId cName) " " =
  osd_argv dir (dir +:+ "/var/lib/ceph/osd/ceph-" +:+ osdId) (dir +:+ "/var/lib/ceph/osd/jnl-" +:+ osdId) osdId cName.
Proof. intros Hd Ho Hc. unfold constructOSDCommand, osd_argv. cbn zeta. words_done. Qed.

Section Runs.
Context `{LexicalCast, Indeterminate, MesosResources, Host}.
Context (polls : nat).

Lemma word_lexical z : word (lexical_to_string z) = true.
Proof. unfold word. by rewrite !lexical_lacks. Qed.

(** The command of a MON carries the address [getPublicNetworkIP] found. *)
Lemma mon_words dir cName (x x' : CephExecutor) cmd :
  word dir = true → word cName = true → word (cx_mgmtNIC x) = true → word (cx_dataNIC x) = true →
  constructMonCommand dir cName x = (x', Ret cmd) →
  ∃ ip x1, getPublicNetworkIP (answer "hostname -I" x) (cx_mgmtNIC x) (cx_add_effect (RunCommand "hostname -I") x) = (x1, Ret ip) ∧
    (word ip = true → explode_argv cmd " " = mon_argv dir cName ip (cx_mgmtNIC x) (cx_dataNIC x)).
Proof.
  intros Hd Hc Hm Hn E. unfold constructMonCommand, sh in E. inv_exec. eexists _, _. split; [eassumption|].
  intros Hip. unfold mon_argv. cbn zeta. change (cx_mgmtNIC (add_effect _ x)) with (cx_mgmtNIC x).
  change (cx_dataNIC (add_effect _ x)) with (cx_dataNIC x). words_done.
Qed.

Lemma spawn_Ret binary cmd x x' pid :
  (∀ past, host_fork past ≠ -1) → cmd ≠ "" → spawn binary cmd x = (x', Ret pid) →
  x' = cx_add_effect (Spawn binary (explode_argv cmd " ")) x.
Proof.
  intros Hf Hc E. unfold spawn in E. inv_exec. rewrite (proj2 (Z.eqb_neq _ _)) in * by apply Hf.
  case_decide; [congruence|]. by inv_exec.
Qed.
End Runs.

Section Launch.
Context `{LexicalCast, Indeterminate, MesosResources, Host}.
Context (polls : nat).

Lemma container_sh c cmd : keeps (λ x, cx_containerName x = c) (sh cmd).
Proof. by intros x. Qed.
#[local] Hint Resolve container_sh : keeps.

Lemma container_prepareDisks c : keeps (λ x, cx_containerName x = c) prepareDisks.
Proof. unfold prepareDisks, mountDisk, succeeds. keeps_auto. Qed.

Lemma failed_report taskId y x' u :
  send_status TASK_FAILED None taskId y = (x', Ret u) →
  sent (cx_trace x') = sent (cx_trace y) ++ [mkTaskStatus taskId TASK_FAILED None].
Proof. unfold send_status. intros E. inv_exec. cbn. by rewrite sent_app. Qed.

(** A launch fails to prepare the disks, or has started the container. *)
Lemma launch_osd_spawns osdId dir taskId (x x' : CephExecutor) :
  (∀ past, host_fork past ≠ -1) → launch_osd polls osdId dir taskId x = (x', Ret tt) →
  sent (cx_trace x') = sent (cx_trace x) ++ [mkTaskStatus taskId TASK_FAILED None] ∨
  Spawn "docker" (explode_argv (constructOSDCommand dir osdId (cx_containerName x)) " ") ∈ cx_trace x'.
Proof.
  intros Hf E. unfold launch_osd in E. apply bind_Ret in E as (y & prepared & Hp & E).
  assert (Hc : cx_containerName y = cx_containerName x) by exact (keeps_Ret _ _ _ _ _ (container_prepareDisks _) eq_refl Hp).
  destruct (silent_prepareDisks _ _ _ Hp) as (Hs & _ & _).
  destruct prepared; cbn [negb] in E; [right|left; apply failed_report in E; by rewrite E, Hs].
  rewrite (bind_eq _ _ y y (cx_containerName x)) in E by (unfold gets; by rewrite Hc).
  apply bind_Ret in E as (y1 & pid & Hsp & E). apply spawn_Ret in Hsp; [|done|done].
  match type of E with ?m y1 = _ => assert (Hg : keeps (grows (cx_trace y1)) m) end.
  { apply keeps_bind; [by apply keeps_modify|]. intros []. apply keeps_bind; [apply grows_block|].
    intros []; apply grows_effect. }
  assert (Hpre : cx_trace y1 `prefix_of` cx_trace x') by (eapply (keeps_Ret _ _ _ _ _ Hg); [|exact E]; by unfold grows).
  destruct Hpre as [l ->]. apply elem_of_app. left. subst y1. cbn. apply elem_of_app. right. by left.
Qed.
End Launch.

(** ** Properties *)

Section Properties.
Context `{LexicalCast, Indeterminate, MesosResources, Host}.
Context (polls : nat).

(** C21. An OSD that is reported to run was started by its own command.  When
    [fork] works and the configuration directory and the container's name hold no
    space, a LAUNCH_OSD message that is handled ends in one report; unless that
    report is a failure, a process [docker run] was started with exactly these
    arguments: the container's name, the id, and the directories of this id for
    its data and its journal. *)
Theorem osd_started_with_argv (osdId : Z) (x x' : CephExecutor) :
  let id := lexical_to_string osdId in
  let dir := cx_root x +:+ "/" +:+ localConfigDirName in
  (∀ past, host_fork past ≠ -1) → word (cx_root x) = true → word (cx_containerName x) = true →
  frameworkMessage polls (lexical_to_string 21 +:+ "." +:+ id) x = (x', Ret tt) →
  ∃ st, sent (cx_trace x') = sent (cx_trace x) ++ [st] ∧ st_task_id st = cx_myTaskId x ∧
    (st_state st = TASK_FAILED ∨
     Spawn "docker" (osd_argv dir (dir +:+ "/var/lib/ceph/osd/ceph-" +:+ id)
                       (dir +:+ "/var/lib/ceph/osd/jnl-" +:+ id) id (cx_containerName x)) ∈ cx_trace x').
Proof.
  intros id dir Hf Hr Hc E. subst id. rewrite frameworkMessage_launch in E.
  destruct (launch_osd_reports polls _ _ _ _ _ _ E) as [_ (st & Es & Hid & _)]; [done|].
  exists st. split; [exact Es|]. split; [exact Hid|].
  destruct (launch_osd_spawns polls _ _ _ _ _ Hf E) as [Es'|Hs].
  - left. rewrite Es in Es'. apply app_inv_head in Es'. by injection Es' as ->.
  - right. rewrite osd_words in Hs; [exact Hs| |apply word_lexical|done].
    rewrite word_app, word_app, Hr. reflexivity.
Qed.
End Properties.

#[local] Existing Instances DecimalCast.cast SomeValues.indet ScalarResources.resources SampleCeph.host.

Lemma osd_started_with_argv_witness :
  ∃ st, sent (cx_trace SampleCeph.x2) = sent (cx_trace SampleCeph.x1) ++ [st] ∧
    (st_state st = TASK_FAILED ∨
     ∃ argv, Spawn "docker" argv ∈ cx_trace SampleCeph.x2 ∧ argv !! 7%nat = Some "osd3" ∧
       argv !! 16%nat = Some "-v" ∧
       argv !! 17%nat = Some "/root/ceph_config_root/var/lib/ceph/osd/ceph-7:/var/lib/ceph/osd/ceph-7:rw").
Proof.
  destruct (osd_started_with_argv 1 7 SampleCeph.x1 SampleCeph.x2) as (st & Es & _ & Hst).
  - intros past. discriminate.
  - vm_compute. reflexivity.
  - vm_compute. reflexivity.
  - vm_compute. reflexivity.
  - exists st. split; [exact Es|]. destruct Hst as [Hst|Hst]; [by left|right].
    eexists. split; [exact Hst|]. split_and!; vm_compute; reflexivity.
Defined.
