(* ===== verification/Distribution.v ===== *)
(** * How the configuration reaches a host

    The initial MON's executor publishes the keyrings its container made and
    serves them; the scheduler names them in the URIs of every other Ceph task;
    Mesos fetches them into the sandbox of the task; and the executor copies them
    to where the containers look.  Here the four parts are put together, on hosts
    whose commands run in the shell of [Shell]. *)

From S2P Require Import Prelude StringUtil CephTypes ConfigFile HostConfigs TaskMachine FileServer Mesos Agent Cluster Executor Shell CephExec.
#[local] Existing Instance CephExecutor_traced.
Open Scope Z_scope.

(** A decidable closed statement, by evaluation. *)
Ltac decided := apply (bool_decide_unpack _); vm_compute; exact I.

(** ** The files *)

(** The root [shared_root] gives, and the directory in it. *)
Definition config_root : string := "/root".
Definition config_dir : string := sub config_root localConfigDirName.
Definition etc_ceph : string := sub config_dir "etc/ceph".
Definition bootstrap (kind : string) : string := sub config_dir ("var/lib/ceph/bootstrap-" +:+ kind).

(** The name each file is served under, and where it lives. *)
Definition etc_files : list string := ["ceph.client.admin.keyring"; "ceph.conf"; "ceph.mon.keyring"; "monmap"].
Definition kinds : list string := ["osd"; "rgw"; "mds"].
Definition config_files : list (string * string) :=
  ((λ f, (f, sub etc_ceph f)) <$> etc_files) ++
  ((λ k, ("ceph.keyring." +:+ k, sub (bootstrap k) "ceph.keyring")) <$> kinds).

Definition present (D : Disk) (f : string) : Prop := is_Some (dk_files D !! f).

(** The directories the files are copied to, and that the files are not. *)
Record tree_ready (D : Disk) : Prop := {
  tr_etc : etc_ceph ∈ dk_dirs D;
  tr_bootstrap : Forall (λ k, bootstrap k ∈ dk_dirs D) kinds;
  tr_files : Forall (λ fp, fp.2 ∉ dk_dirs D) config_files;
}.
Record complete (D : Disk) : Prop := {
  co_tree : tree_ready D;
  co_files : Forall (λ fp, present D fp.2) config_files;
}.

(** A host without a configuration directory. *)
Record absent (D : Disk) : Prop := {
  ab_root : config_root ∈ dk_dirs D;
  ab_dir : config_dir ∉ dk_dirs D;
  ab_file : dk_files D !! config_dir = None;
  ab_dirs s : sub config_dir s ∉ dk_dirs D;
  ab_files s : dk_files D !! sub config_dir s = None;
}.
Definition host_ready (D : Disk) : Prop := absent D ∨ complete D.

(** ** Strings *)

Lemma sub_inj d d' n n' : lacks "/" n = true → lacks "/" n' = true → sub d n = sub d' n' → d = d' ∧ n = n'.
Proof.
  intros Hn Hn' E. assert (Ed : d = d').
  { rewrite <- (MiniShell.dirname_sub d n), <- (MiniShell.dirname_sub d' n') by done. by rewrite E. }
  split; [done|]. subst d'. unfold sub in E. apply (inj (String.append d)) in E. by injection E.
Qed.

Lemma sub_sub d m n : sub (sub d m) n = sub d (sub m n).
Proof. unfold sub. by rewrite <- str_app_assoc. Qed.

Lemma below_sub d names f : f ∈ below d names → ∃ s, f = sub d s.
Proof.
  revert d. induction names as [|n names IH]; intros d; [by intros ?%not_elem_of_nil|]. cbn.
  intros [->|[s ->]%IH]%elem_of_cons; [by exists n|]. exists (sub n s).
  apply sub_sub.
Qed.

Lemma add_dirs_nil D : add_dirs [] D = D.
Proof. destruct D. unfold add_dirs. cbn. by rewrite union_empty_r_L. Qed.
Lemma add_dirs_app a b D : add_dirs (a ++ b) D = add_dirs b (add_dirs a D).
Proof. unfold add_dirs. cbn. by rewrite list_to_set_app_L, union_assoc_L. Qed.

(** ** Commands *)

Section Commands.
Context `{ShLaws}.

Lemma run_mkdirs paths l cwd D o :
  Forall (λ names, names ≠ [] ∧ forallb plain_name names = true) paths →
  cwd ∈ dk_dirs D → (∀ s, dk_files D !! sub cwd s = None) →
  run_all (((λ names, ["mkdir"; "-p"; "./" +:+ path names]) <$> paths) ++ l) (mkProc cwd D 0 o) =
  run_all l (mkProc cwd (add_dirs (paths ≫= below cwd) D) 0 o).
Proof.
  intros Hp. revert D. induction Hp as [|names paths [Hn Hnames] _ IH]; intros D Hc Hf.
  - cbn. by rewrite add_dirs_nil.
  - cbn [fmap list_fmap app]. rewrite (run_all_step _ _ _ (mkProc cwd (add_dirs (below cwd names) D) 0 o)); [|rewrite sh_mkdir_p|done].
    + rewrite IH; [|cbn; set_solver|done]. by rewrite bind_cons, add_dirs_app.
    + done.
    + done.
    + done.
    + done.
    + apply Forall_forall. intros f [s ->]%below_sub. apply Hf.
Qed.

Lemma run_tests fs cwd D o :
  Forall (λ f, plain f = true ∧ absolute f = true) fs →
  run_all ((λ f, ["["; "-f"; f; "]"]) <$> fs) (mkProc cwd D 0 o) =
  mkProc cwd D (if decide (Forall (present D) fs) then 0 else 1) o.
Proof.
  induction 1 as [|f fs [Hf Ha] _ IH]; [done|]. cbn [fmap list_fmap run_all]. rewrite sh_test by done. cbn zeta.
  unfold fails_with. cbn [pc_cwd pc_disk pc_out pc_status]. destruct (decide (is_Some (dk_files D !! f))) as [Hi|Hi]; cbn.
  - rewrite IH. f_equal. destruct (decide (Forall (present D) fs)), (decide (Forall (present D) (f :: fs))) as [Hc|Hc]; try done.
    + exfalso. apply Hc. by constructor.
    + by apply Forall_cons in Hc as [_ ?].
  - f_equal. rewrite decide_False; [done|]. by intros [? _]%Forall_cons.
Qed.
End Commands.

(** ** Preparing the directory *)

Definition tree_paths : list (list string) :=
  [["etc"; "ceph"]] ++
  ((λ d, ["var"; "lib"; "ceph"; d]) <$>
     ["bootstrap-mds"; "bootstrap-rgw"; "bootstrap-osd"; "mds"; "osd"; "mon"; "radosgw"; "tmp"]).

Definition create_commands : list (list string) :=
  [["cd"; config_root]; ["mkdir"; localConfigDirName]; ["cd"; localConfigDirName]] ++
  ((λ names, ["mkdir"; "-p"; "./" +:+ path names]) <$> tree_paths) ++
  [["cd"; ".."]; ["chmod"; "777"; "-R"; localConfigDirName]].

Definition created (D : Disk) : Disk := add_dirs (tree_paths ≫= below config_dir) (add_dirs [config_dir] D).

Lemma shell_status_0 : shell_result (Some ("" +:+ pretty.pretty 0 +:+ String newline "")) = "0".
Proof. reflexivity. Qed.
Lemma shell_status_1 : shell_result (Some ("" +:+ pretty.pretty 1 +:+ String newline "")) = "1".
Proof. reflexivity. Qed.

(** ** The commands of the executor, as texts *)

Definition test_commands : list (list string) := (λ f, ["["; "-f"; f; "]"]) <$> config_files.*2.
Definition test_text : string := and_text test_commands +:+ ";echo $?".
Definition create_text : string := and_text (create_commands ++ [["echo"; "$?"]]).

Definition copy_commands (sandbox : string) : list (list string) :=
  [["cd"; sandbox]; "cp" :: ((λ n, "./" +:+ n) <$> etc_files) ++ [etc_ceph +:+ "/"]] ++
  ((λ k, ["cp"; "./ceph.keyring." +:+ k; sub (bootstrap k) "ceph.keyring"]) <$> ["osd"; "mds"; "rgw"]).
Definition copy_text (sandbox : string) : string := and_text (copy_commands sandbox) +:+ ";echo $?".

Section Texts.
Context `{LexicalCast, Indeterminate, MesosResources, Host}.

Lemma existsConfigFiles_text x :
  cx_root x = config_root → existsConfigFiles localConfigDirName x = succeeds test_text x.
Proof.
  intros Hr. unfold existsConfigFiles. by rewrite (bind_eq _ _ x x config_root) by (unfold gets; by rewrite Hr).
Qed.

(** The command of [createLocalSharedConfigDir], from any state. *)
Lemma createLocalSharedConfigDir_text x x1 b :
  cx_root x = config_root → succeeds test_text x = (x1, Ret b) → cx_root x1 = config_root →
  createLocalSharedConfigDir localConfigDirName x = if b then (x1, Ret true) else succeeds create_text x1.
Proof.
  intros Hr E Hr1. unfold createLocalSharedConfigDir.
  rewrite (bind_eq _ _ x x1 b) by (by rewrite existsConfigFiles_text). destruct b; [done|].
  by rewrite (bind_eq _ _ x1 x1 config_root) by (unfold gets; by rewrite Hr1).
Qed.

Lemma copySharedConfigFiles_text x :
  cx_root x = config_root → copySharedConfigFiles x = succeeds (copy_text (cx_sandbox x)) x.
Proof.
  intros Hr. unfold copySharedConfigFiles.
  rewrite (bind_eq _ _ x x config_root) by (unfold gets; by rewrite Hr).
  rewrite (bind_eq _ _ x x (cx_sandbox x)) by done. cbn zeta. f_equal. unfold copy_text.
  cbn [and_text copy_commands sep app fmap list_fmap etc_files]. rewrite <- !str_app_assoc. reflexivity.
Qed.
End Texts.

Section Client.
Context `{LexicalCast, Indeterminate, MesosResources, ShellHost, !ShLaws}.

Notation disk x := (disk_at (cx_trace x)).

Lemma succeeds_shell cmd (x : CephExecutor) q :
  sh_exec cmd (new_shell (default "" host_getcwd) (disk x)) = q →
  succeeds cmd x = (cx_add_effect (RunCommand cmd) x, Ret (bool_decide ("0" = shell_result (Some (pc_out q))))) ∧
  disk (cx_add_effect (RunCommand cmd) x) = pc_disk q.
Proof.
  intros Hq. pose proof (answer_shell (X := CephExecutor) cmd x q) as Ha. cbn [trace CephExecutor_traced] in Ha. destruct (Ha Hq) as [Ea Ed]. split; [|exact Ed].
  unfold succeeds, sh. rewrite (bind_eq _ _ _ _ _ (runShellCommand_eq cmd x)). by rewrite Ea.
Qed.

Lemma existsConfigFiles_eq x :
  cx_root x = config_root →
  existsConfigFiles localConfigDirName x =
    (cx_add_effect (RunCommand test_text) x, Ret (bool_decide (Forall (present (disk x)) config_files.*2))) ∧
  disk (cx_add_effect (RunCommand test_text) x) = disk x.
Proof.
  intros Hr. rewrite existsConfigFiles_text by done.
  pose proof (run_tests config_files.*2 (default "" host_getcwd) (disk x) "") as E.
  assert (Ht : Forall (λ f, plain f = true ∧ absolute f = true) config_files.*2) by (repeat constructor; reflexivity).
  pose proof (exec_status test_commands _ _ ltac:(unfold test_commands; discriminate) eq_refl (E Ht)) as Es.
  destruct (succeeds_shell test_text x _ Es) as [-> ->].
  split; [|done]. f_equal. f_equal. cbn [pc_out pc_status].
  destruct (decide (Forall (present (disk x)) config_files.*2)).
  - rewrite shell_status_0. by rewrite !bool_decide_true.
  - rewrite shell_status_1. by rewrite !bool_decide_false.
Qed.

Lemma created_dirs D : dk_dirs (created D) = dk_dirs D ∪ {[config_dir]} ∪ list_to_set (tree_paths ≫= below config_dir).
Proof. unfold created, add_dirs. cbn [dk_dirs]. set_solver. Qed.

Lemma run_create cwd D :
  absent D → run_all create_commands (mkProc cwd D 0 "") = mkProc config_root (created D) 0 "".
Proof.
  intros [Hr Hd Hf Hds Hfs]. unfold create_commands. cbn [app].
  rewrite (run_all_step _ _ _ (mkProc config_root D 0 "")) by (done || by rewrite sh_cd).
  rewrite (run_all_step _ _ _ (mkProc config_root (add_dirs [config_dir] D) 0 "")) by (done || by rewrite sh_mkdir).
  rewrite (run_all_step _ _ _ (mkProc config_dir (add_dirs [config_dir] D) 0 "")).
  2: { rewrite sh_cd_name; [done|done|]. cbn. set_solver. }
  2: { done. }
  rewrite run_mkdirs; [|by repeat constructor|cbn; set_solver|exact Hfs]. fold (created D).
  rewrite (run_all_step _ _ _ (mkProc config_root (created D) 0 "")); [|rewrite (sh_cd_up config_root localConfigDirName)|done].
  - rewrite (run_all_step _ _ _ (mkProc config_root (created D) 0 "")); [done|rewrite sh_chmod|done]; [done|done|].
    cbn [pc_cwd pc_disk]. rewrite created_dirs. change (sub config_root localConfigDirName) with config_dir. set_solver.
  - done.
  - done.
  - done.
  - cbn [pc_disk]. rewrite created_dirs. set_solver.
Qed.

(** The three cases of [createLocalSharedConfigDir]: nothing to do, a new tree,
    and a directory that is there without its files. *)
Lemma create_exists x :
  cx_root x = config_root → Forall (present (disk x)) config_files.*2 →
  ∃ x', createLocalSharedConfigDir localConfigDirName x = (x', Ret true) ∧ disk x' = disk x ∧
        (∃ l, x' = foldr cx_add_effect x l).
Proof.
  intros Hr Hf. destruct (existsConfigFiles_eq x Hr) as [Ee Ed]. rewrite existsConfigFiles_text, bool_decide_true in Ee by done.
  rewrite (createLocalSharedConfigDir_text _ _ _ Hr Ee) by done. eexists. split; [done|]. split; [done|].
  by exists [RunCommand test_text].
Qed.

Lemma create_missing x q :
  cx_root x = config_root → ¬ Forall (present (disk x)) config_files.*2 →
  sh_exec create_text (new_shell (default "" host_getcwd) (disk x)) = q →
  ∃ x', createLocalSharedConfigDir localConfigDirName x =
          (x', Ret (bool_decide ("0" = shell_result (Some (pc_out q))))) ∧ disk x' = pc_disk q ∧
        (∃ l, x' = foldr cx_add_effect x l).
Proof.
  intros Hr Hf Hq. destruct (existsConfigFiles_eq x Hr) as [Ee Ed]. rewrite existsConfigFiles_text, bool_decide_false in Ee by done.
  rewrite (createLocalSharedConfigDir_text _ _ _ Hr Ee) by done. set (x1 := cx_add_effect _ x) in *.
  rewrite <- Ed in Hq. destruct (succeeds_shell create_text x1 q Hq) as [-> Ed']. eexists. split; [done|]. split; [done|].
  by exists [RunCommand create_text; RunCommand test_text].
Qed.
Lemma config_files_sub : Forall (λ fp, ∃ s, fp.2 = sub config_dir s) config_files.
Proof.
  apply Forall_app. split; apply Forall_fmap, Forall_true; intros f; eexists; cbn; [unfold etc_ceph|unfold bootstrap];
    by rewrite sub_sub.
Qed.

Lemma absent_missing D : absent D → ¬ Forall (present D) config_files.*2.
Proof.
  intros Ha Hf. pose proof config_files_sub as Hs. unfold config_files, etc_files in *. cbn in Hf, Hs.
  apply Forall_cons in Hf as [[d Hd] _], Hs as [[s Hs] _]. cbn in Hs. rewrite Hs, (ab_files D Ha) in Hd. done.
Qed.

Lemma created_ready D : absent D → tree_ready (created D).
Proof.
  intros [Hr Hd Hf Hds Hfs]. split; rewrite ?created_dirs.
  - apply elem_of_union. right. apply elem_of_list_to_set. decided.
  - repeat constructor; apply elem_of_union; right; apply elem_of_list_to_set; decided.
  - assert (Hn : Forall (λ fp, fp.2 ≠ config_dir ∧ fp.2 ∉ tree_paths ≫= below config_dir) config_files)
      by (decided).
    pose proof config_files_sub as Hs. rewrite Forall_forall in Hn, Hs |- *. intros fp Hi.
    destruct (Hn fp Hi) as [Hn1 Hn2], (Hs fp Hi) as [s E]. rewrite !elem_of_union, elem_of_singleton, elem_of_list_to_set.
    intros [[Hin|?]|?]; [|done..]. rewrite E in Hin. by apply (Hds s).
Qed.

Lemma create_fresh x :
  cx_root x = config_root → absent (disk x) →
  ∃ x', createLocalSharedConfigDir localConfigDirName x = (x', Ret true) ∧ disk x' = created (disk x) ∧
        (∃ l, x' = foldr cx_add_effect x l).
Proof.
  intros Hr Ha. destruct (create_missing x _ Hr (absent_missing _ Ha) eq_refl) as (x' & E & Ed & Hl).
  exists x'. unfold create_text, new_shell in E, Ed. rewrite exec_and_echo, run_create in E, Ed by done.
  cbn zeta in E, Ed. cbn [pc_status Z.eqb] in E, Ed. rewrite sh_echo in E, Ed.
  split; [|by rewrite Ed]. rewrite E. reflexivity.
Qed.

(** The directory is there and a file is missing: [mkdir] fails. *)
Lemma create_stuck x :
  cx_root x = config_root → config_root ∈ dk_dirs (disk x) → config_dir ∈ dk_dirs (disk x) →
  ¬ Forall (present (disk x)) config_files.*2 →
  ∃ x', createLocalSharedConfigDir localConfigDirName x = (x', Ret false) ∧ disk x' = disk x ∧
        (∃ l, x' = foldr cx_add_effect x l).
Proof.
  intros Hr Hroot Hdir Hf. destruct (create_missing x _ Hr Hf eq_refl) as (x' & E & Ed & Hl).
  exists x'. unfold create_text in E, Ed. rewrite exec_and_echo in E, Ed by done.
  assert (Eq : run_all create_commands (new_shell (default "" host_getcwd) (disk x)) = mkProc config_root (disk x) 1 "").
  { unfold create_commands. cbn [app]. rewrite (run_all_step _ _ _ (mkProc config_root (disk x) 0 "")) by (done || by rewrite sh_cd).
    cbn [run_all]. by rewrite sh_mkdir_exists. }
  rewrite Eq in E, Ed. cbn zeta in E, Ed. cbn [pc_status Z.eqb] in E, Ed. split; [|by rewrite Ed]. rewrite E. reflexivity.
Qed.

(** ** Copying the files *)

(** What a sandbox must be for the copies to be made. *)
Record sandbox_ok (sandbox : string) (D : Disk) : Prop := {
  sb_plain : plain sandbox = true;
  sb_absolute : absolute sandbox = true;
  sb_dir : sandbox ∈ dk_dirs D;
  sb_apart : sandbox ≠ etc_ceph;
}.

(** The sandbox holds these contents under the names they were fetched by. *)
Definition holds (sandbox : string) (content : string → string) (D : Disk) : Prop :=
  Forall (λ fp, dk_files D !! sub sandbox fp.1 = Some (content fp.1)) config_files.

Definition copied (content : string → string) (D : Disk) : Disk :=
  foldl (λ E k, write (sub (bootstrap k) "ceph.keyring") (content ("ceph.keyring." +:+ k)) E)
    (foldr (λ n, write (sub etc_ceph n) (content n)) D etc_files) ["osd"; "mds"; "rgw"].

Lemma sandbox_apart sandbox f k : lacks "/" f = true → f ≠ "ceph.keyring" → sub sandbox f ≠ sub (bootstrap k) "ceph.keyring".
Proof. intros Hf Hn E. by apply sub_inj in E as [_ ?]. Qed.

(** One keyring. *)
Lemma cp_keyring sandbox content D l k o :
  sandbox_ok sandbox D → holds sandbox content D → tree_ready D → k ∈ kinds →
  let E := write (sub (bootstrap k) "ceph.keyring") (content ("ceph.keyring." +:+ k)) D in
  run_all (["cp"; "./ceph.keyring." +:+ k; sub (bootstrap k) "ceph.keyring"] :: l) (mkProc sandbox D 0 o) =
  run_all l (mkProc sandbox E 0 o) ∧ sandbox_ok sandbox E ∧ holds sandbox content E ∧ tree_ready E.
Proof.
  intros [P1 P2 P3 P4] Hh [T1 T2 T3] Hk E.
  unfold holds in Hh. rewrite Forall_forall in T2. rewrite Forall_forall in T3. rewrite Forall_forall in Hh.
  assert (Hi : ("ceph.keyring." +:+ k, sub (bootstrap k) "ceph.keyring") ∈ config_files).
  { apply elem_of_app. right. by apply (list_elem_of_fmap_2 (λ k, ("ceph.keyring." +:+ k, sub (bootstrap k) "ceph.keyring"))). }
  assert (Hne : ∀ fp, fp ∈ config_files → sub sandbox fp.1 ≠ sub (bootstrap k) "ceph.keyring").
  { assert (Hl : Forall (λ fp, lacks "/" fp.1 = true ∧ fp.1 ≠ "ceph.keyring") config_files) by (decided).
    rewrite Forall_forall in Hl. intros fp Hfp. destruct (Hl fp Hfp). by apply sandbox_apart. }
  split_and!; [|by split| |].
  - apply run_all_step; [|done]. rewrite (sh_cp _ _ _ (content ("ceph.keyring." +:+ k))); [done|..].
    + exact (Hh _ Hi).
    + done.
    + done.
    + by apply T2.
    + exact (T3 _ Hi).
    + exact (Hne _ Hi).
  - apply Forall_forall. intros fp Hfp. cbn. rewrite lookup_insert_ne by (symmetry; by apply Hne). by apply Hh.
  - split; [done|by apply Forall_forall|by apply Forall_forall].
Qed.

Lemma run_keyrings sandbox content ks D o :
  Forall (λ k, k ∈ kinds) ks → sandbox_ok sandbox D → holds sandbox content D → tree_ready D →
  run_all ((λ k, ["cp"; "./ceph.keyring." +:+ k; sub (bootstrap k) "ceph.keyring"]) <$> ks) (mkProc sandbox D 0 o) =
  mkProc sandbox
    (foldl (λ E k, write (sub (bootstrap k) "ceph.keyring") (content ("ceph.keyring." +:+ k)) E) D ks) 0 o.
Proof.
  intros Hks. revert D. induction Hks as [|k ks Hk _ IH]; intros D Hs Hh Ht; [done|]. cbn [foldl].
  destruct (cp_keyring sandbox content D
    ((λ k, ["cp"; "./ceph.keyring." +:+ k; sub (bootstrap k) "ceph.keyring"]) <$> ks) k o Hs Hh Ht Hk) as (E & Hs' & Hh' & Ht').
  etrans; [exact E|]. by apply IH.
Qed.

Lemma copies_contents from to content names D :
  Forall (λ n, dk_files D !! sub from n = Some (content n)) names →
  copies from to names D = foldr (λ n, write (sub to n) (content n)) D names.
Proof. induction 1 as [|n names Hn _ IH]; [done|]. cbn. by rewrite Hn, <- IH. Qed.

Lemma holds_etc sandbox content D : holds sandbox content D → Forall (λ n, dk_files D !! sub sandbox n = Some (content n)) etc_files.
Proof. intros [Hh _]%Forall_app. by apply Forall_fmap in Hh. Qed.

(** Files written to [/etc/ceph] do not touch the sandbox. *)
Lemma holds_etc_write sandbox content names D :
  sandbox ≠ etc_ceph → Forall (λ n, lacks "/" n = true) names → holds sandbox content D →
  holds sandbox content (foldr (λ n, write (sub etc_ceph n) (content n)) D names).
Proof.
  intros Hs Hn Hh. induction Hn as [|n names Hn _ IH]; [done|].
  assert (Hl : Forall (λ fp, lacks "/" fp.1 = true) config_files) by (decided).
  unfold holds in *. rewrite Forall_forall in IH. rewrite Forall_forall in Hl. apply Forall_forall. intros fp Hfp.
  cbn. rewrite lookup_insert_ne; [by apply IH|]. intros [E _]%sub_inj; [|done|by apply Hl]. by apply Hs.
Qed.

Lemma writes_dirs to content names D : dk_dirs (foldr (λ n, write (sub to n) (content n)) D names) = dk_dirs D.
Proof. by induction names. Qed.

Lemma run_copy sandbox content D cwd :
  sandbox_ok sandbox D → holds sandbox content D → tree_ready D →
  run_all (copy_commands sandbox) (mkProc cwd D 0 "") = mkProc sandbox (copied content D) 0 "".
Proof.
  intros Hs Hh Ht. pose proof Hs as [P1 P2 P3 P4]. pose proof Ht as [T1 T2 T3].
  pose proof (holds_etc _ _ _ Hh) as He.
  unfold copy_commands. rewrite <- app_comm_cons.
  rewrite (run_all_step _ _ _ (mkProc sandbox D 0 "")) by (done || by rewrite sh_cd). rewrite <- app_comm_cons, app_nil_l.
  rewrite (run_all_step _ _ _ (mkProc sandbox (copies sandbox etc_ceph etc_files D) 0 "")).
  - rewrite (copies_contents _ _ content) by done. apply run_keyrings.
    + decided.
    + by split.
    + apply holds_etc_write; [done|decided|done].
    + by split.
  - apply sh_cp_all; [done|decided|done|done|done|by apply not_eq_sym|].
    cbn [pc_cwd pc_disk]. rewrite Forall_forall in He. rewrite Forall_forall in T3. apply Forall_forall. intros n Hn.
    split; [eexists; by apply He|]. apply (T3 (n, sub etc_ceph n)), elem_of_app. left.
    by apply (list_elem_of_fmap_2 (λ f, (f, sub etc_ceph f))).
  - done.
Qed.

(** Every file is where the containers look for it. *)
Lemma copied_files content D : Forall (λ fp, dk_files (copied content D) !! fp.2 = Some (content fp.1)) config_files.
Proof.
  unfold copied, config_files, etc_files, kinds. cbn [foldl foldr write dk_files fmap list_fmap app].
  repeat constructor; cbn [fst snd]; rewrite ?lookup_insert_eq; try done;
    repeat (rewrite lookup_insert; case_decide; [done|]); done.
Qed.

Lemma copied_complete content D : tree_ready D → complete (copied content D).
Proof.
  intros [T1 T2 T3]. split; [by split|]. eapply Forall_impl; [apply copied_files|]. intros fp Hfp. eexists. exact Hfp.
Qed.

Lemma copySharedConfigFiles_eq content x :
  cx_root x = config_root → sandbox_ok (cx_sandbox x) (disk x) → holds (cx_sandbox x) content (disk x) →
  tree_ready (disk x) →
  ∃ x', copySharedConfigFiles x = (x', Ret true) ∧ disk x' = copied content (disk x).
Proof.
  intros Hr Hs Hh Ht. rewrite copySharedConfigFiles_text by done. unfold copy_text.
  assert (Es : sh_exec (and_text (copy_commands (cx_sandbox x)) +:+ ";echo $?") (new_shell (default "" host_getcwd) (disk x)) =
    mkProc (cx_sandbox x) (copied content (disk x)) 0 ("" +:+ pretty.pretty 0 +:+ String newline "")).
  { rewrite (exec_status _ _ (mkProc (cx_sandbox x) (copied content (disk x)) 0 "")); [done|done| |by apply run_copy].
    cbn. rewrite (sb_plain _ _ Hs). reflexivity. }
  destruct (succeeds_shell _ x _ Es) as [-> Ed]. eexists. split; [|exact Ed]. cbn [pc_out]. by rewrite shell_status_0.
Qed.

(** ** The launch of a task, up to its container *)

Definition same_place (x x' : CephExecutor) : Prop :=
  cx_trace x' = cx_trace x ∧ cx_root x' = cx_root x ∧ cx_sandbox x' = cx_sandbox x.

Lemma parse_label_eq l x : ∃ x', parse_label l x = (x', Ret tt) ∧ same_place x x'.
Proof.
  unfold parse_label. cbn zeta.
  assert (Hb : ∀ (P : Prop) (d : Decision P) f (k : ST CephExecutor unit) y, (∀ z, same_place z (f z)) →
    (∀ z, ∃ z', k z = (z', Ret tt) ∧ same_place z z') →
    ∃ y', ((_ ← if decide P then modify f else mret tt; k) y) = (y', Ret tt) ∧ same_place y y').
  { intros P d f k y Hf Hk. destruct (decide P).
    - destruct (Hk (f y)) as (z & E & E1 & E2 & E3), (Hf y) as (F1 & F2 & F3). exists z. split; [exact E|].
      split_and!; congruence.
    - exact (Hk y). }
  repeat (apply Hb; [done|intros ?]). case_decide; eexists; (split; [reflexivity|by split_and!]).
Qed.

Lemma parseHostConfig_eq task l ls x :
  ti_labels task = Some (l :: ls) → ∃ x', parseHostConfig task x = (x', Ret true) ∧ same_place x x'.
Proof.
  intros Hl. unfold parseHostConfig. rewrite Hl, bool_decide_false by done.
  assert (Hf : ∀ (ls : list Label) y, ∃ y', foreach ls (λ _ l, parse_label l) tt y = (y', Ret tt) ∧ same_place y y').
  { clear. induction ls as [|l ls IH]; intros y; [exists y; by split_and!|]. cbn [foreach].
    destruct (parse_label_eq l y) as (y1 & E1 & A1 & A2 & A3), (IH y1) as (y2 & E2 & B1 & B2 & B3). exists y2.
    rewrite (bind_eq _ _ _ _ _ E1). split; [exact E2|]. split_and!; congruence. }
  destruct (Hf (l :: ls) x) as (y & E & Hs). exists y. by rewrite (bind_eq _ _ _ _ _ E).
Qed.

Lemma create_ready x :
  cx_root x = config_root → host_ready (disk x) →
  ∃ x', createLocalSharedConfigDir localConfigDirName x = (x', Ret true) ∧ tree_ready (disk x') ∧
        dk_files (disk x') = dk_files (disk x) ∧ dk_dirs (disk x) ⊆ dk_dirs (disk x') ∧
        cx_root x' = cx_root x ∧ cx_sandbox x' = cx_sandbox x.
Proof.
  intros Hr Hh.
  assert (Hl : ∀ l y, cx_root (foldr cx_add_effect y l) = cx_root y ∧ cx_sandbox (foldr cx_add_effect y l) = cx_sandbox y)
    by (by induction l).
  destruct Hh as [Ha|[Ht Hf]].
  - destruct (create_fresh x Hr Ha) as (x' & E & Ed & l & ->). exists (foldr cx_add_effect x l). rewrite Ed.
    split_and!; [done|by apply created_ready|done|rewrite created_dirs|apply Hl..].
    clear. set_solver.
  - destruct (create_exists x Hr) as (x' & E & Ed & l & ->); [by apply Forall_fmap|]. exists (foldr cx_add_effect x l).
    rewrite Ed. split_and!; [done..|apply Hl|apply Hl].
Qed.

Context (polls : nat).

(** What follows the parsing of a task that is not the initial MON. *)
Definition prepare_and_run (taskId : string) (t : Z) : ST CephExecutor unit :=
  ok ← createLocalSharedConfigDir localConfigDirName;
  if negb ok then send_status TASK_FAILED None taskId
  else
    ok ← copySharedConfigFiles;
    if negb ok then send_status TASK_FAILED None taskId
    else run_container polls taskId config_dir t.

Lemma launchTask_parsed task data t l ls x :
  answer "echo ~" x ≠ "" → ti_data task = Some data → parse_data data = Ret (true, t) → ti_labels task = Some (l :: ls) →
  ∃ x2, launchTask polls task x = prepare_and_run (ti_task_id task) t x2 ∧
    disk x2 = disk x ∧ cx_root x2 = config_root ∧ cx_sandbox x2 = cx_sandbox x ∧ sent (cx_trace x2) = sent (cx_trace x).
Proof.
  intros Hhome Hd Hp Hl.
  destruct (answer_shell (X := CephExecutor) "echo ~" x _ eq_refl) as [_ Ed]. cbn [trace CephExecutor_traced] in Ed.
  rewrite sh_echo_home in Ed. cbn [new_shell pc_disk] in Ed.
  unfold launchTask, sh. rewrite (bind_eq _ _ _ _ _ (runShellCommand_eq _ x)).
  set (x1 := cx_set_root config_root (cx_add_effect (RunCommand "echo ~") x)).
  rewrite (bind_eq _ _ _ x1 tt) by (unfold modify, shared_root; by rewrite decide_False).
  rewrite Hd. rewrite (bind_eq _ _ x1 x1 (true, t)).
  2: { unfold parse_data in Hp. destruct (vec_at (explode data ".") 0) as [t0| | |] eqn:E0; try done.
       rewrite (bind_eq _ _ x1 x1 t0) by done.
       rewrite decide_False; [unfold parse_data; by rewrite E0, Hp|].
       intros ->. unfold mbind, outcome_bind in Hp. destruct (vec_at _ 1) as [t1| | |]; try done.
       by destruct (lexical_to_int t1). }
  rewrite (bind_eq _ _ x1 x1 config_root) by done.
  destruct (parseHostConfig_eq task l ls x1 Hl) as (x2 & E2 & Ht2 & Hr2 & Hs2).
  rewrite (bind_eq _ _ _ _ _ E2). cbn [negb]. exists x2. split; [done|]. rewrite Ht2.
  split_and!; [exact Ed|done|done|]. subst x1. cbn. by rewrite sent_app, app_nil_r.
Qed.

Lemma launchTask_installs task data t l ls content x :
  answer "echo ~" x ≠ "" → ti_data task = Some data → parse_data data = Ret (true, t) → ti_labels task = Some (l :: ls) →
  host_ready (disk x) → sandbox_ok (cx_sandbox x) (disk x) → holds (cx_sandbox x) content (disk x) →
  ∃ x', launchTask polls task x = run_container polls (ti_task_id task) config_dir t x' ∧
    Forall (λ fp, dk_files (disk x') !! fp.2 = Some (content fp.1)) config_files ∧ complete (disk x').
Proof.
  intros Hhome Hd Hp Hl Hh Hs Hc.
  destruct (launchTask_parsed task data t l ls x Hhome Hd Hp Hl) as (x2 & -> & Ed2 & Hr2 & Hs2 & _).
  destruct (create_ready x2) as (x3 & E3 & Ht3 & Ef3 & Hd3 & Hr3 & Hs3); [done|by rewrite Ed2|].
  unfold prepare_and_run. rewrite (bind_eq _ _ _ _ _ E3). cbn [negb].
  rewrite Hr2 in Hr3. rewrite Hs2 in Hs3. rewrite Ed2 in *.
  destruct (copySharedConfigFiles_eq content x3) as (x4 & E4 & Ed4).
  - done.
  - rewrite Hs3. destruct Hs as [P1 P2 P3 P4]. split; [done|done|by apply Hd3|done].
  - rewrite Hs3. unfold holds. by rewrite Ef3.
  - done.
  - rewrite (bind_eq _ _ _ _ _ E4). cbn [negb]. exists x4. split; [done|]. rewrite Ed4.
    split; [apply copied_files|by apply copied_complete].
Qed.

(** C33. A host whose configuration directory is there but incomplete, as a failed
    copy leaves it, stays so: [mkdir] fails on the directory that exists, so that
    every launch of a task that is not the initial MON reports TASK_FAILED, and
    changes nothing on the disk. *)
Theorem config_dir_stuck (task : TaskInfo) (data : string) (t : Z) (l : Label) (ls : list Label) (x : CephExecutor) :
  answer "echo ~" x ≠ "" → ti_data task = Some data → parse_data data = Ret (true, t) → ti_labels task = Some (l :: ls) →
  config_root ∈ dk_dirs (disk x) → config_dir ∈ dk_dirs (disk x) →
  ¬ Forall (present (disk x)) config_files.*2 →
  ∃ x', launchTask polls task x = (cx_add_effect (SendStatusUpdate (mkTaskStatus (ti_task_id task) TASK_FAILED None)) x', Ret tt) ∧
    sent (cx_trace x') = sent (cx_trace x) ∧ disk x' = disk x.
Proof.
  intros Hhome Hd Hp Hl Hr Hdir Hf.
  destruct (launchTask_parsed task data t l ls x Hhome Hd Hp Hl) as (x2 & -> & Ed2 & Hr2 & _ & Hs2).
  rewrite <- Ed2 in Hr, Hdir, Hf.
  destruct (create_stuck x2 Hr2 Hr Hdir Hf) as (x3 & E3 & Ed3 & _).
  destruct (silent_create _ _ _ _ E3) as (Hs3 & _).
  exists x3. unfold prepare_and_run. rewrite (bind_eq _ _ _ _ _ E3). cbn [negb]. split; [done|].
  split; [by rewrite Hs3|by rewrite Ed3].
Qed.
End Client.

(** ** What the initial MON's executor publishes *)

Definition served_dir : string := etc_ceph +:+ "/".

(** The files of the MON's host, with [ceph.conf] as it was edited. *)
Definition mon_content (D : Disk) (conf : string) (fp : string * string) : option string :=
  if decide (fp.1 = "ceph.conf") then Some conf else dk_files D !! fp.2.

Section Mon.
Context `{LexicalCast, Indeterminate, MesosResources, ShellHost, !ShLaws}.

Notation disk x := (disk_at (cx_trace x)).

(** The keyrings are copied next to the other files. *)
Lemma exec_publish k l p x :
  tree_ready (pc_disk p) → sub etc_ceph ("ceph.keyring." +:+ k) ∉ dk_dirs (pc_disk p) → k ∈ kinds →
  dk_files (pc_disk p) !! sub (bootstrap k) "ceph.keyring" = Some x →
  sh_exec (unwords ["cp"; sub (bootstrap k) "ceph.keyring"; sub etc_ceph ("ceph.keyring." +:+ k)] +:+ ";" +:+ l) p =
  sh_exec l (succeed (write (sub etc_ceph ("ceph.keyring." +:+ k)) x (pc_disk p)) p).
Proof.
  intros Ht Hn Hk Hx.
  assert (Hk' : k = "osd" ∨ k = "rgw" ∨ k = "mds").
  { unfold kinds in Hk. rewrite !elem_of_cons in Hk. destruct Hk as [?|[?|[?|?%not_elem_of_nil]]]; auto. done. }
  rewrite sh_seq by (by destruct Hk' as [-> |[-> | ->]]). rewrite sh_simple by (by destruct Hk' as [-> |[-> | ->]]).
  f_equal. apply sh_cp.
  - rewrite <- Hx. f_equal.
  - done.
  - by destruct Hk' as [-> |[-> | ->]].
  - apply Ht.
  - done.
  - by destruct Hk' as [-> |[-> | ->]].
Qed.

Lemma runShellCommand_disk cmd (x : CephExecutor) :
  ∃ r, sh cmd x = (cx_add_effect (RunCommand cmd) x, Ret r) ∧
       disk (cx_add_effect (RunCommand cmd) x) = pc_disk (sh_exec cmd (new_shell (default "" host_getcwd) (disk x))).
Proof.
  exists (answer cmd x). split; [done|].
  destruct (answer_shell (X := CephExecutor) cmd x _ eq_refl) as [_ Ed]. exact Ed.
Qed.

(** The disk once everything is published. *)
Definition published (conf osd rgw mds : string) (D : Disk) : Disk :=
  write (sub etc_ceph "ceph.keyring.mds") mds
    (write (sub etc_ceph "ceph.keyring.rgw") rgw
      (write (sub etc_ceph "ceph.keyring.osd") osd (write (sub etc_ceph "ceph.conf") conf D))).

Definition publish_text : string :=
  unwords ["cp"; sub (bootstrap "osd") "ceph.keyring"; sub etc_ceph ("ceph.keyring." +:+ "osd")] +:+ ";" +:+
  unwords ["cp"; sub (bootstrap "rgw") "ceph.keyring"; sub etc_ceph ("ceph.keyring." +:+ "rgw")] +:+ ";" +:+
  unwords ["cp"; sub (bootstrap "mds") "ceph.keyring"; sub etc_ceph ("ceph.keyring." +:+ "mds")] +:+ ";" +:+ "echo $?".

Lemma tree_ready_write f x D : tree_ready D → tree_ready (write f x D).
Proof. intros [T1 T2 T3]. by split. Qed.

Lemma exec_publish_text conf osd rgw mds cwd D :
  tree_ready D → Forall (λ k, sub etc_ceph ("ceph.keyring." +:+ k) ∉ dk_dirs D) kinds →
  dk_files D !! sub (bootstrap "osd") "ceph.keyring" = Some osd →
  dk_files D !! sub (bootstrap "rgw") "ceph.keyring" = Some rgw →
  dk_files D !! sub (bootstrap "mds") "ceph.keyring" = Some mds →
  pc_disk (sh_exec publish_text (new_shell cwd (write (sub etc_ceph "ceph.conf") conf D))) = published conf osd rgw mds D.
Proof.
  intros Ht Hk Ho Hr Hm. rewrite Forall_forall in Hk. unfold publish_text.
  assert (Hkin : "osd" ∈ kinds ∧ "rgw" ∈ kinds ∧ "mds" ∈ kinds) by (decided).
  destruct Hkin as (K1 & K2 & K3).
  rewrite (exec_publish "osd" _ _ osd); [|by repeat apply tree_ready_write|by apply Hk|done|cbn; by rewrite lookup_insert_ne].
  rewrite (exec_publish "rgw" _ _ rgw); [|by repeat apply tree_ready_write|by apply Hk|done|cbn; by rewrite !lookup_insert_ne].
  rewrite (exec_publish "mds" _ _ mds); [|by repeat apply tree_ready_write|by apply Hk|done|cbn; by rewrite !lookup_insert_ne].
  by rewrite sh_echo.
Qed.

Lemma published_files conf osd rgw mds D :
  dk_files D !! sub (bootstrap "osd") "ceph.keyring" = Some osd →
  dk_files D !! sub (bootstrap "rgw") "ceph.keyring" = Some rgw →
  dk_files D !! sub (bootstrap "mds") "ceph.keyring" = Some mds →
  Forall (λ fp, dk_files (published conf osd rgw mds D) !! sub etc_ceph fp.1 = mon_content D conf fp) config_files.
Proof.
  intros Ho Hr Hm. unfold published, config_files, etc_files, kinds, mon_content. cbn [write dk_files fmap list_fmap app].
  repeat constructor; cbn [fst snd]; rewrite ?Ho, ?Hr, ?Hm;
    repeat (rewrite lookup_insert; case_decide; [done|]); done.
Qed.

Lemma start_file_server_publishes m :
  cx_root m = config_root → complete (disk m) →
  Forall (λ k, sub etc_ceph ("ceph.keyring." +:+ k) ∉ dk_dirs (disk m)) kinds →
  ∃ m' conf, start_file_server m = (m', Ret tt) ∧ StartFileServer 7777 served_dir ∈ cx_trace m' ∧
    Forall (λ fp, dk_files (disk m') !! sub etc_ceph fp.1 = mon_content (disk m) conf fp) config_files.
Proof.
  intros Hr [Ht Hf] Hk. unfold start_file_server. rewrite (bind_eq _ _ m m config_root) by (unfold gets; by rewrite Hr).
  cbn zeta. pose proof Hf as Hf'. unfold config_files, etc_files, kinds in Hf'. cbn [fmap list_fmap app] in Hf'.
  rewrite !Forall_cons in Hf'. destruct Hf' as (_ & Hconf & _ & _ & [osd Ho] & [rgw Hrgw] & [mds Hm] & _). cbn [snd] in *.
  destruct (runShellCommand_disk ("sed -i '/osd journal size/d' " +:+ sub etc_ceph "ceph.conf" +:+ "; echo $?") m) as (r1 & E1 & D1).
  destruct (sh_sed (sub etc_ceph "ceph.conf") (new_shell (default "" host_getcwd) (disk m))) as [conf Ec]; [done..|].
  rewrite Ec in D1. cbn [new_shell pc_disk] in D1. clear Ec. rewrite (bind_eq _ _ _ _ _ E1). set (m1 := cx_add_effect _ m) in *.
  destruct (runShellCommand_disk publish_text m1) as (r2 & E2 & D2).
  rewrite D1, (exec_publish_text _ osd rgw mds) in D2 by done.
  rewrite (bind_eq _ _ _ _ _ E2). set (m2 := cx_add_effect _ m1) in *.
  exists (cx_add_effect (StartFileServer 7777 served_dir) m2), conf. split; [done|]. split.
  - cbn. apply elem_of_app. right. by left.
  - cbn [cx_trace cx_add_effect]. rewrite disk_serve, D2. by apply published_files.
Qed.
End Mon.

(** ** What is served and fetched *)

(** The file server's file system, on a disk. *)
Definition disk_fs (D : Disk) : FileSystem := {|
  fs_stat p := (λ data, Z.of_nat (String.length data)) <$> dk_files D !! p;
  fs_fopen p := dk_files D !! p;
|}.

(** A request for [name] is answered with these bytes: the announced number of
    them is read from the file handed to the response.  The handler's dangling
    path is taken to read back intact. *)
Definition serves `{Mhd} (D : Disk) (root name data : string) : Prop :=
  ∃ s n block f,
    @file_request (disk_fs D) _ (λ _ p, Ret p) (String "/" name) "GET" (mkFileServer root true []) = (s, Ret true) ∧
    Queue MHD_HTTP_OK (FromCallback n block f) ∈ fsv_events s ∧ read_chunks f [Z.to_nat n] = data.

Lemma serves_file `{Mhd} D root name data :
  (∀ n, mhd_create n = true) → (∀ st, mhd_queue st = true) →
  dk_files D !! (root +:+ name) = Some data → serves D root name data.
Proof.
  intros Hc Hq Hf.
  pose proof (@file_request_serve (disk_fs D) _ (λ _ p, Ret p) name (mkFileServer root true []) (Z.of_nat (String.length data)) data) as E.
  cbn in E. rewrite Hf in E. specialize (E ltac:(done) eq_refl eq_refl eq_refl (Hc _)). rewrite Hq in E.
  do 4 eexists. split; [exact E|]. split; [right; by left|].
  rewrite read_chunks_eq. cbn [file_data]. rewrite Nat2Z.id. cbn [sum_list]. rewrite Nat.add_0_r. apply substring_0_all.
Qed.

(** Nothing else is served under that name. *)
Lemma serves_inv `{Mhd} D root name data :
  (∀ n, mhd_create n = true) → serves D root name data → dk_files D !! (root +:+ name) = Some data.
Proof.
  intros Hc (s & n & block & f & E & Hq & Hd). destruct (dk_files D !! (root +:+ name)) as [x|] eqn:Ef.
  - pose proof (@file_request_serve (disk_fs D) _ (λ _ p, Ret p) name (mkFileServer root true []) (Z.of_nat (String.length x)) x) as Es.
    cbn in Es. rewrite Ef in Es. specialize (Es ltac:(done) eq_refl eq_refl eq_refl (Hc _)). rewrite Es in E.
    injection E as <- _. cbn in Hq.
    rewrite !elem_of_cons in Hq. destruct Hq as [Hq|[Hq|?%not_elem_of_nil]]; [done| |done].
    injection Hq as -> _ ->. subst data. rewrite read_chunks_eq. cbn [file_data]. rewrite Nat2Z.id. cbn [sum_list].
    rewrite Nat.add_0_r. f_equal. symmetry. apply substring_0_all.
  - pose proof (@file_request_not_found (disk_fs D) _ (λ _ p, Ret p) name (mkFileServer root true [])) as Es.
    cbn in Es. rewrite Ef in Es. specialize (Es ltac:(done) eq_refl eq_refl). rewrite Es in E.
    injection E as <- _. cbn in Hq. rewrite !elem_of_cons in Hq. by destruct Hq as [Hq|?%not_elem_of_nil].
Qed.

(** Mesos has fetched what the URIs on the MON's port name, under their names. *)
Definition fetched (uris : list URI) (host : string) (serve : string → string → Prop) (sandbox : string) (D : Disk) : Prop :=
  ∀ u name data, u ∈ uris → uri_value u = "http://" +:+ host +:+ ":7777/" +:+ name → serve name data →
    dk_files D !! sub sandbox name = Some data.

Section Launch.
Context `{LexicalCast, Yaml, Indeterminate, HashOrder, MesosResources}.
Context (env : Env).

Definition mon_prefix (a : Agent) : string := "http://" +:+ ts_hostName (getInitialMon (ag_stateMachine a)) +:+ ":7777/".

Lemma createExecutor_uris name t k a a' eid ex :
  createExecutor env name t k 0 a = (a', Ret (eid, ex)) →
  Forall (λ fp, mkURI (mon_prefix a +:+ fp.1) false ∈ ei_command_uris ex) config_files.
Proof.
  unfold createExecutor, time, getFileServerIP. intros E. inv_agent. cbn [Z.eqb] in *. inv_agent.
  match goal with E : (_, _) = (_, _) |- _ => injection E as -> -> end. cbn [ei_command_uris].
  assert (Hn : Forall (λ fp, fp.1 ∈ ["ceph.client.admin.keyring"; "ceph.conf"; "ceph.mon.keyring"; "monmap";
    "ceph.keyring.osd"; "ceph.keyring.rgw"; "ceph.keyring.mds"]) config_files) by (decided).
  eapply Forall_impl; [exact Hn|]. intros fp Hfp. right.
  apply (list_elem_of_fmap_2 (λ f, mkURI (mon_prefix a +:+ f) false)) in Hfp. exact Hfp.
Qed.

(** A node that is not the initial MON is launched with the seven URIs. *)
Lemma launchNode_uris offer t k a a' ids task :
  launchNode env offer t k 0 a = (a', Ret ids) → ag_calls a' = ag_calls a ++ [launchTasks (of_id offer) [task]] →
  ceph_task offer t k 0 task ∧ (∃ l ls, ti_labels task = Some (l :: ls)) ∧
  Forall (λ fp, mkURI (mon_prefix a +:+ fp.1) false ∈ ei_command_uris (ti_executor task)) config_files.
Proof.
  intros E Hc. destruct ids as [taskId eid]. pose proof E as E0.
  apply launchNode_Ret in E0 as (_ & task' & Ht & Hl & _ & [_ _ _ Hk]). rewrite Hk in Hc.
  apply app_inv_head in Hc. injection Hc as <-. split; [done|]. split; [rewrite Hl; by eexists _, _|]. clear Ht Hl.
  unfold launchNode in E. inv_run_step. destruct x0 as [executorId executor]. inv_agent.
  match goal with H1 : createExecutor _ _ _ _ _ _ = _, H2 : addHostConfig _ _ _ = _ |- _ =>
    pose proof (createExecutor_uris _ _ _ _ _ _ _ H1) as Hu; apply createExecutor_Ret in H1 as ([_ _ _ Q1] & _);
    apply addHostConfig_quiet in H2 as [_ _ _ Q2] end.
  revert Hk. cbn. rewrite Q2, Q1, !app_nil_r. intros Hk%app_inv_head. injection Hk as <-. exact Hu.
Qed.
End Launch.

(** ** Properties *)

Section Properties.
Context `{LexicalCast, Yaml, Indeterminate, HashOrder, MesosResources, Mhd, ShLaws}.
Context (env : Env) (polls : nat).
Context (monHost clientHost : Host) (monShell : @ShellHost monHost _) (clientShell : @ShellHost clientHost _).

Notation mon_disk m := (@disk_at monHost _ monShell (cx_trace m)).
Notation client_disk x := (@disk_at clientHost _ clientShell (cx_trace x)).

(** C9. The configuration reaches every host.  Let the initial MON's executor
    publish the files of its host, the scheduler launch another Ceph task, and
    Mesos fetch from the MON's file server, whose dangling path reads back intact,
    what the task's URIs name.  On a host
    without a configuration directory or with a complete one, the launch then
    gets as far as the container, with every file of the MON's host at the same
    place ([ceph.conf] as edited by [sed]), and the host's directory is complete
    for the next task. *)
Theorem configuration_distributed (offer : Offer) (t : TaskType) (k : Z) (a a' : Agent)
    (ids : string * string) (task : TaskInfo) (m x : CephExecutor) :
  (∀ n, mhd_create n = true) → (∀ st, mhd_queue st = true) →
  launchNode env offer t k 0 a = (a', Ret ids) → ag_calls a' = ag_calls a ++ [launchTasks (of_id offer) [task]] →
  cx_root m = config_root → complete (mon_disk m) →
  Forall (λ k, sub etc_ceph ("ceph.keyring." +:+ k) ∉ dk_dirs (mon_disk m)) kinds →
  let m' := (@start_file_server monHost m).1 in
  fetched (ei_command_uris (ti_executor task)) (ts_hostName (getInitialMon (ag_stateMachine a)))
    (serves (mon_disk m') served_dir) (cx_sandbox x) (client_disk x) →
  @answer clientHost _ _ "echo ~" x ≠ "" → host_ready (client_disk x) → sandbox_ok (cx_sandbox x) (client_disk x) →
  StartFileServer 7777 served_dir ∈ cx_trace m' ∧
  ∃ conf x', @launchTask _ _ _ clientHost polls task x =
               @run_container _ clientHost polls (ti_task_id task) config_dir (TaskType_to_int t) x' ∧
    Forall (λ fp, dk_files (client_disk x') !! fp.2 = mon_content (mon_disk m) conf fp) config_files ∧
    complete (client_disk x').
Proof.
  intros Hcr Hq El Ec Hr Hm Hk m' Hf Hhome Hh Hs.
  destruct (@start_file_server_publishes monHost _ monShell _ m Hr Hm Hk) as (m1 & conf & Em & Hsrv & Hpub).
  subst m'. rewrite Em in *. cbn [fst] in *. split; [done|].
  destruct (launchNode_uris env offer t k a a' ids task El Ec) as (Ht & (l & ls & Hl) & Hu).
  set (content := λ f, default "" (dk_files (mon_disk m1) !! sub etc_ceph f)).
  assert (Hcont : ∀ fp, fp ∈ config_files → mon_content (mon_disk m) conf fp = Some (content fp.1)).
  { intros fp Hfp. rewrite Forall_forall in Hpub. subst content. cbn. rewrite (Hpub fp Hfp).
    destruct Hm as [_ Hm]. rewrite Forall_forall in Hm. destruct (Hm fp Hfp) as [d Hd].
    unfold mon_content. rewrite Hd. by case_decide. }
  destruct (@launchTask_installs _ _ _ clientHost _ clientShell _ polls task _ (TaskType_to_int t) l ls content x Hhome (ct_data _ _ _ _ _ Ht)) as (x' & E & Hx & Hc').
  - by rewrite parse_data_eq.
  - done.
  - done.
  - done.
  - apply Forall_forall. intros fp Hfp. rewrite Forall_forall in Hu. eapply Hf; [by apply Hu|cbn; unfold mon_prefix; by rewrite <- !str_app_assoc|].
    apply serves_file; [done|done|]. rewrite Forall_forall in Hpub.
    change (dk_files (mon_disk m1) !! (served_dir +:+ fp.1)) with (dk_files (mon_disk m1) !! sub etc_ceph fp.1).
    by rewrite (Hpub fp Hfp), Hcont.
  - exists conf, x'. split; [done|]. split; [|done]. rewrite Forall_forall in Hx. apply Forall_forall. intros fp Hfp.
    by rewrite (Hx fp Hfp), Hcont.
Qed.
End Properties.

#[local] Existing Instances DecimalCast.cast FlatYaml.yaml SomeValues.indet SomeOrder.order
  ScalarResources.resources SampleFiles.mhd MiniShell.sh MiniShell.laws.

(** ** Two hosts on the small shell *)

Module ShellHosts.
Section OnDisk.
Context (D : Disk).
Definition disk_after (past : list Effect) : Disk :=
  foldl (λ D e, match e with RunCommand c => pc_disk (sh_exec c (new_shell "/sandbox" D)) | _ => D end) D past.
Definition host : Host := {|
  host_popen past cmd := Some (pc_out (sh_exec cmd (new_shell "/sandbox" (disk_after past))));
  host_fork _ := 42;
  host_time past := Z.of_nat (length past);
  host_getcwd := Some "/sandbox";
|}.
#[local] Existing Instance host.
Lemma disk_after_run past cmd :
  disk_after (past ++ [RunCommand cmd]) = pc_disk (sh_exec cmd (new_shell (default "" host_getcwd) (disk_after past))).
Proof. unfold disk_after. by rewrite foldl_app. Qed.
Lemma disk_after_serve past port root : disk_after (past ++ [StartFileServer port root]) = disk_after past.
Proof. unfold disk_after. by rewrite foldl_app. Qed.
Definition shell : ShellHost :=
  {| disk_at := disk_after; popen_runs _ _ := eq_refl; disk_run := disk_after_run; disk_serve := disk_after_serve |}.
End OnDisk.

Definition bare : Disk := mkDisk {["/root"; "/sandbox"]} ∅.
(** The MON's host, each file with its own name as its contents. *)
Definition mon_files : Disk := foldr (λ fp, write fp.2 fp.1) (created bare) config_files.
(** The sandbox of a task on another host, after the fetch. *)
Definition fetched_files : Disk := foldr (λ fp, write (sub "/sandbox" fp.1) fp.1) bare config_files.

Definition mon : CephExecutor := cx_set_root config_root new_CephExecutor.
Definition client : CephExecutor := cx_set_hostname "h2" "/sandbox" new_CephExecutor.
Definition agent : Agent := sys_agent Bootstrap.final.
Definition launched : Agent * outcome (string * string) :=
  launchNode SampleRun.env (SampleRun.offer "o" "h1" "*" 4) OSD 3 0 agent.
Definition task : TaskInfo := List.last (Cluster.launched (ag_calls launched.1)) SampleCeph.task.
End ShellHosts.

Lemma sample_mon_complete :
  complete ShellHosts.mon_files ∧ Forall (λ k, sub etc_ceph ("ceph.keyring." +:+ k) ∉ dk_dirs ShellHosts.mon_files) kinds.
Proof.
  split; [split; [split|]|]; decided.
Qed.

Lemma sample_client_ready : host_ready ShellHosts.fetched_files ∧ sandbox_ok "/sandbox" ShellHosts.fetched_files.
Proof.
  assert (Hd : dk_dirs ShellHosts.fetched_files = {["/root"; "/sandbox"]}) by reflexivity.
  assert (Hf : ∀ s, dk_files ShellHosts.fetched_files !! String.append "/root" s = None).
  { intros s. unfold ShellHosts.fetched_files. cbn. by rewrite !lookup_insert_ne. }
  split.
  - left. split; rewrite ?Hd.
    + set_solver.
    + decided.
    + apply (Hf "/ceph_config_root").
    + intros s. rewrite elem_of_union, !elem_of_singleton. by intros [?|?].
    + intros s. apply (Hf (String "/" (localConfigDirName +:+ String "/" s))).
  - split; [done|done| |done]. rewrite Hd. set_solver.
Qed.

Lemma sample_published :
  dk_files (ShellHosts.disk_after ShellHosts.mon_files
    (cx_trace (@start_file_server (ShellHosts.host ShellHosts.mon_files) ShellHosts.mon).1)) =
  list_to_map ((λ fp, (sub etc_ceph fp.1, fp.1)) <$> config_files) ∪ dk_files ShellHosts.mon_files.
Proof. decided. Qed.

Lemma sample_launched :
  ShellHosts.launched = (ShellHosts.launched.1, Ret ("osd3.h1.s", "ceph-mesos-executor.1.3.1006")).
Proof.
  assert (E : ShellHosts.launched.2 = Ret ("osd3.h1.s", "ceph-mesos-executor.1.3.1006")) by (vm_compute; reflexivity).
  rewrite <- E. apply surjective_pairing.
Qed.

Lemma launchNode_last `{LexicalCast, Yaml, Indeterminate, HashOrder, MesosResources} env offer t k i a a' ids d :
  launchNode env offer t k i a = (a', Ret ids) →
  ag_calls a' = ag_calls a ++ [launchTasks (of_id offer) [List.last (Cluster.launched (ag_calls a')) d]].
Proof.
  destruct ids as [taskId eid]. intros (_ & task & Ht & _ & _ & [_ _ _ Hk])%launchNode_Ret.
  rewrite Hk, launched_app, (launched_ceph _ _ _ _ _ Ht). by rewrite List.last_last.
Qed.

Lemma sample_fetched :
  fetched (ei_command_uris (ti_executor ShellHosts.task)) (ts_hostName (getInitialMon (ag_stateMachine ShellHosts.agent)))
    (serves (ShellHosts.disk_after ShellHosts.mon_files
       (cx_trace (@start_file_server (ShellHosts.host ShellHosts.mon_files) ShellHosts.mon).1)) served_dir)
    "/sandbox" ShellHosts.fetched_files.
Proof.
  intros u name data Hu Hn Hs. apply serves_inv in Hs; [|done]. rewrite sample_published in Hs.
  assert (E : ts_hostName (getInitialMon (ag_stateMachine ShellHosts.agent)) = "h1") by (vm_compute; reflexivity).
  rewrite E in Hn. clear E.
  assert (E : ei_command_uris (ti_executor ShellHosts.task) =
    mkURI "http://10.0.0.1:8888/ceph-mesos-executor" true ::
    ((λ f, mkURI ("http://h1:7777/" +:+ f) false) <$>
     ["ceph.client.admin.keyring"; "ceph.conf"; "ceph.mon.keyring"; "monmap"; "ceph.keyring.osd"; "ceph.keyring.rgw"; "ceph.keyring.mds"]))
    by (vm_compute; reflexivity).
  rewrite E in Hu. clear E. change ("http://" +:+ "h1" +:+ ":7777/" +:+ name) with ("http://h1:7777/" +:+ name) in Hn.
  apply elem_of_cons in Hu as [->|Hu]; [discriminate Hn|].
  apply list_elem_of_fmap in Hu as (f & -> & Hf). cbn in Hn. apply (inj (String.append "http://h1:7777/")) in Hn as <-.
  change (served_dir +:+ f) with (sub etc_ceph f) in Hs.
  repeat (apply elem_of_cons in Hf as [->|Hf]; [vm_compute in Hs; injection Hs as <-; vm_compute; reflexivity|]).
  by apply not_elem_of_nil in Hf.
Qed.

(** A second host gets an OSD, and with it the monmap of the MON's. *)
Lemma configuration_distributed_witness :
  ∃ x', @launchTask _ _ _ (ShellHosts.host ShellHosts.fetched_files) 1 ShellHosts.task ShellHosts.client =
        @run_container _ (ShellHosts.host ShellHosts.fetched_files) 1 "osd3.h1.s" config_dir 1 x' ∧
    dk_files (ShellHosts.disk_after ShellHosts.fetched_files (cx_trace x')) !! "/root/ceph_config_root/etc/ceph/monmap" =
    Some "monmap".
Proof.
  destruct (configuration_distributed SampleRun.env 1 (ShellHosts.host ShellHosts.mon_files)
    (ShellHosts.host ShellHosts.fetched_files) (ShellHosts.shell _) (ShellHosts.shell _)
    (SampleRun.offer "o" "h1" "*" 4) OSD 3 ShellHosts.agent ShellHosts.launched.1 ("osd3.h1.s", "ceph-mesos-executor.1.3.1006")
    ShellHosts.task ShellHosts.mon ShellHosts.client) as (_ & conf & x' & E & Hf & _).
  - done.
  - done.
  - exact sample_launched.
  - eapply launchNode_last. exact sample_launched.
  - done.
  - exact (proj1 sample_mon_complete).
  - exact (proj2 sample_mon_complete).
  - exact sample_fetched.
  - vm_compute. discriminate.
  - exact (proj1 sample_client_ready).
  - exact (proj2 sample_client_ready).
  - exists x'. split; [exact E|]. rewrite Forall_forall in Hf.
    etrans; [apply (Hf ("monmap", sub etc_ceph "monmap"))|vm_compute; reflexivity].
    decided.
Defined.

(** The copy of a task failed here, as its keyrings had not been fetched. *)
Lemma config_dir_stuck_witness :
  ∃ x', (@launchTask _ _ _ (ShellHosts.host (created ShellHosts.bare)) 1 ShellHosts.task ShellHosts.client).1 =
        cx_add_effect (SendStatusUpdate (mkTaskStatus "osd3.h1.s" TASK_FAILED None)) x' ∧
    ShellHosts.disk_after (created ShellHosts.bare) (cx_trace x') = created ShellHosts.bare.
Proof.
  destruct (@config_dir_stuck _ _ _ (ShellHosts.host (created ShellHosts.bare)) _ (ShellHosts.shell _) _ 1
    ShellHosts.task "0.1" 1 (mkLabel CustomData.mgmtdevKey "") (default [] (tail <$> ti_labels ShellHosts.task)) ShellHosts.client)
    as (x' & E & _ & Ed).
  - vm_compute. discriminate.
  - vm_compute. reflexivity.
  - vm_compute. reflexivity.
  - vm_compute. reflexivity.
  - decided.
  - decided.
  - decided.
  - exists x'. rewrite E. split; [reflexivity|exact Ed].
Defined.
