(* ===== verification/Network.v ===== *)
(** * The whole system: scheduler, executors, and messages in transit

    A world is the scheduler of [Cluster], the live Ceph executors by executor
    and slave id, and the packets in transit.  A packet is delivered once, in
    any order, or lost.  Mesos starts an executor process for the executor id
    and slave of a launched task; a handler that does not return ends, or
    hangs, its process, and what it had sent is in transit. *)

From S2P Require Import Prelude StringUtil CephTypes ConfigFile HostConfigs TaskMachine FlexUp Mesos Agent Cluster Executor.
From S2P Require DiskExec CephExec.
Open Scope Z_scope.

Notation CephExecutor := CephExec.CephExecutor.
Notation cx_trace := CephExec.cx_trace.
Notation cx_myTaskId := CephExec.cx_myTaskId.

(** ** Packets *)

Inductive Packet `{MesosResources} :=
  | PLaunch (task : TaskInfo)
  | PToExecutor (executorId slaveId data : string)
  | PReport (status : TaskStatus)
  | PToScheduler (executorId data : string).

Record World `{MesosResources} := mkWorld {
  w_sys : System;
  w_execs : gmap (string * string) CephExecutor;
  w_net : list Packet;
}.

(** What is assumed of the environment: the hosts the scheduler runs on, the
    answers of the hosts of the executors, the reports that are delivered. *)
Record Assumptions := mkAssumptions {
  as_env : Env → Prop;
  as_host : Host → Prop;
  as_report : StateMachine → TaskStatus → Prop;
}.

Definition nothing : Assumptions := mkAssumptions (λ _, True) (λ _, True) any_report.

Section Network.
Context `{LexicalCast, Yaml, Indeterminate, HashOrder, MesosResources, JsonCpp}.
Context (flags : Flags).
(** The host name of a slave, which its offers carry. *)
Context (slave_host : string → string).

Definition call_packets (c : DriverCall) : list Packet :=
  match c with
  | launchTasks _ tasks => PLaunch <$> tasks
  | sendFrameworkMessage e s d => [PToExecutor e s d]
  | declineOffer _ _ => []
  end.

Definition effect_packets (executorId : string) (tr : list Effect) : list Packet :=
  (PReport <$> sent tr) ++ (PToScheduler executorId <$> told tr).

(** The scheduler goes from [w_sys w] to [s]: its new calls are put in transit. *)
Definition schedule (w : World) (s : System) (net : list Packet) : World :=
  mkWorld _ s (w_execs w)
    (net ++ (drop (length (ag_calls (sys_agent (w_sys w)))) (ag_calls (sys_agent s)) ≫= call_packets)).

(** An executor ends a handler in the state [x'], having started it in [x]. *)
Definition execute (w : World) (e s : string) (x x' : CephExecutor) (o : outcome unit) (net : list Packet) : World :=
  mkWorld _ (w_sys w)
    (match o with Ret _ => <[(e, s) := x']> (w_execs w) | _ => delete (e, s) (w_execs w) end)
    (net ++ effect_packets e (drop (length (cx_trace x)) (cx_trace x'))).

(** The executor a task is launched on: a new process, registered with its
    host, unless one is alive under its id. *)
Definition executor_for `{Host} (w : World) (e s : string) : CephExecutor :=
  match w_execs w !! (e, s) with
  | Some x => x
  | None => (CephExec.registered (slave_host s) CephExec.new_CephExecutor).1
  end.

Definition disk_run `{Host} (task : TaskInfo) : DiskExec.DiskExecutor * outcome unit :=
  (_ ← DiskExec.registered (slave_host (ti_slave_id task)); DiskExec.launchTask task)
    DiskExec.new_DiskExecutor.

Definition task_executor (task : TaskInfo) : string := ei_executor_id (ti_executor task).

Inductive wstep (A : Assumptions) (w : World) : World → Prop :=
  | W_offers env offers a' :
      as_env A env →
      Forall (λ o, of_hostname o = slave_host (of_slave_id o)) offers →
      resourceOffers flags env offers (sys_agent (w_sys w)) = (a', Ret tt) →
      wstep A w (schedule w (mkSystem _ a' (sys_requested (w_sys w))
        (sys_offers (w_sys w) + Z.of_nat (length offers)) (sys_reports (w_sys w))) (w_net w))
  | W_event data n p pending :
      accepted_request (c_str data) n p →
      processData data (ag_pendingOSD (sys_agent (w_sys w))) = Ret pending →
      wstep A w (schedule w (mkSystem _ (set_pendingOSD pending (sys_agent (w_sys w)))
        (sys_requested (w_sys w) + if decide (p = osd) then n else 0)
        (sys_offers (w_sys w)) (sys_reports (w_sys w))) (w_net w))
  | W_report status net a' :
      w_net w ≡ₚ PReport status :: net →
      as_report A (ag_stateMachine (sys_agent (w_sys w))) status →
      statusUpdate status (sys_agent (w_sys w)) = (a', Ret tt) →
      wstep A w (schedule w (mkSystem _ a' (sys_requested (w_sys w)) (sys_offers (w_sys w))
        (sys_reports (w_sys w) + 1)) net)
  | W_message e d net a' :
      w_net w ≡ₚ PToScheduler e d :: net →
      frameworkMessage e d (sys_agent (w_sys w)) = (a', Ret tt) →
      wstep A w (schedule w (mkSystem _ a' (sys_requested (w_sys w)) (sys_offers (w_sys w))
        (sys_reports (w_sys w))) net)
  | W_launch (h : Host) polls task net x' o :
      as_host A h →
      w_net w ≡ₚ PLaunch task :: net →
      ei_command_value (ti_executor task) = ceph_command →
      let e := task_executor task in let s := ti_slave_id task in
      CephExec.launchTask polls task (executor_for w e s) = (x', o) →
      wstep A w (execute w e s (executor_for w e s) x' o net)
  | W_launch_disk (h : Host) task net x' o :
      as_host A h →
      w_net w ≡ₚ PLaunch task :: net →
      ei_command_value (ti_executor task) = disk_command →
      disk_run task = (x', o) →
      wstep A w (mkWorld _ (w_sys w) (w_execs w)
        (net ++ effect_packets (task_executor task) (DiskExec.dx_trace x')))
  | W_deliver (h : Host) polls e s d net x x' o :
      as_host A h →
      w_net w ≡ₚ PToExecutor e s d :: net →
      w_execs w !! (e, s) = Some x →
      CephExec.frameworkMessage polls d x = (x', o) →
      wstep A w (execute w e s x x' o net)
  | W_lose p net :
      w_net w ≡ₚ p :: net →
      wstep A w (mkWorld _ (w_sys w) (w_execs w) net).

Definition winitial (cfg : Config) : World := mkWorld _ (initial cfg) ∅ [].

Definition wreachable (A : Assumptions) (cfg : Config) : World → Prop := rtc (wstep A) (winitial cfg).

(** ** The scheduler of a world runs in [Cluster] *)

Lemma wstep_step A w w' : wstep A w w' → rtc (step flags (as_report A)) (w_sys w) (w_sys w').
Proof.
  intros [env offers a' He Ho E|data n p pending Hacc E|status net a' Hn Hok E|e d net a' Hn E| | | |];
    try done; apply rtc_once.
  - by eapply S_offers.
  - by eapply S_event.
  - by eapply S_report.
  - by eapply S_message.
Qed.

Lemma wsteps_steps A w w' : rtc (wstep A) w w' → rtc (step flags (as_report A)) (w_sys w) (w_sys w').
Proof. induction 1; [done|]. etrans; [by eapply wstep_step|done]. Qed.

Lemma wreachable_reachable A cfg w : wreachable A cfg w → rtc (step flags (as_report A)) (initial cfg) (w_sys w).
Proof. apply wsteps_steps. Qed.

Lemma wstep_weaken (A B : Assumptions) w w' :
  (∀ env, as_env A env → as_env B env) → (∀ h, as_host A h → as_host B h) →
  (∀ sm st, as_report A sm st → as_report B sm st) → wstep A w w' → wstep B w w'.
Proof.
  intros He Hh Hr [| | | |h polls task net x' o Ah Hn Hc E|h task net x' o Ah Hn Hc E
                  |h polls e s d net x x' o Ah Hn Hx E|];
    [eapply W_offers|eapply W_event|eapply W_report|eapply W_message|
     eapply (W_launch _ _ h)|eapply (W_launch_disk _ _ h)|eapply (W_deliver _ _ h)|eapply W_lose]; eauto.
Qed.

Lemma schedule_net w s net cs :
  ag_calls (sys_agent s) = ag_calls (sys_agent (w_sys w)) ++ cs →
  schedule w s net = mkWorld _ s (w_execs w) (net ++ (cs ≫= call_packets)).
Proof. unfold schedule. intros ->. by rewrite drop_app_length. Qed.

(** ** What the runs of an executor put in transit *)

Lemma sent_drop (tr1 tr2 : list Effect) l :
  tr1 `prefix_of` tr2 → sent tr2 = sent tr1 ++ l → sent (drop (length tr1) tr2) = l.
Proof. intros [tr ->]. rewrite drop_app_length, sent_app. by apply app_inv_head. Qed.

Lemma told_drop (tr1 tr2 : list Effect) l :
  tr1 `prefix_of` tr2 → told tr2 = told tr1 ++ l → told (drop (length tr1) tr2) = l.
Proof. intros [tr ->]. rewrite drop_app_length, told_app. by apply app_inv_head. Qed.

(** ** Scripted worlds

    A script says which batches of offers come and which packet is handled
    next, on one host for the scheduler and one for the executors. *)
Inductive action :=
  | Batch (offers : list Offer)
  | Handle (i : nat).

Definition take_packet (i : nat) (net : list Packet) : option (Packet * list Packet) :=
  p ← net !! i; Some (p, delete i net).

Section Script.
Context (env : Env) `{Host} (polls : nat) (A : Assumptions) (report_ok : StateMachine → TaskStatus → bool).

Definition handle_packet (w : World) (p : Packet) (net : list Packet) : option World :=
  let sys := w_sys w in
  match p with
  | PReport status =>
      match statusUpdate status (sys_agent sys) with
      | (a', Ret tt) =>
          if report_ok (ag_stateMachine (sys_agent sys)) status then
            Some (schedule w (mkSystem _ a' (sys_requested sys) (sys_offers sys) (sys_reports sys + 1)) net)
          else None
      | _ => None
      end
  | PToScheduler e d =>
      match frameworkMessage e d (sys_agent sys) with
      | (a', Ret tt) =>
          Some (schedule w (mkSystem _ a' (sys_requested sys) (sys_offers sys) (sys_reports sys)) net)
      | _ => None
      end
  | PToExecutor e s d =>
      x ← w_execs w !! (e, s);
      let '(x', o) := CephExec.frameworkMessage polls d x in
      Some (execute w e s x x' o net)
  | PLaunch task =>
      if decide (ei_command_value (ti_executor task) = ceph_command) then
        let e := task_executor task in
        let s := ti_slave_id task in
        let '(x', o) := CephExec.launchTask polls task (executor_for w e s) in
        Some (execute w e s (executor_for w e s) x' o net)
      else if decide (ei_command_value (ti_executor task) = disk_command) then
        let '(x', o) := disk_run task in
        Some (mkWorld _ sys (w_execs w) (net ++ effect_packets (task_executor task) (DiskExec.dx_trace x')))
      else None
  end.

Definition act (w : World) (ac : action) : option World :=
  match ac with
  | Batch offers =>
      let sys := w_sys w in
      if forallb (λ o, bool_decide (of_hostname o = slave_host (of_slave_id o))) offers then
        match resourceOffers flags env offers (sys_agent sys) with
        | (a', Ret tt) =>
            Some (schedule w (mkSystem _ a' (sys_requested sys)
              (sys_offers sys + Z.of_nat (length offers)) (sys_reports sys)) (w_net w))
        | _ => None
        end
      else None
  | Handle i =>
      '(p, net) ← take_packet i (w_net w);
      handle_packet w p net
  end.

Fixpoint acts (script : list action) (w : World) : option World :=
  match script with
  | [] => Some w
  | ac :: script' => w' ← act w ac; acts script' w'
  end.

Context (env_ok : as_env A env) (host_ok : as_host A _).
Context (report_ok_spec : ∀ sm st, report_ok sm st = true → as_report A sm st).

Lemma handle_packet_step w p net w' :
  w_net w ≡ₚ p :: net → handle_packet w p net = Some w' → wstep A w w'.
Proof using host_ok report_ok_spec.
  intros Hn. destruct p as [task|e s d|status|e d]; cbn [handle_packet].
  - case_decide as Hc; [|case_decide as Hd; [|done]].
    + cbn zeta. destruct (CephExec.launchTask _ _ _) as [x' o] eqn:E. intros [= <-]. by eapply (W_launch A w _ polls).
    + destruct (disk_run task) as [x' o] eqn:E. intros [= <-]. by eapply (W_launch_disk A w _).
  - destruct (w_execs w !! (e, s)) as [x|] eqn:Ex; [|done]. cbn.
    destruct (CephExec.frameworkMessage _ _ _) as [x' o] eqn:E. intros [= <-]. by eapply (W_deliver A w _ polls).
  - destruct (statusUpdate _ _) as [a' [[]| | |]] eqn:E; try done.
    destruct (report_ok _ _) eqn:Er; [|done]. intros [= <-]. eapply W_report; eauto.
  - destruct (frameworkMessage _ _ _) as [a' [[]| | |]] eqn:E; try done. intros [= <-]. by eapply W_message.
Qed.

Lemma act_step w ac w' : act w ac = Some w' → wstep A w w'.
Proof using env_ok host_ok report_ok_spec.
  destruct ac as [offers|i]; cbn [act].
  - destruct (forallb _ offers) eqn:Ho; [|done].
    destruct (resourceOffers _ _ _ _) as [a' [[]| | |]] eqn:E; try done. intros [= <-].
    eapply W_offers; [done| |done]. apply Forall_forall. intros o Hin.
    rewrite forallb_forall in Ho. by apply list_elem_of_In, Ho, bool_decide_eq_true in Hin.
  - unfold take_packet. destruct (w_net w !! i) as [p|] eqn:Ep; [|done]. cbn.
    apply handle_packet_step. by apply delete_Permutation.
Qed.

Lemma acts_steps script w w' : acts script w = Some w' → rtc (wstep A) w w'.
Proof using env_ok host_ok report_ok_spec.
  revert w. induction script as [|ac script IH]; intros w; cbn [acts]; [by intros [= ->]|].
  destruct (act w ac) as [w1|] eqn:E; [|done]. cbn. intros Hs. eapply rtc_l; [by eapply act_step|by apply IH].
Qed.
End Script.
End Network.

#[local] Existing Instances DecimalCast.cast FlatYaml.yaml SomeValues.indet SomeOrder.order
  ScalarResources.resources ToyJson.json.

(** One host with two disks, on which every check succeeds and [ceph osd create]
    prints 0, 1, 2; the bootstrap of a cluster on it, executors included: the
    disks are prepared, then the initial MON, three OSDs and the RADOSGW run. *)
Module SampleWorld.
Definition yml : string :=
  FlatYaml.lines ["id:ceph"; "role:*"; "master:m"; "zookeeper:z"; "restport:8889"; "fileport:8888";
    "fileroot:r"; "mgmtdev:192.168.0.0/16"; "datadev:10.1.0.0/16"; "osddevs:sdb,sdc"; "jnlparts:2"].
Definition env : Env :=
  mkEnv (λ _, Some yml) (λ n, 1000 + Z.of_nat n) (Some "sched") (λ _, Some "10.0.0.1").
Definition answer (past : list Effect) (cmd : string) : string :=
  if decide (cmd = "echo ~") then "/root"
  else if decide (cmd = "hostname -I") then "192.168.0.7 "
  else if decide (cmd = "docker exec mon0 ceph osd create") then
    match told past with [] => "0" | [_] => "1" | _ => "2" end
  else "0".
Instance host : Host := {|
  host_popen past cmd := Some (answer past cmd);
  host_fork _ := 42;
  host_time past := Z.of_nat (length past);
  host_getcwd := Some "/sandbox";
|}.
Definition slave_host (slaveId : string) : string := "h1".
Definition one : list Offer := [SampleRun.offer "o" "h1" "*" 4].
Definition prepare : list action := [Batch one; Handle 0; Handle 0].
Definition launch_mon : list action := [Batch one; Handle 0; Handle 0].
Definition offer_three : list action := [Batch (one ++ one ++ one)].
Definition launch_osds : list action := replicate 12 (Handle 0) ++ [Batch one] ++ replicate 6 (Handle 0).
Definition launch_radosgw : list action := [Batch one; Handle 0; Handle 0].
Definition start : World := winitial sample_Config.
(** No report of a failure comes. *)
Definition no_failure (sm : StateMachine) (st : TaskStatus) : bool :=
  match st_state st with TASK_FAILED => false | _ => true end.
Definition play (script : list action) (w : World) : option World :=
  acts default_Flags slave_host env 1 no_failure script w.
Definition osds_offered : World := default start (play (prepare ++ launch_mon ++ offer_three) start).
Definition final : World := default start (play (launch_osds ++ launch_radosgw) osds_offered).

Lemma osds_offered_plays : play (prepare ++ launch_mon ++ offer_three) start = Some osds_offered.
Proof. apply plays_default. vm_compute. reflexivity. Qed.
Lemma final_plays : play (launch_osds ++ launch_radosgw) osds_offered = Some final.
Proof. apply plays_default. vm_compute. reflexivity. Qed.

(** A script that plays is a run, under assumptions its host and its scheduler meet. *)
Lemma play_steps (A : Assumptions) script w w' :
  as_env A env → as_host A host → (∀ sm st, no_failure sm st = true → as_report A sm st) →
  play script w = Some w' →
  rtc (wstep default_Flags slave_host A) w w'.
Proof. intros He Hh Hr. apply acts_steps; auto. Qed.
End SampleWorld.
