(* ===== verification/Protocol.v ===== *)
(** * The messages are understood

    In every reachable world of [Network], every packet in transit is one its
    receiver can read: no text one part writes makes the parser of another
    throw or read out of range.  The names of hosts and devices must survive
    the punctuation of the messages, and [ceph osd create] must print a number. *)

From S2P Require Import Prelude StringUtil CephTypes ConfigFile HostConfigs TaskMachine FlexUp Mesos Agent HostInvariant Cluster Executor Network.
From S2P Require DiskExec CephExec.
#[local] Existing Instance CephExec.CephExecutor_traced.
Open Scope Z_scope.

(** ** Hosts whose devices have clean names *)

Definition clean_host (hc : HostConfig) : Prop :=
  Forall (λ d, clean_name d = true) (hc_pendingOSDDevs hc ++ hc_pendingJNLDevs hc) ∧
  int_range (getJnlPartitionCount hc).

Definition clean_hosts (sm : StateMachine) : Prop := map_Forall (λ _ hc, clean_host hc) (sm_hostConfigMap sm).

Section CleanHosts.
Context `{LexicalCast}.

Lemma clean_host_same hc hc' :
  hc_pendingOSDDevs hc' = hc_pendingOSDDevs hc → hc_pendingJNLDevs hc' = hc_pendingJNLDevs hc →
  hc_jnlPartsCount hc' = hc_jnlPartsCount hc → clean_host hc → clean_host hc'.
Proof. unfold clean_host, getJnlPartitionCount. by intros -> -> ->. Qed.

Lemma foldl_pending {X} (f : HostConfig → X → HostConfig) l hc :
  (∀ hc x, hc_jnlPartsCount (f hc x) = hc_jnlPartsCount hc) →
  hc_jnlPartsCount (foldl f hc l) = hc_jnlPartsCount hc.
Proof. intros Hf. revert hc. induction l as [|x l IH]; intros hc; [done|]. cbn [foldl]. by rewrite IH. Qed.

Lemma clean_updateDiskPartition devs n hc : clean_host hc → clean_host (updateDiskPartition devs n hc).
Proof.
  intros [_ Hn]. split; [constructor|]. revert Hn. unfold getJnlPartitionCount, updateDiskPartition. cbn.
  rewrite !foldl_pending; [done|..]; intros hc' x.
  - unfold update_osd. by case_match.
  - unfold update_jnl. case_match; [done|]. by rewrite foldl_pending.
Qed.

Lemma clean_hosts_same sm sm' : sm_hostConfigMap sm' = sm_hostConfigMap sm → clean_hosts sm → clean_hosts sm'.
Proof. unfold clean_hosts. by intros ->. Qed.

Lemma clean_op f : (∀ hc, clean_host hc → clean_host (f hc)) → host_op_ok (map_Forall (λ _, clean_host)) f.
Proof.
  intros Hf h M HM k hc. destruct (decide (h = k)) as [->|Hne]; [rewrite lookup_alter_eq|by rewrite lookup_alter_ne by done; apply HM].
  intros (hc0 & E & ->)%fmap_Some. by eapply Hf, HM.
Qed.

Lemma clean_popOSD : host_op_ok (map_Forall (λ _, clean_host)) (λ hc, (popOSDPartition hc).1).
Proof. apply clean_op. intros hc. unfold popOSDPartition. by case_match. Qed.
Lemma clean_popJournal : host_op_ok (map_Forall (λ _, clean_host)) (λ hc, (popJournalPartition hc).1).
Proof. apply clean_op. intros hc. unfold popJournalPartition. by case_match. Qed.
Lemma clean_onGoing : host_op_ok (map_Forall (λ _, clean_host)) setDiskPreparationOnGoing.
Proof. by apply clean_op. Qed.
Lemma clean_done : host_op_ok (map_Forall (λ _, clean_host)) setDiskPreparationDone.
Proof. by apply clean_op. Qed.
Lemma clean_update devs :
  host_op_ok (map_Forall (λ _, clean_host)) (λ hc, updateDiskPartition devs (getJnlPartitionCount hc) hc).
Proof. apply clean_op. intros hc. apply clean_updateDiskPartition. Qed.
End CleanHosts.

(** ** The scheduler keeps its hosts clean *)

Section CleanAgent.
Context `{LexicalCast, Yaml, Indeterminate, HashOrder, MesosResources, JsonCpp}.
Context (flags : Flags) (env : Env).

Definition clean_agent (a : Agent) : Prop := clean_hosts (ag_stateMachine a).

(** The configurations the scheduler can read name clean devices. *)
Definition clean_env : Prop :=
  ∀ h hc, new_HostConfig flags (env_files env) h = Ret hc → clean_host hc.

Lemma clean_handle_offer ph l offer : clean_env → keeps clean_agent (handle_offer flags env ph l offer).
Proof.
  intros He. apply (hosts_handle_offer flags env (map_Forall (λ _, clean_host)));
    [apply clean_popOSD|apply clean_popJournal|apply clean_onGoing|].
  intros h hc M Hn _ HM. apply map_Forall_insert_2; [by eapply He|done].
Qed.

Lemma clean_resourceOffers offers : clean_env → keeps clean_agent (resourceOffers flags env offers).
Proof.
  intros He. apply (hosts_resourceOffers flags env (map_Forall (λ _, clean_host)));
    [apply clean_popOSD|apply clean_popJournal|apply clean_onGoing|].
  intros h hc M Hn _ HM. apply map_Forall_insert_2; [by eapply He|done].
Qed.

Lemma clean_statusUpdate st : keeps clean_agent (statusUpdate st).
Proof. apply (hosts_statusUpdate (map_Forall (λ _, clean_host))); [apply clean_done|apply clean_update]. Qed.

Lemma clean_frameworkMessage e d : keeps clean_agent (frameworkMessage e d).
Proof. apply (hosts_frameworkMessage (map_Forall (λ _, clean_host))). Qed.
End CleanAgent.

(** ** Well-formed packets *)

Section GoodPackets.
Context `{LexicalCast, Yaml, Indeterminate, HashOrder, MesosResources, JsonCpp}.
Context (flags : Flags) (slave_host : string → string).

Definition good_task (task : TaskInfo) : Prop :=
  (∃ offer t k i, ceph_task offer t k i task) ∨
  (∃ offer hc, disk_task offer hc task ∧ clean_host hc).

Definition good_report (st : TaskStatus) : Prop :=
  match st_message st with
  | None => st_state st = TASK_RUNNING ∨ st_state st = TASK_STARTING ∨ st_state st = TASK_FAILED
  | Some m =>
      (st_state st = TASK_RUNNING ∧ ∃ id, m = lexical_to_string 1 +:+ "." +:+ lexical_to_string id) ∨
      (st_state st = TASK_FINISHED ∧ ∃ h f, m = disk_ready h f ∧ clean_name h = true ∧ clean_name f = true ∧ f ≠ "")
  end.

Definition good_packet (p : Packet) : Prop :=
  match p with
  | PLaunch task => good_task task
  | PToExecutor _ _ d =>
      d = lexical_to_string 20 ∨ ∃ id, d = lexical_to_string 21 +:+ "." +:+ lexical_to_string id
  | PReport st => good_report st
  | PToScheduler _ d => ∃ z, lexical_to_int d = Ret z
  end.

Lemma good_calls_app cs1 cs2 :
  Forall good_packet (cs1 ≫= call_packets) → Forall good_packet (cs2 ≫= call_packets) →
  Forall good_packet ((cs1 ++ cs2) ≫= call_packets).
Proof. intros G1 G2. rewrite bind_app. by apply Forall_app. Qed.

(** *** What the scheduler sends *)

Lemma clean_deref env h sm sm' :
  clean_env flags env → clean_hosts sm → addConfig flags (env_files env) h sm = Ret sm' →
  clean_host (deref (getConfig h sm') sm').
Proof.
  intros He Hs E. assert (Hh : ∃ hc, sm_hostConfigMap sm' !! h = Some hc ∧ clean_host hc).
  { unfold addConfig in E. destruct (sm_hostConfigMap sm !! h) as [hc|] eqn:Eh.
    - injection E as <-. exists hc. split; [done|]. by apply (Hs h).
    - destruct (new_HostConfig _ _ _) as [hc| | |] eqn:En; [|done..]. injection E as <-.
      exists hc. cbn. rewrite lookup_insert_eq. split; [done|]. by eapply He. }
  destruct Hh as (hc & Eh & Hc). unfold getConfig. rewrite Eh. cbn. by rewrite Eh.
Qed.

Lemma good_registers t i cs : registers_osd t i cs → Forall good_packet (cs ≫= call_packets).
Proof.
  unfold registers_osd. case_match; [|by intros ->]. intros (e & s & ->). cbn.
  constructor; [|constructor]. by left.
Qed.

Lemma offer_case_good env ph l offer a a' l' :
  clean_env flags env → clean_hosts (ag_stateMachine a) → offer_case flags env ph l offer a a' l' →
  ∃ cs, ag_calls a' = ag_calls a ++ cs ∧ Forall good_packet (cs ≫= call_packets).
Proof.
  intros He Ha [Hr E|cs t k Hd Qd|t sm Hm Ef|t sm Hm Hph Hp Ef|t i task eid cs sm Hm Hi Ht Hp Hr Ef].
  - exists [declineOffer (of_id offer) (Some 86400)]. split; [by rewrite E|constructor].
  - destruct Qd as [_ _ _ Qk]. exists (cs ++ [declineOffer (of_id offer) None]). split; [done|].
    apply good_calls_app; [|constructor]. destruct Hd as [->|(task & sm & -> & Ec & Ht)]; [constructor|].
    cbn. constructor; [|constructor]. right. exists offer, (deref (getConfig (of_hostname offer) sm) sm).
    split; [done|]. by eapply clean_deref.
  - destruct Ef as [_ _ _ Ek]. eexists. split; [exact Ek|constructor].
  - destruct Ef as [_ _ _ Ek]. eexists. split; [exact Ek|constructor].
  - destruct Ef as [_ _ _ Ek]. eexists. split; [exact Ek|].
    apply (good_calls_app [_] cs); [|by eapply good_registers]. cbn.
    constructor; [|constructor]. left. by exists offer, t, (index (counters t sm)), i.
Qed.

Lemma foreach_good env ph offers l a a' l' :
  clean_env flags env → clean_hosts (ag_stateMachine a) →
  foreach offers (handle_offer flags env ph) l a = (a', Ret l') →
  ∃ cs, ag_calls a' = ag_calls a ++ cs ∧ Forall good_packet (cs ≫= call_packets).
Proof.
  intros He. revert l a. induction offers as [|o offers IH]; intros l a Ha; cbn [foreach].
  - intros [-> ->]%mret_Ret. exists []. rewrite app_nil_r. split; [done|constructor].
  - intros (a1 & l1 & Ho & Hl)%bind_Ret.
    assert (Ha1 : clean_hosts (ag_stateMachine a1)) by (by eapply (keeps_Ret _ _ _ _ _ (clean_handle_offer flags env ph l o He))).
    apply handle_offer_Ret in Ho. destruct (offer_case_good _ _ _ _ _ _ _ He Ha Ho) as (cs1 & E1 & G1).
    destruct (IH _ _ Ha1 Hl) as (cs2 & E2 & G2). exists (cs1 ++ cs2).
    split; [by rewrite E2, E1, app_assoc|by apply good_calls_app].
Qed.

Lemma good_osd_messages tasks ids :
  Forall good_packet (zip_with launch_osd_message tasks ids ≫= call_packets).
Proof.
  revert ids. induction tasks as [|t tasks IH]; intros [|id ids]; [constructor..|].
  cbn. constructor; [|apply IH]. right. by exists id.
Qed.

Lemma assigned_hosts tasks a :
  sm_hostConfigMap (ag_stateMachine (assigned tasks a)) = sm_hostConfigMap (ag_stateMachine a).
Proof. apply hosts_starting_all. Qed.

Lemma resourceOffers_good env offers a a' :
  clean_env flags env → clean_hosts (ag_stateMachine a) → resourceOffers flags env offers a = (a', Ret tt) →
  ∃ cs, ag_calls a' = ag_calls a ++ cs ∧ Forall good_packet (cs ≫= call_packets).
Proof.
  intros He Ha (l & E)%resourceOffers_Ret. apply foreach_good in E as (cs & E & G); [|done|].
  2: { revert Ha. apply clean_hosts_same, assigned_hosts. }
  eexists. split; [rewrite E; unfold assigned; cbn [ag_calls]; by rewrite <- app_assoc|].
  apply good_calls_app; [apply good_osd_messages|done].
Qed.

(** *** What the executors send *)

Lemma good_launch_report ty st : CephExec.launch_report ty st → good_report st.
Proof.
  intros [Em Es]. unfold good_report. rewrite Em. destruct Es as [->| ->]; [auto|].
  destruct (ty =? _); auto.
Qed.

Lemma good_osd_report id taskId st : CephExec.osd_report (lexical_to_string id) taskId st → good_report st.
Proof. intros [->| ->]; unfold good_report; cbn; eauto. Qed.

Lemma good_disk_report taskId st : DiskExec.disk_report taskId st → good_report st.
Proof.
  unfold good_report. intros [_ [[-> ->]|[-> (h & f & -> & Hhf)]]]; [auto|]. right. eauto.
Qed.

Lemma good_effects e l ms :
  Forall good_report l → Forall (λ d, ∃ z, lexical_to_int d = Ret z) ms →
  Forall good_packet ((PReport <$> l) ++ (PToScheduler e <$> ms)).
Proof. intros Hl Hms. apply Forall_app. split; apply Forall_fmap; done. Qed.

Lemma clean_lexical n : clean_name (lexical_to_string n) = true.
Proof. unfold clean_name. by rewrite !lexical_lacks. Qed.

Lemma clean_disk_labels hc : clean_host hc → Forall (λ l, clean_name (lb_value l) = true) (disk_labels hc).
Proof.
  intros [[Ho Hj]%Forall_app _]. unfold disk_labels. repeat apply Forall_app_2.
  - by apply Forall_fmap.
  - by apply Forall_fmap.
  - constructor; [apply clean_lexical|constructor].
Qed.

(** [ceph osd create] prints a number. *)
Definition numeric_host (h : Host) : Prop :=
  ∀ past c, ∃ z, lexical_to_int (shell_result (host_popen past ("docker exec " +:+ c +:+ " ceph osd create"))) = Ret z.
End GoodPackets.

(** *** The runs of an executor *)

Section Runs.
Context `{LexicalCast, Indeterminate, MesosResources, Host}.
Context (polls : nat).

(** What a run of [m] puts in transit from the state [x]. *)
Definition run_sent (x x' : CephExecutor) : list TaskStatus := sent (drop (length (cx_trace x)) (cx_trace x')).
Definition run_told (x x' : CephExecutor) : list string := told (drop (length (cx_trace x)) (cx_trace x')).

(** At most one report, and exactly one from a run that returns. *)
Lemma reports_run taskId P known m x x' o :
  CephExec.reports taskId P known m → m x = (x', o) → cx_trace x `prefix_of` cx_trace x' →
  (known = true → cx_myTaskId x = taskId) →
  run_told x x' = [] ∧
  match o with
  | Ret _ => ∃ st, run_sent x x' = [st] ∧ st_task_id st = taskId ∧ P st ∧
               (st_state st = TASK_FAILED ∨ cx_myTaskId x' = taskId)
  | _ => run_sent x x' = []
  end.
Proof.
  intros Hm E Hp Hk. destruct (Hm _ _ _ E Hk) as [Et Es]. unfold run_told, run_sent. split.
  { apply told_drop; [done|]. by rewrite app_nil_r. }
  destruct o; [|by (apply sent_drop; [done|]; rewrite app_nil_r)..].
  destruct Es as (st & Es & Hst). exists st. split; [by apply sent_drop|done].
Qed.

Lemma launchTask_run task x x' o :
  CephExec.launchTask polls task x = (x', o) →
  run_told x x' = [] ∧
  match o with
  | Ret _ => ∃ st ty, run_sent x x' = [st] ∧ st_task_id st = ti_task_id task ∧
               CephExec.task_type task = Ret ty ∧ CephExec.launch_report ty st ∧
               (st_state st = TASK_FAILED ∨ cx_myTaskId x' = ti_task_id task)
  | _ => run_sent x x' = []
  end.
Proof.
  intros E. destruct (reports_run _ _ _ _ _ _ _ (CephExec.launchTask_reports polls task) E) as [Et Es];
    [by eapply CephExec.launchTask_prefix|done|]. split; [done|]. destruct o; [|done..].
  destruct Es as (st & Es & Hid & (ty & Hty & Hl) & Hk). by exists st, ty.
Qed.

Lemma launch_message_run id x x' o :
  CephExec.frameworkMessage polls (lexical_to_string 21 +:+ "." +:+ lexical_to_string id) x = (x', o) →
  run_told x x' = [] ∧
  match o with
  | Ret _ => ∃ st, run_sent x x' = [st] ∧ CephExec.osd_report (lexical_to_string id) (cx_myTaskId x) st ∧
               st_task_id st = cx_myTaskId x
  | _ => run_sent x x' = []
  end.
Proof.
  intros E. pose proof (CephExec.frameworkMessage_prefix polls _ _ _ _ E) as Hp.
  rewrite CephExec.frameworkMessage_launch in E. unfold run_told, run_sent.
  match type of E with _ ?y = _ => set (x1 := y) in * end.
  change (cx_trace x) with (cx_trace x1) in *. change (cx_myTaskId x) with (cx_myTaskId x1) in *. clearbody x1.
  destruct (reports_run _ _ _ _ _ _ _ (CephExec.launch_osd_reports polls _ _ (cx_myTaskId x1)) E Hp) as [Et Es]; [done|].
  split; [done|]. destruct o; [|done..]. destruct Es as (st & Es & Hid & Hst & _). by exists st.
Qed.

Lemma register_message_run x x' o :
  CephExec.frameworkMessage polls (lexical_to_string 20) x = (x', o) →
  o = Ret tt ∧ cx_myTaskId x' = cx_myTaskId x ∧ run_sent x x' = [] ∧
  run_told x x' =
    [answer ("docker exec " +:+ CephExec.cx_containerName x +:+ " ceph osd create") x].
Proof.
  rewrite CephExec.frameworkMessage_register. cbn zeta. intros [= <- <-].
  unfold run_sent, run_told. cbn. rewrite <- app_assoc, drop_app_length. done.
Qed.
End Runs.

(** ** The invariant of the worlds *)

Section Worlds.
Context `{LexicalCast, Yaml, Indeterminate, HashOrder, MesosResources, JsonCpp}.
Context (flags : Flags) (slave_host : string → string).
Context (slaves_clean : ∀ s, clean_name (slave_host s) = true).

Definition protocol_inv (w : World) : Prop :=
  Forall good_packet (w_net w) ∧ clean_agent (sys_agent (w_sys w)).

Lemma good_delivered net p net' :
  net ≡ₚ p :: net' → Forall good_packet net → good_packet p ∧ Forall good_packet net'.
Proof. intros Hn. rewrite Hn. apply Forall_cons. Qed.

Lemma schedule_inv w s net cs :
  ag_calls (sys_agent s) = ag_calls (sys_agent (w_sys w)) ++ cs →
  Forall good_packet (cs ≫= call_packets) → Forall good_packet net → clean_agent (sys_agent s) →
  protocol_inv (schedule w s net).
Proof. intros E Hcs Hn Hs. rewrite (schedule_net _ _ _ _ E). split; [by apply Forall_app|done]. Qed.

Lemma execute_inv w e s x x' o net :
  Forall good_report (run_sent x x') → Forall (λ d, ∃ z, lexical_to_int d = Ret z) (run_told x x') →
  Forall good_packet net → clean_agent (sys_agent (w_sys w)) →
  protocol_inv (execute w e s x x' o net).
Proof. intros Hs Ht Hn Ha. split; [|done]. apply Forall_app. split; [done|]. by apply good_effects. Qed.

Lemma statusUpdate_calls status a a' u : statusUpdate status a = (a', Ret u) → ag_calls a' = ag_calls a ++ [].
Proof. intros [(_ & [_ _ _ E])|(up & _ & [_ _ _ E])]%statusUpdate_Ret; exact E. Qed.

Lemma frameworkMessage_calls e d a a' u : frameworkMessage e d a = (a', Ret u) → ag_calls a' = ag_calls a ++ [].
Proof. intros [->|[id ->]]%frameworkMessage_Ret; by rewrite app_nil_r. Qed.

Context (A : Assumptions).
Context (env_ok : ∀ env, as_env A env → clean_env flags env).
Context (host_ok : ∀ h, as_host A h → numeric_host h).

Lemma wstep_protocol_inv w w' : wstep flags slave_host A w w' → protocol_inv w → protocol_inv w'.
Proof using env_ok host_ok slaves_clean.
  intros Hs [Hn Ha].
  destruct Hs as [env offers a' He Ho E|data n p pending Hacc E|status net a' Hp Hok E|e d net a' Hp E
    |h polls task net x' o Ah Hp Hc e s E|h task net x' o Ah Hp Hc E|h polls e s d net x x' o Ah Hp Hx E|p net Hp].
  - apply env_ok in He as He'. destruct (resourceOffers_good _ _ _ _ _ He' Ha E) as (cs & Ec & Gc).
    apply (schedule_inv _ _ _ cs); [done..|].
    exact (keeps_Ret _ _ _ _ _ (clean_resourceOffers flags env offers He') Ha E).
  - apply (schedule_inv _ _ _ []); [by rewrite app_nil_r|constructor|done|exact Ha].
  - destruct (good_delivered _ _ _ Hp Hn) as [_ Hn'].
    apply (schedule_inv _ _ _ []); [by eapply statusUpdate_calls|constructor|done|].
    exact (keeps_Ret _ _ _ _ _ (clean_statusUpdate status) Ha E).
  - destruct (good_delivered _ _ _ Hp Hn) as [_ Hn'].
    apply (schedule_inv _ _ _ []); [by eapply frameworkMessage_calls|constructor|done|].
    exact (keeps_Ret _ _ _ _ _ (clean_frameworkMessage e d) Ha E).
  - destruct (good_delivered _ _ _ Hp Hn) as [_ Hn']. apply launchTask_run in E as [Et Es].
    apply execute_inv; [|rewrite Et; constructor|done..].
    destruct o; [|rewrite Es; constructor..]. destruct Es as (st & ty & -> & _ & _ & Hl & _).
    constructor; [by eapply good_launch_report|constructor].
  - destruct (good_delivered _ _ _ Hp Hn) as [Ht Hn']. split; [|done]. cbn. apply Forall_app. split; [done|].
    assert (Hl : Forall (λ l, clean_name (lb_value l) = true) (default [] (ti_labels task))).
    { destruct Ht as [(offer & t & k & i & Ht)|(offer & hc & Ht & Hhc)].
      - rewrite (ct_command _ _ _ _ _ Ht) in Hc. done.
      - rewrite (dt_labels _ _ _ Ht). by apply clean_disk_labels. }
    pose proof (DiskExec.disk_run_clean (ti_task_id task) (slave_host (ti_slave_id task)) task
      (slaves_clean _) eq_refl Hl) as [_ _ _ Hst Htd].
    unfold disk_run in E. rewrite E in Hst, Htd. cbn in Hst, Htd. unfold effect_packets. rewrite Htd.
    apply good_effects; [|constructor]. eapply Forall_impl; [exact Hst|]. intros st. apply good_disk_report.
  - destruct (good_delivered _ _ _ Hp Hn) as [[->|[id ->]] Hn'].
    + apply register_message_run in E as (_ & _ & Es & Et).
      apply execute_inv; [rewrite Es; constructor|rewrite Et|done..].
      constructor; [apply host_ok, Ah|constructor].
    + apply launch_message_run in E as [Et Es]. apply execute_inv; [|rewrite Et; constructor|done..].
      destruct o; [|rewrite Es; constructor..]. destruct Es as (st & -> & Hst & _).
      constructor; [by eapply good_osd_report|constructor].
  - destruct (good_delivered _ _ _ Hp Hn) as [_ Hn']. by split.
Qed.

Lemma wreachable_protocol_inv cfg w : wreachable flags slave_host A cfg w → protocol_inv w.
Proof using env_ok host_ok slaves_clean.
  intros Hr. assert (Hi : protocol_inv (winitial cfg)) by (split; [constructor|by intros k hc]).
  revert Hi. induction Hr as [|w1 w2 w3 Hs _ IH]; eauto using wstep_protocol_inv.
Qed.

(** *** A Ceph task in transit was launched by the scheduler *)

Definition net_launched (w : World) : Prop :=
  ∀ task, PLaunch task ∈ w_net w → is_Some (ti_data task) →
    ti_task_id task ∈ launched_ids (ag_calls (sys_agent (w_sys w))).

Lemma packet_launched cs task :
  PLaunch task ∈ cs ≫= call_packets → is_Some (ti_data task) → ti_task_id task ∈ launched_ids cs.
Proof.
  intros (c & Hp & Hc)%list_elem_of_bind Hd. destruct c as [o r|o tasks|e s d]; cbn in Hp.
  - by apply not_elem_of_nil in Hp.
  - apply list_elem_of_fmap in Hp as (task' & [= <-] & Ht). apply list_elem_of_fmap. exists task. split; [done|].
    apply list_elem_of_bind. exists (launchTasks o tasks). split; [|done]. by apply list_elem_of_filter.
  - by apply list_elem_of_singleton in Hp.
Qed.

Lemma schedule_launched w s net cs :
  ag_calls (sys_agent s) = ag_calls (sys_agent (w_sys w)) ++ cs → net ⊆ w_net w → net_launched w →
  net_launched (schedule w s net).
Proof.
  intros E Hn Hl task. rewrite (schedule_net _ _ _ _ E). cbn. rewrite E, launched_ids_app, !elem_of_app.
  intros [Hp|Hp] Hd; [left; by apply Hl; [apply Hn|]|right; by apply packet_launched].
Qed.

Lemma no_launch_effects e tr task : PLaunch task ∉ effect_packets e tr.
Proof. unfold effect_packets. by intros [(? & [=] & _)%list_elem_of_fmap|(? & [=] & _)%list_elem_of_fmap]%elem_of_app. Qed.

Lemma wstep_launched w w' : wstep flags slave_host A w w' → protocol_inv w → net_launched w → net_launched w'.
Proof using env_ok.
  intros Hs [_ Ha] Hl.
  assert (Hsub : ∀ p net, w_net w ≡ₚ p :: net → net ⊆ w_net w) by (intros p net -> x Hx; by right).
  assert (Heff : ∀ e tr net net', net ⊆ w_net w → net' = net ++ effect_packets e tr →
    ∀ task, PLaunch task ∈ net' → is_Some (ti_data task) → ti_task_id task ∈ launched_ids (ag_calls (sys_agent (w_sys w)))).
  { intros e tr net net' Hn -> task [Hp|Hp]%elem_of_app; [apply Hl, Hn, Hp|by apply no_launch_effects in Hp]. }
  destruct Hs as [env offers a' He Ho E|data n p pending Hacc E|status net a' Hp Hok E|e d net a' Hp E
    |h polls task net x' o Ah Hp Hc e s E|h task net x' o Ah Hp Hc E|h polls e s d net x x' o Ah Hp Hx E|p net Hp].
  - apply env_ok in He. destruct (resourceOffers_good _ _ _ _ _ He Ha E) as (cs & Ec & _). by apply (schedule_launched _ _ _ cs).
  - apply (schedule_launched _ _ _ []); [by rewrite app_nil_r|done..].
  - apply (schedule_launched _ _ _ []); [by eapply statusUpdate_calls|by eapply Hsub|done].
  - apply (schedule_launched _ _ _ []); [by eapply frameworkMessage_calls|by eapply Hsub|done].
  - unfold net_launched. eapply Heff; [by eapply Hsub|reflexivity].
  - unfold net_launched. eapply Heff; [by eapply Hsub|reflexivity].
  - unfold net_launched. eapply Heff; [by eapply Hsub|reflexivity].
  - intros task Ht. by apply Hl, (Hsub _ _ Hp).
Qed.

Lemma wreachable_launched cfg w : wreachable flags slave_host A cfg w → net_launched w.
Proof using env_ok host_ok slaves_clean.
  intros Hr. assert (Hi : protocol_inv (winitial cfg)) by (split; [constructor|by intros k hc]).
  assert (Hl : net_launched (winitial cfg)) by (intros task Ht; by apply not_elem_of_nil in Ht).
  revert Hi Hl. induction Hr as [|w1 w2 w3 Hs _ IH]; eauto using wstep_protocol_inv, wstep_launched.
Qed.
End Worlds.

(** ** Good packets are understood *)

Section Understood.
Context `{LexicalCast, Yaml, Indeterminate, HashOrder, MesosResources, JsonCpp}.

Lemma statusUpdate_good st (a : Agent) : good_report st → ∃ a', statusUpdate st a = (a', Ret tt).
Proof.
  destruct st as [id state [m|]]; unfold good_report; cbn.
  - intros [[-> [osd ->]]|[-> (h & f & -> & [Hh1 Hh2]%andb_true_iff & [Hf1 Hf2]%andb_true_iff & Hne)]].
    + eexists. apply statusUpdate_consumed.
    + eexists. by apply statusUpdate_disk_ready.
  - intros [->|[->| ->]]; by eexists.
Qed.

Lemma frameworkMessage_good e d z (a : Agent) :
  lexical_to_int d = Ret z → ∃ a', frameworkMessage e d a = (a', Ret tt).
Proof.
  intros E. unfold frameworkMessage.
  rewrite (bind_eq _ _ a a (getInitialMon (ag_stateMachine a))) by done.
  case_decide; [|by eexists]. eexists.
  by rewrite (bind_eq _ _ a a z) by (unfold lift; by rewrite E).
Qed.

(** What it means that the receiver of a packet can read it.  A Ceph task was
    launched on some offer with a type, a token and the flag of the initial MON,
    and is recorded by the scheduler with that type. *)
Definition understood (w : World) (p : Packet) : Prop :=
  match p with
  | PReport st => ∃ a', statusUpdate st (sys_agent (w_sys w)) = (a', Ret tt)
  | PToScheduler e d => ∃ a', frameworkMessage e d (sys_agent (w_sys w)) = (a', Ret tt)
  | PToExecutor e s d => ∀ (h : Host) polls x, w_execs w !! (e, s) = Some x →
      match (CephExec.frameworkMessage polls d x).2 with Ret _ | Blocked => True | _ => False end
  | PLaunch task =>
      (ei_command_value (ti_executor task) = ceph_command ∧
       ∃ offer t k i ts data, ceph_task offer t k i task ∧
         sm_taskMap (ag_stateMachine (sys_agent (w_sys w))) !! ti_task_id task = Some ts ∧ ts_taskType ts = t ∧
         ti_data task = Some data ∧ CephExec.parse_data data = Ret (negb (i =? 1), TaskType_to_int t) ∧
         CephExec.getContainerName (ti_task_id task) = Ret (ti_name task) ∧ ti_name task = createTaskName t k) ∨
      (ei_command_value (ti_executor task) = disk_command ∧
       ∀ x, ∃ x', DiskExec.addPendingDisks task x = (x', Ret true))
  end.

Lemma good_understood w p :
  system_inv (w_sys w) → net_launched w → p ∈ w_net w → good_packet p → understood w p.
Proof.
  intros Hi Hl Hp. destruct p as [task|e s d|st|e d]; cbn.
  - intros [(offer & t & k & i & Ht)|(offer & hc & Ht & [_ Hn])].
    + left. split; [apply Ht|]. pose proof (ct_data _ _ _ _ _ Ht) as Ed.
      destruct (proj2 (ti_known _ _ (si_tasks _ Hi) _) (Hl task Hp ltac:(by eexists))) as [ts Hts].
      destruct (ti_entries _ _ (si_tasks _ Hi) _ _ Hts) as (_ & tok & h & sl & Eid & _).
      rewrite (ct_id _ _ _ _ _ Ht) in Eid at 1. apply task_id_inj in Eid as [Et _].
      eexists offer, t, k, i, ts, _. split_and!; [done|exact Hts|done|exact Ed|apply CephExec.parse_data_eq| |apply Ht].
      rewrite (ct_id _ _ _ _ _ Ht), (ct_name _ _ _ _ _ Ht). apply CephExec.getContainerName_task_id.
    + right. split; [apply Ht|]. intros x. eexists. by apply DiskExec.addPendingDisks_labels, Ht.
  - intros Hd h polls x _. destruct Hd as [->|[id ->]].
    + by rewrite CephExec.frameworkMessage_register.
    + rewrite CephExec.frameworkMessage_launch.
      match goal with |- context [CephExec.launch_osd polls ?i ?d ?t ?y] =>
        apply (CephExec.no_failure_launch_osd polls i d t y) end.
  - apply statusUpdate_good.
  - intros [z Ez]. by eapply frameworkMessage_good.
Qed.
End Understood.

(** ** Properties *)

Section Properties.
Context `{LexicalCast, Yaml, Indeterminate, HashOrder, MesosResources, JsonCpp}.
Context (flags : Flags) (slave_host : string → string).

(** Hosts whose names and devices are free of punctuation, and on which [ceph
    osd create] prints a number; any report is delivered. *)
Definition clean_world : Assumptions := mkAssumptions (clean_env flags) numeric_host any_report.

(** C8. The messages are well-typed.  When host names and device names hold no
    '.', ':' or ',', and [ceph osd create] prints a number, every packet in
    transit in every reachable world of the scheduler and its executors is one
    its receiver reads: a report or a message to the scheduler is handled and
    returns; a message to an executor raises no exception and reads no vector
    past its end; a launched task goes to the binary its data and labels are for:
    the disk executor reads its labels, and the Ceph executor parses its data to
    the flag and the type it was launched with, the type the scheduler recorded
    for it, and its id to the name of that type and token. *)
Theorem packets_understood (cfg : Config) (w : World) (p : Packet) :
  (∀ s, clean_name (slave_host s) = true) →
  wreachable flags slave_host clean_world cfg w → p ∈ w_net w → understood w p.
Proof.
  intros Hs Hr Hp. pose proof (wreachable_reachable _ _ _ _ _ Hr) as Hi%reachable_inv.
  pose proof (wreachable_launched flags slave_host Hs clean_world (λ _ Hx, Hx) (λ _ Hx, Hx) cfg w Hr) as Hl.
  apply wreachable_protocol_inv in Hr as [Hn _]; [|done..].
  rewrite Forall_forall in Hn. by apply good_understood; [..|apply Hn].
Qed.
End Properties.

#[local] Existing Instances DecimalCast.cast FlatYaml.yaml SomeValues.indet SomeOrder.order
  ScalarResources.resources ToyJson.json.

Lemma sample_clean_env : clean_env default_Flags SampleWorld.env.
Proof.
  intros h hc E. vm_compute in E. injection E as <-.
  split; [repeat constructor|split; vm_compute; [discriminate|reflexivity]].
Qed.

Lemma sample_numeric_host : numeric_host SampleWorld.host.
Proof.
  intros past c. cbn [host_popen SampleWorld.host]. unfold SampleWorld.answer.
  destruct (decide (_ = "echo ~")) as [E|_]; [done|]. destruct (decide (_ = "hostname -I")) as [E|_]; [done|].
  case_decide; [|by eexists; vm_compute].
  destruct (told past) as [|m [|m' ms]]; by eexists; vm_compute.
Qed.

(** The world in which the three OSDs have just been launched, each with a
    request to the initial MON. *)
Lemma packets_understood_witness :
  length (w_net SampleWorld.osds_offered) = 6%nat ∧
  Forall (understood SampleWorld.osds_offered) (w_net SampleWorld.osds_offered).
Proof.
  split; [vm_compute; reflexivity|]. apply Forall_forall. intros p Hp.
  apply (packets_understood default_Flags SampleWorld.slave_host sample_Config); [done| |exact Hp].
  exact (SampleWorld.play_steps (clean_world default_Flags) _ _ _ sample_clean_env sample_numeric_host (λ _ _ _, I) SampleWorld.osds_offered_plays).
Defined.
