(* ===== verification/Delivery.v ===== *)
(** * The packets of a task come one at a time

    In the worlds of [Network] at most one packet in transit concerns a task: its
    launch, the message that gives it an OSD id, or a report on it; and the
    packet fits the status the scheduler holds for the task.  So every report is
    one [updateCounters] accounts for, as long as no OSD fails after it asked
    for its id: the runs of the scheduler among its executors are regular. *)

From S2P Require Import Prelude StringUtil CephTypes ConfigFile HostConfigs TaskMachine FlexUp Mesos Agent Cluster Executor Network Protocol.
From S2P Require DiskExec CephExec.
#[local] Existing Instance CephExec.CephExecutor_traced.
Open Scope Z_scope.

Section Tasks.
Context `{LexicalCast, Yaml, Indeterminate, HashOrder, MesosResources, JsonCpp}.

Notation Execs := (gmap (string * string) CephExecutor).

(** ** What is in transit for a task

    The task [k], run by the executor [e] on the slave [s]. *)
Definition concerns (k e s : string) (p : Packet) : Prop :=
  match p with
  | PLaunch task => ti_task_id task = k
  | PReport st => st_task_id st = k
  | PToExecutor e' s' d => e' = e ∧ s' = s ∧ d ≠ lexical_to_string 20
  | PToScheduler _ _ => False
  end.

#[export] Instance concerns_dec k e s p : Decision (concerns k e s p).
Proof. destruct p; cbn; apply _. Defined.

Definition concerns_task (k : string) (ts : TaskState) : Packet → Prop :=
  concerns k (ts_executorId ts) (ts_slaveId ts).

(** The packets a status lets expect. *)
Definition expected (ts : TaskState) (p : Packet) : Prop :=
  match ts_currentStatus ts, p with
  | STAGING, PLaunch task =>
      task_executor task = ts_executorId ts ∧ ti_slave_id task = ts_slaveId ts ∧
      CephExec.task_type task = Ret (TaskType_to_int (ts_taskType ts))
  | STAGING, PReport st =>
      (st_state st = TASK_RUNNING ∨ st_state st = TASK_STARTING ∨ st_state st = TASK_FAILED) ∧
      (st_state st = TASK_STARTING → ts_taskType ts = OSD)
  | STARTING, PToExecutor _ _ _ => True
  | STARTING, PReport st => st_state st = TASK_RUNNING ∨ st_state st = TASK_FAILED
  | _, _ => False
  end.

(** The executor of the task, if alive, works on it. *)
Definition serves (execs : Execs) (k : string) (ts : TaskState) : Prop :=
  ∀ x, execs !! (ts_executorId ts, ts_slaveId ts) = Some x → cx_myTaskId x = k.

(** The task asks for its OSD id, waits for it, or is sent it. *)
Definition asks (p : Packet) : Prop :=
  match p with
  | PToExecutor _ _ _ => True
  | PReport st => st_state st = TASK_STARTING
  | _ => False
  end.

Definition engaged (net : list Packet) (k : string) (ts : TaskState) : Prop :=
  ts_currentStatus ts = WAITING_OSDID ∨ ∃ p, p ∈ net ∧ concerns_task k ts p ∧ asks p.

Record task_ok (execs : Execs) (net : list Packet) (k : string) (ts : TaskState) : Prop := {
  to_one : (length (filter (concerns_task k ts) net) ≤ 1)%nat;
  to_expected p : p ∈ net → concerns_task k ts p → expected ts p;
  to_serves : engaged net k ts → serves execs k ts;
}.

(** No packet concerns the task. *)
Definition idle (net : list Packet) (k : string) (ts : TaskState) : Prop :=
  Forall (λ p, ¬ concerns_task k ts p) net.

Lemma idle_filter net k ts : idle net k ts ↔ filter (concerns_task k ts) net = [].
Proof.
  unfold idle. induction net as [|p net IH]; [by split|].
  rewrite Forall_cons, IH, filter_cons. case_decide; (split; [by intros []|by try split]).
Qed.

Lemma engaged_sub net net' k ts : (∀ p, p ∈ net' → p ∈ net) → engaged net' k ts → engaged net k ts.
Proof. intros Hs [?|(p & Hp & ?)]; [by left|right]. exists p. auto. Qed.

(** Taking a packet out, and adding packets. *)
Lemma task_ok_drop execs net p net' k ts :
  net ≡ₚ p :: net' → task_ok execs net k ts → task_ok execs net' k ts.
Proof.
  intros Hp [H1o H2o H3o]. assert (Hs : ∀ q, q ∈ net' → q ∈ net) by (intros q Hq; rewrite Hp; by right). split.
  - rewrite Hp, filter_cons in H1o. case_decide; cbn in H1o; lia.
  - eauto.
  - intros He. by eapply H3o, engaged_sub.
Qed.

Lemma task_ok_consume execs net p net' k ts :
  net ≡ₚ p :: net' → concerns_task k ts p → task_ok execs net k ts →
  idle net' k ts ∧ expected ts p.
Proof.
  intros Hp Hc [H1o H2o _]. split.
  - apply idle_filter, length_zero_iff_nil. rewrite Hp, filter_cons, decide_True in H1o by done.
    cbn in H1o. lia.
  - apply H2o; [|done]. rewrite Hp. by left.
Qed.

Lemma task_ok_other execs net ps k ts :
  idle ps k ts → task_ok execs net k ts → task_ok execs (net ++ ps) k ts.
Proof.
  intros Hi [H1o H2o H3o]. pose proof Hi as Hf%idle_filter. unfold idle in Hi. rewrite Forall_forall in Hi. split.
  - by rewrite filter_app, Hf, app_nil_r.
  - intros p [Hp|Hp]%elem_of_app Hc; [by apply H2o|]. by apply Hi in Hp.
  - intros [?|(p & [Hp|Hp]%elem_of_app & Hc & ?)]; [apply H3o; by left|apply H3o; right; eauto|].
    by destruct (Hi _ Hp).
Qed.

Lemma task_ok_fresh execs net ps k ts :
  idle net k ts → (length (filter (concerns_task k ts) ps) ≤ 1)%nat →
  (∀ p, p ∈ ps → concerns_task k ts p → expected ts p) →
  (engaged ps k ts → serves execs k ts) → task_ok execs (net ++ ps) k ts.
Proof.
  intros Hi Hl Hx Hs. pose proof Hi as Hf%idle_filter. unfold idle in Hi. rewrite Forall_forall in Hi. split.
  - by rewrite filter_app, Hf.
  - intros p [Hp|Hp]%elem_of_app Hc; [|auto]. by destruct (Hi _ Hp).
  - intros [?|(p & [Hp|Hp]%elem_of_app & Hc & ?)]; [apply Hs; by left| |apply Hs; right; eauto].
    by destruct (Hi _ Hp).
Qed.

Lemma task_ok_execs execs execs' net k ts :
  (serves execs k ts → serves execs' k ts) → task_ok execs net k ts → task_ok execs' net k ts.
Proof. intros He [H1o H2o H3o]. split; auto. Qed.

(** ** The invariant of the task map, the executors and the packets *)

Definition disk_id (id : string) : Prop := ∃ rest, id = "ceph-mesos-disk-executor." +:+ rest.

(** The packets are about tasks that were launched. *)
Definition known (M : gmap string TaskState) (p : Packet) : Prop :=
  match p with
  | PLaunch task =>
      (ei_command_value (ti_executor task) = ceph_command ∧ is_Some (M !! ti_task_id task)) ∨
      (ei_command_value (ti_executor task) = disk_command ∧ disk_id (ti_task_id task))
  | PReport st => is_Some (M !! st_task_id st) ∨ disk_id (st_task_id st)
  | PToExecutor e s d =>
      d = lexical_to_string 20 ∨
      (∃ id, d = lexical_to_string 21 +:+ "." +:+ lexical_to_string id) ∧
      ∃ k ts, M !! k = Some ts ∧ ts_executorId ts = e ∧ ts_slaveId ts = s
  | PToScheduler _ _ => True
  end.

Definition entry_named (sm : StateMachine) (k : string) (ts : TaskState) : Prop :=
  ts_taskId ts = k ∧
  ∃ tok host slave stamp, k = task_id (ts_taskType ts) tok host slave ∧
    ts_executorId ts = executor_id (ts_taskType ts) tok stamp ∧ tok < index (counters (ts_taskType ts) sm).

Record order_inv (sm : StateMachine) (execs : Execs) (net : list Packet) : Prop := {
  oi_tasks k ts : sm_taskMap sm !! k = Some ts → task_ok execs net k ts;
  oi_named k ts : sm_taskMap sm !! k = Some ts → entry_named sm k ts;
  oi_unique k k' ts ts' : sm_taskMap sm !! k = Some ts → sm_taskMap sm !! k' = Some ts' →
    ts_executorId ts = ts_executorId ts' → k = k';
  oi_known : Forall (known (sm_taskMap sm)) net;
}.

Lemma executor_id_inj t t' k k' s s' : executor_id t k s = executor_id t' k' s' → t = t' ∧ k = k'.
Proof.
  unfold executor_id. intros E%(inj (String.append _)). revert E. rewrite !str_app_cons, !str_app_nil_l.
  intros [Et [Ek _]%split_unique]%split_unique; try by apply lexical_lacks.
  apply (inj lexical_to_string) in Et, Ek. split; [|done]. by destruct t, t'.
Qed.

Lemma task_id_not_disk t k h s : ¬ disk_id (task_id t k h s).
Proof. intros [rest E]. unfold task_id, createTaskName in E. by destruct t. Qed.

Lemma launch_data_not_register id :
  lexical_to_string 21 +:+ "." +:+ lexical_to_string id ≠ lexical_to_string 20.
Proof.
  intros E. assert (Hl : lacks "." (lexical_to_string 20) = true) by by apply lexical_lacks.
  rewrite <- E, !lacks_app in Hl. cbn in Hl. by rewrite andb_false_r in Hl.
Qed.

(** A packet concerns one task at most. *)
Lemma concerns_unique sm execs net k k' ts ts' p :
  order_inv sm execs net → sm_taskMap sm !! k = Some ts → sm_taskMap sm !! k' = Some ts' →
  concerns_task k ts p → concerns_task k' ts' p → k = k'.
Proof.
  intros Hi Hk Hk'. destruct p as [task|e s d|st|e d]; cbn; try congruence; [|done].
  intros (? & _) (? & _). eapply (oi_unique _ _ _ Hi); [done..|congruence].
Qed.

(** ** The invariant, step by step *)

Lemma order_inv_ext sm sm' execs net :
  sm_taskMap sm' = sm_taskMap sm → (∀ t, index (counters t sm) ≤ index (counters t sm')) →
  order_inv sm execs net → order_inv sm' execs net.
Proof.
  intros Em Ei [I1 I2 I3 I4]. split; rewrite Em; [done| |done..].
  intros k ts Hk. destruct (I2 k ts Hk) as (Hid & tok & h & s & st & E1 & E2 & Hlt).
  split; [done|]. exists tok, h, s, st. split_and!; [done..|]. specialize (Ei (ts_taskType ts)). lia.
Qed.

Lemma order_inv_drop sm execs net p net' :
  net ≡ₚ p :: net' → order_inv sm execs net → order_inv sm execs net'.
Proof.
  intros Hp [I1 I2 I3 I4]. split; [|done..|].
  - intros k ts Hk. eapply task_ok_drop; [exact Hp|by apply I1].
  - rewrite Hp in I4. by apply Forall_cons in I4 as [_ ?].
Qed.

(** Packets that concern no task. *)
Lemma order_inv_add sm execs net ps :
  Forall (known (sm_taskMap sm)) ps → (∀ k ts, sm_taskMap sm !! k = Some ts → idle ps k ts) →
  order_inv sm execs net → order_inv sm execs (net ++ ps).
Proof.
  intros Hps Hi [I1 I2 I3 I4]. split; [|done..|by apply Forall_app].
  intros k ts Hk. apply task_ok_other; [by apply Hi|by apply I1].
Qed.

Lemma order_inv_execs sm execs execs' net :
  (∀ k ts, sm_taskMap sm !! k = Some ts → serves execs k ts → serves execs' k ts) →
  order_inv sm execs net → order_inv sm execs' net.
Proof. intros He [I1 I2 I3 I4]. split; [|done..]. intros k ts Hk. eapply task_ok_execs; [by apply He|by apply I1]. Qed.

Lemma idle_tells e ms k ts : idle (PToScheduler e <$> ms) k ts.
Proof. apply Forall_fmap, Forall_true. intros m []. Qed.

Lemma known_tells M e ms : Forall (known M) (PToScheduler e <$> ms).
Proof. apply Forall_fmap, Forall_true. by intros m. Qed.

Lemma known_status M k ts q p : M !! k = Some ts → known M p → known (<[k := set_currentStatus q ts]> M) p.
Proof.
  intros Hk. assert (Hs : ∀ id, is_Some (M !! id) → is_Some (<[k := set_currentStatus q ts]> M !! id)).
  { intros id Hid. rewrite lookup_insert. by case_decide. }
  destruct p as [task|e s d|st|e d]; cbn; [|intros [?|(Hd & k' & ts' & Hk' & He & Hsl)]| |done].
  - intros [[? ?]|?]; [left|by right]. auto.
  - by left.
  - right. split; [done|]. destruct (decide (k = k')) as [->|Hne].
    + exists k', (set_currentStatus q ts). rewrite lookup_insert_eq. rewrite Hk in Hk'. by injection Hk' as <-.
    + exists k', ts'. by rewrite lookup_insert_ne.
  - intros [?|?]; [left; auto|by right].
Qed.

(** A task no packet concerns gets the status [q], and at most one packet [ps]. *)
Lemma order_inv_status sm sm' execs net k ts q ps :
  sm_taskMap sm !! k = Some ts → idle net k ts →
  sm_taskMap sm' = <[k := set_currentStatus q ts]> (sm_taskMap sm) →
  (∀ t, index (counters t sm') = index (counters t sm)) →
  (∀ k' ts', sm_taskMap sm !! k' = Some ts' → k' ≠ k → idle ps k' ts') →
  Forall (known (sm_taskMap sm')) ps → (length ps ≤ 1)%nat →
  Forall (expected (set_currentStatus q ts)) ps →
  (engaged ps k (set_currentStatus q ts) → serves execs k ts) →
  order_inv sm execs net → order_inv sm' execs (net ++ ps).
Proof.
  intros Hk Hi Em Ei Ho Hkn Hl Hx Hs [I1 I2 I3 I4]. split.
  - intros k' ts'. rewrite Em, lookup_insert. case_decide as Ek.
    + subst k'. intros [= <-]. apply task_ok_fresh; [done| | |done].
      * etrans; [apply length_filter|done].
      * rewrite Forall_forall in Hx. auto.
    + intros Hk'. apply task_ok_other; [by apply Ho|by apply I1].
  - intros k' ts'. rewrite Em, lookup_insert. case_decide as Ek; unfold entry_named.
    + subst k'. intros [= <-]. cbn. rewrite Ei. by apply I2.
    + intros Hk'. rewrite Ei. by apply I2.
  - assert (Hsame : ∀ j tj, sm_taskMap sm' !! j = Some tj →
      ∃ tj', sm_taskMap sm !! j = Some tj' ∧ ts_executorId tj' = ts_executorId tj).
    { intros j tj. rewrite Em, lookup_insert. case_decide; [subst j; intros [= <-]|]; eauto. }
    intros j j' tj tj' (uj & Hj & <-)%Hsame (uj' & Hj' & <-)%Hsame. by apply I3.
  - apply Forall_app. split; [|done]. rewrite Em. eapply Forall_impl; [exact I4|].
    intros p. by apply known_status.
Qed.

(** *** A launch: new ids *)

Lemma known_insert M k ts p : M !! k = None → known M p → known (<[k := ts]> M) p.
Proof.
  intros Hk. assert (Hs : ∀ j, is_Some (M !! j) → is_Some (<[k := ts]> M !! j)).
  { intros j Hj. rewrite lookup_insert. by case_decide. }
  destruct p as [task|e s d|st|e d]; cbn; [| | |done].
  - intros [[? ?]|?]; [left; auto|by right].
  - intros [?|(Hd & k' & ts' & Hk' & ?)]; [by left|right]. split; [done|]. exists k', ts'.
    by rewrite lookup_insert_ne by congruence.
  - intros [?|?]; [left; auto|by right].
Qed.

Lemma known_new M net k ts :
  M !! k = None → ¬ disk_id k → (∀ k' ts', M !! k' = Some ts' → ts_executorId ts' ≠ ts_executorId ts) →
  Forall (known M) net → idle net k ts.
Proof.
  intros Hf Hnd He Hn. eapply Forall_impl; [exact Hn|].
  intros [task|e s d|st|e d] Hp Hc; cbn in Hp, Hc; [..|done].
  - rewrite Hc, Hf in Hp. destruct Hp as [[_ [? ?]]|[_ ?]]; done.
  - destruct Hc as (-> & -> & Hd). destruct Hp as [?|(_ & k' & ts' & Hk' & E & _)]; [done|].
    by apply (He _ _ Hk').
  - rewrite Hc, Hf in Hp. by destruct Hp as [[? ?]|?].
Qed.

Lemma new_executor sm execs net t stamp k' ts' :
  order_inv sm execs net → sm_taskMap sm !! k' = Some ts' →
  ts_executorId ts' ≠ executor_id t (index (counters t sm)) stamp.
Proof.
  intros Hi Hk' E. destruct (oi_named _ _ _ Hi _ _ Hk') as (_ & tok & h & s & st & _ & E2 & Hlt).
  rewrite E2 in E. apply executor_id_inj in E as [Et Ek]. rewrite Et in Hlt. lia.
Qed.

Lemma new_id sm execs net t h s :
  order_inv sm execs net → sm_taskMap sm !! task_id t (index (counters t sm)) h s = None.
Proof.
  intros Hi. apply eq_None_not_Some. intros [ts Hts].
  destruct (oi_named _ _ _ Hi _ _ Hts) as (_ & tok & h' & s' & st & E1 & _ & Hlt).
  apply task_id_inj in E1 as [Et Ek]. rewrite <- Et in Hlt. lia.
Qed.

Lemma entry_named_launch sm k e t h s k' ts' :
  entry_named sm k' ts' → entry_named (addStagingTask k e t h s (on_counters t (add_index 1) sm)) k' ts'.
Proof.
  intros (? & tok & h' & s' & st & ? & ? & ?). split; [done|]. exists tok, h', s', st. split_and!; [done..|].
  unfold addStagingTask. autorewrite with sm. repeat case_decide; cbn; lia.
Qed.

(** A task is launched under a new id, with its packet. *)
Lemma order_inv_launch sm execs net t offer i task eid :
  let k := ti_task_id task in
  ceph_task offer t (index (counters t sm)) i task → eid = ei_executor_id (ti_executor task) →
  order_inv sm execs net →
  order_inv (addStagingTask k eid t (of_hostname offer) (of_slave_id offer) (on_counters t (add_index 1) sm))
    execs (net ++ [PLaunch task]).
Proof.
  intros k Ht -> Hi. set (sm' := addStagingTask _ _ _ _ _ _).
  set (ts := mkTaskState k (ei_executor_id (ti_executor task)) t (of_hostname offer) (of_slave_id offer) STAGING).
  assert (Em : sm_taskMap sm' = <[k := ts]> (sm_taskMap sm)) by done.
  destruct (ct_executor _ _ _ _ _ Ht) as [stamp Hex]. pose proof (ct_id _ _ _ _ _ Ht) as Hid.
  assert (Hf : sm_taskMap sm !! k = None) by (subst k; rewrite Hid; by eapply new_id).
  assert (Hfe : ∀ k' ts', sm_taskMap sm !! k' = Some ts' → ts_executorId ts' ≠ ts_executorId ts)
    by (cbn; rewrite Hex; intros k' ts'; by apply (new_executor _ execs net)).
  assert (Hnew : idle net k ts).
  { eapply known_new; [done| |exact Hfe|apply Hi]. subst k. rewrite Hid. apply task_id_not_disk. }
  destruct Hi as [I1 I2 I3 I4]. split.
  - intros j tj. rewrite Em, lookup_insert. case_decide as Ej; [subst j; intros [= <-]|intros Hj].
    + apply task_ok_fresh; [done|rewrite filter_cons; by case_decide|..].
      * intros p ->%list_elem_of_singleton _. split; [done|]. split; [apply (ct_slave _ _ _ _ _ Ht)|].
        unfold CephExec.task_type. by rewrite (ct_data _ _ _ _ _ Ht), CephExec.parse_data_eq.
      * by intros [?|(p & ->%list_elem_of_singleton & _ & ?)].
    + apply task_ok_other; [|by apply I1]. constructor; [|constructor]. exact Ej.
  - intros j tj. rewrite Em, lookup_insert.
    case_decide as Ej; [subst j; intros [= <-]|intros Hj; by apply entry_named_launch, I2].
    split; [done|]. eexists _, _, _, stamp. split_and!; [exact Hid|exact Hex|].
    subst sm'. unfold addStagingTask. cbn. autorewrite with sm. rewrite !decide_True by done. cbn. lia.
  - intros j j' tj tj'. rewrite Em, !lookup_insert. repeat case_decide; try congruence.
    + intros [= <-] Hj' E. by destruct (Hfe _ _ Hj').
    + intros Hj [= <-] E. by destruct (Hfe _ _ Hj).
    + by apply I3.
  - rewrite Em. apply Forall_app. split; [eapply Forall_impl; [exact I4|]; intros p; by apply known_insert|].
    constructor; [|constructor]. left. split; [apply Ht|]. by rewrite lookup_insert_eq.
Qed.

(** ** The scheduler's calls *)

Lemma calls_app (cs1 cs2 : list DriverCall) :
  (cs1 ++ cs2) ≫= call_packets = (cs1 ≫= call_packets) ++ (cs2 ≫= call_packets).
Proof. apply bind_app. Qed.

Lemma core_eq_order sm sm' execs net : core_eq sm sm' → order_inv sm execs net → order_inv sm' execs net.
Proof.
  intros Ec. apply order_inv_ext; [apply Ec|]. intros t. by rewrite (core_counters _ _ Ec).
Qed.

Lemma order_inv_disk sm execs net flags env offer a cs :
  disk_launch flags env offer a cs → order_inv sm execs net →
  order_inv sm execs (net ++ (cs ≫= call_packets)).
Proof.
  intros [->|(task & sm1 & -> & _ & Ht)] Hi; [by rewrite app_nil_r|]. cbn.
  assert (Hd : disk_id (ti_task_id task)) by apply (dt_id _ _ _ Ht).
  apply order_inv_add; [| |done].
  - constructor; [|constructor]. right. split; [apply Ht|done].
  - intros k ts Hk. constructor; [|constructor]. cbn. intros <-.
    destruct (oi_named _ _ _ Hi _ _ Hk) as (_ & tok & h & s & st & E & _).
    rewrite E in Hd. by apply task_id_not_disk in Hd.
Qed.

Lemma order_inv_register sm execs net t i cs :
  registers_osd t i cs → order_inv sm execs net → order_inv sm execs (net ++ (cs ≫= call_packets)).
Proof.
  unfold registers_osd. case_match; [|intros ->; by rewrite app_nil_r]. intros (e & s & ->) Hi. cbn.
  apply order_inv_add; [| |done].
  - constructor; [by left|constructor].
  - intros k ts _. constructor; [|constructor]. by intros (_ & _ & ?).
Qed.

Lemma order_inv_offer flags env l offer a a' l' execs net :
  offer_case flags env (sm_currentPhase (ag_stateMachine a)) l offer a a' l' → order_inv (ag_stateMachine a) execs net →
  ∃ cs, ag_calls a' = ag_calls a ++ cs ∧ order_inv (ag_stateMachine a') execs (net ++ (cs ≫= call_packets)).
Proof.
  intros [Hr E|cs t k Hd Qd|t sm Hm Ef|t sm Hm Hph Hp Ef|t i task eid cs sm Hm Hi Ht Hp Hr Ef Heid] Hinv.
  - subst a'. exists [declineOffer (of_id offer) (Some 86400)]. split; [done|]. cbn. by rewrite app_nil_r.
  - destruct Qd as [Qc _ _ Qk]. eexists. split; [exact Qk|]. rewrite calls_app. cbn. rewrite app_nil_r.
    eapply core_eq_order; [exact Qc|]. by eapply order_inv_disk.
  - destruct Ef as [Ec _ _ Ek]. eexists. split; [exact Ek|]. cbn. rewrite app_nil_r.
    eapply core_eq_order; [exact Ec|]. revert Hinv. apply order_inv_ext; [done|].
    intros u. autorewrite with sm. case_decide; cbn; lia.
  - destruct Ef as [Ec _ _ Ek]. assert (t = OSD) as -> by (by apply Hm).
    eexists. split; [exact Ek|]. cbn. rewrite app_nil_r.
    eapply core_eq_order; [exact Ec|]. revert Hinv. apply order_inv_ext; [done|].
    intros u. unfold decreaseOSDIndex. autorewrite with sm. case_decide; cbn; lia.
  - destruct Ef as [Ec _ _ Ek]. eexists. split; [exact Ek|].
    change (?c :: cs) with ([c] ++ cs). rewrite calls_app, app_assoc.
    eapply core_eq_order; [exact Ec|]. eapply order_inv_register; [exact Hr|]. cbn.
    by apply (order_inv_launch sm execs net t offer i task eid).
Qed.

Lemma order_inv_offers flags env offers l a a' l' execs net :
  foreach offers (handle_offer flags env (sm_currentPhase (ag_stateMachine a))) l a = (a', Ret l') → order_inv (ag_stateMachine a) execs net →
  ∃ cs, ag_calls a' = ag_calls a ++ cs ∧ order_inv (ag_stateMachine a') execs (net ++ (cs ≫= call_packets)).
Proof.
  revert l a net. induction offers as [|o offers IH]; intros l a net; cbn [foreach].
  - intros [-> ->]%mret_Ret Hi. exists []. rewrite !app_nil_r. done.
  - intros (a1 & l1 & Ho & Hl)%bind_Ret Hi. apply handle_offer_Ret in Ho.
    rewrite <- (offer_case_phase _ _ _ _ _ _ _ _ Ho) in Hl.
    destruct (order_inv_offer _ _ _ _ _ _ _ _ _ Ho Hi) as (cs1 & E1 & H1i).
    destruct (IH _ _ _ Hl H1i) as (cs2 & E2 & H2i). exists (cs1 ++ cs2).
    split; [by rewrite E2, E1, app_assoc|by rewrite calls_app, app_assoc].
Qed.

(** *** The ids handed out *)

Lemma waiting_idle execs net k ts :
  ts_currentStatus ts = WAITING_OSDID → task_ok execs net k ts → idle net k ts.
Proof.
  intros Hq [_ Hx _]. apply Forall_forall. intros p Hp Hc. specialize (Hx p Hp Hc).
  unfold expected in Hx. by rewrite Hq in Hx.
Qed.

Lemma waiting_NoDup sm : keyed sm → NoDup (ts_taskId <$> getWaitingOSDTask sm).
Proof.
  intros Hk. unfold getWaitingOSDTask.
  assert (Hn : NoDup (ts_taskId <$> (hash_iter (sm_taskMap sm)).*2)).
  { replace (ts_taskId <$> (hash_iter (sm_taskMap sm)).*2) with (hash_iter (sm_taskMap sm)).*1.
    - rewrite hash_iter_perm. apply NoDup_fst_map_to_list.
    - rewrite <- list_fmap_compose. apply list_fmap_ext. intros i [k ts] Hi. cbn.
      apply list_elem_of_lookup_2, elem_of_hash_iter in Hi. by rewrite (Hk _ _ Hi). }
  revert Hn. generalize ((hash_iter (sm_taskMap sm)).*2). intros l.
  intros Hn. eapply sublist_NoDup; [exact Hn|]. apply fmap_sublist, sublist_filter.
Qed.

Lemma order_inv_send t id sm execs net :
  sm_taskMap sm !! ts_taskId t = Some t → ts_currentStatus t = WAITING_OSDID →
  order_inv sm execs net →
  order_inv (updateTaskToStarting (ts_taskId t) sm) execs (net ++ call_packets (launch_osd_message t id)).
Proof.
  intros Ht Hq Hi. pose proof (oi_tasks _ _ _ Hi _ _ Ht) as Hok.
  destruct (updateTaskTo_known ToStarting _ _ _ Ht) as [Em Ec].
  apply (order_inv_status sm _ execs net (ts_taskId t) t STARTING); [done|by eapply waiting_idle|exact Em|..].
  - intros u. apply (updateTaskTo_index ToStarting).
  - intros k' ts' Hk' Hne. constructor; [|constructor]. intros Hc. apply Hne. symmetry.
    eapply concerns_unique; [done|exact Ht|done| |exact Hc].
    split; [done|]. split; [done|apply launch_data_not_register].
  - constructor; [|constructor]. right. split; [by exists id|].
    exists (ts_taskId t), (set_currentStatus STARTING t). cbn [updateTaskTo update_status] in Em.
    by rewrite Em, lookup_insert_eq.
  - done.
  - by constructor.
  - intros _. apply (to_serves _ _ _ _ Hok). by left.
  - done.
Qed.

Lemma order_inv_assign tasks ids sm execs net :
  Forall (λ t, sm_taskMap sm !! ts_taskId t = Some t ∧ ts_currentStatus t = WAITING_OSDID) tasks →
  NoDup (ts_taskId <$> tasks) → order_inv sm execs net →
  order_inv (starting_all (take (length ids) tasks) sm) execs
    (net ++ (zip_with launch_osd_message tasks ids ≫= call_packets)).
Proof.
  revert ids sm net. induction tasks as [|t tasks IH]; intros [|id ids] sm net Hw Hn Hi;
    try (cbn; by rewrite app_nil_r).
  apply Forall_cons in Hw as [[Ht Hq] Hw]. rewrite fmap_cons in Hn. apply NoDup_cons in Hn as [Hnt Hn].
  cbn [zip_with length take]. change (starting_all (t :: ?l) sm) with (starting_all l (updateTaskToStarting (ts_taskId t) sm)).
  rewrite bind_cons, app_assoc. apply IH; [|done|by apply order_inv_send].
  apply Forall_forall. intros t' Ht'. rewrite Forall_forall in Hw. destruct (Hw _ Ht') as [El Eq].
  rewrite lookup_updateTaskToStarting, El, decide_False; [done|].
  intros E. apply Hnt. rewrite <- E. by apply list_elem_of_fmap_2.
Qed.

Lemma order_inv_keyed sm execs net : order_inv sm execs net → keyed sm.
Proof. intros Hi k ts Hk. apply (oi_named _ _ _ Hi _ _ Hk). Qed.

Lemma order_inv_assigned a execs net :
  let tasks := getWaitingOSDTask (ag_stateMachine a) in
  order_inv (ag_stateMachine a) execs net →
  order_inv (ag_stateMachine (assigned tasks a)) execs
    (net ++ (zip_with launch_osd_message tasks (reverse (sm_pendingOSDID (ag_stateMachine a))) ≫= call_packets)).
Proof.
  intros tasks Hi. pose proof (order_inv_keyed _ _ _ Hi) as Hk.
  pose proof (order_inv_assign tasks (reverse (sm_pendingOSDID (ag_stateMachine a))) (ag_stateMachine a) execs net) as Ha.
  rewrite length_reverse in Ha. eapply order_inv_ext; [..|apply Ha; [|by apply waiting_NoDup|exact Hi]].
  - done.
  - intros t. unfold assigned. cbn [ag_stateMachine]. by rewrite counters_set_pendingOSDID.
  - apply Forall_forall. intros t (Hw & k & Ek)%elem_of_waiting. rewrite (Hk _ _ Ek). split; [done|].
    unfold is_waiting_osd in Hw. by apply andb_true_iff in Hw as [_ Hw%bool_decide_eq_true].
Qed.

(** ** Reports *)

(** No report of a failure meets a task that waits for its OSD id, or was given it. *)
Definition no_late_failure (sm : StateMachine) (st : TaskStatus) : Prop :=
  st_state st = TASK_FAILED → ∀ ts, sm_taskMap sm !! st_task_id st = Some ts →
    ts_currentStatus ts ≠ WAITING_OSDID ∧ ts_currentStatus ts ≠ STARTING.

Lemma order_inv_regular sm execs net st :
  PReport st ∈ net → no_late_failure sm st → order_inv sm execs net → report_regular sm st.
Proof.
  intros Hst Hl Hi. split; [intros u ts Hu Hts|intros Es ts Hts].
  2: { pose proof (to_expected _ _ _ _ (oi_tasks _ _ _ Hi _ _ Hts) _ Hst eq_refl) as Hx. unfold expected in Hx.
       rewrite Es in Hx. destruct (ts_currentStatus ts); try done; [by apply Hx|by destruct Hx]. }
  pose proof (to_expected _ _ _ _ (oi_tasks _ _ _ Hi _ _ Hts) _ Hst eq_refl) as Hx.
  specialize (λ E, Hl E _ Hts). unfold expected in Hx.
  destruct (ts_currentStatus ts); try done; destruct (st_state st); cbn in Hu;
    (try (injection Hu as <-)); cbn; try done; destruct (Hl eq_refl); done.
Qed.

Lemma order_inv_report u sm execs net st net' :
  net ≡ₚ PReport st :: net' → report_update (st_state st) = Some u → order_inv sm execs net →
  order_inv (updateTaskTo u (st_task_id st) sm) execs net'.
Proof.
  intros Hp Hu Hi. pose proof (order_inv_drop _ _ _ _ _ Hp Hi) as Hi'.
  destruct (sm_taskMap sm !! st_task_id st) as [ts|] eqn:Hts; [|by rewrite updateTaskTo_unknown].
  pose proof (oi_tasks _ _ _ Hi _ _ Hts) as Hok.
  destruct (task_ok_consume _ _ _ _ _ _ Hp (eq_refl : concerns_task _ ts (PReport st)) Hok) as [Hidle _].
  destruct (updateTaskTo_known u _ _ _ Hts) as [Em _]. rewrite <- (app_nil_r net').
  apply (order_inv_status sm _ execs net' (st_task_id st) ts (update_status u)); [done..| | | |cbn; lia|constructor| |done].
  - intros t. apply updateTaskTo_index.
  - constructor.
  - constructor.
  - intros [Eq|(p & Hin & _)]; [|by apply not_elem_of_nil in Hin].
    apply (to_serves _ _ _ _ Hok). right. exists (PReport st). split; [rewrite Hp; by left|]. split; [done|].
    destruct u; cbn in Eq; try done. cbn. by destruct (st_state st).
Qed.

(** ** The executors *)

Lemma order_inv_run sm execs net k ts x' (o : outcome unit) l e ms :
  order_inv sm execs net → sm_taskMap sm !! k = Some ts → idle net k ts →
  (l = [] ∨ ∃ st, l = [st] ∧ st_task_id st = k ∧ expected ts (PReport st)) →
  (o = Ret tt → engaged (PReport <$> l) k ts → cx_myTaskId x' = k) →
  let key := (ts_executorId ts, ts_slaveId ts) in
  order_inv sm (match o with Ret _ => <[key := x']> execs | _ => delete key execs end)
    (net ++ (PReport <$> l) ++ (PToScheduler e <$> ms)).
Proof.
  intros Hi Hts Hidle Hl Hx key. rewrite app_assoc.
  apply order_inv_add; [apply known_tells|intros; apply idle_tells|].
  set (execs' := match o with Ret _ => _ | _ => _ end).
  assert (Hkey : ∀ key', key' ≠ key → execs' !! key' = execs !! key').
  { intros key' Hne. subst execs'. destruct o; rewrite ?lookup_insert_ne, ?lookup_delete_ne; done. }
  assert (Hlen : (length (filter (concerns_task k ts) (PReport <$> l)) ≤ 1)%nat).
  { etrans; [apply length_filter|]. rewrite length_fmap. destruct Hl as [->|(st & -> & _)]; cbn; lia. }
  assert (Hof : ∀ p, p ∈ PReport <$> l → ∃ st, p = PReport st ∧ st_task_id st = k ∧ expected ts (PReport st)).
  { intros p (st & -> & Hst)%list_elem_of_fmap. destruct Hl as [->|(st' & -> & Hid)]; [by apply not_elem_of_nil in Hst|].
    apply list_elem_of_singleton in Hst as ->. by exists st'. }
  destruct Hi as [I1 I2 I3 I4]. split; [|done..|].
  - intros k' ts' Hk'. destruct (decide (k' = k)) as [->|Hne].
    + rewrite Hts in Hk'. injection Hk' as <-. apply task_ok_fresh; [done|done| |].
      * intros p (st & -> & _ & Hst)%Hof _. done.
      * intros He x Hex. subst execs'. fold key in Hex. destruct o as [[]| | |].
        -- rewrite lookup_insert_eq in Hex. injection Hex as <-. by apply Hx.
        -- by rewrite lookup_delete_eq in Hex.
        -- by rewrite lookup_delete_eq in Hex.
        -- by rewrite lookup_delete_eq in Hex.
    + apply task_ok_other; [apply Forall_forall; intros p (st & -> & Hid & _)%Hof; cbn; congruence|].
      eapply task_ok_execs; [|by apply I1]. intros Hs x. rewrite Hkey; [apply Hs|].
      intros [= E _]. apply Hne. by eapply I3.
  - apply Forall_app. split; [done|]. apply Forall_forall. intros p (st & -> & Hid & _)%Hof. left. by rewrite Hid, Hts.
Qed.
End Tasks.

(** ** The worlds *)

Section Worlds.
Context `{LexicalCast, Yaml, Indeterminate, HashOrder, MesosResources, JsonCpp}.
Context (flags : Flags) (slave_host : string → string).

Definition world_inv (w : World) : Prop := order_inv (ag_stateMachine (sys_agent (w_sys w))) (w_execs w) (w_net w).

(** Every report that is delivered is in time; the rest is free. *)
Definition timely_world : Assumptions := mkAssumptions (λ _, True) (λ _, True) no_late_failure.

Lemma world_known w p net :
  world_inv w → w_net w ≡ₚ p :: net → known (sm_taskMap (ag_stateMachine (sys_agent (w_sys w)))) p.
Proof. intros Hi Hp. pose proof (oi_known _ _ _ Hi) as Hk. rewrite Hp in Hk. by apply Forall_cons in Hk as [? _]. Qed.

Lemma schedule_world w s net cs :
  ag_calls (sys_agent s) = ag_calls (sys_agent (w_sys w)) ++ cs →
  order_inv (ag_stateMachine (sys_agent s)) (w_execs w) (net ++ (cs ≫= call_packets)) →
  world_inv (schedule w s net).
Proof. intros E Hi. by rewrite (schedule_net _ _ _ _ E). Qed.

Lemma offers_world env offers w a' :
  world_inv w → resourceOffers flags env offers (sys_agent (w_sys w)) = (a', Ret tt) →
  ∃ cs, ag_calls a' = ag_calls (sys_agent (w_sys w)) ++ cs ∧
    order_inv (ag_stateMachine a') (w_execs w) (w_net w ++ (cs ≫= call_packets)).
Proof.
  intros Hi (l & E)%resourceOffers_Ret. apply order_inv_assigned in Hi.
  destruct (order_inv_offers _ _ _ _ _ _ _ _ _ E Hi) as (cs & Ec & Hi'). eexists. split.
  - rewrite Ec. cbn [assigned ag_calls]. by rewrite <- app_assoc.
  - by rewrite calls_app, app_assoc.
Qed.

Lemma report_world w status net a' :
  world_inv w → w_net w ≡ₚ PReport status :: net → statusUpdate status (sys_agent (w_sys w)) = (a', Ret tt) →
  ag_calls a' = ag_calls (sys_agent (w_sys w)) ++ [] ∧ order_inv (ag_stateMachine a') (w_execs w) net.
Proof.
  intros Hi Hp E. split; [by eapply statusUpdate_calls|].
  apply statusUpdate_Ret in E as [(_ & [Ec _ _ _])|(u & Hu & [Ec _ _ _])];
    (eapply core_eq_order; [exact Ec|]); [by eapply order_inv_drop|by eapply order_inv_report].
Qed.

Lemma message_world e d w a' :
  frameworkMessage e d (sys_agent (w_sys w)) = (a', Ret tt) →
  sm_taskMap (ag_stateMachine a') = sm_taskMap (ag_stateMachine (sys_agent (w_sys w))) ∧
  ∀ t, counters t (ag_stateMachine a') = counters t (ag_stateMachine (sys_agent (w_sys w))).
Proof. intros [->|[id ->]]%frameworkMessage_Ret; [done|]. split; [done|]. intros t. apply counters_set_pendingOSDID. Qed.

Lemma launch_world (h : Host) polls w task net x' o :
  let e := task_executor task in let s := ti_slave_id task in
  world_inv w → w_net w ≡ₚ PLaunch task :: net → ei_command_value (ti_executor task) = ceph_command →
  CephExec.launchTask polls task (executor_for slave_host w e s) = (x', o) →
  world_inv (execute w e s (executor_for slave_host w e s) x' o net).
Proof.
  intros e s Hi Hp Hc E. pose proof (order_inv_drop _ _ _ _ _ Hp Hi) as Hi'.
  pose proof (world_known _ _ _ Hi Hp) as Hk.
  destruct Hk as [[_ [ts Hts]]|[Hd _]]; [|by rewrite Hc in Hd].
  destruct (task_ok_consume _ _ _ _ _ _ Hp (eq_refl : concerns_task _ ts (PLaunch task)) (oi_tasks _ _ _ Hi _ _ Hts))
    as [Hidle Hx]. unfold expected in Hx. destruct (ts_currentStatus ts) eqn:Eq; try done.
  destruct Hx as (He & Hs & Hty). apply launchTask_run in E as [Et Es]. unfold world_inv, execute, effect_packets. cbn.
  fold (run_sent (executor_for slave_host w e s) x'). fold (run_told (executor_for slave_host w e s) x').
  subst e s. rewrite He, Hs in *.
  apply (order_inv_run _ _ _ (ti_task_id task) ts); [done..| |].
  - destruct o; [right|by left..]. destruct Es as (st & ty & -> & Hid & Ety & [_ Hst] & _). exists st.
    split; [done|]. split; [done|]. unfold expected. rewrite Eq. rewrite Hty in Ety. injection Ety as <-.
    destruct Hst as [->| ->]; [by split; [auto|]|]. destruct (ts_taskType ts); cbn; (split; [auto|done]).
  - intros ->. destruct Es as (st & ty & -> & Hid & _ & _ & Hw). intros [Hq|(p & Hin & _ & Ha)]; [by rewrite Eq in Hq|].
    apply list_elem_of_singleton in Hin as ->. cbn in Ha. destruct Hw as [Hw|Hw]; [by rewrite Hw in Ha|done].
Qed.

Lemma register_world (h : Host) polls w e s net x x' o :
  world_inv w → w_net w ≡ₚ PToExecutor e s (lexical_to_string 20) :: net → w_execs w !! (e, s) = Some x →
  CephExec.frameworkMessage polls (lexical_to_string 20) x = (x', o) → world_inv (execute w e s x x' o net).
Proof.
  intros Hi Hp Hx E. apply register_message_run in E as (-> & Em & Es & Et).
  unfold world_inv, execute, effect_packets. cbn. fold (run_sent x x') (run_told x x'). rewrite Es, Et.
  apply order_inv_add; [apply known_tells|intros; apply idle_tells|].
  apply (order_inv_execs _ (w_execs w)); [|by eapply order_inv_drop].
  intros k ts _ Hs y. rewrite lookup_insert. case_decide as Ek; [|apply Hs].
  intros [= <-]. rewrite Em. apply Hs. by rewrite <- Ek.
Qed.

Lemma launch_message_world (h : Host) polls w e s id net x x' o :
  let d := lexical_to_string 21 +:+ "." +:+ lexical_to_string id in
  world_inv w → w_net w ≡ₚ PToExecutor e s d :: net → w_execs w !! (e, s) = Some x →
  CephExec.frameworkMessage polls d x = (x', o) → world_inv (execute w e s x x' o net).
Proof.
  intros d Hi Hp Hx E. pose proof (order_inv_drop _ _ _ _ _ Hp Hi) as Hi'.
  pose proof (world_known _ _ _ Hi Hp) as Hk.
  destruct Hk as [Hd|(_ & k & ts & Hts & <- & <-)]; [by apply launch_data_not_register in Hd|].
  pose proof (oi_tasks _ _ _ Hi _ _ Hts) as Hok.
  assert (Hc : concerns_task k ts (PToExecutor (ts_executorId ts) (ts_slaveId ts) d))
    by (split; [done|]; split; [done|apply launch_data_not_register]).
  destruct (task_ok_consume _ _ _ _ _ _ Hp Hc Hok) as [Hidle He].
  unfold expected in He. destruct (ts_currentStatus ts) eqn:Eq; try done.
  assert (Hm : cx_myTaskId x = k).
  { apply (to_serves _ _ _ _ Hok); [|done]. right. eexists. split; [rewrite Hp; by left|]. by split. }
  apply launch_message_run in E as [_ Es]. unfold world_inv, execute, effect_packets. cbn. fold (run_sent x x').
  apply (order_inv_run _ _ _ k ts); [done..| |].
  - destruct o; [right|by left..]. destruct Es as (st & -> & Hst & Hid). exists st. split; [done|].
    split; [congruence|]. unfold expected. rewrite Eq. destruct Hst as [-> | ->]; auto.
  - intros ->. destruct Es as (st & -> & Hst & _). intros [Hq|(p & Hin & _ & Ha)]; [by rewrite Eq in Hq|].
    apply list_elem_of_singleton in Hin as ->. cbn in Ha. by destruct Hst as [-> | ->].
Qed.

Lemma disk_world (h : Host) w task net x' o :
  world_inv w → w_net w ≡ₚ PLaunch task :: net → ei_command_value (ti_executor task) = disk_command →
  disk_run slave_host task = (x', o) →
  world_inv (mkWorld _ (w_sys w) (w_execs w) (net ++ effect_packets (task_executor task) (DiskExec.dx_trace x'))).
Proof.
  intros Hi Hp Hc E. pose proof (world_known _ _ _ Hi Hp) as Hk.
  destruct Hk as [[Hd _]|[_ Hd]]; [by rewrite Hc in Hd|].
  pose proof (DiskExec.disk_run_ids (ti_task_id task) (slave_host (ti_slave_id task)) task eq_refl) as Hst.
  unfold disk_run in E. rewrite E in Hst. unfold DiskExec.dx_ids in Hst. cbn [fst] in Hst. rewrite Forall_forall in Hst.
  unfold world_inv, effect_packets. cbn. rewrite app_assoc.
  apply order_inv_add; [apply known_tells|intros; apply idle_tells|].
  apply order_inv_add; [| |by eapply order_inv_drop].
  - apply Forall_fmap, Forall_forall. intros st Hin. right. by rewrite (Hst _ Hin).
  - intros k ts Hts. apply Forall_fmap, Forall_forall. intros st Hin Heq. cbn in Heq. rewrite (Hst _ Hin) in Heq.
    destruct (oi_named _ _ _ Hi _ _ Hts) as (_ & tok & h' & s & stamp & Ek & _).
    rewrite Heq, Ek in Hd. by apply task_id_not_disk in Hd.
Qed.

Lemma wstep_world_inv A w w' : wstep flags slave_host A w w' → world_inv w → world_inv w'.
Proof.
  intros [env offers a' He Ho E|data n p pending Hacc E|status net a' Hp Hok E|e d net a' Hp E
    |h polls task net x' o Ah Hp Hc e s E|h task net x' o Ah Hp Hc E|h polls e s d net x x' o Ah Hp Hx E|p net Hp] Hi.
  - destruct (offers_world _ _ _ _ Hi E) as (cs & Ec & Hi'). by apply (schedule_world _ _ _ cs).
  - apply (schedule_world _ _ _ []); [by rewrite app_nil_r|]. cbn. by rewrite app_nil_r.
  - destruct (report_world _ _ _ _ Hi Hp E) as [Ec Hi']. apply (schedule_world _ _ _ []); [done|]. cbn. by rewrite app_nil_r.
  - apply (schedule_world _ _ _ []); [by eapply frameworkMessage_calls|]. cbn. rewrite app_nil_r.
    destruct (message_world _ _ _ _ E) as [Em Ec]. eapply order_inv_ext; [exact Em| |by eapply order_inv_drop].
    intros t. by rewrite Ec.
  - by eapply launch_world.
  - by eapply disk_world.
  - destruct (world_known _ _ _ Hi Hp) as [->|([id ->] & _)]; [by eapply register_world|by eapply launch_message_world].
  - by eapply order_inv_drop.
Qed.

Lemma wstep_regular A w w' :
  (∀ sm st, as_report A sm st → no_late_failure sm st) →
  world_inv w → wstep flags slave_host A w w' → rtc (step flags report_regular) (w_sys w) (w_sys w').
Proof.
  intros Hl Hi [env offers a' He Ho E|data n p pending Hacc E|status net a' Hp Hok E|e d net a' Hp E| | | |];
    try done; apply rtc_once; [by eapply S_offers|by eapply S_event| |by eapply S_message].
  eapply S_report; [|exact E]. eapply order_inv_regular; [|by apply Hl|exact Hi]. rewrite Hp. by left.
Qed.

Lemma winitial_inv cfg : world_inv (winitial cfg).
Proof. split; [by intros k ts ?..|constructor]. Qed.

Lemma wreachable_inv A cfg w : wreachable flags slave_host A cfg w → world_inv w.
Proof.
  intros Hr. pose proof (winitial_inv cfg) as Hi. revert Hi. induction Hr; eauto using wstep_world_inv.
Qed.

Lemma wreachable_regular A cfg w :
  (∀ sm st, as_report A sm st → no_late_failure sm st) → wreachable flags slave_host A cfg w →
  regular flags cfg (w_sys w).
Proof.
  intros Hl Hr. unfold regular. change (initial cfg) with (w_sys (winitial cfg)). pose proof (winitial_inv cfg) as Hi. revert Hi.
  induction Hr as [w0|w0 w1 w2 Hs _ IH]; [done|]. intros Hi.
  etrans; [by eapply wstep_regular|]. by eapply IH, wstep_world_inv.
Qed.
End Worlds.

(** ** Properties *)

Section Properties.
Context `{LexicalCast, Yaml, Indeterminate, HashOrder, MesosResources, JsonCpp}.
Context (flags : Flags) (slave_host : string → string).

(** C3. The executors keep the order the counters need.  In every world the
    scheduler reaches among its executors, with packets delivered in any order
    or lost, at most one packet in transit concerns a task, and it is one the
    task's status expects: its launch or a first report while it is STAGING, none
    while it waits for its OSD id, the id or a last report while it is STARTING,
    and none after.  So, when no OSD fails after it asked for its id, the run of
    the scheduler is a regular run of [Cluster]: every report is one the counters
    account for, and only OSDs announce that they start. *)
Theorem worlds_are_regular (A : Assumptions) (cfg : Config) (w : World) :
  wreachable flags slave_host A cfg w →
  (∀ k ts, sm_taskMap (ag_stateMachine (sys_agent (w_sys w))) !! k = Some ts →
     (length (filter (concerns k (ts_executorId ts) (ts_slaveId ts)) (w_net w)) ≤ 1)%nat ∧
     ∀ p, p ∈ w_net w → concerns k (ts_executorId ts) (ts_slaveId ts) p → expected ts p) ∧
  ((∀ sm st, as_report A sm st → no_late_failure sm st) → regular flags cfg (w_sys w)).
Proof.
  intros Hr. split; [|intros Hl; by eapply wreachable_regular].
  intros k ts Hts. destruct (oi_tasks _ _ _ (wreachable_inv _ _ _ _ _ Hr) _ _ Hts) as [H1t H2t _]. done.
Qed.
End Properties.

#[local] Existing Instances DecimalCast.cast FlatYaml.yaml SomeValues.indet SomeOrder.order
  ScalarResources.resources ToyJson.json.

(** The whole bootstrap, executors included, is regular; one MON, three OSDs and
    one RADOSGW run. *)
Lemma worlds_are_regular_witness :
  regular default_Flags sample_Config (w_sys SampleWorld.final) ∧
  (λ t, num_running t (ag_stateMachine (sys_agent (w_sys SampleWorld.final)))) <$> [MON; OSD; RADOSGW] = [1; 3; 1].
Proof.
  split; [|vm_compute; reflexivity].
  refine (proj2 (worlds_are_regular default_Flags SampleWorld.slave_host timely_world sample_Config
    SampleWorld.final _) (λ _ _ Hl, Hl)).
  assert (Hr : ∀ sm st, SampleWorld.no_failure sm st = true → no_late_failure sm st).
  { intros sm st Hf E. unfold SampleWorld.no_failure in Hf. by rewrite E in Hf. }
  unfold wreachable. etrans; [exact (SampleWorld.play_steps timely_world _ _ _ I I Hr SampleWorld.osds_offered_plays)|].
  exact (SampleWorld.play_steps timely_world _ _ _ I I Hr SampleWorld.final_plays).
Defined.
