(* ===== verification/HealthyHost.v ===== *)
(** * Hosts on which the executors succeed

    What a host must answer for a launch of the Ceph executor to report the
    state its type calls for, and for the disk executor to report its devices:
    the commands whose status is looked at succeed, the addresses can be read,
    and [ceph osd create] and [wc -l] print numbers. *)

From S2P Require Import Prelude StringUtil CephTypes ConfigFile HostConfigs TaskMachine FlexUp Mesos Agent HostInvariant Cluster Executor Network Protocol CephExec Shell Distribution.
From S2P Require DiskExec.
Open Scope Z_scope.

(** A command that starts a container of the name [c]. *)
Definition names_container (cmd c : string) : Prop := ∃ pre post, cmd = pre +:+ " --name " +:+ c +:+ post.

Section Healthy.
Context `{LexicalCast, Indeterminate, MesosResources, h : Host}.

Definition image_cmd : string := "docker images|grep ceph/daemon > /dev/null 2>&1;echo $?".
Definition cwd : string := default "" host_getcwd.

(** The place of an executor: its configuration under /root, its sandbox. *)
Definition placed (x : CephExecutor) : Prop := cx_root x = "/root" ∧ cx_sandbox x = cwd.

(** [mgmt] is the management network of the host's configuration. *)
Record healthy (mgmt : string) : Prop := {
  hh_home past : shell_result (host_popen past "echo ~") ≠ "";
  hh_directory past :
    shell_result (host_popen past test_text) = "0" ∨
    shell_result (host_popen (past ++ [RunCommand test_text]) create_text) = "0";
  hh_copy past : shell_result (host_popen past (copy_text cwd)) = "0";
  hh_image past : shell_result (host_popen past image_cmd) = "0";
  hh_fork past : host_fork past ≠ -1;
  hh_container past cmd c : names_container cmd c →
    let past1 := past ++ [Spawn "docker" (explode_argv cmd " ")] in
    shell_result (host_popen past1 (docker_ps_cmd c)) = "0" ∧
    ∀ timeout, shell_result (host_popen (past1 ++ [RunCommand (docker_ps_cmd c)]) (mon_stat_cmd c timeout)) = "0";
  hh_addresses past :
    Forall (λ ip, ∃ b, matchIPToCIDR ip mgmt = Ret b) (explode (shell_result (host_popen past "hostname -I")) " ");
  hh_osd_ids : numeric_host h;
  hh_counts past dev pattern :
    ∃ n, lexical_to_int (shell_result (host_popen past (DiskExec.count_cmd dev pattern))) = Ret n;
}.

(** ** Methods that lead to a report *)

(** The run ends by sending [st]. *)
Definition ends (st : TaskStatus) (u : unit) (x : CephExecutor) : Prop :=
  ∃ y, x = cx_add_effect (SendStatusUpdate st) y.

(** What the methods keep: the place and the network of the executor. *)
Definition located (mgmt : string) (x : CephExecutor) : Prop := placed x ∧ cx_mgmtNIC x = mgmt.

Lemma leads_sh P cmd :
  keeps P (sh cmd) → leads P (sh cmd) (λ r x, P x ∧ ∃ past, r = shell_result (host_popen past cmd)).
Proof. intros Hk x Hx. eexists _, _. split; [reflexivity|]. split; [by apply (Hk x)|by eexists]. Qed.

Lemma leads_send P state message taskId :
  leads P (send_status state message taskId) (ends (mkTaskStatus taskId state message)).
Proof. intros x Hx. eexists _, tt. split; [reflexivity|]. by exists x. Qed.

Lemma succeeds_eq cmd (x : CephExecutor) :
  succeeds cmd x =
    (cx_add_effect (RunCommand cmd) x, Ret (bool_decide ("0" = shell_result (host_popen (trace x) cmd)))).
Proof. unfold succeeds, sh. by rewrite (bind_eq _ _ _ _ _ (runShellCommand_eq cmd x)). Qed.

Lemma leads_succeeds P cmd :
  keeps P (sh cmd) → (∀ past, shell_result (host_popen past cmd) = "0") →
  leads P (succeeds cmd) (λ b x, P x ∧ b = true).
Proof.
  intros Hk Ha. eapply leads_bind; [by apply leads_sh|]. intros r. apply leads_mret.
  intros x [Hx [past ->]]. split; [done|]. by rewrite Ha.
Qed.

Context (mgmt : string) (HH : healthy mgmt) (n : nat).

#[local] Abbreviation polls := (S n).

Lemma leads_spawn cmd c P :
  names_container cmd c →
  leads P (spawn "docker" cmd) (λ _ x, ∃ past, cx_trace x = past ++ [Spawn "docker" (explode_argv cmd " ")]).
Proof using HH.
  intros (pre & post & Ec) x _. unfold spawn. rewrite (bind_eq _ _ x x (trace x)) by done.
  rewrite (proj2 (Z.eqb_neq _ _)) by apply (hh_fork _ HH).
  rewrite decide_False by (rewrite Ec; by destruct pre). eexists _, _. split; [reflexivity|]. by eexists.
Qed.

Lemma leads_block cmd c timeout seconds :
  names_container cmd c → lexical_to_int timeout = Ret seconds → 0 < seconds →
  leads (λ x, ∃ past, cx_trace x = past ++ [Spawn "docker" (explode_argv cmd " ")])
    (block_until_started polls c timeout) (λ b _, True ∧ b = true).
Proof using HH.
  intros Hn Et Hs x [past Ex]. destruct (hh_container _ HH past cmd c Hn) as [Hp Hm]. cbn zeta in Hp, Hm.
  rewrite <- Ex in Hp, Hm. unfold block_until_started.
  rewrite (bind_eq _ _ x x (host_time (trace x))) by done.
  rewrite (bind_eq _ _ x x seconds) by (unfold lift; by rewrite Et). cbn zeta.
  set (x1 := cx_add_effect (RunCommand (docker_ps_cmd c)) x).
  rewrite (bind_eq _ _ x x1 "0").
  2: { rewrite poll_loop_S by lia. unfold shown, answer. cbn [trace CephExecutor_traced]. rewrite Hp. done. }
  rewrite decide_False by (intros Hf; by apply Hf).
  unfold sh. rewrite (bind_eq _ _ _ _ _ (runShellCommand_eq _ x1)). fold (mon_stat_cmd c timeout).
  unfold answer. change (trace x1) with (cx_trace x ++ [RunCommand (docker_ps_cmd c)]). rewrite Hm.
  rewrite decide_False by (intros Hf; by apply Hf). by eexists _, _.
Qed.

(** ** The start of a container *)

Lemma names_container_mon c e : names_container ("docker run --rm --net=host --privileged --name " +:+ c +:+ e) c.
Proof. exists "docker run --rm --net=host --privileged", e. by rewrite !str_app_assoc. Qed.
Lemma names_container_osd c e :
  names_container ("docker run --rm --pid=host --net=host --privileged --name " +:+ c +:+ e) c.
Proof. exists "docker run --rm --pid=host --net=host --privileged", e. by rewrite !str_app_assoc. Qed.

Lemma lexical_seconds (m : Z) : 0 ≤ m < 100 → lexical_to_int (small_decimal m) = Ret m.
Proof. intros Hm. rewrite <- lexical_small by done. apply lexical_roundtrip. split; lia. Qed.

(** A container that starts is seen to: the parent's part after the fork. *)
Lemma leads_started {A} P cmd c timeout seconds (k : bool → ST CephExecutor A) Q :
  names_container cmd c → lexical_to_int timeout = Ret seconds → 0 < seconds → leads (λ _, True) (k true) Q →
  leads P (pid ← spawn "docker" cmd; _ ← modify (cx_set_pid pid); started ← block_until_started polls c timeout; k started) Q.
Proof using HH.
  intros Hn Et Hs Hk. eapply leads_bind; [by apply (leads_spawn cmd c)|]. intros pid.
  eapply (leads_bind _ (λ _ x, ∃ past, cx_trace x = past ++ [Spawn "docker" (explode_argv cmd " ")]));
    [by apply leads_modify|]. intros [].
  eapply leads_bind_eq; [by eapply leads_block|done].
Qed.

Lemma leads_any P cmd : leads P (sh cmd) (λ _ _, True).
Proof. intros x _. by eexists _, _. Qed.

Lemma leads_run P cmd : keeps P (sh cmd) → leads P (sh cmd) (λ _, P).
Proof. intros Hk x Hx. eexists _, _. split; [reflexivity|]. by apply (Hk x). Qed.

Lemma leads_start_container P taskId c cmd b :
  names_container cmd c →
  leads P (start_container polls taskId c cmd b) (ends (mkTaskStatus taskId TASK_RUNNING None)).
Proof using HH.
  intros Hn. unfold start_container. eapply leads_started; [done|by apply (lexical_seconds 60)|done|].
  apply (leads_bind _ (λ _ _, True)); [|intros []; apply leads_send]. destruct b; [|by apply leads_mret].
  unfold start_file_server. eapply leads_bind; [by apply leads_gets with (F := λ _, True)|]. intros root.
  eapply leads_bind; [apply leads_any|]. intros ?. eapply leads_bind; [apply leads_any|]. intros ?.
  by apply leads_modify.
Qed.

Lemma leads_download P : keeps P (sh image_cmd) → leads P (downloadDockerImage "ceph/daemon") (λ _, P).
Proof using HH.
  intros Hk. unfold downloadDockerImage. eapply leads_bind_eq; [apply leads_succeeds; [exact Hk|apply (hh_image _ HH)]|].
  by apply leads_mret.
Qed.

Lemma located_sh cmd : keeps (located mgmt) (sh cmd).
Proof. by intros x Hx. Qed.

Lemma leads_matching ips P :
  Forall (λ ip, ∃ b, matchIPToCIDR ip mgmt = Ret b) ips → leads P (matching_ip ips mgmt) (λ _ _, True).
Proof.
  induction 1 as [|ip ips [b Eb] _ IH]; cbn [matching_ip]; [apply leads_any|].
  eapply leads_bind_eq; [by apply leads_lift|]. destruct b; [by apply leads_mret|exact IH].
Qed.

Lemma leads_mon_command d c :
  leads (located mgmt) (constructMonCommand d c) (λ cmd _, True ∧ names_container cmd c).
Proof using HH.
  unfold constructMonCommand. cbn zeta. eapply leads_bind; [apply leads_sh, located_sh|]. intros ips.
  eapply leads_use; [intros x [_ Hips]; exact Hips|]. intros [past ->].
  eapply leads_bind_eq; [eapply leads_weaken; [..|eapply (leads_gets (located mgmt)) with (F := λ m, m = mgmt); by intros x [_ ?]]; by intros ? []|].
  eapply leads_bind; [eapply leads_gets with (F := λ _, True); done|]. intros data.
  eapply leads_bind; [apply leads_matching, (hh_addresses _ HH)|]. intros ip.
  apply leads_mret. intros x _. split; [done|]. rewrite !str_app_assoc, <- !str_app_assoc. apply names_container_mon.
Qed.

(** ** The launch of a task *)

Lemma leads_when (P : CephExecutor → Prop) (F : Prop) `{Decision F} f :
  (∀ x, P x → P (f x)) → leads P (if decide F then modify f else mret tt) (λ _, P).
Proof. intros Hf. case_decide; [by apply leads_modify|by apply leads_mret]. Qed.

Lemma leads_parse_other l :
  c_str (lb_key l) ≠ CustomData.mgmtdevKey → leads (located mgmt) (parse_label l) (λ _, located mgmt).
Proof.
  intros Hk. unfold parse_label. rewrite (decide_False (P := CustomData.mgmtdevKey = c_str (lb_key l))) by congruence.
  apply (leads_bind _ (λ _, located mgmt)); [by apply leads_mret|]. intros ?.
  do 2 (apply (leads_bind _ (λ _, located mgmt)); [by apply leads_when|]; intros ?). by apply leads_when.
Qed.

Lemma leads_parse_mgmt :
  leads placed (parse_label (mkLabel CustomData.mgmtdevKey mgmt)) (λ _, located mgmt).
Proof.
  intros x [Hr Hs]. eexists _, tt. split; [vm_compute; reflexivity|]. repeat split; [exact Hr|exact Hs].
Qed.

Lemma leads_parseHostConfig task t hc :
  ti_labels task = Some (task_labels t hc) → getMgmtDev hc = mgmt →
  leads placed (parseHostConfig task) (λ b x, located mgmt x ∧ b = true).
Proof.
  intros Hl Hm. unfold parseHostConfig. rewrite Hl. unfold task_labels. rewrite Hm. cbn [app]. rewrite bool_decide_false by done.
  eapply (leads_bind _ (λ _, located mgmt)); [|intros []; by apply leads_mret].
  match goal with |- context [foreach (_ :: ?r)] => set (rest := r) end. cbn [foreach].
  eapply leads_bind; [apply leads_parse_mgmt|]. intros []. apply (leads_foreach (located mgmt) rest (λ _, parse_label)).
  constructor; [by apply leads_parse_other|]. case_decide; [|constructor].
  repeat constructor; by apply leads_parse_other.
Qed.

(** The state a launched task of a type reports. *)
Definition launched_state (t : TaskType) : MesosTaskState :=
  if bool_decide (t = OSD) then TASK_STARTING else TASK_RUNNING.

Lemma leads_run_container taskId d t k :
  getContainerName taskId = Ret (createTaskName t k) →
  leads (located mgmt) (run_container polls taskId d (TaskType_to_int t))
    (ends (mkTaskStatus taskId (launched_state t) None)).
Proof using HH.
  intros Hc. unfold run_container. eapply leads_bind_eq; [by apply leads_lift|].
  eapply (leads_bind _ (λ _, located mgmt)); [by apply leads_modify|]. intros ?.
  eapply (leads_bind _ (λ _, located mgmt)); [apply leads_run, located_sh|]. intros ?. destruct t; cbn [TaskType_to_int Z.eqb Pos.eqb].
  - eapply leads_bind; [apply leads_mon_command|]. intros cmd. eapply leads_use; [intros x [_ Hn]; exact Hn|]. intros Hn.
    eapply leads_bind; [by apply leads_download|]. intros ?. by apply leads_start_container.
  - eapply leads_bind; [apply leads_download, located_sh|]. intros ?. apply leads_send.
  - eapply leads_bind; [apply leads_download, located_sh|]. intros ?. apply leads_start_container.
    unfold constructRADOSGWCommand. rewrite <- !str_app_assoc. apply names_container_mon.
Qed.

Lemma located_succeeds cmd : keeps (located mgmt) (succeeds cmd).
Proof. unfold succeeds. apply keeps_bind; [apply located_sh|]. intros r. apply keeps_mret. Qed.

Lemma located_create d : keeps (located mgmt) (createLocalSharedConfigDir d).
Proof. pose proof located_succeeds. unfold createLocalSharedConfigDir, existsConfigFiles. keeps_auto. Qed.

Lemma located_copy : keeps (located mgmt) copySharedConfigFiles.
Proof. pose proof located_succeeds. unfold copySharedConfigFiles. keeps_auto. Qed.

(** A step on which the executor, where it is, succeeds. *)
Lemma leads_located {A} (m : ST CephExecutor bool) (k : bool → ST CephExecutor A) Q :
  keeps (located mgmt) m → leads placed m (λ b _, b = true) → leads (located mgmt) (k true) Q →
  leads (located mgmt) (m ≫= k) Q.
Proof.
  intros Hk Hm HQ. eapply leads_bind_eq; [|exact HQ].
  eapply leads_weaken; [| |exact (leads_keeps _ _ _ _ Hk Hm)]; [|done]. intros x Hx. split; [done|apply Hx].
Qed.

Lemma leads_directory : leads placed (createLocalSharedConfigDir localConfigDirName) (λ b _, b = true).
Proof using HH.
  intros x [Hr Hs]. rewrite (createLocalSharedConfigDir_text _ _ _ Hr (succeeds_eq _ x) Hr).
  destruct (hh_directory _ HH (trace x)) as [E|E].
  - rewrite bool_decide_true by done. by eexists _, true.
  - case_bool_decide; [by eexists _, true|]. rewrite succeeds_eq, bool_decide_true by (by rewrite <- E). by eexists _, true.
Qed.

Lemma leads_copy : leads placed copySharedConfigFiles (λ b _, b = true).
Proof using HH.
  intros x [Hr Hs]. rewrite copySharedConfigFiles_text, Hs, succeeds_eq, bool_decide_true by (done || by rewrite <- (hh_copy _ HH (trace x))).
  by eexists _, true.
Qed.

Lemma leads_launchTask task offer t k i hc :
  ceph_task offer t k i task → ti_labels task = Some (task_labels t hc) → getMgmtDev hc = mgmt →
  leads (λ x, cx_sandbox x = cwd) (launchTask polls task) (ends (mkTaskStatus (ti_task_id task) (launched_state t) None)).
Proof using HH.
  intros Ht Hl Hm. unfold launchTask. eapply leads_bind; [apply leads_sh; by intros x Hx|]. intros r.
  eapply leads_use; [intros x [_ Hr]; exact Hr|]. intros [past Er].
  apply (leads_bind _ (λ _, placed)).
  { apply leads_modify. intros x [Hx _]. split; [|done]. cbn. unfold shared_root. rewrite decide_False; [done|].
    rewrite Er. apply (hh_home _ HH). }
  intros []. rewrite (ct_data _ _ _ _ _ Ht).
  eapply (leads_bind_eq _ placed) with (v := (negb (i =? 1), TaskType_to_int t)).
  { rewrite explode_pair. eapply leads_bind_eq; [by apply leads_lift|]. apply (leads_bind _ (λ _, placed)).
    - case_decide; [|by apply leads_mret]. unfold deleteConfigDir.
      eapply leads_bind; [by apply leads_gets with (F := λ _, True)|]. intros root.
      apply (leads_bind _ (λ _, placed)); [|intros ?; by apply leads_mret].
      eapply leads_weaken; [| |apply (leads_run placed); by intros x Hx]; [by intros ? []|done].
    - intros ?. apply leads_lift, parse_data_eq. }
  eapply leads_bind; [by apply leads_gets with (F := λ _, True)|]. intros root. cbn zeta.
  apply (leads_bind_eq _ (located mgmt) _ _ _ true);
    [eapply leads_weaken; [| |by eapply leads_parseHostConfig]; [by intros ? []|done]|]. cbn [negb].
  apply leads_located; [apply located_create|apply leads_directory|]. cbn [negb].
  apply leads_located; [destruct (negb _); [apply located_copy|apply keeps_mret]| |].
  { destruct (negb _); [apply leads_copy|by apply leads_mret]. }
  eapply leads_run_container. rewrite (ct_id _ _ _ _ _ Ht). apply getContainerName_task_id.
Qed.

(** A launch on a healthy host sends the one report its type calls for. *)
Lemma launchTask_healthy task offer t k i hc x :
  ceph_task offer t k i task → ti_labels task = Some (task_labels t hc) → getMgmtDev hc = mgmt → cx_sandbox x = cwd →
  ∃ x', launchTask polls task x = (x', Ret tt) ∧
    sent (cx_trace x') = sent (cx_trace x) ++ [mkTaskStatus (ti_task_id task) (launched_state t) None].
Proof using HH.
  intros Ht Hl Hm Hx. destruct (leads_launchTask task offer t k i hc Ht Hl Hm x Hx) as (x' & [] & E & y & ->).
  eexists. split; [exact E|]. destruct (launchTask_reports _ _ _ _ _ E) as [_ (st & Es & _)]; [done|].
  rewrite Es. f_equal. cbn in Es. rewrite sent_app in Es. by apply app_inj_tail in Es as [_ <-].
Qed.

(** ** The launch of an OSD *)

Lemma leads_prepareDisks P : leads P prepareDisks (λ b _, True ∧ b = true).
Proof.
  unfold prepareDisks. eapply leads_bind; [by apply leads_gets with (F := λ _, True)|]. intros osdDir.
  eapply leads_bind; [by apply leads_gets with (F := λ _, True)|]. intros jnlDir.
  do 2 (eapply leads_bind; [apply leads_any|]; intros ?).
  eapply leads_bind; [by apply leads_gets with (F := λ _, True)|]. intros osddisk.
  assert (Hd : ∀ d dir P, leads P (if decide ("" = d) then mret true else mountDisk ("/dev/" +:+ d) dir mountFLAGS)
    (λ b _, True ∧ b = true)).
  { intros d dir P'. case_decide; [by apply leads_mret|]. unfold mountDisk.
    eapply leads_bind; [apply leads_any|]. intros ?. by apply leads_mret. }
  eapply leads_bind_eq; [apply Hd|]. cbn [negb].
  eapply leads_bind; [by apply leads_gets with (F := λ _, True)|]. intros jnldisk.
  eapply leads_bind_eq; [apply Hd|]. cbn [negb]. by apply leads_mret.
Qed.

Lemma leads_launch_osd P osdId d taskId :
  leads P (launch_osd polls osdId d taskId)
    (ends (mkTaskStatus taskId TASK_RUNNING (Some (lexical_to_string 1 +:+ "." +:+ osdId)))).
Proof using HH.
  unfold launch_osd. eapply leads_bind_eq; [apply leads_prepareDisks|]. cbn [negb].
  eapply leads_bind; [by apply leads_gets with (F := λ _, True)|]. intros c.
  eapply leads_started; [|by apply (lexical_seconds 30)|done|apply leads_send].
  unfold constructOSDCommand. rewrite <- !str_app_assoc. apply names_container_osd.
Qed.

Lemma frameworkMessage_healthy id x :
  ∃ x', frameworkMessage polls (lexical_to_string 21 +:+ "." +:+ lexical_to_string id) x = (x', Ret tt) ∧
    sent (cx_trace x') = sent (cx_trace x) ++
      [mkTaskStatus (cx_myTaskId x) TASK_RUNNING (Some (lexical_to_string 1 +:+ "." +:+ lexical_to_string id))].
Proof using HH.
  rewrite frameworkMessage_launch. cbn zeta. set (x1 := cx_set_dirs _ _ x). set (d := cx_root x +:+ _).
  destruct (leads_launch_osd (λ _, True) (lexical_to_string id) d (cx_myTaskId x) x1 I) as (x' & [] & E & y & ->).
  eexists. split; [exact E|]. destruct (launch_osd_reports _ _ _ _ _ _ _ E) as [_ (st & Es & _)]; [done|].
  change (cx_trace x) with (cx_trace x1). rewrite Es. f_equal. cbn in Es. rewrite sent_app in Es.
  by apply app_inj_tail in Es as [_ <-].
Qed.
End Healthy.

(** ** The disk executor *)

Section HealthyDisks.
Context `{LexicalCast, Indeterminate, MesosResources, h : Host}.
Context (mgmt : string) (HH : healthy mgmt) (hostname : string).
Import DiskExec.

(** Nothing sent yet, by the executor of the host, on journals in some parts. *)
Definition unsent (x : DiskExecutor) : Prop :=
  dx_myHostname x = hostname ∧ sent (dx_trace x) = [] ∧ dx_jnlPartitionCount x ≠ 0.

Lemma leads_unsent_sh cmd :
  leads unsent (runShellCommand (X := DiskExecutor) cmd) (λ r x, unsent x ∧ ∃ past, r = shell_result (host_popen past cmd)).
Proof.
  intros x (Hh & Hs & Hn). eexists _, _. split; [reflexivity|]. split; [|by eexists].
  split_and!; [done| |done]. cbn. by rewrite sent_app, Hs.
Qed.

Lemma leads_unsent_run cmd : leads unsent (run cmd) (λ _, unsent).
Proof. unfold run. eapply leads_bind; [apply leads_unsent_sh|]. intros r. apply leads_mret. by intros x []. Qed.

Lemma leads_partition d k l : k ≠ 0 → leads unsent (partitionDisk d k l) (λ _, unsent).
Proof.
  intros Hk. unfold partitionDisk. cbn zeta. do 2 (eapply leads_bind; [apply leads_unsent_run|]; intros ?).
  rewrite (proj2 (Z.eqb_neq _ _) Hk). generalize 0, 1, (Z.quot 100 k). induction (Z.to_nat k) as [|m IH]; intros i b e;
    cbn [mkpart_loop]; [by apply leads_mret|]. eapply leads_bind; [apply leads_unsent_run|]. intros ?. apply IH.
Qed.

Lemma leads_count {A} d p (k : Z → ST DiskExecutor A) Q :
  (∀ n, leads unsent (k n) Q) →
  leads unsent (out ← runShellCommand (X := DiskExecutor) (count_cmd d p); n ← lift (lexical_to_int out); k n) Q.
Proof using HH.
  intros Hk. eapply leads_bind; [apply leads_unsent_sh|]. intros out. eapply leads_use; [intros x [_ Ho]; exact Ho|].
  intros [past ->]. destruct (hh_counts _ HH past d p) as [z Ez]. apply (leads_bind_eq _ unsent _ _ _ z); [|apply Hk].
  eapply leads_weaken; [| |exact (leads_lift unsent _ z Ez)]; [by intros ? []|done].
Qed.

(** The end of both loop bodies. *)
Lemma leads_check d k l osd jnl :
  leads unsent (r ← checkSuccess d k l; if (r : bool) then mret tt else modify (dx_add_failed osd jnl)) (λ _, unsent).
Proof using HH.
  apply (leads_bind _ (λ _, unsent)); [|intros []; [by apply leads_mret|by apply leads_modify]].
  unfold checkSuccess. do 2 (apply leads_count; intros ?). by apply leads_mret.
Qed.

Lemma leads_prepare_osd d : leads unsent (prepare_osd d) (λ _, unsent).
Proof using HH.
  unfold prepare_osd. eapply leads_bind; [by apply leads_partition|]. intros ?.
  eapply leads_bind; [apply leads_unsent_run|]. intros ?. apply leads_check.
Qed.

Lemma leads_prepare_jnl d : leads unsent (prepare_jnl d) (λ _, unsent).
Proof using HH.
  unfold prepare_jnl. eapply leads_bind; [apply leads_gets with (F := λ k, k ≠ 0); by intros x (_ & _ & Hn)|]. intros k.
  eapply leads_use; [intros x [_ Hk]; exact Hk|]. intros Hk. apply (leads_bind _ (λ _, unsent)).
  { eapply leads_weaken; [| |by apply leads_partition]; [by intros ? []|done]. }
  intros ?. apply (leads_bind _ (λ _, unsent)); [|intros ?; apply leads_check].
  apply (leads_foreach unsent _ (λ _ j, mkfsDisk ("/dev/" +:+ d +:+ lexical_to_string j) fsType mkfsFLAGS)).
  apply Forall_true. intros j. apply leads_unsent_run.
Qed.

Lemma leads_disks : leads unsent DiskExec.prepareDisks (λ _, unsent).
Proof using HH.
  unfold DiskExec.prepareDisks. eapply leads_bind; [by apply leads_gets with (F := λ _, True)|]. intros devs.
  apply (leads_bind _ (λ _, unsent)).
  { eapply leads_weaken; [| |apply (leads_foreach unsent devs (λ _ d, prepare_osd d)), Forall_true, leads_prepare_osd];
      [by intros ? []|done]. }
  intros ?. eapply leads_bind; [by apply leads_gets with (F := λ _, True)|]. intros jdevs.
  eapply leads_weaken; [| |apply (leads_foreach unsent jdevs (λ _ d, prepare_jnl d)), Forall_true, leads_prepare_jnl];
    [by intros ? []|done].
Qed.

(** The one report of a run on the devices of a host. *)
Lemma disk_run_healthy hc task :
  clean_host hc → getJnlPartitionCount hc ≠ 0 → ti_labels task = Some (disk_labels hc) → clean_name hostname = true →
  ∃ x' f, (_ ← DiskExec.registered hostname; DiskExec.launchTask task) new_DiskExecutor = (x', Ret tt) ∧
    sent (dx_trace x') = [mkTaskStatus (ti_task_id task) TASK_FINISHED (Some (disk_ready hostname f))] ∧
    told (dx_trace x') = [] ∧ clean_name f = true ∧ f ≠ "".
Proof using HH.
  intros Hhc Hn Hl Hc. pose proof Hhc as [_ Hr].
  assert (HL : leads (λ x, x = dx_set_hostname hostname new_DiskExecutor) (DiskExec.launchTask task)
    (λ _ x, ∃ y, unsent y ∧ x = dx_add_effect (SendStatusUpdate
       (mkTaskStatus (ti_task_id task) TASK_FINISHED (Some (disk_ready hostname (report_devs y))))) y)).
  { unfold DiskExec.launchTask. 
    apply (leads_bind _ (λ _ x, x = dx_set_task (ti_task_id task) (dx_set_hostname hostname new_DiskExecutor))).
    { apply leads_modify. by intros x ->. }
    intros ?. apply (leads_bind_eq _ unsent _ _ _ true).
    { intros x ->. eexists _, _. split; [by apply (addPendingDisks_labels hc)|]. done. }
    apply (leads_bind _ (λ _, unsent)); [by apply leads_mret|]. intros ?.
    eapply leads_bind; [apply leads_disks|]. intros ?. intros y Hy. eexists _, tt. split; [reflexivity|].
    exists y. split; [done|]. rewrite prepareReturnValue_eq. by destruct Hy as [-> _]. }
  destruct (HL _ eq_refl) as (x' & [] & E & y & (Hh & Hs & _) & Ex).
  exists x', (report_devs y). assert (Er : (_ ← DiskExec.registered hostname; DiskExec.launchTask task) new_DiskExecutor = (x', Ret tt)) by exact E.
  pose proof (disk_run_clean (ti_task_id task) hostname task Hc eq_refl) as Hcl. rewrite Er, Hl in Hcl. cbn [fst default] in Hcl.
  destruct Hcl as [_ _ _ Hst Ht]; [by apply clean_disk_labels|].
  assert (Es : sent (dx_trace x') = [mkTaskStatus (ti_task_id task) TASK_FINISHED (Some (disk_ready hostname (report_devs y)))])
    by (rewrite Ex; cbn; by rewrite sent_app, Hs).
  rewrite Es in Hst. apply Forall_cons in Hst as [[_ [[? _]|[_ (h' & f & Ef & Hh' & Hf1 & Hf2)]]] _]; [done|].
  cbn in Ef. injection Ef as Ef. unfold disk_ready in Ef. apply (inj (String.append _)) in Ef. injection Ef as Ef.
  apply andb_true_iff in Hc as [_ Hc], Hh' as [_ Hh'].
  apply split_unique in Ef as [_ Ef]; [|done..]. rewrite <- Ef in *. by split_and!.
Qed.
End HealthyDisks.
