(* ===== verification/Deployment.v ===== *)
(** * A deployment that works

    The runs of [Liveness] among the executors of [Network]: with adequate
    offers from one slave whose host is healthy, the scheduler, its executors
    and the packets between them go from the start, and from any world at rest
    whose initial MON runs, to a world at rest in which every request is served. *)

From S2P Require Import Prelude StringUtil CephTypes ConfigFile HostConfigs TaskMachine FlexUp Mesos Agent HostInvariant Cluster Liveness Requests Executor Network Protocol Delivery HealthyHost.
From S2P Require DiskExec CephExec.
#[local] Existing Instance CephExec.CephExecutor_traced.
Open Scope Z_scope.

Section Deployment.
Context `{LexicalCast, Yaml, Indeterminate, HashOrder, MesosResources, JsonCpp}.
Context (flags : Flags) (slave_host : string → string) (env : Env) (cfg : Config) (offer : Offer).
Context (h : Host) (hc : HostConfig).

Notation machine w := (ag_stateMachine (sys_agent (w_sys w))).
Notation tasks w := (sm_taskMap (machine w)).

(** The offer is adequate; its host has clean names, some device, journals in
    some parts, and a healthy host under its management network. *)
Record deployment : Prop := {
  dp_adequate : adequate flags env cfg offer;
  dp_slave : of_hostname offer = slave_host (of_slave_id offer);
  dp_config : new_HostConfig flags (env_files env) (of_hostname offer) = Ret hc;
  dp_clean : clean_host hc;
  dp_devices : hc_pendingOSDDevs hc ++ hc_pendingJNLDevs hc ≠ [];
  dp_parts : getJnlPartitionCount hc ≠ 0;
  dp_healthy : healthy (h := h) (getMgmtDev hc);
}.

Definition healthy_world : Assumptions := mkAssumptions (λ e, e = env) (λ h', h' = h) smooth.

Notation wruns := (rtc (wstep flags slave_host healthy_world)).

(** ** Steps on a healthy host *)

Section Steps.
Context (DP : deployment).

Lemma offers_wstep w offers a' cs :
  Forall (λ o, of_hostname o = slave_host (of_slave_id o)) offers →
  resourceOffers flags env offers (sys_agent (w_sys w)) = (a', Ret tt) →
  ag_calls a' = ag_calls (sys_agent (w_sys w)) ++ cs →
  wstep flags slave_host healthy_world w
    (mkWorld _ (mkSystem _ a' (sys_requested (w_sys w)) (sys_offers (w_sys w) + Z.of_nat (length offers)) (sys_reports (w_sys w)))
      (w_execs w) (w_net w ++ (cs ≫= call_packets))).
Proof. intros Ho E Ec. rewrite <- (schedule_net w _ _ cs); [by eapply W_offers|done]. Qed.

Lemma report_wstep w st net f :
  w_net w ≡ₚ PReport st :: net → smooth (machine w) st →
  statusUpdate st (sys_agent (w_sys w)) = (set_stateMachine f (sys_agent (w_sys w)), Ret tt) →
  wstep flags slave_host healthy_world w
    (mkWorld _ (mkSystem _ (set_stateMachine f (sys_agent (w_sys w))) (sys_requested (w_sys w)) (sys_offers (w_sys w))
       (sys_reports (w_sys w) + 1)) (w_execs w) net).
Proof.
  intros Hn Hs E. rewrite <- (app_nil_r net). change (@nil Packet) with (@nil DriverCall ≫= call_packets).
  rewrite <- (schedule_net w _ _ []); [by eapply W_report|by rewrite app_nil_r].
Qed.

Lemma message_wstep w d z net :
  w_net w ≡ₚ PToScheduler (ts_executorId (getInitialMon (machine w))) d :: net → lexical_to_int d = Ret z →
  wstep flags slave_host healthy_world w
    (mkWorld _ (mkSystem _ (set_stateMachine (addPendingOSDID z) (sys_agent (w_sys w))) (sys_requested (w_sys w))
       (sys_offers (w_sys w)) (sys_reports (w_sys w))) (w_execs w) net).
Proof.
  intros Hn Ez. rewrite <- (app_nil_r net). change (@nil Packet) with (@nil DriverCall ≫= call_packets).
  rewrite <- (schedule_net w _ _ []); [|by rewrite app_nil_r]. eapply W_message; [exact Hn|].
  set (a := sys_agent (w_sys w)). unfold frameworkMessage. rewrite (bind_eq _ _ a a (getInitialMon (ag_stateMachine a))) by done.
  rewrite decide_True by done. by rewrite (bind_eq _ _ a a z) by (unfold lift; by rewrite Ez).
Qed.

(** A task launched on a new executor reports the state its type calls for. *)
Lemma launch_wstep w task t k i hc' net :
  let key := (task_executor task, ti_slave_id task) in
  ceph_task offer t k i task → ti_labels task = Some (task_labels t hc') → getMgmtDev hc' = getMgmtDev hc →
  w_net w ≡ₚ PLaunch task :: net → w_execs w !! key = None →
  ∃ x', wstep flags slave_host healthy_world w
    (mkWorld _ (w_sys w) (<[key := x']> (w_execs w))
      (net ++ [PReport (mkTaskStatus (ti_task_id task) (launched_state t) None)])).
Proof using DP.
  intros key Ht Hl Hm Hn Hk. set (x := executor_for slave_host w (task_executor task) (ti_slave_id task)).
  assert (Hx : CephExec.cx_sandbox x = cwd) by (subst x; unfold executor_for; fold key; by rewrite Hk).
  destruct (launchTask_healthy _ (dp_healthy DP) 0 task offer t k i hc' x Ht Hl Hm Hx) as (x' & E & Es).
  exists x'. pose proof (CephExec.launchTask_prefix 1 _ _ _ _ E) as Hp.
  pose proof (launchTask_run 1 _ _ _ _ E) as [Et _]. unfold run_told in Et.
  replace (mkWorld _ _ _ _) with (execute w (task_executor task) (ti_slave_id task) x x' (Ret tt) net).
  - eapply (W_launch flags slave_host healthy_world w h 1 task net); [done|exact Hn|by apply Ht|exact E].
  - unfold execute, effect_packets. by rewrite Et, (sent_drop _ _ _ Hp Es).
Qed.

Lemma register_wstep w e s net x :
  w_net w ≡ₚ PToExecutor e s (lexical_to_string 20) :: net → w_execs w !! (e, s) = Some x →
  ∃ x' d z, lexical_to_int d = Ret z ∧ wstep flags slave_host healthy_world w
    (mkWorld _ (w_sys w) (<[(e, s) := x']> (w_execs w)) (net ++ [PToScheduler e d])).
Proof using DP.
  intros Hn Hx. destruct (CephExec.frameworkMessage 1 (lexical_to_string 20) x) as [x' o] eqn:E.
  pose proof (register_message_run 1 _ _ _ E) as (-> & _ & Es & Et).
  destruct (hh_osd_ids _ (dp_healthy DP) (trace x) (CephExec.cx_containerName x)) as [z Ez].
  eexists x', _, z. split; [exact Ez|]. unfold run_sent, run_told in Es, Et.
  replace (mkWorld _ _ _ _) with (execute w e s x x' (Ret tt) net).
  - by eapply (W_deliver flags slave_host healthy_world w h 1 e s _ net x x').
  - unfold execute, effect_packets. by rewrite Es, Et.
Qed.

Lemma osd_wstep w e s id net x :
  w_net w ≡ₚ PToExecutor e s (lexical_to_string 21 +:+ "." +:+ lexical_to_string id) :: net → w_execs w !! (e, s) = Some x →
  ∃ x', wstep flags slave_host healthy_world w
    (mkWorld _ (w_sys w) (<[(e, s) := x']> (w_execs w))
      (net ++ [PReport (mkTaskStatus (cx_myTaskId x) TASK_RUNNING
                          (Some (lexical_to_string 1 +:+ "." +:+ lexical_to_string id)))])).
Proof using DP.
  intros Hn Hx. destruct (frameworkMessage_healthy _ (dp_healthy DP) 0 id x) as (x' & E & Es).
  exists x'. pose proof (CephExec.frameworkMessage_prefix 1 _ _ _ _ E) as Hp.
  pose proof (launch_message_run 1 _ _ _ _ E) as [Et _]. unfold run_told in Et.
  replace (mkWorld _ _ _ _) with (execute w e s x x' (Ret tt) net).
  - by eapply (W_deliver flags slave_host healthy_world w h 1 e s _ net x x').
  - unfold execute, effect_packets. by rewrite Et, (sent_drop _ _ _ Hp Es).
Qed.
End Steps.

(** ** The initial MON *)

(** The one task whose id starts with "mon0" runs, on this executor. *)
Definition mon_at (M : gmap string TaskState) (e s : string) : Prop :=
  ∃ k ts, M !! k = Some ts ∧ String.prefix "mon0" (ts_taskId ts) = true ∧ ts_currentStatus ts = RUNNING ∧
    ts_executorId ts = e ∧ ts_slaveId ts = s ∧
    ∀ k' ts', M !! k' = Some ts' → String.prefix "mon0" (ts_taskId ts') = true → k' = k.

Lemma mon_at_initial sm e s :
  mon_at (sm_taskMap sm) e s → ts_executorId (getInitialMon sm) = e ∧ ts_slaveId (getInitialMon sm) = s.
Proof.
  intros (k & ts & Hk & Hp & _ & <- & <- & Hu). rewrite (proj1 (getInitialMon_spec sm) k ts Hk Hp); [done|].
  intros k' ts' Hk' Hp'. rewrite (Hu _ _ Hk' Hp') in Hk'. congruence.
Qed.

Lemma mon_at_status M id ts q e s :
  M !! id = Some ts → ts_currentStatus ts ≠ RUNNING → mon_at M e s → mon_at (<[id := set_currentStatus q ts]> M) e s.
Proof.
  intros Hid Hq (k & tk & Hk & Hp & Hr & He & Hs & Hu). exists k, tk. rewrite lookup_insert_ne by congruence.
  split_and!; [done..|]. intros k' ts'. rewrite lookup_insert. case_decide; [subst k'; intros [= <-]; apply (Hu _ _ Hid)|apply Hu].
Qed.

Lemma mon_at_insert M id ts e s :
  M !! id = None → String.prefix "mon0" (ts_taskId ts) = false → mon_at M e s → mon_at (<[id := ts]> M) e s.
Proof.
  intros Hid Hq (k & tk & Hk & Hp & Hr & He & Hs & Hu). exists k, tk. rewrite lookup_insert_ne by congruence.
  split_and!; [done..|]. intros k' ts'. rewrite lookup_insert. case_decide; [intros [= <-]; congruence|apply Hu].
Qed.

(** ** One OSD waits *)

Lemma waiting_single sm k ts :
  sm_taskMap sm !! k = Some ts → is_waiting_osd ts = true →
  (∀ k' ts', sm_taskMap sm !! k' = Some ts' → is_waiting_osd ts' = true → k' = k) → getWaitingOSDTask sm = [ts].
Proof.
  intros Hk Hw Hu. apply Permutation_singleton_r. unfold getWaitingOSDTask.
  rewrite (hash_iter_perm (sm_taskMap sm)), <- (insert_delete_id _ _ _ Hk) at 1.
  rewrite map_to_list_insert by apply lookup_delete_eq. cbn [fmap list_fmap snd].
  rewrite filter_cons_True by (by rewrite Hw). f_equiv.
  replace (filter is_waiting_osd _) with (@nil TaskState); [done|]. symmetry. apply elem_of_nil_inv. intros t.
  rewrite list_elem_of_filter, list_elem_of_fmap, Is_true_true. intros (Ht & [k' t'] & -> & Hin).
  apply elem_of_map_to_list, lookup_delete_Some in Hin as [Hne Hin]. by rewrite (Hu _ _ Hin Ht) in Hne.
Qed.

(** ** From the first report of a task to its run *)

(** What a round does to the world once its task is launched: the task runs,
    nothing is left in transit, and the rest is as it was. *)
Record ran_up (id : string) (ts : TaskState) (w w' : World) : Prop := {
  ru_runs : wruns w w';
  ru_net : w_net w' = [];
  ru_tasks : tasks w' = <[id := set_currentStatus RUNNING ts]> (tasks w);
  ru_hosts : sm_hostConfigMap (machine w') = sm_hostConfigMap (machine w);
  ru_pending : ag_pendingOSD (sys_agent (w_sys w')) = ag_pendingOSD (sys_agent (w_sys w));
  ru_index t : index (counters t (machine w')) = index (counters t (machine w));
  ru_execs key : is_Some (w_execs w' !! key) ↔ is_Some (w_execs w !! key);
}.

Section Rounds.
Context (DP : deployment).

Lemma insert_alive (m : gmap (string * string) CephExecutor) key y key' :
  is_Some (m !! key) → is_Some (<[key := y]> m !! key') ↔ is_Some (m !! key').
Proof. intros Hk. rewrite lookup_insert. case_decide; [subst key'; split; by eauto|done]. Qed.

(** The report that the task runs. *)
Lemma run_up w id ts m net :
  w_net w ≡ₚ PReport (mkTaskStatus id TASK_RUNNING m) :: net → net = [] →
  statusUpdate (mkTaskStatus id TASK_RUNNING m) (sys_agent (w_sys w)) =
    (set_stateMachine (updateTaskToRunning id) (sys_agent (w_sys w)), Ret tt) →
  tasks w !! id = Some ts → ts_currentStatus ts = STAGING ∨ ts_currentStatus ts = STARTING →
  ∃ w', ran_up id ts w w'.
Proof.
  intros Hn -> E Hts Hq. eexists. split; [apply rtc_once; eapply report_wstep; [exact Hn|by eapply running_smooth|exact E]|..].
  - done.
  - apply (updateTaskTo_known ToRunning id ts _ Hts).
  - apply (hosts_updateTaskTo ToRunning).
  - done.
  - intros t. apply (updateTaskTo_index ToRunning).
  - done.
Qed.

Lemma ran_up_before id ts ts1 w1 w w' :
  wruns w w1 → ran_up id ts1 w1 w' →
  tasks w1 = <[id := ts1]> (tasks w) → set_currentStatus RUNNING ts1 = set_currentStatus RUNNING ts →
  sm_hostConfigMap (machine w1) = sm_hostConfigMap (machine w) →
  ag_pendingOSD (sys_agent (w_sys w1)) = ag_pendingOSD (sys_agent (w_sys w)) →
  (∀ t, index (counters t (machine w1)) = index (counters t (machine w))) →
  (∀ key, is_Some (w_execs w1 !! key) ↔ is_Some (w_execs w !! key)) → ran_up id ts w w'.
Proof.
  intros Hr [R N T Hh P I X] ET ES EH EP EI EX. split.
  - by etrans.
  - done.
  - rewrite T, ET, insert_insert_eq. by rewrite ES.
  - by rewrite Hh.
  - by rewrite P.
  - intros t. by rewrite I.
  - intros key. by rewrite X.
Qed.

Lemma wruns_inv w w' : wruns w w' → world_inv w → world_inv w'.
Proof. induction 1 as [|w1 w2 w3 Hs _ IH]; [done|]. intros Hi. by eapply IH, wstep_world_inv. Qed.

(** The id goes to the OSD that waits, and the OSD runs. *)
Lemma osd_assigned w id ts z ids :
  world_inv w → w_net w = [] → tasks w !! id = Some ts → ts_taskType ts = OSD → ts_currentStatus ts = WAITING_OSDID →
  (∀ k ts', tasks w !! k = Some ts' → ts_currentStatus ts' = WAITING_OSDID → k = id) →
  ts_taskId ts = id → sm_pendingOSDID (machine w) = ids ++ [z] →
  is_Some (w_execs w !! (ts_executorId ts, ts_slaveId ts)) → ∃ w', ran_up id ts w w'.
Proof using DP.
  intros Hi Hn Hts Ht Hq Hu Hid Hz Hx. set (a := sys_agent (w_sys w)).
  assert (Ew : getWaitingOSDTask (machine w) = [ts]).
  { apply (waiting_single _ id); [done|unfold is_waiting_osd; by rewrite !bool_decide_true|].
    intros k ts' Hk [_ Hw%bool_decide_eq_true]%andb_true_iff. by eapply Hu. }
  assert (Er : resourceOffers flags env [] a = (assigned [ts] a, Ret tt)).
  { unfold resourceOffers. rewrite (bind_eq _ _ _ _ _ (handleWaitingOSDTasks_eq a)). unfold a. by rewrite Ew. }
  assert (Ec : ag_calls (assigned [ts] a) = ag_calls a ++ [launch_osd_message ts z]).
  { unfold assigned. cbn [ag_calls]. f_equal. fold a in Hz. rewrite Hz, reverse_app. cbn. by destruct (reverse ids). }
  pose proof (offers_wstep w [] _ _ (Forall_nil_2 _) Er Ec) as S1. rewrite Hn in S1.
  match type of S1 with wstep _ _ _ _ ?w1 => set (w1' := w1) in * end.
  assert (Em : tasks w1' = <[id := set_currentStatus STARTING ts]> (tasks w)).
  { subst w1'. cbn [w_sys sys_agent assigned ag_stateMachine]. fold a in Hz. rewrite Hz, length_app, Nat.add_1_r. cbn [take].
    rewrite firstn_nil. unfold starting_all. cbn [foldl]. rewrite Hid. apply (updateTaskTo_known ToStarting id ts _ Hts). }
  pose proof (wruns_inv _ _ (rtc_once _ _ S1) Hi) as Hi1. destruct Hx as [x Hx].
  destruct (osd_wstep DP w1' (ts_executorId ts) (ts_slaveId ts) z [] x) as [x' S2]; [done|exact Hx|].
  assert (Hx1 : cx_myTaskId x = id).
  { assert (Hs1 : tasks w1' !! id = Some (set_currentStatus STARTING ts)) by (by rewrite Em, lookup_insert_eq).
    apply (to_serves _ _ _ _ (oi_tasks _ _ _ Hi1 _ _ Hs1)); [|exact Hx]. right. eexists. split; [by left|].
    split; [|done]. split; [done|]. split; [done|apply launch_data_not_register]. }
  rewrite Hx1 in S2. match type of S2 with wstep _ _ _ _ ?w2 => set (w2' := w2) in * end.
  destruct (run_up w2' id (set_currentStatus STARTING ts) (Some (lexical_to_string 1 +:+ "." +:+ lexical_to_string z)) [])
    as [w' R]; [done|done|apply statusUpdate_consumed|change (tasks w2') with (tasks w1'); by rewrite Em, lookup_insert_eq|by right|].
  exists w'. apply (ran_up_before _ _ _ _ _ _ (rtc_l _ _ _ _ S1 (rtc_once _ _ S2)) R).
  - exact Em.
  - done.
  - apply hosts_starting_all.
  - done.
  - intros t. cbn. by rewrite counters_set_pendingOSDID, counters_starting_all.
  - intros key. by apply insert_alive.
Qed.

(** An OSD that reports that it starts, while its id is asked for. *)
Lemma osd_up w id ts e s :
  world_inv w → w_net w = [PToExecutor e s (lexical_to_string 20); PReport (mkTaskStatus id TASK_STARTING None)] →
  tasks w !! id = Some ts → ts_taskType ts = OSD → ts_currentStatus ts = STAGING → ts_taskId ts = id →
  (∀ k ts', tasks w !! k = Some ts' → ts_currentStatus ts' ≠ WAITING_OSDID) →
  mon_at (tasks w) e s → is_Some (w_execs w !! (e, s)) →
  is_Some (w_execs w !! (ts_executorId ts, ts_slaveId ts)) → ∃ w', ran_up id ts w w'.
Proof using DP.
  intros Hi Hn Hts Ht Hq Hid Hw Hm [x Hx] He. set (ts1 := set_currentStatus WAITING_OSDID ts).
  destruct (register_wstep DP w e s [PReport (mkTaskStatus id TASK_STARTING None)] x) as (x' & d & z & Ez & S1);
    [by rewrite Hn|done|]. match type of S1 with wstep _ _ _ _ ?w1 => set (w1' := w1) in * end.
  pose proof (report_wstep w1' (mkTaskStatus id TASK_STARTING None) [PToScheduler e d] (updateTaskToWaitingOSDID id)) as S2.
  assert (Hs : smooth (machine w) (mkTaskStatus id TASK_STARTING None)).
  { split; [|done]. split.
    - intros u ts'. cbn. rewrite Hts. intros [= <-] [= <-]. by rewrite Hq.
    - intros _ ts'. cbn. rewrite Hts. by intros [= <-]. }
  specialize (S2 ltac:(done) Hs eq_refl). match type of S2 with wstep _ _ _ _ ?w2 => set (w2' := w2) in * end.
  destruct (updateTaskTo_known ToWaitingOSDID id ts _ Hts) as [Em _]. cbn [updateTaskTo update_status] in Em.
  assert (E2 : tasks w2' = <[id := ts1]> (tasks w)) by exact Em.
  assert (Hm2 : mon_at (tasks w2') e s) by (rewrite E2; by apply mon_at_status; [|rewrite Hq|]).
  apply mon_at_initial in Hm2 as [Ee _].
  pose proof (message_wstep w2' d z []) as S3. rewrite Ee in S3. specialize (S3 ltac:(done) Ez).
  match type of S3 with wstep _ _ _ _ ?w3 => set (w3' := w3) in * end.
  assert (E3 : tasks w3' = <[id := ts1]> (tasks w)) by exact Em.
  assert (R : wruns w w3') by (do 2 (eapply rtc_l; [eassumption|]); by apply rtc_once).
  assert (Hal : ∀ key, is_Some (w_execs w3' !! key) ↔ is_Some (w_execs w !! key)) by (intros key; by apply insert_alive; eexists).
  destruct (osd_assigned w3' id ts1 z (sm_pendingOSDID (machine w2'))) as [w' Ru]; try done.
  - by eapply wruns_inv.
  - by rewrite E3, lookup_insert_eq.
  - intros k ts'. rewrite E3, lookup_insert. case_decide; [done|]. intros Hk Hw'. by apply Hw in Hk.
  - by apply Hal.
  - exists w'. apply (ran_up_before _ _ _ _ _ _ R Ru); try done.
    + apply (hosts_updateTaskTo ToWaitingOSDID).
    + intros t. subst w3' w2' w1'. cbn. apply (updateTaskTo_index ToWaitingOSDID).
Qed.

(** ** Worlds at rest *)

(** No MON was ever launched, or the initial one runs and its executor is alive. *)
Definition mon_state (w : World) : Prop :=
  (index (sm_mon (machine w)) = 0 ∧ ∀ k ts, tasks w !! k = Some ts → ts_taskType ts ≠ MON) ∨
  ∃ e s, mon_at (tasks w) e s ∧ is_Some (w_execs w !! (e, s)).

Definition on_network (M : gmap string HostConfig) : Prop :=
  ∀ hc', M !! of_hostname offer = Some hc' → getMgmtDev hc' = getMgmtDev hc.

Record at_rest (w : World) : Prop := {
  re_calm : calm cfg offer (w_sys w);
  re_settled k : settled k (w_sys w);
  re_net : w_net w = [];
  re_inv : world_inv w;
  re_network : on_network (sm_hostConfigMap (machine w));
  re_execs e s : is_Some (w_execs w !! (e, s)) → ∃ k ts, tasks w !! k = Some ts ∧ ts_executorId ts = e;
  re_mon : mon_state w;
}.

Lemma on_network_op f : (∀ hc', getMgmtDev (f hc') = getMgmtDev hc') → host_op_ok on_network f.
Proof.
  intros Hf k M HM hc'. destruct (decide (k = of_hostname offer)) as [->|Hne].
  - rewrite lookup_alter_eq. intros (hc0 & E & ->)%fmap_Some. rewrite Hf. by apply HM.
  - rewrite lookup_alter_ne by done. apply HM.
Qed.

Lemma pop_osd_network : host_op_ok on_network (λ hc', (popOSDPartition hc').1).
Proof. apply on_network_op. intros hc'. unfold popOSDPartition. by case_match. Qed.
Lemma pop_jnl_network : host_op_ok on_network (λ hc', (popJournalPartition hc').1).
Proof. apply on_network_op. intros hc'. unfold popJournalPartition. by case_match. Qed.

Lemma offers_network offers : keeps (hosts_inv on_network) (resourceOffers flags env offers).
Proof using DP.
  apply hosts_resourceOffers; [apply pop_osd_network|apply pop_jnl_network|by apply on_network_op|].
  intros k hc' M E Hn HM hc''. rewrite lookup_insert. case_decide as Ek; [subst k; intros [= <-]|apply HM].
  rewrite (dp_config DP) in E. by injection E as <-.
Qed.

(** Only a MON has an id that starts with "mon0". *)
Lemma mon0_is_mon sm k ts : entry_named sm k ts → String.prefix "mon0" (ts_taskId ts) = true → ts_taskType ts = MON.
Proof. intros (Hid & tok & host & sl & stamp & E & _) Hp. rewrite Hid, E in Hp. by destruct (ts_taskType ts). Qed.

Lemma mon0_prefix host sl : String.prefix "mon0" (task_id MON 0 host sl) = true.
Proof. unfold task_id, createTaskName. by rewrite (lexical_small 0). Qed.

Lemma mon_state_running w : world_inv w → mon_state w → 1 ≤ num_running MON (machine w) →
  ∃ e s, mon_at (tasks w) e s ∧ is_Some (w_execs w !! (e, s)).
Proof.
  intros Hi [[_ Hn]|Hm] Hr; [|done]. exfalso. revert Hr. unfold num_running. rewrite count_map_zero; [lia|].
  intros k ts Hk. unfold running_task. rewrite bool_decide_false; [done|by eapply Hn].
Qed.

Lemma mon_state_none w : world_inv w → mon_state w → num_running MON (machine w) < 1 →
  index (sm_mon (machine w)) = 0 ∧ ∀ k ts, tasks w !! k = Some ts → ts_taskType ts ≠ MON.
Proof.
  intros Hi [?|(e & s & (k & ts & Hk & Hp & Hq & _) & _)] Hr; [done|]. exfalso.
  pose proof (mon0_is_mon _ _ _ (oi_named _ _ _ Hi _ _ Hk) Hp) as Ht.
  enough (0 < num_running MON (machine w)) by lia. apply (count_map_exists _ _ k ts Hk).
  unfold running_task. by rewrite Ht, Hq.
Qed.

(** The task of a round, once it is launched. *)
Lemma round_launched w t k :
  at_rest w → (getCurrentPhase (machine w) = WAINTING_REQUEST → ag_pendingOSD (sys_agent (w_sys w)) ≠ []) →
  (nextMove indet_TaskType indet_int (of_hostname offer) (machine w)).2 = (true, t, k) →
  ∃ w2 task,
    let id := ti_task_id task in
    let ts := mkTaskState id (task_executor task) t (of_hostname offer) (of_slave_id offer) STAGING in
    wruns w w2 ∧ calm cfg offer (w_sys w2) ∧ on_network (sm_hostConfigMap (machine w2)) ∧
    k = index (counters t (machine w)) ∧ ceph_task offer t k (is_initial t k (mkLocals indet_TaskType indet_int 0)) task ∧
    tasks w !! id = None ∧ tasks w2 = <[id := ts]> (tasks w) ∧
    (∀ u, index (counters u (machine w2)) = index (counters u (machine w)) + if decide (t = u) then 1 else 0) ∧
    ag_pendingOSD (sys_agent (w_sys w2)) = consumed (getCurrentPhase (machine w)) (sys_agent (w_sys w)) ∧
    (∀ key, is_Some (w_execs w2 !! key) ↔ key = (task_executor task, of_slave_id offer) ∨ is_Some (w_execs w !! key)) ∧
    w_net w2 = (register_calls t (is_initial t k (mkLocals indet_TaskType indet_int 0)) (machine w2) ≫= call_packets) ++
               [PReport (mkTaskStatus id (launched_state t) None)].
Proof using DP.
  intros Hre Hph Hm. destruct (launch_step flags env cfg offer (dp_adequate DP) (w_sys w) t k (re_calm _ Hre) (re_settled _ Hre) Hph Hm)
    as (a' & task & Er & Ht & Hl & He & Hk & Hn & _ & Hc). cbn zeta in *.
  pose proof (offers_wstep w [offer] a' _ ltac:(constructor; [apply (dp_slave DP)|constructor]) Er (eff_calls _ _ _ _ _ He)) as S1.
  rewrite (re_net _ Hre) in S1. match type of S1 with wstep _ _ _ _ ?w1 => set (w1' := w1) in * end.
  assert (Hfresh : w_execs w !! (task_executor task, ti_slave_id task) = None).
  { apply eq_None_not_Some. intros (k' & ts' & Hk' & Ee)%(re_execs _ Hre).
    destruct (ct_executor _ _ _ _ _ Ht) as [stamp Ex]. unfold task_executor in Ee. rewrite Ex, Hk in Ee.
    by apply (new_executor _ _ _ t stamp _ _ (re_inv _ Hre) Hk'). }
  assert (Hmgmt : getMgmtDev (host_config (of_hostname offer) (machine w)) = getMgmtDev hc).
  { destruct (ca_host _ _ _ (re_calm _ Hre)) as (hc' & E & _). unfold host_config, getConfig. rewrite E. cbn. rewrite E.
    by apply (re_network _ Hre). }
  destruct (launch_wstep DP w1' task t k _ _ (register_calls t (is_initial t k (mkLocals indet_TaskType indet_int 0)) (ag_stateMachine a') ≫= call_packets) Ht Hl Hmgmt)
    as [x' S2]; [done|exact Hfresh|].
  eexists _, task. cbn zeta. split; [eapply rtc_l; [exact S1|]; apply rtc_once, S2|].
  split_and!.
  - exact Hc.
  - eapply (keeps_Ret _ _ _ _ _ (offers_network [offer])); [|exact Er]. apply (re_network _ Hre).
  - exact Hk.
  - exact Ht.
  - exact Hn.
  - apply (launched_tasks _ _ _ _ _ _ _ _ _ He).
  - intros u. cbn. rewrite (core_counters _ _ (eff_core _ _ _ _ _ He)). unfold addStagingTask. autorewrite with sm.
    repeat case_decide; subst; cbn; try done; lia.
  - apply (eff_pending _ _ _ _ _ He).
  - intros key. cbn [w_execs]. rewrite lookup_insert. rewrite (ct_slave _ _ _ _ _ Ht).
    case_decide as Ek; [subst key; split; [by left|by eexists]|]. split; [by right|]. intros [->|?]; [done|done].
  - done.
Qed.

Lemma not_mon0 t k host sl : t ≠ MON → String.prefix "mon0" (task_id t k host sl) = false.
Proof. by destruct t. Qed.

(** The launched task comes to run, whatever its type. *)
Lemma round_up w t k w2 task :
  let id := ti_task_id task in
  let ts := mkTaskState id (task_executor task) t (of_hostname offer) (of_slave_id offer) STAGING in
  at_rest w → (num_running MON (machine w) < 1 ↔ t = MON) → wruns w w2 →
  k = index (counters t (machine w)) → ceph_task offer t k (is_initial t k (mkLocals indet_TaskType indet_int 0)) task →
  tasks w !! id = None → tasks w2 = <[id := ts]> (tasks w) →
  (∀ key, is_Some (w_execs w2 !! key) ↔ key = (task_executor task, of_slave_id offer) ∨ is_Some (w_execs w !! key)) →
  w_net w2 = (register_calls t (is_initial t k (mkLocals indet_TaskType indet_int 0)) (machine w2) ≫= call_packets) ++
             [PReport (mkTaskStatus id (launched_state t) None)] →
  ∃ w', ran_up id ts w2 w' ∧ mon_state w'.
Proof using DP.
  intros id ts Hre Hmon R Hk Ht Hn Em Hex Hnet.
  pose proof (wruns_inv _ _ R (re_inv _ Hre)) as Hi2. pose proof (ct_id _ _ _ _ _ Ht) as Hid. fold id in Hid.
  assert (Hts : tasks w2 !! id = Some ts) by (by rewrite Em, lookup_insert_eq).
  assert (Hkeep : ∀ w' e s, ran_up id ts w2 w' → t ≠ MON → mon_at (tasks w) e s → is_Some (w_execs w !! (e, s)) → mon_state w').
  { intros w' e s [_ _ T _ _ _ X] Hne Hma Hx. right. exists e, s. rewrite T, Em, insert_insert_eq, X, Hex. split; [|by right].
    apply mon_at_insert; [done| |done]. cbn. rewrite Hid. by apply not_mon0. }
  assert (Hrun : t ≠ OSD → ∃ w', ran_up id ts w2 w').
  { intros Hne. unfold register_calls, launched_state in Hnet. rewrite !bool_decide_false, andb_false_r in Hnet by done.
    apply (run_up w2 id ts None []); [by rewrite Hnet|done|done|done|by left]. }
  destruct (decide (t = MON)) as [->|Hne].
  - destruct Hrun as [w' Ru]; [done|]. exists w'. split; [done|]. right.
    destruct (mon_state_none w (re_inv _ Hre) (re_mon _ Hre)) as [H0i Hnone]; [by apply Hmon|].
    exists (task_executor task), (of_slave_id offer). destruct Ru as [_ _ T _ _ _ X]. split; [|apply X, Hex; by left].
    exists id, (set_currentStatus RUNNING ts). rewrite T, Em, insert_insert_eq, lookup_insert_eq.
    split_and!; [done| |done..|].
    { cbn. rewrite Hid, Hk. cbn [counters]. rewrite H0i. apply mon0_prefix. }
    intros k' ts'. rewrite lookup_insert. case_decide; [done|]. intros Hk' Hp'. exfalso.
    apply (Hnone _ _ Hk'), (mon0_is_mon _ _ _ (oi_named _ _ _ (re_inv _ Hre) _ _ Hk') Hp').
  - destruct (mon_state_running w (re_inv _ Hre) (re_mon _ Hre)) as (e & s & Hma & Hx).
    { destruct (Z.lt_ge_cases (num_running MON (machine w)) 1) as [Hlt|]; [by apply Hmon in Hlt|done]. }
    destruct (decide (t = OSD)) as [->|Hno].
    2: { destruct Hrun as [w' Ru]; [done|]. exists w'. split; [done|]. by eapply Hkeep. }
    assert (Hm2 : mon_at (tasks w2) e s).
    { rewrite Em. apply mon_at_insert; [done| |done]. cbn. rewrite Hid. by apply not_mon0. }
    destruct (mon_at_initial _ _ _ Hm2) as [Ee Es]. 
    assert (Erc : register_calls OSD (is_initial OSD k (mkLocals indet_TaskType indet_int 0)) (machine w2) =
      [sendFrameworkMessage e s (lexical_to_string 20)]) by (rewrite <- Ee, <- Es; reflexivity).
    rewrite Erc in Hnet.
    destruct (osd_up w2 id ts e s) as [w' Ru]; try done.
    + intros j tj. rewrite Em, lookup_insert. case_decide; [by intros [= <-]|]. intros Hj Hw.
      pose proof (re_settled _ Hre j tj Hj) as Hf. by rewrite Hw in Hf.
    + apply Hex. by right.
    + apply Hex. by left.
    + exists w'. split; [done|]. by eapply Hkeep.
Qed.

(** A round: one more task runs, and the world is at rest again. *)
Lemma world_round w :
  at_rest w → (getCurrentPhase (machine w) = WAINTING_REQUEST → ag_pendingOSD (sys_agent (w_sys w)) ≠ []) →
  ∃ w', wruns w w' ∧ at_rest w' ∧ (todo (w_sys w') < todo (w_sys w))%nat.
Proof using DP.
  intros Hre Hph. destruct (nextMove_settled offer indet_TaskType indet_int (w_sys w) (ca_orderly _ _ _ (re_calm _ Hre)) (ca_host _ _ _ (re_calm _ Hre)) (re_settled _ Hre))
    as (t & k & Hm & Hlt & Hmon).
  destruct (round_launched w t k Hre Hph Hm) as (w2 & task & R & Hc & Hnw & Hk & Ht & Hn & Em & _ & Hp & Hex & Hnet).
  set (id := ti_task_id task) in *. set (ts := mkTaskState id _ t _ _ STAGING) in *.
  destruct (round_up w t k w2 task) as (w' & Ru & Hms); try done. fold id ts in Ru.
  pose proof Ru as [R' N T Hh P _ X].
  assert (Et : tasks w' = <[id := set_currentStatus RUNNING ts]> (tasks w)) by (by rewrite T, Em, insert_insert_eq).
  assert (Rw : wruns w w') by (by etrans). exists w'. split; [done|]. split.
  - split.
    + eapply (calm_runs flags cfg offer (w_sys w2)); [apply (wsteps_steps _ _ _ _ _ R')| |done]. rewrite Hh. apply Hc.
    + intros j tj. rewrite Et, lookup_insert. destruct (decide (id = j)); [by intros [= <-]|apply (re_settled _ Hre)].
    + done.
    + by eapply wruns_inv, (re_inv _ Hre).
    + by rewrite Hh.
    + intros e s. rewrite X, Hex. intros [[= -> ->]|He].
      * exists id, (set_currentStatus RUNNING ts). by rewrite Et, lookup_insert_eq.
      * destruct (re_execs _ Hre _ _ He) as (j & tj & Hj & Ej). exists j, tj. rewrite Et, lookup_insert_ne; [done|congruence].
    + done.
  - apply (todo_less cfg offer (w_sys w) (w_sys w') t (re_calm _ Hre) Hph Hlt); [|by rewrite P].
    intros u. unfold num_running. rewrite Et, count_map_insert_new by done. f_equal. unfold running_task. cbn.
    by destruct t, u.
Qed.

(** Rounds until every request is served. *)
Lemma world_serves w : at_rest w → ∃ w', wruns w w' ∧ at_rest w' ∧ full_service (w_sys w) (w_sys w').
Proof using DP.
  intros Hre.
  assert (Hb : ∃ w', wruns w w' ∧ at_rest w' ∧ getCurrentPhase (machine w') = WAINTING_REQUEST ∧
                 ag_pendingOSD (sys_agent (w_sys w')) = []).
  { remember (todo (w_sys w)) as n eqn:En. revert w Hre En. induction (lt_wf n) as [n _ IH]. intros w Hre ->.
    destruct (decide (getCurrentPhase (machine w) = WAINTING_REQUEST ∧ ag_pendingOSD (sys_agent (w_sys w)) = [])) as [[Hw Hp]|Hw].
    - by exists w.
    - destruct (world_round w Hre) as (w1 & R1 & Hre1 & Hlt); [by intros Hph Hp; apply Hw|].
      destruct (IH _ Hlt w1 Hre1 eq_refl) as (w' & R' & Hre' & Hs). exists w'. split; [by etrans|done]. }
  destruct Hb as (w' & R & Hre' & Hph & Hp). exists w'. split; [done|]. split; [done|].
  eapply (settled_full_service flags); [apply (re_calm _ Hre)|exact (wsteps_steps _ _ _ _ _ R)|apply (re_calm _ Hre')|apply (re_settled _ Hre')|done..].
Qed.
End Rounds.

(** ** From the start to rest *)

Section Start.
Context (DP : deployment).

Lemma new_HostConfig_idle hc' k : new_HostConfig flags (env_files env) k = Ret hc' → hc_isPreparingDiskFlag hc' = false.
Proof. unfold new_HostConfig. destruct (get_config_by_hostname _ _ _); try done. by intros [= <-]. Qed.

Definition preparing_machine : StateMachine :=
  set_hostConfigMap (λ _, {[of_hostname offer := setDiskPreparationOnGoing hc]}) (new_StateMachine cfg).

(** The first offer. *)
Lemma disk_offered : let a := new_CephSchedulerAgent cfg in
  ∃ a' task, resourceOffers flags env [offer] a = (a', Ret tt) ∧ disk_task offer hc task ∧
    ag_calls a' = ag_calls a ++ [launchTasks (of_id offer) [task]; declineOffer (of_id offer) None] ∧
    ag_stateMachine a' = preparing_machine ∧ ag_pendingOSD a' = [].
Proof using DP.
  intros a. pose proof (dp_adequate DP) as AD.
  destruct (returns_resourceOffers flags env cfg (ad_env _ _ _ _ AD) [offer] ltac:(constructor; [apply AD|constructor]) a)
    as (a' & [] & E & _); [done|]. exists a'.
  assert (Ew : getWaitingOSDTask (ag_stateMachine a) = []).
  { apply elem_of_nil_inv. intros t (_ & k & Hk)%elem_of_waiting. done. }
  pose proof E as E'. unfold resourceOffers in E'. rewrite (bind_eq _ _ a a tt) in E'.
  2: { unfold handleWaitingOSDTasks. rewrite (bind_eq _ _ a a (getWaitingOSDTask (ag_stateMachine a))) by done. by rewrite Ew. }
  rewrite (bind_eq _ _ a a BOOTSTRAP_MON) in E' by done. cbn [foreach] in E'.
  apply bind_Ret in E' as (a3 & l3 & E' & Hret). apply mret_Ret in Hret as [-> _].
  apply bind_Ret in E' as (a4 & l4 & E' & Hret). apply mret_Ret in Hret as [-> _]. revert E'. unfold handle_offer.
  rewrite (bind_eq _ _ a a cfg) by done. rewrite (ad_role _ _ _ _ AD). cbn [negb].
  set (a1 := set_stateMachine (λ _, set_hostConfigMap <[of_hostname offer := hc]> (new_StateMachine cfg)) a).
  rewrite (bind_eq _ _ a a1 tt) by (unfold sm_try, addConfig; cbn; by rewrite (dp_config DP)).
  assert (Er : getConfig (of_hostname offer) (ag_stateMachine a1) = InMap (of_hostname offer))
    by (unfold getConfig; cbn; by rewrite lookup_insert_eq).
  assert (Ed : deref (getConfig (of_hostname offer) (ag_stateMachine a1)) (ag_stateMachine a1) = hc)
    by (rewrite Er; cbn; by rewrite lookup_insert_eq).
  intros (a2 & [] & Et & E')%bind_Ret. apply (tryLaunchDiskTask_launches flags env cfg offer AD) in Et as (task & Ht & Ec & Es & Ep);
    [|done|by rewrite Ed; eapply new_HostConfig_idle, (dp_config DP)|rewrite Ed; apply (dp_devices DP)].
  rewrite Ed in Ht. rewrite Er in Es.
  assert (Es' : ag_stateMachine a2 = preparing_machine).
  { rewrite Es. unfold preparing_machine. cbn [update_host ag_stateMachine set_stateMachine a1]. unfold set_hostConfigMap. cbn.
    by rewrite insert_empty, alter_singleton_eq. }
  exists task. revert E'. rewrite (bind_eq _ _ a2 a2 (false, indet_TaskType, indet_int)).
  2: { assert (En : nextMove indet_TaskType indet_int (of_hostname offer) preparing_machine =
                    (preparing_machine, (false, indet_TaskType, indet_int))).
       { unfold nextMove, getConfig. cbn. by rewrite lookup_singleton_eq; cbn; rewrite lookup_singleton_eq. }
       unfold sm_call. cbn [l_taskType l_token]. rewrite Es', En. rewrite <- Es'. by destruct a2. }
  cbn. intros [= <- _]. split_and!; [done|done| |done|done].
  cbn. by rewrite Ec.
Qed.

Lemma disk_prepared_config devs : getMgmtDev (setDiskPreparationDone (updateDiskPartition devs (getJnlPartitionCount (setDiskPreparationOnGoing hc))
    (setDiskPreparationOnGoing hc))) = getMgmtDev hc.
Proof.
  assert (Hf : ∀ {X} (f : HostConfig → X → HostConfig) l hc', (∀ hc x, hc_originalConfig (f hc x) = hc_originalConfig hc) →
    hc_originalConfig (foldl f hc' l) = hc_originalConfig hc').
  { intros X f l hc' Hf. revert hc'. induction l as [|x l IH]; intros hc'; [done|]. cbn [foldl]. by rewrite IH. }
  unfold getMgmtDev, setDiskPreparationDone, updateDiskPartition. cbn. rewrite !Hf; [done|..]; intros hc' x.
  - unfold update_osd. by case_match.
  - unfold update_jnl. case_match; [done|]. by rewrite Hf.
Qed.

(** The scheduler starts, the disks of the host are prepared, and the world is
    at rest. *)
Lemma start_rests : ∃ w, wruns (winitial cfg) w ∧ at_rest w ∧ ag_pendingOSD (sys_agent (w_sys w)) = [].
Proof using DP.
  destruct disk_offered as (a' & task & Er & Ht & Ec & Es & Ep).
  pose proof (offers_wstep (winitial cfg) [offer] a' _ ltac:(constructor; [apply (dp_slave DP)|constructor]) Er Ec) as S1.
  match type of S1 with wstep _ _ _ _ ?w1 => set (w1' := w1) in * end.
  pose proof (ad_name _ _ _ _ (dp_adequate DP)) as Hname.
  destruct (disk_run_healthy _ (dp_healthy DP) (of_hostname offer) hc task (dp_clean DP) (dp_parts DP) (dt_labels _ _ _ Ht) Hname)
    as (x' & f & Ed & Esent & Etold & Hf & Hne).
  set (st := mkTaskStatus (ti_task_id task) TASK_FINISHED (Some (disk_ready (of_hostname offer) f))).
  assert (S2 : wstep flags slave_host healthy_world w1' (mkWorld _ (w_sys w1') (w_execs w1') [PReport st])).
  { replace [PReport st] with ([] ++ effect_packets (task_executor task) (DiskExec.dx_trace x'))
      by (unfold effect_packets; by rewrite Esent, Etold).
    eapply (W_launch_disk flags slave_host healthy_world w1' h task [] x'); [done|done|apply Ht|].
    unfold disk_run. rewrite (dt_slave _ _ _ Ht), <- (dp_slave DP). exact Ed. }
  match type of S2 with wstep _ _ _ _ ?w2 => set (w2' := w2) in * end.
  pose proof Hname as [Hn1 Hn2]%andb_true_iff. pose proof Hf as [Hf1 Hf2]%andb_true_iff.
  assert (Et : tasks w2' = ∅) by (subst w2' w1'; cbn; by rewrite Es).
  pose proof (report_wstep w2' st [] (disk_prepared (of_hostname offer) []) ltac:(done)) as S3.
  assert (Hs : smooth (machine w2') st).
  { split; [|done]. split; [|done]. intros u ts. cbn. by rewrite Es. }
  specialize (S3 Hs (statusUpdate_disk_ready _ _ _ _ Hn1 Hn2 Hf1 Hf2 Hne)).
  match type of S3 with wstep _ _ _ _ ?w3 => set (w3' := w3) in * end.
  assert (R : wruns (winitial cfg) w3') by (do 2 (eapply rtc_l; [eassumption|]); by apply rtc_once).
  set (hc3 := setDiskPreparationDone (updateDiskPartition [] (getJnlPartitionCount (setDiskPreparationOnGoing hc)) (setDiskPreparationOnGoing hc))).
  assert (E3 : machine w3' = set_hostConfigMap (λ _, {[of_hostname offer := hc3]}) (new_StateMachine cfg)).
  { subst w3' w2' w1'. cbn [w_sys sys_agent ag_stateMachine set_stateMachine]. rewrite Es. unfold disk_prepared, getConfig. cbn.
    rewrite lookup_singleton_eq. cbn. unfold set_hostConfigMap. cbn. by rewrite !alter_singleton_eq. }
  exists w3'. split; [exact R|].
  assert (Hreg : regular flags cfg (w_sys w3')).
  { unfold regular. pose proof (wsteps_steps _ _ _ _ _ R) as R'. eapply rtc_subrel; [|exact R']. intros x y. apply smooth_regular. }
  destruct (regular_orderly_inv flags cfg _ Hreg) as [Ho Hw]. split; [|exact Ep].
  split.
  - split; [done|done|by eapply steps_config|]. rewrite E3. exists hc3. cbn. rewrite lookup_singleton_eq. done.
  - intros k ts. rewrite E3. done.
  - done.
  - eapply wruns_inv; [exact R|apply winitial_inv].
  - intros hc'. rewrite E3. cbn. rewrite lookup_singleton_eq. intros [= <-]. apply disk_prepared_config.
  - intros e s [x Hx]. done.
  - left. rewrite E3. by split.
Qed.

(** Requests that arrive at a world at rest leave it at rest. *)
Lemma rest_recorded w rs :
  at_rest w → Forall osd_request rs → ∃ w', wruns w w' ∧ at_rest w' ∧ w_sys w' = recorded rs (w_sys w).
Proof.
  intros Hre Hrs. revert w Hre. induction Hrs as [|r rs Hr _ IH]; intros w Hre.
  { exists w. by rewrite recorded_nil. }
  set (s1 := recorded [r] (w_sys w)). destruct Hr as [_ Hz _ Ha].
  assert (S1 : wstep flags slave_host healthy_world w (mkWorld _ s1 (w_execs w) (w_net w))).
  { pose proof (W_event flags slave_host healthy_world w (rq_body r) (rq_instances r) osd
      (ag_pendingOSD (sys_agent (w_sys w)) ++ [rq_instances r])) as Hs.
    rewrite (schedule_net w _ _ []), app_nil_r in Hs by (cbn; by rewrite app_nil_r).
    rewrite decide_True in Hs by done. unfold s1, recorded, total. cbn. rewrite Z.add_0_r. apply Hs.
    - by rewrite c_str_id.
    - by apply processData_request. }
  destruct (IH (mkWorld _ s1 (w_execs w) (w_net w))) as (w' & R & Hre' & Es).
  { destruct Hre as [Hc H1r H2r H3r H4r H5r H6r]. split; [|done..].
    eapply (calm_runs flags cfg offer (w_sys w)); [|apply Hc|done].
    exact (wsteps_steps _ _ _ _ _ (rtc_once _ _ S1)). }
  exists w'. split; [by eapply rtc_l|]. split; [done|]. rewrite Es. apply recorded_app.
Qed.
End Start.
End Deployment.

(** ** Properties *)

Section Properties.
Context `{LexicalCast, Yaml, Indeterminate, HashOrder, MesosResources, JsonCpp}.
Context (flags : Flags) (slave_host : string → string) (env : Env) (cfg : Config) (offer : Offer).
Context (h : Host) (hc : HostConfig).

Notation world_runs := (rtc (wstep flags slave_host (healthy_world env h))).

(** C5. The deployment serves.  With adequate offers from one slave whose host
    is healthy, the scheduler, its executors and the packets between them go
    from the start, or from any world at rest in which the initial MON runs (or
    no MON was ever launched), to a world at rest; requests for OSDs are recorded
    there; and a run leads on to a world at rest with full service, where the OSDs
    that ran, three at least, run, and besides these all that were pending or are
    asked for now.  In that run the
    disk executor prepares the devices, every task is launched by a new executor
    on the host, every OSD gets its id from the initial MON's executor, every
    report is the executors' own, and nothing is left in transit. *)
Theorem deployment_serves (w : World) (rs : list Request) :
  deployment flags slave_host env cfg offer h hc → Forall osd_request rs →
  w = winitial cfg ∨ at_rest cfg offer hc w →
  ∃ w1 w2, world_runs w w1 ∧ at_rest cfg offer hc w1 ∧
    ag_pendingOSD (sys_agent (w_sys w1)) = ag_pendingOSD (sys_agent (w_sys w)) ++ (rq_instances <$> rs) ∧
    world_runs w1 w2 ∧ at_rest cfg offer hc w2 ∧ full_service (w_sys w1) (w_sys w2) ∧
    promised (w_sys w) + total (rq_instances <$> rs) ≤ num_running OSD (ag_stateMachine (sys_agent (w_sys w2))).
Proof.
  intros DP Hrs Hw.
  assert (H0w : ∃ w0, world_runs w w0 ∧ at_rest cfg offer hc w0 ∧ promised (w_sys w) ≤ promised (w_sys w0) ∧
                  ag_pendingOSD (sys_agent (w_sys w0)) = ag_pendingOSD (sys_agent (w_sys w))).
  { destruct Hw as [->|Hre]; [|by exists w].
    destruct (start_rests flags slave_host env cfg offer h hc DP) as (w0 & R & Hre & Ep). exists w0. split_and!; [done..| |done].
    eapply (runs_promised flags); [|exact (wsteps_steps _ _ _ _ _ R)].
    apply (orderly_orderly_inv flags cfg), rtc_refl. }
  destruct H0w as (w0 & R0 & Hre0 & HP0 & Ep0).
  destruct (rest_recorded flags slave_host env cfg offer h hc w0 rs Hre0 Hrs) as (w1 & R1 & Hre1 & Es1).
  destruct (world_serves flags slave_host env cfg offer h hc DP w1 Hre1) as (w2 & R2 & Hre2 & Hf).
  exists w1, w2. split_and!; [by etrans|done| |done..|].
  - rewrite Es1. cbn. by rewrite Ep0.
  - pose proof (fs_promised _ _ Hf) as HP. rewrite Es1, recorded_promised in HP. lia.
Qed.
End Properties.

#[local] Existing Instances DecimalCast.cast FlatYaml.yaml SomeValues.indet SomeOrder.order
  ScalarResources.resources ToyJson.json.

(** The host of [SampleWorld] is healthy. *)
Module SampleDeployment.
Definition offer : Offer := SampleRun.offer "o" "h1" "*" 4.
Definition hc : HostConfig :=
  match new_HostConfig default_Flags (env_files SampleWorld.env) "h1" with Ret hc => hc | _ => default_HostConfig sample_Config end.

Fixpoint last_char (s : string) : option ascii :=
  match s with
  | "" => None
  | String c s' => match last_char s' with None => Some c | r => r end
  end.

Lemma last_char_app s t c : last_char t = Some c → last_char (s +:+ t) = Some c.
Proof. intros Ht. induction s as [|d s IH]; [done|]. rewrite str_app_cons. cbn [last_char]. by rewrite IH. Qed.

Lemma answer_zero past cmd :
  cmd ≠ "echo ~" → cmd ≠ "hostname -I" → cmd ≠ "docker exec mon0 ceph osd create" → SampleWorld.answer past cmd = "0".
Proof. intros H1 H2 H3. unfold SampleWorld.answer. repeat (case_decide; [done|]). done. Qed.

Lemma host_healthy : healthy (h := SampleWorld.host) (getMgmtDev hc).
Proof.
  split.
  - intros past. discriminate.
  - intros past. left. cbn [host_popen SampleWorld.host]. by rewrite answer_zero.
  - intros past. cbn [host_popen SampleWorld.host]. by rewrite answer_zero.
  - intros past. vm_compute. reflexivity.
  - done.
  - intros past cmd c _. cbn [host_popen SampleWorld.host]. split; [|intros timeout]; rewrite answer_zero; try reflexivity;
      intros E; try discriminate E. assert (Hl : last_char (CephExec.mon_stat_cmd c timeout) = Some "?"%char)
      by (by repeat apply last_char_app). by rewrite E in Hl.
  - intros past. constructor; [|constructor]. eexists. vm_compute. reflexivity.
  - apply sample_numeric_host.
  - intros past dev pattern. exists 0. cbn [host_popen SampleWorld.host]. by rewrite answer_zero.
Qed.

Lemma deployed : deployment default_Flags SampleWorld.slave_host SampleWorld.env sample_Config offer SampleWorld.host hc.
Proof.
  split.
  - split; [|vm_compute; reflexivity| | |vm_compute; reflexivity].
    + split; [eexists; reflexivity|eexists; vm_compute; reflexivity|intros rs; eexists; reflexivity].
    + eexists _, _. split_and!; vm_compute; reflexivity.
    + eexists. vm_compute. reflexivity.
  - reflexivity.
  - vm_compute. reflexivity.
  - by apply (sample_clean_env "h1"); vm_compute.
  - vm_compute. discriminate.
  - vm_compute. discriminate.
  - apply host_healthy.
Qed.

Definition requests : list Request := [mkRequest ["osd:3"] 3; mkRequest ["os"; "d:2"] 2].
End SampleDeployment.

(** From the start, with two requests, for three OSDs and for two: eight run. *)
Lemma deployment_serves_witness :
  ∃ w, rtc (wstep default_Flags SampleWorld.slave_host (healthy_world SampleWorld.env SampleWorld.host)) (winitial sample_Config) w ∧
    at_rest sample_Config SampleDeployment.offer SampleDeployment.hc w ∧
    8 ≤ num_running OSD (ag_stateMachine (sys_agent (w_sys w))).
Proof.
  destruct (deployment_serves default_Flags SampleWorld.slave_host SampleWorld.env sample_Config SampleDeployment.offer
    SampleWorld.host SampleDeployment.hc (winitial sample_Config) SampleDeployment.requests SampleDeployment.deployed)
    as (w1 & w2 & R1 & _ & _ & R2 & Hre & _ & HP).
  - repeat constructor; try discriminate; try (vm_compute; reflexivity); [exists ("osd", 3)|exists ("osd", 2)];
      (split_and!; [vm_compute; reflexivity..|done|done|by left]).
  - by left.
  - exists w2. split; [etrans; [exact R1|exact R2]|]. split; [exact Hre|]. etrans; [|exact HP]. vm_compute. discriminate.
Defined.
